(** * The Steps grammar: generated lexer and parse tables, and their interpretation

    The repository ships the Steps front end as a table-driven parser
    ([src/parser.c]): a character-level lexing automaton ([ts_lex]), a
    keyword automaton ([ts_lex_keywords]), LR parse tables and the action
    list.  This development embeds those tables as they are written and
    interprets them the way the table format prescribes. *)

From Stdlib Require Import Arith NArith List Ascii String Bool Lia FMapPositive.

#[local] Set Warnings "-register-all".
#[local] Unset Elimination Schemes.
Import ListNotations.
Local Open Scope N_scope.
Local Open Scope bool_scope.

(** ** Symbols *)

Definition TSSymbol := N.
Definition TSStateId := N.

Definition STATE_COUNT : N := 151.
Definition LARGE_STATE_COUNT : N := 2.
Definition SYMBOL_COUNT : N := 144.
Definition TOKEN_COUNT : N := 87.

Definition ts_builtin_sym_end : TSSymbol := 0.
Definition sym_identifier : TSSymbol := 1.
Definition anon_sym_do_COLON : TSSymbol := 2.
Definition anon_sym_declare_COLON : TSSymbol := 3.
Definition anon_sym_note_COLON : TSSymbol := 4.
Definition sym_comment_content : TSSymbol := 5.
Definition anon_sym_noteblock_COLON : TSSymbol := 6.
Definition anon_sym_endnote : TSSymbol := 7.
Definition aux_sym_block_comment_content_token1 : TSSymbol := 8.
Definition aux_sym_block_comment_content_token2 : TSSymbol := 9.
Definition aux_sym_block_comment_content_token3 : TSSymbol := 10.
Definition aux_sym_block_comment_content_token4 : TSSymbol := 11.
Definition aux_sym_block_comment_content_token5 : TSSymbol := 12.
Definition aux_sym_block_comment_content_token6 : TSSymbol := 13.
Definition aux_sym_block_comment_content_token7 : TSSymbol := 14.
Definition aux_sym_block_comment_content_token8 : TSSymbol := 15.
Definition anon_sym_building_COLON : TSSymbol := 16.
Definition anon_sym_floor_COLON : TSSymbol := 17.
Definition anon_sym_step_COLON : TSSymbol := 18.
Definition anon_sym_riser_COLON : TSSymbol := 19.
Definition anon_sym_belongsto_COLON : TSSymbol := 20.
Definition anon_sym_expects_COLON : TSSymbol := 21.
Definition anon_sym_returns_COLON : TSSymbol := 22.
Definition anon_sym_COMMA : TSSymbol := 23.
Definition anon_sym_as : TSSymbol := 24.
Definition anon_sym_number : TSSymbol := 25.
Definition anon_sym_text : TSSymbol := 26.
Definition anon_sym_boolean : TSSymbol := 27.
Definition anon_sym_list : TSSymbol := 28.
Definition anon_sym_table : TSSymbol := 29.
Definition anon_sym_fixed : TSSymbol := 30.
Definition anon_sym_EQ : TSSymbol := 31.
Definition anon_sym_set : TSSymbol := 32.
Definition anon_sym_to : TSSymbol := 33.
Definition anon_sym_call : TSSymbol := 34.
Definition anon_sym_with : TSSymbol := 35.
Definition anon_sym_storingresultin : TSSymbol := 36.
Definition anon_sym_display : TSSymbol := 37.
Definition anon_sym_input : TSSymbol := 38.
Definition anon_sym_return : TSSymbol := 39.
Definition sym_exit_statement : TSSymbol := 40.
Definition anon_sym_if : TSSymbol := 41.
Definition anon_sym_otherwiseif : TSSymbol := 42.
Definition anon_sym_otherwise : TSSymbol := 43.
Definition anon_sym_repeat : TSSymbol := 44.
Definition anon_sym_times : TSSymbol := 45.
Definition anon_sym_foreach : TSSymbol := 46.
Definition anon_sym_in : TSSymbol := 47.
Definition anon_sym_while : TSSymbol := 48.
Definition anon_sym_attempt_COLON : TSSymbol := 49.
Definition anon_sym_ifunsuccessful_COLON : TSSymbol := 50.
Definition anon_sym_thencontinue_COLON : TSSymbol := 51.
Definition anon_sym_add : TSSymbol := 52.
Definition anon_sym_remove : TSSymbol := 53.
Definition anon_sym_from : TSSymbol := 54.
Definition sym_number : TSSymbol := 55.
Definition anon_sym_DQUOTE : TSSymbol := 56.
Definition aux_sym_string_content_token1 : TSSymbol := 57.
Definition sym_escape_sequence : TSSymbol := 58.
Definition anon_sym_true : TSSymbol := 59.
Definition anon_sym_false : TSSymbol := 60.
Definition sym_nothing : TSSymbol := 61.
Definition anon_sym_LBRACK : TSSymbol := 62.
Definition anon_sym_RBRACK : TSSymbol := 63.
Definition anon_sym_PLUS : TSSymbol := 64.
Definition anon_sym_DASH : TSSymbol := 65.
Definition anon_sym_STAR : TSSymbol := 66.
Definition anon_sym_SLASH : TSSymbol := 67.
Definition anon_sym_isequalto : TSSymbol := 68.
Definition anon_sym_equals : TSSymbol := 69.
Definition anon_sym_isnotequalto : TSSymbol := 70.
Definition anon_sym_islessthan : TSSymbol := 71.
Definition anon_sym_isgreaterthan : TSSymbol := 72.
Definition anon_sym_islessthanorequalto : TSSymbol := 73.
Definition anon_sym_isgreaterthanorequalto : TSSymbol := 74.
Definition anon_sym_and : TSSymbol := 75.
Definition anon_sym_or : TSSymbol := 76.
Definition anon_sym_addedto : TSSymbol := 77.
Definition anon_sym_contains : TSSymbol := 78.
Definition anon_sym_startswith : TSSymbol := 79.
Definition anon_sym_endswith : TSSymbol := 80.
Definition anon_sym_isin : TSSymbol := 81.
Definition anon_sym_not : TSSymbol := 82.
Definition anon_sym_lengthof : TSSymbol := 83.
Definition anon_sym_LPAREN : TSSymbol := 84.
Definition anon_sym_RPAREN : TSSymbol := 85.
Definition sym__newline : TSSymbol := 86.
Definition sym_source_file : TSSymbol := 87.
Definition sym__statement : TSSymbol := 88.
Definition sym_section_marker : TSSymbol := 89.
Definition sym_comment : TSSymbol := 90.
Definition sym_block_comment : TSSymbol := 91.
Definition sym_block_comment_content : TSSymbol := 92.
Definition sym_structure_definition : TSSymbol := 93.
Definition sym_building_def : TSSymbol := 94.
Definition sym_floor_def : TSSymbol := 95.
Definition sym_step_def : TSSymbol := 96.
Definition sym_riser_def : TSSymbol := 97.
Definition sym_step_clauses : TSSymbol := 98.
Definition sym_belongs_clause : TSSymbol := 99.
Definition sym_expects_clause : TSSymbol := 100.
Definition sym_returns_clause : TSSymbol := 101.
Definition sym_parameter_list : TSSymbol := 102.
Definition sym_parameter : TSSymbol := 103.
Definition sym_type : TSSymbol := 104.
Definition sym_declaration : TSSymbol := 105.
Definition sym_assignment : TSSymbol := 106.
Definition sym_call_statement : TSSymbol := 107.
Definition sym_with_clause : TSSymbol := 108.
Definition sym_storing_clause : TSSymbol := 109.
Definition sym_argument_list : TSSymbol := 110.
Definition sym_display_statement : TSSymbol := 111.
Definition sym_input_statement : TSSymbol := 112.
Definition sym_return_statement : TSSymbol := 113.
Definition sym_if_statement : TSSymbol := 114.
Definition sym_otherwise_if_clause : TSSymbol := 115.
Definition sym_otherwise_clause : TSSymbol := 116.
Definition sym_repeat_statement : TSSymbol := 117.
Definition sym_for_each_statement : TSSymbol := 118.
Definition sym_while_statement : TSSymbol := 119.
Definition sym_attempt_statement : TSSymbol := 120.
Definition sym_if_unsuccessful_clause : TSSymbol := 121.
Definition sym_then_continue_clause : TSSymbol := 122.
Definition sym_add_statement : TSSymbol := 123.
Definition sym_remove_statement : TSSymbol := 124.
Definition sym__expression : TSSymbol := 125.
Definition sym_string : TSSymbol := 126.
Definition sym_string_content : TSSymbol := 127.
Definition sym_boolean : TSSymbol := 128.
Definition sym_list_literal : TSSymbol := 129.
Definition sym_binary_expression : TSSymbol := 130.
Definition sym_binary_operator : TSSymbol := 131.
Definition sym_unary_expression : TSSymbol := 132.
Definition sym_unary_operator : TSSymbol := 133.
Definition sym_call_expression : TSSymbol := 134.
Definition sym_index_expression : TSSymbol := 135.
Definition sym_parenthesized_expression : TSSymbol := 136.
Definition aux_sym_source_file_repeat1 : TSSymbol := 137.
Definition aux_sym_block_comment_content_repeat1 : TSSymbol := 138.
Definition aux_sym_step_clauses_repeat1 : TSSymbol := 139.
Definition aux_sym_parameter_list_repeat1 : TSSymbol := 140.
Definition aux_sym_argument_list_repeat1 : TSSymbol := 141.
Definition aux_sym_if_statement_repeat1 : TSSymbol := 142.
Definition aux_sym_string_content_repeat1 : TSSymbol := 143.

(** ** Symbol names *)

Definition ts_symbol_names (symbol : TSSymbol) : string :=
  (match symbol with
  | 0 (* ts_builtin_sym_end *) => "end"
  | 1 (* sym_identifier *) => "identifier"
  | 2 (* anon_sym_do_COLON *) => "do:"
  | 3 (* anon_sym_declare_COLON *) => "declare:"
  | 4 (* anon_sym_note_COLON *) => "note:"
  | 5 (* sym_comment_content *) => "comment_content"
  | 6 (* anon_sym_noteblock_COLON *) => "note block:"
  | 7 (* anon_sym_endnote *) => "end note"
  | 8 (* aux_sym_block_comment_content_token1 *) => "block_comment_content_token1"
  | 9 (* aux_sym_block_comment_content_token2 *) => "block_comment_content_token2"
  | 10 (* aux_sym_block_comment_content_token3 *) => "block_comment_content_token3"
  | 11 (* aux_sym_block_comment_content_token4 *) => "block_comment_content_token4"
  | 12 (* aux_sym_block_comment_content_token5 *) => "block_comment_content_token5"
  | 13 (* aux_sym_block_comment_content_token6 *) => "block_comment_content_token6"
  | 14 (* aux_sym_block_comment_content_token7 *) => "block_comment_content_token7"
  | 15 (* aux_sym_block_comment_content_token8 *) => "block_comment_content_token8"
  | 16 (* anon_sym_building_COLON *) => "building:"
  | 17 (* anon_sym_floor_COLON *) => "floor:"
  | 18 (* anon_sym_step_COLON *) => "step:"
  | 19 (* anon_sym_riser_COLON *) => "riser:"
  | 20 (* anon_sym_belongsto_COLON *) => "belongs to:"
  | 21 (* anon_sym_expects_COLON *) => "expects:"
  | 22 (* anon_sym_returns_COLON *) => "returns:"
  | 23 (* anon_sym_COMMA *) => ","
  | 24 (* anon_sym_as *) => "as"
  | 25 (* anon_sym_number *) => "number"
  | 26 (* anon_sym_text *) => "text"
  | 27 (* anon_sym_boolean *) => "boolean"
  | 28 (* anon_sym_list *) => "list"
  | 29 (* anon_sym_table *) => "table"
  | 30 (* anon_sym_fixed *) => "fixed"
  | 31 (* anon_sym_EQ *) => "="
  | 32 (* anon_sym_set *) => "set"
  | 33 (* anon_sym_to *) => "to"
  | 34 (* anon_sym_call *) => "call"
  | 35 (* anon_sym_with *) => "with"
  | 36 (* anon_sym_storingresultin *) => "storing result in"
  | 37 (* anon_sym_display *) => "display"
  | 38 (* anon_sym_input *) => "input"
  | 39 (* anon_sym_return *) => "return"
  | 40 (* sym_exit_statement *) => "exit_statement"
  | 41 (* anon_sym_if *) => "if"
  | 42 (* anon_sym_otherwiseif *) => "otherwise if"
  | 43 (* anon_sym_otherwise *) => "otherwise"
  | 44 (* anon_sym_repeat *) => "repeat"
  | 45 (* anon_sym_times *) => "times"
  | 46 (* anon_sym_foreach *) => "for each"
  | 47 (* anon_sym_in *) => "in"
  | 48 (* anon_sym_while *) => "while"
  | 49 (* anon_sym_attempt_COLON *) => "attempt:"
  | 50 (* anon_sym_ifunsuccessful_COLON *) => "if unsuccessful:"
  | 51 (* anon_sym_thencontinue_COLON *) => "then continue:"
  | 52 (* anon_sym_add *) => "add"
  | 53 (* anon_sym_remove *) => "remove"
  | 54 (* anon_sym_from *) => "from"
  | 55 (* sym_number *) => "number"
  | 56 (* anon_sym_DQUOTE *) => String (ascii_of_N 34) EmptyString
  | 57 (* aux_sym_string_content_token1 *) => "string_content_token1"
  | 58 (* sym_escape_sequence *) => "escape_sequence"
  | 59 (* anon_sym_true *) => "true"
  | 60 (* anon_sym_false *) => "false"
  | 61 (* sym_nothing *) => "nothing"
  | 62 (* anon_sym_LBRACK *) => "["
  | 63 (* anon_sym_RBRACK *) => "]"
  | 64 (* anon_sym_PLUS *) => "+"
  | 65 (* anon_sym_DASH *) => "-"
  | 66 (* anon_sym_STAR *) => "*"
  | 67 (* anon_sym_SLASH *) => "/"
  | 68 (* anon_sym_isequalto *) => "is equal to"
  | 69 (* anon_sym_equals *) => "equals"
  | 70 (* anon_sym_isnotequalto *) => "is not equal to"
  | 71 (* anon_sym_islessthan *) => "is less than"
  | 72 (* anon_sym_isgreaterthan *) => "is greater than"
  | 73 (* anon_sym_islessthanorequalto *) => "is less than or equal to"
  | 74 (* anon_sym_isgreaterthanorequalto *) => "is greater than or equal to"
  | 75 (* anon_sym_and *) => "and"
  | 76 (* anon_sym_or *) => "or"
  | 77 (* anon_sym_addedto *) => "added to"
  | 78 (* anon_sym_contains *) => "contains"
  | 79 (* anon_sym_startswith *) => "starts with"
  | 80 (* anon_sym_endswith *) => "ends with"
  | 81 (* anon_sym_isin *) => "is in"
  | 82 (* anon_sym_not *) => "not"
  | 83 (* anon_sym_lengthof *) => "length of"
  | 84 (* anon_sym_LPAREN *) => "("
  | 85 (* anon_sym_RPAREN *) => ")"
  | 86 (* sym__newline *) => "_newline"
  | 87 (* sym_source_file *) => "source_file"
  | 88 (* sym__statement *) => "_statement"
  | 89 (* sym_section_marker *) => "section_marker"
  | 90 (* sym_comment *) => "comment"
  | 91 (* sym_block_comment *) => "block_comment"
  | 92 (* sym_block_comment_content *) => "block_comment_content"
  | 93 (* sym_structure_definition *) => "structure_definition"
  | 94 (* sym_building_def *) => "building_def"
  | 95 (* sym_floor_def *) => "floor_def"
  | 96 (* sym_step_def *) => "step_def"
  | 97 (* sym_riser_def *) => "riser_def"
  | 98 (* sym_step_clauses *) => "step_clauses"
  | 99 (* sym_belongs_clause *) => "belongs_clause"
  | 100 (* sym_expects_clause *) => "expects_clause"
  | 101 (* sym_returns_clause *) => "returns_clause"
  | 102 (* sym_parameter_list *) => "parameter_list"
  | 103 (* sym_parameter *) => "parameter"
  | 104 (* sym_type *) => "type"
  | 105 (* sym_declaration *) => "declaration"
  | 106 (* sym_assignment *) => "assignment"
  | 107 (* sym_call_statement *) => "call_statement"
  | 108 (* sym_with_clause *) => "with_clause"
  | 109 (* sym_storing_clause *) => "storing_clause"
  | 110 (* sym_argument_list *) => "argument_list"
  | 111 (* sym_display_statement *) => "display_statement"
  | 112 (* sym_input_statement *) => "input_statement"
  | 113 (* sym_return_statement *) => "return_statement"
  | 114 (* sym_if_statement *) => "if_statement"
  | 115 (* sym_otherwise_if_clause *) => "otherwise_if_clause"
  | 116 (* sym_otherwise_clause *) => "otherwise_clause"
  | 117 (* sym_repeat_statement *) => "repeat_statement"
  | 118 (* sym_for_each_statement *) => "for_each_statement"
  | 119 (* sym_while_statement *) => "while_statement"
  | 120 (* sym_attempt_statement *) => "attempt_statement"
  | 121 (* sym_if_unsuccessful_clause *) => "if_unsuccessful_clause"
  | 122 (* sym_then_continue_clause *) => "then_continue_clause"
  | 123 (* sym_add_statement *) => "add_statement"
  | 124 (* sym_remove_statement *) => "remove_statement"
  | 125 (* sym__expression *) => "_expression"
  | 126 (* sym_string *) => "string"
  | 127 (* sym_string_content *) => "string_content"
  | 128 (* sym_boolean *) => "boolean"
  | 129 (* sym_list_literal *) => "list_literal"
  | 130 (* sym_binary_expression *) => "binary_expression"
  | 131 (* sym_binary_operator *) => "binary_operator"
  | 132 (* sym_unary_expression *) => "unary_expression"
  | 133 (* sym_unary_operator *) => "unary_operator"
  | 134 (* sym_call_expression *) => "call_expression"
  | 135 (* sym_index_expression *) => "index_expression"
  | 136 (* sym_parenthesized_expression *) => "parenthesized_expression"
  | 137 (* aux_sym_source_file_repeat1 *) => "source_file_repeat1"
  | 138 (* aux_sym_block_comment_content_repeat1 *) => "block_comment_content_repeat1"
  | 139 (* aux_sym_step_clauses_repeat1 *) => "step_clauses_repeat1"
  | 140 (* aux_sym_parameter_list_repeat1 *) => "parameter_list_repeat1"
  | 141 (* aux_sym_argument_list_repeat1 *) => "argument_list_repeat1"
  | 142 (* aux_sym_if_statement_repeat1 *) => "if_statement_repeat1"
  | 143 (* aux_sym_string_content_repeat1 *) => "string_content_repeat1"
  | _ => EmptyString
  end)%string.

(** ** Symbol metadata *)

Record TSSymbolMetadata := { visible : bool; named : bool }.

Definition ts_symbol_metadata (symbol : TSSymbol) : TSSymbolMetadata :=
  match symbol with
  | 0 (* ts_builtin_sym_end *) => {| visible := false; named := true |}
  | 1 (* sym_identifier *) => {| visible := true; named := true |}
  | 2 (* anon_sym_do_COLON *) => {| visible := true; named := false |}
  | 3 (* anon_sym_declare_COLON *) => {| visible := true; named := false |}
  | 4 (* anon_sym_note_COLON *) => {| visible := true; named := false |}
  | 5 (* sym_comment_content *) => {| visible := true; named := true |}
  | 6 (* anon_sym_noteblock_COLON *) => {| visible := true; named := false |}
  | 7 (* anon_sym_endnote *) => {| visible := true; named := false |}
  | 8 (* aux_sym_block_comment_content_token1 *) => {| visible := false; named := false |}
  | 9 (* aux_sym_block_comment_content_token2 *) => {| visible := false; named := false |}
  | 10 (* aux_sym_block_comment_content_token3 *) => {| visible := false; named := false |}
  | 11 (* aux_sym_block_comment_content_token4 *) => {| visible := false; named := false |}
  | 12 (* aux_sym_block_comment_content_token5 *) => {| visible := false; named := false |}
  | 13 (* aux_sym_block_comment_content_token6 *) => {| visible := false; named := false |}
  | 14 (* aux_sym_block_comment_content_token7 *) => {| visible := false; named := false |}
  | 15 (* aux_sym_block_comment_content_token8 *) => {| visible := false; named := false |}
  | 16 (* anon_sym_building_COLON *) => {| visible := true; named := false |}
  | 17 (* anon_sym_floor_COLON *) => {| visible := true; named := false |}
  | 18 (* anon_sym_step_COLON *) => {| visible := true; named := false |}
  | 19 (* anon_sym_riser_COLON *) => {| visible := true; named := false |}
  | 20 (* anon_sym_belongsto_COLON *) => {| visible := true; named := false |}
  | 21 (* anon_sym_expects_COLON *) => {| visible := true; named := false |}
  | 22 (* anon_sym_returns_COLON *) => {| visible := true; named := false |}
  | 23 (* anon_sym_COMMA *) => {| visible := true; named := false |}
  | 24 (* anon_sym_as *) => {| visible := true; named := false |}
  | 25 (* anon_sym_number *) => {| visible := true; named := false |}
  | 26 (* anon_sym_text *) => {| visible := true; named := false |}
  | 27 (* anon_sym_boolean *) => {| visible := true; named := false |}
  | 28 (* anon_sym_list *) => {| visible := true; named := false |}
  | 29 (* anon_sym_table *) => {| visible := true; named := false |}
  | 30 (* anon_sym_fixed *) => {| visible := true; named := false |}
  | 31 (* anon_sym_EQ *) => {| visible := true; named := false |}
  | 32 (* anon_sym_set *) => {| visible := true; named := false |}
  | 33 (* anon_sym_to *) => {| visible := true; named := false |}
  | 34 (* anon_sym_call *) => {| visible := true; named := false |}
  | 35 (* anon_sym_with *) => {| visible := true; named := false |}
  | 36 (* anon_sym_storingresultin *) => {| visible := true; named := false |}
  | 37 (* anon_sym_display *) => {| visible := true; named := false |}
  | 38 (* anon_sym_input *) => {| visible := true; named := false |}
  | 39 (* anon_sym_return *) => {| visible := true; named := false |}
  | 40 (* sym_exit_statement *) => {| visible := true; named := true |}
  | 41 (* anon_sym_if *) => {| visible := true; named := false |}
  | 42 (* anon_sym_otherwiseif *) => {| visible := true; named := false |}
  | 43 (* anon_sym_otherwise *) => {| visible := true; named := false |}
  | 44 (* anon_sym_repeat *) => {| visible := true; named := false |}
  | 45 (* anon_sym_times *) => {| visible := true; named := false |}
  | 46 (* anon_sym_foreach *) => {| visible := true; named := false |}
  | 47 (* anon_sym_in *) => {| visible := true; named := false |}
  | 48 (* anon_sym_while *) => {| visible := true; named := false |}
  | 49 (* anon_sym_attempt_COLON *) => {| visible := true; named := false |}
  | 50 (* anon_sym_ifunsuccessful_COLON *) => {| visible := true; named := false |}
  | 51 (* anon_sym_thencontinue_COLON *) => {| visible := true; named := false |}
  | 52 (* anon_sym_add *) => {| visible := true; named := false |}
  | 53 (* anon_sym_remove *) => {| visible := true; named := false |}
  | 54 (* anon_sym_from *) => {| visible := true; named := false |}
  | 55 (* sym_number *) => {| visible := true; named := true |}
  | 56 (* anon_sym_DQUOTE *) => {| visible := true; named := false |}
  | 57 (* aux_sym_string_content_token1 *) => {| visible := false; named := false |}
  | 58 (* sym_escape_sequence *) => {| visible := true; named := true |}
  | 59 (* anon_sym_true *) => {| visible := true; named := false |}
  | 60 (* anon_sym_false *) => {| visible := true; named := false |}
  | 61 (* sym_nothing *) => {| visible := true; named := true |}
  | 62 (* anon_sym_LBRACK *) => {| visible := true; named := false |}
  | 63 (* anon_sym_RBRACK *) => {| visible := true; named := false |}
  | 64 (* anon_sym_PLUS *) => {| visible := true; named := false |}
  | 65 (* anon_sym_DASH *) => {| visible := true; named := false |}
  | 66 (* anon_sym_STAR *) => {| visible := true; named := false |}
  | 67 (* anon_sym_SLASH *) => {| visible := true; named := false |}
  | 68 (* anon_sym_isequalto *) => {| visible := true; named := false |}
  | 69 (* anon_sym_equals *) => {| visible := true; named := false |}
  | 70 (* anon_sym_isnotequalto *) => {| visible := true; named := false |}
  | 71 (* anon_sym_islessthan *) => {| visible := true; named := false |}
  | 72 (* anon_sym_isgreaterthan *) => {| visible := true; named := false |}
  | 73 (* anon_sym_islessthanorequalto *) => {| visible := true; named := false |}
  | 74 (* anon_sym_isgreaterthanorequalto *) => {| visible := true; named := false |}
  | 75 (* anon_sym_and *) => {| visible := true; named := false |}
  | 76 (* anon_sym_or *) => {| visible := true; named := false |}
  | 77 (* anon_sym_addedto *) => {| visible := true; named := false |}
  | 78 (* anon_sym_contains *) => {| visible := true; named := false |}
  | 79 (* anon_sym_startswith *) => {| visible := true; named := false |}
  | 80 (* anon_sym_endswith *) => {| visible := true; named := false |}
  | 81 (* anon_sym_isin *) => {| visible := true; named := false |}
  | 82 (* anon_sym_not *) => {| visible := true; named := false |}
  | 83 (* anon_sym_lengthof *) => {| visible := true; named := false |}
  | 84 (* anon_sym_LPAREN *) => {| visible := true; named := false |}
  | 85 (* anon_sym_RPAREN *) => {| visible := true; named := false |}
  | 86 (* sym__newline *) => {| visible := false; named := true |}
  | 87 (* sym_source_file *) => {| visible := true; named := true |}
  | 88 (* sym__statement *) => {| visible := false; named := true |}
  | 89 (* sym_section_marker *) => {| visible := true; named := true |}
  | 90 (* sym_comment *) => {| visible := true; named := true |}
  | 91 (* sym_block_comment *) => {| visible := true; named := true |}
  | 92 (* sym_block_comment_content *) => {| visible := true; named := true |}
  | 93 (* sym_structure_definition *) => {| visible := true; named := true |}
  | 94 (* sym_building_def *) => {| visible := true; named := true |}
  | 95 (* sym_floor_def *) => {| visible := true; named := true |}
  | 96 (* sym_step_def *) => {| visible := true; named := true |}
  | 97 (* sym_riser_def *) => {| visible := true; named := true |}
  | 98 (* sym_step_clauses *) => {| visible := true; named := true |}
  | 99 (* sym_belongs_clause *) => {| visible := true; named := true |}
  | 100 (* sym_expects_clause *) => {| visible := true; named := true |}
  | 101 (* sym_returns_clause *) => {| visible := true; named := true |}
  | 102 (* sym_parameter_list *) => {| visible := true; named := true |}
  | 103 (* sym_parameter *) => {| visible := true; named := true |}
  | 104 (* sym_type *) => {| visible := true; named := true |}
  | 105 (* sym_declaration *) => {| visible := true; named := true |}
  | 106 (* sym_assignment *) => {| visible := true; named := true |}
  | 107 (* sym_call_statement *) => {| visible := true; named := true |}
  | 108 (* sym_with_clause *) => {| visible := true; named := true |}
  | 109 (* sym_storing_clause *) => {| visible := true; named := true |}
  | 110 (* sym_argument_list *) => {| visible := true; named := true |}
  | 111 (* sym_display_statement *) => {| visible := true; named := true |}
  | 112 (* sym_input_statement *) => {| visible := true; named := true |}
  | 113 (* sym_return_statement *) => {| visible := true; named := true |}
  | 114 (* sym_if_statement *) => {| visible := true; named := true |}
  | 115 (* sym_otherwise_if_clause *) => {| visible := true; named := true |}
  | 116 (* sym_otherwise_clause *) => {| visible := true; named := true |}
  | 117 (* sym_repeat_statement *) => {| visible := true; named := true |}
  | 118 (* sym_for_each_statement *) => {| visible := true; named := true |}
  | 119 (* sym_while_statement *) => {| visible := true; named := true |}
  | 120 (* sym_attempt_statement *) => {| visible := true; named := true |}
  | 121 (* sym_if_unsuccessful_clause *) => {| visible := true; named := true |}
  | 122 (* sym_then_continue_clause *) => {| visible := true; named := true |}
  | 123 (* sym_add_statement *) => {| visible := true; named := true |}
  | 124 (* sym_remove_statement *) => {| visible := true; named := true |}
  | 125 (* sym__expression *) => {| visible := false; named := true |}
  | 126 (* sym_string *) => {| visible := true; named := true |}
  | 127 (* sym_string_content *) => {| visible := true; named := true |}
  | 128 (* sym_boolean *) => {| visible := true; named := true |}
  | 129 (* sym_list_literal *) => {| visible := true; named := true |}
  | 130 (* sym_binary_expression *) => {| visible := true; named := true |}
  | 131 (* sym_binary_operator *) => {| visible := true; named := true |}
  | 132 (* sym_unary_expression *) => {| visible := true; named := true |}
  | 133 (* sym_unary_operator *) => {| visible := true; named := true |}
  | 134 (* sym_call_expression *) => {| visible := true; named := true |}
  | 135 (* sym_index_expression *) => {| visible := true; named := true |}
  | 136 (* sym_parenthesized_expression *) => {| visible := true; named := true |}
  | 137 (* aux_sym_source_file_repeat1 *) => {| visible := false; named := false |}
  | 138 (* aux_sym_block_comment_content_repeat1 *) => {| visible := false; named := false |}
  | 139 (* aux_sym_step_clauses_repeat1 *) => {| visible := false; named := false |}
  | 140 (* aux_sym_parameter_list_repeat1 *) => {| visible := false; named := false |}
  | 141 (* aux_sym_argument_list_repeat1 *) => {| visible := false; named := false |}
  | 142 (* aux_sym_if_statement_repeat1 *) => {| visible := false; named := false |}
  | 143 (* aux_sym_string_content_repeat1 *) => {| visible := false; named := false |}
  | _ => {| visible := false; named := false |}
  end.

(** ** The lexing automata

    A [case] of the generated [switch] optionally accepts a token
    ([ACCEPT_TOKEN]) and then tests the lookahead character: [ADVANCE]
    consumes it into the token, [SKIP] consumes it as leading blank,
    [END_STATE] stops.  [None] is the [default: return false] branch. *)

Inductive lex_step :=
| ADVANCE (state : TSStateId)
| SKIP (state : TSStateId)
| END_STATE.

Definition lex_case : Type := option TSSymbol * lex_step.

Definition ACCEPT_TOKEN (symbol : TSSymbol) (k : lex_step) : option lex_case :=
  Some (Some symbol, k).
Definition NO_TOKEN (k : lex_step) : option lex_case := Some (None, k).

(** Code point of a character constant. *)
Definition chr (a : ascii) : N := N_of_ascii a.

Definition ts_lex (state : TSStateId) (eof : bool) (lookahead : N) : option lex_case :=
  match state with
  | 0 => NO_TOKEN (
      if eof then ADVANCE 267 else
      if (lookahead =? 10) then ADVANCE 611 else
      if (lookahead =? 34) then ADVANCE 441 else
      if (lookahead =? chr "(") then ADVANCE 462 else
      if (lookahead =? chr ")") then ADVANCE 463 else
      if (lookahead =? chr "*") then ADVANCE 449 else
      if (lookahead =? chr "+") then ADVANCE 447 else
      if (lookahead =? chr ",") then ADVANCE 389 else
      if (lookahead =? chr "-") then ADVANCE 448 else
      if (lookahead =? chr "/") then ADVANCE 450 else
      if (lookahead =? chr "=") then ADVANCE 390 else
      if (lookahead =? chr "[") then ADVANCE 445 else
      if (lookahead =? chr "\") then ADVANCE 253 else
      if (lookahead =? chr "]") then ADVANCE 446 else
      if (lookahead =? chr "a") then ADVANCE 493 else
      if (lookahead =? chr "b") then ADVANCE 503 else
      if (lookahead =? chr "c") then ADVANCE 485 else
      if (lookahead =? chr "d") then ADVANCE 504 else
      if (lookahead =? chr "e") then ADVANCE 554 else
      if (lookahead =? chr "f") then ADVANCE 545 else
      if (lookahead =? chr "i") then ADVANCE 526 else
      if (lookahead =? chr "l") then ADVANCE 505 else
      if (lookahead =? chr "n") then ADVANCE 565 else
      if (lookahead =? chr "o") then ADVANCE 595 else
      if (lookahead =? chr "r") then ADVANCE 506 else
      if (lookahead =? chr "s") then ADVANCE 518 else
      if (lookahead =? chr "t") then ADVANCE 535 else
      if (lookahead =? chr "w") then ADVANCE 536 else
      if (lookahead =? 9) || (lookahead =? chr " ") then SKIP 0 else
      if ((chr "A" <=? lookahead) && (lookahead <=? chr "Z")) || (lookahead =? chr "_") || ((chr "g" <=? lookahead) && (lookahead <=? chr "z")) then ADVANCE 610 else
      END_STATE)
  | 1 => NO_TOKEN (
      if (lookahead =? chr " ") then ADVANCE 3 else
      if negb (lookahead =? 0) then ADVANCE 371 else
      END_STATE)
  | 2 => NO_TOKEN (
      if (lookahead =? chr " ") then ADVANCE 61 else
      END_STATE)
  | 3 => NO_TOKEN (
      if (lookahead =? chr " ") then ADVANCE 141 else
      if (lookahead =? chr "n") then ADVANCE 167 else
      END_STATE)
  | 4 => NO_TOKEN (
      if (lookahead =? chr " ") then ADVANCE 47 else
      if (lookahead =? chr ":") then ADVANCE 272 else
      END_STATE)
  | 5 => NO_TOKEN (
      if (lookahead =? chr " ") then ADVANCE 50 else
      END_STATE)
  | 6 => NO_TOKEN (
      if (lookahead =? chr " ") then ADVANCE 183 else
      END_STATE)
  | 7 => NO_TOKEN (
      if (lookahead =? chr " ") then ADVANCE 89 else
      END_STATE)
  | 8 => NO_TOKEN (
      if (lookahead =? chr " ") then ADVANCE 217 else
      END_STATE)
  | 9 => NO_TOKEN (
      if (lookahead =? chr " ") then ADVANCE 155 else
      END_STATE)
  | 10 => NO_TOKEN (
      if (lookahead =? chr " ") then ADVANCE 221 else
      END_STATE)
  | 11 => NO_TOKEN (
      if (lookahead =? chr " ") then ADVANCE 112 else
      END_STATE)
  | 12 => NO_TOKEN (
      if (lookahead =? chr " ") then ADVANCE 222 else
      END_STATE)
  | 13 => NO_TOKEN (
      if (lookahead =? chr " ") then ADVANCE 225 else
      END_STATE)
  | 14 => NO_TOKEN (
      if (lookahead =? chr " ") then ADVANCE 228 else
      END_STATE)
  | 15 => NO_TOKEN (
      if (lookahead =? chr " ") then ADVANCE 229 else
      END_STATE)
  | 16 => NO_TOKEN (
      if (lookahead =? chr " ") then ADVANCE 231 else
      END_STATE)
  | 17 => NO_TOKEN (
      if (lookahead =? chr " ") then ADVANCE 90 else
      END_STATE)
  | 18 => NO_TOKEN (
      if (lookahead =? chr " ") then ADVANCE 91 else
      END_STATE)
  | 19 => NO_TOKEN (
      if (lookahead =? 34) then ADVANCE 441 else
      if (lookahead =? chr "(") then ADVANCE 462 else
      if (lookahead =? chr "-") then ADVANCE 254 else
      if (lookahead =? chr "[") then ADVANCE 445 else
      if (lookahead =? chr "]") then ADVANCE 446 else
      if (lookahead =? chr "c") then ADVANCE 485 else
      if (lookahead =? chr "l") then ADVANCE 505 else
      if (lookahead =? 9) || (lookahead =? chr " ") then SKIP 19 else
      if ((chr "0" <=? lookahead) && (lookahead <=? chr "9")) then ADVANCE 439 else
      if ((chr "A" <=? lookahead) && (lookahead <=? chr "Z")) || (lookahead =? chr "_") || ((chr "a" <=? lookahead) && (lookahead <=? chr "z")) then ADVANCE 610 else
      END_STATE)
  | 20 => NO_TOKEN (
      if (lookahead =? 34) then ADVANCE 441 else
      if (lookahead =? chr "\") then ADVANCE 253 else
      if (lookahead =? 9) || (lookahead =? chr " ") then ADVANCE 442 else
      if negb (lookahead =? 0) then ADVANCE 443 else
      END_STATE)
  | 21 => NO_TOKEN (
      if (lookahead =? chr ")") then ADVANCE 463 else
      if (lookahead =? chr "*") then ADVANCE 449 else
      if (lookahead =? chr "+") then ADVANCE 447 else
      if (lookahead =? chr "-") then ADVANCE 448 else
      if (lookahead =? chr "/") then ADVANCE 450 else
      if (lookahead =? chr "[") then ADVANCE 445 else
      if (lookahead =? chr "]") then ADVANCE 446 else
      if (lookahead =? chr "a") then ADVANCE 499 else
      if (lookahead =? chr "e") then ADVANCE 562 else
      if (lookahead =? chr "i") then ADVANCE 582 else
      if (lookahead =? chr "s") then ADVANCE 601 else
      if (lookahead =? 9) || (lookahead =? chr " ") then SKIP 21 else
      if ((chr "A" <=? lookahead) && (lookahead <=? chr "Z")) || (lookahead =? chr "_") || ((chr "b" <=? lookahead) && (lookahead <=? chr "z")) then ADVANCE 610 else
      END_STATE)
  | 22 => NO_TOKEN (
      if (lookahead =? chr ":") then ADVANCE 268 else
      END_STATE)
  | 23 => NO_TOKEN (
      if (lookahead =? chr ":") then ADVANCE 382 else
      END_STATE)
  | 24 => NO_TOKEN (
      if (lookahead =? chr ":") then ADVANCE 380 else
      END_STATE)
  | 25 => NO_TOKEN (
      if (lookahead =? chr ":") then ADVANCE 384 else
      END_STATE)
  | 26 => NO_TOKEN (
      if (lookahead =? chr ":") then ADVANCE 428 else
      END_STATE)
  | 27 => NO_TOKEN (
      if (lookahead =? chr ":") then ADVANCE 270 else
      END_STATE)
  | 28 => NO_TOKEN (
      if (lookahead =? chr ":") then ADVANCE 387 else
      END_STATE)
  | 29 => NO_TOKEN (
      if (lookahead =? chr ":") then ADVANCE 388 else
      END_STATE)
  | 30 => NO_TOKEN (
      if (lookahead =? chr ":") then ADVANCE 378 else
      END_STATE)
  | 31 => NO_TOKEN (
      if (lookahead =? chr ":") then ADVANCE 386 else
      END_STATE)
  | 32 => NO_TOKEN (
      if (lookahead =? chr ":") then ADVANCE 361 else
      END_STATE)
  | 33 => NO_TOKEN (
      if (lookahead =? chr ":") then ADVANCE 431 else
      END_STATE)
  | 34 => NO_TOKEN (
      if (lookahead =? chr ":") then ADVANCE 430 else
      END_STATE)
  | 35 => NO_TOKEN (
      if (lookahead =? chr "a") then ADVANCE 251 else
      END_STATE)
  | 36 => NO_TOKEN (
      if (lookahead =? chr "a") then ADVANCE 48 else
      END_STATE)
  | 37 => NO_TOKEN (
      if (lookahead =? chr "a") then ADVANCE 122 else
      END_STATE)
  | 38 => NO_TOKEN (
      if (lookahead =? chr "a") then ADVANCE 142 else
      END_STATE)
  | 39 => NO_TOKEN (
      if (lookahead =? chr "a") then ADVANCE 220 else
      END_STATE)
  | 40 => NO_TOKEN (
      if (lookahead =? chr "a") then ADVANCE 128 else
      END_STATE)
  | 41 => NO_TOKEN (
      if (lookahead =? chr "a") then ADVANCE 143 else
      END_STATE)
  | 42 => NO_TOKEN (
      if (lookahead =? chr "a") then ADVANCE 212 else
      END_STATE)
  | 43 => NO_TOKEN (
      if (lookahead =? chr "a") then ADVANCE 189 else
      END_STATE)
  | 44 => NO_TOKEN (
      if (lookahead =? chr "a") then ADVANCE 133 else
      END_STATE)
  | 45 => NO_TOKEN (
      if (lookahead =? chr "a") then ADVANCE 134 else
      END_STATE)
  | 46 => NO_TOKEN (
      if (lookahead =? chr "a") then ADVANCE 135 else
      END_STATE)
  | 47 => NO_TOKEN (
      if (lookahead =? chr "b") then ADVANCE 125 else
      END_STATE)
  | 48 => NO_TOKEN (
      if (lookahead =? chr "c") then ADVANCE 100 else
      END_STATE)
  | 49 => NO_TOKEN (
      if (lookahead =? chr "c") then ADVANCE 120 else
      END_STATE)
  | 50 => NO_TOKEN (
      if (lookahead =? chr "c") then ADVANCE 166 else
      END_STATE)
  | 51 => NO_TOKEN (
      if (lookahead =? chr "c") then ADVANCE 54 else
      END_STATE)
  | 52 => NO_TOKEN (
      if (lookahead =? chr "c") then ADVANCE 126 else
      END_STATE)
  | 53 => NO_TOKEN (
      if (lookahead =? chr "c") then ADVANCE 223 else
      END_STATE)
  | 54 => NO_TOKEN (
      if (lookahead =? chr "c") then ADVANCE 85 else
      END_STATE)
  | 55 => NO_TOKEN (
      if (lookahead =? chr "d") then ADVANCE 56 else
      if (lookahead =? chr "t") then ADVANCE 224 else
      END_STATE)
  | 56 => NO_TOKEN (
      if (lookahead =? chr "d") then ADVANCE 432 else
      END_STATE)
  | 57 => NO_TOKEN (
      if (lookahead =? chr "d") then ADVANCE 1 else
      if negb (lookahead =? 0) then ADVANCE 369 else
      END_STATE)
  | 58 => NO_TOKEN (
      if (lookahead =? chr "d") then ADVANCE 9 else
      END_STATE)
  | 59 => NO_TOKEN (
      if (lookahead =? chr "d") then ADVANCE 116 else
      END_STATE)
  | 60 => NO_TOKEN (
      if (lookahead =? chr "e") then ADVANCE 179 else
      if (lookahead =? chr "g") then ADVANCE 190 else
      if (lookahead =? chr "i") then ADVANCE 140 else
      if (lookahead =? chr "l") then ADVANCE 70 else
      if (lookahead =? chr "n") then ADVANCE 156 else
      END_STATE)
  | 61 => NO_TOKEN (
      if (lookahead =? chr "e") then ADVANCE 36 else
      END_STATE)
  | 62 => NO_TOKEN (
      if (lookahead =? chr "e") then ADVANCE 363 else
      END_STATE)
  | 63 => NO_TOKEN (
      if (lookahead =? chr "e") then ADVANCE 137 else
      if (lookahead =? chr "i") then ADVANCE 203 else
      END_STATE)
  | 64 => NO_TOKEN (
      if (lookahead =? chr "e") then ADVANCE 136 else
      END_STATE)
  | 65 => NO_TOKEN (
      if (lookahead =? chr "e") then ADVANCE 4 else
      END_STATE)
  | 66 => NO_TOKEN (
      if (lookahead =? chr "e") then ADVANCE 425 else
      END_STATE)
  | 67 => NO_TOKEN (
      if (lookahead =? chr "e") then ADVANCE 436 else
      END_STATE)
  | 68 => NO_TOKEN (
      if (lookahead =? chr "e") then ADVANCE 418 else
      END_STATE)
  | 69 => NO_TOKEN (
      if (lookahead =? chr "e") then ADVANCE 148 else
      if (lookahead =? 9) || (lookahead =? chr " ") then ADVANCE 364 else
      if negb (lookahead =? 0) then ADVANCE 365 else
      END_STATE)
  | 70 => NO_TOKEN (
      if (lookahead =? chr "e") then ADVANCE 199 else
      END_STATE)
  | 71 => NO_TOKEN (
      if (lookahead =? chr "e") then ADVANCE 193 else
      END_STATE)
  | 72 => NO_TOKEN (
      if (lookahead =? chr "e") then ADVANCE 39 else
      END_STATE)
  | 73 => NO_TOKEN (
      if (lookahead =? chr "e") then ADVANCE 33 else
      END_STATE)
  | 74 => NO_TOKEN (
      if (lookahead =? chr "e") then ADVANCE 175 else
      END_STATE)
  | 75 => NO_TOKEN (
      if (lookahead =? chr "e") then ADVANCE 175 else
      if (lookahead =? chr "o") then ADVANCE 192 else
      END_STATE)
  | 76 => NO_TOKEN (
      if (lookahead =? chr "e") then ADVANCE 52 else
      if (lookahead =? chr "i") then ADVANCE 197 else
      if (lookahead =? chr "o") then ADVANCE 22 else
      END_STATE)
  | 77 => NO_TOKEN (
      if (lookahead =? chr "e") then ADVANCE 53 else
      END_STATE)
  | 78 => NO_TOKEN (
      if (lookahead =? chr "e") then ADVANCE 154 else
      END_STATE)
  | 79 => NO_TOKEN (
      if (lookahead =? chr "e") then ADVANCE 191 else
      END_STATE)
  | 80 => NO_TOKEN (
      if (lookahead =? chr "e") then ADVANCE 27 else
      END_STATE)
  | 81 => NO_TOKEN (
      if (lookahead =? chr "e") then ADVANCE 209 else
      if (lookahead =? chr "t") then ADVANCE 75 else
      END_STATE)
  | 82 => NO_TOKEN (
      if (lookahead =? chr "e") then ADVANCE 209 else
      if (lookahead =? chr "t") then ADVANCE 74 else
      END_STATE)
  | 83 => NO_TOKEN (
      if (lookahead =? chr "e") then ADVANCE 201 else
      END_STATE)
  | 84 => NO_TOKEN (
      if (lookahead =? chr "e") then ADVANCE 132 else
      if (lookahead =? chr "u") then ADVANCE 111 else
      END_STATE)
  | 85 => NO_TOKEN (
      if (lookahead =? chr "e") then ADVANCE 202 else
      END_STATE)
  | 86 => NO_TOKEN (
      if (lookahead =? chr "e") then ADVANCE 42 else
      END_STATE)
  | 87 => NO_TOKEN (
      if (lookahead =? chr "e") then ADVANCE 186 else
      END_STATE)
  | 88 => NO_TOKEN (
      if (lookahead =? chr "e") then ADVANCE 138 else
      if (lookahead =? chr "i") then ADVANCE 203 else
      END_STATE)
  | 89 => NO_TOKEN (
      if (lookahead =? chr "e") then ADVANCE 180 else
      END_STATE)
  | 90 => NO_TOKEN (
      if (lookahead =? chr "e") then ADVANCE 181 else
      END_STATE)
  | 91 => NO_TOKEN (
      if (lookahead =? chr "e") then ADVANCE 182 else
      END_STATE)
  | 92 => NO_TOKEN (
      if (lookahead =? chr "f") then ADVANCE 461 else
      END_STATE)
  | 93 => NO_TOKEN (
      if (lookahead =? chr "f") then ADVANCE 417 else
      END_STATE)
  | 94 => NO_TOKEN (
      if (lookahead =? chr "f") then ADVANCE 412 else
      if (lookahead =? chr "n") then ADVANCE 176 else
      END_STATE)
  | 95 => NO_TOKEN (
      if (lookahead =? chr "f") then ADVANCE 413 else
      if (lookahead =? chr "n") then ADVANCE 176 else
      END_STATE)
  | 96 => NO_TOKEN (
      if (lookahead =? chr "f") then ADVANCE 237 else
      END_STATE)
  | 97 => NO_TOKEN (
      if (lookahead =? chr "g") then ADVANCE 206 else
      END_STATE)
  | 98 => NO_TOKEN (
      if (lookahead =? chr "g") then ADVANCE 6 else
      END_STATE)
  | 99 => NO_TOKEN (
      if (lookahead =? chr "g") then ADVANCE 30 else
      END_STATE)
  | 100 => NO_TOKEN (
      if (lookahead =? chr "h") then ADVANCE 423 else
      END_STATE)
  | 101 => NO_TOKEN (
      if (lookahead =? chr "h") then ADVANCE 459 else
      END_STATE)
  | 102 => NO_TOKEN (
      if (lookahead =? chr "h") then ADVANCE 458 else
      END_STATE)
  | 103 => NO_TOKEN (
      if (lookahead =? chr "h") then ADVANCE 38 else
      END_STATE)
  | 104 => NO_TOKEN (
      if (lookahead =? chr "h") then ADVANCE 78 else
      END_STATE)
  | 105 => NO_TOKEN (
      if (lookahead =? chr "h") then ADVANCE 79 else
      END_STATE)
  | 106 => NO_TOKEN (
      if (lookahead =? chr "h") then ADVANCE 41 else
      END_STATE)
  | 107 => NO_TOKEN (
      if (lookahead =? chr "h") then ADVANCE 114 else
      END_STATE)
  | 108 => NO_TOKEN (
      if (lookahead =? chr "i") then ADVANCE 93 else
      END_STATE)
  | 109 => NO_TOKEN (
      if (lookahead =? chr "i") then ADVANCE 152 else
      END_STATE)
  | 110 => NO_TOKEN (
      if (lookahead =? chr "i") then ADVANCE 214 else
      END_STATE)
  | 111 => NO_TOKEN (
      if (lookahead =? chr "i") then ADVANCE 123 else
      END_STATE)
  | 112 => NO_TOKEN (
      if (lookahead =? chr "i") then ADVANCE 144 else
      END_STATE)
  | 113 => NO_TOKEN (
      if (lookahead =? chr "i") then ADVANCE 219 else
      END_STATE)
  | 114 => NO_TOKEN (
      if (lookahead =? chr "i") then ADVANCE 130 else
      END_STATE)
  | 115 => NO_TOKEN (
      if (lookahead =? chr "i") then ADVANCE 146 else
      END_STATE)
  | 116 => NO_TOKEN (
      if (lookahead =? chr "i") then ADVANCE 150 else
      END_STATE)
  | 117 => NO_TOKEN (
      if (lookahead =? chr "i") then ADVANCE 210 else
      END_STATE)
  | 118 => NO_TOKEN (
      if (lookahead =? chr "i") then ADVANCE 210 else
      if (lookahead =? chr "p") then ADVANCE 77 else
      END_STATE)
  | 119 => NO_TOKEN (
      if (lookahead =? chr "i") then ADVANCE 205 else
      END_STATE)
  | 120 => NO_TOKEN (
      if (lookahead =? chr "k") then ADVANCE 32 else
      END_STATE)
  | 121 => NO_TOKEN (
      if (lookahead =? chr "l") then ADVANCE 394 else
      END_STATE)
  | 122 => NO_TOKEN (
      if (lookahead =? chr "l") then ADVANCE 12 else
      END_STATE)
  | 123 => NO_TOKEN (
      if (lookahead =? chr "l") then ADVANCE 59 else
      END_STATE)
  | 124 => NO_TOKEN (
      if (lookahead =? chr "l") then ADVANCE 34 else
      END_STATE)
  | 125 => NO_TOKEN (
      if (lookahead =? chr "l") then ADVANCE 169 else
      END_STATE)
  | 126 => NO_TOKEN (
      if (lookahead =? chr "l") then ADVANCE 43 else
      END_STATE)
  | 127 => NO_TOKEN (
      if (lookahead =? chr "l") then ADVANCE 35 else
      END_STATE)
  | 128 => NO_TOKEN (
      if (lookahead =? chr "l") then ADVANCE 121 else
      END_STATE)
  | 129 => NO_TOKEN (
      if (lookahead =? chr "l") then ADVANCE 173 else
      if (lookahead =? chr "o") then ADVANCE 184 else
      END_STATE)
  | 130 => NO_TOKEN (
      if (lookahead =? chr "l") then ADVANCE 66 else
      END_STATE)
  | 131 => NO_TOKEN (
      if (lookahead =? chr "l") then ADVANCE 218 else
      END_STATE)
  | 132 => NO_TOKEN (
      if (lookahead =? chr "l") then ADVANCE 172 else
      END_STATE)
  | 133 => NO_TOKEN (
      if (lookahead =? chr "l") then ADVANCE 13 else
      END_STATE)
  | 134 => NO_TOKEN (
      if (lookahead =? chr "l") then ADVANCE 14 else
      END_STATE)
  | 135 => NO_TOKEN (
      if (lookahead =? chr "l") then ADVANCE 15 else
      END_STATE)
  | 136 => NO_TOKEN (
      if (lookahead =? chr "m") then ADVANCE 178 else
      END_STATE)
  | 137 => NO_TOKEN (
      if (lookahead =? chr "m") then ADVANCE 165 else
      if (lookahead =? chr "p") then ADVANCE 86 else
      if (lookahead =? chr "t") then ADVANCE 239 else
      END_STATE)
  | 138 => NO_TOKEN (
      if (lookahead =? chr "m") then ADVANCE 165 else
      if (lookahead =? chr "p") then ADVANCE 86 else
      if (lookahead =? chr "t") then ADVANCE 241 else
      END_STATE)
  | 139 => NO_TOKEN (
      if (lookahead =? chr "n") then ADVANCE 198 else
      END_STATE)
  | 140 => NO_TOKEN (
      if (lookahead =? chr "n") then ADVANCE 460 else
      END_STATE)
  | 141 => NO_TOKEN (
      if (lookahead =? chr "n") then ADVANCE 157 else
      if negb (lookahead =? 0) then ADVANCE 374 else
      END_STATE)
  | 142 => NO_TOKEN (
      if (lookahead =? chr "n") then ADVANCE 453 else
      END_STATE)
  | 143 => NO_TOKEN (
      if (lookahead =? chr "n") then ADVANCE 454 else
      END_STATE)
  | 144 => NO_TOKEN (
      if (lookahead =? chr "n") then ADVANCE 397 else
      END_STATE)
  | 145 => NO_TOKEN (
      if (lookahead =? chr "n") then ADVANCE 404 else
      END_STATE)
  | 146 => NO_TOKEN (
      if (lookahead =? chr "n") then ADVANCE 98 else
      END_STATE)
  | 147 => NO_TOKEN (
      if (lookahead =? chr "n") then ADVANCE 406 else
      END_STATE)
  | 148 => NO_TOKEN (
      if (lookahead =? chr "n") then ADVANCE 57 else
      if negb (lookahead =? 0) then ADVANCE 366 else
      END_STATE)
  | 149 => NO_TOKEN (
      if (lookahead =? chr "n") then ADVANCE 58 else
      if (lookahead =? chr "x") then ADVANCE 117 else
      END_STATE)
  | 150 => NO_TOKEN (
      if (lookahead =? chr "n") then ADVANCE 99 else
      END_STATE)
  | 151 => NO_TOKEN (
      if (lookahead =? chr "n") then ADVANCE 97 else
      END_STATE)
  | 152 => NO_TOKEN (
      if (lookahead =? chr "n") then ADVANCE 238 else
      END_STATE)
  | 153 => NO_TOKEN (
      if (lookahead =? chr "n") then ADVANCE 213 else
      END_STATE)
  | 154 => NO_TOKEN (
      if (lookahead =? chr "n") then ADVANCE 5 else
      END_STATE)
  | 155 => NO_TOKEN (
      if (lookahead =? chr "n") then ADVANCE 167 else
      END_STATE)
  | 156 => NO_TOKEN (
      if (lookahead =? chr "o") then ADVANCE 207 else
      END_STATE)
  | 157 => NO_TOKEN (
      if (lookahead =? chr "o") then ADVANCE 208 else
      if negb (lookahead =? 0) then ADVANCE 375 else
      END_STATE)
  | 158 => NO_TOKEN (
      if (lookahead =? chr "o") then ADVANCE 457 else
      END_STATE)
  | 159 => NO_TOKEN (
      if (lookahead =? chr "o") then ADVANCE 92 else
      END_STATE)
  | 160 => NO_TOKEN (
      if (lookahead =? chr "o") then ADVANCE 31 else
      END_STATE)
  | 161 => NO_TOKEN (
      if (lookahead =? chr "o") then ADVANCE 451 else
      END_STATE)
  | 162 => NO_TOKEN (
      if (lookahead =? chr "o") then ADVANCE 452 else
      END_STATE)
  | 163 => NO_TOKEN (
      if (lookahead =? chr "o") then ADVANCE 455 else
      END_STATE)
  | 164 => NO_TOKEN (
      if (lookahead =? chr "o") then ADVANCE 456 else
      END_STATE)
  | 165 => NO_TOKEN (
      if (lookahead =? chr "o") then ADVANCE 245 else
      END_STATE)
  | 166 => NO_TOKEN (
      if (lookahead =? chr "o") then ADVANCE 153 else
      END_STATE)
  | 167 => NO_TOKEN (
      if (lookahead =? chr "o") then ADVANCE 215 else
      END_STATE)
  | 168 => NO_TOKEN (
      if (lookahead =? chr "o") then ADVANCE 194 else
      END_STATE)
  | 169 => NO_TOKEN (
      if (lookahead =? chr "o") then ADVANCE 49 else
      END_STATE)
  | 170 => NO_TOKEN (
      if (lookahead =? chr "o") then ADVANCE 185 else
      END_STATE)
  | 171 => NO_TOKEN (
      if (lookahead =? chr "o") then ADVANCE 227 else
      END_STATE)
  | 172 => NO_TOKEN (
      if (lookahead =? chr "o") then ADVANCE 151 else
      END_STATE)
  | 173 => NO_TOKEN (
      if (lookahead =? chr "o") then ADVANCE 170 else
      END_STATE)
  | 174 => NO_TOKEN (
      if (lookahead =? chr "o") then ADVANCE 195 else
      END_STATE)
  | 175 => NO_TOKEN (
      if (lookahead =? chr "p") then ADVANCE 23 else
      END_STATE)
  | 176 => NO_TOKEN (
      if (lookahead =? chr "p") then ADVANCE 240 else
      END_STATE)
  | 177 => NO_TOKEN (
      if (lookahead =? chr "p") then ADVANCE 127 else
      END_STATE)
  | 178 => NO_TOKEN (
      if (lookahead =? chr "p") then ADVANCE 226 else
      END_STATE)
  | 179 => NO_TOKEN (
      if (lookahead =? chr "q") then ADVANCE 233 else
      END_STATE)
  | 180 => NO_TOKEN (
      if (lookahead =? chr "q") then ADVANCE 242 else
      END_STATE)
  | 181 => NO_TOKEN (
      if (lookahead =? chr "q") then ADVANCE 243 else
      END_STATE)
  | 182 => NO_TOKEN (
      if (lookahead =? chr "q") then ADVANCE 244 else
      END_STATE)
  | 183 => NO_TOKEN (
      if (lookahead =? chr "r") then ADVANCE 83 else
      END_STATE)
  | 184 => NO_TOKEN (
      if (lookahead =? chr "r") then ADVANCE 2 else
      END_STATE)
  | 185 => NO_TOKEN (
      if (lookahead =? chr "r") then ADVANCE 24 else
      END_STATE)
  | 186 => NO_TOKEN (
      if (lookahead =? chr "r") then ADVANCE 25 else
      END_STATE)
  | 187 => NO_TOKEN (
      if (lookahead =? chr "r") then ADVANCE 145 else
      END_STATE)
  | 188 => NO_TOKEN (
      if (lookahead =? chr "r") then ADVANCE 147 else
      END_STATE)
  | 189 => NO_TOKEN (
      if (lookahead =? chr "r") then ADVANCE 80 else
      END_STATE)
  | 190 => NO_TOKEN (
      if (lookahead =? chr "r") then ADVANCE 72 else
      END_STATE)
  | 191 => NO_TOKEN (
      if (lookahead =? chr "r") then ADVANCE 247 else
      END_STATE)
  | 192 => NO_TOKEN (
      if (lookahead =? chr "r") then ADVANCE 115 else
      END_STATE)
  | 193 => NO_TOKEN (
      if (lookahead =? chr "r") then ADVANCE 16 else
      END_STATE)
  | 194 => NO_TOKEN (
      if (lookahead =? chr "r") then ADVANCE 17 else
      END_STATE)
  | 195 => NO_TOKEN (
      if (lookahead =? chr "r") then ADVANCE 18 else
      END_STATE)
  | 196 => NO_TOKEN (
      if (lookahead =? chr "s") then ADVANCE 8 else
      END_STATE)
  | 197 => NO_TOKEN (
      if (lookahead =? chr "s") then ADVANCE 177 else
      END_STATE)
  | 198 => NO_TOKEN (
      if (lookahead =? chr "s") then ADVANCE 234 else
      END_STATE)
  | 199 => NO_TOKEN (
      if (lookahead =? chr "s") then ADVANCE 196 else
      END_STATE)
  | 200 => NO_TOKEN (
      if (lookahead =? chr "s") then ADVANCE 96 else
      END_STATE)
  | 201 => NO_TOKEN (
      if (lookahead =? chr "s") then ADVANCE 235 else
      END_STATE)
  | 202 => NO_TOKEN (
      if (lookahead =? chr "s") then ADVANCE 200 else
      END_STATE)
  | 203 => NO_TOKEN (
      if (lookahead =? chr "s") then ADVANCE 87 else
      END_STATE)
  | 204 => NO_TOKEN (
      if (lookahead =? chr "s") then ADVANCE 28 else
      END_STATE)
  | 205 => NO_TOKEN (
      if (lookahead =? chr "s") then ADVANCE 68 else
      END_STATE)
  | 206 => NO_TOKEN (
      if (lookahead =? chr "s") then ADVANCE 10 else
      END_STATE)
  | 207 => NO_TOKEN (
      if (lookahead =? chr "t") then ADVANCE 7 else
      END_STATE)
  | 208 => NO_TOKEN (
      if (lookahead =? chr "t") then ADVANCE 256 else
      if negb (lookahead =? 0) then ADVANCE 376 else
      END_STATE)
  | 209 => NO_TOKEN (
      if (lookahead =? chr "t") then ADVANCE 391 else
      END_STATE)
  | 210 => NO_TOKEN (
      if (lookahead =? chr "t") then ADVANCE 409 else
      END_STATE)
  | 211 => NO_TOKEN (
      if (lookahead =? chr "t") then ADVANCE 401 else
      END_STATE)
  | 212 => NO_TOKEN (
      if (lookahead =? chr "t") then ADVANCE 420 else
      END_STATE)
  | 213 => NO_TOKEN (
      if (lookahead =? chr "t") then ADVANCE 109 else
      END_STATE)
  | 214 => NO_TOKEN (
      if (lookahead =? chr "t") then ADVANCE 101 else
      END_STATE)
  | 215 => NO_TOKEN (
      if (lookahead =? chr "t") then ADVANCE 62 else
      END_STATE)
  | 216 => NO_TOKEN (
      if (lookahead =? chr "t") then ADVANCE 158 else
      END_STATE)
  | 217 => NO_TOKEN (
      if (lookahead =? chr "t") then ADVANCE 103 else
      END_STATE)
  | 218 => NO_TOKEN (
      if (lookahead =? chr "t") then ADVANCE 11 else
      END_STATE)
  | 219 => NO_TOKEN (
      if (lookahead =? chr "t") then ADVANCE 102 else
      END_STATE)
  | 220 => NO_TOKEN (
      if (lookahead =? chr "t") then ADVANCE 71 else
      END_STATE)
  | 221 => NO_TOKEN (
      if (lookahead =? chr "t") then ADVANCE 160 else
      END_STATE)
  | 222 => NO_TOKEN (
      if (lookahead =? chr "t") then ADVANCE 161 else
      END_STATE)
  | 223 => NO_TOKEN (
      if (lookahead =? chr "t") then ADVANCE 204 else
      END_STATE)
  | 224 => NO_TOKEN (
      if (lookahead =? chr "t") then ADVANCE 64 else
      END_STATE)
  | 225 => NO_TOKEN (
      if (lookahead =? chr "t") then ADVANCE 162 else
      END_STATE)
  | 226 => NO_TOKEN (
      if (lookahead =? chr "t") then ADVANCE 26 else
      END_STATE)
  | 227 => NO_TOKEN (
      if (lookahead =? chr "t") then ADVANCE 65 else
      END_STATE)
  | 228 => NO_TOKEN (
      if (lookahead =? chr "t") then ADVANCE 163 else
      END_STATE)
  | 229 => NO_TOKEN (
      if (lookahead =? chr "t") then ADVANCE 164 else
      END_STATE)
  | 230 => NO_TOKEN (
      if (lookahead =? chr "t") then ADVANCE 105 else
      END_STATE)
  | 231 => NO_TOKEN (
      if (lookahead =? chr "t") then ADVANCE 106 else
      END_STATE)
  | 232 => NO_TOKEN (
      if (lookahead =? chr "u") then ADVANCE 139 else
      END_STATE)
  | 233 => NO_TOKEN (
      if (lookahead =? chr "u") then ADVANCE 37 else
      END_STATE)
  | 234 => NO_TOKEN (
      if (lookahead =? chr "u") then ADVANCE 51 else
      END_STATE)
  | 235 => NO_TOKEN (
      if (lookahead =? chr "u") then ADVANCE 131 else
      END_STATE)
  | 236 => NO_TOKEN (
      if (lookahead =? chr "u") then ADVANCE 111 else
      END_STATE)
  | 237 => NO_TOKEN (
      if (lookahead =? chr "u") then ADVANCE 124 else
      END_STATE)
  | 238 => NO_TOKEN (
      if (lookahead =? chr "u") then ADVANCE 73 else
      END_STATE)
  | 239 => NO_TOKEN (
      if (lookahead =? chr "u") then ADVANCE 187 else
      END_STATE)
  | 240 => NO_TOKEN (
      if (lookahead =? chr "u") then ADVANCE 211 else
      END_STATE)
  | 241 => NO_TOKEN (
      if (lookahead =? chr "u") then ADVANCE 188 else
      END_STATE)
  | 242 => NO_TOKEN (
      if (lookahead =? chr "u") then ADVANCE 44 else
      END_STATE)
  | 243 => NO_TOKEN (
      if (lookahead =? chr "u") then ADVANCE 45 else
      END_STATE)
  | 244 => NO_TOKEN (
      if (lookahead =? chr "u") then ADVANCE 46 else
      END_STATE)
  | 245 => NO_TOKEN (
      if (lookahead =? chr "v") then ADVANCE 67 else
      END_STATE)
  | 246 => NO_TOKEN (
      if (lookahead =? chr "w") then ADVANCE 110 else
      END_STATE)
  | 247 => NO_TOKEN (
      if (lookahead =? chr "w") then ADVANCE 119 else
      END_STATE)
  | 248 => NO_TOKEN (
      if (lookahead =? chr "w") then ADVANCE 113 else
      END_STATE)
  | 249 => NO_TOKEN (
      if (lookahead =? chr "x") then ADVANCE 118 else
      END_STATE)
  | 250 => NO_TOKEN (
      if (lookahead =? chr "x") then ADVANCE 117 else
      END_STATE)
  | 251 => NO_TOKEN (
      if (lookahead =? chr "y") then ADVANCE 398 else
      END_STATE)
  | 252 => NO_TOKEN (
      if (lookahead =? 9) || (lookahead =? chr " ") then SKIP 252 else
      if ((chr "A" <=? lookahead) && (lookahead <=? chr "Z")) || (lookahead =? chr "_") || ((chr "a" <=? lookahead) && (lookahead <=? chr "z")) then ADVANCE 610 else
      END_STATE)
  | 253 => NO_TOKEN (
      if (lookahead =? 34) || (lookahead =? chr "\") || (lookahead =? chr "n") || (lookahead =? chr "r") || (lookahead =? chr "t") then ADVANCE 444 else
      END_STATE)
  | 254 => NO_TOKEN (
      if ((chr "0" <=? lookahead) && (lookahead <=? chr "9")) then ADVANCE 439 else
      END_STATE)
  | 255 => NO_TOKEN (
      if ((chr "0" <=? lookahead) && (lookahead <=? chr "9")) then ADVANCE 440 else
      END_STATE)
  | 256 => NO_TOKEN (
      if negb (lookahead =? 0) && negb (lookahead =? chr "e") then ADVANCE 377 else
      END_STATE)
  | 257 => NO_TOKEN (
      if eof then ADVANCE 267 else
      if (lookahead =? 10) then ADVANCE 611 else
      if (lookahead =? 34) then ADVANCE 441 else
      if (lookahead =? chr "(") then ADVANCE 462 else
      if (lookahead =? chr "-") then ADVANCE 254 else
      if (lookahead =? chr "[") then ADVANCE 445 else
      if (lookahead =? chr "a") then ADVANCE 498 else
      if (lookahead =? chr "b") then ADVANCE 602 else
      if (lookahead =? chr "c") then ADVANCE 485 else
      if (lookahead =? chr "d") then ADVANCE 504 else
      if (lookahead =? chr "e") then ADVANCE 608 else
      if (lookahead =? chr "f") then ADVANCE 545 else
      if (lookahead =? chr "i") then ADVANCE 528 else
      if (lookahead =? chr "l") then ADVANCE 505 else
      if (lookahead =? chr "n") then ADVANCE 565 else
      if (lookahead =? chr "r") then ADVANCE 525 else
      if (lookahead =? chr "s") then ADVANCE 521 else
      if (lookahead =? chr "w") then ADVANCE 536 else
      if (lookahead =? 9) || (lookahead =? chr " ") then SKIP 257 else
      if ((chr "0" <=? lookahead) && (lookahead <=? chr "9")) then ADVANCE 439 else
      if ((chr "A" <=? lookahead) && (lookahead <=? chr "Z")) || (lookahead =? chr "_") || ((chr "g" <=? lookahead) && (lookahead <=? chr "z")) then ADVANCE 610 else
      END_STATE)
  | 258 => NO_TOKEN (
      if eof then ADVANCE 267 else
      if (lookahead =? 10) then ADVANCE 611 else
      if (lookahead =? chr ")") then ADVANCE 463 else
      if (lookahead =? chr "*") then ADVANCE 449 else
      if (lookahead =? chr "+") then ADVANCE 447 else
      if (lookahead =? chr ",") then ADVANCE 389 else
      if (lookahead =? chr "-") then ADVANCE 448 else
      if (lookahead =? chr "/") then ADVANCE 450 else
      if (lookahead =? chr "[") then ADVANCE 445 else
      if (lookahead =? chr "]") then ADVANCE 446 else
      if (lookahead =? chr "a") then ADVANCE 493 else
      if (lookahead =? chr "b") then ADVANCE 602 else
      if (lookahead =? chr "c") then ADVANCE 485 else
      if (lookahead =? chr "d") then ADVANCE 504 else
      if (lookahead =? chr "e") then ADVANCE 561 else
      if (lookahead =? chr "f") then ADVANCE 545 else
      if (lookahead =? chr "i") then ADVANCE 527 else
      if (lookahead =? chr "n") then ADVANCE 565 else
      if (lookahead =? chr "o") then ADVANCE 595 else
      if (lookahead =? chr "r") then ADVANCE 525 else
      if (lookahead =? chr "s") then ADVANCE 518 else
      if (lookahead =? chr "w") then ADVANCE 536 else
      if (lookahead =? 9) || (lookahead =? chr " ") then SKIP 258 else
      if ((chr "A" <=? lookahead) && (lookahead <=? chr "Z")) || (lookahead =? chr "_") || ((chr "g" <=? lookahead) && (lookahead <=? chr "z")) then ADVANCE 610 else
      END_STATE)
  | 259 => NO_TOKEN (
      if eof then ADVANCE 267 else
      if (lookahead =? 10) then ADVANCE 611 else
      if (lookahead =? chr ")") then ADVANCE 463 else
      if (lookahead =? chr "*") then ADVANCE 449 else
      if (lookahead =? chr "+") then ADVANCE 447 else
      if (lookahead =? chr ",") then ADVANCE 389 else
      if (lookahead =? chr "-") then ADVANCE 448 else
      if (lookahead =? chr "/") then ADVANCE 450 else
      if (lookahead =? chr "[") then ADVANCE 445 else
      if (lookahead =? chr "]") then ADVANCE 446 else
      if (lookahead =? chr "a") then ADVANCE 493 else
      if (lookahead =? chr "b") then ADVANCE 602 else
      if (lookahead =? chr "c") then ADVANCE 485 else
      if (lookahead =? chr "d") then ADVANCE 504 else
      if (lookahead =? chr "e") then ADVANCE 561 else
      if (lookahead =? chr "f") then ADVANCE 545 else
      if (lookahead =? chr "i") then ADVANCE 527 else
      if (lookahead =? chr "n") then ADVANCE 565 else
      if (lookahead =? chr "o") then ADVANCE 595 else
      if (lookahead =? chr "r") then ADVANCE 525 else
      if (lookahead =? chr "s") then ADVANCE 519 else
      if (lookahead =? chr "w") then ADVANCE 536 else
      if (lookahead =? 9) || (lookahead =? chr " ") then SKIP 259 else
      if ((chr "A" <=? lookahead) && (lookahead <=? chr "Z")) || (lookahead =? chr "_") || ((chr "g" <=? lookahead) && (lookahead <=? chr "z")) then ADVANCE 610 else
      END_STATE)
  | 260 => NO_TOKEN (
      if eof then ADVANCE 267 else
      if (lookahead =? 10) then ADVANCE 611 else
      if (lookahead =? chr "*") then ADVANCE 449 else
      if (lookahead =? chr "+") then ADVANCE 447 else
      if (lookahead =? chr ",") then ADVANCE 389 else
      if (lookahead =? chr "-") then ADVANCE 448 else
      if (lookahead =? chr "/") then ADVANCE 450 else
      if (lookahead =? chr "[") then ADVANCE 445 else
      if (lookahead =? chr "]") then ADVANCE 446 else
      if (lookahead =? chr "a") then ADVANCE 493 else
      if (lookahead =? chr "b") then ADVANCE 602 else
      if (lookahead =? chr "c") then ADVANCE 485 else
      if (lookahead =? chr "d") then ADVANCE 504 else
      if (lookahead =? chr "e") then ADVANCE 561 else
      if (lookahead =? chr "f") then ADVANCE 545 else
      if (lookahead =? chr "i") then ADVANCE 527 else
      if (lookahead =? chr "n") then ADVANCE 565 else
      if (lookahead =? chr "r") then ADVANCE 525 else
      if (lookahead =? chr "s") then ADVANCE 518 else
      if (lookahead =? chr "w") then ADVANCE 536 else
      if (lookahead =? 9) || (lookahead =? chr " ") then SKIP 260 else
      if ((chr "A" <=? lookahead) && (lookahead <=? chr "Z")) || (lookahead =? chr "_") || ((chr "g" <=? lookahead) && (lookahead <=? chr "z")) then ADVANCE 610 else
      END_STATE)
  | 261 => NO_TOKEN (
      if eof then ADVANCE 267 else
      if (lookahead =? 10) then ADVANCE 611 else
      if (lookahead =? chr "*") then ADVANCE 449 else
      if (lookahead =? chr "+") then ADVANCE 447 else
      if (lookahead =? chr "-") then ADVANCE 448 else
      if (lookahead =? chr "/") then ADVANCE 450 else
      if (lookahead =? chr "[") then ADVANCE 445 else
      if (lookahead =? chr "a") then ADVANCE 493 else
      if (lookahead =? chr "b") then ADVANCE 602 else
      if (lookahead =? chr "c") then ADVANCE 485 else
      if (lookahead =? chr "d") then ADVANCE 504 else
      if (lookahead =? chr "e") then ADVANCE 561 else
      if (lookahead =? chr "f") then ADVANCE 545 else
      if (lookahead =? chr "i") then ADVANCE 527 else
      if (lookahead =? chr "n") then ADVANCE 565 else
      if (lookahead =? chr "r") then ADVANCE 525 else
      if (lookahead =? chr "s") then ADVANCE 519 else
      if (lookahead =? chr "w") then ADVANCE 536 else
      if (lookahead =? 9) || (lookahead =? chr " ") then SKIP 261 else
      if ((chr "A" <=? lookahead) && (lookahead <=? chr "Z")) || (lookahead =? chr "_") || ((chr "g" <=? lookahead) && (lookahead <=? chr "z")) then ADVANCE 610 else
      END_STATE)
  | 262 => NO_TOKEN (
      if eof then ADVANCE 267 else
      if (lookahead =? 10) then ADVANCE 611 else
      if (lookahead =? chr ",") then ADVANCE 389 else
      if (lookahead =? chr "=") then ADVANCE 390 else
      if (lookahead =? chr "]") then ADVANCE 446 else
      if (lookahead =? chr "a") then ADVANCE 55 else
      if (lookahead =? chr "b") then ADVANCE 236 else
      if (lookahead =? chr "c") then ADVANCE 40 else
      if (lookahead =? chr "d") then ADVANCE 76 else
      if (lookahead =? chr "e") then ADVANCE 149 else
      if (lookahead =? chr "f") then ADVANCE 129 else
      if (lookahead =? chr "i") then ADVANCE 94 else
      if (lookahead =? chr "n") then ADVANCE 171 else
      if (lookahead =? chr "o") then ADVANCE 230 else
      if (lookahead =? chr "r") then ADVANCE 63 else
      if (lookahead =? chr "s") then ADVANCE 81 else
      if (lookahead =? chr "t") then ADVANCE 104 else
      if (lookahead =? chr "w") then ADVANCE 107 else
      if (lookahead =? 9) || (lookahead =? chr " ") then SKIP 262 else
      END_STATE)
  | 263 => NO_TOKEN (
      if eof then ADVANCE 267 else
      if (lookahead =? 10) then ADVANCE 611 else
      if (lookahead =? chr ",") then ADVANCE 389 else
      if (lookahead =? chr "a") then ADVANCE 55 else
      if (lookahead =? chr "b") then ADVANCE 84 else
      if (lookahead =? chr "c") then ADVANCE 40 else
      if (lookahead =? chr "d") then ADVANCE 76 else
      if (lookahead =? chr "e") then ADVANCE 249 else
      if (lookahead =? chr "f") then ADVANCE 129 else
      if (lookahead =? chr "i") then ADVANCE 94 else
      if (lookahead =? chr "n") then ADVANCE 171 else
      if (lookahead =? chr "r") then ADVANCE 88 else
      if (lookahead =? chr "s") then ADVANCE 82 else
      if (lookahead =? chr "w") then ADVANCE 107 else
      if (lookahead =? 9) || (lookahead =? chr " ") then SKIP 263 else
      END_STATE)
  | 264 => NO_TOKEN (
      if eof then ADVANCE 267 else
      if (lookahead =? 10) then ADVANCE 611 else
      if (lookahead =? chr "a") then ADVANCE 55 else
      if (lookahead =? chr "b") then ADVANCE 236 else
      if (lookahead =? chr "c") then ADVANCE 40 else
      if (lookahead =? chr "d") then ADVANCE 76 else
      if (lookahead =? chr "e") then ADVANCE 250 else
      if (lookahead =? chr "f") then ADVANCE 129 else
      if (lookahead =? chr "i") then ADVANCE 95 else
      if (lookahead =? chr "n") then ADVANCE 171 else
      if (lookahead =? chr "r") then ADVANCE 63 else
      if (lookahead =? chr "s") then ADVANCE 82 else
      if (lookahead =? chr "t") then ADVANCE 104 else
      if (lookahead =? chr "w") then ADVANCE 107 else
      if (lookahead =? 9) || (lookahead =? chr " ") then SKIP 264 else
      END_STATE)
  | 265 => NO_TOKEN (
      if eof then ADVANCE 267 else
      if (lookahead =? 10) then ADVANCE 611 else
      if (lookahead =? chr "a") then ADVANCE 498 else
      if (lookahead =? chr "b") then ADVANCE 602 else
      if (lookahead =? chr "c") then ADVANCE 485 else
      if (lookahead =? chr "d") then ADVANCE 504 else
      if (lookahead =? chr "e") then ADVANCE 608 else
      if (lookahead =? chr "f") then ADVANCE 545 else
      if (lookahead =? chr "i") then ADVANCE 528 else
      if (lookahead =? chr "n") then ADVANCE 565 else
      if (lookahead =? chr "r") then ADVANCE 525 else
      if (lookahead =? chr "s") then ADVANCE 521 else
      if (lookahead =? chr "w") then ADVANCE 536 else
      if (lookahead =? 9) || (lookahead =? chr " ") then SKIP 265 else
      if ((chr "A" <=? lookahead) && (lookahead <=? chr "Z")) || (lookahead =? chr "_") || ((chr "g" <=? lookahead) && (lookahead <=? chr "z")) then ADVANCE 610 else
      END_STATE)
  | 266 => NO_TOKEN (
      if eof then ADVANCE 267 else
      if (lookahead =? 10) then ADVANCE 611 else
      if (lookahead =? chr "a") then ADVANCE 498 else
      if (lookahead =? chr "b") then ADVANCE 602 else
      if (lookahead =? chr "c") then ADVANCE 485 else
      if (lookahead =? chr "d") then ADVANCE 504 else
      if (lookahead =? chr "e") then ADVANCE 608 else
      if (lookahead =? chr "f") then ADVANCE 545 else
      if (lookahead =? chr "i") then ADVANCE 528 else
      if (lookahead =? chr "n") then ADVANCE 565 else
      if (lookahead =? chr "r") then ADVANCE 525 else
      if (lookahead =? chr "s") then ADVANCE 520 else
      if (lookahead =? chr "w") then ADVANCE 536 else
      if (lookahead =? 9) || (lookahead =? chr " ") then SKIP 266 else
      if ((chr "A" <=? lookahead) && (lookahead <=? chr "Z")) || (lookahead =? chr "_") || ((chr "g" <=? lookahead) && (lookahead <=? chr "z")) then ADVANCE 610 else
      END_STATE)
  | 267 => ACCEPT_TOKEN ts_builtin_sym_end END_STATE
  | 268 => ACCEPT_TOKEN anon_sym_do_COLON END_STATE
  | 269 => ACCEPT_TOKEN anon_sym_do_COLON (
      if negb (lookahead =? 0) && negb (lookahead =? 10) then ADVANCE 359 else
      END_STATE)
  | 270 => ACCEPT_TOKEN anon_sym_declare_COLON END_STATE
  | 271 => ACCEPT_TOKEN anon_sym_declare_COLON (
      if negb (lookahead =? 0) && negb (lookahead =? 10) then ADVANCE 359 else
      END_STATE)
  | 272 => ACCEPT_TOKEN anon_sym_note_COLON END_STATE
  | 273 => ACCEPT_TOKEN anon_sym_note_COLON (
      if negb (lookahead =? 0) && negb (lookahead =? 10) then ADVANCE 359 else
      END_STATE)
  | 274 => ACCEPT_TOKEN sym_comment_content (
      if (lookahead =? chr " ") then ADVANCE 290 else
      if (lookahead =? chr ":") then ADVANCE 273 else
      if negb (lookahead =? 0) && negb (lookahead =? 10) then ADVANCE 359 else
      END_STATE)
  | 275 => ACCEPT_TOKEN sym_comment_content (
      if (lookahead =? chr " ") then ADVANCE 306 else
      if negb (lookahead =? 0) && negb (lookahead =? 10) then ADVANCE 359 else
      END_STATE)
  | 276 => ACCEPT_TOKEN sym_comment_content (
      if (lookahead =? chr ":") then ADVANCE 269 else
      if negb (lookahead =? 0) && negb (lookahead =? 10) then ADVANCE 359 else
      END_STATE)
  | 277 => ACCEPT_TOKEN sym_comment_content (
      if (lookahead =? chr ":") then ADVANCE 383 else
      if negb (lookahead =? 0) && negb (lookahead =? 10) then ADVANCE 359 else
      END_STATE)
  | 278 => ACCEPT_TOKEN sym_comment_content (
      if (lookahead =? chr ":") then ADVANCE 381 else
      if negb (lookahead =? 0) && negb (lookahead =? 10) then ADVANCE 359 else
      END_STATE)
  | 279 => ACCEPT_TOKEN sym_comment_content (
      if (lookahead =? chr ":") then ADVANCE 385 else
      if negb (lookahead =? 0) && negb (lookahead =? 10) then ADVANCE 359 else
      END_STATE)
  | 280 => ACCEPT_TOKEN sym_comment_content (
      if (lookahead =? chr ":") then ADVANCE 429 else
      if negb (lookahead =? 0) && negb (lookahead =? 10) then ADVANCE 359 else
      END_STATE)
  | 281 => ACCEPT_TOKEN sym_comment_content (
      if (lookahead =? chr ":") then ADVANCE 271 else
      if negb (lookahead =? 0) && negb (lookahead =? 10) then ADVANCE 359 else
      END_STATE)
  | 282 => ACCEPT_TOKEN sym_comment_content (
      if (lookahead =? chr ":") then ADVANCE 379 else
      if negb (lookahead =? 0) && negb (lookahead =? 10) then ADVANCE 359 else
      END_STATE)
  | 283 => ACCEPT_TOKEN sym_comment_content (
      if (lookahead =? chr ":") then ADVANCE 362 else
      if negb (lookahead =? 0) && negb (lookahead =? 10) then ADVANCE 359 else
      END_STATE)
  | 284 => ACCEPT_TOKEN sym_comment_content (
      if (lookahead =? chr "a") then ADVANCE 294 else
      if (lookahead =? chr "b") then ADVANCE 353 else
      if (lookahead =? chr "c") then ADVANCE 285 else
      if (lookahead =? chr "d") then ADVANCE 297 else
      if (lookahead =? chr "e") then ADVANCE 357 else
      if (lookahead =? chr "f") then ADVANCE 320 else
      if (lookahead =? chr "i") then ADVANCE 309 else
      if (lookahead =? chr "n") then ADVANCE 334 else
      if (lookahead =? chr "r") then ADVANCE 298 else
      if (lookahead =? chr "s") then ADVANCE 303 else
      if (lookahead =? chr "w") then ADVANCE 312 else
      if (lookahead =? 9) || (lookahead =? chr " ") then ADVANCE 284 else
      if negb (lookahead =? 0) && negb (lookahead =? 10) then ADVANCE 359 else
      END_STATE)
  | 285 => ACCEPT_TOKEN sym_comment_content (
      if (lookahead =? chr "a") then ADVANCE 322 else
      if negb (lookahead =? 0) && negb (lookahead =? 10) then ADVANCE 359 else
      END_STATE)
  | 286 => ACCEPT_TOKEN sym_comment_content (
      if (lookahead =? chr "a") then ADVANCE 358 else
      if negb (lookahead =? 0) && negb (lookahead =? 10) then ADVANCE 359 else
      END_STATE)
  | 287 => ACCEPT_TOKEN sym_comment_content (
      if (lookahead =? chr "a") then ADVANCE 292 else
      if negb (lookahead =? 0) && negb (lookahead =? 10) then ADVANCE 359 else
      END_STATE)
  | 288 => ACCEPT_TOKEN sym_comment_content (
      if (lookahead =? chr "a") then ADVANCE 343 else
      if negb (lookahead =? 0) && negb (lookahead =? 10) then ADVANCE 359 else
      END_STATE)
  | 289 => ACCEPT_TOKEN sym_comment_content (
      if (lookahead =? chr "a") then ADVANCE 349 else
      if negb (lookahead =? 0) && negb (lookahead =? 10) then ADVANCE 359 else
      END_STATE)
  | 290 => ACCEPT_TOKEN sym_comment_content (
      if (lookahead =? chr "b") then ADVANCE 324 else
      if negb (lookahead =? 0) && negb (lookahead =? 10) then ADVANCE 359 else
      END_STATE)
  | 291 => ACCEPT_TOKEN sym_comment_content (
      if (lookahead =? chr "c") then ADVANCE 317 else
      if negb (lookahead =? 0) && negb (lookahead =? 10) then ADVANCE 359 else
      END_STATE)
  | 292 => ACCEPT_TOKEN sym_comment_content (
      if (lookahead =? chr "c") then ADVANCE 311 else
      if negb (lookahead =? 0) && negb (lookahead =? 10) then ADVANCE 359 else
      END_STATE)
  | 293 => ACCEPT_TOKEN sym_comment_content (
      if (lookahead =? chr "c") then ADVANCE 319 else
      if negb (lookahead =? 0) && negb (lookahead =? 10) then ADVANCE 359 else
      END_STATE)
  | 294 => ACCEPT_TOKEN sym_comment_content (
      if (lookahead =? chr "d") then ADVANCE 295 else
      if (lookahead =? chr "t") then ADVANCE 350 else
      if negb (lookahead =? 0) && negb (lookahead =? 10) then ADVANCE 359 else
      END_STATE)
  | 295 => ACCEPT_TOKEN sym_comment_content (
      if (lookahead =? chr "d") then ADVANCE 435 else
      if negb (lookahead =? 0) && negb (lookahead =? 10) then ADVANCE 359 else
      END_STATE)
  | 296 => ACCEPT_TOKEN sym_comment_content (
      if (lookahead =? chr "d") then ADVANCE 314 else
      if negb (lookahead =? 0) && negb (lookahead =? 10) then ADVANCE 359 else
      END_STATE)
  | 297 => ACCEPT_TOKEN sym_comment_content (
      if (lookahead =? chr "e") then ADVANCE 293 else
      if (lookahead =? chr "i") then ADVANCE 344 else
      if (lookahead =? chr "o") then ADVANCE 276 else
      if negb (lookahead =? 0) && negb (lookahead =? 10) then ADVANCE 359 else
      END_STATE)
  | 298 => ACCEPT_TOKEN sym_comment_content (
      if (lookahead =? chr "e") then ADVANCE 326 else
      if (lookahead =? chr "i") then ADVANCE 345 else
      if negb (lookahead =? 0) && negb (lookahead =? 10) then ADVANCE 359 else
      END_STATE)
  | 299 => ACCEPT_TOKEN sym_comment_content (
      if (lookahead =? chr "e") then ADVANCE 327 else
      if negb (lookahead =? 0) && negb (lookahead =? 10) then ADVANCE 359 else
      END_STATE)
  | 300 => ACCEPT_TOKEN sym_comment_content (
      if (lookahead =? chr "e") then ADVANCE 274 else
      if negb (lookahead =? 0) && negb (lookahead =? 10) then ADVANCE 359 else
      END_STATE)
  | 301 => ACCEPT_TOKEN sym_comment_content (
      if (lookahead =? chr "e") then ADVANCE 427 else
      if negb (lookahead =? 0) && negb (lookahead =? 10) then ADVANCE 359 else
      END_STATE)
  | 302 => ACCEPT_TOKEN sym_comment_content (
      if (lookahead =? chr "e") then ADVANCE 438 else
      if negb (lookahead =? 0) && negb (lookahead =? 10) then ADVANCE 359 else
      END_STATE)
  | 303 => ACCEPT_TOKEN sym_comment_content (
      if (lookahead =? chr "e") then ADVANCE 346 else
      if (lookahead =? chr "t") then ADVANCE 305 else
      if negb (lookahead =? 0) && negb (lookahead =? 10) then ADVANCE 359 else
      END_STATE)
  | 304 => ACCEPT_TOKEN sym_comment_content (
      if (lookahead =? chr "e") then ADVANCE 289 else
      if negb (lookahead =? 0) && negb (lookahead =? 10) then ADVANCE 359 else
      END_STATE)
  | 305 => ACCEPT_TOKEN sym_comment_content (
      if (lookahead =? chr "e") then ADVANCE 336 else
      if negb (lookahead =? 0) && negb (lookahead =? 10) then ADVANCE 359 else
      END_STATE)
  | 306 => ACCEPT_TOKEN sym_comment_content (
      if (lookahead =? chr "e") then ADVANCE 287 else
      if negb (lookahead =? 0) && negb (lookahead =? 10) then ADVANCE 359 else
      END_STATE)
  | 307 => ACCEPT_TOKEN sym_comment_content (
      if (lookahead =? chr "e") then ADVANCE 281 else
      if negb (lookahead =? 0) && negb (lookahead =? 10) then ADVANCE 359 else
      END_STATE)
  | 308 => ACCEPT_TOKEN sym_comment_content (
      if (lookahead =? chr "e") then ADVANCE 342 else
      if negb (lookahead =? 0) && negb (lookahead =? 10) then ADVANCE 359 else
      END_STATE)
  | 309 => ACCEPT_TOKEN sym_comment_content (
      if (lookahead =? chr "f") then ADVANCE 416 else
      if (lookahead =? chr "n") then ADVANCE 335 else
      if negb (lookahead =? 0) && negb (lookahead =? 10) then ADVANCE 359 else
      END_STATE)
  | 310 => ACCEPT_TOKEN sym_comment_content (
      if (lookahead =? chr "g") then ADVANCE 282 else
      if negb (lookahead =? 0) && negb (lookahead =? 10) then ADVANCE 359 else
      END_STATE)
  | 311 => ACCEPT_TOKEN sym_comment_content (
      if (lookahead =? chr "h") then ADVANCE 424 else
      if negb (lookahead =? 0) && negb (lookahead =? 10) then ADVANCE 359 else
      END_STATE)
  | 312 => ACCEPT_TOKEN sym_comment_content (
      if (lookahead =? chr "h") then ADVANCE 316 else
      if negb (lookahead =? 0) && negb (lookahead =? 10) then ADVANCE 359 else
      END_STATE)
  | 313 => ACCEPT_TOKEN sym_comment_content (
      if (lookahead =? chr "i") then ADVANCE 321 else
      if negb (lookahead =? 0) && negb (lookahead =? 10) then ADVANCE 359 else
      END_STATE)
  | 314 => ACCEPT_TOKEN sym_comment_content (
      if (lookahead =? chr "i") then ADVANCE 329 else
      if negb (lookahead =? 0) && negb (lookahead =? 10) then ADVANCE 359 else
      END_STATE)
  | 315 => ACCEPT_TOKEN sym_comment_content (
      if (lookahead =? chr "i") then ADVANCE 347 else
      if negb (lookahead =? 0) && negb (lookahead =? 10) then ADVANCE 359 else
      END_STATE)
  | 316 => ACCEPT_TOKEN sym_comment_content (
      if (lookahead =? chr "i") then ADVANCE 325 else
      if negb (lookahead =? 0) && negb (lookahead =? 10) then ADVANCE 359 else
      END_STATE)
  | 317 => ACCEPT_TOKEN sym_comment_content (
      if (lookahead =? chr "k") then ADVANCE 283 else
      if negb (lookahead =? 0) && negb (lookahead =? 10) then ADVANCE 359 else
      END_STATE)
  | 318 => ACCEPT_TOKEN sym_comment_content (
      if (lookahead =? chr "l") then ADVANCE 396 else
      if negb (lookahead =? 0) && negb (lookahead =? 10) then ADVANCE 359 else
      END_STATE)
  | 319 => ACCEPT_TOKEN sym_comment_content (
      if (lookahead =? chr "l") then ADVANCE 288 else
      if negb (lookahead =? 0) && negb (lookahead =? 10) then ADVANCE 359 else
      END_STATE)
  | 320 => ACCEPT_TOKEN sym_comment_content (
      if (lookahead =? chr "l") then ADVANCE 332 else
      if (lookahead =? chr "o") then ADVANCE 339 else
      if negb (lookahead =? 0) && negb (lookahead =? 10) then ADVANCE 359 else
      END_STATE)
  | 321 => ACCEPT_TOKEN sym_comment_content (
      if (lookahead =? chr "l") then ADVANCE 296 else
      if negb (lookahead =? 0) && negb (lookahead =? 10) then ADVANCE 359 else
      END_STATE)
  | 322 => ACCEPT_TOKEN sym_comment_content (
      if (lookahead =? chr "l") then ADVANCE 318 else
      if negb (lookahead =? 0) && negb (lookahead =? 10) then ADVANCE 359 else
      END_STATE)
  | 323 => ACCEPT_TOKEN sym_comment_content (
      if (lookahead =? chr "l") then ADVANCE 286 else
      if negb (lookahead =? 0) && negb (lookahead =? 10) then ADVANCE 359 else
      END_STATE)
  | 324 => ACCEPT_TOKEN sym_comment_content (
      if (lookahead =? chr "l") then ADVANCE 333 else
      if negb (lookahead =? 0) && negb (lookahead =? 10) then ADVANCE 359 else
      END_STATE)
  | 325 => ACCEPT_TOKEN sym_comment_content (
      if (lookahead =? chr "l") then ADVANCE 301 else
      if negb (lookahead =? 0) && negb (lookahead =? 10) then ADVANCE 359 else
      END_STATE)
  | 326 => ACCEPT_TOKEN sym_comment_content (
      if (lookahead =? chr "m") then ADVANCE 330 else
      if (lookahead =? chr "p") then ADVANCE 304 else
      if (lookahead =? chr "t") then ADVANCE 354 else
      if negb (lookahead =? 0) && negb (lookahead =? 10) then ADVANCE 359 else
      END_STATE)
  | 327 => ACCEPT_TOKEN sym_comment_content (
      if (lookahead =? chr "m") then ADVANCE 337 else
      if negb (lookahead =? 0) && negb (lookahead =? 10) then ADVANCE 359 else
      END_STATE)
  | 328 => ACCEPT_TOKEN sym_comment_content (
      if (lookahead =? chr "n") then ADVANCE 408 else
      if negb (lookahead =? 0) && negb (lookahead =? 10) then ADVANCE 359 else
      END_STATE)
  | 329 => ACCEPT_TOKEN sym_comment_content (
      if (lookahead =? chr "n") then ADVANCE 310 else
      if negb (lookahead =? 0) && negb (lookahead =? 10) then ADVANCE 359 else
      END_STATE)
  | 330 => ACCEPT_TOKEN sym_comment_content (
      if (lookahead =? chr "o") then ADVANCE 356 else
      if negb (lookahead =? 0) && negb (lookahead =? 10) then ADVANCE 359 else
      END_STATE)
  | 331 => ACCEPT_TOKEN sym_comment_content (
      if (lookahead =? chr "o") then ADVANCE 341 else
      if negb (lookahead =? 0) && negb (lookahead =? 10) then ADVANCE 359 else
      END_STATE)
  | 332 => ACCEPT_TOKEN sym_comment_content (
      if (lookahead =? chr "o") then ADVANCE 331 else
      if negb (lookahead =? 0) && negb (lookahead =? 10) then ADVANCE 359 else
      END_STATE)
  | 333 => ACCEPT_TOKEN sym_comment_content (
      if (lookahead =? chr "o") then ADVANCE 291 else
      if negb (lookahead =? 0) && negb (lookahead =? 10) then ADVANCE 359 else
      END_STATE)
  | 334 => ACCEPT_TOKEN sym_comment_content (
      if (lookahead =? chr "o") then ADVANCE 351 else
      if negb (lookahead =? 0) && negb (lookahead =? 10) then ADVANCE 359 else
      END_STATE)
  | 335 => ACCEPT_TOKEN sym_comment_content (
      if (lookahead =? chr "p") then ADVANCE 355 else
      if negb (lookahead =? 0) && negb (lookahead =? 10) then ADVANCE 359 else
      END_STATE)
  | 336 => ACCEPT_TOKEN sym_comment_content (
      if (lookahead =? chr "p") then ADVANCE 277 else
      if negb (lookahead =? 0) && negb (lookahead =? 10) then ADVANCE 359 else
      END_STATE)
  | 337 => ACCEPT_TOKEN sym_comment_content (
      if (lookahead =? chr "p") then ADVANCE 352 else
      if negb (lookahead =? 0) && negb (lookahead =? 10) then ADVANCE 359 else
      END_STATE)
  | 338 => ACCEPT_TOKEN sym_comment_content (
      if (lookahead =? chr "p") then ADVANCE 323 else
      if negb (lookahead =? 0) && negb (lookahead =? 10) then ADVANCE 359 else
      END_STATE)
  | 339 => ACCEPT_TOKEN sym_comment_content (
      if (lookahead =? chr "r") then ADVANCE 275 else
      if negb (lookahead =? 0) && negb (lookahead =? 10) then ADVANCE 359 else
      END_STATE)
  | 340 => ACCEPT_TOKEN sym_comment_content (
      if (lookahead =? chr "r") then ADVANCE 328 else
      if negb (lookahead =? 0) && negb (lookahead =? 10) then ADVANCE 359 else
      END_STATE)
  | 341 => ACCEPT_TOKEN sym_comment_content (
      if (lookahead =? chr "r") then ADVANCE 278 else
      if negb (lookahead =? 0) && negb (lookahead =? 10) then ADVANCE 359 else
      END_STATE)
  | 342 => ACCEPT_TOKEN sym_comment_content (
      if (lookahead =? chr "r") then ADVANCE 279 else
      if negb (lookahead =? 0) && negb (lookahead =? 10) then ADVANCE 359 else
      END_STATE)
  | 343 => ACCEPT_TOKEN sym_comment_content (
      if (lookahead =? chr "r") then ADVANCE 307 else
      if negb (lookahead =? 0) && negb (lookahead =? 10) then ADVANCE 359 else
      END_STATE)
  | 344 => ACCEPT_TOKEN sym_comment_content (
      if (lookahead =? chr "s") then ADVANCE 338 else
      if negb (lookahead =? 0) && negb (lookahead =? 10) then ADVANCE 359 else
      END_STATE)
  | 345 => ACCEPT_TOKEN sym_comment_content (
      if (lookahead =? chr "s") then ADVANCE 308 else
      if negb (lookahead =? 0) && negb (lookahead =? 10) then ADVANCE 359 else
      END_STATE)
  | 346 => ACCEPT_TOKEN sym_comment_content (
      if (lookahead =? chr "t") then ADVANCE 393 else
      if negb (lookahead =? 0) && negb (lookahead =? 10) then ADVANCE 359 else
      END_STATE)
  | 347 => ACCEPT_TOKEN sym_comment_content (
      if (lookahead =? chr "t") then ADVANCE 411 else
      if negb (lookahead =? 0) && negb (lookahead =? 10) then ADVANCE 359 else
      END_STATE)
  | 348 => ACCEPT_TOKEN sym_comment_content (
      if (lookahead =? chr "t") then ADVANCE 403 else
      if negb (lookahead =? 0) && negb (lookahead =? 10) then ADVANCE 359 else
      END_STATE)
  | 349 => ACCEPT_TOKEN sym_comment_content (
      if (lookahead =? chr "t") then ADVANCE 422 else
      if negb (lookahead =? 0) && negb (lookahead =? 10) then ADVANCE 359 else
      END_STATE)
  | 350 => ACCEPT_TOKEN sym_comment_content (
      if (lookahead =? chr "t") then ADVANCE 299 else
      if negb (lookahead =? 0) && negb (lookahead =? 10) then ADVANCE 359 else
      END_STATE)
  | 351 => ACCEPT_TOKEN sym_comment_content (
      if (lookahead =? chr "t") then ADVANCE 300 else
      if negb (lookahead =? 0) && negb (lookahead =? 10) then ADVANCE 359 else
      END_STATE)
  | 352 => ACCEPT_TOKEN sym_comment_content (
      if (lookahead =? chr "t") then ADVANCE 280 else
      if negb (lookahead =? 0) && negb (lookahead =? 10) then ADVANCE 359 else
      END_STATE)
  | 353 => ACCEPT_TOKEN sym_comment_content (
      if (lookahead =? chr "u") then ADVANCE 313 else
      if negb (lookahead =? 0) && negb (lookahead =? 10) then ADVANCE 359 else
      END_STATE)
  | 354 => ACCEPT_TOKEN sym_comment_content (
      if (lookahead =? chr "u") then ADVANCE 340 else
      if negb (lookahead =? 0) && negb (lookahead =? 10) then ADVANCE 359 else
      END_STATE)
  | 355 => ACCEPT_TOKEN sym_comment_content (
      if (lookahead =? chr "u") then ADVANCE 348 else
      if negb (lookahead =? 0) && negb (lookahead =? 10) then ADVANCE 359 else
      END_STATE)
  | 356 => ACCEPT_TOKEN sym_comment_content (
      if (lookahead =? chr "v") then ADVANCE 302 else
      if negb (lookahead =? 0) && negb (lookahead =? 10) then ADVANCE 359 else
      END_STATE)
  | 357 => ACCEPT_TOKEN sym_comment_content (
      if (lookahead =? chr "x") then ADVANCE 315 else
      if negb (lookahead =? 0) && negb (lookahead =? 10) then ADVANCE 359 else
      END_STATE)
  | 358 => ACCEPT_TOKEN sym_comment_content (
      if (lookahead =? chr "y") then ADVANCE 400 else
      if negb (lookahead =? 0) && negb (lookahead =? 10) then ADVANCE 359 else
      END_STATE)
  | 359 => ACCEPT_TOKEN sym_comment_content (
      if negb (lookahead =? 0) && negb (lookahead =? 10) then ADVANCE 359 else
      END_STATE)
  | 360 => ACCEPT_TOKEN sym_comment_content (
      if eof then ADVANCE 267 else
      if (lookahead =? chr "a") then ADVANCE 294 else
      if (lookahead =? chr "b") then ADVANCE 353 else
      if (lookahead =? chr "c") then ADVANCE 285 else
      if (lookahead =? chr "d") then ADVANCE 297 else
      if (lookahead =? chr "e") then ADVANCE 357 else
      if (lookahead =? chr "f") then ADVANCE 320 else
      if (lookahead =? chr "i") then ADVANCE 309 else
      if (lookahead =? chr "n") then ADVANCE 334 else
      if (lookahead =? chr "r") then ADVANCE 298 else
      if (lookahead =? chr "s") then ADVANCE 303 else
      if (lookahead =? chr "w") then ADVANCE 312 else
      if (lookahead =? 9) || (lookahead =? chr " ") then ADVANCE 284 else
      if negb (lookahead =? 0) && negb (lookahead =? 10) then ADVANCE 359 else
      END_STATE)
  | 361 => ACCEPT_TOKEN anon_sym_noteblock_COLON END_STATE
  | 362 => ACCEPT_TOKEN anon_sym_noteblock_COLON (
      if negb (lookahead =? 0) && negb (lookahead =? 10) then ADVANCE 359 else
      END_STATE)
  | 363 => ACCEPT_TOKEN anon_sym_endnote END_STATE
  | 364 => ACCEPT_TOKEN aux_sym_block_comment_content_token1 (
      if (lookahead =? 9) || (lookahead =? chr " ") then ADVANCE 364 else
      if negb (lookahead =? 0) && negb (lookahead =? chr "e") then ADVANCE 365 else
      END_STATE)
  | 365 => ACCEPT_TOKEN aux_sym_block_comment_content_token1 (
      if negb (lookahead =? 0) && negb (lookahead =? chr "e") then ADVANCE 365 else
      END_STATE)
  | 366 => ACCEPT_TOKEN aux_sym_block_comment_content_token2 END_STATE
  | 367 => ACCEPT_TOKEN aux_sym_block_comment_content_token2 (
      if (lookahead =? chr "i") then ADVANCE 591 else
      if (lookahead =? chr "p") then ADVANCE 513 else
      if ((chr "0" <=? lookahead) && (lookahead <=? chr "9")) || ((chr "A" <=? lookahead) && (lookahead <=? chr "Z")) || (lookahead =? chr "_") || ((chr "a" <=? lookahead) && (lookahead <=? chr "z")) then ADVANCE 610 else
      END_STATE)
  | 368 => ACCEPT_TOKEN aux_sym_block_comment_content_token2 (
      if ((chr "0" <=? lookahead) && (lookahead <=? chr "9")) || ((chr "A" <=? lookahead) && (lookahead <=? chr "Z")) || (lookahead =? chr "_") || ((chr "a" <=? lookahead) && (lookahead <=? chr "z")) then ADVANCE 610 else
      END_STATE)
  | 369 => ACCEPT_TOKEN aux_sym_block_comment_content_token3 END_STATE
  | 370 => ACCEPT_TOKEN aux_sym_block_comment_content_token3 (
      if ((chr "0" <=? lookahead) && (lookahead <=? chr "9")) || ((chr "A" <=? lookahead) && (lookahead <=? chr "Z")) || (lookahead =? chr "_") || ((chr "a" <=? lookahead) && (lookahead <=? chr "z")) then ADVANCE 610 else
      END_STATE)
  | 371 => ACCEPT_TOKEN aux_sym_block_comment_content_token4 END_STATE
  | 372 => ACCEPT_TOKEN aux_sym_block_comment_content_token4 (
      if (lookahead =? chr " ") then ADVANCE 246 else
      if ((chr "0" <=? lookahead) && (lookahead <=? chr "9")) || ((chr "A" <=? lookahead) && (lookahead <=? chr "Z")) || (lookahead =? chr "_") || ((chr "a" <=? lookahead) && (lookahead <=? chr "z")) then ADVANCE 610 else
      END_STATE)
  | 373 => ACCEPT_TOKEN aux_sym_block_comment_content_token4 (
      if ((chr "0" <=? lookahead) && (lookahead <=? chr "9")) || ((chr "A" <=? lookahead) && (lookahead <=? chr "Z")) || (lookahead =? chr "_") || ((chr "a" <=? lookahead) && (lookahead <=? chr "z")) then ADVANCE 610 else
      END_STATE)
  | 374 => ACCEPT_TOKEN aux_sym_block_comment_content_token5 END_STATE
  | 375 => ACCEPT_TOKEN aux_sym_block_comment_content_token6 END_STATE
  | 376 => ACCEPT_TOKEN aux_sym_block_comment_content_token7 END_STATE
  | 377 => ACCEPT_TOKEN aux_sym_block_comment_content_token8 END_STATE
  | 378 => ACCEPT_TOKEN anon_sym_building_COLON END_STATE
  | 379 => ACCEPT_TOKEN anon_sym_building_COLON (
      if negb (lookahead =? 0) && negb (lookahead =? 10) then ADVANCE 359 else
      END_STATE)
  | 380 => ACCEPT_TOKEN anon_sym_floor_COLON END_STATE
  | 381 => ACCEPT_TOKEN anon_sym_floor_COLON (
      if negb (lookahead =? 0) && negb (lookahead =? 10) then ADVANCE 359 else
      END_STATE)
  | 382 => ACCEPT_TOKEN anon_sym_step_COLON END_STATE
  | 383 => ACCEPT_TOKEN anon_sym_step_COLON (
      if negb (lookahead =? 0) && negb (lookahead =? 10) then ADVANCE 359 else
      END_STATE)
  | 384 => ACCEPT_TOKEN anon_sym_riser_COLON END_STATE
  | 385 => ACCEPT_TOKEN anon_sym_riser_COLON (
      if negb (lookahead =? 0) && negb (lookahead =? 10) then ADVANCE 359 else
      END_STATE)
  | 386 => ACCEPT_TOKEN anon_sym_belongsto_COLON END_STATE
  | 387 => ACCEPT_TOKEN anon_sym_expects_COLON END_STATE
  | 388 => ACCEPT_TOKEN anon_sym_returns_COLON END_STATE
  | 389 => ACCEPT_TOKEN anon_sym_COMMA END_STATE
  | 390 => ACCEPT_TOKEN anon_sym_EQ END_STATE
  | 391 => ACCEPT_TOKEN anon_sym_set END_STATE
  | 392 => ACCEPT_TOKEN anon_sym_set (
      if ((chr "0" <=? lookahead) && (lookahead <=? chr "9")) || ((chr "A" <=? lookahead) && (lookahead <=? chr "Z")) || (lookahead =? chr "_") || ((chr "a" <=? lookahead) && (lookahead <=? chr "z")) then ADVANCE 610 else
      END_STATE)
  | 393 => ACCEPT_TOKEN anon_sym_set (
      if negb (lookahead =? 0) && negb (lookahead =? 10) then ADVANCE 359 else
      END_STATE)
  | 394 => ACCEPT_TOKEN anon_sym_call END_STATE
  | 395 => ACCEPT_TOKEN anon_sym_call (
      if ((chr "0" <=? lookahead) && (lookahead <=? chr "9")) || ((chr "A" <=? lookahead) && (lookahead <=? chr "Z")) || (lookahead =? chr "_") || ((chr "a" <=? lookahead) && (lookahead <=? chr "z")) then ADVANCE 610 else
      END_STATE)
  | 396 => ACCEPT_TOKEN anon_sym_call (
      if negb (lookahead =? 0) && negb (lookahead =? 10) then ADVANCE 359 else
      END_STATE)
  | 397 => ACCEPT_TOKEN anon_sym_storingresultin END_STATE
  | 398 => ACCEPT_TOKEN anon_sym_display END_STATE
  | 399 => ACCEPT_TOKEN anon_sym_display (
      if ((chr "0" <=? lookahead) && (lookahead <=? chr "9")) || ((chr "A" <=? lookahead) && (lookahead <=? chr "Z")) || (lookahead =? chr "_") || ((chr "a" <=? lookahead) && (lookahead <=? chr "z")) then ADVANCE 610 else
      END_STATE)
  | 400 => ACCEPT_TOKEN anon_sym_display (
      if negb (lookahead =? 0) && negb (lookahead =? 10) then ADVANCE 359 else
      END_STATE)
  | 401 => ACCEPT_TOKEN anon_sym_input END_STATE
  | 402 => ACCEPT_TOKEN anon_sym_input (
      if ((chr "0" <=? lookahead) && (lookahead <=? chr "9")) || ((chr "A" <=? lookahead) && (lookahead <=? chr "Z")) || (lookahead =? chr "_") || ((chr "a" <=? lookahead) && (lookahead <=? chr "z")) then ADVANCE 610 else
      END_STATE)
  | 403 => ACCEPT_TOKEN anon_sym_input (
      if negb (lookahead =? 0) && negb (lookahead =? 10) then ADVANCE 359 else
      END_STATE)
  | 404 => ACCEPT_TOKEN anon_sym_return END_STATE
  | 405 => ACCEPT_TOKEN anon_sym_return (
      if (lookahead =? chr "s") then ADVANCE 482 else
      if ((chr "0" <=? lookahead) && (lookahead <=? chr "9")) || ((chr "A" <=? lookahead) && (lookahead <=? chr "Z")) || (lookahead =? chr "_") || ((chr "a" <=? lookahead) && (lookahead <=? chr "z")) then ADVANCE 610 else
      END_STATE)
  | 406 => ACCEPT_TOKEN anon_sym_return (
      if (lookahead =? chr "s") then ADVANCE 29 else
      END_STATE)
  | 407 => ACCEPT_TOKEN anon_sym_return (
      if ((chr "0" <=? lookahead) && (lookahead <=? chr "9")) || ((chr "A" <=? lookahead) && (lookahead <=? chr "Z")) || (lookahead =? chr "_") || ((chr "a" <=? lookahead) && (lookahead <=? chr "z")) then ADVANCE 610 else
      END_STATE)
  | 408 => ACCEPT_TOKEN anon_sym_return (
      if negb (lookahead =? 0) && negb (lookahead =? 10) then ADVANCE 359 else
      END_STATE)
  | 409 => ACCEPT_TOKEN sym_exit_statement END_STATE
  | 410 => ACCEPT_TOKEN sym_exit_statement (
      if ((chr "0" <=? lookahead) && (lookahead <=? chr "9")) || ((chr "A" <=? lookahead) && (lookahead <=? chr "Z")) || (lookahead =? chr "_") || ((chr "a" <=? lookahead) && (lookahead <=? chr "z")) then ADVANCE 610 else
      END_STATE)
  | 411 => ACCEPT_TOKEN sym_exit_statement (
      if negb (lookahead =? 0) && negb (lookahead =? 10) then ADVANCE 359 else
      END_STATE)
  | 412 => ACCEPT_TOKEN anon_sym_if END_STATE
  | 413 => ACCEPT_TOKEN anon_sym_if (
      if (lookahead =? chr " ") then ADVANCE 232 else
      END_STATE)
  | 414 => ACCEPT_TOKEN anon_sym_if (
      if (lookahead =? chr " ") then ADVANCE 232 else
      if ((chr "0" <=? lookahead) && (lookahead <=? chr "9")) || ((chr "A" <=? lookahead) && (lookahead <=? chr "Z")) || (lookahead =? chr "_") || ((chr "a" <=? lookahead) && (lookahead <=? chr "z")) then ADVANCE 610 else
      END_STATE)
  | 415 => ACCEPT_TOKEN anon_sym_if (
      if ((chr "0" <=? lookahead) && (lookahead <=? chr "9")) || ((chr "A" <=? lookahead) && (lookahead <=? chr "Z")) || (lookahead =? chr "_") || ((chr "a" <=? lookahead) && (lookahead <=? chr "z")) then ADVANCE 610 else
      END_STATE)
  | 416 => ACCEPT_TOKEN anon_sym_if (
      if negb (lookahead =? 0) && negb (lookahead =? 10) then ADVANCE 359 else
      END_STATE)
  | 417 => ACCEPT_TOKEN anon_sym_otherwiseif END_STATE
  | 418 => ACCEPT_TOKEN anon_sym_otherwise (
      if (lookahead =? chr " ") then ADVANCE 108 else
      END_STATE)
  | 419 => ACCEPT_TOKEN anon_sym_otherwise (
      if (lookahead =? chr " ") then ADVANCE 108 else
      if ((chr "0" <=? lookahead) && (lookahead <=? chr "9")) || ((chr "A" <=? lookahead) && (lookahead <=? chr "Z")) || (lookahead =? chr "_") || ((chr "a" <=? lookahead) && (lookahead <=? chr "z")) then ADVANCE 610 else
      END_STATE)
  | 420 => ACCEPT_TOKEN anon_sym_repeat END_STATE
  | 421 => ACCEPT_TOKEN anon_sym_repeat (
      if ((chr "0" <=? lookahead) && (lookahead <=? chr "9")) || ((chr "A" <=? lookahead) && (lookahead <=? chr "Z")) || (lookahead =? chr "_") || ((chr "a" <=? lookahead) && (lookahead <=? chr "z")) then ADVANCE 610 else
      END_STATE)
  | 422 => ACCEPT_TOKEN anon_sym_repeat (
      if negb (lookahead =? 0) && negb (lookahead =? 10) then ADVANCE 359 else
      END_STATE)
  | 423 => ACCEPT_TOKEN anon_sym_foreach END_STATE
  | 424 => ACCEPT_TOKEN anon_sym_foreach (
      if negb (lookahead =? 0) && negb (lookahead =? 10) then ADVANCE 359 else
      END_STATE)
  | 425 => ACCEPT_TOKEN anon_sym_while END_STATE
  | 426 => ACCEPT_TOKEN anon_sym_while (
      if ((chr "0" <=? lookahead) && (lookahead <=? chr "9")) || ((chr "A" <=? lookahead) && (lookahead <=? chr "Z")) || (lookahead =? chr "_") || ((chr "a" <=? lookahead) && (lookahead <=? chr "z")) then ADVANCE 610 else
      END_STATE)
  | 427 => ACCEPT_TOKEN anon_sym_while (
      if negb (lookahead =? 0) && negb (lookahead =? 10) then ADVANCE 359 else
      END_STATE)
  | 428 => ACCEPT_TOKEN anon_sym_attempt_COLON END_STATE
  | 429 => ACCEPT_TOKEN anon_sym_attempt_COLON (
      if negb (lookahead =? 0) && negb (lookahead =? 10) then ADVANCE 359 else
      END_STATE)
  | 430 => ACCEPT_TOKEN anon_sym_ifunsuccessful_COLON END_STATE
  | 431 => ACCEPT_TOKEN anon_sym_thencontinue_COLON END_STATE
  | 432 => ACCEPT_TOKEN anon_sym_add END_STATE
  | 433 => ACCEPT_TOKEN anon_sym_add (
      if (lookahead =? chr "e") then ADVANCE 497 else
      if ((chr "0" <=? lookahead) && (lookahead <=? chr "9")) || ((chr "A" <=? lookahead) && (lookahead <=? chr "Z")) || (lookahead =? chr "_") || ((chr "a" <=? lookahead) && (lookahead <=? chr "z")) then ADVANCE 610 else
      END_STATE)
  | 434 => ACCEPT_TOKEN anon_sym_add (
      if ((chr "0" <=? lookahead) && (lookahead <=? chr "9")) || ((chr "A" <=? lookahead) && (lookahead <=? chr "Z")) || (lookahead =? chr "_") || ((chr "a" <=? lookahead) && (lookahead <=? chr "z")) then ADVANCE 610 else
      END_STATE)
  | 435 => ACCEPT_TOKEN anon_sym_add (
      if negb (lookahead =? 0) && negb (lookahead =? 10) then ADVANCE 359 else
      END_STATE)
  | 436 => ACCEPT_TOKEN anon_sym_remove END_STATE
  | 437 => ACCEPT_TOKEN anon_sym_remove (
      if ((chr "0" <=? lookahead) && (lookahead <=? chr "9")) || ((chr "A" <=? lookahead) && (lookahead <=? chr "Z")) || (lookahead =? chr "_") || ((chr "a" <=? lookahead) && (lookahead <=? chr "z")) then ADVANCE 610 else
      END_STATE)
  | 438 => ACCEPT_TOKEN anon_sym_remove (
      if negb (lookahead =? 0) && negb (lookahead =? 10) then ADVANCE 359 else
      END_STATE)
  | 439 => ACCEPT_TOKEN sym_number (
      if (lookahead =? chr ".") then ADVANCE 255 else
      if ((chr "0" <=? lookahead) && (lookahead <=? chr "9")) then ADVANCE 439 else
      END_STATE)
  | 440 => ACCEPT_TOKEN sym_number (
      if ((chr "0" <=? lookahead) && (lookahead <=? chr "9")) then ADVANCE 440 else
      END_STATE)
  | 441 => ACCEPT_TOKEN anon_sym_DQUOTE END_STATE
  | 442 => ACCEPT_TOKEN aux_sym_string_content_token1 (
      if (lookahead =? 9) || (lookahead =? chr " ") then ADVANCE 442 else
      if negb (lookahead =? 0) && negb (lookahead =? 34) && negb (lookahead =? chr "\") then ADVANCE 443 else
      END_STATE)
  | 443 => ACCEPT_TOKEN aux_sym_string_content_token1 (
      if negb (lookahead =? 0) && negb (lookahead =? 34) && negb (lookahead =? chr "\") then ADVANCE 443 else
      END_STATE)
  | 444 => ACCEPT_TOKEN sym_escape_sequence END_STATE
  | 445 => ACCEPT_TOKEN anon_sym_LBRACK END_STATE
  | 446 => ACCEPT_TOKEN anon_sym_RBRACK END_STATE
  | 447 => ACCEPT_TOKEN anon_sym_PLUS END_STATE
  | 448 => ACCEPT_TOKEN anon_sym_DASH END_STATE
  | 449 => ACCEPT_TOKEN anon_sym_STAR END_STATE
  | 450 => ACCEPT_TOKEN anon_sym_SLASH END_STATE
  | 451 => ACCEPT_TOKEN anon_sym_isequalto END_STATE
  | 452 => ACCEPT_TOKEN anon_sym_isnotequalto END_STATE
  | 453 => ACCEPT_TOKEN anon_sym_islessthan (
      if (lookahead =? chr " ") then ADVANCE 168 else
      END_STATE)
  | 454 => ACCEPT_TOKEN anon_sym_isgreaterthan (
      if (lookahead =? chr " ") then ADVANCE 174 else
      END_STATE)
  | 455 => ACCEPT_TOKEN anon_sym_islessthanorequalto END_STATE
  | 456 => ACCEPT_TOKEN anon_sym_isgreaterthanorequalto END_STATE
  | 457 => ACCEPT_TOKEN anon_sym_addedto END_STATE
  | 458 => ACCEPT_TOKEN anon_sym_startswith END_STATE
  | 459 => ACCEPT_TOKEN anon_sym_endswith END_STATE
  | 460 => ACCEPT_TOKEN anon_sym_isin END_STATE
  | 461 => ACCEPT_TOKEN anon_sym_lengthof END_STATE
  | 462 => ACCEPT_TOKEN anon_sym_LPAREN END_STATE
  | 463 => ACCEPT_TOKEN anon_sym_RPAREN END_STATE
  | 464 => ACCEPT_TOKEN sym_identifier (
      if (lookahead =? chr " ") then ADVANCE 60 else
      if ((chr "0" <=? lookahead) && (lookahead <=? chr "9")) || ((chr "A" <=? lookahead) && (lookahead <=? chr "Z")) || (lookahead =? chr "_") || ((chr "a" <=? lookahead) && (lookahead <=? chr "z")) then ADVANCE 610 else
      END_STATE)
  | 465 => ACCEPT_TOKEN sym_identifier (
      if (lookahead =? chr " ") then ADVANCE 3 else
      if (lookahead =? chr "s") then ADVANCE 372 else
      if ((chr "0" <=? lookahead) && (lookahead <=? chr "9")) || ((chr "A" <=? lookahead) && (lookahead <=? chr "Z")) || (lookahead =? chr "_") || ((chr "a" <=? lookahead) && (lookahead <=? chr "z")) then ADVANCE 373 else
      if negb (lookahead =? 0) then ADVANCE 371 else
      END_STATE)
  | 466 => ACCEPT_TOKEN sym_identifier (
      if (lookahead =? chr " ") then ADVANCE 61 else
      if ((chr "0" <=? lookahead) && (lookahead <=? chr "9")) || ((chr "A" <=? lookahead) && (lookahead <=? chr "Z")) || (lookahead =? chr "_") || ((chr "a" <=? lookahead) && (lookahead <=? chr "z")) then ADVANCE 610 else
      END_STATE)
  | 467 => ACCEPT_TOKEN sym_identifier (
      if (lookahead =? chr " ") then ADVANCE 246 else
      if ((chr "0" <=? lookahead) && (lookahead <=? chr "9")) || ((chr "A" <=? lookahead) && (lookahead <=? chr "Z")) || (lookahead =? chr "_") || ((chr "a" <=? lookahead) && (lookahead <=? chr "z")) then ADVANCE 610 else
      END_STATE)
  | 468 => ACCEPT_TOKEN sym_identifier (
      if (lookahead =? chr " ") then ADVANCE 47 else
      if (lookahead =? chr ":") then ADVANCE 272 else
      if ((chr "0" <=? lookahead) && (lookahead <=? chr "9")) || ((chr "A" <=? lookahead) && (lookahead <=? chr "Z")) || (lookahead =? chr "_") || ((chr "a" <=? lookahead) && (lookahead <=? chr "z")) then ADVANCE 610 else
      END_STATE)
  | 469 => ACCEPT_TOKEN sym_identifier (
      if (lookahead =? chr " ") then ADVANCE 50 else
      if ((chr "0" <=? lookahead) && (lookahead <=? chr "9")) || ((chr "A" <=? lookahead) && (lookahead <=? chr "Z")) || (lookahead =? chr "_") || ((chr "a" <=? lookahead) && (lookahead <=? chr "z")) then ADVANCE 610 else
      END_STATE)
  | 470 => ACCEPT_TOKEN sym_identifier (
      if (lookahead =? chr " ") then ADVANCE 183 else
      if ((chr "0" <=? lookahead) && (lookahead <=? chr "9")) || ((chr "A" <=? lookahead) && (lookahead <=? chr "Z")) || (lookahead =? chr "_") || ((chr "a" <=? lookahead) && (lookahead <=? chr "z")) then ADVANCE 610 else
      END_STATE)
  | 471 => ACCEPT_TOKEN sym_identifier (
      if (lookahead =? chr " ") then ADVANCE 216 else
      if ((chr "0" <=? lookahead) && (lookahead <=? chr "9")) || ((chr "A" <=? lookahead) && (lookahead <=? chr "Z")) || (lookahead =? chr "_") || ((chr "a" <=? lookahead) && (lookahead <=? chr "z")) then ADVANCE 610 else
      END_STATE)
  | 472 => ACCEPT_TOKEN sym_identifier (
      if (lookahead =? chr " ") then ADVANCE 159 else
      if ((chr "0" <=? lookahead) && (lookahead <=? chr "9")) || ((chr "A" <=? lookahead) && (lookahead <=? chr "Z")) || (lookahead =? chr "_") || ((chr "a" <=? lookahead) && (lookahead <=? chr "z")) then ADVANCE 610 else
      END_STATE)
  | 473 => ACCEPT_TOKEN sym_identifier (
      if (lookahead =? chr " ") then ADVANCE 221 else
      if ((chr "0" <=? lookahead) && (lookahead <=? chr "9")) || ((chr "A" <=? lookahead) && (lookahead <=? chr "Z")) || (lookahead =? chr "_") || ((chr "a" <=? lookahead) && (lookahead <=? chr "z")) then ADVANCE 610 else
      END_STATE)
  | 474 => ACCEPT_TOKEN sym_identifier (
      if (lookahead =? chr " ") then ADVANCE 248 else
      if ((chr "0" <=? lookahead) && (lookahead <=? chr "9")) || ((chr "A" <=? lookahead) && (lookahead <=? chr "Z")) || (lookahead =? chr "_") || ((chr "a" <=? lookahead) && (lookahead <=? chr "z")) then ADVANCE 610 else
      END_STATE)
  | 475 => ACCEPT_TOKEN sym_identifier (
      if (lookahead =? chr ":") then ADVANCE 268 else
      if ((chr "0" <=? lookahead) && (lookahead <=? chr "9")) || ((chr "A" <=? lookahead) && (lookahead <=? chr "Z")) || (lookahead =? chr "_") || ((chr "a" <=? lookahead) && (lookahead <=? chr "z")) then ADVANCE 610 else
      END_STATE)
  | 476 => ACCEPT_TOKEN sym_identifier (
      if (lookahead =? chr ":") then ADVANCE 382 else
      if ((chr "0" <=? lookahead) && (lookahead <=? chr "9")) || ((chr "A" <=? lookahead) && (lookahead <=? chr "Z")) || (lookahead =? chr "_") || ((chr "a" <=? lookahead) && (lookahead <=? chr "z")) then ADVANCE 610 else
      END_STATE)
  | 477 => ACCEPT_TOKEN sym_identifier (
      if (lookahead =? chr ":") then ADVANCE 380 else
      if ((chr "0" <=? lookahead) && (lookahead <=? chr "9")) || ((chr "A" <=? lookahead) && (lookahead <=? chr "Z")) || (lookahead =? chr "_") || ((chr "a" <=? lookahead) && (lookahead <=? chr "z")) then ADVANCE 610 else
      END_STATE)
  | 478 => ACCEPT_TOKEN sym_identifier (
      if (lookahead =? chr ":") then ADVANCE 384 else
      if ((chr "0" <=? lookahead) && (lookahead <=? chr "9")) || ((chr "A" <=? lookahead) && (lookahead <=? chr "Z")) || (lookahead =? chr "_") || ((chr "a" <=? lookahead) && (lookahead <=? chr "z")) then ADVANCE 610 else
      END_STATE)
  | 479 => ACCEPT_TOKEN sym_identifier (
      if (lookahead =? chr ":") then ADVANCE 428 else
      if ((chr "0" <=? lookahead) && (lookahead <=? chr "9")) || ((chr "A" <=? lookahead) && (lookahead <=? chr "Z")) || (lookahead =? chr "_") || ((chr "a" <=? lookahead) && (lookahead <=? chr "z")) then ADVANCE 610 else
      END_STATE)
  | 480 => ACCEPT_TOKEN sym_identifier (
      if (lookahead =? chr ":") then ADVANCE 270 else
      if ((chr "0" <=? lookahead) && (lookahead <=? chr "9")) || ((chr "A" <=? lookahead) && (lookahead <=? chr "Z")) || (lookahead =? chr "_") || ((chr "a" <=? lookahead) && (lookahead <=? chr "z")) then ADVANCE 610 else
      END_STATE)
  | 481 => ACCEPT_TOKEN sym_identifier (
      if (lookahead =? chr ":") then ADVANCE 387 else
      if ((chr "0" <=? lookahead) && (lookahead <=? chr "9")) || ((chr "A" <=? lookahead) && (lookahead <=? chr "Z")) || (lookahead =? chr "_") || ((chr "a" <=? lookahead) && (lookahead <=? chr "z")) then ADVANCE 610 else
      END_STATE)
  | 482 => ACCEPT_TOKEN sym_identifier (
      if (lookahead =? chr ":") then ADVANCE 388 else
      if ((chr "0" <=? lookahead) && (lookahead <=? chr "9")) || ((chr "A" <=? lookahead) && (lookahead <=? chr "Z")) || (lookahead =? chr "_") || ((chr "a" <=? lookahead) && (lookahead <=? chr "z")) then ADVANCE 610 else
      END_STATE)
  | 483 => ACCEPT_TOKEN sym_identifier (
      if (lookahead =? chr ":") then ADVANCE 378 else
      if ((chr "0" <=? lookahead) && (lookahead <=? chr "9")) || ((chr "A" <=? lookahead) && (lookahead <=? chr "Z")) || (lookahead =? chr "_") || ((chr "a" <=? lookahead) && (lookahead <=? chr "z")) then ADVANCE 610 else
      END_STATE)
  | 484 => ACCEPT_TOKEN sym_identifier (
      if (lookahead =? chr "a") then ADVANCE 609 else
      if ((chr "0" <=? lookahead) && (lookahead <=? chr "9")) || ((chr "A" <=? lookahead) && (lookahead <=? chr "Z")) || (lookahead =? chr "_") || ((chr "b" <=? lookahead) && (lookahead <=? chr "z")) then ADVANCE 610 else
      END_STATE)
  | 485 => ACCEPT_TOKEN sym_identifier (
      if (lookahead =? chr "a") then ADVANCE 549 else
      if ((chr "0" <=? lookahead) && (lookahead <=? chr "9")) || ((chr "A" <=? lookahead) && (lookahead <=? chr "Z")) || (lookahead =? chr "_") || ((chr "b" <=? lookahead) && (lookahead <=? chr "z")) then ADVANCE 610 else
      END_STATE)
  | 486 => ACCEPT_TOKEN sym_identifier (
      if (lookahead =? chr "a") then ADVANCE 580 else
      if (lookahead =? chr "e") then ADVANCE 569 else
      if (lookahead =? chr "o") then ADVANCE 574 else
      if ((chr "0" <=? lookahead) && (lookahead <=? chr "9")) || ((chr "A" <=? lookahead) && (lookahead <=? chr "Z")) || (lookahead =? chr "_") || ((chr "b" <=? lookahead) && (lookahead <=? chr "z")) then ADVANCE 610 else
      END_STATE)
  | 487 => ACCEPT_TOKEN sym_identifier (
      if (lookahead =? chr "a") then ADVANCE 580 else
      if (lookahead =? chr "e") then ADVANCE 569 else
      if ((chr "0" <=? lookahead) && (lookahead <=? chr "9")) || ((chr "A" <=? lookahead) && (lookahead <=? chr "Z")) || (lookahead =? chr "_") || ((chr "b" <=? lookahead) && (lookahead <=? chr "z")) then ADVANCE 610 else
      END_STATE)
  | 488 => ACCEPT_TOKEN sym_identifier (
      if (lookahead =? chr "a") then ADVANCE 580 else
      if ((chr "0" <=? lookahead) && (lookahead <=? chr "9")) || ((chr "A" <=? lookahead) && (lookahead <=? chr "Z")) || (lookahead =? chr "_") || ((chr "b" <=? lookahead) && (lookahead <=? chr "z")) then ADVANCE 610 else
      END_STATE)
  | 489 => ACCEPT_TOKEN sym_identifier (
      if (lookahead =? chr "a") then ADVANCE 592 else
      if ((chr "0" <=? lookahead) && (lookahead <=? chr "9")) || ((chr "A" <=? lookahead) && (lookahead <=? chr "Z")) || (lookahead =? chr "_") || ((chr "b" <=? lookahead) && (lookahead <=? chr "z")) then ADVANCE 610 else
      END_STATE)
  | 490 => ACCEPT_TOKEN sym_identifier (
      if (lookahead =? chr "a") then ADVANCE 581 else
      if ((chr "0" <=? lookahead) && (lookahead <=? chr "9")) || ((chr "A" <=? lookahead) && (lookahead <=? chr "Z")) || (lookahead =? chr "_") || ((chr "b" <=? lookahead) && (lookahead <=? chr "z")) then ADVANCE 610 else
      END_STATE)
  | 491 => ACCEPT_TOKEN sym_identifier (
      if (lookahead =? chr "c") then ADVANCE 544 else
      if ((chr "0" <=? lookahead) && (lookahead <=? chr "9")) || ((chr "A" <=? lookahead) && (lookahead <=? chr "Z")) || (lookahead =? chr "_") || ((chr "a" <=? lookahead) && (lookahead <=? chr "z")) then ADVANCE 610 else
      END_STATE)
  | 492 => ACCEPT_TOKEN sym_identifier (
      if (lookahead =? chr "c") then ADVANCE 599 else
      if ((chr "0" <=? lookahead) && (lookahead <=? chr "9")) || ((chr "A" <=? lookahead) && (lookahead <=? chr "Z")) || (lookahead =? chr "_") || ((chr "a" <=? lookahead) && (lookahead <=? chr "z")) then ADVANCE 610 else
      END_STATE)
  | 493 => ACCEPT_TOKEN sym_identifier (
      if (lookahead =? chr "d") then ADVANCE 494 else
      if (lookahead =? chr "t") then ADVANCE 594 else
      if ((chr "0" <=? lookahead) && (lookahead <=? chr "9")) || ((chr "A" <=? lookahead) && (lookahead <=? chr "Z")) || (lookahead =? chr "_") || ((chr "a" <=? lookahead) && (lookahead <=? chr "z")) then ADVANCE 610 else
      END_STATE)
  | 494 => ACCEPT_TOKEN sym_identifier (
      if (lookahead =? chr "d") then ADVANCE 433 else
      if ((chr "0" <=? lookahead) && (lookahead <=? chr "9")) || ((chr "A" <=? lookahead) && (lookahead <=? chr "Z")) || (lookahead =? chr "_") || ((chr "a" <=? lookahead) && (lookahead <=? chr "z")) then ADVANCE 610 else
      END_STATE)
  | 495 => ACCEPT_TOKEN sym_identifier (
      if (lookahead =? chr "d") then ADVANCE 465 else
      if ((chr "0" <=? lookahead) && (lookahead <=? chr "9")) || ((chr "A" <=? lookahead) && (lookahead <=? chr "Z")) || (lookahead =? chr "_") || ((chr "a" <=? lookahead) && (lookahead <=? chr "z")) then ADVANCE 370 else
      if negb (lookahead =? 0) then ADVANCE 369 else
      END_STATE)
  | 496 => ACCEPT_TOKEN sym_identifier (
      if (lookahead =? chr "d") then ADVANCE 434 else
      if ((chr "0" <=? lookahead) && (lookahead <=? chr "9")) || ((chr "A" <=? lookahead) && (lookahead <=? chr "Z")) || (lookahead =? chr "_") || ((chr "a" <=? lookahead) && (lookahead <=? chr "z")) then ADVANCE 610 else
      END_STATE)
  | 497 => ACCEPT_TOKEN sym_identifier (
      if (lookahead =? chr "d") then ADVANCE 471 else
      if ((chr "0" <=? lookahead) && (lookahead <=? chr "9")) || ((chr "A" <=? lookahead) && (lookahead <=? chr "Z")) || (lookahead =? chr "_") || ((chr "a" <=? lookahead) && (lookahead <=? chr "z")) then ADVANCE 610 else
      END_STATE)
  | 498 => ACCEPT_TOKEN sym_identifier (
      if (lookahead =? chr "d") then ADVANCE 496 else
      if (lookahead =? chr "t") then ADVANCE 594 else
      if ((chr "0" <=? lookahead) && (lookahead <=? chr "9")) || ((chr "A" <=? lookahead) && (lookahead <=? chr "Z")) || (lookahead =? chr "_") || ((chr "a" <=? lookahead) && (lookahead <=? chr "z")) then ADVANCE 610 else
      END_STATE)
  | 499 => ACCEPT_TOKEN sym_identifier (
      if (lookahead =? chr "d") then ADVANCE 500 else
      if ((chr "0" <=? lookahead) && (lookahead <=? chr "9")) || ((chr "A" <=? lookahead) && (lookahead <=? chr "Z")) || (lookahead =? chr "_") || ((chr "a" <=? lookahead) && (lookahead <=? chr "z")) then ADVANCE 610 else
      END_STATE)
  | 500 => ACCEPT_TOKEN sym_identifier (
      if (lookahead =? chr "d") then ADVANCE 512 else
      if ((chr "0" <=? lookahead) && (lookahead <=? chr "9")) || ((chr "A" <=? lookahead) && (lookahead <=? chr "Z")) || (lookahead =? chr "_") || ((chr "a" <=? lookahead) && (lookahead <=? chr "z")) then ADVANCE 610 else
      END_STATE)
  | 501 => ACCEPT_TOKEN sym_identifier (
      if (lookahead =? chr "d") then ADVANCE 542 else
      if ((chr "0" <=? lookahead) && (lookahead <=? chr "9")) || ((chr "A" <=? lookahead) && (lookahead <=? chr "Z")) || (lookahead =? chr "_") || ((chr "a" <=? lookahead) && (lookahead <=? chr "z")) then ADVANCE 610 else
      END_STATE)
  | 502 => ACCEPT_TOKEN sym_identifier (
      if (lookahead =? chr "d") then ADVANCE 589 else
      if ((chr "0" <=? lookahead) && (lookahead <=? chr "9")) || ((chr "A" <=? lookahead) && (lookahead <=? chr "Z")) || (lookahead =? chr "_") || ((chr "a" <=? lookahead) && (lookahead <=? chr "z")) then ADVANCE 610 else
      END_STATE)
  | 503 => ACCEPT_TOKEN sym_identifier (
      if (lookahead =? chr "e") then ADVANCE 546 else
      if (lookahead =? chr "u") then ADVANCE 537 else
      if ((chr "0" <=? lookahead) && (lookahead <=? chr "9")) || ((chr "A" <=? lookahead) && (lookahead <=? chr "Z")) || (lookahead =? chr "_") || ((chr "a" <=? lookahead) && (lookahead <=? chr "z")) then ADVANCE 610 else
      END_STATE)
  | 504 => ACCEPT_TOKEN sym_identifier (
      if (lookahead =? chr "e") then ADVANCE 491 else
      if (lookahead =? chr "i") then ADVANCE 583 else
      if (lookahead =? chr "o") then ADVANCE 475 else
      if ((chr "0" <=? lookahead) && (lookahead <=? chr "9")) || ((chr "A" <=? lookahead) && (lookahead <=? chr "Z")) || (lookahead =? chr "_") || ((chr "a" <=? lookahead) && (lookahead <=? chr "z")) then ADVANCE 610 else
      END_STATE)
  | 505 => ACCEPT_TOKEN sym_identifier (
      if (lookahead =? chr "e") then ADVANCE 555 else
      if ((chr "0" <=? lookahead) && (lookahead <=? chr "9")) || ((chr "A" <=? lookahead) && (lookahead <=? chr "Z")) || (lookahead =? chr "_") || ((chr "a" <=? lookahead) && (lookahead <=? chr "z")) then ADVANCE 610 else
      END_STATE)
  | 506 => ACCEPT_TOKEN sym_identifier (
      if (lookahead =? chr "e") then ADVANCE 552 else
      if (lookahead =? chr "i") then ADVANCE 588 else
      if ((chr "0" <=? lookahead) && (lookahead <=? chr "9")) || ((chr "A" <=? lookahead) && (lookahead <=? chr "Z")) || (lookahead =? chr "_") || ((chr "a" <=? lookahead) && (lookahead <=? chr "z")) then ADVANCE 610 else
      END_STATE)
  | 507 => ACCEPT_TOKEN sym_identifier (
      if (lookahead =? chr "e") then ADVANCE 551 else
      if ((chr "0" <=? lookahead) && (lookahead <=? chr "9")) || ((chr "A" <=? lookahead) && (lookahead <=? chr "Z")) || (lookahead =? chr "_") || ((chr "a" <=? lookahead) && (lookahead <=? chr "z")) then ADVANCE 610 else
      END_STATE)
  | 508 => ACCEPT_TOKEN sym_identifier (
      if (lookahead =? chr "e") then ADVANCE 468 else
      if ((chr "0" <=? lookahead) && (lookahead <=? chr "9")) || ((chr "A" <=? lookahead) && (lookahead <=? chr "Z")) || (lookahead =? chr "_") || ((chr "a" <=? lookahead) && (lookahead <=? chr "z")) then ADVANCE 610 else
      END_STATE)
  | 509 => ACCEPT_TOKEN sym_identifier (
      if (lookahead =? chr "e") then ADVANCE 426 else
      if ((chr "0" <=? lookahead) && (lookahead <=? chr "9")) || ((chr "A" <=? lookahead) && (lookahead <=? chr "Z")) || (lookahead =? chr "_") || ((chr "a" <=? lookahead) && (lookahead <=? chr "z")) then ADVANCE 610 else
      END_STATE)
  | 510 => ACCEPT_TOKEN sym_identifier (
      if (lookahead =? chr "e") then ADVANCE 437 else
      if ((chr "0" <=? lookahead) && (lookahead <=? chr "9")) || ((chr "A" <=? lookahead) && (lookahead <=? chr "Z")) || (lookahead =? chr "_") || ((chr "a" <=? lookahead) && (lookahead <=? chr "z")) then ADVANCE 610 else
      END_STATE)
  | 511 => ACCEPT_TOKEN sym_identifier (
      if (lookahead =? chr "e") then ADVANCE 419 else
      if ((chr "0" <=? lookahead) && (lookahead <=? chr "9")) || ((chr "A" <=? lookahead) && (lookahead <=? chr "Z")) || (lookahead =? chr "_") || ((chr "a" <=? lookahead) && (lookahead <=? chr "z")) then ADVANCE 610 else
      END_STATE)
  | 512 => ACCEPT_TOKEN sym_identifier (
      if (lookahead =? chr "e") then ADVANCE 497 else
      if ((chr "0" <=? lookahead) && (lookahead <=? chr "9")) || ((chr "A" <=? lookahead) && (lookahead <=? chr "Z")) || (lookahead =? chr "_") || ((chr "a" <=? lookahead) && (lookahead <=? chr "z")) then ADVANCE 610 else
      END_STATE)
  | 513 => ACCEPT_TOKEN sym_identifier (
      if (lookahead =? chr "e") then ADVANCE 492 else
      if ((chr "0" <=? lookahead) && (lookahead <=? chr "9")) || ((chr "A" <=? lookahead) && (lookahead <=? chr "Z")) || (lookahead =? chr "_") || ((chr "a" <=? lookahead) && (lookahead <=? chr "z")) then ADVANCE 610 else
      END_STATE)
  | 514 => ACCEPT_TOKEN sym_identifier (
      if (lookahead =? chr "e") then ADVANCE 559 else
      if ((chr "0" <=? lookahead) && (lookahead <=? chr "9")) || ((chr "A" <=? lookahead) && (lookahead <=? chr "Z")) || (lookahead =? chr "_") || ((chr "a" <=? lookahead) && (lookahead <=? chr "z")) then ADVANCE 610 else
      END_STATE)
  | 515 => ACCEPT_TOKEN sym_identifier (
      if (lookahead =? chr "e") then ADVANCE 569 else
      if (lookahead =? chr "o") then ADVANCE 574 else
      if ((chr "0" <=? lookahead) && (lookahead <=? chr "9")) || ((chr "A" <=? lookahead) && (lookahead <=? chr "Z")) || (lookahead =? chr "_") || ((chr "a" <=? lookahead) && (lookahead <=? chr "z")) then ADVANCE 610 else
      END_STATE)
  | 516 => ACCEPT_TOKEN sym_identifier (
      if (lookahead =? chr "e") then ADVANCE 569 else
      if ((chr "0" <=? lookahead) && (lookahead <=? chr "9")) || ((chr "A" <=? lookahead) && (lookahead <=? chr "Z")) || (lookahead =? chr "_") || ((chr "a" <=? lookahead) && (lookahead <=? chr "z")) then ADVANCE 610 else
      END_STATE)
  | 517 => ACCEPT_TOKEN sym_identifier (
      if (lookahead =? chr "e") then ADVANCE 489 else
      if ((chr "0" <=? lookahead) && (lookahead <=? chr "9")) || ((chr "A" <=? lookahead) && (lookahead <=? chr "Z")) || (lookahead =? chr "_") || ((chr "a" <=? lookahead) && (lookahead <=? chr "z")) then ADVANCE 610 else
      END_STATE)
  | 518 => ACCEPT_TOKEN sym_identifier (
      if (lookahead =? chr "e") then ADVANCE 590 else
      if (lookahead =? chr "t") then ADVANCE 486 else
      if ((chr "0" <=? lookahead) && (lookahead <=? chr "9")) || ((chr "A" <=? lookahead) && (lookahead <=? chr "Z")) || (lookahead =? chr "_") || ((chr "a" <=? lookahead) && (lookahead <=? chr "z")) then ADVANCE 610 else
      END_STATE)
  | 519 => ACCEPT_TOKEN sym_identifier (
      if (lookahead =? chr "e") then ADVANCE 590 else
      if (lookahead =? chr "t") then ADVANCE 487 else
      if ((chr "0" <=? lookahead) && (lookahead <=? chr "9")) || ((chr "A" <=? lookahead) && (lookahead <=? chr "Z")) || (lookahead =? chr "_") || ((chr "a" <=? lookahead) && (lookahead <=? chr "z")) then ADVANCE 610 else
      END_STATE)
  | 520 => ACCEPT_TOKEN sym_identifier (
      if (lookahead =? chr "e") then ADVANCE 590 else
      if (lookahead =? chr "t") then ADVANCE 515 else
      if ((chr "0" <=? lookahead) && (lookahead <=? chr "9")) || ((chr "A" <=? lookahead) && (lookahead <=? chr "Z")) || (lookahead =? chr "_") || ((chr "a" <=? lookahead) && (lookahead <=? chr "z")) then ADVANCE 610 else
      END_STATE)
  | 521 => ACCEPT_TOKEN sym_identifier (
      if (lookahead =? chr "e") then ADVANCE 590 else
      if (lookahead =? chr "t") then ADVANCE 516 else
      if ((chr "0" <=? lookahead) && (lookahead <=? chr "9")) || ((chr "A" <=? lookahead) && (lookahead <=? chr "Z")) || (lookahead =? chr "_") || ((chr "a" <=? lookahead) && (lookahead <=? chr "z")) then ADVANCE 610 else
      END_STATE)
  | 522 => ACCEPT_TOKEN sym_identifier (
      if (lookahead =? chr "e") then ADVANCE 573 else
      if ((chr "0" <=? lookahead) && (lookahead <=? chr "9")) || ((chr "A" <=? lookahead) && (lookahead <=? chr "Z")) || (lookahead =? chr "_") || ((chr "a" <=? lookahead) && (lookahead <=? chr "z")) then ADVANCE 610 else
      END_STATE)
  | 523 => ACCEPT_TOKEN sym_identifier (
      if (lookahead =? chr "e") then ADVANCE 480 else
      if ((chr "0" <=? lookahead) && (lookahead <=? chr "9")) || ((chr "A" <=? lookahead) && (lookahead <=? chr "Z")) || (lookahead =? chr "_") || ((chr "a" <=? lookahead) && (lookahead <=? chr "z")) then ADVANCE 610 else
      END_STATE)
  | 524 => ACCEPT_TOKEN sym_identifier (
      if (lookahead =? chr "e") then ADVANCE 578 else
      if ((chr "0" <=? lookahead) && (lookahead <=? chr "9")) || ((chr "A" <=? lookahead) && (lookahead <=? chr "Z")) || (lookahead =? chr "_") || ((chr "a" <=? lookahead) && (lookahead <=? chr "z")) then ADVANCE 610 else
      END_STATE)
  | 525 => ACCEPT_TOKEN sym_identifier (
      if (lookahead =? chr "e") then ADVANCE 553 else
      if (lookahead =? chr "i") then ADVANCE 588 else
      if ((chr "0" <=? lookahead) && (lookahead <=? chr "9")) || ((chr "A" <=? lookahead) && (lookahead <=? chr "Z")) || (lookahead =? chr "_") || ((chr "a" <=? lookahead) && (lookahead <=? chr "z")) then ADVANCE 610 else
      END_STATE)
  | 526 => ACCEPT_TOKEN sym_identifier (
      if (lookahead =? chr "f") then ADVANCE 414 else
      if (lookahead =? chr "s") then ADVANCE 464 else
      if ((chr "0" <=? lookahead) && (lookahead <=? chr "9")) || ((chr "A" <=? lookahead) && (lookahead <=? chr "Z")) || (lookahead =? chr "_") || ((chr "a" <=? lookahead) && (lookahead <=? chr "z")) then ADVANCE 610 else
      END_STATE)
  | 527 => ACCEPT_TOKEN sym_identifier (
      if (lookahead =? chr "f") then ADVANCE 415 else
      if (lookahead =? chr "n") then ADVANCE 570 else
      if (lookahead =? chr "s") then ADVANCE 464 else
      if ((chr "0" <=? lookahead) && (lookahead <=? chr "9")) || ((chr "A" <=? lookahead) && (lookahead <=? chr "Z")) || (lookahead =? chr "_") || ((chr "a" <=? lookahead) && (lookahead <=? chr "z")) then ADVANCE 610 else
      END_STATE)
  | 528 => ACCEPT_TOKEN sym_identifier (
      if (lookahead =? chr "f") then ADVANCE 415 else
      if (lookahead =? chr "n") then ADVANCE 570 else
      if ((chr "0" <=? lookahead) && (lookahead <=? chr "9")) || ((chr "A" <=? lookahead) && (lookahead <=? chr "Z")) || (lookahead =? chr "_") || ((chr "a" <=? lookahead) && (lookahead <=? chr "z")) then ADVANCE 610 else
      END_STATE)
  | 529 => ACCEPT_TOKEN sym_identifier (
      if (lookahead =? chr "g") then ADVANCE 470 else
      if ((chr "0" <=? lookahead) && (lookahead <=? chr "9")) || ((chr "A" <=? lookahead) && (lookahead <=? chr "Z")) || (lookahead =? chr "_") || ((chr "a" <=? lookahead) && (lookahead <=? chr "z")) then ADVANCE 610 else
      END_STATE)
  | 530 => ACCEPT_TOKEN sym_identifier (
      if (lookahead =? chr "g") then ADVANCE 483 else
      if ((chr "0" <=? lookahead) && (lookahead <=? chr "9")) || ((chr "A" <=? lookahead) && (lookahead <=? chr "Z")) || (lookahead =? chr "_") || ((chr "a" <=? lookahead) && (lookahead <=? chr "z")) then ADVANCE 610 else
      END_STATE)
  | 531 => ACCEPT_TOKEN sym_identifier (
      if (lookahead =? chr "g") then ADVANCE 598 else
      if ((chr "0" <=? lookahead) && (lookahead <=? chr "9")) || ((chr "A" <=? lookahead) && (lookahead <=? chr "Z")) || (lookahead =? chr "_") || ((chr "a" <=? lookahead) && (lookahead <=? chr "z")) then ADVANCE 610 else
      END_STATE)
  | 532 => ACCEPT_TOKEN sym_identifier (
      if (lookahead =? chr "g") then ADVANCE 587 else
      if ((chr "0" <=? lookahead) && (lookahead <=? chr "9")) || ((chr "A" <=? lookahead) && (lookahead <=? chr "Z")) || (lookahead =? chr "_") || ((chr "a" <=? lookahead) && (lookahead <=? chr "z")) then ADVANCE 610 else
      END_STATE)
  | 533 => ACCEPT_TOKEN sym_identifier (
      if (lookahead =? chr "h") then ADVANCE 522 else
      if ((chr "0" <=? lookahead) && (lookahead <=? chr "9")) || ((chr "A" <=? lookahead) && (lookahead <=? chr "Z")) || (lookahead =? chr "_") || ((chr "a" <=? lookahead) && (lookahead <=? chr "z")) then ADVANCE 610 else
      END_STATE)
  | 534 => ACCEPT_TOKEN sym_identifier (
      if (lookahead =? chr "h") then ADVANCE 472 else
      if ((chr "0" <=? lookahead) && (lookahead <=? chr "9")) || ((chr "A" <=? lookahead) && (lookahead <=? chr "Z")) || (lookahead =? chr "_") || ((chr "a" <=? lookahead) && (lookahead <=? chr "z")) then ADVANCE 610 else
      END_STATE)
  | 535 => ACCEPT_TOKEN sym_identifier (
      if (lookahead =? chr "h") then ADVANCE 514 else
      if ((chr "0" <=? lookahead) && (lookahead <=? chr "9")) || ((chr "A" <=? lookahead) && (lookahead <=? chr "Z")) || (lookahead =? chr "_") || ((chr "a" <=? lookahead) && (lookahead <=? chr "z")) then ADVANCE 610 else
      END_STATE)
  | 536 => ACCEPT_TOKEN sym_identifier (
      if (lookahead =? chr "h") then ADVANCE 539 else
      if ((chr "0" <=? lookahead) && (lookahead <=? chr "9")) || ((chr "A" <=? lookahead) && (lookahead <=? chr "Z")) || (lookahead =? chr "_") || ((chr "a" <=? lookahead) && (lookahead <=? chr "z")) then ADVANCE 610 else
      END_STATE)
  | 537 => ACCEPT_TOKEN sym_identifier (
      if (lookahead =? chr "i") then ADVANCE 547 else
      if ((chr "0" <=? lookahead) && (lookahead <=? chr "9")) || ((chr "A" <=? lookahead) && (lookahead <=? chr "Z")) || (lookahead =? chr "_") || ((chr "a" <=? lookahead) && (lookahead <=? chr "z")) then ADVANCE 610 else
      END_STATE)
  | 538 => ACCEPT_TOKEN sym_identifier (
      if (lookahead =? chr "i") then ADVANCE 591 else
      if ((chr "0" <=? lookahead) && (lookahead <=? chr "9")) || ((chr "A" <=? lookahead) && (lookahead <=? chr "Z")) || (lookahead =? chr "_") || ((chr "a" <=? lookahead) && (lookahead <=? chr "z")) then ADVANCE 610 else
      END_STATE)
  | 539 => ACCEPT_TOKEN sym_identifier (
      if (lookahead =? chr "i") then ADVANCE 550 else
      if ((chr "0" <=? lookahead) && (lookahead <=? chr "9")) || ((chr "A" <=? lookahead) && (lookahead <=? chr "Z")) || (lookahead =? chr "_") || ((chr "a" <=? lookahead) && (lookahead <=? chr "z")) then ADVANCE 610 else
      END_STATE)
  | 540 => ACCEPT_TOKEN sym_identifier (
      if (lookahead =? chr "i") then ADVANCE 586 else
      if ((chr "0" <=? lookahead) && (lookahead <=? chr "9")) || ((chr "A" <=? lookahead) && (lookahead <=? chr "Z")) || (lookahead =? chr "_") || ((chr "a" <=? lookahead) && (lookahead <=? chr "z")) then ADVANCE 610 else
      END_STATE)
  | 541 => ACCEPT_TOKEN sym_identifier (
      if (lookahead =? chr "i") then ADVANCE 560 else
      if ((chr "0" <=? lookahead) && (lookahead <=? chr "9")) || ((chr "A" <=? lookahead) && (lookahead <=? chr "Z")) || (lookahead =? chr "_") || ((chr "a" <=? lookahead) && (lookahead <=? chr "z")) then ADVANCE 610 else
      END_STATE)
  | 542 => ACCEPT_TOKEN sym_identifier (
      if (lookahead =? chr "i") then ADVANCE 563 else
      if ((chr "0" <=? lookahead) && (lookahead <=? chr "9")) || ((chr "A" <=? lookahead) && (lookahead <=? chr "Z")) || (lookahead =? chr "_") || ((chr "a" <=? lookahead) && (lookahead <=? chr "z")) then ADVANCE 610 else
      END_STATE)
  | 543 => ACCEPT_TOKEN sym_identifier (
      if (lookahead =? chr "l") then ADVANCE 395 else
      if ((chr "0" <=? lookahead) && (lookahead <=? chr "9")) || ((chr "A" <=? lookahead) && (lookahead <=? chr "Z")) || (lookahead =? chr "_") || ((chr "a" <=? lookahead) && (lookahead <=? chr "z")) then ADVANCE 610 else
      END_STATE)
  | 544 => ACCEPT_TOKEN sym_identifier (
      if (lookahead =? chr "l") then ADVANCE 490 else
      if ((chr "0" <=? lookahead) && (lookahead <=? chr "9")) || ((chr "A" <=? lookahead) && (lookahead <=? chr "Z")) || (lookahead =? chr "_") || ((chr "a" <=? lookahead) && (lookahead <=? chr "z")) then ADVANCE 610 else
      END_STATE)
  | 545 => ACCEPT_TOKEN sym_identifier (
      if (lookahead =? chr "l") then ADVANCE 566 else
      if (lookahead =? chr "o") then ADVANCE 575 else
      if ((chr "0" <=? lookahead) && (lookahead <=? chr "9")) || ((chr "A" <=? lookahead) && (lookahead <=? chr "Z")) || (lookahead =? chr "_") || ((chr "a" <=? lookahead) && (lookahead <=? chr "z")) then ADVANCE 610 else
      END_STATE)
  | 546 => ACCEPT_TOKEN sym_identifier (
      if (lookahead =? chr "l") then ADVANCE 568 else
      if ((chr "0" <=? lookahead) && (lookahead <=? chr "9")) || ((chr "A" <=? lookahead) && (lookahead <=? chr "Z")) || (lookahead =? chr "_") || ((chr "a" <=? lookahead) && (lookahead <=? chr "z")) then ADVANCE 610 else
      END_STATE)
  | 547 => ACCEPT_TOKEN sym_identifier (
      if (lookahead =? chr "l") then ADVANCE 501 else
      if ((chr "0" <=? lookahead) && (lookahead <=? chr "9")) || ((chr "A" <=? lookahead) && (lookahead <=? chr "Z")) || (lookahead =? chr "_") || ((chr "a" <=? lookahead) && (lookahead <=? chr "z")) then ADVANCE 610 else
      END_STATE)
  | 548 => ACCEPT_TOKEN sym_identifier (
      if (lookahead =? chr "l") then ADVANCE 484 else
      if ((chr "0" <=? lookahead) && (lookahead <=? chr "9")) || ((chr "A" <=? lookahead) && (lookahead <=? chr "Z")) || (lookahead =? chr "_") || ((chr "a" <=? lookahead) && (lookahead <=? chr "z")) then ADVANCE 610 else
      END_STATE)
  | 549 => ACCEPT_TOKEN sym_identifier (
      if (lookahead =? chr "l") then ADVANCE 543 else
      if ((chr "0" <=? lookahead) && (lookahead <=? chr "9")) || ((chr "A" <=? lookahead) && (lookahead <=? chr "Z")) || (lookahead =? chr "_") || ((chr "a" <=? lookahead) && (lookahead <=? chr "z")) then ADVANCE 610 else
      END_STATE)
  | 550 => ACCEPT_TOKEN sym_identifier (
      if (lookahead =? chr "l") then ADVANCE 509 else
      if ((chr "0" <=? lookahead) && (lookahead <=? chr "9")) || ((chr "A" <=? lookahead) && (lookahead <=? chr "Z")) || (lookahead =? chr "_") || ((chr "a" <=? lookahead) && (lookahead <=? chr "z")) then ADVANCE 610 else
      END_STATE)
  | 551 => ACCEPT_TOKEN sym_identifier (
      if (lookahead =? chr "m") then ADVANCE 572 else
      if ((chr "0" <=? lookahead) && (lookahead <=? chr "9")) || ((chr "A" <=? lookahead) && (lookahead <=? chr "Z")) || (lookahead =? chr "_") || ((chr "a" <=? lookahead) && (lookahead <=? chr "z")) then ADVANCE 610 else
      END_STATE)
  | 552 => ACCEPT_TOKEN sym_identifier (
      if (lookahead =? chr "m") then ADVANCE 564 else
      if (lookahead =? chr "p") then ADVANCE 517 else
      if (lookahead =? chr "t") then ADVANCE 603 else
      if ((chr "0" <=? lookahead) && (lookahead <=? chr "9")) || ((chr "A" <=? lookahead) && (lookahead <=? chr "Z")) || (lookahead =? chr "_") || ((chr "a" <=? lookahead) && (lookahead <=? chr "z")) then ADVANCE 610 else
      END_STATE)
  | 553 => ACCEPT_TOKEN sym_identifier (
      if (lookahead =? chr "m") then ADVANCE 564 else
      if (lookahead =? chr "p") then ADVANCE 517 else
      if (lookahead =? chr "t") then ADVANCE 604 else
      if ((chr "0" <=? lookahead) && (lookahead <=? chr "9")) || ((chr "A" <=? lookahead) && (lookahead <=? chr "Z")) || (lookahead =? chr "_") || ((chr "a" <=? lookahead) && (lookahead <=? chr "z")) then ADVANCE 610 else
      END_STATE)
  | 554 => ACCEPT_TOKEN sym_identifier (
      if (lookahead =? chr "n") then ADVANCE 495 else
      if (lookahead =? chr "x") then ADVANCE 367 else
      if ((chr "0" <=? lookahead) && (lookahead <=? chr "9")) || ((chr "A" <=? lookahead) && (lookahead <=? chr "Z")) || (lookahead =? chr "_") || ((chr "a" <=? lookahead) && (lookahead <=? chr "z")) then ADVANCE 368 else
      if negb (lookahead =? 0) then ADVANCE 366 else
      END_STATE)
  | 555 => ACCEPT_TOKEN sym_identifier (
      if (lookahead =? chr "n") then ADVANCE 531 else
      if ((chr "0" <=? lookahead) && (lookahead <=? chr "9")) || ((chr "A" <=? lookahead) && (lookahead <=? chr "Z")) || (lookahead =? chr "_") || ((chr "a" <=? lookahead) && (lookahead <=? chr "z")) then ADVANCE 610 else
      END_STATE)
  | 556 => ACCEPT_TOKEN sym_identifier (
      if (lookahead =? chr "n") then ADVANCE 405 else
      if ((chr "0" <=? lookahead) && (lookahead <=? chr "9")) || ((chr "A" <=? lookahead) && (lookahead <=? chr "Z")) || (lookahead =? chr "_") || ((chr "a" <=? lookahead) && (lookahead <=? chr "z")) then ADVANCE 610 else
      END_STATE)
  | 557 => ACCEPT_TOKEN sym_identifier (
      if (lookahead =? chr "n") then ADVANCE 407 else
      if ((chr "0" <=? lookahead) && (lookahead <=? chr "9")) || ((chr "A" <=? lookahead) && (lookahead <=? chr "Z")) || (lookahead =? chr "_") || ((chr "a" <=? lookahead) && (lookahead <=? chr "z")) then ADVANCE 610 else
      END_STATE)
  | 558 => ACCEPT_TOKEN sym_identifier (
      if (lookahead =? chr "n") then ADVANCE 532 else
      if ((chr "0" <=? lookahead) && (lookahead <=? chr "9")) || ((chr "A" <=? lookahead) && (lookahead <=? chr "Z")) || (lookahead =? chr "_") || ((chr "a" <=? lookahead) && (lookahead <=? chr "z")) then ADVANCE 610 else
      END_STATE)
  | 559 => ACCEPT_TOKEN sym_identifier (
      if (lookahead =? chr "n") then ADVANCE 469 else
      if ((chr "0" <=? lookahead) && (lookahead <=? chr "9")) || ((chr "A" <=? lookahead) && (lookahead <=? chr "Z")) || (lookahead =? chr "_") || ((chr "a" <=? lookahead) && (lookahead <=? chr "z")) then ADVANCE 610 else
      END_STATE)
  | 560 => ACCEPT_TOKEN sym_identifier (
      if (lookahead =? chr "n") then ADVANCE 529 else
      if ((chr "0" <=? lookahead) && (lookahead <=? chr "9")) || ((chr "A" <=? lookahead) && (lookahead <=? chr "Z")) || (lookahead =? chr "_") || ((chr "a" <=? lookahead) && (lookahead <=? chr "z")) then ADVANCE 610 else
      END_STATE)
  | 561 => ACCEPT_TOKEN sym_identifier (
      if (lookahead =? chr "n") then ADVANCE 502 else
      if (lookahead =? chr "x") then ADVANCE 538 else
      if ((chr "0" <=? lookahead) && (lookahead <=? chr "9")) || ((chr "A" <=? lookahead) && (lookahead <=? chr "Z")) || (lookahead =? chr "_") || ((chr "a" <=? lookahead) && (lookahead <=? chr "z")) then ADVANCE 610 else
      END_STATE)
  | 562 => ACCEPT_TOKEN sym_identifier (
      if (lookahead =? chr "n") then ADVANCE 502 else
      if ((chr "0" <=? lookahead) && (lookahead <=? chr "9")) || ((chr "A" <=? lookahead) && (lookahead <=? chr "Z")) || (lookahead =? chr "_") || ((chr "a" <=? lookahead) && (lookahead <=? chr "z")) then ADVANCE 610 else
      END_STATE)
  | 563 => ACCEPT_TOKEN sym_identifier (
      if (lookahead =? chr "n") then ADVANCE 530 else
      if ((chr "0" <=? lookahead) && (lookahead <=? chr "9")) || ((chr "A" <=? lookahead) && (lookahead <=? chr "Z")) || (lookahead =? chr "_") || ((chr "a" <=? lookahead) && (lookahead <=? chr "z")) then ADVANCE 610 else
      END_STATE)
  | 564 => ACCEPT_TOKEN sym_identifier (
      if (lookahead =? chr "o") then ADVANCE 606 else
      if ((chr "0" <=? lookahead) && (lookahead <=? chr "9")) || ((chr "A" <=? lookahead) && (lookahead <=? chr "Z")) || (lookahead =? chr "_") || ((chr "a" <=? lookahead) && (lookahead <=? chr "z")) then ADVANCE 610 else
      END_STATE)
  | 565 => ACCEPT_TOKEN sym_identifier (
      if (lookahead =? chr "o") then ADVANCE 597 else
      if ((chr "0" <=? lookahead) && (lookahead <=? chr "9")) || ((chr "A" <=? lookahead) && (lookahead <=? chr "Z")) || (lookahead =? chr "_") || ((chr "a" <=? lookahead) && (lookahead <=? chr "z")) then ADVANCE 610 else
      END_STATE)
  | 566 => ACCEPT_TOKEN sym_identifier (
      if (lookahead =? chr "o") then ADVANCE 567 else
      if ((chr "0" <=? lookahead) && (lookahead <=? chr "9")) || ((chr "A" <=? lookahead) && (lookahead <=? chr "Z")) || (lookahead =? chr "_") || ((chr "a" <=? lookahead) && (lookahead <=? chr "z")) then ADVANCE 610 else
      END_STATE)
  | 567 => ACCEPT_TOKEN sym_identifier (
      if (lookahead =? chr "o") then ADVANCE 576 else
      if ((chr "0" <=? lookahead) && (lookahead <=? chr "9")) || ((chr "A" <=? lookahead) && (lookahead <=? chr "Z")) || (lookahead =? chr "_") || ((chr "a" <=? lookahead) && (lookahead <=? chr "z")) then ADVANCE 610 else
      END_STATE)
  | 568 => ACCEPT_TOKEN sym_identifier (
      if (lookahead =? chr "o") then ADVANCE 558 else
      if ((chr "0" <=? lookahead) && (lookahead <=? chr "9")) || ((chr "A" <=? lookahead) && (lookahead <=? chr "Z")) || (lookahead =? chr "_") || ((chr "a" <=? lookahead) && (lookahead <=? chr "z")) then ADVANCE 610 else
      END_STATE)
  | 569 => ACCEPT_TOKEN sym_identifier (
      if (lookahead =? chr "p") then ADVANCE 476 else
      if ((chr "0" <=? lookahead) && (lookahead <=? chr "9")) || ((chr "A" <=? lookahead) && (lookahead <=? chr "Z")) || (lookahead =? chr "_") || ((chr "a" <=? lookahead) && (lookahead <=? chr "z")) then ADVANCE 610 else
      END_STATE)
  | 570 => ACCEPT_TOKEN sym_identifier (
      if (lookahead =? chr "p") then ADVANCE 605 else
      if ((chr "0" <=? lookahead) && (lookahead <=? chr "9")) || ((chr "A" <=? lookahead) && (lookahead <=? chr "Z")) || (lookahead =? chr "_") || ((chr "a" <=? lookahead) && (lookahead <=? chr "z")) then ADVANCE 610 else
      END_STATE)
  | 571 => ACCEPT_TOKEN sym_identifier (
      if (lookahead =? chr "p") then ADVANCE 548 else
      if ((chr "0" <=? lookahead) && (lookahead <=? chr "9")) || ((chr "A" <=? lookahead) && (lookahead <=? chr "Z")) || (lookahead =? chr "_") || ((chr "a" <=? lookahead) && (lookahead <=? chr "z")) then ADVANCE 610 else
      END_STATE)
  | 572 => ACCEPT_TOKEN sym_identifier (
      if (lookahead =? chr "p") then ADVANCE 600 else
      if ((chr "0" <=? lookahead) && (lookahead <=? chr "9")) || ((chr "A" <=? lookahead) && (lookahead <=? chr "Z")) || (lookahead =? chr "_") || ((chr "a" <=? lookahead) && (lookahead <=? chr "z")) then ADVANCE 610 else
      END_STATE)
  | 573 => ACCEPT_TOKEN sym_identifier (
      if (lookahead =? chr "r") then ADVANCE 607 else
      if ((chr "0" <=? lookahead) && (lookahead <=? chr "9")) || ((chr "A" <=? lookahead) && (lookahead <=? chr "Z")) || (lookahead =? chr "_") || ((chr "a" <=? lookahead) && (lookahead <=? chr "z")) then ADVANCE 610 else
      END_STATE)
  | 574 => ACCEPT_TOKEN sym_identifier (
      if (lookahead =? chr "r") then ADVANCE 541 else
      if ((chr "0" <=? lookahead) && (lookahead <=? chr "9")) || ((chr "A" <=? lookahead) && (lookahead <=? chr "Z")) || (lookahead =? chr "_") || ((chr "a" <=? lookahead) && (lookahead <=? chr "z")) then ADVANCE 610 else
      END_STATE)
  | 575 => ACCEPT_TOKEN sym_identifier (
      if (lookahead =? chr "r") then ADVANCE 466 else
      if ((chr "0" <=? lookahead) && (lookahead <=? chr "9")) || ((chr "A" <=? lookahead) && (lookahead <=? chr "Z")) || (lookahead =? chr "_") || ((chr "a" <=? lookahead) && (lookahead <=? chr "z")) then ADVANCE 610 else
      END_STATE)
  | 576 => ACCEPT_TOKEN sym_identifier (
      if (lookahead =? chr "r") then ADVANCE 477 else
      if ((chr "0" <=? lookahead) && (lookahead <=? chr "9")) || ((chr "A" <=? lookahead) && (lookahead <=? chr "Z")) || (lookahead =? chr "_") || ((chr "a" <=? lookahead) && (lookahead <=? chr "z")) then ADVANCE 610 else
      END_STATE)
  | 577 => ACCEPT_TOKEN sym_identifier (
      if (lookahead =? chr "r") then ADVANCE 556 else
      if ((chr "0" <=? lookahead) && (lookahead <=? chr "9")) || ((chr "A" <=? lookahead) && (lookahead <=? chr "Z")) || (lookahead =? chr "_") || ((chr "a" <=? lookahead) && (lookahead <=? chr "z")) then ADVANCE 610 else
      END_STATE)
  | 578 => ACCEPT_TOKEN sym_identifier (
      if (lookahead =? chr "r") then ADVANCE 478 else
      if ((chr "0" <=? lookahead) && (lookahead <=? chr "9")) || ((chr "A" <=? lookahead) && (lookahead <=? chr "Z")) || (lookahead =? chr "_") || ((chr "a" <=? lookahead) && (lookahead <=? chr "z")) then ADVANCE 610 else
      END_STATE)
  | 579 => ACCEPT_TOKEN sym_identifier (
      if (lookahead =? chr "r") then ADVANCE 557 else
      if ((chr "0" <=? lookahead) && (lookahead <=? chr "9")) || ((chr "A" <=? lookahead) && (lookahead <=? chr "Z")) || (lookahead =? chr "_") || ((chr "a" <=? lookahead) && (lookahead <=? chr "z")) then ADVANCE 610 else
      END_STATE)
  | 580 => ACCEPT_TOKEN sym_identifier (
      if (lookahead =? chr "r") then ADVANCE 596 else
      if ((chr "0" <=? lookahead) && (lookahead <=? chr "9")) || ((chr "A" <=? lookahead) && (lookahead <=? chr "Z")) || (lookahead =? chr "_") || ((chr "a" <=? lookahead) && (lookahead <=? chr "z")) then ADVANCE 610 else
      END_STATE)
  | 581 => ACCEPT_TOKEN sym_identifier (
      if (lookahead =? chr "r") then ADVANCE 523 else
      if ((chr "0" <=? lookahead) && (lookahead <=? chr "9")) || ((chr "A" <=? lookahead) && (lookahead <=? chr "Z")) || (lookahead =? chr "_") || ((chr "a" <=? lookahead) && (lookahead <=? chr "z")) then ADVANCE 610 else
      END_STATE)
  | 582 => ACCEPT_TOKEN sym_identifier (
      if (lookahead =? chr "s") then ADVANCE 464 else
      if ((chr "0" <=? lookahead) && (lookahead <=? chr "9")) || ((chr "A" <=? lookahead) && (lookahead <=? chr "Z")) || (lookahead =? chr "_") || ((chr "a" <=? lookahead) && (lookahead <=? chr "z")) then ADVANCE 610 else
      END_STATE)
  | 583 => ACCEPT_TOKEN sym_identifier (
      if (lookahead =? chr "s") then ADVANCE 571 else
      if ((chr "0" <=? lookahead) && (lookahead <=? chr "9")) || ((chr "A" <=? lookahead) && (lookahead <=? chr "Z")) || (lookahead =? chr "_") || ((chr "a" <=? lookahead) && (lookahead <=? chr "z")) then ADVANCE 610 else
      END_STATE)
  | 584 => ACCEPT_TOKEN sym_identifier (
      if (lookahead =? chr "s") then ADVANCE 474 else
      if ((chr "0" <=? lookahead) && (lookahead <=? chr "9")) || ((chr "A" <=? lookahead) && (lookahead <=? chr "Z")) || (lookahead =? chr "_") || ((chr "a" <=? lookahead) && (lookahead <=? chr "z")) then ADVANCE 610 else
      END_STATE)
  | 585 => ACCEPT_TOKEN sym_identifier (
      if (lookahead =? chr "s") then ADVANCE 481 else
      if ((chr "0" <=? lookahead) && (lookahead <=? chr "9")) || ((chr "A" <=? lookahead) && (lookahead <=? chr "Z")) || (lookahead =? chr "_") || ((chr "a" <=? lookahead) && (lookahead <=? chr "z")) then ADVANCE 610 else
      END_STATE)
  | 586 => ACCEPT_TOKEN sym_identifier (
      if (lookahead =? chr "s") then ADVANCE 511 else
      if ((chr "0" <=? lookahead) && (lookahead <=? chr "9")) || ((chr "A" <=? lookahead) && (lookahead <=? chr "Z")) || (lookahead =? chr "_") || ((chr "a" <=? lookahead) && (lookahead <=? chr "z")) then ADVANCE 610 else
      END_STATE)
  | 587 => ACCEPT_TOKEN sym_identifier (
      if (lookahead =? chr "s") then ADVANCE 473 else
      if ((chr "0" <=? lookahead) && (lookahead <=? chr "9")) || ((chr "A" <=? lookahead) && (lookahead <=? chr "Z")) || (lookahead =? chr "_") || ((chr "a" <=? lookahead) && (lookahead <=? chr "z")) then ADVANCE 610 else
      END_STATE)
  | 588 => ACCEPT_TOKEN sym_identifier (
      if (lookahead =? chr "s") then ADVANCE 524 else
      if ((chr "0" <=? lookahead) && (lookahead <=? chr "9")) || ((chr "A" <=? lookahead) && (lookahead <=? chr "Z")) || (lookahead =? chr "_") || ((chr "a" <=? lookahead) && (lookahead <=? chr "z")) then ADVANCE 610 else
      END_STATE)
  | 589 => ACCEPT_TOKEN sym_identifier (
      if (lookahead =? chr "s") then ADVANCE 467 else
      if ((chr "0" <=? lookahead) && (lookahead <=? chr "9")) || ((chr "A" <=? lookahead) && (lookahead <=? chr "Z")) || (lookahead =? chr "_") || ((chr "a" <=? lookahead) && (lookahead <=? chr "z")) then ADVANCE 610 else
      END_STATE)
  | 590 => ACCEPT_TOKEN sym_identifier (
      if (lookahead =? chr "t") then ADVANCE 392 else
      if ((chr "0" <=? lookahead) && (lookahead <=? chr "9")) || ((chr "A" <=? lookahead) && (lookahead <=? chr "Z")) || (lookahead =? chr "_") || ((chr "a" <=? lookahead) && (lookahead <=? chr "z")) then ADVANCE 610 else
      END_STATE)
  | 591 => ACCEPT_TOKEN sym_identifier (
      if (lookahead =? chr "t") then ADVANCE 410 else
      if ((chr "0" <=? lookahead) && (lookahead <=? chr "9")) || ((chr "A" <=? lookahead) && (lookahead <=? chr "Z")) || (lookahead =? chr "_") || ((chr "a" <=? lookahead) && (lookahead <=? chr "z")) then ADVANCE 610 else
      END_STATE)
  | 592 => ACCEPT_TOKEN sym_identifier (
      if (lookahead =? chr "t") then ADVANCE 421 else
      if ((chr "0" <=? lookahead) && (lookahead <=? chr "9")) || ((chr "A" <=? lookahead) && (lookahead <=? chr "Z")) || (lookahead =? chr "_") || ((chr "a" <=? lookahead) && (lookahead <=? chr "z")) then ADVANCE 610 else
      END_STATE)
  | 593 => ACCEPT_TOKEN sym_identifier (
      if (lookahead =? chr "t") then ADVANCE 402 else
      if ((chr "0" <=? lookahead) && (lookahead <=? chr "9")) || ((chr "A" <=? lookahead) && (lookahead <=? chr "Z")) || (lookahead =? chr "_") || ((chr "a" <=? lookahead) && (lookahead <=? chr "z")) then ADVANCE 610 else
      END_STATE)
  | 594 => ACCEPT_TOKEN sym_identifier (
      if (lookahead =? chr "t") then ADVANCE 507 else
      if ((chr "0" <=? lookahead) && (lookahead <=? chr "9")) || ((chr "A" <=? lookahead) && (lookahead <=? chr "Z")) || (lookahead =? chr "_") || ((chr "a" <=? lookahead) && (lookahead <=? chr "z")) then ADVANCE 610 else
      END_STATE)
  | 595 => ACCEPT_TOKEN sym_identifier (
      if (lookahead =? chr "t") then ADVANCE 533 else
      if ((chr "0" <=? lookahead) && (lookahead <=? chr "9")) || ((chr "A" <=? lookahead) && (lookahead <=? chr "Z")) || (lookahead =? chr "_") || ((chr "a" <=? lookahead) && (lookahead <=? chr "z")) then ADVANCE 610 else
      END_STATE)
  | 596 => ACCEPT_TOKEN sym_identifier (
      if (lookahead =? chr "t") then ADVANCE 584 else
      if ((chr "0" <=? lookahead) && (lookahead <=? chr "9")) || ((chr "A" <=? lookahead) && (lookahead <=? chr "Z")) || (lookahead =? chr "_") || ((chr "a" <=? lookahead) && (lookahead <=? chr "z")) then ADVANCE 610 else
      END_STATE)
  | 597 => ACCEPT_TOKEN sym_identifier (
      if (lookahead =? chr "t") then ADVANCE 508 else
      if ((chr "0" <=? lookahead) && (lookahead <=? chr "9")) || ((chr "A" <=? lookahead) && (lookahead <=? chr "Z")) || (lookahead =? chr "_") || ((chr "a" <=? lookahead) && (lookahead <=? chr "z")) then ADVANCE 610 else
      END_STATE)
  | 598 => ACCEPT_TOKEN sym_identifier (
      if (lookahead =? chr "t") then ADVANCE 534 else
      if ((chr "0" <=? lookahead) && (lookahead <=? chr "9")) || ((chr "A" <=? lookahead) && (lookahead <=? chr "Z")) || (lookahead =? chr "_") || ((chr "a" <=? lookahead) && (lookahead <=? chr "z")) then ADVANCE 610 else
      END_STATE)
  | 599 => ACCEPT_TOKEN sym_identifier (
      if (lookahead =? chr "t") then ADVANCE 585 else
      if ((chr "0" <=? lookahead) && (lookahead <=? chr "9")) || ((chr "A" <=? lookahead) && (lookahead <=? chr "Z")) || (lookahead =? chr "_") || ((chr "a" <=? lookahead) && (lookahead <=? chr "z")) then ADVANCE 610 else
      END_STATE)
  | 600 => ACCEPT_TOKEN sym_identifier (
      if (lookahead =? chr "t") then ADVANCE 479 else
      if ((chr "0" <=? lookahead) && (lookahead <=? chr "9")) || ((chr "A" <=? lookahead) && (lookahead <=? chr "Z")) || (lookahead =? chr "_") || ((chr "a" <=? lookahead) && (lookahead <=? chr "z")) then ADVANCE 610 else
      END_STATE)
  | 601 => ACCEPT_TOKEN sym_identifier (
      if (lookahead =? chr "t") then ADVANCE 488 else
      if ((chr "0" <=? lookahead) && (lookahead <=? chr "9")) || ((chr "A" <=? lookahead) && (lookahead <=? chr "Z")) || (lookahead =? chr "_") || ((chr "a" <=? lookahead) && (lookahead <=? chr "z")) then ADVANCE 610 else
      END_STATE)
  | 602 => ACCEPT_TOKEN sym_identifier (
      if (lookahead =? chr "u") then ADVANCE 537 else
      if ((chr "0" <=? lookahead) && (lookahead <=? chr "9")) || ((chr "A" <=? lookahead) && (lookahead <=? chr "Z")) || (lookahead =? chr "_") || ((chr "a" <=? lookahead) && (lookahead <=? chr "z")) then ADVANCE 610 else
      END_STATE)
  | 603 => ACCEPT_TOKEN sym_identifier (
      if (lookahead =? chr "u") then ADVANCE 577 else
      if ((chr "0" <=? lookahead) && (lookahead <=? chr "9")) || ((chr "A" <=? lookahead) && (lookahead <=? chr "Z")) || (lookahead =? chr "_") || ((chr "a" <=? lookahead) && (lookahead <=? chr "z")) then ADVANCE 610 else
      END_STATE)
  | 604 => ACCEPT_TOKEN sym_identifier (
      if (lookahead =? chr "u") then ADVANCE 579 else
      if ((chr "0" <=? lookahead) && (lookahead <=? chr "9")) || ((chr "A" <=? lookahead) && (lookahead <=? chr "Z")) || (lookahead =? chr "_") || ((chr "a" <=? lookahead) && (lookahead <=? chr "z")) then ADVANCE 610 else
      END_STATE)
  | 605 => ACCEPT_TOKEN sym_identifier (
      if (lookahead =? chr "u") then ADVANCE 593 else
      if ((chr "0" <=? lookahead) && (lookahead <=? chr "9")) || ((chr "A" <=? lookahead) && (lookahead <=? chr "Z")) || (lookahead =? chr "_") || ((chr "a" <=? lookahead) && (lookahead <=? chr "z")) then ADVANCE 610 else
      END_STATE)
  | 606 => ACCEPT_TOKEN sym_identifier (
      if (lookahead =? chr "v") then ADVANCE 510 else
      if ((chr "0" <=? lookahead) && (lookahead <=? chr "9")) || ((chr "A" <=? lookahead) && (lookahead <=? chr "Z")) || (lookahead =? chr "_") || ((chr "a" <=? lookahead) && (lookahead <=? chr "z")) then ADVANCE 610 else
      END_STATE)
  | 607 => ACCEPT_TOKEN sym_identifier (
      if (lookahead =? chr "w") then ADVANCE 540 else
      if ((chr "0" <=? lookahead) && (lookahead <=? chr "9")) || ((chr "A" <=? lookahead) && (lookahead <=? chr "Z")) || (lookahead =? chr "_") || ((chr "a" <=? lookahead) && (lookahead <=? chr "z")) then ADVANCE 610 else
      END_STATE)
  | 608 => ACCEPT_TOKEN sym_identifier (
      if (lookahead =? chr "x") then ADVANCE 538 else
      if ((chr "0" <=? lookahead) && (lookahead <=? chr "9")) || ((chr "A" <=? lookahead) && (lookahead <=? chr "Z")) || (lookahead =? chr "_") || ((chr "a" <=? lookahead) && (lookahead <=? chr "z")) then ADVANCE 610 else
      END_STATE)
  | 609 => ACCEPT_TOKEN sym_identifier (
      if (lookahead =? chr "y") then ADVANCE 399 else
      if ((chr "0" <=? lookahead) && (lookahead <=? chr "9")) || ((chr "A" <=? lookahead) && (lookahead <=? chr "Z")) || (lookahead =? chr "_") || ((chr "a" <=? lookahead) && (lookahead <=? chr "z")) then ADVANCE 610 else
      END_STATE)
  | 610 => ACCEPT_TOKEN sym_identifier (
      if ((chr "0" <=? lookahead) && (lookahead <=? chr "9")) || ((chr "A" <=? lookahead) && (lookahead <=? chr "Z")) || (lookahead =? chr "_") || ((chr "a" <=? lookahead) && (lookahead <=? chr "z")) then ADVANCE 610 else
      END_STATE)
  | 611 => ACCEPT_TOKEN sym__newline END_STATE
  | _ => None
  end.

Definition ts_lex_keywords (state : TSStateId) (eof : bool) (lookahead : N) : option lex_case :=
  match state with
  | 0 => NO_TOKEN (
      if (lookahead =? chr "a") then ADVANCE 1 else
      if (lookahead =? chr "b") then ADVANCE 2 else
      if (lookahead =? chr "c") then ADVANCE 3 else
      if (lookahead =? chr "e") then ADVANCE 4 else
      if (lookahead =? chr "f") then ADVANCE 5 else
      if (lookahead =? chr "i") then ADVANCE 6 else
      if (lookahead =? chr "l") then ADVANCE 7 else
      if (lookahead =? chr "n") then ADVANCE 8 else
      if (lookahead =? chr "o") then ADVANCE 9 else
      if (lookahead =? chr "t") then ADVANCE 10 else
      if (lookahead =? chr "w") then ADVANCE 11 else
      if (lookahead =? 9) || (lookahead =? chr " ") then SKIP 0 else
      END_STATE)
  | 1 => NO_TOKEN (
      if (lookahead =? chr "n") then ADVANCE 12 else
      if (lookahead =? chr "s") then ADVANCE 13 else
      END_STATE)
  | 2 => NO_TOKEN (
      if (lookahead =? chr "o") then ADVANCE 14 else
      END_STATE)
  | 3 => NO_TOKEN (
      if (lookahead =? chr "o") then ADVANCE 15 else
      END_STATE)
  | 4 => NO_TOKEN (
      if (lookahead =? chr "q") then ADVANCE 16 else
      END_STATE)
  | 5 => NO_TOKEN (
      if (lookahead =? chr "a") then ADVANCE 17 else
      if (lookahead =? chr "i") then ADVANCE 18 else
      if (lookahead =? chr "r") then ADVANCE 19 else
      END_STATE)
  | 6 => NO_TOKEN (
      if (lookahead =? chr "n") then ADVANCE 20 else
      END_STATE)
  | 7 => NO_TOKEN (
      if (lookahead =? chr "i") then ADVANCE 21 else
      END_STATE)
  | 8 => NO_TOKEN (
      if (lookahead =? chr "o") then ADVANCE 22 else
      if (lookahead =? chr "u") then ADVANCE 23 else
      END_STATE)
  | 9 => NO_TOKEN (
      if (lookahead =? chr "r") then ADVANCE 24 else
      END_STATE)
  | 10 => NO_TOKEN (
      if (lookahead =? chr "a") then ADVANCE 25 else
      if (lookahead =? chr "e") then ADVANCE 26 else
      if (lookahead =? chr "i") then ADVANCE 27 else
      if (lookahead =? chr "o") then ADVANCE 28 else
      if (lookahead =? chr "r") then ADVANCE 29 else
      END_STATE)
  | 11 => NO_TOKEN (
      if (lookahead =? chr "i") then ADVANCE 30 else
      END_STATE)
  | 12 => NO_TOKEN (
      if (lookahead =? chr "d") then ADVANCE 31 else
      END_STATE)
  | 13 => ACCEPT_TOKEN anon_sym_as END_STATE
  | 14 => NO_TOKEN (
      if (lookahead =? chr "o") then ADVANCE 32 else
      END_STATE)
  | 15 => NO_TOKEN (
      if (lookahead =? chr "n") then ADVANCE 33 else
      END_STATE)
  | 16 => NO_TOKEN (
      if (lookahead =? chr "u") then ADVANCE 34 else
      END_STATE)
  | 17 => NO_TOKEN (
      if (lookahead =? chr "l") then ADVANCE 35 else
      END_STATE)
  | 18 => NO_TOKEN (
      if (lookahead =? chr "x") then ADVANCE 36 else
      END_STATE)
  | 19 => NO_TOKEN (
      if (lookahead =? chr "o") then ADVANCE 37 else
      END_STATE)
  | 20 => ACCEPT_TOKEN anon_sym_in END_STATE
  | 21 => NO_TOKEN (
      if (lookahead =? chr "s") then ADVANCE 38 else
      END_STATE)
  | 22 => NO_TOKEN (
      if (lookahead =? chr "t") then ADVANCE 39 else
      END_STATE)
  | 23 => NO_TOKEN (
      if (lookahead =? chr "m") then ADVANCE 40 else
      END_STATE)
  | 24 => ACCEPT_TOKEN anon_sym_or END_STATE
  | 25 => NO_TOKEN (
      if (lookahead =? chr "b") then ADVANCE 41 else
      END_STATE)
  | 26 => NO_TOKEN (
      if (lookahead =? chr "x") then ADVANCE 42 else
      END_STATE)
  | 27 => NO_TOKEN (
      if (lookahead =? chr "m") then ADVANCE 43 else
      END_STATE)
  | 28 => ACCEPT_TOKEN anon_sym_to END_STATE
  | 29 => NO_TOKEN (
      if (lookahead =? chr "u") then ADVANCE 44 else
      END_STATE)
  | 30 => NO_TOKEN (
      if (lookahead =? chr "t") then ADVANCE 45 else
      END_STATE)
  | 31 => ACCEPT_TOKEN anon_sym_and END_STATE
  | 32 => NO_TOKEN (
      if (lookahead =? chr "l") then ADVANCE 46 else
      END_STATE)
  | 33 => NO_TOKEN (
      if (lookahead =? chr "t") then ADVANCE 47 else
      END_STATE)
  | 34 => NO_TOKEN (
      if (lookahead =? chr "a") then ADVANCE 48 else
      END_STATE)
  | 35 => NO_TOKEN (
      if (lookahead =? chr "s") then ADVANCE 49 else
      END_STATE)
  | 36 => NO_TOKEN (
      if (lookahead =? chr "e") then ADVANCE 50 else
      END_STATE)
  | 37 => NO_TOKEN (
      if (lookahead =? chr "m") then ADVANCE 51 else
      END_STATE)
  | 38 => NO_TOKEN (
      if (lookahead =? chr "t") then ADVANCE 52 else
      END_STATE)
  | 39 => ACCEPT_TOKEN anon_sym_not (
      if (lookahead =? chr "h") then ADVANCE 53 else
      END_STATE)
  | 40 => NO_TOKEN (
      if (lookahead =? chr "b") then ADVANCE 54 else
      END_STATE)
  | 41 => NO_TOKEN (
      if (lookahead =? chr "l") then ADVANCE 55 else
      END_STATE)
  | 42 => NO_TOKEN (
      if (lookahead =? chr "t") then ADVANCE 56 else
      END_STATE)
  | 43 => NO_TOKEN (
      if (lookahead =? chr "e") then ADVANCE 57 else
      END_STATE)
  | 44 => NO_TOKEN (
      if (lookahead =? chr "e") then ADVANCE 58 else
      END_STATE)
  | 45 => NO_TOKEN (
      if (lookahead =? chr "h") then ADVANCE 59 else
      END_STATE)
  | 46 => NO_TOKEN (
      if (lookahead =? chr "e") then ADVANCE 60 else
      END_STATE)
  | 47 => NO_TOKEN (
      if (lookahead =? chr "a") then ADVANCE 61 else
      END_STATE)
  | 48 => NO_TOKEN (
      if (lookahead =? chr "l") then ADVANCE 62 else
      END_STATE)
  | 49 => NO_TOKEN (
      if (lookahead =? chr "e") then ADVANCE 63 else
      END_STATE)
  | 50 => NO_TOKEN (
      if (lookahead =? chr "d") then ADVANCE 64 else
      END_STATE)
  | 51 => ACCEPT_TOKEN anon_sym_from END_STATE
  | 52 => ACCEPT_TOKEN anon_sym_list END_STATE
  | 53 => NO_TOKEN (
      if (lookahead =? chr "i") then ADVANCE 65 else
      END_STATE)
  | 54 => NO_TOKEN (
      if (lookahead =? chr "e") then ADVANCE 66 else
      END_STATE)
  | 55 => NO_TOKEN (
      if (lookahead =? chr "e") then ADVANCE 67 else
      END_STATE)
  | 56 => ACCEPT_TOKEN anon_sym_text END_STATE
  | 57 => NO_TOKEN (
      if (lookahead =? chr "s") then ADVANCE 68 else
      END_STATE)
  | 58 => ACCEPT_TOKEN anon_sym_true END_STATE
  | 59 => ACCEPT_TOKEN anon_sym_with END_STATE
  | 60 => NO_TOKEN (
      if (lookahead =? chr "a") then ADVANCE 69 else
      END_STATE)
  | 61 => NO_TOKEN (
      if (lookahead =? chr "i") then ADVANCE 70 else
      END_STATE)
  | 62 => NO_TOKEN (
      if (lookahead =? chr "s") then ADVANCE 71 else
      END_STATE)
  | 63 => ACCEPT_TOKEN anon_sym_false END_STATE
  | 64 => ACCEPT_TOKEN anon_sym_fixed END_STATE
  | 65 => NO_TOKEN (
      if (lookahead =? chr "n") then ADVANCE 72 else
      END_STATE)
  | 66 => NO_TOKEN (
      if (lookahead =? chr "r") then ADVANCE 73 else
      END_STATE)
  | 67 => ACCEPT_TOKEN anon_sym_table END_STATE
  | 68 => ACCEPT_TOKEN anon_sym_times END_STATE
  | 69 => NO_TOKEN (
      if (lookahead =? chr "n") then ADVANCE 74 else
      END_STATE)
  | 70 => NO_TOKEN (
      if (lookahead =? chr "n") then ADVANCE 75 else
      END_STATE)
  | 71 => ACCEPT_TOKEN anon_sym_equals END_STATE
  | 72 => NO_TOKEN (
      if (lookahead =? chr "g") then ADVANCE 76 else
      END_STATE)
  | 73 => ACCEPT_TOKEN anon_sym_number END_STATE
  | 74 => ACCEPT_TOKEN anon_sym_boolean END_STATE
  | 75 => NO_TOKEN (
      if (lookahead =? chr "s") then ADVANCE 77 else
      END_STATE)
  | 76 => ACCEPT_TOKEN sym_nothing END_STATE
  | 77 => ACCEPT_TOKEN anon_sym_contains END_STATE
  | _ => None
  end.

(** ** Lex modes and parse tables *)

Definition ts_lex_modes (state : TSStateId) : TSStateId :=
  match state with
  | 0 => 0
  | 1 => 262
  | 2 => 258
  | 3 => 258
  | 4 => 258
  | 5 => 258
  | 6 => 259
  | 7 => 258
  | 8 => 258
  | 9 => 258
  | 10 => 258
  | 11 => 258
  | 12 => 259
  | 13 => 258
  | 14 => 259
  | 15 => 258
  | 16 => 258
  | 17 => 258
  | 18 => 258
  | 19 => 258
  | 20 => 258
  | 21 => 259
  | 22 => 259
  | 23 => 259
  | 24 => 260
  | 25 => 262
  | 26 => 262
  | 27 => 259
  | 28 => 261
  | 29 => 261
  | 30 => 261
  | 31 => 261
  | 32 => 257
  | 33 => 261
  | 34 => 261
  | 35 => 261
  | 36 => 263
  | 37 => 263
  | 38 => 263
  | 39 => 263
  | 40 => 263
  | 41 => 262
  | 42 => 263
  | 43 => 263
  | 44 => 262
  | 45 => 264
  | 46 => 263
  | 47 => 263
  | 48 => 263
  | 49 => 262
  | 50 => 266
  | 51 => 262
  | 52 => 263
  | 53 => 263
  | 54 => 263
  | 55 => 265
  | 56 => 262
  | 57 => 262
  | 58 => 360
  | 59 => 262
  | 60 => 262
  | 61 => 262
  | 62 => 262
  | 63 => 262
  | 64 => 262
  | 65 => 262
  | 66 => 262
  | 67 => 262
  | 68 => 262
  | 69 => 262
  | 70 => 19
  | 71 => 262
  | 72 => 262
  | 73 => 262
  | 74 => 262
  | 75 => 262
  | 76 => 262
  | 77 => 262
  | 78 => 262
  | 79 => 262
  | 80 => 262
  | 81 => 262
  | 82 => 262
  | 83 => 262
  | 84 => 262
  | 85 => 262
  | 86 => 262
  | 87 => 19
  | 88 => 19
  | 89 => 19
  | 90 => 19
  | 91 => 21
  | 92 => 19
  | 93 => 19
  | 94 => 19
  | 95 => 19
  | 96 => 19
  | 97 => 19
  | 98 => 19
  | 99 => 19
  | 100 => 21
  | 101 => 19
  | 102 => 19
  | 103 => 19
  | 104 => 21
  | 105 => 19
  | 106 => 21
  | 107 => 19
  | 108 => 19
  | 109 => 19
  | 110 => 21
  | 111 => 19
  | 112 => 19
  | 113 => 69
  | 114 => 19
  | 115 => 19
  | 116 => 69
  | 117 => 69
  | 118 => 252
  | 119 => 252
  | 120 => 252
  | 121 => 252
  | 122 => 20
  | 123 => 20
  | 124 => 20
  | 125 => 252
  | 126 => 252
  | 127 => 252
  | 128 => 252
  | 129 => 0
  | 130 => 252
  | 131 => 252
  | 132 => 252
  | 133 => 0
  | 134 => 252
  | 135 => 252
  | 136 => 252
  | 137 => 0
  | 138 => 252
  | 139 => 252
  | 140 => 252
  | 141 => 252
  | 142 => 252
  | 143 => 252
  | 144 => 262
  | 145 => 252
  | 146 => 252
  | 147 => 252
  | 148 => 252
  | 149 => 252
  | 150 => 252
  | _ => 0
  end.

(** An entry of the parse table is either an index into the action list
    ([ACTIONS]) or, for a non-terminal, the next state ([STATE]). *)
Definition ACTIONS (id : N) : N := id.
Definition STATE (id : N) : N := id.

Definition ts_parse_table (state : TSStateId) (symbol : TSSymbol) : N :=
  match state with
  | 0 =>
    match symbol with
    | 0 (* ts_builtin_sym_end *) => ACTIONS 1
    | 1 (* sym_identifier *) => ACTIONS 1
    | 2 (* anon_sym_do_COLON *) => ACTIONS 1
    | 3 (* anon_sym_declare_COLON *) => ACTIONS 1
    | 4 (* anon_sym_note_COLON *) => ACTIONS 1
    | 6 (* anon_sym_noteblock_COLON *) => ACTIONS 1
    | 7 (* anon_sym_endnote *) => ACTIONS 1
    | 9 (* aux_sym_block_comment_content_token2 *) => ACTIONS 1
    | 10 (* aux_sym_block_comment_content_token3 *) => ACTIONS 1
    | 11 (* aux_sym_block_comment_content_token4 *) => ACTIONS 1
    | 12 (* aux_sym_block_comment_content_token5 *) => ACTIONS 1
    | 13 (* aux_sym_block_comment_content_token6 *) => ACTIONS 1
    | 14 (* aux_sym_block_comment_content_token7 *) => ACTIONS 1
    | 15 (* aux_sym_block_comment_content_token8 *) => ACTIONS 1
    | 16 (* anon_sym_building_COLON *) => ACTIONS 1
    | 17 (* anon_sym_floor_COLON *) => ACTIONS 1
    | 18 (* anon_sym_step_COLON *) => ACTIONS 1
    | 19 (* anon_sym_riser_COLON *) => ACTIONS 1
    | 20 (* anon_sym_belongsto_COLON *) => ACTIONS 1
    | 21 (* anon_sym_expects_COLON *) => ACTIONS 1
    | 22 (* anon_sym_returns_COLON *) => ACTIONS 1
    | 23 (* anon_sym_COMMA *) => ACTIONS 1
    | 24 (* anon_sym_as *) => ACTIONS 1
    | 25 (* anon_sym_number *) => ACTIONS 1
    | 26 (* anon_sym_text *) => ACTIONS 1
    | 27 (* anon_sym_boolean *) => ACTIONS 1
    | 28 (* anon_sym_list *) => ACTIONS 1
    | 29 (* anon_sym_table *) => ACTIONS 1
    | 30 (* anon_sym_fixed *) => ACTIONS 1
    | 31 (* anon_sym_EQ *) => ACTIONS 1
    | 32 (* anon_sym_set *) => ACTIONS 1
    | 33 (* anon_sym_to *) => ACTIONS 1
    | 34 (* anon_sym_call *) => ACTIONS 1
    | 35 (* anon_sym_with *) => ACTIONS 1
    | 36 (* anon_sym_storingresultin *) => ACTIONS 1
    | 37 (* anon_sym_display *) => ACTIONS 1
    | 39 (* anon_sym_return *) => ACTIONS 1
    | 40 (* sym_exit_statement *) => ACTIONS 1
    | 41 (* anon_sym_if *) => ACTIONS 1
    | 42 (* anon_sym_otherwiseif *) => ACTIONS 1
    | 43 (* anon_sym_otherwise *) => ACTIONS 1
    | 44 (* anon_sym_repeat *) => ACTIONS 1
    | 45 (* anon_sym_times *) => ACTIONS 1
    | 46 (* anon_sym_foreach *) => ACTIONS 1
    | 47 (* anon_sym_in *) => ACTIONS 1
    | 48 (* anon_sym_while *) => ACTIONS 1
    | 49 (* anon_sym_attempt_COLON *) => ACTIONS 1
    | 50 (* anon_sym_ifunsuccessful_COLON *) => ACTIONS 1
    | 51 (* anon_sym_thencontinue_COLON *) => ACTIONS 1
    | 52 (* anon_sym_add *) => ACTIONS 1
    | 53 (* anon_sym_remove *) => ACTIONS 1
    | 54 (* anon_sym_from *) => ACTIONS 1
    | 56 (* anon_sym_DQUOTE *) => ACTIONS 1
    | 58 (* sym_escape_sequence *) => ACTIONS 1
    | 59 (* anon_sym_true *) => ACTIONS 1
    | 60 (* anon_sym_false *) => ACTIONS 1
    | 61 (* sym_nothing *) => ACTIONS 1
    | 62 (* anon_sym_LBRACK *) => ACTIONS 1
    | 63 (* anon_sym_RBRACK *) => ACTIONS 1
    | 64 (* anon_sym_PLUS *) => ACTIONS 1
    | 65 (* anon_sym_DASH *) => ACTIONS 1
    | 66 (* anon_sym_STAR *) => ACTIONS 1
    | 67 (* anon_sym_SLASH *) => ACTIONS 1
    | 68 (* anon_sym_isequalto *) => ACTIONS 1
    | 69 (* anon_sym_equals *) => ACTIONS 1
    | 70 (* anon_sym_isnotequalto *) => ACTIONS 1
    | 71 (* anon_sym_islessthan *) => ACTIONS 1
    | 72 (* anon_sym_isgreaterthan *) => ACTIONS 1
    | 73 (* anon_sym_islessthanorequalto *) => ACTIONS 1
    | 74 (* anon_sym_isgreaterthanorequalto *) => ACTIONS 1
    | 75 (* anon_sym_and *) => ACTIONS 1
    | 76 (* anon_sym_or *) => ACTIONS 1
    | 77 (* anon_sym_addedto *) => ACTIONS 1
    | 78 (* anon_sym_contains *) => ACTIONS 1
    | 79 (* anon_sym_startswith *) => ACTIONS 1
    | 80 (* anon_sym_endswith *) => ACTIONS 1
    | 81 (* anon_sym_isin *) => ACTIONS 1
    | 82 (* anon_sym_not *) => ACTIONS 1
    | 83 (* anon_sym_lengthof *) => ACTIONS 1
    | 84 (* anon_sym_LPAREN *) => ACTIONS 1
    | 85 (* anon_sym_RPAREN *) => ACTIONS 1
    | 86 (* sym__newline *) => ACTIONS 1
    | _ => 0
    end
  | 1 =>
    match symbol with
    | 0 (* ts_builtin_sym_end *) => ACTIONS 3
    | 2 (* anon_sym_do_COLON *) => ACTIONS 5
    | 3 (* anon_sym_declare_COLON *) => ACTIONS 7
    | 4 (* anon_sym_note_COLON *) => ACTIONS 9
    | 6 (* anon_sym_noteblock_COLON *) => ACTIONS 11
    | 16 (* anon_sym_building_COLON *) => ACTIONS 13
    | 17 (* anon_sym_floor_COLON *) => ACTIONS 15
    | 18 (* anon_sym_step_COLON *) => ACTIONS 17
    | 19 (* anon_sym_riser_COLON *) => ACTIONS 19
    | 32 (* anon_sym_set *) => ACTIONS 21
    | 34 (* anon_sym_call *) => ACTIONS 23
    | 37 (* anon_sym_display *) => ACTIONS 25
    | 38 (* anon_sym_input *) => ACTIONS 27
    | 39 (* anon_sym_return *) => ACTIONS 29
    | 40 (* sym_exit_statement *) => ACTIONS 31
    | 41 (* anon_sym_if *) => ACTIONS 33
    | 44 (* anon_sym_repeat *) => ACTIONS 35
    | 46 (* anon_sym_foreach *) => ACTIONS 37
    | 48 (* anon_sym_while *) => ACTIONS 39
    | 49 (* anon_sym_attempt_COLON *) => ACTIONS 41
    | 52 (* anon_sym_add *) => ACTIONS 43
    | 53 (* anon_sym_remove *) => ACTIONS 45
    | 86 (* sym__newline *) => ACTIONS 31
    | 87 (* sym_source_file *) => STATE 129
    | 88 (* sym__statement *) => STATE 26
    | 89 (* sym_section_marker *) => STATE 26
    | 90 (* sym_comment *) => STATE 26
    | 91 (* sym_block_comment *) => STATE 26
    | 93 (* sym_structure_definition *) => STATE 26
    | 94 (* sym_building_def *) => STATE 67
    | 95 (* sym_floor_def *) => STATE 67
    | 96 (* sym_step_def *) => STATE 67
    | 97 (* sym_riser_def *) => STATE 67
    | 105 (* sym_declaration *) => STATE 26
    | 106 (* sym_assignment *) => STATE 26
    | 107 (* sym_call_statement *) => STATE 26
    | 111 (* sym_display_statement *) => STATE 26
    | 112 (* sym_input_statement *) => STATE 26
    | 113 (* sym_return_statement *) => STATE 26
    | 114 (* sym_if_statement *) => STATE 26
    | 117 (* sym_repeat_statement *) => STATE 26
    | 118 (* sym_for_each_statement *) => STATE 26
    | 119 (* sym_while_statement *) => STATE 26
    | 120 (* sym_attempt_statement *) => STATE 26
    | 123 (* sym_add_statement *) => STATE 26
    | 124 (* sym_remove_statement *) => STATE 26
    | 137 (* aux_sym_source_file_repeat1 *) => STATE 26
    | _ => 0
    end
  | _ => 0
  end.

Definition ts_small_parse_table : list N := [
  (* [0] *) 7;
    ACTIONS 51; 1;
      anon_sym_LBRACK;
    STATE 8; 1;
      aux_sym_argument_list_repeat1;
    STATE 96; 1;
      sym_binary_operator;
    ACTIONS 49; 2;
      anon_sym_otherwise;
      anon_sym_add;
    ACTIONS 55; 2;
      anon_sym_islessthan;
      anon_sym_isgreaterthan;
    ACTIONS 53; 16;
      anon_sym_PLUS;
      anon_sym_DASH;
      anon_sym_STAR;
      anon_sym_SLASH;
      anon_sym_isequalto;
      anon_sym_equals;
      anon_sym_isnotequalto;
      anon_sym_islessthanorequalto;
      anon_sym_isgreaterthanorequalto;
      anon_sym_and;
      anon_sym_or;
      anon_sym_addedto;
      anon_sym_contains;
      anon_sym_startswith;
      anon_sym_endswith;
      anon_sym_isin;
    ACTIONS 47; 30;
      ts_builtin_sym_end;
      anon_sym_do_COLON;
      anon_sym_declare_COLON;
      anon_sym_note_COLON;
      anon_sym_noteblock_COLON;
      anon_sym_building_COLON;
      anon_sym_floor_COLON;
      anon_sym_step_COLON;
      anon_sym_riser_COLON;
      anon_sym_COMMA;
      anon_sym_set;
      anon_sym_to;
      anon_sym_call;
      anon_sym_storingresultin;
      anon_sym_display;
      anon_sym_input;
      anon_sym_return;
      sym_exit_statement;
      anon_sym_if;
      anon_sym_otherwiseif;
      anon_sym_repeat;
      anon_sym_times;
      anon_sym_foreach;
      anon_sym_while;
      anon_sym_attempt_COLON;
      anon_sym_remove;
      anon_sym_from;
      anon_sym_RBRACK;
      anon_sym_RPAREN;
      sym__newline;
  (* [68] *) 4;
    ACTIONS 59; 1;
      anon_sym_with;
    STATE 20; 1;
      sym_with_clause;
    ACTIONS 61; 4;
      anon_sym_otherwise;
      anon_sym_add;
      anon_sym_islessthan;
      anon_sym_isgreaterthan;
    ACTIONS 57; 47;
      ts_builtin_sym_end;
      anon_sym_do_COLON;
      anon_sym_declare_COLON;
      anon_sym_note_COLON;
      anon_sym_noteblock_COLON;
      anon_sym_building_COLON;
      anon_sym_floor_COLON;
      anon_sym_step_COLON;
      anon_sym_riser_COLON;
      anon_sym_COMMA;
      anon_sym_set;
      anon_sym_to;
      anon_sym_call;
      anon_sym_storingresultin;
      anon_sym_display;
      anon_sym_input;
      anon_sym_return;
      sym_exit_statement;
      anon_sym_if;
      anon_sym_otherwiseif;
      anon_sym_repeat;
      anon_sym_times;
      anon_sym_foreach;
      anon_sym_while;
      anon_sym_attempt_COLON;
      anon_sym_remove;
      anon_sym_from;
      anon_sym_LBRACK;
      anon_sym_RBRACK;
      anon_sym_PLUS;
      anon_sym_DASH;
      anon_sym_STAR;
      anon_sym_SLASH;
      anon_sym_isequalto;
      anon_sym_equals;
      anon_sym_isnotequalto;
      anon_sym_islessthanorequalto;
      anon_sym_isgreaterthanorequalto;
      anon_sym_and;
      anon_sym_or;
      anon_sym_addedto;
      anon_sym_contains;
      anon_sym_startswith;
      anon_sym_endswith;
      anon_sym_isin;
      anon_sym_RPAREN;
      sym__newline;
  (* [130] *) 4;
    ACTIONS 51; 1;
      anon_sym_LBRACK;
    STATE 96; 1;
      sym_binary_operator;
    ACTIONS 65; 4;
      anon_sym_otherwise;
      anon_sym_add;
      anon_sym_islessthan;
      anon_sym_isgreaterthan;
    ACTIONS 63; 46;
      ts_builtin_sym_end;
      anon_sym_do_COLON;
      anon_sym_declare_COLON;
      anon_sym_note_COLON;
      anon_sym_noteblock_COLON;
      anon_sym_building_COLON;
      anon_sym_floor_COLON;
      anon_sym_step_COLON;
      anon_sym_riser_COLON;
      anon_sym_COMMA;
      anon_sym_set;
      anon_sym_to;
      anon_sym_call;
      anon_sym_storingresultin;
      anon_sym_display;
      anon_sym_input;
      anon_sym_return;
      sym_exit_statement;
      anon_sym_if;
      anon_sym_otherwiseif;
      anon_sym_repeat;
      anon_sym_times;
      anon_sym_foreach;
      anon_sym_while;
      anon_sym_attempt_COLON;
      anon_sym_remove;
      anon_sym_from;
      anon_sym_RBRACK;
      anon_sym_PLUS;
      anon_sym_DASH;
      anon_sym_STAR;
      anon_sym_SLASH;
      anon_sym_isequalto;
      anon_sym_equals;
      anon_sym_isnotequalto;
      anon_sym_islessthanorequalto;
      anon_sym_isgreaterthanorequalto;
      anon_sym_and;
      anon_sym_or;
      anon_sym_addedto;
      anon_sym_contains;
      anon_sym_startswith;
      anon_sym_endswith;
      anon_sym_isin;
      anon_sym_RPAREN;
      sym__newline;
  (* [191] *) 4;
    ACTIONS 51; 1;
      anon_sym_LBRACK;
    STATE 96; 1;
      sym_binary_operator;
    ACTIONS 69; 4;
      anon_sym_otherwise;
      anon_sym_add;
      anon_sym_islessthan;
      anon_sym_isgreaterthan;
    ACTIONS 67; 46;
      ts_builtin_sym_end;
      anon_sym_do_COLON;
      anon_sym_declare_COLON;
      anon_sym_note_COLON;
      anon_sym_noteblock_COLON;
      anon_sym_building_COLON;
      anon_sym_floor_COLON;
      anon_sym_step_COLON;
      anon_sym_riser_COLON;
      anon_sym_COMMA;
      anon_sym_set;
      anon_sym_to;
      anon_sym_call;
      anon_sym_storingresultin;
      anon_sym_display;
      anon_sym_input;
      anon_sym_return;
      sym_exit_statement;
      anon_sym_if;
      anon_sym_otherwiseif;
      anon_sym_repeat;
      anon_sym_times;
      anon_sym_foreach;
      anon_sym_while;
      anon_sym_attempt_COLON;
      anon_sym_remove;
      anon_sym_from;
      anon_sym_RBRACK;
      anon_sym_PLUS;
      anon_sym_DASH;
      anon_sym_STAR;
      anon_sym_SLASH;
      anon_sym_isequalto;
      anon_sym_equals;
      anon_sym_isnotequalto;
      anon_sym_islessthanorequalto;
      anon_sym_isgreaterthanorequalto;
      anon_sym_and;
      anon_sym_or;
      anon_sym_addedto;
      anon_sym_contains;
      anon_sym_startswith;
      anon_sym_endswith;
      anon_sym_isin;
      anon_sym_RPAREN;
      sym__newline;
  (* [252] *) 8;
    ACTIONS 51; 1;
      anon_sym_LBRACK;
    ACTIONS 71; 1;
      anon_sym_COMMA;
    STATE 14; 1;
      aux_sym_argument_list_repeat1;
    STATE 96; 1;
      sym_binary_operator;
    ACTIONS 49; 2;
      anon_sym_otherwise;
      anon_sym_add;
    ACTIONS 55; 2;
      anon_sym_islessthan;
      anon_sym_isgreaterthan;
    ACTIONS 53; 16;
      anon_sym_PLUS;
      anon_sym_DASH;
      anon_sym_STAR;
      anon_sym_SLASH;
      anon_sym_isequalto;
      anon_sym_equals;
      anon_sym_isnotequalto;
      anon_sym_islessthanorequalto;
      anon_sym_isgreaterthanorequalto;
      anon_sym_and;
      anon_sym_or;
      anon_sym_addedto;
      anon_sym_contains;
      anon_sym_startswith;
      anon_sym_endswith;
      anon_sym_isin;
    ACTIONS 47; 28;
      ts_builtin_sym_end;
      anon_sym_do_COLON;
      anon_sym_declare_COLON;
      anon_sym_note_COLON;
      anon_sym_noteblock_COLON;
      anon_sym_building_COLON;
      anon_sym_floor_COLON;
      anon_sym_step_COLON;
      anon_sym_riser_COLON;
      anon_sym_set;
      anon_sym_to;
      anon_sym_call;
      anon_sym_display;
      anon_sym_input;
      anon_sym_return;
      sym_exit_statement;
      anon_sym_if;
      anon_sym_otherwiseif;
      anon_sym_repeat;
      anon_sym_times;
      anon_sym_foreach;
      anon_sym_while;
      anon_sym_attempt_COLON;
      anon_sym_remove;
      anon_sym_from;
      anon_sym_RBRACK;
      anon_sym_RPAREN;
      sym__newline;
  (* [321] *) 4;
    ACTIONS 75; 1;
      anon_sym_COMMA;
    STATE 7; 1;
      aux_sym_argument_list_repeat1;
    ACTIONS 78; 4;
      anon_sym_otherwise;
      anon_sym_add;
      anon_sym_islessthan;
      anon_sym_isgreaterthan;
    ACTIONS 73; 46;
      ts_builtin_sym_end;
      anon_sym_do_COLON;
      anon_sym_declare_COLON;
      anon_sym_note_COLON;
      anon_sym_noteblock_COLON;
      anon_sym_building_COLON;
      anon_sym_floor_COLON;
      anon_sym_step_COLON;
      anon_sym_riser_COLON;
      anon_sym_set;
      anon_sym_to;
      anon_sym_call;
      anon_sym_storingresultin;
      anon_sym_display;
      anon_sym_input;
      anon_sym_return;
      sym_exit_statement;
      anon_sym_if;
      anon_sym_otherwiseif;
      anon_sym_repeat;
      anon_sym_times;
      anon_sym_foreach;
      anon_sym_while;
      anon_sym_attempt_COLON;
      anon_sym_remove;
      anon_sym_from;
      anon_sym_LBRACK;
      anon_sym_RBRACK;
      anon_sym_PLUS;
      anon_sym_DASH;
      anon_sym_STAR;
      anon_sym_SLASH;
      anon_sym_isequalto;
      anon_sym_equals;
      anon_sym_isnotequalto;
      anon_sym_islessthanorequalto;
      anon_sym_isgreaterthanorequalto;
      anon_sym_and;
      anon_sym_or;
      anon_sym_addedto;
      anon_sym_contains;
      anon_sym_startswith;
      anon_sym_endswith;
      anon_sym_isin;
      anon_sym_RPAREN;
      sym__newline;
  (* [382] *) 3;
    STATE 7; 1;
      aux_sym_argument_list_repeat1;
    ACTIONS 82; 4;
      anon_sym_otherwise;
      anon_sym_add;
      anon_sym_islessthan;
      anon_sym_isgreaterthan;
    ACTIONS 80; 47;
      ts_builtin_sym_end;
      anon_sym_do_COLON;
      anon_sym_declare_COLON;
      anon_sym_note_COLON;
      anon_sym_noteblock_COLON;
      anon_sym_building_COLON;
      anon_sym_floor_COLON;
      anon_sym_step_COLON;
      anon_sym_riser_COLON;
      anon_sym_COMMA;
      anon_sym_set;
      anon_sym_to;
      anon_sym_call;
      anon_sym_storingresultin;
      anon_sym_display;
      anon_sym_input;
      anon_sym_return;
      sym_exit_statement;
      anon_sym_if;
      anon_sym_otherwiseif;
      anon_sym_repeat;
      anon_sym_times;
      anon_sym_foreach;
      anon_sym_while;
      anon_sym_attempt_COLON;
      anon_sym_remove;
      anon_sym_from;
      anon_sym_LBRACK;
      anon_sym_RBRACK;
      anon_sym_PLUS;
      anon_sym_DASH;
      anon_sym_STAR;
      anon_sym_SLASH;
      anon_sym_isequalto;
      anon_sym_equals;
      anon_sym_isnotequalto;
      anon_sym_islessthanorequalto;
      anon_sym_isgreaterthanorequalto;
      anon_sym_and;
      anon_sym_or;
      anon_sym_addedto;
      anon_sym_contains;
      anon_sym_startswith;
      anon_sym_endswith;
      anon_sym_isin;
      anon_sym_RPAREN;
      sym__newline;
  (* [441] *) 6;
    ACTIONS 51; 1;
      anon_sym_LBRACK;
    STATE 96; 1;
      sym_binary_operator;
    ACTIONS 55; 2;
      anon_sym_islessthan;
      anon_sym_isgreaterthan;
    ACTIONS 78; 2;
      anon_sym_otherwise;
      anon_sym_add;
    ACTIONS 53; 16;
      anon_sym_PLUS;
      anon_sym_DASH;
      anon_sym_STAR;
      anon_sym_SLASH;
      anon_sym_isequalto;
      anon_sym_equals;
      anon_sym_isnotequalto;
      anon_sym_islessthanorequalto;
      anon_sym_isgreaterthanorequalto;
      anon_sym_and;
      anon_sym_or;
      anon_sym_addedto;
      anon_sym_contains;
      anon_sym_startswith;
      anon_sym_endswith;
      anon_sym_isin;
    ACTIONS 73; 30;
      ts_builtin_sym_end;
      anon_sym_do_COLON;
      anon_sym_declare_COLON;
      anon_sym_note_COLON;
      anon_sym_noteblock_COLON;
      anon_sym_building_COLON;
      anon_sym_floor_COLON;
      anon_sym_step_COLON;
      anon_sym_riser_COLON;
      anon_sym_COMMA;
      anon_sym_set;
      anon_sym_to;
      anon_sym_call;
      anon_sym_storingresultin;
      anon_sym_display;
      anon_sym_input;
      anon_sym_return;
      sym_exit_statement;
      anon_sym_if;
      anon_sym_otherwiseif;
      anon_sym_repeat;
      anon_sym_times;
      anon_sym_foreach;
      anon_sym_while;
      anon_sym_attempt_COLON;
      anon_sym_remove;
      anon_sym_from;
      anon_sym_RBRACK;
      anon_sym_RPAREN;
      sym__newline;
  (* [506] *) 2;
    ACTIONS 86; 4;
      anon_sym_otherwise;
      anon_sym_add;
      anon_sym_islessthan;
      anon_sym_isgreaterthan;
    ACTIONS 84; 47;
      ts_builtin_sym_end;
      anon_sym_do_COLON;
      anon_sym_declare_COLON;
      anon_sym_note_COLON;
      anon_sym_noteblock_COLON;
      anon_sym_building_COLON;
      anon_sym_floor_COLON;
      anon_sym_step_COLON;
      anon_sym_riser_COLON;
      anon_sym_COMMA;
      anon_sym_set;
      anon_sym_to;
      anon_sym_call;
      anon_sym_storingresultin;
      anon_sym_display;
      anon_sym_input;
      anon_sym_return;
      sym_exit_statement;
      anon_sym_if;
      anon_sym_otherwiseif;
      anon_sym_repeat;
      anon_sym_times;
      anon_sym_foreach;
      anon_sym_while;
      anon_sym_attempt_COLON;
      anon_sym_remove;
      anon_sym_from;
      anon_sym_LBRACK;
      anon_sym_RBRACK;
      anon_sym_PLUS;
      anon_sym_DASH;
      anon_sym_STAR;
      anon_sym_SLASH;
      anon_sym_isequalto;
      anon_sym_equals;
      anon_sym_isnotequalto;
      anon_sym_islessthanorequalto;
      anon_sym_isgreaterthanorequalto;
      anon_sym_and;
      anon_sym_or;
      anon_sym_addedto;
      anon_sym_contains;
      anon_sym_startswith;
      anon_sym_endswith;
      anon_sym_isin;
      anon_sym_RPAREN;
      sym__newline;
  (* [562] *) 2;
    ACTIONS 90; 4;
      anon_sym_otherwise;
      anon_sym_add;
      anon_sym_islessthan;
      anon_sym_isgreaterthan;
    ACTIONS 88; 47;
      ts_builtin_sym_end;
      anon_sym_do_COLON;
      anon_sym_declare_COLON;
      anon_sym_note_COLON;
      anon_sym_noteblock_COLON;
      anon_sym_building_COLON;
      anon_sym_floor_COLON;
      anon_sym_step_COLON;
      anon_sym_riser_COLON;
      anon_sym_COMMA;
      anon_sym_set;
      anon_sym_to;
      anon_sym_call;
      anon_sym_storingresultin;
      anon_sym_display;
      anon_sym_input;
      anon_sym_return;
      sym_exit_statement;
      anon_sym_if;
      anon_sym_otherwiseif;
      anon_sym_repeat;
      anon_sym_times;
      anon_sym_foreach;
      anon_sym_while;
      anon_sym_attempt_COLON;
      anon_sym_remove;
      anon_sym_from;
      anon_sym_LBRACK;
      anon_sym_RBRACK;
      anon_sym_PLUS;
      anon_sym_DASH;
      anon_sym_STAR;
      anon_sym_SLASH;
      anon_sym_isequalto;
      anon_sym_equals;
      anon_sym_isnotequalto;
      anon_sym_islessthanorequalto;
      anon_sym_isgreaterthanorequalto;
      anon_sym_and;
      anon_sym_or;
      anon_sym_addedto;
      anon_sym_contains;
      anon_sym_startswith;
      anon_sym_endswith;
      anon_sym_isin;
      anon_sym_RPAREN;
      sym__newline;
  (* [618] *) 4;
    ACTIONS 92; 1;
      anon_sym_with;
    STATE 20; 1;
      sym_with_clause;
    ACTIONS 61; 4;
      anon_sym_otherwise;
      anon_sym_add;
      anon_sym_islessthan;
      anon_sym_isgreaterthan;
    ACTIONS 57; 45;
      ts_builtin_sym_end;
      anon_sym_do_COLON;
      anon_sym_declare_COLON;
      anon_sym_note_COLON;
      anon_sym_noteblock_COLON;
      anon_sym_building_COLON;
      anon_sym_floor_COLON;
      anon_sym_step_COLON;
      anon_sym_riser_COLON;
      anon_sym_set;
      anon_sym_to;
      anon_sym_call;
      anon_sym_display;
      anon_sym_input;
      anon_sym_return;
      sym_exit_statement;
      anon_sym_if;
      anon_sym_otherwiseif;
      anon_sym_repeat;
      anon_sym_times;
      anon_sym_foreach;
      anon_sym_while;
      anon_sym_attempt_COLON;
      anon_sym_remove;
      anon_sym_from;
      anon_sym_LBRACK;
      anon_sym_RBRACK;
      anon_sym_PLUS;
      anon_sym_DASH;
      anon_sym_STAR;
      anon_sym_SLASH;
      anon_sym_isequalto;
      anon_sym_equals;
      anon_sym_isnotequalto;
      anon_sym_islessthanorequalto;
      anon_sym_isgreaterthanorequalto;
      anon_sym_and;
      anon_sym_or;
      anon_sym_addedto;
      anon_sym_contains;
      anon_sym_startswith;
      anon_sym_endswith;
      anon_sym_isin;
      anon_sym_RPAREN;
      sym__newline;
  (* [678] *) 2;
    ACTIONS 96; 4;
      anon_sym_otherwise;
      anon_sym_add;
      anon_sym_islessthan;
      anon_sym_isgreaterthan;
    ACTIONS 94; 47;
      ts_builtin_sym_end;
      anon_sym_do_COLON;
      anon_sym_declare_COLON;
      anon_sym_note_COLON;
      anon_sym_noteblock_COLON;
      anon_sym_building_COLON;
      anon_sym_floor_COLON;
      anon_sym_step_COLON;
      anon_sym_riser_COLON;
      anon_sym_COMMA;
      anon_sym_set;
      anon_sym_to;
      anon_sym_call;
      anon_sym_storingresultin;
      anon_sym_display;
      anon_sym_input;
      anon_sym_return;
      sym_exit_statement;
      anon_sym_if;
      anon_sym_otherwiseif;
      anon_sym_repeat;
      anon_sym_times;
      anon_sym_foreach;
      anon_sym_while;
      anon_sym_attempt_COLON;
      anon_sym_remove;
      anon_sym_from;
      anon_sym_LBRACK;
      anon_sym_RBRACK;
      anon_sym_PLUS;
      anon_sym_DASH;
      anon_sym_STAR;
      anon_sym_SLASH;
      anon_sym_isequalto;
      anon_sym_equals;
      anon_sym_isnotequalto;
      anon_sym_islessthanorequalto;
      anon_sym_isgreaterthanorequalto;
      anon_sym_and;
      anon_sym_or;
      anon_sym_addedto;
      anon_sym_contains;
      anon_sym_startswith;
      anon_sym_endswith;
      anon_sym_isin;
      anon_sym_RPAREN;
      sym__newline;
  (* [734] *) 4;
    ACTIONS 71; 1;
      anon_sym_COMMA;
    STATE 7; 1;
      aux_sym_argument_list_repeat1;
    ACTIONS 82; 4;
      anon_sym_otherwise;
      anon_sym_add;
      anon_sym_islessthan;
      anon_sym_isgreaterthan;
    ACTIONS 80; 45;
      ts_builtin_sym_end;
      anon_sym_do_COLON;
      anon_sym_declare_COLON;
      anon_sym_note_COLON;
      anon_sym_noteblock_COLON;
      anon_sym_building_COLON;
      anon_sym_floor_COLON;
      anon_sym_step_COLON;
      anon_sym_riser_COLON;
      anon_sym_set;
      anon_sym_to;
      anon_sym_call;
      anon_sym_display;
      anon_sym_input;
      anon_sym_return;
      sym_exit_statement;
      anon_sym_if;
      anon_sym_otherwiseif;
      anon_sym_repeat;
      anon_sym_times;
      anon_sym_foreach;
      anon_sym_while;
      anon_sym_attempt_COLON;
      anon_sym_remove;
      anon_sym_from;
      anon_sym_LBRACK;
      anon_sym_RBRACK;
      anon_sym_PLUS;
      anon_sym_DASH;
      anon_sym_STAR;
      anon_sym_SLASH;
      anon_sym_isequalto;
      anon_sym_equals;
      anon_sym_isnotequalto;
      anon_sym_islessthanorequalto;
      anon_sym_isgreaterthanorequalto;
      anon_sym_and;
      anon_sym_or;
      anon_sym_addedto;
      anon_sym_contains;
      anon_sym_startswith;
      anon_sym_endswith;
      anon_sym_isin;
      anon_sym_RPAREN;
      sym__newline;
  (* [794] *) 2;
    ACTIONS 100; 4;
      anon_sym_otherwise;
      anon_sym_add;
      anon_sym_islessthan;
      anon_sym_isgreaterthan;
    ACTIONS 98; 47;
      ts_builtin_sym_end;
      anon_sym_do_COLON;
      anon_sym_declare_COLON;
      anon_sym_note_COLON;
      anon_sym_noteblock_COLON;
      anon_sym_building_COLON;
      anon_sym_floor_COLON;
      anon_sym_step_COLON;
      anon_sym_riser_COLON;
      anon_sym_COMMA;
      anon_sym_set;
      anon_sym_to;
      anon_sym_call;
      anon_sym_storingresultin;
      anon_sym_display;
      anon_sym_input;
      anon_sym_return;
      sym_exit_statement;
      anon_sym_if;
      anon_sym_otherwiseif;
      anon_sym_repeat;
      anon_sym_times;
      anon_sym_foreach;
      anon_sym_while;
      anon_sym_attempt_COLON;
      anon_sym_remove;
      anon_sym_from;
      anon_sym_LBRACK;
      anon_sym_RBRACK;
      anon_sym_PLUS;
      anon_sym_DASH;
      anon_sym_STAR;
      anon_sym_SLASH;
      anon_sym_isequalto;
      anon_sym_equals;
      anon_sym_isnotequalto;
      anon_sym_islessthanorequalto;
      anon_sym_isgreaterthanorequalto;
      anon_sym_and;
      anon_sym_or;
      anon_sym_addedto;
      anon_sym_contains;
      anon_sym_startswith;
      anon_sym_endswith;
      anon_sym_isin;
      anon_sym_RPAREN;
      sym__newline;
  (* [850] *) 2;
    ACTIONS 104; 4;
      anon_sym_otherwise;
      anon_sym_add;
      anon_sym_islessthan;
      anon_sym_isgreaterthan;
    ACTIONS 102; 47;
      ts_builtin_sym_end;
      anon_sym_do_COLON;
      anon_sym_declare_COLON;
      anon_sym_note_COLON;
      anon_sym_noteblock_COLON;
      anon_sym_building_COLON;
      anon_sym_floor_COLON;
      anon_sym_step_COLON;
      anon_sym_riser_COLON;
      anon_sym_COMMA;
      anon_sym_set;
      anon_sym_to;
      anon_sym_call;
      anon_sym_storingresultin;
      anon_sym_display;
      anon_sym_input;
      anon_sym_return;
      sym_exit_statement;
      anon_sym_if;
      anon_sym_otherwiseif;
      anon_sym_repeat;
      anon_sym_times;
      anon_sym_foreach;
      anon_sym_while;
      anon_sym_attempt_COLON;
      anon_sym_remove;
      anon_sym_from;
      anon_sym_LBRACK;
      anon_sym_RBRACK;
      anon_sym_PLUS;
      anon_sym_DASH;
      anon_sym_STAR;
      anon_sym_SLASH;
      anon_sym_isequalto;
      anon_sym_equals;
      anon_sym_isnotequalto;
      anon_sym_islessthanorequalto;
      anon_sym_isgreaterthanorequalto;
      anon_sym_and;
      anon_sym_or;
      anon_sym_addedto;
      anon_sym_contains;
      anon_sym_startswith;
      anon_sym_endswith;
      anon_sym_isin;
      anon_sym_RPAREN;
      sym__newline;
  (* [906] *) 2;
    ACTIONS 108; 4;
      anon_sym_otherwise;
      anon_sym_add;
      anon_sym_islessthan;
      anon_sym_isgreaterthan;
    ACTIONS 106; 47;
      ts_builtin_sym_end;
      anon_sym_do_COLON;
      anon_sym_declare_COLON;
      anon_sym_note_COLON;
      anon_sym_noteblock_COLON;
      anon_sym_building_COLON;
      anon_sym_floor_COLON;
      anon_sym_step_COLON;
      anon_sym_riser_COLON;
      anon_sym_COMMA;
      anon_sym_set;
      anon_sym_to;
      anon_sym_call;
      anon_sym_storingresultin;
      anon_sym_display;
      anon_sym_input;
      anon_sym_return;
      sym_exit_statement;
      anon_sym_if;
      anon_sym_otherwiseif;
      anon_sym_repeat;
      anon_sym_times;
      anon_sym_foreach;
      anon_sym_while;
      anon_sym_attempt_COLON;
      anon_sym_remove;
      anon_sym_from;
      anon_sym_LBRACK;
      anon_sym_RBRACK;
      anon_sym_PLUS;
      anon_sym_DASH;
      anon_sym_STAR;
      anon_sym_SLASH;
      anon_sym_isequalto;
      anon_sym_equals;
      anon_sym_isnotequalto;
      anon_sym_islessthanorequalto;
      anon_sym_isgreaterthanorequalto;
      anon_sym_and;
      anon_sym_or;
      anon_sym_addedto;
      anon_sym_contains;
      anon_sym_startswith;
      anon_sym_endswith;
      anon_sym_isin;
      anon_sym_RPAREN;
      sym__newline;
  (* [962] *) 2;
    ACTIONS 112; 4;
      anon_sym_otherwise;
      anon_sym_add;
      anon_sym_islessthan;
      anon_sym_isgreaterthan;
    ACTIONS 110; 47;
      ts_builtin_sym_end;
      anon_sym_do_COLON;
      anon_sym_declare_COLON;
      anon_sym_note_COLON;
      anon_sym_noteblock_COLON;
      anon_sym_building_COLON;
      anon_sym_floor_COLON;
      anon_sym_step_COLON;
      anon_sym_riser_COLON;
      anon_sym_COMMA;
      anon_sym_set;
      anon_sym_to;
      anon_sym_call;
      anon_sym_storingresultin;
      anon_sym_display;
      anon_sym_input;
      anon_sym_return;
      sym_exit_statement;
      anon_sym_if;
      anon_sym_otherwiseif;
      anon_sym_repeat;
      anon_sym_times;
      anon_sym_foreach;
      anon_sym_while;
      anon_sym_attempt_COLON;
      anon_sym_remove;
      anon_sym_from;
      anon_sym_LBRACK;
      anon_sym_RBRACK;
      anon_sym_PLUS;
      anon_sym_DASH;
      anon_sym_STAR;
      anon_sym_SLASH;
      anon_sym_isequalto;
      anon_sym_equals;
      anon_sym_isnotequalto;
      anon_sym_islessthanorequalto;
      anon_sym_isgreaterthanorequalto;
      anon_sym_and;
      anon_sym_or;
      anon_sym_addedto;
      anon_sym_contains;
      anon_sym_startswith;
      anon_sym_endswith;
      anon_sym_isin;
      anon_sym_RPAREN;
      sym__newline;
  (* [1018] *) 2;
    ACTIONS 116; 4;
      anon_sym_otherwise;
      anon_sym_add;
      anon_sym_islessthan;
      anon_sym_isgreaterthan;
    ACTIONS 114; 47;
      ts_builtin_sym_end;
      anon_sym_do_COLON;
      anon_sym_declare_COLON;
      anon_sym_note_COLON;
      anon_sym_noteblock_COLON;
      anon_sym_building_COLON;
      anon_sym_floor_COLON;
      anon_sym_step_COLON;
      anon_sym_riser_COLON;
      anon_sym_COMMA;
      anon_sym_set;
      anon_sym_to;
      anon_sym_call;
      anon_sym_storingresultin;
      anon_sym_display;
      anon_sym_input;
      anon_sym_return;
      sym_exit_statement;
      anon_sym_if;
      anon_sym_otherwiseif;
      anon_sym_repeat;
      anon_sym_times;
      anon_sym_foreach;
      anon_sym_while;
      anon_sym_attempt_COLON;
      anon_sym_remove;
      anon_sym_from;
      anon_sym_LBRACK;
      anon_sym_RBRACK;
      anon_sym_PLUS;
      anon_sym_DASH;
      anon_sym_STAR;
      anon_sym_SLASH;
      anon_sym_isequalto;
      anon_sym_equals;
      anon_sym_isnotequalto;
      anon_sym_islessthanorequalto;
      anon_sym_isgreaterthanorequalto;
      anon_sym_and;
      anon_sym_or;
      anon_sym_addedto;
      anon_sym_contains;
      anon_sym_startswith;
      anon_sym_endswith;
      anon_sym_isin;
      anon_sym_RPAREN;
      sym__newline;
  (* [1074] *) 2;
    ACTIONS 120; 4;
      anon_sym_otherwise;
      anon_sym_add;
      anon_sym_islessthan;
      anon_sym_isgreaterthan;
    ACTIONS 118; 47;
      ts_builtin_sym_end;
      anon_sym_do_COLON;
      anon_sym_declare_COLON;
      anon_sym_note_COLON;
      anon_sym_noteblock_COLON;
      anon_sym_building_COLON;
      anon_sym_floor_COLON;
      anon_sym_step_COLON;
      anon_sym_riser_COLON;
      anon_sym_COMMA;
      anon_sym_set;
      anon_sym_to;
      anon_sym_call;
      anon_sym_storingresultin;
      anon_sym_display;
      anon_sym_input;
      anon_sym_return;
      sym_exit_statement;
      anon_sym_if;
      anon_sym_otherwiseif;
      anon_sym_repeat;
      anon_sym_times;
      anon_sym_foreach;
      anon_sym_while;
      anon_sym_attempt_COLON;
      anon_sym_remove;
      anon_sym_from;
      anon_sym_LBRACK;
      anon_sym_RBRACK;
      anon_sym_PLUS;
      anon_sym_DASH;
      anon_sym_STAR;
      anon_sym_SLASH;
      anon_sym_isequalto;
      anon_sym_equals;
      anon_sym_isnotequalto;
      anon_sym_islessthanorequalto;
      anon_sym_isgreaterthanorequalto;
      anon_sym_and;
      anon_sym_or;
      anon_sym_addedto;
      anon_sym_contains;
      anon_sym_startswith;
      anon_sym_endswith;
      anon_sym_isin;
      anon_sym_RPAREN;
      sym__newline;
  (* [1130] *) 4;
    ACTIONS 51; 1;
      anon_sym_LBRACK;
    STATE 92; 1;
      sym_binary_operator;
    ACTIONS 65; 4;
      anon_sym_otherwise;
      anon_sym_add;
      anon_sym_islessthan;
      anon_sym_isgreaterthan;
    ACTIONS 63; 44;
      ts_builtin_sym_end;
      anon_sym_do_COLON;
      anon_sym_declare_COLON;
      anon_sym_note_COLON;
      anon_sym_noteblock_COLON;
      anon_sym_building_COLON;
      anon_sym_floor_COLON;
      anon_sym_step_COLON;
      anon_sym_riser_COLON;
      anon_sym_set;
      anon_sym_to;
      anon_sym_call;
      anon_sym_display;
      anon_sym_input;
      anon_sym_return;
      sym_exit_statement;
      anon_sym_if;
      anon_sym_otherwiseif;
      anon_sym_repeat;
      anon_sym_times;
      anon_sym_foreach;
      anon_sym_while;
      anon_sym_attempt_COLON;
      anon_sym_remove;
      anon_sym_from;
      anon_sym_RBRACK;
      anon_sym_PLUS;
      anon_sym_DASH;
      anon_sym_STAR;
      anon_sym_SLASH;
      anon_sym_isequalto;
      anon_sym_equals;
      anon_sym_isnotequalto;
      anon_sym_islessthanorequalto;
      anon_sym_isgreaterthanorequalto;
      anon_sym_and;
      anon_sym_or;
      anon_sym_addedto;
      anon_sym_contains;
      anon_sym_startswith;
      anon_sym_endswith;
      anon_sym_isin;
      anon_sym_RPAREN;
      sym__newline;
  (* [1189] *) 4;
    ACTIONS 51; 1;
      anon_sym_LBRACK;
    STATE 92; 1;
      sym_binary_operator;
    ACTIONS 69; 4;
      anon_sym_otherwise;
      anon_sym_add;
      anon_sym_islessthan;
      anon_sym_isgreaterthan;
    ACTIONS 67; 44;
      ts_builtin_sym_end;
      anon_sym_do_COLON;
      anon_sym_declare_COLON;
      anon_sym_note_COLON;
      anon_sym_noteblock_COLON;
      anon_sym_building_COLON;
      anon_sym_floor_COLON;
      anon_sym_step_COLON;
      anon_sym_riser_COLON;
      anon_sym_set;
      anon_sym_to;
      anon_sym_call;
      anon_sym_display;
      anon_sym_input;
      anon_sym_return;
      sym_exit_statement;
      anon_sym_if;
      anon_sym_otherwiseif;
      anon_sym_repeat;
      anon_sym_times;
      anon_sym_foreach;
      anon_sym_while;
      anon_sym_attempt_COLON;
      anon_sym_remove;
      anon_sym_from;
      anon_sym_RBRACK;
      anon_sym_PLUS;
      anon_sym_DASH;
      anon_sym_STAR;
      anon_sym_SLASH;
      anon_sym_isequalto;
      anon_sym_equals;
      anon_sym_isnotequalto;
      anon_sym_islessthanorequalto;
      anon_sym_isgreaterthanorequalto;
      anon_sym_and;
      anon_sym_or;
      anon_sym_addedto;
      anon_sym_contains;
      anon_sym_startswith;
      anon_sym_endswith;
      anon_sym_isin;
      anon_sym_RPAREN;
      sym__newline;
  (* [1248] *) 10;
    ACTIONS 51; 1;
      anon_sym_LBRACK;
    ACTIONS 124; 1;
      anon_sym_otherwiseif;
    ACTIONS 126; 1;
      anon_sym_otherwise;
    ACTIONS 128; 1;
      anon_sym_add;
    STATE 75; 1;
      sym_otherwise_clause;
    STATE 92; 1;
      sym_binary_operator;
    ACTIONS 55; 2;
      anon_sym_islessthan;
      anon_sym_isgreaterthan;
    STATE 41; 2;
      sym_otherwise_if_clause;
      aux_sym_if_statement_repeat1;
    ACTIONS 53; 16;
      anon_sym_PLUS;
      anon_sym_DASH;
      anon_sym_STAR;
      anon_sym_SLASH;
      anon_sym_isequalto;
      anon_sym_equals;
      anon_sym_isnotequalto;
      anon_sym_islessthanorequalto;
      anon_sym_isgreaterthanorequalto;
      anon_sym_and;
      anon_sym_or;
      anon_sym_addedto;
      anon_sym_contains;
      anon_sym_startswith;
      anon_sym_endswith;
      anon_sym_isin;
    ACTIONS 122; 22;
      ts_builtin_sym_end;
      anon_sym_do_COLON;
      anon_sym_declare_COLON;
      anon_sym_note_COLON;
      anon_sym_noteblock_COLON;
      anon_sym_building_COLON;
      anon_sym_floor_COLON;
      anon_sym_step_COLON;
      anon_sym_riser_COLON;
      anon_sym_set;
      anon_sym_call;
      anon_sym_display;
      anon_sym_input;
      anon_sym_return;
      sym_exit_statement;
      anon_sym_if;
      anon_sym_repeat;
      anon_sym_foreach;
      anon_sym_while;
      anon_sym_attempt_COLON;
      anon_sym_remove;
      sym__newline;
  (* [1317] *) 8;
    ACTIONS 49; 1;
      anon_sym_add;
    ACTIONS 51; 1;
      anon_sym_LBRACK;
    ACTIONS 71; 1;
      anon_sym_COMMA;
    STATE 44; 1;
      aux_sym_argument_list_repeat1;
    STATE 96; 1;
      sym_binary_operator;
    ACTIONS 55; 2;
      anon_sym_islessthan;
      anon_sym_isgreaterthan;
    ACTIONS 53; 16;
      anon_sym_PLUS;
      anon_sym_DASH;
      anon_sym_STAR;
      anon_sym_SLASH;
      anon_sym_isequalto;
      anon_sym_equals;
      anon_sym_isnotequalto;
      anon_sym_islessthanorequalto;
      anon_sym_isgreaterthanorequalto;
      anon_sym_and;
      anon_sym_or;
      anon_sym_addedto;
      anon_sym_contains;
      anon_sym_startswith;
      anon_sym_endswith;
      anon_sym_isin;
    ACTIONS 47; 24;
      ts_builtin_sym_end;
      anon_sym_do_COLON;
      anon_sym_declare_COLON;
      anon_sym_note_COLON;
      anon_sym_noteblock_COLON;
      anon_sym_building_COLON;
      anon_sym_floor_COLON;
      anon_sym_step_COLON;
      anon_sym_riser_COLON;
      anon_sym_set;
      anon_sym_call;
      anon_sym_storingresultin;
      anon_sym_display;
      anon_sym_input;
      anon_sym_return;
      sym_exit_statement;
      anon_sym_if;
      anon_sym_repeat;
      anon_sym_foreach;
      anon_sym_while;
      anon_sym_attempt_COLON;
      anon_sym_remove;
      anon_sym_RBRACK;
      sym__newline;
  (* [1381] *) 24;
    ACTIONS 130; 1;
      ts_builtin_sym_end;
    ACTIONS 132; 1;
      anon_sym_do_COLON;
    ACTIONS 135; 1;
      anon_sym_declare_COLON;
    ACTIONS 138; 1;
      anon_sym_note_COLON;
    ACTIONS 141; 1;
      anon_sym_noteblock_COLON;
    ACTIONS 144; 1;
      anon_sym_building_COLON;
    ACTIONS 147; 1;
      anon_sym_floor_COLON;
    ACTIONS 150; 1;
      anon_sym_step_COLON;
    ACTIONS 153; 1;
      anon_sym_riser_COLON;
    ACTIONS 156; 1;
      anon_sym_set;
    ACTIONS 159; 1;
      anon_sym_call;
    ACTIONS 162; 1;
      anon_sym_display;
    ACTIONS 165; 1;
      anon_sym_input;
    ACTIONS 168; 1;
      anon_sym_return;
    ACTIONS 174; 1;
      anon_sym_if;
    ACTIONS 177; 1;
      anon_sym_repeat;
    ACTIONS 180; 1;
      anon_sym_foreach;
    ACTIONS 183; 1;
      anon_sym_while;
    ACTIONS 186; 1;
      anon_sym_attempt_COLON;
    ACTIONS 189; 1;
      anon_sym_add;
    ACTIONS 192; 1;
      anon_sym_remove;
    ACTIONS 171; 2;
      sym_exit_statement;
      sym__newline;
    STATE 67; 4;
      sym_building_def;
      sym_floor_def;
      sym_step_def;
      sym_riser_def;
    STATE 25; 19;
      sym__statement;
      sym_section_marker;
      sym_comment;
      sym_block_comment;
      sym_structure_definition;
      sym_declaration;
      sym_assignment;
      sym_call_statement;
      sym_display_statement;
      sym_input_statement;
      sym_return_statement;
      sym_if_statement;
      sym_repeat_statement;
      sym_for_each_statement;
      sym_while_statement;
      sym_attempt_statement;
      sym_add_statement;
      sym_remove_statement;
      aux_sym_source_file_repeat1;
  (* [1476] *) 24;
    ACTIONS 5; 1;
      anon_sym_do_COLON;
    ACTIONS 7; 1;
      anon_sym_declare_COLON;
    ACTIONS 9; 1;
      anon_sym_note_COLON;
    ACTIONS 11; 1;
      anon_sym_noteblock_COLON;
    ACTIONS 13; 1;
      anon_sym_building_COLON;
    ACTIONS 15; 1;
      anon_sym_floor_COLON;
    ACTIONS 17; 1;
      anon_sym_step_COLON;
    ACTIONS 19; 1;
      anon_sym_riser_COLON;
    ACTIONS 21; 1;
      anon_sym_set;
    ACTIONS 23; 1;
      anon_sym_call;
    ACTIONS 25; 1;
      anon_sym_display;
    ACTIONS 27; 1;
      anon_sym_input;
    ACTIONS 29; 1;
      anon_sym_return;
    ACTIONS 33; 1;
      anon_sym_if;
    ACTIONS 35; 1;
      anon_sym_repeat;
    ACTIONS 37; 1;
      anon_sym_foreach;
    ACTIONS 39; 1;
      anon_sym_while;
    ACTIONS 41; 1;
      anon_sym_attempt_COLON;
    ACTIONS 43; 1;
      anon_sym_add;
    ACTIONS 45; 1;
      anon_sym_remove;
    ACTIONS 195; 1;
      ts_builtin_sym_end;
    ACTIONS 197; 2;
      sym_exit_statement;
      sym__newline;
    STATE 67; 4;
      sym_building_def;
      sym_floor_def;
      sym_step_def;
      sym_riser_def;
    STATE 25; 19;
      sym__statement;
      sym_section_marker;
      sym_comment;
      sym_block_comment;
      sym_structure_definition;
      sym_declaration;
      sym_assignment;
      sym_call_statement;
      sym_display_statement;
      sym_input_statement;
      sym_return_statement;
      sym_if_statement;
      sym_repeat_statement;
      sym_for_each_statement;
      sym_while_statement;
      sym_attempt_statement;
      sym_add_statement;
      sym_remove_statement;
      aux_sym_source_file_repeat1;
  (* [1571] *) 6;
    ACTIONS 51; 1;
      anon_sym_LBRACK;
    STATE 92; 1;
      sym_binary_operator;
    ACTIONS 55; 2;
      anon_sym_islessthan;
      anon_sym_isgreaterthan;
    ACTIONS 201; 2;
      anon_sym_otherwise;
      anon_sym_add;
    ACTIONS 53; 16;
      anon_sym_PLUS;
      anon_sym_DASH;
      anon_sym_STAR;
      anon_sym_SLASH;
      anon_sym_isequalto;
      anon_sym_equals;
      anon_sym_isnotequalto;
      anon_sym_islessthanorequalto;
      anon_sym_isgreaterthanorequalto;
      anon_sym_and;
      anon_sym_or;
      anon_sym_addedto;
      anon_sym_contains;
      anon_sym_startswith;
      anon_sym_endswith;
      anon_sym_isin;
    ACTIONS 199; 23;
      ts_builtin_sym_end;
      anon_sym_do_COLON;
      anon_sym_declare_COLON;
      anon_sym_note_COLON;
      anon_sym_noteblock_COLON;
      anon_sym_building_COLON;
      anon_sym_floor_COLON;
      anon_sym_step_COLON;
      anon_sym_riser_COLON;
      anon_sym_set;
      anon_sym_call;
      anon_sym_display;
      anon_sym_input;
      anon_sym_return;
      sym_exit_statement;
      anon_sym_if;
      anon_sym_otherwiseif;
      anon_sym_repeat;
      anon_sym_foreach;
      anon_sym_while;
      anon_sym_attempt_COLON;
      anon_sym_remove;
      sym__newline;
  (* [1629] *) 6;
    ACTIONS 51; 1;
      anon_sym_LBRACK;
    ACTIONS 205; 1;
      anon_sym_add;
    STATE 92; 1;
      sym_binary_operator;
    ACTIONS 55; 2;
      anon_sym_islessthan;
      anon_sym_isgreaterthan;
    ACTIONS 53; 16;
      anon_sym_PLUS;
      anon_sym_DASH;
      anon_sym_STAR;
      anon_sym_SLASH;
      anon_sym_isequalto;
      anon_sym_equals;
      anon_sym_isnotequalto;
      anon_sym_islessthanorequalto;
      anon_sym_isgreaterthanorequalto;
      anon_sym_and;
      anon_sym_or;
      anon_sym_addedto;
      anon_sym_contains;
      anon_sym_startswith;
      anon_sym_endswith;
      anon_sym_isin;
    ACTIONS 203; 22;
      ts_builtin_sym_end;
      anon_sym_do_COLON;
      anon_sym_declare_COLON;
      anon_sym_note_COLON;
      anon_sym_noteblock_COLON;
      anon_sym_building_COLON;
      anon_sym_floor_COLON;
      anon_sym_step_COLON;
      anon_sym_riser_COLON;
      anon_sym_set;
      anon_sym_call;
      anon_sym_display;
      anon_sym_input;
      anon_sym_return;
      sym_exit_statement;
      anon_sym_if;
      anon_sym_repeat;
      anon_sym_foreach;
      anon_sym_while;
      anon_sym_attempt_COLON;
      anon_sym_remove;
      sym__newline;
  (* [1685] *) 6;
    ACTIONS 51; 1;
      anon_sym_LBRACK;
    ACTIONS 209; 1;
      anon_sym_add;
    STATE 92; 1;
      sym_binary_operator;
    ACTIONS 55; 2;
      anon_sym_islessthan;
      anon_sym_isgreaterthan;
    ACTIONS 53; 16;
      anon_sym_PLUS;
      anon_sym_DASH;
      anon_sym_STAR;
      anon_sym_SLASH;
      anon_sym_isequalto;
      anon_sym_equals;
      anon_sym_isnotequalto;
      anon_sym_islessthanorequalto;
      anon_sym_isgreaterthanorequalto;
      anon_sym_and;
      anon_sym_or;
      anon_sym_addedto;
      anon_sym_contains;
      anon_sym_startswith;
      anon_sym_endswith;
      anon_sym_isin;
    ACTIONS 207; 22;
      ts_builtin_sym_end;
      anon_sym_do_COLON;
      anon_sym_declare_COLON;
      anon_sym_note_COLON;
      anon_sym_noteblock_COLON;
      anon_sym_building_COLON;
      anon_sym_floor_COLON;
      anon_sym_step_COLON;
      anon_sym_riser_COLON;
      anon_sym_set;
      anon_sym_call;
      anon_sym_display;
      anon_sym_input;
      anon_sym_return;
      sym_exit_statement;
      anon_sym_if;
      anon_sym_repeat;
      anon_sym_foreach;
      anon_sym_while;
      anon_sym_attempt_COLON;
      anon_sym_remove;
      sym__newline;
  (* [1741] *) 6;
    ACTIONS 51; 1;
      anon_sym_LBRACK;
    ACTIONS 213; 1;
      anon_sym_add;
    STATE 92; 1;
      sym_binary_operator;
    ACTIONS 55; 2;
      anon_sym_islessthan;
      anon_sym_isgreaterthan;
    ACTIONS 53; 16;
      anon_sym_PLUS;
      anon_sym_DASH;
      anon_sym_STAR;
      anon_sym_SLASH;
      anon_sym_isequalto;
      anon_sym_equals;
      anon_sym_isnotequalto;
      anon_sym_islessthanorequalto;
      anon_sym_isgreaterthanorequalto;
      anon_sym_and;
      anon_sym_or;
      anon_sym_addedto;
      anon_sym_contains;
      anon_sym_startswith;
      anon_sym_endswith;
      anon_sym_isin;
    ACTIONS 211; 22;
      ts_builtin_sym_end;
      anon_sym_do_COLON;
      anon_sym_declare_COLON;
      anon_sym_note_COLON;
      anon_sym_noteblock_COLON;
      anon_sym_building_COLON;
      anon_sym_floor_COLON;
      anon_sym_step_COLON;
      anon_sym_riser_COLON;
      anon_sym_set;
      anon_sym_call;
      anon_sym_display;
      anon_sym_input;
      anon_sym_return;
      sym_exit_statement;
      anon_sym_if;
      anon_sym_repeat;
      anon_sym_foreach;
      anon_sym_while;
      anon_sym_attempt_COLON;
      anon_sym_remove;
      sym__newline;
  (* [1797] *) 6;
    ACTIONS 51; 1;
      anon_sym_LBRACK;
    ACTIONS 217; 1;
      anon_sym_add;
    STATE 92; 1;
      sym_binary_operator;
    ACTIONS 55; 2;
      anon_sym_islessthan;
      anon_sym_isgreaterthan;
    ACTIONS 53; 16;
      anon_sym_PLUS;
      anon_sym_DASH;
      anon_sym_STAR;
      anon_sym_SLASH;
      anon_sym_isequalto;
      anon_sym_equals;
      anon_sym_isnotequalto;
      anon_sym_islessthanorequalto;
      anon_sym_isgreaterthanorequalto;
      anon_sym_and;
      anon_sym_or;
      anon_sym_addedto;
      anon_sym_contains;
      anon_sym_startswith;
      anon_sym_endswith;
      anon_sym_isin;
    ACTIONS 215; 22;
      ts_builtin_sym_end;
      anon_sym_do_COLON;
      anon_sym_declare_COLON;
      anon_sym_note_COLON;
      anon_sym_noteblock_COLON;
      anon_sym_building_COLON;
      anon_sym_floor_COLON;
      anon_sym_step_COLON;
      anon_sym_riser_COLON;
      anon_sym_set;
      anon_sym_call;
      anon_sym_display;
      anon_sym_input;
      anon_sym_return;
      sym_exit_statement;
      anon_sym_if;
      anon_sym_repeat;
      anon_sym_foreach;
      anon_sym_while;
      anon_sym_attempt_COLON;
      anon_sym_remove;
      sym__newline;
  (* [1853] *) 13;
    ACTIONS 225; 1;
      anon_sym_call;
    ACTIONS 227; 1;
      sym_number;
    ACTIONS 229; 1;
      anon_sym_DQUOTE;
    ACTIONS 233; 1;
      anon_sym_LBRACK;
    ACTIONS 235; 1;
      anon_sym_not;
    ACTIONS 237; 1;
      anon_sym_lengthof;
    ACTIONS 239; 1;
      anon_sym_LPAREN;
    STATE 102; 1;
      sym_unary_operator;
    ACTIONS 221; 2;
      sym_nothing;
      sym_identifier;
    ACTIONS 231; 2;
      anon_sym_true;
      anon_sym_false;
    STATE 30; 9;
      sym__expression;
      sym_string;
      sym_boolean;
      sym_list_literal;
      sym_binary_expression;
      sym_unary_expression;
      sym_call_expression;
      sym_index_expression;
      sym_parenthesized_expression;
    ACTIONS 223; 10;
      anon_sym_set;
      anon_sym_display;
      anon_sym_input;
      anon_sym_return;
      sym_exit_statement;
      anon_sym_if;
      anon_sym_repeat;
      anon_sym_while;
      anon_sym_add;
      anon_sym_remove;
    ACTIONS 219; 12;
      ts_builtin_sym_end;
      anon_sym_do_COLON;
      anon_sym_declare_COLON;
      anon_sym_note_COLON;
      anon_sym_noteblock_COLON;
      anon_sym_building_COLON;
      anon_sym_floor_COLON;
      anon_sym_step_COLON;
      anon_sym_riser_COLON;
      anon_sym_foreach;
      anon_sym_attempt_COLON;
      sym__newline;
  (* [1923] *) 6;
    ACTIONS 51; 1;
      anon_sym_LBRACK;
    ACTIONS 243; 1;
      anon_sym_add;
    STATE 92; 1;
      sym_binary_operator;
    ACTIONS 55; 2;
      anon_sym_islessthan;
      anon_sym_isgreaterthan;
    ACTIONS 53; 16;
      anon_sym_PLUS;
      anon_sym_DASH;
      anon_sym_STAR;
      anon_sym_SLASH;
      anon_sym_isequalto;
      anon_sym_equals;
      anon_sym_isnotequalto;
      anon_sym_islessthanorequalto;
      anon_sym_isgreaterthanorequalto;
      anon_sym_and;
      anon_sym_or;
      anon_sym_addedto;
      anon_sym_contains;
      anon_sym_startswith;
      anon_sym_endswith;
      anon_sym_isin;
    ACTIONS 241; 22;
      ts_builtin_sym_end;
      anon_sym_do_COLON;
      anon_sym_declare_COLON;
      anon_sym_note_COLON;
      anon_sym_noteblock_COLON;
      anon_sym_building_COLON;
      anon_sym_floor_COLON;
      anon_sym_step_COLON;
      anon_sym_riser_COLON;
      anon_sym_set;
      anon_sym_call;
      anon_sym_display;
      anon_sym_input;
      anon_sym_return;
      sym_exit_statement;
      anon_sym_if;
      anon_sym_repeat;
      anon_sym_foreach;
      anon_sym_while;
      anon_sym_attempt_COLON;
      anon_sym_remove;
      sym__newline;
  (* [1979] *) 6;
    ACTIONS 51; 1;
      anon_sym_LBRACK;
    ACTIONS 247; 1;
      anon_sym_add;
    STATE 92; 1;
      sym_binary_operator;
    ACTIONS 55; 2;
      anon_sym_islessthan;
      anon_sym_isgreaterthan;
    ACTIONS 53; 16;
      anon_sym_PLUS;
      anon_sym_DASH;
      anon_sym_STAR;
      anon_sym_SLASH;
      anon_sym_isequalto;
      anon_sym_equals;
      anon_sym_isnotequalto;
      anon_sym_islessthanorequalto;
      anon_sym_isgreaterthanorequalto;
      anon_sym_and;
      anon_sym_or;
      anon_sym_addedto;
      anon_sym_contains;
      anon_sym_startswith;
      anon_sym_endswith;
      anon_sym_isin;
    ACTIONS 245; 22;
      ts_builtin_sym_end;
      anon_sym_do_COLON;
      anon_sym_declare_COLON;
      anon_sym_note_COLON;
      anon_sym_noteblock_COLON;
      anon_sym_building_COLON;
      anon_sym_floor_COLON;
      anon_sym_step_COLON;
      anon_sym_riser_COLON;
      anon_sym_set;
      anon_sym_call;
      anon_sym_display;
      anon_sym_input;
      anon_sym_return;
      sym_exit_statement;
      anon_sym_if;
      anon_sym_repeat;
      anon_sym_foreach;
      anon_sym_while;
      anon_sym_attempt_COLON;
      anon_sym_remove;
      sym__newline;
  (* [2035] *) 6;
    ACTIONS 51; 1;
      anon_sym_LBRACK;
    ACTIONS 251; 1;
      anon_sym_add;
    STATE 92; 1;
      sym_binary_operator;
    ACTIONS 55; 2;
      anon_sym_islessthan;
      anon_sym_isgreaterthan;
    ACTIONS 53; 16;
      anon_sym_PLUS;
      anon_sym_DASH;
      anon_sym_STAR;
      anon_sym_SLASH;
      anon_sym_isequalto;
      anon_sym_equals;
      anon_sym_isnotequalto;
      anon_sym_islessthanorequalto;
      anon_sym_isgreaterthanorequalto;
      anon_sym_and;
      anon_sym_or;
      anon_sym_addedto;
      anon_sym_contains;
      anon_sym_startswith;
      anon_sym_endswith;
      anon_sym_isin;
    ACTIONS 249; 22;
      ts_builtin_sym_end;
      anon_sym_do_COLON;
      anon_sym_declare_COLON;
      anon_sym_note_COLON;
      anon_sym_noteblock_COLON;
      anon_sym_building_COLON;
      anon_sym_floor_COLON;
      anon_sym_step_COLON;
      anon_sym_riser_COLON;
      anon_sym_set;
      anon_sym_call;
      anon_sym_display;
      anon_sym_input;
      anon_sym_return;
      sym_exit_statement;
      anon_sym_if;
      anon_sym_repeat;
      anon_sym_foreach;
      anon_sym_while;
      anon_sym_attempt_COLON;
      anon_sym_remove;
      sym__newline;
  (* [2091] *) 7;
    ACTIONS 255; 1;
      anon_sym_belongsto_COLON;
    ACTIONS 257; 1;
      anon_sym_expects_COLON;
    ACTIONS 259; 1;
      anon_sym_returns_COLON;
    ACTIONS 261; 1;
      anon_sym_return;
    STATE 68; 1;
      sym_step_clauses;
    STATE 39; 4;
      sym_belongs_clause;
      sym_expects_clause;
      sym_returns_clause;
      aux_sym_step_clauses_repeat1;
    ACTIONS 253; 22;
      ts_builtin_sym_end;
      anon_sym_do_COLON;
      anon_sym_declare_COLON;
      anon_sym_note_COLON;
      anon_sym_noteblock_COLON;
      anon_sym_building_COLON;
      anon_sym_floor_COLON;
      anon_sym_step_COLON;
      anon_sym_riser_COLON;
      anon_sym_set;
      anon_sym_call;
      anon_sym_display;
      anon_sym_input;
      sym_exit_statement;
      anon_sym_if;
      anon_sym_repeat;
      anon_sym_foreach;
      anon_sym_while;
      anon_sym_attempt_COLON;
      anon_sym_add;
      anon_sym_remove;
      sym__newline;
  (* [2137] *) 7;
    ACTIONS 255; 1;
      anon_sym_belongsto_COLON;
    ACTIONS 257; 1;
      anon_sym_expects_COLON;
    ACTIONS 259; 1;
      anon_sym_returns_COLON;
    ACTIONS 265; 1;
      anon_sym_return;
    STATE 69; 1;
      sym_step_clauses;
    STATE 39; 4;
      sym_belongs_clause;
      sym_expects_clause;
      sym_returns_clause;
      aux_sym_step_clauses_repeat1;
    ACTIONS 263; 22;
      ts_builtin_sym_end;
      anon_sym_do_COLON;
      anon_sym_declare_COLON;
      anon_sym_note_COLON;
      anon_sym_noteblock_COLON;
      anon_sym_building_COLON;
      anon_sym_floor_COLON;
      anon_sym_step_COLON;
      anon_sym_riser_COLON;
      anon_sym_set;
      anon_sym_call;
      anon_sym_display;
      anon_sym_input;
      sym_exit_statement;
      anon_sym_if;
      anon_sym_repeat;
      anon_sym_foreach;
      anon_sym_while;
      anon_sym_attempt_COLON;
      anon_sym_add;
      anon_sym_remove;
      sym__newline;
  (* [2183] *) 6;
    ACTIONS 269; 1;
      anon_sym_belongsto_COLON;
    ACTIONS 272; 1;
      anon_sym_expects_COLON;
    ACTIONS 275; 1;
      anon_sym_returns_COLON;
    ACTIONS 278; 1;
      anon_sym_return;
    STATE 38; 4;
      sym_belongs_clause;
      sym_expects_clause;
      sym_returns_clause;
      aux_sym_step_clauses_repeat1;
    ACTIONS 267; 22;
      ts_builtin_sym_end;
      anon_sym_do_COLON;
      anon_sym_declare_COLON;
      anon_sym_note_COLON;
      anon_sym_noteblock_COLON;
      anon_sym_building_COLON;
      anon_sym_floor_COLON;
      anon_sym_step_COLON;
      anon_sym_riser_COLON;
      anon_sym_set;
      anon_sym_call;
      anon_sym_display;
      anon_sym_input;
      sym_exit_statement;
      anon_sym_if;
      anon_sym_repeat;
      anon_sym_foreach;
      anon_sym_while;
      anon_sym_attempt_COLON;
      anon_sym_add;
      anon_sym_remove;
      sym__newline;
  (* [2226] *) 6;
    ACTIONS 255; 1;
      anon_sym_belongsto_COLON;
    ACTIONS 257; 1;
      anon_sym_expects_COLON;
    ACTIONS 259; 1;
      anon_sym_returns_COLON;
    ACTIONS 282; 1;
      anon_sym_return;
    STATE 38; 4;
      sym_belongs_clause;
      sym_expects_clause;
      sym_returns_clause;
      aux_sym_step_clauses_repeat1;
    ACTIONS 280; 22;
      ts_builtin_sym_end;
      anon_sym_do_COLON;
      anon_sym_declare_COLON;
      anon_sym_note_COLON;
      anon_sym_noteblock_COLON;
      anon_sym_building_COLON;
      anon_sym_floor_COLON;
      anon_sym_step_COLON;
      anon_sym_riser_COLON;
      anon_sym_set;
      anon_sym_call;
      anon_sym_display;
      anon_sym_input;
      sym_exit_statement;
      anon_sym_if;
      anon_sym_repeat;
      anon_sym_foreach;
      anon_sym_while;
      anon_sym_attempt_COLON;
      anon_sym_add;
      anon_sym_remove;
      sym__newline;
  (* [2269] *) 4;
    ACTIONS 286; 1;
      anon_sym_COMMA;
    ACTIONS 288; 1;
      anon_sym_return;
    STATE 43; 1;
      aux_sym_parameter_list_repeat1;
    ACTIONS 284; 25;
      ts_builtin_sym_end;
      anon_sym_do_COLON;
      anon_sym_declare_COLON;
      anon_sym_note_COLON;
      anon_sym_noteblock_COLON;
      anon_sym_building_COLON;
      anon_sym_floor_COLON;
      anon_sym_step_COLON;
      anon_sym_riser_COLON;
      anon_sym_belongsto_COLON;
      anon_sym_expects_COLON;
      anon_sym_returns_COLON;
      anon_sym_set;
      anon_sym_call;
      anon_sym_display;
      anon_sym_input;
      sym_exit_statement;
      anon_sym_if;
      anon_sym_repeat;
      anon_sym_foreach;
      anon_sym_while;
      anon_sym_attempt_COLON;
      anon_sym_add;
      anon_sym_remove;
      sym__newline;
  (* [2306] *) 5;
    ACTIONS 124; 1;
      anon_sym_otherwiseif;
    ACTIONS 126; 1;
      anon_sym_otherwise;
    STATE 66; 1;
      sym_otherwise_clause;
    STATE 51; 2;
      sym_otherwise_if_clause;
      aux_sym_if_statement_repeat1;
    ACTIONS 290; 23;
      ts_builtin_sym_end;
      anon_sym_do_COLON;
      anon_sym_declare_COLON;
      anon_sym_note_COLON;
      anon_sym_noteblock_COLON;
      anon_sym_building_COLON;
      anon_sym_floor_COLON;
      anon_sym_step_COLON;
      anon_sym_riser_COLON;
      anon_sym_set;
      anon_sym_call;
      anon_sym_display;
      anon_sym_input;
      anon_sym_return;
      sym_exit_statement;
      anon_sym_if;
      anon_sym_repeat;
      anon_sym_foreach;
      anon_sym_while;
      anon_sym_attempt_COLON;
      anon_sym_add;
      anon_sym_remove;
      sym__newline;
  (* [2345] *) 4;
    ACTIONS 294; 1;
      anon_sym_COMMA;
    ACTIONS 297; 1;
      anon_sym_return;
    STATE 42; 1;
      aux_sym_parameter_list_repeat1;
    ACTIONS 292; 25;
      ts_builtin_sym_end;
      anon_sym_do_COLON;
      anon_sym_declare_COLON;
      anon_sym_note_COLON;
      anon_sym_noteblock_COLON;
      anon_sym_building_COLON;
      anon_sym_floor_COLON;
      anon_sym_step_COLON;
      anon_sym_riser_COLON;
      anon_sym_belongsto_COLON;
      anon_sym_expects_COLON;
      anon_sym_returns_COLON;
      anon_sym_set;
      anon_sym_call;
      anon_sym_display;
      anon_sym_input;
      sym_exit_statement;
      anon_sym_if;
      anon_sym_repeat;
      anon_sym_foreach;
      anon_sym_while;
      anon_sym_attempt_COLON;
      anon_sym_add;
      anon_sym_remove;
      sym__newline;
  (* [2382] *) 4;
    ACTIONS 286; 1;
      anon_sym_COMMA;
    ACTIONS 301; 1;
      anon_sym_return;
    STATE 42; 1;
      aux_sym_parameter_list_repeat1;
    ACTIONS 299; 25;
      ts_builtin_sym_end;
      anon_sym_do_COLON;
      anon_sym_declare_COLON;
      anon_sym_note_COLON;
      anon_sym_noteblock_COLON;
      anon_sym_building_COLON;
      anon_sym_floor_COLON;
      anon_sym_step_COLON;
      anon_sym_riser_COLON;
      anon_sym_belongsto_COLON;
      anon_sym_expects_COLON;
      anon_sym_returns_COLON;
      anon_sym_set;
      anon_sym_call;
      anon_sym_display;
      anon_sym_input;
      sym_exit_statement;
      anon_sym_if;
      anon_sym_repeat;
      anon_sym_foreach;
      anon_sym_while;
      anon_sym_attempt_COLON;
      anon_sym_add;
      anon_sym_remove;
      sym__newline;
  (* [2419] *) 3;
    ACTIONS 71; 1;
      anon_sym_COMMA;
    STATE 49; 1;
      aux_sym_argument_list_repeat1;
    ACTIONS 80; 25;
      ts_builtin_sym_end;
      anon_sym_do_COLON;
      anon_sym_declare_COLON;
      anon_sym_note_COLON;
      anon_sym_noteblock_COLON;
      anon_sym_building_COLON;
      anon_sym_floor_COLON;
      anon_sym_step_COLON;
      anon_sym_riser_COLON;
      anon_sym_set;
      anon_sym_call;
      anon_sym_storingresultin;
      anon_sym_display;
      anon_sym_input;
      anon_sym_return;
      sym_exit_statement;
      anon_sym_if;
      anon_sym_repeat;
      anon_sym_foreach;
      anon_sym_while;
      anon_sym_attempt_COLON;
      anon_sym_add;
      anon_sym_remove;
      anon_sym_RBRACK;
      sym__newline;
  (* [2453] *) 6;
    ACTIONS 305; 1;
      anon_sym_if;
    ACTIONS 307; 1;
      anon_sym_ifunsuccessful_COLON;
    ACTIONS 309; 1;
      anon_sym_thencontinue_COLON;
    STATE 56; 1;
      sym_if_unsuccessful_clause;
    STATE 80; 1;
      sym_then_continue_clause;
    ACTIONS 303; 22;
      ts_builtin_sym_end;
      anon_sym_do_COLON;
      anon_sym_declare_COLON;
      anon_sym_note_COLON;
      anon_sym_noteblock_COLON;
      anon_sym_building_COLON;
      anon_sym_floor_COLON;
      anon_sym_step_COLON;
      anon_sym_riser_COLON;
      anon_sym_set;
      anon_sym_call;
      anon_sym_display;
      anon_sym_input;
      anon_sym_return;
      sym_exit_statement;
      anon_sym_repeat;
      anon_sym_foreach;
      anon_sym_while;
      anon_sym_attempt_COLON;
      anon_sym_add;
      anon_sym_remove;
      sym__newline;
  (* [2493] *) 2;
    ACTIONS 313; 1;
      anon_sym_return;
    ACTIONS 311; 26;
      ts_builtin_sym_end;
      anon_sym_do_COLON;
      anon_sym_declare_COLON;
      anon_sym_note_COLON;
      anon_sym_noteblock_COLON;
      anon_sym_building_COLON;
      anon_sym_floor_COLON;
      anon_sym_step_COLON;
      anon_sym_riser_COLON;
      anon_sym_belongsto_COLON;
      anon_sym_expects_COLON;
      anon_sym_returns_COLON;
      anon_sym_COMMA;
      anon_sym_set;
      anon_sym_call;
      anon_sym_display;
      anon_sym_input;
      sym_exit_statement;
      anon_sym_if;
      anon_sym_repeat;
      anon_sym_foreach;
      anon_sym_while;
      anon_sym_attempt_COLON;
      anon_sym_add;
      anon_sym_remove;
      sym__newline;
  (* [2525] *) 2;
    ACTIONS 297; 1;
      anon_sym_return;
    ACTIONS 292; 26;
      ts_builtin_sym_end;
      anon_sym_do_COLON;
      anon_sym_declare_COLON;
      anon_sym_note_COLON;
      anon_sym_noteblock_COLON;
      anon_sym_building_COLON;
      anon_sym_floor_COLON;
      anon_sym_step_COLON;
      anon_sym_riser_COLON;
      anon_sym_belongsto_COLON;
      anon_sym_expects_COLON;
      anon_sym_returns_COLON;
      anon_sym_COMMA;
      anon_sym_set;
      anon_sym_call;
      anon_sym_display;
      anon_sym_input;
      sym_exit_statement;
      anon_sym_if;
      anon_sym_repeat;
      anon_sym_foreach;
      anon_sym_while;
      anon_sym_attempt_COLON;
      anon_sym_add;
      anon_sym_remove;
      sym__newline;
  (* [2557] *) 2;
    ACTIONS 317; 1;
      anon_sym_return;
    ACTIONS 315; 26;
      ts_builtin_sym_end;
      anon_sym_do_COLON;
      anon_sym_declare_COLON;
      anon_sym_note_COLON;
      anon_sym_noteblock_COLON;
      anon_sym_building_COLON;
      anon_sym_floor_COLON;
      anon_sym_step_COLON;
      anon_sym_riser_COLON;
      anon_sym_belongsto_COLON;
      anon_sym_expects_COLON;
      anon_sym_returns_COLON;
      anon_sym_COMMA;
      anon_sym_set;
      anon_sym_call;
      anon_sym_display;
      anon_sym_input;
      sym_exit_statement;
      anon_sym_if;
      anon_sym_repeat;
      anon_sym_foreach;
      anon_sym_while;
      anon_sym_attempt_COLON;
      anon_sym_add;
      anon_sym_remove;
      sym__newline;
  (* [2589] *) 3;
    ACTIONS 75; 1;
      anon_sym_COMMA;
    STATE 49; 1;
      aux_sym_argument_list_repeat1;
    ACTIONS 73; 25;
      ts_builtin_sym_end;
      anon_sym_do_COLON;
      anon_sym_declare_COLON;
      anon_sym_note_COLON;
      anon_sym_noteblock_COLON;
      anon_sym_building_COLON;
      anon_sym_floor_COLON;
      anon_sym_step_COLON;
      anon_sym_riser_COLON;
      anon_sym_set;
      anon_sym_call;
      anon_sym_storingresultin;
      anon_sym_display;
      anon_sym_input;
      anon_sym_return;
      sym_exit_statement;
      anon_sym_if;
      anon_sym_repeat;
      anon_sym_foreach;
      anon_sym_while;
      anon_sym_attempt_COLON;
      anon_sym_add;
      anon_sym_remove;
      anon_sym_RBRACK;
      sym__newline;
  (* [2623] *) 5;
    ACTIONS 321; 1;
      anon_sym_with;
    ACTIONS 323; 1;
      anon_sym_storingresultin;
    STATE 57; 1;
      sym_with_clause;
    STATE 74; 1;
      sym_storing_clause;
    ACTIONS 319; 23;
      ts_builtin_sym_end;
      anon_sym_do_COLON;
      anon_sym_declare_COLON;
      anon_sym_note_COLON;
      anon_sym_noteblock_COLON;
      anon_sym_building_COLON;
      anon_sym_floor_COLON;
      anon_sym_step_COLON;
      anon_sym_riser_COLON;
      anon_sym_set;
      anon_sym_call;
      anon_sym_display;
      anon_sym_input;
      anon_sym_return;
      sym_exit_statement;
      anon_sym_if;
      anon_sym_repeat;
      anon_sym_foreach;
      anon_sym_while;
      anon_sym_attempt_COLON;
      anon_sym_add;
      anon_sym_remove;
      sym__newline;
  (* [2661] *) 4;
    ACTIONS 327; 1;
      anon_sym_otherwiseif;
    ACTIONS 330; 1;
      anon_sym_otherwise;
    STATE 51; 2;
      sym_otherwise_if_clause;
      aux_sym_if_statement_repeat1;
    ACTIONS 325; 23;
      ts_builtin_sym_end;
      anon_sym_do_COLON;
      anon_sym_declare_COLON;
      anon_sym_note_COLON;
      anon_sym_noteblock_COLON;
      anon_sym_building_COLON;
      anon_sym_floor_COLON;
      anon_sym_step_COLON;
      anon_sym_riser_COLON;
      anon_sym_set;
      anon_sym_call;
      anon_sym_display;
      anon_sym_input;
      anon_sym_return;
      sym_exit_statement;
      anon_sym_if;
      anon_sym_repeat;
      anon_sym_foreach;
      anon_sym_while;
      anon_sym_attempt_COLON;
      anon_sym_add;
      anon_sym_remove;
      sym__newline;
  (* [2697] *) 2;
    ACTIONS 334; 1;
      anon_sym_return;
    ACTIONS 332; 25;
      ts_builtin_sym_end;
      anon_sym_do_COLON;
      anon_sym_declare_COLON;
      anon_sym_note_COLON;
      anon_sym_noteblock_COLON;
      anon_sym_building_COLON;
      anon_sym_floor_COLON;
      anon_sym_step_COLON;
      anon_sym_riser_COLON;
      anon_sym_belongsto_COLON;
      anon_sym_expects_COLON;
      anon_sym_returns_COLON;
      anon_sym_set;
      anon_sym_call;
      anon_sym_display;
      anon_sym_input;
      sym_exit_statement;
      anon_sym_if;
      anon_sym_repeat;
      anon_sym_foreach;
      anon_sym_while;
      anon_sym_attempt_COLON;
      anon_sym_add;
      anon_sym_remove;
      sym__newline;
  (* [2728] *) 2;
    ACTIONS 338; 1;
      anon_sym_return;
    ACTIONS 336; 25;
      ts_builtin_sym_end;
      anon_sym_do_COLON;
      anon_sym_declare_COLON;
      anon_sym_note_COLON;
      anon_sym_noteblock_COLON;
      anon_sym_building_COLON;
      anon_sym_floor_COLON;
      anon_sym_step_COLON;
      anon_sym_riser_COLON;
      anon_sym_belongsto_COLON;
      anon_sym_expects_COLON;
      anon_sym_returns_COLON;
      anon_sym_set;
      anon_sym_call;
      anon_sym_display;
      anon_sym_input;
      sym_exit_statement;
      anon_sym_if;
      anon_sym_repeat;
      anon_sym_foreach;
      anon_sym_while;
      anon_sym_attempt_COLON;
      anon_sym_add;
      anon_sym_remove;
      sym__newline;
  (* [2759] *) 2;
    ACTIONS 342; 1;
      anon_sym_return;
    ACTIONS 340; 25;
      ts_builtin_sym_end;
      anon_sym_do_COLON;
      anon_sym_declare_COLON;
      anon_sym_note_COLON;
      anon_sym_noteblock_COLON;
      anon_sym_building_COLON;
      anon_sym_floor_COLON;
      anon_sym_step_COLON;
      anon_sym_riser_COLON;
      anon_sym_belongsto_COLON;
      anon_sym_expects_COLON;
      anon_sym_returns_COLON;
      anon_sym_set;
      anon_sym_call;
      anon_sym_display;
      anon_sym_input;
      sym_exit_statement;
      anon_sym_if;
      anon_sym_repeat;
      anon_sym_foreach;
      anon_sym_while;
      anon_sym_attempt_COLON;
      anon_sym_add;
      anon_sym_remove;
      sym__newline;
  (* [2790] *) 4;
    ACTIONS 346; 1;
      sym_identifier;
    ACTIONS 348; 1;
      anon_sym_fixed;
    ACTIONS 350; 11;
      anon_sym_set;
      anon_sym_call;
      anon_sym_display;
      anon_sym_input;
      anon_sym_return;
      sym_exit_statement;
      anon_sym_if;
      anon_sym_repeat;
      anon_sym_while;
      anon_sym_add;
      anon_sym_remove;
    ACTIONS 344; 12;
      ts_builtin_sym_end;
      anon_sym_do_COLON;
      anon_sym_declare_COLON;
      anon_sym_note_COLON;
      anon_sym_noteblock_COLON;
      anon_sym_building_COLON;
      anon_sym_floor_COLON;
      anon_sym_step_COLON;
      anon_sym_riser_COLON;
      anon_sym_foreach;
      anon_sym_attempt_COLON;
      sym__newline;
  (* [2824] *) 3;
    ACTIONS 309; 1;
      anon_sym_thencontinue_COLON;
    STATE 82; 1;
      sym_then_continue_clause;
    ACTIONS 352; 23;
      ts_builtin_sym_end;
      anon_sym_do_COLON;
      anon_sym_declare_COLON;
      anon_sym_note_COLON;
      anon_sym_noteblock_COLON;
      anon_sym_building_COLON;
      anon_sym_floor_COLON;
      anon_sym_step_COLON;
      anon_sym_riser_COLON;
      anon_sym_set;
      anon_sym_call;
      anon_sym_display;
      anon_sym_input;
      anon_sym_return;
      sym_exit_statement;
      anon_sym_if;
      anon_sym_repeat;
      anon_sym_foreach;
      anon_sym_while;
      anon_sym_attempt_COLON;
      anon_sym_add;
      anon_sym_remove;
      sym__newline;
  (* [2856] *) 3;
    ACTIONS 323; 1;
      anon_sym_storingresultin;
    STATE 65; 1;
      sym_storing_clause;
    ACTIONS 354; 23;
      ts_builtin_sym_end;
      anon_sym_do_COLON;
      anon_sym_declare_COLON;
      anon_sym_note_COLON;
      anon_sym_noteblock_COLON;
      anon_sym_building_COLON;
      anon_sym_floor_COLON;
      anon_sym_step_COLON;
      anon_sym_riser_COLON;
      anon_sym_set;
      anon_sym_call;
      anon_sym_display;
      anon_sym_input;
      anon_sym_return;
      sym_exit_statement;
      anon_sym_if;
      anon_sym_repeat;
      anon_sym_foreach;
      anon_sym_while;
      anon_sym_attempt_COLON;
      anon_sym_add;
      anon_sym_remove;
      sym__newline;
  (* [2888] *) 3;
    ACTIONS 356; 1;
      ts_builtin_sym_end;
    ACTIONS 360; 1;
      sym_comment_content;
    ACTIONS 358; 22;
      anon_sym_do_COLON;
      anon_sym_declare_COLON;
      anon_sym_note_COLON;
      anon_sym_noteblock_COLON;
      anon_sym_building_COLON;
      anon_sym_floor_COLON;
      anon_sym_step_COLON;
      anon_sym_riser_COLON;
      anon_sym_set;
      anon_sym_call;
      anon_sym_display;
      anon_sym_input;
      anon_sym_return;
      sym_exit_statement;
      anon_sym_if;
      anon_sym_repeat;
      anon_sym_foreach;
      anon_sym_while;
      anon_sym_attempt_COLON;
      anon_sym_add;
      anon_sym_remove;
      sym__newline;
  (* [2919] *) 2;
    ACTIONS 364; 1;
      anon_sym_EQ;
    ACTIONS 362; 23;
      ts_builtin_sym_end;
      anon_sym_do_COLON;
      anon_sym_declare_COLON;
      anon_sym_note_COLON;
      anon_sym_noteblock_COLON;
      anon_sym_building_COLON;
      anon_sym_floor_COLON;
      anon_sym_step_COLON;
      anon_sym_riser_COLON;
      anon_sym_set;
      anon_sym_call;
      anon_sym_display;
      anon_sym_input;
      anon_sym_return;
      sym_exit_statement;
      anon_sym_if;
      anon_sym_repeat;
      anon_sym_foreach;
      anon_sym_while;
      anon_sym_attempt_COLON;
      anon_sym_add;
      anon_sym_remove;
      sym__newline;
  (* [2948] *) 1;
    ACTIONS 311; 24;
      ts_builtin_sym_end;
      anon_sym_do_COLON;
      anon_sym_declare_COLON;
      anon_sym_note_COLON;
      anon_sym_noteblock_COLON;
      anon_sym_building_COLON;
      anon_sym_floor_COLON;
      anon_sym_step_COLON;
      anon_sym_riser_COLON;
      anon_sym_EQ;
      anon_sym_set;
      anon_sym_call;
      anon_sym_display;
      anon_sym_input;
      anon_sym_return;
      sym_exit_statement;
      anon_sym_if;
      anon_sym_repeat;
      anon_sym_foreach;
      anon_sym_while;
      anon_sym_attempt_COLON;
      anon_sym_add;
      anon_sym_remove;
      sym__newline;
  (* [2975] *) 1;
    ACTIONS 366; 24;
      ts_builtin_sym_end;
      anon_sym_do_COLON;
      anon_sym_declare_COLON;
      anon_sym_note_COLON;
      anon_sym_noteblock_COLON;
      anon_sym_building_COLON;
      anon_sym_floor_COLON;
      anon_sym_step_COLON;
      anon_sym_riser_COLON;
      anon_sym_set;
      anon_sym_call;
      anon_sym_display;
      anon_sym_input;
      anon_sym_return;
      sym_exit_statement;
      anon_sym_if;
      anon_sym_repeat;
      anon_sym_foreach;
      anon_sym_while;
      anon_sym_attempt_COLON;
      anon_sym_thencontinue_COLON;
      anon_sym_add;
      anon_sym_remove;
      sym__newline;
  (* [3002] *) 1;
    ACTIONS 106; 24;
      ts_builtin_sym_end;
      anon_sym_do_COLON;
      anon_sym_declare_COLON;
      anon_sym_note_COLON;
      anon_sym_noteblock_COLON;
      anon_sym_building_COLON;
      anon_sym_floor_COLON;
      anon_sym_step_COLON;
      anon_sym_riser_COLON;
      anon_sym_set;
      anon_sym_call;
      anon_sym_storingresultin;
      anon_sym_display;
      anon_sym_input;
      anon_sym_return;
      sym_exit_statement;
      anon_sym_if;
      anon_sym_repeat;
      anon_sym_foreach;
      anon_sym_while;
      anon_sym_attempt_COLON;
      anon_sym_add;
      anon_sym_remove;
      sym__newline;
  (* [3029] *) 2;
    ACTIONS 370; 1;
      anon_sym_EQ;
    ACTIONS 368; 23;
      ts_builtin_sym_end;
      anon_sym_do_COLON;
      anon_sym_declare_COLON;
      anon_sym_note_COLON;
      anon_sym_noteblock_COLON;
      anon_sym_building_COLON;
      anon_sym_floor_COLON;
      anon_sym_step_COLON;
      anon_sym_riser_COLON;
      anon_sym_set;
      anon_sym_call;
      anon_sym_display;
      anon_sym_input;
      anon_sym_return;
      sym_exit_statement;
      anon_sym_if;
      anon_sym_repeat;
      anon_sym_foreach;
      anon_sym_while;
      anon_sym_attempt_COLON;
      anon_sym_add;
      anon_sym_remove;
      sym__newline;
  (* [3058] *) 1;
    ACTIONS 372; 23;
      ts_builtin_sym_end;
      anon_sym_do_COLON;
      anon_sym_declare_COLON;
      anon_sym_note_COLON;
      anon_sym_noteblock_COLON;
      anon_sym_building_COLON;
      anon_sym_floor_COLON;
      anon_sym_step_COLON;
      anon_sym_riser_COLON;
      anon_sym_set;
      anon_sym_call;
      anon_sym_display;
      anon_sym_input;
      anon_sym_return;
      sym_exit_statement;
      anon_sym_if;
      anon_sym_repeat;
      anon_sym_foreach;
      anon_sym_while;
      anon_sym_attempt_COLON;
      anon_sym_add;
      anon_sym_remove;
      sym__newline;
  (* [3084] *) 1;
    ACTIONS 374; 23;
      ts_builtin_sym_end;
      anon_sym_do_COLON;
      anon_sym_declare_COLON;
      anon_sym_note_COLON;
      anon_sym_noteblock_COLON;
      anon_sym_building_COLON;
      anon_sym_floor_COLON;
      anon_sym_step_COLON;
      anon_sym_riser_COLON;
      anon_sym_set;
      anon_sym_call;
      anon_sym_display;
      anon_sym_input;
      anon_sym_return;
      sym_exit_statement;
      anon_sym_if;
      anon_sym_repeat;
      anon_sym_foreach;
      anon_sym_while;
      anon_sym_attempt_COLON;
      anon_sym_add;
      anon_sym_remove;
      sym__newline;
  (* [3110] *) 1;
    ACTIONS 376; 23;
      ts_builtin_sym_end;
      anon_sym_do_COLON;
      anon_sym_declare_COLON;
      anon_sym_note_COLON;
      anon_sym_noteblock_COLON;
      anon_sym_building_COLON;
      anon_sym_floor_COLON;
      anon_sym_step_COLON;
      anon_sym_riser_COLON;
      anon_sym_set;
      anon_sym_call;
      anon_sym_display;
      anon_sym_input;
      anon_sym_return;
      sym_exit_statement;
      anon_sym_if;
      anon_sym_repeat;
      anon_sym_foreach;
      anon_sym_while;
      anon_sym_attempt_COLON;
      anon_sym_add;
      anon_sym_remove;
      sym__newline;
  (* [3136] *) 1;
    ACTIONS 378; 23;
      ts_builtin_sym_end;
      anon_sym_do_COLON;
      anon_sym_declare_COLON;
      anon_sym_note_COLON;
      anon_sym_noteblock_COLON;
      anon_sym_building_COLON;
      anon_sym_floor_COLON;
      anon_sym_step_COLON;
      anon_sym_riser_COLON;
      anon_sym_set;
      anon_sym_call;
      anon_sym_display;
      anon_sym_input;
      anon_sym_return;
      sym_exit_statement;
      anon_sym_if;
      anon_sym_repeat;
      anon_sym_foreach;
      anon_sym_while;
      anon_sym_attempt_COLON;
      anon_sym_add;
      anon_sym_remove;
      sym__newline;
  (* [3162] *) 1;
    ACTIONS 380; 23;
      ts_builtin_sym_end;
      anon_sym_do_COLON;
      anon_sym_declare_COLON;
      anon_sym_note_COLON;
      anon_sym_noteblock_COLON;
      anon_sym_building_COLON;
      anon_sym_floor_COLON;
      anon_sym_step_COLON;
      anon_sym_riser_COLON;
      anon_sym_set;
      anon_sym_call;
      anon_sym_display;
      anon_sym_input;
      anon_sym_return;
      sym_exit_statement;
      anon_sym_if;
      anon_sym_repeat;
      anon_sym_foreach;
      anon_sym_while;
      anon_sym_attempt_COLON;
      anon_sym_add;
      anon_sym_remove;
      sym__newline;
  (* [3188] *) 1;
    ACTIONS 382; 23;
      ts_builtin_sym_end;
      anon_sym_do_COLON;
      anon_sym_declare_COLON;
      anon_sym_note_COLON;
      anon_sym_noteblock_COLON;
      anon_sym_building_COLON;
      anon_sym_floor_COLON;
      anon_sym_step_COLON;
      anon_sym_riser_COLON;
      anon_sym_set;
      anon_sym_call;
      anon_sym_display;
      anon_sym_input;
      anon_sym_return;
      sym_exit_statement;
      anon_sym_if;
      anon_sym_repeat;
      anon_sym_foreach;
      anon_sym_while;
      anon_sym_attempt_COLON;
      anon_sym_add;
      anon_sym_remove;
      sym__newline;
  (* [3214] *) 13;
    ACTIONS 229; 1;
      anon_sym_DQUOTE;
    ACTIONS 233; 1;
      anon_sym_LBRACK;
    ACTIONS 235; 1;
      anon_sym_not;
    ACTIONS 237; 1;
      anon_sym_lengthof;
    ACTIONS 239; 1;
      anon_sym_LPAREN;
    ACTIONS 386; 1;
      anon_sym_call;
    ACTIONS 388; 1;
      sym_number;
    ACTIONS 390; 1;
      anon_sym_RBRACK;
    STATE 97; 1;
      sym_unary_operator;
    STATE 137; 1;
      sym_argument_list;
    ACTIONS 231; 2;
      anon_sym_true;
      anon_sym_false;
    ACTIONS 384; 2;
      sym_nothing;
      sym_identifier;
    STATE 24; 9;
      sym__expression;
      sym_string;
      sym_boolean;
      sym_list_literal;
      sym_binary_expression;
      sym_unary_expression;
      sym_call_expression;
      sym_index_expression;
      sym_parenthesized_expression;
  (* [3264] *) 1;
    ACTIONS 392; 23;
      ts_builtin_sym_end;
      anon_sym_do_COLON;
      anon_sym_declare_COLON;
      anon_sym_note_COLON;
      anon_sym_noteblock_COLON;
      anon_sym_building_COLON;
      anon_sym_floor_COLON;
      anon_sym_step_COLON;
      anon_sym_riser_COLON;
      anon_sym_set;
      anon_sym_call;
      anon_sym_display;
      anon_sym_input;
      anon_sym_return;
      sym_exit_statement;
      anon_sym_if;
      anon_sym_repeat;
      anon_sym_foreach;
      anon_sym_while;
      anon_sym_attempt_COLON;
      anon_sym_add;
      anon_sym_remove;
      sym__newline;
  (* [3290] *) 1;
    ACTIONS 394; 23;
      ts_builtin_sym_end;
      anon_sym_do_COLON;
      anon_sym_declare_COLON;
      anon_sym_note_COLON;
      anon_sym_noteblock_COLON;
      anon_sym_building_COLON;
      anon_sym_floor_COLON;
      anon_sym_step_COLON;
      anon_sym_riser_COLON;
      anon_sym_set;
      anon_sym_call;
      anon_sym_display;
      anon_sym_input;
      anon_sym_return;
      sym_exit_statement;
      anon_sym_if;
      anon_sym_repeat;
      anon_sym_foreach;
      anon_sym_while;
      anon_sym_attempt_COLON;
      anon_sym_add;
      anon_sym_remove;
      sym__newline;
  (* [3316] *) 1;
    ACTIONS 396; 23;
      ts_builtin_sym_end;
      anon_sym_do_COLON;
      anon_sym_declare_COLON;
      anon_sym_note_COLON;
      anon_sym_noteblock_COLON;
      anon_sym_building_COLON;
      anon_sym_floor_COLON;
      anon_sym_step_COLON;
      anon_sym_riser_COLON;
      anon_sym_set;
      anon_sym_call;
      anon_sym_display;
      anon_sym_input;
      anon_sym_return;
      sym_exit_statement;
      anon_sym_if;
      anon_sym_repeat;
      anon_sym_foreach;
      anon_sym_while;
      anon_sym_attempt_COLON;
      anon_sym_add;
      anon_sym_remove;
      sym__newline;
  (* [3342] *) 1;
    ACTIONS 354; 23;
      ts_builtin_sym_end;
      anon_sym_do_COLON;
      anon_sym_declare_COLON;
      anon_sym_note_COLON;
      anon_sym_noteblock_COLON;
      anon_sym_building_COLON;
      anon_sym_floor_COLON;
      anon_sym_step_COLON;
      anon_sym_riser_COLON;
      anon_sym_set;
      anon_sym_call;
      anon_sym_display;
      anon_sym_input;
      anon_sym_return;
      sym_exit_statement;
      anon_sym_if;
      anon_sym_repeat;
      anon_sym_foreach;
      anon_sym_while;
      anon_sym_attempt_COLON;
      anon_sym_add;
      anon_sym_remove;
      sym__newline;
  (* [3368] *) 1;
    ACTIONS 290; 23;
      ts_builtin_sym_end;
      anon_sym_do_COLON;
      anon_sym_declare_COLON;
      anon_sym_note_COLON;
      anon_sym_noteblock_COLON;
      anon_sym_building_COLON;
      anon_sym_floor_COLON;
      anon_sym_step_COLON;
      anon_sym_riser_COLON;
      anon_sym_set;
      anon_sym_call;
      anon_sym_display;
      anon_sym_input;
      anon_sym_return;
      sym_exit_statement;
      anon_sym_if;
      anon_sym_repeat;
      anon_sym_foreach;
      anon_sym_while;
      anon_sym_attempt_COLON;
      anon_sym_add;
      anon_sym_remove;
      sym__newline;
  (* [3394] *) 1;
    ACTIONS 398; 23;
      ts_builtin_sym_end;
      anon_sym_do_COLON;
      anon_sym_declare_COLON;
      anon_sym_note_COLON;
      anon_sym_noteblock_COLON;
      anon_sym_building_COLON;
      anon_sym_floor_COLON;
      anon_sym_step_COLON;
      anon_sym_riser_COLON;
      anon_sym_set;
      anon_sym_call;
      anon_sym_display;
      anon_sym_input;
      anon_sym_return;
      sym_exit_statement;
      anon_sym_if;
      anon_sym_repeat;
      anon_sym_foreach;
      anon_sym_while;
      anon_sym_attempt_COLON;
      anon_sym_add;
      anon_sym_remove;
      sym__newline;
  (* [3420] *) 1;
    ACTIONS 344; 23;
      ts_builtin_sym_end;
      anon_sym_do_COLON;
      anon_sym_declare_COLON;
      anon_sym_note_COLON;
      anon_sym_noteblock_COLON;
      anon_sym_building_COLON;
      anon_sym_floor_COLON;
      anon_sym_step_COLON;
      anon_sym_riser_COLON;
      anon_sym_set;
      anon_sym_call;
      anon_sym_display;
      anon_sym_input;
      anon_sym_return;
      sym_exit_statement;
      anon_sym_if;
      anon_sym_repeat;
      anon_sym_foreach;
      anon_sym_while;
      anon_sym_attempt_COLON;
      anon_sym_add;
      anon_sym_remove;
      sym__newline;
  (* [3446] *) 1;
    ACTIONS 400; 23;
      ts_builtin_sym_end;
      anon_sym_do_COLON;
      anon_sym_declare_COLON;
      anon_sym_note_COLON;
      anon_sym_noteblock_COLON;
      anon_sym_building_COLON;
      anon_sym_floor_COLON;
      anon_sym_step_COLON;
      anon_sym_riser_COLON;
      anon_sym_set;
      anon_sym_call;
      anon_sym_display;
      anon_sym_input;
      anon_sym_return;
      sym_exit_statement;
      anon_sym_if;
      anon_sym_repeat;
      anon_sym_foreach;
      anon_sym_while;
      anon_sym_attempt_COLON;
      anon_sym_add;
      anon_sym_remove;
      sym__newline;
  (* [3472] *) 1;
    ACTIONS 402; 23;
      ts_builtin_sym_end;
      anon_sym_do_COLON;
      anon_sym_declare_COLON;
      anon_sym_note_COLON;
      anon_sym_noteblock_COLON;
      anon_sym_building_COLON;
      anon_sym_floor_COLON;
      anon_sym_step_COLON;
      anon_sym_riser_COLON;
      anon_sym_set;
      anon_sym_call;
      anon_sym_display;
      anon_sym_input;
      anon_sym_return;
      sym_exit_statement;
      anon_sym_if;
      anon_sym_repeat;
      anon_sym_foreach;
      anon_sym_while;
      anon_sym_attempt_COLON;
      anon_sym_add;
      anon_sym_remove;
      sym__newline;
  (* [3498] *) 1;
    ACTIONS 352; 23;
      ts_builtin_sym_end;
      anon_sym_do_COLON;
      anon_sym_declare_COLON;
      anon_sym_note_COLON;
      anon_sym_noteblock_COLON;
      anon_sym_building_COLON;
      anon_sym_floor_COLON;
      anon_sym_step_COLON;
      anon_sym_riser_COLON;
      anon_sym_set;
      anon_sym_call;
      anon_sym_display;
      anon_sym_input;
      anon_sym_return;
      sym_exit_statement;
      anon_sym_if;
      anon_sym_repeat;
      anon_sym_foreach;
      anon_sym_while;
      anon_sym_attempt_COLON;
      anon_sym_add;
      anon_sym_remove;
      sym__newline;
  (* [3524] *) 1;
    ACTIONS 404; 23;
      ts_builtin_sym_end;
      anon_sym_do_COLON;
      anon_sym_declare_COLON;
      anon_sym_note_COLON;
      anon_sym_noteblock_COLON;
      anon_sym_building_COLON;
      anon_sym_floor_COLON;
      anon_sym_step_COLON;
      anon_sym_riser_COLON;
      anon_sym_set;
      anon_sym_call;
      anon_sym_display;
      anon_sym_input;
      anon_sym_return;
      sym_exit_statement;
      anon_sym_if;
      anon_sym_repeat;
      anon_sym_foreach;
      anon_sym_while;
      anon_sym_attempt_COLON;
      anon_sym_add;
      anon_sym_remove;
      sym__newline;
  (* [3550] *) 1;
    ACTIONS 406; 23;
      ts_builtin_sym_end;
      anon_sym_do_COLON;
      anon_sym_declare_COLON;
      anon_sym_note_COLON;
      anon_sym_noteblock_COLON;
      anon_sym_building_COLON;
      anon_sym_floor_COLON;
      anon_sym_step_COLON;
      anon_sym_riser_COLON;
      anon_sym_set;
      anon_sym_call;
      anon_sym_display;
      anon_sym_input;
      anon_sym_return;
      sym_exit_statement;
      anon_sym_if;
      anon_sym_repeat;
      anon_sym_foreach;
      anon_sym_while;
      anon_sym_attempt_COLON;
      anon_sym_add;
      anon_sym_remove;
      sym__newline;
  (* [3576] *) 1;
    ACTIONS 408; 23;
      ts_builtin_sym_end;
      anon_sym_do_COLON;
      anon_sym_declare_COLON;
      anon_sym_note_COLON;
      anon_sym_noteblock_COLON;
      anon_sym_building_COLON;
      anon_sym_floor_COLON;
      anon_sym_step_COLON;
      anon_sym_riser_COLON;
      anon_sym_set;
      anon_sym_call;
      anon_sym_display;
      anon_sym_input;
      anon_sym_return;
      sym_exit_statement;
      anon_sym_if;
      anon_sym_repeat;
      anon_sym_foreach;
      anon_sym_while;
      anon_sym_attempt_COLON;
      anon_sym_add;
      anon_sym_remove;
      sym__newline;
  (* [3602] *) 1;
    ACTIONS 410; 23;
      ts_builtin_sym_end;
      anon_sym_do_COLON;
      anon_sym_declare_COLON;
      anon_sym_note_COLON;
      anon_sym_noteblock_COLON;
      anon_sym_building_COLON;
      anon_sym_floor_COLON;
      anon_sym_step_COLON;
      anon_sym_riser_COLON;
      anon_sym_set;
      anon_sym_call;
      anon_sym_display;
      anon_sym_input;
      anon_sym_return;
      sym_exit_statement;
      anon_sym_if;
      anon_sym_repeat;
      anon_sym_foreach;
      anon_sym_while;
      anon_sym_attempt_COLON;
      anon_sym_add;
      anon_sym_remove;
      sym__newline;
  (* [3628] *) 1;
    ACTIONS 412; 23;
      ts_builtin_sym_end;
      anon_sym_do_COLON;
      anon_sym_declare_COLON;
      anon_sym_note_COLON;
      anon_sym_noteblock_COLON;
      anon_sym_building_COLON;
      anon_sym_floor_COLON;
      anon_sym_step_COLON;
      anon_sym_riser_COLON;
      anon_sym_set;
      anon_sym_call;
      anon_sym_display;
      anon_sym_input;
      anon_sym_return;
      sym_exit_statement;
      anon_sym_if;
      anon_sym_repeat;
      anon_sym_foreach;
      anon_sym_while;
      anon_sym_attempt_COLON;
      anon_sym_add;
      anon_sym_remove;
      sym__newline;
  (* [3654] *) 1;
    ACTIONS 414; 23;
      ts_builtin_sym_end;
      anon_sym_do_COLON;
      anon_sym_declare_COLON;
      anon_sym_note_COLON;
      anon_sym_noteblock_COLON;
      anon_sym_building_COLON;
      anon_sym_floor_COLON;
      anon_sym_step_COLON;
      anon_sym_riser_COLON;
      anon_sym_set;
      anon_sym_call;
      anon_sym_display;
      anon_sym_input;
      anon_sym_return;
      sym_exit_statement;
      anon_sym_if;
      anon_sym_repeat;
      anon_sym_foreach;
      anon_sym_while;
      anon_sym_attempt_COLON;
      anon_sym_add;
      anon_sym_remove;
      sym__newline;
  (* [3680] *) 12;
    ACTIONS 229; 1;
      anon_sym_DQUOTE;
    ACTIONS 233; 1;
      anon_sym_LBRACK;
    ACTIONS 235; 1;
      anon_sym_not;
    ACTIONS 237; 1;
      anon_sym_lengthof;
    ACTIONS 239; 1;
      anon_sym_LPAREN;
    ACTIONS 386; 1;
      anon_sym_call;
    ACTIONS 388; 1;
      sym_number;
    STATE 62; 1;
      sym_argument_list;
    STATE 97; 1;
      sym_unary_operator;
    ACTIONS 231; 2;
      anon_sym_true;
      anon_sym_false;
    ACTIONS 384; 2;
      sym_nothing;
      sym_identifier;
    STATE 24; 9;
      sym__expression;
      sym_string;
      sym_boolean;
      sym_list_literal;
      sym_binary_expression;
      sym_unary_expression;
      sym_call_expression;
      sym_index_expression;
      sym_parenthesized_expression;
  (* [3727] *) 12;
    ACTIONS 229; 1;
      anon_sym_DQUOTE;
    ACTIONS 233; 1;
      anon_sym_LBRACK;
    ACTIONS 235; 1;
      anon_sym_not;
    ACTIONS 237; 1;
      anon_sym_lengthof;
    ACTIONS 239; 1;
      anon_sym_LPAREN;
    ACTIONS 386; 1;
      anon_sym_call;
    ACTIONS 418; 1;
      sym_number;
    STATE 17; 1;
      sym_argument_list;
    STATE 97; 1;
      sym_unary_operator;
    ACTIONS 231; 2;
      anon_sym_true;
      anon_sym_false;
    ACTIONS 416; 2;
      sym_nothing;
      sym_identifier;
    STATE 6; 9;
      sym__expression;
      sym_string;
      sym_boolean;
      sym_list_literal;
      sym_binary_expression;
      sym_unary_expression;
      sym_call_expression;
      sym_index_expression;
      sym_parenthesized_expression;
  (* [3774] *) 12;
    ACTIONS 229; 1;
      anon_sym_DQUOTE;
    ACTIONS 233; 1;
      anon_sym_LBRACK;
    ACTIONS 235; 1;
      anon_sym_not;
    ACTIONS 237; 1;
      anon_sym_lengthof;
    ACTIONS 239; 1;
      anon_sym_LPAREN;
    ACTIONS 386; 1;
      anon_sym_call;
    ACTIONS 422; 1;
      sym_number;
    STATE 17; 1;
      sym_argument_list;
    STATE 97; 1;
      sym_unary_operator;
    ACTIONS 231; 2;
      anon_sym_true;
      anon_sym_false;
    ACTIONS 420; 2;
      sym_nothing;
      sym_identifier;
    STATE 2; 9;
      sym__expression;
      sym_string;
      sym_boolean;
      sym_list_literal;
      sym_binary_expression;
      sym_unary_expression;
      sym_call_expression;
      sym_index_expression;
      sym_parenthesized_expression;
  (* [3821] *) 11;
    ACTIONS 225; 1;
      anon_sym_call;
    ACTIONS 229; 1;
      anon_sym_DQUOTE;
    ACTIONS 233; 1;
      anon_sym_LBRACK;
    ACTIONS 235; 1;
      anon_sym_not;
    ACTIONS 237; 1;
      anon_sym_lengthof;
    ACTIONS 239; 1;
      anon_sym_LPAREN;
    ACTIONS 426; 1;
      sym_number;
    STATE 102; 1;
      sym_unary_operator;
    ACTIONS 231; 2;
      anon_sym_true;
      anon_sym_false;
    ACTIONS 424; 2;
      sym_nothing;
      sym_identifier;
    STATE 29; 9;
      sym__expression;
      sym_string;
      sym_boolean;
      sym_list_literal;
      sym_binary_expression;
      sym_unary_expression;
      sym_call_expression;
      sym_index_expression;
      sym_parenthesized_expression;
  (* [3865] *) 5;
    ACTIONS 51; 1;
      anon_sym_LBRACK;
    ACTIONS 428; 1;
      anon_sym_RPAREN;
    STATE 92; 1;
      sym_binary_operator;
    ACTIONS 55; 2;
      anon_sym_islessthan;
      anon_sym_isgreaterthan;
    ACTIONS 53; 16;
      anon_sym_PLUS;
      anon_sym_DASH;
      anon_sym_STAR;
      anon_sym_SLASH;
      anon_sym_isequalto;
      anon_sym_equals;
      anon_sym_isnotequalto;
      anon_sym_islessthanorequalto;
      anon_sym_isgreaterthanorequalto;
      anon_sym_and;
      anon_sym_or;
      anon_sym_addedto;
      anon_sym_contains;
      anon_sym_startswith;
      anon_sym_endswith;
      anon_sym_isin;
  (* [3897] *) 11;
    ACTIONS 225; 1;
      anon_sym_call;
    ACTIONS 229; 1;
      anon_sym_DQUOTE;
    ACTIONS 233; 1;
      anon_sym_LBRACK;
    ACTIONS 235; 1;
      anon_sym_not;
    ACTIONS 237; 1;
      anon_sym_lengthof;
    ACTIONS 239; 1;
      anon_sym_LPAREN;
    ACTIONS 432; 1;
      sym_number;
    STATE 102; 1;
      sym_unary_operator;
    ACTIONS 231; 2;
      anon_sym_true;
      anon_sym_false;
    ACTIONS 430; 2;
      sym_nothing;
      sym_identifier;
    STATE 21; 9;
      sym__expression;
      sym_string;
      sym_boolean;
      sym_list_literal;
      sym_binary_expression;
      sym_unary_expression;
      sym_call_expression;
      sym_index_expression;
      sym_parenthesized_expression;
  (* [3941] *) 11;
    ACTIONS 225; 1;
      anon_sym_call;
    ACTIONS 229; 1;
      anon_sym_DQUOTE;
    ACTIONS 233; 1;
      anon_sym_LBRACK;
    ACTIONS 235; 1;
      anon_sym_not;
    ACTIONS 237; 1;
      anon_sym_lengthof;
    ACTIONS 239; 1;
      anon_sym_LPAREN;
    ACTIONS 436; 1;
      sym_number;
    STATE 102; 1;
      sym_unary_operator;
    ACTIONS 231; 2;
      anon_sym_true;
      anon_sym_false;
    ACTIONS 434; 2;
      sym_nothing;
      sym_identifier;
    STATE 27; 9;
      sym__expression;
      sym_string;
      sym_boolean;
      sym_list_literal;
      sym_binary_expression;
      sym_unary_expression;
      sym_call_expression;
      sym_index_expression;
      sym_parenthesized_expression;
  (* [3985] *) 11;
    ACTIONS 225; 1;
      anon_sym_call;
    ACTIONS 229; 1;
      anon_sym_DQUOTE;
    ACTIONS 233; 1;
      anon_sym_LBRACK;
    ACTIONS 235; 1;
      anon_sym_not;
    ACTIONS 237; 1;
      anon_sym_lengthof;
    ACTIONS 239; 1;
      anon_sym_LPAREN;
    ACTIONS 440; 1;
      sym_number;
    STATE 102; 1;
      sym_unary_operator;
    ACTIONS 231; 2;
      anon_sym_true;
      anon_sym_false;
    ACTIONS 438; 2;
      sym_nothing;
      sym_identifier;
    STATE 31; 9;
      sym__expression;
      sym_string;
      sym_boolean;
      sym_list_literal;
      sym_binary_expression;
      sym_unary_expression;
      sym_call_expression;
      sym_index_expression;
      sym_parenthesized_expression;
  (* [4029] *) 11;
    ACTIONS 225; 1;
      anon_sym_call;
    ACTIONS 229; 1;
      anon_sym_DQUOTE;
    ACTIONS 233; 1;
      anon_sym_LBRACK;
    ACTIONS 235; 1;
      anon_sym_not;
    ACTIONS 237; 1;
      anon_sym_lengthof;
    ACTIONS 239; 1;
      anon_sym_LPAREN;
    ACTIONS 444; 1;
      sym_number;
    STATE 102; 1;
      sym_unary_operator;
    ACTIONS 231; 2;
      anon_sym_true;
      anon_sym_false;
    ACTIONS 442; 2;
      sym_nothing;
      sym_identifier;
    STATE 106; 9;
      sym__expression;
      sym_string;
      sym_boolean;
      sym_list_literal;
      sym_binary_expression;
      sym_unary_expression;
      sym_call_expression;
      sym_index_expression;
      sym_parenthesized_expression;
  (* [4073] *) 11;
    ACTIONS 229; 1;
      anon_sym_DQUOTE;
    ACTIONS 233; 1;
      anon_sym_LBRACK;
    ACTIONS 235; 1;
      anon_sym_not;
    ACTIONS 237; 1;
      anon_sym_lengthof;
    ACTIONS 239; 1;
      anon_sym_LPAREN;
    ACTIONS 386; 1;
      anon_sym_call;
    ACTIONS 448; 1;
      sym_number;
    STATE 97; 1;
      sym_unary_operator;
    ACTIONS 231; 2;
      anon_sym_true;
      anon_sym_false;
    ACTIONS 446; 2;
      sym_nothing;
      sym_identifier;
    STATE 4; 9;
      sym__expression;
      sym_string;
      sym_boolean;
      sym_list_literal;
      sym_binary_expression;
      sym_unary_expression;
      sym_call_expression;
      sym_index_expression;
      sym_parenthesized_expression;
  (* [4117] *) 11;
    ACTIONS 229; 1;
      anon_sym_DQUOTE;
    ACTIONS 233; 1;
      anon_sym_LBRACK;
    ACTIONS 235; 1;
      anon_sym_not;
    ACTIONS 237; 1;
      anon_sym_lengthof;
    ACTIONS 239; 1;
      anon_sym_LPAREN;
    ACTIONS 386; 1;
      anon_sym_call;
    ACTIONS 452; 1;
      sym_number;
    STATE 97; 1;
      sym_unary_operator;
    ACTIONS 231; 2;
      anon_sym_true;
      anon_sym_false;
    ACTIONS 450; 2;
      sym_nothing;
      sym_identifier;
    STATE 5; 9;
      sym__expression;
      sym_string;
      sym_boolean;
      sym_list_literal;
      sym_binary_expression;
      sym_unary_expression;
      sym_call_expression;
      sym_index_expression;
      sym_parenthesized_expression;
  (* [4161] *) 11;
    ACTIONS 225; 1;
      anon_sym_call;
    ACTIONS 229; 1;
      anon_sym_DQUOTE;
    ACTIONS 233; 1;
      anon_sym_LBRACK;
    ACTIONS 235; 1;
      anon_sym_not;
    ACTIONS 237; 1;
      anon_sym_lengthof;
    ACTIONS 239; 1;
      anon_sym_LPAREN;
    ACTIONS 456; 1;
      sym_number;
    STATE 102; 1;
      sym_unary_operator;
    ACTIONS 231; 2;
      anon_sym_true;
      anon_sym_false;
    ACTIONS 454; 2;
      sym_nothing;
      sym_identifier;
    STATE 110; 9;
      sym__expression;
      sym_string;
      sym_boolean;
      sym_list_literal;
      sym_binary_expression;
      sym_unary_expression;
      sym_call_expression;
      sym_index_expression;
      sym_parenthesized_expression;
  (* [4205] *) 11;
    ACTIONS 225; 1;
      anon_sym_call;
    ACTIONS 229; 1;
      anon_sym_DQUOTE;
    ACTIONS 233; 1;
      anon_sym_LBRACK;
    ACTIONS 235; 1;
      anon_sym_not;
    ACTIONS 237; 1;
      anon_sym_lengthof;
    ACTIONS 239; 1;
      anon_sym_LPAREN;
    ACTIONS 460; 1;
      sym_number;
    STATE 102; 1;
      sym_unary_operator;
    ACTIONS 231; 2;
      anon_sym_true;
      anon_sym_false;
    ACTIONS 458; 2;
      sym_nothing;
      sym_identifier;
    STATE 91; 9;
      sym__expression;
      sym_string;
      sym_boolean;
      sym_list_literal;
      sym_binary_expression;
      sym_unary_expression;
      sym_call_expression;
      sym_index_expression;
      sym_parenthesized_expression;
  (* [4249] *) 5;
    ACTIONS 51; 1;
      anon_sym_LBRACK;
    ACTIONS 462; 1;
      anon_sym_RBRACK;
    STATE 92; 1;
      sym_binary_operator;
    ACTIONS 55; 2;
      anon_sym_islessthan;
      anon_sym_isgreaterthan;
    ACTIONS 53; 16;
      anon_sym_PLUS;
      anon_sym_DASH;
      anon_sym_STAR;
      anon_sym_SLASH;
      anon_sym_isequalto;
      anon_sym_equals;
      anon_sym_isnotequalto;
      anon_sym_islessthanorequalto;
      anon_sym_isgreaterthanorequalto;
      anon_sym_and;
      anon_sym_or;
      anon_sym_addedto;
      anon_sym_contains;
      anon_sym_startswith;
      anon_sym_endswith;
      anon_sym_isin;
  (* [4281] *) 11;
    ACTIONS 225; 1;
      anon_sym_call;
    ACTIONS 229; 1;
      anon_sym_DQUOTE;
    ACTIONS 233; 1;
      anon_sym_LBRACK;
    ACTIONS 235; 1;
      anon_sym_not;
    ACTIONS 237; 1;
      anon_sym_lengthof;
    ACTIONS 239; 1;
      anon_sym_LPAREN;
    ACTIONS 466; 1;
      sym_number;
    STATE 102; 1;
      sym_unary_operator;
    ACTIONS 231; 2;
      anon_sym_true;
      anon_sym_false;
    ACTIONS 464; 2;
      sym_nothing;
      sym_identifier;
    STATE 100; 9;
      sym__expression;
      sym_string;
      sym_boolean;
      sym_list_literal;
      sym_binary_expression;
      sym_unary_expression;
      sym_call_expression;
      sym_index_expression;
      sym_parenthesized_expression;
  (* [4325] *) 11;
    ACTIONS 225; 1;
      anon_sym_call;
    ACTIONS 229; 1;
      anon_sym_DQUOTE;
    ACTIONS 233; 1;
      anon_sym_LBRACK;
    ACTIONS 235; 1;
      anon_sym_not;
    ACTIONS 237; 1;
      anon_sym_lengthof;
    ACTIONS 239; 1;
      anon_sym_LPAREN;
    ACTIONS 470; 1;
      sym_number;
    STATE 102; 1;
      sym_unary_operator;
    ACTIONS 231; 2;
      anon_sym_true;
      anon_sym_false;
    ACTIONS 468; 2;
      sym_nothing;
      sym_identifier;
    STATE 22; 9;
      sym__expression;
      sym_string;
      sym_boolean;
      sym_list_literal;
      sym_binary_expression;
      sym_unary_expression;
      sym_call_expression;
      sym_index_expression;
      sym_parenthesized_expression;
  (* [4369] *) 11;
    ACTIONS 225; 1;
      anon_sym_call;
    ACTIONS 229; 1;
      anon_sym_DQUOTE;
    ACTIONS 233; 1;
      anon_sym_LBRACK;
    ACTIONS 235; 1;
      anon_sym_not;
    ACTIONS 237; 1;
      anon_sym_lengthof;
    ACTIONS 239; 1;
      anon_sym_LPAREN;
    ACTIONS 474; 1;
      sym_number;
    STATE 102; 1;
      sym_unary_operator;
    ACTIONS 231; 2;
      anon_sym_true;
      anon_sym_false;
    ACTIONS 472; 2;
      sym_nothing;
      sym_identifier;
    STATE 33; 9;
      sym__expression;
      sym_string;
      sym_boolean;
      sym_list_literal;
      sym_binary_expression;
      sym_unary_expression;
      sym_call_expression;
      sym_index_expression;
      sym_parenthesized_expression;
  (* [4413] *) 5;
    ACTIONS 51; 1;
      anon_sym_LBRACK;
    ACTIONS 476; 1;
      anon_sym_times;
    STATE 92; 1;
      sym_binary_operator;
    ACTIONS 55; 2;
      anon_sym_islessthan;
      anon_sym_isgreaterthan;
    ACTIONS 53; 16;
      anon_sym_PLUS;
      anon_sym_DASH;
      anon_sym_STAR;
      anon_sym_SLASH;
      anon_sym_isequalto;
      anon_sym_equals;
      anon_sym_isnotequalto;
      anon_sym_islessthanorequalto;
      anon_sym_isgreaterthanorequalto;
      anon_sym_and;
      anon_sym_or;
      anon_sym_addedto;
      anon_sym_contains;
      anon_sym_startswith;
      anon_sym_endswith;
      anon_sym_isin;
  (* [4445] *) 11;
    ACTIONS 225; 1;
      anon_sym_call;
    ACTIONS 229; 1;
      anon_sym_DQUOTE;
    ACTIONS 233; 1;
      anon_sym_LBRACK;
    ACTIONS 235; 1;
      anon_sym_not;
    ACTIONS 237; 1;
      anon_sym_lengthof;
    ACTIONS 239; 1;
      anon_sym_LPAREN;
    ACTIONS 480; 1;
      sym_number;
    STATE 102; 1;
      sym_unary_operator;
    ACTIONS 231; 2;
      anon_sym_true;
      anon_sym_false;
    ACTIONS 478; 2;
      sym_nothing;
      sym_identifier;
    STATE 35; 9;
      sym__expression;
      sym_string;
      sym_boolean;
      sym_list_literal;
      sym_binary_expression;
      sym_unary_expression;
      sym_call_expression;
      sym_index_expression;
      sym_parenthesized_expression;
  (* [4489] *) 5;
    ACTIONS 51; 1;
      anon_sym_LBRACK;
    ACTIONS 482; 1;
      anon_sym_to;
    STATE 92; 1;
      sym_binary_operator;
    ACTIONS 55; 2;
      anon_sym_islessthan;
      anon_sym_isgreaterthan;
    ACTIONS 53; 16;
      anon_sym_PLUS;
      anon_sym_DASH;
      anon_sym_STAR;
      anon_sym_SLASH;
      anon_sym_isequalto;
      anon_sym_equals;
      anon_sym_isnotequalto;
      anon_sym_islessthanorequalto;
      anon_sym_isgreaterthanorequalto;
      anon_sym_and;
      anon_sym_or;
      anon_sym_addedto;
      anon_sym_contains;
      anon_sym_startswith;
      anon_sym_endswith;
      anon_sym_isin;
  (* [4521] *) 11;
    ACTIONS 225; 1;
      anon_sym_call;
    ACTIONS 229; 1;
      anon_sym_DQUOTE;
    ACTIONS 233; 1;
      anon_sym_LBRACK;
    ACTIONS 235; 1;
      anon_sym_not;
    ACTIONS 237; 1;
      anon_sym_lengthof;
    ACTIONS 239; 1;
      anon_sym_LPAREN;
    ACTIONS 486; 1;
      sym_number;
    STATE 102; 1;
      sym_unary_operator;
    ACTIONS 231; 2;
      anon_sym_true;
      anon_sym_false;
    ACTIONS 484; 2;
      sym_nothing;
      sym_identifier;
    STATE 23; 9;
      sym__expression;
      sym_string;
      sym_boolean;
      sym_list_literal;
      sym_binary_expression;
      sym_unary_expression;
      sym_call_expression;
      sym_index_expression;
      sym_parenthesized_expression;
  (* [4565] *) 11;
    ACTIONS 225; 1;
      anon_sym_call;
    ACTIONS 229; 1;
      anon_sym_DQUOTE;
    ACTIONS 233; 1;
      anon_sym_LBRACK;
    ACTIONS 235; 1;
      anon_sym_not;
    ACTIONS 237; 1;
      anon_sym_lengthof;
    ACTIONS 239; 1;
      anon_sym_LPAREN;
    ACTIONS 490; 1;
      sym_number;
    STATE 102; 1;
      sym_unary_operator;
    ACTIONS 231; 2;
      anon_sym_true;
      anon_sym_false;
    ACTIONS 488; 2;
      sym_nothing;
      sym_identifier;
    STATE 28; 9;
      sym__expression;
      sym_string;
      sym_boolean;
      sym_list_literal;
      sym_binary_expression;
      sym_unary_expression;
      sym_call_expression;
      sym_index_expression;
      sym_parenthesized_expression;
  (* [4609] *) 11;
    ACTIONS 225; 1;
      anon_sym_call;
    ACTIONS 229; 1;
      anon_sym_DQUOTE;
    ACTIONS 233; 1;
      anon_sym_LBRACK;
    ACTIONS 235; 1;
      anon_sym_not;
    ACTIONS 237; 1;
      anon_sym_lengthof;
    ACTIONS 239; 1;
      anon_sym_LPAREN;
    ACTIONS 494; 1;
      sym_number;
    STATE 102; 1;
      sym_unary_operator;
    ACTIONS 231; 2;
      anon_sym_true;
      anon_sym_false;
    ACTIONS 492; 2;
      sym_nothing;
      sym_identifier;
    STATE 104; 9;
      sym__expression;
      sym_string;
      sym_boolean;
      sym_list_literal;
      sym_binary_expression;
      sym_unary_expression;
      sym_call_expression;
      sym_index_expression;
      sym_parenthesized_expression;
  (* [4653] *) 5;
    ACTIONS 51; 1;
      anon_sym_LBRACK;
    ACTIONS 496; 1;
      anon_sym_from;
    STATE 92; 1;
      sym_binary_operator;
    ACTIONS 55; 2;
      anon_sym_islessthan;
      anon_sym_isgreaterthan;
    ACTIONS 53; 16;
      anon_sym_PLUS;
      anon_sym_DASH;
      anon_sym_STAR;
      anon_sym_SLASH;
      anon_sym_isequalto;
      anon_sym_equals;
      anon_sym_isnotequalto;
      anon_sym_islessthanorequalto;
      anon_sym_isgreaterthanorequalto;
      anon_sym_and;
      anon_sym_or;
      anon_sym_addedto;
      anon_sym_contains;
      anon_sym_startswith;
      anon_sym_endswith;
      anon_sym_isin;
  (* [4685] *) 11;
    ACTIONS 229; 1;
      anon_sym_DQUOTE;
    ACTIONS 233; 1;
      anon_sym_LBRACK;
    ACTIONS 235; 1;
      anon_sym_not;
    ACTIONS 237; 1;
      anon_sym_lengthof;
    ACTIONS 239; 1;
      anon_sym_LPAREN;
    ACTIONS 386; 1;
      anon_sym_call;
    ACTIONS 500; 1;
      sym_number;
    STATE 97; 1;
      sym_unary_operator;
    ACTIONS 231; 2;
      anon_sym_true;
      anon_sym_false;
    ACTIONS 498; 2;
      sym_nothing;
      sym_identifier;
    STATE 9; 9;
      sym__expression;
      sym_string;
      sym_boolean;
      sym_list_literal;
      sym_binary_expression;
      sym_unary_expression;
      sym_call_expression;
      sym_index_expression;
      sym_parenthesized_expression;
  (* [4729] *) 11;
    ACTIONS 225; 1;
      anon_sym_call;
    ACTIONS 229; 1;
      anon_sym_DQUOTE;
    ACTIONS 233; 1;
      anon_sym_LBRACK;
    ACTIONS 235; 1;
      anon_sym_not;
    ACTIONS 237; 1;
      anon_sym_lengthof;
    ACTIONS 239; 1;
      anon_sym_LPAREN;
    ACTIONS 504; 1;
      sym_number;
    STATE 102; 1;
      sym_unary_operator;
    ACTIONS 231; 2;
      anon_sym_true;
      anon_sym_false;
    ACTIONS 502; 2;
      sym_nothing;
      sym_identifier;
    STATE 34; 9;
      sym__expression;
      sym_string;
      sym_boolean;
      sym_list_literal;
      sym_binary_expression;
      sym_unary_expression;
      sym_call_expression;
      sym_index_expression;
      sym_parenthesized_expression;
  (* [4773] *) 5;
    ACTIONS 506; 1;
      anon_sym_endnote;
    ACTIONS 508; 1;
      aux_sym_block_comment_content_token1;
    STATE 117; 1;
      aux_sym_block_comment_content_repeat1;
    STATE 144; 1;
      sym_block_comment_content;
    ACTIONS 510; 7;
      aux_sym_block_comment_content_token2;
      aux_sym_block_comment_content_token3;
      aux_sym_block_comment_content_token4;
      aux_sym_block_comment_content_token5;
      aux_sym_block_comment_content_token6;
      aux_sym_block_comment_content_token7;
      aux_sym_block_comment_content_token8;
  (* [4795] *) 2;
    ACTIONS 514; 5;
      sym_number;
      anon_sym_DQUOTE;
      anon_sym_LBRACK;
      anon_sym_lengthof;
      anon_sym_LPAREN;
    ACTIONS 512; 6;
      anon_sym_call;
      anon_sym_true;
      anon_sym_false;
      sym_nothing;
      anon_sym_not;
      sym_identifier;
  (* [4811] *) 2;
    ACTIONS 518; 5;
      sym_number;
      anon_sym_DQUOTE;
      anon_sym_LBRACK;
      anon_sym_lengthof;
      anon_sym_LPAREN;
    ACTIONS 516; 6;
      anon_sym_call;
      anon_sym_true;
      anon_sym_false;
      sym_nothing;
      anon_sym_not;
      sym_identifier;
  (* [4827] *) 4;
    ACTIONS 520; 1;
      anon_sym_endnote;
    ACTIONS 522; 1;
      aux_sym_block_comment_content_token1;
    STATE 116; 1;
      aux_sym_block_comment_content_repeat1;
    ACTIONS 525; 7;
      aux_sym_block_comment_content_token2;
      aux_sym_block_comment_content_token3;
      aux_sym_block_comment_content_token4;
      aux_sym_block_comment_content_token5;
      aux_sym_block_comment_content_token6;
      aux_sym_block_comment_content_token7;
      aux_sym_block_comment_content_token8;
  (* [4846] *) 4;
    ACTIONS 528; 1;
      anon_sym_endnote;
    ACTIONS 530; 1;
      aux_sym_block_comment_content_token1;
    STATE 116; 1;
      aux_sym_block_comment_content_repeat1;
    ACTIONS 532; 7;
      aux_sym_block_comment_content_token2;
      aux_sym_block_comment_content_token3;
      aux_sym_block_comment_content_token4;
      aux_sym_block_comment_content_token5;
      aux_sym_block_comment_content_token6;
      aux_sym_block_comment_content_token7;
      aux_sym_block_comment_content_token8;
  (* [4865] *) 2;
    STATE 59; 1;
      sym_type;
    ACTIONS 534; 5;
      anon_sym_number;
      anon_sym_text;
      anon_sym_boolean;
      anon_sym_list;
      anon_sym_table;
  (* [4876] *) 2;
    STATE 53; 1;
      sym_type;
    ACTIONS 536; 5;
      anon_sym_number;
      anon_sym_text;
      anon_sym_boolean;
      anon_sym_list;
      anon_sym_table;
  (* [4887] *) 2;
    STATE 63; 1;
      sym_type;
    ACTIONS 534; 5;
      anon_sym_number;
      anon_sym_text;
      anon_sym_boolean;
      anon_sym_list;
      anon_sym_table;
  (* [4898] *) 2;
    STATE 48; 1;
      sym_type;
    ACTIONS 536; 5;
      anon_sym_number;
      anon_sym_text;
      anon_sym_boolean;
      anon_sym_list;
      anon_sym_table;
  (* [4909] *) 5;
    ACTIONS 538; 1;
      anon_sym_DQUOTE;
    ACTIONS 540; 1;
      aux_sym_string_content_token1;
    ACTIONS 542; 1;
      sym_escape_sequence;
    STATE 124; 1;
      aux_sym_string_content_repeat1;
    STATE 133; 1;
      sym_string_content;
  (* [4925] *) 4;
    ACTIONS 544; 1;
      anon_sym_DQUOTE;
    ACTIONS 546; 1;
      aux_sym_string_content_token1;
    ACTIONS 549; 1;
      sym_escape_sequence;
    STATE 123; 1;
      aux_sym_string_content_repeat1;
  (* [4938] *) 4;
    ACTIONS 552; 1;
      anon_sym_DQUOTE;
    ACTIONS 554; 1;
      aux_sym_string_content_token1;
    ACTIONS 556; 1;
      sym_escape_sequence;
    STATE 123; 1;
      aux_sym_string_content_repeat1;
  (* [4951] *) 3;
    ACTIONS 558; 1;
      sym_identifier;
    STATE 40; 1;
      sym_parameter;
    STATE 52; 1;
      sym_parameter_list;
  (* [4961] *) 2;
    ACTIONS 558; 1;
      sym_identifier;
    STATE 47; 1;
      sym_parameter;
  (* [4968] *) 1;
    ACTIONS 560; 1;
      sym_identifier;
  (* [4972] *) 1;
    ACTIONS 562; 1;
      sym_identifier;
  (* [4976] *) 1;
    ACTIONS 564; 1;
      ts_builtin_sym_end;
  (* [4980] *) 1;
    ACTIONS 566; 1;
      sym_identifier;
  (* [4984] *) 1;
    ACTIONS 568; 1;
      sym_identifier;
  (* [4988] *) 1;
    ACTIONS 570; 1;
      anon_sym_as;
  (* [4992] *) 1;
    ACTIONS 572; 1;
      anon_sym_DQUOTE;
  (* [4996] *) 1;
    ACTIONS 574; 1;
      anon_sym_in;
  (* [5000] *) 1;
    ACTIONS 576; 1;
      sym_identifier;
  (* [5004] *) 1;
    ACTIONS 578; 1;
      sym_identifier;
  (* [5008] *) 1;
    ACTIONS 580; 1;
      anon_sym_RBRACK;
  (* [5012] *) 1;
    ACTIONS 582; 1;
      sym_identifier;
  (* [5016] *) 1;
    ACTIONS 584; 1;
      sym_identifier;
  (* [5020] *) 1;
    ACTIONS 586; 1;
      sym_identifier;
  (* [5024] *) 1;
    ACTIONS 588; 1;
      sym_identifier;
  (* [5028] *) 1;
    ACTIONS 590; 1;
      anon_sym_to;
  (* [5032] *) 1;
    ACTIONS 592; 1;
      sym_identifier;
  (* [5036] *) 1;
    ACTIONS 594; 1;
      anon_sym_endnote;
  (* [5040] *) 1;
    ACTIONS 596; 1;
      sym_identifier;
  (* [5044] *) 1;
    ACTIONS 598; 1;
      sym_identifier;
  (* [5048] *) 1;
    ACTIONS 600; 1;
      anon_sym_as;
  (* [5052] *) 1;
    ACTIONS 602; 1;
      sym_identifier;
  (* [5056] *) 1;
    ACTIONS 604; 1;
      sym_identifier;
  (* [5060] *) 1;
    ACTIONS 606; 1;
      anon_sym_as
].

Definition ts_small_parse_table_map (small_state : N) : N :=
  match small_state with
  | 0 (* SMALL_STATE(2) *) => 0
  | 1 (* SMALL_STATE(3) *) => 68
  | 2 (* SMALL_STATE(4) *) => 130
  | 3 (* SMALL_STATE(5) *) => 191
  | 4 (* SMALL_STATE(6) *) => 252
  | 5 (* SMALL_STATE(7) *) => 321
  | 6 (* SMALL_STATE(8) *) => 382
  | 7 (* SMALL_STATE(9) *) => 441
  | 8 (* SMALL_STATE(10) *) => 506
  | 9 (* SMALL_STATE(11) *) => 562
  | 10 (* SMALL_STATE(12) *) => 618
  | 11 (* SMALL_STATE(13) *) => 678
  | 12 (* SMALL_STATE(14) *) => 734
  | 13 (* SMALL_STATE(15) *) => 794
  | 14 (* SMALL_STATE(16) *) => 850
  | 15 (* SMALL_STATE(17) *) => 906
  | 16 (* SMALL_STATE(18) *) => 962
  | 17 (* SMALL_STATE(19) *) => 1018
  | 18 (* SMALL_STATE(20) *) => 1074
  | 19 (* SMALL_STATE(21) *) => 1130
  | 20 (* SMALL_STATE(22) *) => 1189
  | 21 (* SMALL_STATE(23) *) => 1248
  | 22 (* SMALL_STATE(24) *) => 1317
  | 23 (* SMALL_STATE(25) *) => 1381
  | 24 (* SMALL_STATE(26) *) => 1476
  | 25 (* SMALL_STATE(27) *) => 1571
  | 26 (* SMALL_STATE(28) *) => 1629
  | 27 (* SMALL_STATE(29) *) => 1685
  | 28 (* SMALL_STATE(30) *) => 1741
  | 29 (* SMALL_STATE(31) *) => 1797
  | 30 (* SMALL_STATE(32) *) => 1853
  | 31 (* SMALL_STATE(33) *) => 1923
  | 32 (* SMALL_STATE(34) *) => 1979
  | 33 (* SMALL_STATE(35) *) => 2035
  | 34 (* SMALL_STATE(36) *) => 2091
  | 35 (* SMALL_STATE(37) *) => 2137
  | 36 (* SMALL_STATE(38) *) => 2183
  | 37 (* SMALL_STATE(39) *) => 2226
  | 38 (* SMALL_STATE(40) *) => 2269
  | 39 (* SMALL_STATE(41) *) => 2306
  | 40 (* SMALL_STATE(42) *) => 2345
  | 41 (* SMALL_STATE(43) *) => 2382
  | 42 (* SMALL_STATE(44) *) => 2419
  | 43 (* SMALL_STATE(45) *) => 2453
  | 44 (* SMALL_STATE(46) *) => 2493
  | 45 (* SMALL_STATE(47) *) => 2525
  | 46 (* SMALL_STATE(48) *) => 2557
  | 47 (* SMALL_STATE(49) *) => 2589
  | 48 (* SMALL_STATE(50) *) => 2623
  | 49 (* SMALL_STATE(51) *) => 2661
  | 50 (* SMALL_STATE(52) *) => 2697
  | 51 (* SMALL_STATE(53) *) => 2728
  | 52 (* SMALL_STATE(54) *) => 2759
  | 53 (* SMALL_STATE(55) *) => 2790
  | 54 (* SMALL_STATE(56) *) => 2824
  | 55 (* SMALL_STATE(57) *) => 2856
  | 56 (* SMALL_STATE(58) *) => 2888
  | 57 (* SMALL_STATE(59) *) => 2919
  | 58 (* SMALL_STATE(60) *) => 2948
  | 59 (* SMALL_STATE(61) *) => 2975
  | 60 (* SMALL_STATE(62) *) => 3002
  | 61 (* SMALL_STATE(63) *) => 3029
  | 62 (* SMALL_STATE(64) *) => 3058
  | 63 (* SMALL_STATE(65) *) => 3084
  | 64 (* SMALL_STATE(66) *) => 3110
  | 65 (* SMALL_STATE(67) *) => 3136
  | 66 (* SMALL_STATE(68) *) => 3162
  | 67 (* SMALL_STATE(69) *) => 3188
  | 68 (* SMALL_STATE(70) *) => 3214
  | 69 (* SMALL_STATE(71) *) => 3264
  | 70 (* SMALL_STATE(72) *) => 3290
  | 71 (* SMALL_STATE(73) *) => 3316
  | 72 (* SMALL_STATE(74) *) => 3342
  | 73 (* SMALL_STATE(75) *) => 3368
  | 74 (* SMALL_STATE(76) *) => 3394
  | 75 (* SMALL_STATE(77) *) => 3420
  | 76 (* SMALL_STATE(78) *) => 3446
  | 77 (* SMALL_STATE(79) *) => 3472
  | 78 (* SMALL_STATE(80) *) => 3498
  | 79 (* SMALL_STATE(81) *) => 3524
  | 80 (* SMALL_STATE(82) *) => 3550
  | 81 (* SMALL_STATE(83) *) => 3576
  | 82 (* SMALL_STATE(84) *) => 3602
  | 83 (* SMALL_STATE(85) *) => 3628
  | 84 (* SMALL_STATE(86) *) => 3654
  | 85 (* SMALL_STATE(87) *) => 3680
  | 86 (* SMALL_STATE(88) *) => 3727
  | 87 (* SMALL_STATE(89) *) => 3774
  | 88 (* SMALL_STATE(90) *) => 3821
  | 89 (* SMALL_STATE(91) *) => 3865
  | 90 (* SMALL_STATE(92) *) => 3897
  | 91 (* SMALL_STATE(93) *) => 3941
  | 92 (* SMALL_STATE(94) *) => 3985
  | 93 (* SMALL_STATE(95) *) => 4029
  | 94 (* SMALL_STATE(96) *) => 4073
  | 95 (* SMALL_STATE(97) *) => 4117
  | 96 (* SMALL_STATE(98) *) => 4161
  | 97 (* SMALL_STATE(99) *) => 4205
  | 98 (* SMALL_STATE(100) *) => 4249
  | 99 (* SMALL_STATE(101) *) => 4281
  | 100 (* SMALL_STATE(102) *) => 4325
  | 101 (* SMALL_STATE(103) *) => 4369
  | 102 (* SMALL_STATE(104) *) => 4413
  | 103 (* SMALL_STATE(105) *) => 4445
  | 104 (* SMALL_STATE(106) *) => 4489
  | 105 (* SMALL_STATE(107) *) => 4521
  | 106 (* SMALL_STATE(108) *) => 4565
  | 107 (* SMALL_STATE(109) *) => 4609
  | 108 (* SMALL_STATE(110) *) => 4653
  | 109 (* SMALL_STATE(111) *) => 4685
  | 110 (* SMALL_STATE(112) *) => 4729
  | 111 (* SMALL_STATE(113) *) => 4773
  | 112 (* SMALL_STATE(114) *) => 4795
  | 113 (* SMALL_STATE(115) *) => 4811
  | 114 (* SMALL_STATE(116) *) => 4827
  | 115 (* SMALL_STATE(117) *) => 4846
  | 116 (* SMALL_STATE(118) *) => 4865
  | 117 (* SMALL_STATE(119) *) => 4876
  | 118 (* SMALL_STATE(120) *) => 4887
  | 119 (* SMALL_STATE(121) *) => 4898
  | 120 (* SMALL_STATE(122) *) => 4909
  | 121 (* SMALL_STATE(123) *) => 4925
  | 122 (* SMALL_STATE(124) *) => 4938
  | 123 (* SMALL_STATE(125) *) => 4951
  | 124 (* SMALL_STATE(126) *) => 4961
  | 125 (* SMALL_STATE(127) *) => 4968
  | 126 (* SMALL_STATE(128) *) => 4972
  | 127 (* SMALL_STATE(129) *) => 4976
  | 128 (* SMALL_STATE(130) *) => 4980
  | 129 (* SMALL_STATE(131) *) => 4984
  | 130 (* SMALL_STATE(132) *) => 4988
  | 131 (* SMALL_STATE(133) *) => 4992
  | 132 (* SMALL_STATE(134) *) => 4996
  | 133 (* SMALL_STATE(135) *) => 5000
  | 134 (* SMALL_STATE(136) *) => 5004
  | 135 (* SMALL_STATE(137) *) => 5008
  | 136 (* SMALL_STATE(138) *) => 5012
  | 137 (* SMALL_STATE(139) *) => 5016
  | 138 (* SMALL_STATE(140) *) => 5020
  | 139 (* SMALL_STATE(141) *) => 5024
  | 140 (* SMALL_STATE(142) *) => 5028
  | 141 (* SMALL_STATE(143) *) => 5032
  | 142 (* SMALL_STATE(144) *) => 5036
  | 143 (* SMALL_STATE(145) *) => 5040
  | 144 (* SMALL_STATE(146) *) => 5044
  | 145 (* SMALL_STATE(147) *) => 5048
  | 146 (* SMALL_STATE(148) *) => 5052
  | 147 (* SMALL_STATE(149) *) => 5056
  | 148 (* SMALL_STATE(150) *) => 5060
  | _ => 0
  end.

(** ** Parse actions *)

Inductive TSParseAction :=
| SHIFT (state : TSStateId)
| SHIFT_REPEAT (state : TSStateId)
| REDUCE (symbol : TSSymbol) (child_count : N)
| RECOVER
| ACCEPT_INPUT.

Record TSParseActionEntry :=
  { count : N; reusable : bool; actions : list TSParseAction }.

Definition ts_parse_actions (index : N) : TSParseActionEntry :=
  match index with
  | 0 => {| count := 0; reusable := false; actions := [] |}
  | 1 => {| count := 1; reusable := false; actions := [RECOVER] |}
  | 3 => {| count := 1; reusable := true; actions := [REDUCE sym_source_file 0] |}
  | 5 => {| count := 1; reusable := true; actions := [SHIFT 77] |}
  | 7 => {| count := 1; reusable := true; actions := [SHIFT 55] |}
  | 9 => {| count := 1; reusable := true; actions := [SHIFT 58] |}
  | 11 => {| count := 1; reusable := true; actions := [SHIFT 113] |}
  | 13 => {| count := 1; reusable := true; actions := [SHIFT 143] |}
  | 15 => {| count := 1; reusable := true; actions := [SHIFT 141] |}
  | 17 => {| count := 1; reusable := true; actions := [SHIFT 140] |}
  | 19 => {| count := 1; reusable := true; actions := [SHIFT 139] |}
  | 21 => {| count := 1; reusable := true; actions := [SHIFT 128] |}
  | 23 => {| count := 1; reusable := true; actions := [SHIFT 136] |}
  | 25 => {| count := 1; reusable := true; actions := [SHIFT 105] |}
  | 27 => {| count := 1; reusable := true; actions := [SHIFT 135] |}
  | 29 => {| count := 1; reusable := true; actions := [SHIFT 32] |}
  | 31 => {| count := 1; reusable := true; actions := [SHIFT 26] |}
  | 33 => {| count := 1; reusable := true; actions := [SHIFT 107] |}
  | 35 => {| count := 1; reusable := true; actions := [SHIFT 109] |}
  | 37 => {| count := 1; reusable := true; actions := [SHIFT 127] |}
  | 39 => {| count := 1; reusable := true; actions := [SHIFT 112] |}
  | 41 => {| count := 1; reusable := true; actions := [SHIFT 45] |}
  | 43 => {| count := 1; reusable := true; actions := [SHIFT 95] |}
  | 45 => {| count := 1; reusable := true; actions := [SHIFT 98] |}
  | 47 => {| count := 1; reusable := true; actions := [REDUCE sym_argument_list 1] |}
  | 49 => {| count := 1; reusable := false; actions := [REDUCE sym_argument_list 1] |}
  | 51 => {| count := 1; reusable := true; actions := [SHIFT 101] |}
  | 53 => {| count := 1; reusable := true; actions := [SHIFT 115] |}
  | 55 => {| count := 1; reusable := false; actions := [SHIFT 115] |}
  | 57 => {| count := 1; reusable := true; actions := [REDUCE sym_call_expression 2] |}
  | 59 => {| count := 1; reusable := true; actions := [SHIFT 89] |}
  | 61 => {| count := 1; reusable := false; actions := [REDUCE sym_call_expression 2] |}
  | 63 => {| count := 1; reusable := true; actions := [REDUCE sym_binary_expression 3] |}
  | 65 => {| count := 1; reusable := false; actions := [REDUCE sym_binary_expression 3] |}
  | 67 => {| count := 1; reusable := true; actions := [REDUCE sym_unary_expression 2] |}
  | 69 => {| count := 1; reusable := false; actions := [REDUCE sym_unary_expression 2] |}
  | 71 => {| count := 1; reusable := true; actions := [SHIFT 111] |}
  | 73 => {| count := 1; reusable := true; actions := [REDUCE aux_sym_argument_list_repeat1 2] |}
  | 75 => {| count := 2; reusable := true; actions := [REDUCE aux_sym_argument_list_repeat1 2; SHIFT_REPEAT 111] |}
  | 78 => {| count := 1; reusable := false; actions := [REDUCE aux_sym_argument_list_repeat1 2] |}
  | 80 => {| count := 1; reusable := true; actions := [REDUCE sym_argument_list 2] |}
  | 82 => {| count := 1; reusable := false; actions := [REDUCE sym_argument_list 2] |}
  | 84 => {| count := 1; reusable := true; actions := [REDUCE sym_boolean 1] |}
  | 86 => {| count := 1; reusable := false; actions := [REDUCE sym_boolean 1] |}
  | 88 => {| count := 1; reusable := true; actions := [REDUCE sym_string 2] |}
  | 90 => {| count := 1; reusable := false; actions := [REDUCE sym_string 2] |}
  | 92 => {| count := 1; reusable := true; actions := [SHIFT 88] |}
  | 94 => {| count := 1; reusable := true; actions := [REDUCE sym_index_expression 4] |}
  | 96 => {| count := 1; reusable := false; actions := [REDUCE sym_index_expression 4] |}
  | 98 => {| count := 1; reusable := true; actions := [REDUCE sym_list_literal 2] |}
  | 100 => {| count := 1; reusable := false; actions := [REDUCE sym_list_literal 2] |}
  | 102 => {| count := 1; reusable := true; actions := [REDUCE sym_parenthesized_expression 3] |}
  | 104 => {| count := 1; reusable := false; actions := [REDUCE sym_parenthesized_expression 3] |}
  | 106 => {| count := 1; reusable := true; actions := [REDUCE sym_with_clause 2] |}
  | 108 => {| count := 1; reusable := false; actions := [REDUCE sym_with_clause 2] |}
  | 110 => {| count := 1; reusable := true; actions := [REDUCE sym_list_literal 3] |}
  | 112 => {| count := 1; reusable := false; actions := [REDUCE sym_list_literal 3] |}
  | 114 => {| count := 1; reusable := true; actions := [REDUCE sym_string 3] |}
  | 116 => {| count := 1; reusable := false; actions := [REDUCE sym_string 3] |}
  | 118 => {| count := 1; reusable := true; actions := [REDUCE sym_call_expression 3] |}
  | 120 => {| count := 1; reusable := false; actions := [REDUCE sym_call_expression 3] |}
  | 122 => {| count := 1; reusable := true; actions := [REDUCE sym_if_statement 2] |}
  | 124 => {| count := 1; reusable := true; actions := [SHIFT 93] |}
  | 126 => {| count := 1; reusable := false; actions := [SHIFT 86] |}
  | 128 => {| count := 1; reusable := false; actions := [REDUCE sym_if_statement 2] |}
  | 130 => {| count := 1; reusable := true; actions := [REDUCE aux_sym_source_file_repeat1 2] |}
  | 132 => {| count := 2; reusable := true; actions := [REDUCE aux_sym_source_file_repeat1 2; SHIFT_REPEAT 77] |}
  | 135 => {| count := 2; reusable := true; actions := [REDUCE aux_sym_source_file_repeat1 2; SHIFT_REPEAT 55] |}
  | 138 => {| count := 2; reusable := true; actions := [REDUCE aux_sym_source_file_repeat1 2; SHIFT_REPEAT 58] |}
  | 141 => {| count := 2; reusable := true; actions := [REDUCE aux_sym_source_file_repeat1 2; SHIFT_REPEAT 113] |}
  | 144 => {| count := 2; reusable := true; actions := [REDUCE aux_sym_source_file_repeat1 2; SHIFT_REPEAT 143] |}
  | 147 => {| count := 2; reusable := true; actions := [REDUCE aux_sym_source_file_repeat1 2; SHIFT_REPEAT 141] |}
  | 150 => {| count := 2; reusable := true; actions := [REDUCE aux_sym_source_file_repeat1 2; SHIFT_REPEAT 140] |}
  | 153 => {| count := 2; reusable := true; actions := [REDUCE aux_sym_source_file_repeat1 2; SHIFT_REPEAT 139] |}
  | 156 => {| count := 2; reusable := true; actions := [REDUCE aux_sym_source_file_repeat1 2; SHIFT_REPEAT 128] |}
  | 159 => {| count := 2; reusable := true; actions := [REDUCE aux_sym_source_file_repeat1 2; SHIFT_REPEAT 136] |}
  | 162 => {| count := 2; reusable := true; actions := [REDUCE aux_sym_source_file_repeat1 2; SHIFT_REPEAT 105] |}
  | 165 => {| count := 2; reusable := true; actions := [REDUCE aux_sym_source_file_repeat1 2; SHIFT_REPEAT 135] |}
  | 168 => {| count := 2; reusable := true; actions := [REDUCE aux_sym_source_file_repeat1 2; SHIFT_REPEAT 32] |}
  | 171 => {| count := 2; reusable := true; actions := [REDUCE aux_sym_source_file_repeat1 2; SHIFT_REPEAT 25] |}
  | 174 => {| count := 2; reusable := true; actions := [REDUCE aux_sym_source_file_repeat1 2; SHIFT_REPEAT 107] |}
  | 177 => {| count := 2; reusable := true; actions := [REDUCE aux_sym_source_file_repeat1 2; SHIFT_REPEAT 109] |}
  | 180 => {| count := 2; reusable := true; actions := [REDUCE aux_sym_source_file_repeat1 2; SHIFT_REPEAT 127] |}
  | 183 => {| count := 2; reusable := true; actions := [REDUCE aux_sym_source_file_repeat1 2; SHIFT_REPEAT 112] |}
  | 186 => {| count := 2; reusable := true; actions := [REDUCE aux_sym_source_file_repeat1 2; SHIFT_REPEAT 45] |}
  | 189 => {| count := 2; reusable := true; actions := [REDUCE aux_sym_source_file_repeat1 2; SHIFT_REPEAT 95] |}
  | 192 => {| count := 2; reusable := true; actions := [REDUCE aux_sym_source_file_repeat1 2; SHIFT_REPEAT 98] |}
  | 195 => {| count := 1; reusable := true; actions := [REDUCE sym_source_file 1] |}
  | 197 => {| count := 1; reusable := true; actions := [SHIFT 25] |}
  | 199 => {| count := 1; reusable := true; actions := [REDUCE sym_otherwise_if_clause 2] |}
  | 201 => {| count := 1; reusable := false; actions := [REDUCE sym_otherwise_if_clause 2] |}
  | 203 => {| count := 1; reusable := true; actions := [REDUCE sym_declaration 7] |}
  | 205 => {| count := 1; reusable := false; actions := [REDUCE sym_declaration 7] |}
  | 207 => {| count := 1; reusable := true; actions := [REDUCE sym_assignment 4] |}
  | 209 => {| count := 1; reusable := false; actions := [REDUCE sym_assignment 4] |}
  | 211 => {| count := 1; reusable := true; actions := [REDUCE sym_return_statement 2] |}
  | 213 => {| count := 1; reusable := false; actions := [REDUCE sym_return_statement 2] |}
  | 215 => {| count := 1; reusable := true; actions := [REDUCE sym_for_each_statement 4] |}
  | 217 => {| count := 1; reusable := false; actions := [REDUCE sym_for_each_statement 4] |}
  | 219 => {| count := 1; reusable := true; actions := [REDUCE sym_return_statement 1] |}
  | 221 => {| count := 1; reusable := false; actions := [SHIFT 30] |}
  | 223 => {| count := 1; reusable := false; actions := [REDUCE sym_return_statement 1] |}
  | 225 => {| count := 1; reusable := false; actions := [SHIFT 145] |}
  | 227 => {| count := 1; reusable := true; actions := [SHIFT 30] |}
  | 229 => {| count := 1; reusable := true; actions := [SHIFT 122] |}
  | 231 => {| count := 1; reusable := false; actions := [SHIFT 10] |}
  | 233 => {| count := 1; reusable := true; actions := [SHIFT 70] |}
  | 235 => {| count := 1; reusable := false; actions := [SHIFT 114] |}
  | 237 => {| count := 1; reusable := true; actions := [SHIFT 114] |}
  | 239 => {| count := 1; reusable := true; actions := [SHIFT 99] |}
  | 241 => {| count := 1; reusable := true; actions := [REDUCE sym_declaration 6] |}
  | 243 => {| count := 1; reusable := false; actions := [REDUCE sym_declaration 6] |}
  | 245 => {| count := 1; reusable := true; actions := [REDUCE sym_while_statement 2] |}
  | 247 => {| count := 1; reusable := false; actions := [REDUCE sym_while_statement 2] |}
  | 249 => {| count := 1; reusable := true; actions := [REDUCE sym_display_statement 2] |}
  | 251 => {| count := 1; reusable := false; actions := [REDUCE sym_display_statement 2] |}
  | 253 => {| count := 1; reusable := true; actions := [REDUCE sym_step_def 2] |}
  | 255 => {| count := 1; reusable := true; actions := [SHIFT 148] |}
  | 257 => {| count := 1; reusable := true; actions := [SHIFT 125] |}
  | 259 => {| count := 1; reusable := true; actions := [SHIFT 119] |}
  | 261 => {| count := 1; reusable := false; actions := [REDUCE sym_step_def 2] |}
  | 263 => {| count := 1; reusable := true; actions := [REDUCE sym_riser_def 2] |}
  | 265 => {| count := 1; reusable := false; actions := [REDUCE sym_riser_def 2] |}
  | 267 => {| count := 1; reusable := true; actions := [REDUCE aux_sym_step_clauses_repeat1 2] |}
  | 269 => {| count := 2; reusable := true; actions := [REDUCE aux_sym_step_clauses_repeat1 2; SHIFT_REPEAT 148] |}
  | 272 => {| count := 2; reusable := true; actions := [REDUCE aux_sym_step_clauses_repeat1 2; SHIFT_REPEAT 125] |}
  | 275 => {| count := 2; reusable := true; actions := [REDUCE aux_sym_step_clauses_repeat1 2; SHIFT_REPEAT 119] |}
  | 278 => {| count := 1; reusable := false; actions := [REDUCE aux_sym_step_clauses_repeat1 2] |}
  | 280 => {| count := 1; reusable := true; actions := [REDUCE sym_step_clauses 1] |}
  | 282 => {| count := 1; reusable := false; actions := [REDUCE sym_step_clauses 1] |}
  | 284 => {| count := 1; reusable := true; actions := [REDUCE sym_parameter_list 1] |}
  | 286 => {| count := 1; reusable := true; actions := [SHIFT 126] |}
  | 288 => {| count := 1; reusable := false; actions := [REDUCE sym_parameter_list 1] |}
  | 290 => {| count := 1; reusable := true; actions := [REDUCE sym_if_statement 3] |}
  | 292 => {| count := 1; reusable := true; actions := [REDUCE aux_sym_parameter_list_repeat1 2] |}
  | 294 => {| count := 2; reusable := true; actions := [REDUCE aux_sym_parameter_list_repeat1 2; SHIFT_REPEAT 126] |}
  | 297 => {| count := 1; reusable := false; actions := [REDUCE aux_sym_parameter_list_repeat1 2] |}
  | 299 => {| count := 1; reusable := true; actions := [REDUCE sym_parameter_list 2] |}
  | 301 => {| count := 1; reusable := false; actions := [REDUCE sym_parameter_list 2] |}
  | 303 => {| count := 1; reusable := true; actions := [REDUCE sym_attempt_statement 1] |}
  | 305 => {| count := 1; reusable := false; actions := [REDUCE sym_attempt_statement 1] |}
  | 307 => {| count := 1; reusable := true; actions := [SHIFT 61] |}
  | 309 => {| count := 1; reusable := true; actions := [SHIFT 64] |}
  | 311 => {| count := 1; reusable := true; actions := [REDUCE sym_type 1] |}
  | 313 => {| count := 1; reusable := false; actions := [REDUCE sym_type 1] |}
  | 315 => {| count := 1; reusable := true; actions := [REDUCE sym_parameter 3] |}
  | 317 => {| count := 1; reusable := false; actions := [REDUCE sym_parameter 3] |}
  | 319 => {| count := 1; reusable := true; actions := [REDUCE sym_call_statement 2] |}
  | 321 => {| count := 1; reusable := true; actions := [SHIFT 87] |}
  | 323 => {| count := 1; reusable := true; actions := [SHIFT 130] |}
  | 325 => {| count := 1; reusable := true; actions := [REDUCE aux_sym_if_statement_repeat1 2] |}
  | 327 => {| count := 2; reusable := true; actions := [REDUCE aux_sym_if_statement_repeat1 2; SHIFT_REPEAT 93] |}
  | 330 => {| count := 1; reusable := false; actions := [REDUCE aux_sym_if_statement_repeat1 2] |}
  | 332 => {| count := 1; reusable := true; actions := [REDUCE sym_expects_clause 2] |}
  | 334 => {| count := 1; reusable := false; actions := [REDUCE sym_expects_clause 2] |}
  | 336 => {| count := 1; reusable := true; actions := [REDUCE sym_returns_clause 2] |}
  | 338 => {| count := 1; reusable := false; actions := [REDUCE sym_returns_clause 2] |}
  | 340 => {| count := 1; reusable := true; actions := [REDUCE sym_belongs_clause 2] |}
  | 342 => {| count := 1; reusable := false; actions := [REDUCE sym_belongs_clause 2] |}
  | 344 => {| count := 1; reusable := true; actions := [REDUCE sym_section_marker 1] |}
  | 346 => {| count := 1; reusable := false; actions := [SHIFT 132] |}
  | 348 => {| count := 1; reusable := false; actions := [SHIFT 131] |}
  | 350 => {| count := 1; reusable := false; actions := [REDUCE sym_section_marker 1] |}
  | 352 => {| count := 1; reusable := true; actions := [REDUCE sym_attempt_statement 2] |}
  | 354 => {| count := 1; reusable := true; actions := [REDUCE sym_call_statement 3] |}
  | 356 => {| count := 1; reusable := true; actions := [REDUCE sym_comment 1] |}
  | 358 => {| count := 1; reusable := false; actions := [REDUCE sym_comment 1] |}
  | 360 => {| count := 1; reusable := false; actions := [SHIFT 72] |}
  | 362 => {| count := 1; reusable := true; actions := [REDUCE sym_declaration 4] |}
  | 364 => {| count := 1; reusable := true; actions := [SHIFT 103] |}
  | 366 => {| count := 1; reusable := true; actions := [REDUCE sym_if_unsuccessful_clause 1] |}
  | 368 => {| count := 1; reusable := true; actions := [REDUCE sym_declaration 5] |}
  | 370 => {| count := 1; reusable := true; actions := [SHIFT 108] |}
  | 372 => {| count := 1; reusable := true; actions := [REDUCE sym_then_continue_clause 1] |}
  | 374 => {| count := 1; reusable := true; actions := [REDUCE sym_call_statement 4] |}
  | 376 => {| count := 1; reusable := true; actions := [REDUCE sym_if_statement 4] |}
  | 378 => {| count := 1; reusable := true; actions := [REDUCE sym_structure_definition 1] |}
  | 380 => {| count := 1; reusable := true; actions := [REDUCE sym_step_def 3] |}
  | 382 => {| count := 1; reusable := true; actions := [REDUCE sym_riser_def 3] |}
  | 384 => {| count := 1; reusable := false; actions := [SHIFT 24] |}
  | 386 => {| count := 1; reusable := false; actions := [SHIFT 146] |}
  | 388 => {| count := 1; reusable := true; actions := [SHIFT 24] |}
  | 390 => {| count := 1; reusable := true; actions := [SHIFT 15] |}
  | 392 => {| count := 1; reusable := true; actions := [REDUCE sym_block_comment 3] |}
  | 394 => {| count := 1; reusable := true; actions := [REDUCE sym_comment 2] |}
  | 396 => {| count := 1; reusable := true; actions := [REDUCE sym_add_statement 4] |}
  | 398 => {| count := 1; reusable := true; actions := [REDUCE sym_storing_clause 2] |}
  | 400 => {| count := 1; reusable := true; actions := [REDUCE sym_remove_statement 4] |}
  | 402 => {| count := 1; reusable := true; actions := [REDUCE sym_block_comment 2] |}
  | 404 => {| count := 1; reusable := true; actions := [REDUCE sym_input_statement 2] |}
  | 406 => {| count := 1; reusable := true; actions := [REDUCE sym_attempt_statement 3] |}
  | 408 => {| count := 1; reusable := true; actions := [REDUCE sym_repeat_statement 3] |}
  | 410 => {| count := 1; reusable := true; actions := [REDUCE sym_floor_def 2] |}
  | 412 => {| count := 1; reusable := true; actions := [REDUCE sym_building_def 2] |}
  | 414 => {| count := 1; reusable := true; actions := [REDUCE sym_otherwise_clause 1] |}
  | 416 => {| count := 1; reusable := false; actions := [SHIFT 6] |}
  | 418 => {| count := 1; reusable := true; actions := [SHIFT 6] |}
  | 420 => {| count := 1; reusable := false; actions := [SHIFT 2] |}
  | 422 => {| count := 1; reusable := true; actions := [SHIFT 2] |}
  | 424 => {| count := 1; reusable := false; actions := [SHIFT 29] |}
  | 426 => {| count := 1; reusable := true; actions := [SHIFT 29] |}
  | 428 => {| count := 1; reusable := true; actions := [SHIFT 16] |}
  | 430 => {| count := 1; reusable := false; actions := [SHIFT 21] |}
  | 432 => {| count := 1; reusable := true; actions := [SHIFT 21] |}
  | 434 => {| count := 1; reusable := false; actions := [SHIFT 27] |}
  | 436 => {| count := 1; reusable := true; actions := [SHIFT 27] |}
  | 438 => {| count := 1; reusable := false; actions := [SHIFT 31] |}
  | 440 => {| count := 1; reusable := true; actions := [SHIFT 31] |}
  | 442 => {| count := 1; reusable := false; actions := [SHIFT 106] |}
  | 444 => {| count := 1; reusable := true; actions := [SHIFT 106] |}
  | 446 => {| count := 1; reusable := false; actions := [SHIFT 4] |}
  | 448 => {| count := 1; reusable := true; actions := [SHIFT 4] |}
  | 450 => {| count := 1; reusable := false; actions := [SHIFT 5] |}
  | 452 => {| count := 1; reusable := true; actions := [SHIFT 5] |}
  | 454 => {| count := 1; reusable := false; actions := [SHIFT 110] |}
  | 456 => {| count := 1; reusable := true; actions := [SHIFT 110] |}
  | 458 => {| count := 1; reusable := false; actions := [SHIFT 91] |}
  | 460 => {| count := 1; reusable := true; actions := [SHIFT 91] |}
  | 462 => {| count := 1; reusable := true; actions := [SHIFT 13] |}
  | 464 => {| count := 1; reusable := false; actions := [SHIFT 100] |}
  | 466 => {| count := 1; reusable := true; actions := [SHIFT 100] |}
  | 468 => {| count := 1; reusable := false; actions := [SHIFT 22] |}
  | 470 => {| count := 1; reusable := true; actions := [SHIFT 22] |}
  | 472 => {| count := 1; reusable := false; actions := [SHIFT 33] |}
  | 474 => {| count := 1; reusable := true; actions := [SHIFT 33] |}
  | 476 => {| count := 1; reusable := true; actions := [SHIFT 83] |}
  | 478 => {| count := 1; reusable := false; actions := [SHIFT 35] |}
  | 480 => {| count := 1; reusable := true; actions := [SHIFT 35] |}
  | 482 => {| count := 1; reusable := true; actions := [SHIFT 138] |}
  | 484 => {| count := 1; reusable := false; actions := [SHIFT 23] |}
  | 486 => {| count := 1; reusable := true; actions := [SHIFT 23] |}
  | 488 => {| count := 1; reusable := false; actions := [SHIFT 28] |}
  | 490 => {| count := 1; reusable := true; actions := [SHIFT 28] |}
  | 492 => {| count := 1; reusable := false; actions := [SHIFT 104] |}
  | 494 => {| count := 1; reusable := true; actions := [SHIFT 104] |}
  | 496 => {| count := 1; reusable := true; actions := [SHIFT 149] |}
  | 498 => {| count := 1; reusable := false; actions := [SHIFT 9] |}
  | 500 => {| count := 1; reusable := true; actions := [SHIFT 9] |}
  | 502 => {| count := 1; reusable := false; actions := [SHIFT 34] |}
  | 504 => {| count := 1; reusable := true; actions := [SHIFT 34] |}
  | 506 => {| count := 1; reusable := false; actions := [SHIFT 79] |}
  | 508 => {| count := 1; reusable := true; actions := [SHIFT 117] |}
  | 510 => {| count := 1; reusable := false; actions := [SHIFT 117] |}
  | 512 => {| count := 1; reusable := false; actions := [REDUCE sym_unary_operator 1] |}
  | 514 => {| count := 1; reusable := true; actions := [REDUCE sym_unary_operator 1] |}
  | 516 => {| count := 1; reusable := false; actions := [REDUCE sym_binary_operator 1] |}
  | 518 => {| count := 1; reusable := true; actions := [REDUCE sym_binary_operator 1] |}
  | 520 => {| count := 1; reusable := false; actions := [REDUCE aux_sym_block_comment_content_repeat1 2] |}
  | 522 => {| count := 2; reusable := true; actions := [REDUCE aux_sym_block_comment_content_repeat1 2; SHIFT_REPEAT 116] |}
  | 525 => {| count := 2; reusable := false; actions := [REDUCE aux_sym_block_comment_content_repeat1 2; SHIFT_REPEAT 116] |}
  | 528 => {| count := 1; reusable := false; actions := [REDUCE sym_block_comment_content 1] |}
  | 530 => {| count := 1; reusable := true; actions := [SHIFT 116] |}
  | 532 => {| count := 1; reusable := false; actions := [SHIFT 116] |}
  | 534 => {| count := 1; reusable := true; actions := [SHIFT 60] |}
  | 536 => {| count := 1; reusable := true; actions := [SHIFT 46] |}
  | 538 => {| count := 1; reusable := false; actions := [SHIFT 11] |}
  | 540 => {| count := 1; reusable := true; actions := [SHIFT 124] |}
  | 542 => {| count := 1; reusable := false; actions := [SHIFT 124] |}
  | 544 => {| count := 1; reusable := false; actions := [REDUCE aux_sym_string_content_repeat1 2] |}
  | 546 => {| count := 2; reusable := true; actions := [REDUCE aux_sym_string_content_repeat1 2; SHIFT_REPEAT 123] |}
  | 549 => {| count := 2; reusable := false; actions := [REDUCE aux_sym_string_content_repeat1 2; SHIFT_REPEAT 123] |}
  | 552 => {| count := 1; reusable := false; actions := [REDUCE sym_string_content 1] |}
  | 554 => {| count := 1; reusable := true; actions := [SHIFT 123] |}
  | 556 => {| count := 1; reusable := false; actions := [SHIFT 123] |}
  | 558 => {| count := 1; reusable := true; actions := [SHIFT 147] |}
  | 560 => {| count := 1; reusable := true; actions := [SHIFT 134] |}
  | 562 => {| count := 1; reusable := true; actions := [SHIFT 142] |}
  | 564 => {| count := 1; reusable := true; actions := [ACCEPT_INPUT] |}
  | 566 => {| count := 1; reusable := true; actions := [SHIFT 76] |}
  | 568 => {| count := 1; reusable := true; actions := [SHIFT 150] |}
  | 570 => {| count := 1; reusable := true; actions := [SHIFT 118] |}
  | 572 => {| count := 1; reusable := true; actions := [SHIFT 19] |}
  | 574 => {| count := 1; reusable := true; actions := [SHIFT 94] |}
  | 576 => {| count := 1; reusable := true; actions := [SHIFT 81] |}
  | 578 => {| count := 1; reusable := true; actions := [SHIFT 50] |}
  | 580 => {| count := 1; reusable := true; actions := [SHIFT 18] |}
  | 582 => {| count := 1; reusable := true; actions := [SHIFT 73] |}
  | 584 => {| count := 1; reusable := true; actions := [SHIFT 37] |}
  | 586 => {| count := 1; reusable := true; actions := [SHIFT 36] |}
  | 588 => {| count := 1; reusable := true; actions := [SHIFT 84] |}
  | 590 => {| count := 1; reusable := true; actions := [SHIFT 90] |}
  | 592 => {| count := 1; reusable := true; actions := [SHIFT 85] |}
  | 594 => {| count := 1; reusable := true; actions := [SHIFT 71] |}
  | 596 => {| count := 1; reusable := true; actions := [SHIFT 12] |}
  | 598 => {| count := 1; reusable := true; actions := [SHIFT 3] |}
  | 600 => {| count := 1; reusable := true; actions := [SHIFT 121] |}
  | 602 => {| count := 1; reusable := true; actions := [SHIFT 54] |}
  | 604 => {| count := 1; reusable := true; actions := [SHIFT 78] |}
  | 606 => {| count := 1; reusable := true; actions := [SHIFT 120] |}
  | _ => {| count := 0; reusable := false; actions := [] |}
  end.

(** ** Interpretation of the tables

    The generated file only holds tables; what follows is the reading of
    them that the table format fixes: how a lex function is run over the
    input, how a table entry is looked up, and the shift/reduce/accept
    loop.  Where the tables give no action the loop stops and reports the
    place: error recovery is not part of the generated file. *)

Definition ts_builtin_sym_error : TSSymbol := 65535.
Definition ts_builtin_sym_error_repeat : TSSymbol := 65534.
Definition keyword_capture_token : TSSymbol := sym_identifier.
Definition ERROR_STATE : TSStateId := 0.

(** *** Running a lex function *)

Record Token :=
  { tok_symbol : TSSymbol; tok_text : list N; tok_is_keyword : bool }.

(** The last [ACCEPT_TOKEN] seen: the symbol, the text between the token
    start and the mark, and the input left after the mark. *)
Definition Mark : Type := TSSymbol * list N * list N.

Definition mark_end (accept : option TSSymbol) (tok cur : list N)
    (result : option Mark) : option Mark :=
  match accept with
  | Some symbol => Some (symbol, rev tok, cur)
  | None => result
  end.

(** A [SKIP] moves the token start past the current position, so a mark
    set earlier is left with an empty text. *)
Definition skip_mark (result : option Mark) : option Mark :=
  match result with
  | Some (symbol, _, rest) => Some (symbol, [], rest)
  | None => None
  end.

Inductive lex_outcome :=
| Lexed (m : Mark)
| NoToken
| LexDiverges.

Definition finish (result : option Mark) : lex_outcome :=
  match result with
  | Some m => Lexed m
  | None => NoToken
  end.

Section LexRun.

Variable lex_fn : TSStateId -> bool -> N -> option lex_case.

(** At the end of the input [advance] does not move: the lookahead stays
    0 and [eof] stays true; only the automaton state changes. *)
Fixpoint lex_at_eof (fuel : nat) (state : TSStateId) (tok : list N)
    (result : option Mark) : lex_outcome :=
  match fuel with
  | O => LexDiverges
  | S fuel' =>
    match lex_fn state true 0 with
    | None => NoToken
    | Some (accept, step) =>
      let result' := mark_end accept tok [] result in
      match step with
      | END_STATE => finish result'
      | ADVANCE next => lex_at_eof fuel' next tok result'
      | SKIP next => lex_at_eof fuel' next tok result'
      end
    end
  end.

Variable eof_fuel : nat.

Fixpoint lex_run (state : TSStateId) (cur : list N) (tok : list N)
    (result : option Mark) : lex_outcome :=
  match cur with
  | [] => lex_at_eof eof_fuel state tok result
  | lookahead :: cur' =>
    match lex_fn state false lookahead with
    | None => NoToken
    | Some (accept, step) =>
      let result' := mark_end accept tok cur result in
      match step with
      | END_STATE => finish result'
      | ADVANCE next => lex_run next cur' (lookahead :: tok) result'
      | SKIP next => lex_run next cur' [] (skip_mark result')
      end
    end
  end.

End LexRun.

(** Bound on the automaton steps taken at the end of the input: one more
    than the number of states of the larger automaton. *)
Definition EOF_FUEL : nat := 613.

Definition run_lex (state : TSStateId) (input : list N) : lex_outcome :=
  lex_run ts_lex EOF_FUEL state input [] None.

Definition run_lex_keywords (input : list N) : lex_outcome :=
  lex_run ts_lex_keywords EOF_FUEL 0 input [] None.

(** *** Table lookup *)

Fixpoint lookup_symbols (symbol_count : nat) (data : list N)
    (symbol : TSSymbol) : bool * list N :=
  match symbol_count with
  | O => (false, data)
  | S n =>
    match data with
    | [] => (false, [])
    | x :: data' =>
      if x =? symbol then (true, data') else lookup_symbols n data' symbol
    end
  end.

Fixpoint lookup_groups (group_count : nat) (data : list N)
    (symbol : TSSymbol) : N :=
  match group_count with
  | O => 0
  | S g =>
    match data with
    | section_value :: symbol_count :: data' =>
      let '(found, data'') :=
        lookup_symbols (N.to_nat symbol_count) data' symbol in
      if found then section_value else lookup_groups g data'' symbol
    | _ => 0
    end
  end.

Definition ts_language_lookup (state : TSStateId) (symbol : TSSymbol) : N :=
  if LARGE_STATE_COUNT <=? state then
    let index := ts_small_parse_table_map (state - LARGE_STATE_COUNT) in
    match skipn (N.to_nat index) ts_small_parse_table with
    | group_count :: data => lookup_groups (N.to_nat group_count) data symbol
    | [] => 0
    end
  else ts_parse_table state symbol.

Definition ts_language_actions (state : TSStateId) (symbol : TSSymbol)
    : list TSParseAction :=
  if (symbol =? ts_builtin_sym_error) || (symbol =? ts_builtin_sym_error_repeat)
  then []
  else actions (ts_parse_actions (ts_language_lookup state symbol)).

Definition ts_language_has_actions (state : TSStateId) (symbol : TSSymbol)
    : bool :=
  match ts_language_actions state symbol with
  | [] => false
  | _ :: _ => true
  end.

Definition ts_language_next_state (state : TSStateId) (symbol : TSSymbol)
    : TSStateId :=
  if (symbol =? ts_builtin_sym_error) || (symbol =? ts_builtin_sym_error_repeat)
  then 0
  else if symbol <? TOKEN_COUNT then
    match last (map Some (ts_language_actions state symbol)) None with
    | Some (SHIFT next) => next
    | Some (SHIFT_REPEAT next) => next
    | _ => 0
    end
  else ts_language_lookup state symbol.

(** *** Lexing in a parse state *)

(** A token found as [keyword_capture_token] is run through the keyword
    automaton; the keyword replaces it when it ends at the same place and has
    an action in the parse state. *)
Definition keyword_or_word (parse_state : TSStateId) (m : Mark) : Token * list N :=
  let '(symbol, text, rest) := m in
  let word := {| tok_symbol := symbol; tok_text := text; tok_is_keyword := false |} in
  if symbol =? keyword_capture_token then
    match run_lex_keywords (text ++ rest) with
    | Lexed (keyword, _, rest') =>
      if Nat.eqb (List.length rest') (List.length rest)
         && ts_language_has_actions parse_state keyword
      then ({| tok_symbol := keyword; tok_text := text; tok_is_keyword := true |}, rest)
      else (word, rest)
    | _ => (word, rest)
    end
  else (word, rest).

(** The lex function runs in the lex state of the parse state; when it
    finds nothing it is run once more in the lex state of [ERROR_STATE]. *)
Definition ts_parser_lex (parse_state : TSStateId) (input : list N)
    : option (Token * list N) :=
  match run_lex (ts_lex_modes parse_state) input with
  | Lexed m => Some (keyword_or_word parse_state m)
  | _ =>
    match run_lex (ts_lex_modes ERROR_STATE) input with
    | Lexed m => Some (keyword_or_word parse_state m)
    | _ => None
    end
  end.

(** *** The parse loop *)

Inductive Subtree :=
| Leaf (symbol : TSSymbol) (text : list N)
| Node (symbol : TSSymbol) (children : list Subtree).

Definition subtree_symbol (t : Subtree) : TSSymbol :=
  match t with
  | Leaf symbol _ => symbol
  | Node symbol _ => symbol
  end.

Definition subtree_children (t : Subtree) : list Subtree :=
  match t with
  | Leaf _ _ => []
  | Node _ children => children
  end.

(** The stack, top first; below the last entry lies the start state. *)
Definition Stack : Type := list (TSStateId * Subtree).

Definition START_STATE : TSStateId := 1.

Definition ts_stack_state (stack : Stack) : TSStateId :=
  match stack with
  | [] => START_STATE
  | (state, _) :: _ => state
  end.

Definition is_repetition (a : TSParseAction) : bool :=
  match a with
  | SHIFT_REPEAT _ => true
  | _ => false
  end.

(** A repetition shift is passed over by the parse loop; the tables hold at
    most one other action per entry (lemma [entries_deterministic]). *)
Definition parse_action (state : TSStateId) (symbol : TSSymbol)
    : option TSParseAction :=
  find (fun a => negb (is_repetition a)) (ts_language_actions state symbol).

Definition ts_parser_reduce (stack : Stack) (symbol : TSSymbol)
    (child_count : N) : Stack :=
  let n := N.to_nat child_count in
  let children := rev (map snd (firstn n stack)) in
  let base := skipn n stack in
  let next := ts_language_next_state (ts_stack_state base) symbol in
  (next, Node symbol children) :: base.

Inductive parse_outcome :=
| Accepted (tree : Subtree)
| Unexpected (state : TSStateId) (symbol : TSSymbol) (rest : list N)
| Unrecognized (state : TSStateId) (rest : list N)
| OutOfFuel.

Fixpoint ts_parser_run (fuel : nat) (stack : Stack)
    (lookahead : option Token) (input : list N) : parse_outcome :=
  match fuel with
  | O => OutOfFuel
  | S fuel' =>
    let state := ts_stack_state stack in
    match lookahead with
    | None =>
      match ts_parser_lex state input with
      | Some (token, rest) => ts_parser_run fuel' stack (Some token) rest
      | None => Unrecognized state input
      end
    | Some token =>
      match parse_action state (tok_symbol token) with
      | Some (SHIFT next) =>
        ts_parser_run fuel'
          ((next, Leaf (tok_symbol token) (tok_text token)) :: stack) None input
      | Some (REDUCE symbol child_count) =>
        ts_parser_run fuel' (ts_parser_reduce stack symbol child_count)
          (Some token) input
      | Some ACCEPT_INPUT =>
        match stack with
        | (_, tree) :: _ => Accepted tree
        | [] => Unexpected state (tok_symbol token) input
        end
      | Some RECOVER | Some (SHIFT_REPEAT _) =>
        Unexpected state (tok_symbol token) input
      | None =>
        if tok_is_keyword token
           && negb (tok_symbol token =? keyword_capture_token)
           && ts_language_has_actions state keyword_capture_token
        then
          ts_parser_run fuel' stack
            (Some {| tok_symbol := keyword_capture_token;
                     tok_text := tok_text token;
                     tok_is_keyword := true |}) input
        else Unexpected state (tok_symbol token) input
      end
    end
  end.

Definition ts_parser_parse (fuel : nat) (source : list N) : parse_outcome :=
  ts_parser_run fuel [] None source.

(** [parses_to source tree]: the loop accepts [source] with [tree]. *)
Definition parses_to (source : list N) (tree : Subtree) : Prop :=
  exists fuel, ts_parser_parse fuel source = Accepted tree.

(** [rejects source]: the loop stops at a place where the tables give no
    token or no action. *)
Definition rejected (o : parse_outcome) : bool :=
  match o with
  | Unexpected _ _ _ | Unrecognized _ _ => true
  | _ => false
  end.

Definition rejects (source : list N) : Prop :=
  exists fuel, rejected (ts_parser_parse fuel source) = true.

(** *** The visible tree

    Nodes of symbols whose metadata says [visible = false] do not show:
    their visible descendants count as children of the nearest visible
    ancestor. *)
Fixpoint view (t : Subtree) : list Subtree :=
  match t with
  | Leaf symbol text =>
    if visible (ts_symbol_metadata symbol) then [t] else []
  | Node symbol children =>
    let children' := flat_map view children in
    if visible (ts_symbol_metadata symbol) then [Node symbol children']
    else children'
  end.

(** The Program of an accepted source: the visible children of the root. *)
Definition top_level (tree : Subtree) : list Subtree :=
  flat_map view (subtree_children tree).

(** Source text as code points. *)
Fixpoint codes (s : string) : list N :=
  match s with
  | EmptyString => []
  | String a s' => N_of_ascii a :: codes s'
  end.

Definition NL : list N := [10].
Definition DQUOTE : list N := [34].

Definition leaf (symbol : TSSymbol) (text : string) : Subtree :=
  Leaf symbol (codes text).

(** ** Reading the tree

    The readings below are what the statements about structure, operator
    grouping and statement forms are phrased with. *)

Definition has_symbol (symbol : TSSymbol) (t : Subtree) : bool :=
  subtree_symbol t =? symbol.

(** Number of nodes of a given symbol anywhere in a tree. *)
Fixpoint count_nodes (symbol : TSSymbol) (t : Subtree) : nat :=
  match t with
  | Leaf s _ => if s =? symbol then 1%nat else 0%nat
  | Node s children =>
    Nat.add (if s =? symbol then 1%nat else 0%nat)
      (fold_right (fun c n => Nat.add (count_nodes symbol c) n) 0%nat children)
  end.

(** Structure definitions of one kind among top-level items: an item of
    that kind, or the one held by a [structure_definition] item. *)
Definition structure_nodes (kind : TSSymbol) (items : list Subtree)
    : list Subtree :=
  flat_map
    (fun item =>
       if has_symbol kind item then [item]
       else if has_symbol sym_structure_definition item
            then filter (has_symbol kind) (subtree_children item)
            else [])
    items.

(** The expression operand of a one-statement program: the last child of
    the only top-level item. *)
Definition operand (tree : Subtree) : option Subtree :=
  match top_level tree with
  | [Node _ children] => last (map Some children) None
  | _ => None
  end.

(** Expression trees as the specification names them. *)
Definition Binary (op : TSSymbol) (spelling : string) (l r : Subtree)
    : Subtree :=
  Node sym_binary_expression
    [l; Node sym_binary_operator [leaf op spelling]; r].

Definition Unary (op : TSSymbol) (spelling : string) (e : Subtree) : Subtree :=
  Node sym_unary_expression [Node sym_unary_operator [leaf op spelling]; e].

(** *** Structure nesting (the three-line program) *)

Definition three_structures : list N :=
  codes "building: Foo" ++ NL ++ codes "floor: Bar" ++ NL
  ++ codes "building: Baz".

(** Nesting by rank, as the specification words it: two top-level
    Buildings, the first holding exactly one Floor. *)
Definition nests_by_rank (tree : Subtree) : bool :=
  match structure_nodes sym_building_def (top_level tree) with
  | [b1; _] =>
    Nat.eqb (List.length (top_level tree)) 2
    && Nat.eqb (count_nodes sym_floor_def b1) 1
  | _ => false
  end.

Definition structure (def keyword : TSSymbol) (spelling name : string)
    : Subtree :=
  Node sym_structure_definition
    [Node def [leaf keyword spelling; leaf sym_identifier name]].

(** *** Operators *)

Definition binary_operators : list TSSymbol :=
  [ anon_sym_PLUS; anon_sym_DASH; anon_sym_STAR; anon_sym_SLASH;
    anon_sym_isequalto; anon_sym_equals; anon_sym_isnotequalto;
    anon_sym_islessthan; anon_sym_isgreaterthan;
    anon_sym_islessthanorequalto; anon_sym_isgreaterthanorequalto;
    anon_sym_and; anon_sym_or; anon_sym_addedto; anon_sym_contains;
    anon_sym_startswith; anon_sym_endswith; anon_sym_isin ].

Definition unary_operators : list TSSymbol :=
  [ anon_sym_not; anon_sym_lengthof ].

(** Statement openings after which an expression is read. *)
Definition expression_positions : list string :=
  [ "display "; "return "; "set x to "; "if "; "while " ]%string.

Definition spelling (symbol : TSSymbol) : list N :=
  codes (ts_symbol_names symbol).

Definition ident (name : string) : Subtree := leaf sym_identifier name.
Definition num (digits : string) : Subtree := leaf sym_number digits.

Definition binary (op : TSSymbol) (l r : Subtree) : Subtree :=
  Binary op (ts_symbol_names op) l r.
Definition unary (op : TSSymbol) (e : Subtree) : Subtree :=
  Unary op (ts_symbol_names op) e.

(** [a op1 b op2 c] and [u a op b] as source text of a [display]. *)
Definition two_operators (ops : TSSymbol * TSSymbol) : list N :=
  codes "display a " ++ spelling (fst ops) ++ codes " b "
  ++ spelling (snd ops) ++ codes " c".

Definition unary_then_binary (ops : TSSymbol * TSSymbol) : list N :=
  codes "display " ++ spelling (fst ops) ++ codes " a "
  ++ spelling (snd ops) ++ codes " b".

Definition parses_operand (source : list N) (e : Subtree) : Prop :=
  exists tree, parses_to source tree /\ operand tree = Some e.

(** *** States and blanks *)

Definition all_states : list TSStateId :=
  map N.of_nat (seq 0 (N.to_nat STATE_COUNT)).

Definition all_symbols : list TSSymbol :=
  map N.of_nat (seq 0 (N.to_nat SYMBOL_COUNT)).

Definition blank (c : N) : Prop := c = 9 \/ c = 32.

(** A lex state that passes over blanks before the token. *)
Definition skips_blanks (lex_state : TSStateId) : Prop :=
  forall c, blank c -> ts_lex lex_state false c = NO_TOKEN (SKIP lex_state).

(** *** The [do:] line *)

(** A parse state in which a statement may begin: [do:] has an action and
    no comment text is pending. *)
Definition statement_position (state : TSStateId) : bool :=
  ts_language_has_actions state anon_sym_do_COLON
  && negb (ts_language_has_actions state sym_comment_content).

Definition do_line (before after : list N) (newline : bool) : list N :=
  before ++ codes "do:" ++ after ++ (if newline then NL else []).

Definition word (symbol : TSSymbol) (text : string) : Token :=
  {| tok_symbol := symbol; tok_text := codes text; tok_is_keyword := false |}.

(** *** String escapes *)

(** A parse state inside a string literal. *)
Definition string_position (state : TSStateId) : bool :=
  ts_language_has_actions state sym_escape_sequence
  && negb (state =? ERROR_STATE).

(** The five characters that may follow a backslash. *)
Definition is_escape (c : N) : bool :=
  (c =? 34) || (c =? chr "\") || (c =? chr "n") || (c =? chr "r")
  || (c =? chr "t").

Definition BACKSLASH : N := chr "\".

Definition plain_token (symbol : TSSymbol) (text : list N) : Token :=
  {| tok_symbol := symbol; tok_text := text; tok_is_keyword := false |}.

(** The lex states in which a backslash inside a string is read: the one of
    the string positions and the one of the error state. *)
Definition string_lex_state (s : TSStateId) : Prop := s = 20 \/ s = 0.

(** What a lex run inside a string may give: never an identifier, and
    content only without a backslash. *)
Definition clean_outcome (o : lex_outcome) : Prop :=
  match o with
  | Lexed (symbol, text, _) =>
    symbol <> sym_identifier
    /\ (symbol = aux_sym_string_content_token1 -> ~ In BACKSLASH text)
  | _ => True
  end.

(** *** Keyword phrases *)

Fixpoint starts_with (prefix l : list N) : bool :=
  match prefix, l with
  | [], _ => true
  | p :: prefix', c :: l' => (p =? c) && starts_with prefix' l'
  | _ :: _, [] => false
  end.

Definition all_tokens : list TSSymbol :=
  map N.of_nat (seq 0 (N.to_nat TOKEN_COUNT)).

(** A keyword phrase: an anonymous token spelled from a lowercase letter on. *)
Definition keyword_phrase (symbol : TSSymbol) : bool :=
  negb (named (ts_symbol_metadata symbol))
  && match spelling symbol with
     | c :: _ => (chr "a" <=? c) && (c <=? chr "z")
     | [] => false
     end.

(** The pairs of keyword phrases of which the first is a proper prefix of
    the second. *)
Definition prefix_pairs : list (TSSymbol * TSSymbol) :=
  filter
    (fun p =>
       negb (fst p =? snd p)
       && keyword_phrase (fst p) && keyword_phrase (snd p)
       && starts_with (spelling (fst p)) (spelling (snd p)))
    (list_prod all_tokens all_tokens).

(** The lex states in which the comparison phrases are read. *)
Definition comparison_lex_states : list TSStateId :=
  [21; 258; 259; 260; 261].

Definition comparison_pairs : list (TSSymbol * TSSymbol) :=
  [ (anon_sym_islessthan, anon_sym_islessthanorequalto);
    (anon_sym_isgreaterthan, anon_sym_isgreaterthanorequalto) ].

(** The parse states, other than the error state, in which both phrases of
    a pair have an action. *)
Definition phrase_positions : list (TSStateId * (TSSymbol * TSSymbol)) :=
  filter
    (fun sp =>
       negb (fst sp =? ERROR_STATE)
       && ts_language_has_actions (fst sp) (fst (snd sp))
       && ts_language_has_actions (fst sp) (snd (snd sp)))
    (list_prod all_states prefix_pairs).

(** *** Numeric literals *)

Definition is_digit (c : N) : bool := (chr "0" <=? c) && (c <=? chr "9").

Definition DOT : N := chr ".".
Definition MINUS : N := chr "-".

(** The longest run of digits at the front of the input, and what is left. *)
Fixpoint span_digits (input : list N) : list N * list N :=
  match input with
  | c :: rest =>
    if is_digit c
    then let (digits, rest') := span_digits rest in (c :: digits, rest')
    else ([], input)
  | [] => ([], [])
  end.

(** A dot and at least one digit, if the input starts that way. *)
Definition fraction (input : list N) : list N * list N :=
  match input with
  | c :: rest =>
    if c =? DOT then
      match span_digits rest with
      | ([], _) => ([], input)
      | (digits, rest') => (c :: digits, rest')
      end
    else ([], input)
  | [] => ([], [])
  end.

(** The numeric literal the specification describes: a non-empty run of
    digits, then optionally a dot and at least one more digit. *)
Definition number_literal (input : list N) : option (list N * list N) :=
  match span_digits input with
  | ([], _) => None
  | (digits, rest) =>
    let (frac, rest') := fraction rest in Some (digits ++ frac, rest')
  end.

(** A parse state in which a number may be read. *)
Definition number_position (state : TSStateId) : bool :=
  ts_language_has_actions state sym_number && negb (state =? ERROR_STATE).

(** *** Checks over the lexing automata *)

Definition LEX_STATE_COUNT : N := 612.
Definition KEYWORD_STATE_COUNT : N := 78.

Definition lex_states : list TSStateId :=
  map N.of_nat (seq 0 (N.to_nat LEX_STATE_COUNT)).
Definition keyword_states : list TSStateId :=
  map N.of_nat (seq 0 (N.to_nat KEYWORD_STATE_COUNT)).

(** The characters 0 to 128; every larger one is treated as 128 is. *)
Definition low_chars : list N := map N.of_nat (seq 0 129).
Definition bytes : list N := map N.of_nat (seq 0 256).

Definition step_eqb (a b : lex_step) : bool :=
  match a, b with
  | ADVANCE x, ADVANCE y => x =? y
  | SKIP x, SKIP y => x =? y
  | END_STATE, END_STATE => true
  | _, _ => false
  end.

Definition case_eqb (a b : option lex_case) : bool :=
  match a, b with
  | Some (Some x, s), Some (Some y, t) => (x =? y) && step_eqb s t
  | Some (None, s), Some (None, t) => step_eqb s t
  | None, None => true
  | _, _ => false
  end.

(** A case keeps within a set of states and accepts only allowed symbols. *)
Definition case_ok (inv : TSStateId -> bool) (ok : TSSymbol -> bool)
    (k : option lex_case) : bool :=
  match k with
  | None => true
  | Some (accept, step) =>
    match accept with
    | Some symbol => ok symbol
    | None => true
    end
    && match step with
       | ADVANCE next | SKIP next => inv next
       | END_STATE => true
       end
  end.

Definition closed_under (lex_fn : TSStateId -> bool -> N -> option lex_case)
    (states : list TSStateId) (inv : TSStateId -> bool)
    (ok : TSSymbol -> bool) : bool :=
  forallb
    (fun s =>
       negb (inv s)
       || (case_ok inv ok (lex_fn s true 0)
           && forallb (fun c => case_ok inv ok (lex_fn s false c)) low_chars))
    states.

(** Whether a character at or above 256, or between 128 and 255, is
    treated as 128 is, in every state. *)
Definition uniform_above (lex_fn : TSStateId -> bool -> N -> option lex_case)
    (states : list TSStateId) (q : positive) : bool :=
  forallb
    (fun s =>
       forallb
         (fun low =>
            case_eqb (lex_fn s false (Npos (256 * q) + low))
              (lex_fn s false 128))
         bytes)
    states.

Definition uniform_upper_half
    (lex_fn : TSStateId -> bool -> N -> option lex_case)
    (states : list TSStateId) : bool :=
  forallb
    (fun s =>
       forallb
         (fun low => case_eqb (lex_fn s false (128 + low)) (lex_fn s false 128))
         (map N.of_nat (seq 0 128)))
    states.

Definition mark_symbol_ok (ok : TSSymbol -> bool) (result : option Mark)
    : Prop :=
  match result with
  | Some (symbol, _, _) => ok symbol = true
  | None => True
  end.

Definition outcome_symbol_ok (ok : TSSymbol -> bool) (o : lex_outcome)
    : Prop :=
  match o with
  | Lexed (symbol, _, _) => ok symbol = true
  | _ => True
  end.

(** The automaton states on the way to a number token, and any other. *)
Definition number_states : list TSStateId := [19; 257; 254; 255; 439; 440].

Definition non_number_state (s : TSStateId) : bool :=
  (s <? LEX_STATE_COUNT) && negb (existsb (N.eqb s) number_states).

Definition not_number (symbol : TSSymbol) : bool :=
  negb (symbol =? sym_number).

Definition keyword_state (s : TSStateId) : bool := s <? KEYWORD_STATE_COUNT.

Definition is_blank (c : N) : bool := (c =? 9) || (c =? 32).

(** The lex states that start a number. *)
Definition number_lex_state (m : TSStateId) : Prop := m = 19 \/ m = 257.

(** What a lex state that starts a number does with one character. *)
Definition number_start (m : TSStateId) (c : N) : bool :=
  if is_blank c then case_eqb (ts_lex m false c) (NO_TOKEN (SKIP m))
  else if is_digit c then case_eqb (ts_lex m false c) (NO_TOKEN (ADVANCE 439))
  else if c =? MINUS
       then case_eqb (ts_lex m false c) (NO_TOKEN (ADVANCE 254))
       else case_ok non_number_state not_number (ts_lex m false c).

(** The shape of the input behind a number token: the literal, or a minus
    sign and the literal. *)
Definition number_shape (body text rest : list N) : Prop :=
  number_literal body = Some (text, rest)
  \/ exists body' lit,
       body = MINUS :: body'
       /\ number_literal body' = Some (lit, rest)
       /\ text = MINUS :: lit.

(** The input does not go on with a digit. *)
Definition no_digit_ahead (input : list N) : bool :=
  match input with
  | c :: _ => negb (is_digit c)
  | [] => true
  end.

(** A non-empty run of digits. *)
Definition digit_run (digits : list N) : bool :=
  match digits with
  | [] => false
  | _ :: _ => forallb is_digit digits
  end.

(** *** The automaton behind the parse tables *)

Definition valid_state (s : TSStateId) : bool :=
  (0 <? s) && (s <? STATE_COUNT).

Definition shift_targets (state : TSStateId) (symbol : TSSymbol)
    : list TSStateId :=
  flat_map (fun a => match a with SHIFT next => [next] | _ => [] end)
    (ts_language_actions state symbol).

(** The states the parse loop may push over [state] with a subtree of
    [symbol]: by the goto of a reduction, or by a shift. *)
Definition targets (state : TSStateId) (symbol : TSSymbol)
    : list TSStateId :=
  if symbol <? TOKEN_COUNT then shift_targets state symbol
  else [ts_language_next_state state symbol].

Definition Edge : Type := TSStateId * TSSymbol * TSStateId.

Definition all_edges : list Edge :=
  flat_map
    (fun p =>
       flat_map
         (fun next =>
            if valid_state next then [(fst p, snd p, next)] else [])
         (targets (fst p) (snd p)))
    (list_prod all_states all_symbols).

(** The ways of reaching [s] by [n] edges, or by fewer from the start
    state: where the path begins, and the symbols along it. *)
Fixpoint back_paths (E : list Edge) (n : nat) (s : TSStateId)
    : list (TSStateId * list TSSymbol) :=
  match n with
  | O => [(s, [])]
  | S n' =>
    (if s =? START_STATE then [(s, [])] else [])
    ++ flat_map
         (fun e =>
            match e with
            | (s0, symbol, s1) =>
              if s1 =? s
              then map (fun p => (fst p, snd p ++ [symbol]))
                     (back_paths E n' s0)
              else []
            end)
         E
  end.

Definition reduction_eqb (a b : TSSymbol * N) : bool :=
  (fst a =? fst b) && (snd a =? snd b).

Definition add_reduction (a : TSParseAction) (acc : list (TSSymbol * N))
    : list (TSSymbol * N) :=
  match a with
  | REDUCE symbol child_count =>
    if existsb (reduction_eqb (symbol, child_count)) acc then acc
    else (symbol, child_count) :: acc
  | _ => acc
  end.

(** The reductions a state may perform, over all lookahead tokens. *)
Definition state_reductions (s : TSStateId) : list (TSSymbol * N) :=
  fold_right
    (fun la acc => fold_right add_reduction acc (ts_language_actions s la))
    [] all_tokens.

(** A rule on nodes: which child symbols a node of a symbol may have. *)
Definition NodeRule : Type := TSSymbol -> list TSSymbol -> bool.

Definition reduce_ok (P : NodeRule) (E : list Edge) (s : TSStateId)
    (r : TSSymbol * N) : bool :=
  (TOKEN_COUNT <=? fst r) && (fst r <? SYMBOL_COUNT)
  && forallb
       (fun p =>
          P (fst r) (snd p)
          && valid_state (ts_language_next_state (fst p) (fst r)))
       (back_paths E (N.to_nat (snd r)) s).

Definition shifts_ok (s : TSStateId) : bool :=
  forallb
    (fun la =>
       forallb
         (fun a => match a with SHIFT next => valid_state next | _ => true end)
         (ts_language_actions s la))
    all_tokens.

(** The check on the tables: every shift leads to a state of the table,
    and every reduction, whatever path led to its state, builds a node the
    rule allows and has a goto. *)
Definition automaton_ok (P : NodeRule) : bool :=
  let E := all_edges in
  forallb
    (fun s => shifts_ok s && forallb (reduce_ok P E s) (state_reductions s))
    all_states.

Fixpoint tree_ok (P : NodeRule) (t : Subtree) : bool :=
  match t with
  | Leaf _ _ => true
  | Node symbol children =>
    P symbol (map subtree_symbol children) && forallb (tree_ok P) children
  end.

Fixpoint stack_ok (P : NodeRule) (stack : Stack) : Prop :=
  match stack with
  | [] => True
  | (s, t) :: below =>
    valid_state s = true
    /\ subtree_symbol t < SYMBOL_COUNT
    /\ In s (targets (ts_stack_state below) (subtree_symbol t))
    /\ tree_ok P t = true
    /\ stack_ok P below
  end.

Definition lookahead_ok (lookahead : option Token) : Prop :=
  match lookahead with
  | Some token => tok_symbol token < TOKEN_COUNT
  | None => True
  end.

Definition lex_state (s : TSStateId) : bool := s <? LEX_STATE_COUNT.
Definition is_token (symbol : TSSymbol) : bool := symbol <? TOKEN_COUNT.

(** All the nodes of a tree, the tree itself first. *)
Fixpoint subtrees (t : Subtree) : list Subtree :=
  t :: match t with
       | Leaf _ _ => []
       | Node _ children => flat_map subtrees children
       end.

(** *** Clauses *)

Fixpoint forallb2_eq (l1 l2 : list N) : bool :=
  match l1, l2 with
  | [], [] => true
  | x :: l1', y :: l2' => (x =? y) && forallb2_eq l1' l2'
  | _, _ => false
  end.

Definition one_of (symbols : list TSSymbol) (symbol : TSSymbol) : bool :=
  existsb (N.eqb symbol) symbols.

Definition clause_symbols : list TSSymbol :=
  [ sym_belongs_clause; sym_expects_clause; sym_returns_clause;
    aux_sym_step_clauses_repeat1 ].

(** The rule the tables keep: a [step_clauses] node sits only under a
    [step_def] or a [riser_def], the clauses only under [step_clauses] (or
    its repetition), and a [building_def] or [floor_def] holds its keyword
    and its name, nothing else. *)
Definition clause_rule : NodeRule :=
  fun symbol children =>
    (negb (existsb (N.eqb sym_step_clauses) children)
     || one_of [sym_step_def; sym_riser_def] symbol)
    && (negb (existsb (one_of clause_symbols) children)
        || one_of [sym_step_clauses; aux_sym_step_clauses_repeat1] symbol)
    && (negb (symbol =? sym_building_def)
        || forallb2_eq children [anon_sym_building_COLON; sym_identifier])
    && (negb (symbol =? sym_floor_def)
        || forallb2_eq children [anon_sym_floor_COLON; sym_identifier]).

(** A definition carries clauses when a [step_clauses] node is among its
    children. *)
Definition carries_clauses (t : Subtree) : bool :=
  existsb (fun c => subtree_symbol c =? sym_step_clauses) (subtree_children t).

Definition riser_with_clause : list N := codes "riser: r expects: x as number".
Definition step_with_clause : list N := codes "step: s expects: x as number".

(** The clauses node of [expects: x as number]. *)
Definition expects_x_as_number : Subtree :=
  Node sym_step_clauses
    [ Node sym_expects_clause
        [ leaf anon_sym_expects_COLON "expects:";
          Node sym_parameter_list
            [ Node sym_parameter
                [ leaf sym_identifier "x"; leaf anon_sym_as "as";
                  Node sym_type [ leaf anon_sym_number "number" ] ] ] ] ].

Definition step_with_clause_tree : Subtree :=
  Node sym_source_file
    [ Node sym_structure_definition
        [ Node sym_step_def
            [ leaf anon_sym_step_COLON "step:"; leaf sym_identifier "s";
              expects_x_as_number ] ] ].

(** *** Assignment *)

(** The parse states on the way: after [display], after [set], after the
    target, after [to], and after the expression in either statement. *)
Definition after_display : TSStateId := 105.
Definition after_set : TSStateId := 128.
Definition after_target : TSStateId := 142.
Definition after_to : TSStateId := 90.
Definition display_complete : TSStateId := 35.
Definition assignment_complete : TSStateId := 29.

(** The stack once [display] is shifted, and once [set X to] is. *)
Definition display_stack : Stack :=
  [ (after_display, leaf anon_sym_display "display") ].

Definition set_stack (X : list N) : Stack :=
  [ (after_to, leaf anon_sym_to "to");
    (after_target, Leaf sym_identifier X);
    (after_set, leaf anon_sym_set "set") ].

Definition display_node (e : Subtree) : Subtree :=
  Node sym_display_statement [leaf anon_sym_display "display"; e].

Definition assignment_node (X : list N) (e : Subtree) : Subtree :=
  Node sym_assignment
    [ leaf anon_sym_set "set"; Leaf sym_identifier X;
      leaf anon_sym_to "to"; e ].

(** [X] is read as an identifier after [set], before [rest]. *)
Definition reads_identifier (X rest : list N) : Prop :=
  ts_parser_lex after_set (X ++ rest)
  = Some (plain_token sym_identifier X, rest).

(** [E] is an expression with tree [e]: [display E] is a program of that one
    statement. *)
Definition expression (E : list N) (e : Subtree) : Prop :=
  parses_to (codes "display " ++ E) (Node sym_source_file [display_node e]).

(** The state on top of the expression: the one after [set X to E] stands
    for the one after [display E]. *)
Definition swap_state (s : TSStateId) : TSStateId :=
  if s =? display_complete then assignment_complete else s.

(** The entries above [display], as they stand above [set X to]: the lowest
    one changes its state. *)
Fixpoint swap_bottom (upper : Stack) : Stack :=
  match upper with
  | [] => []
  | (s, t) :: below =>
    match below with
    | [] => [(swap_state s, t)]
    | _ :: _ => (s, t) :: swap_bottom below
    end
  end.

(** A tree with a place for a subtree, down the first children. *)
Inductive Context :=
| Hole
| Under (symbol : TSSymbol) (first : Context) (others : list Subtree).

Fixpoint plug (C : Context) (t : Subtree) : Subtree :=
  match C with
  | Hole => t
  | Under symbol first others => Node symbol (plug first t :: others)
  end.

(** The rule the tables keep on [display] and on [assignment]: a node with a
    [display] token among its children is a [display_statement] of two
    children, and an [assignment] is [set], an identifier, [to] and one
    more child. *)
Definition starts_with_symbols (symbols children : list TSSymbol) : bool :=
  forallb2_eq symbols (firstn (List.length symbols) children).

Definition assignment_rule : NodeRule :=
  fun symbol children =>
    (negb (existsb (N.eqb anon_sym_display) children)
     || ((symbol =? sym_display_statement)
         && Nat.eqb (List.length children) 2))
    && (negb (symbol =? sym_assignment)
        || (Nat.eqb (List.length children) 4
            && starts_with_symbols
                 [anon_sym_set; sym_identifier; anon_sym_to] children)).

(** *** Checks on the tables for the two statements *)

Definition action_eqb (a b : option TSParseAction) : bool :=
  match a, b with
  | None, None => true
  | Some (SHIFT x), Some (SHIFT y) => x =? y
  | Some (SHIFT_REPEAT x), Some (SHIFT_REPEAT y) => x =? y
  | Some (REDUCE s n), Some (REDUCE s' n') => (s =? s') && (n =? n')
  | Some RECOVER, Some RECOVER => true
  | Some ACCEPT_INPUT, Some ACCEPT_INPUT => true
  | _, _ => false
  end.

(** Tokens are read alike in [a] and in [b]. *)
Definition same_lexing (a b : TSStateId) : bool :=
  (ts_lex_modes a =? ts_lex_modes b)
  && forallb
       (fun k =>
          Bool.eqb (ts_language_has_actions a k) (ts_language_has_actions b k))
       all_tokens.

(** What [b] does when [a] does something, on every token: it shifts to the
    state [f] gives for the one [a] shifts to, reduces an [assignment] of
    four where [a] reduces a [display_statement] (of two), reduces alike
    otherwise, and has no action where [a] has none; [a] does not accept. *)
Definition follows (f : TSStateId -> TSStateId) (a b : TSStateId) : bool :=
  forallb
    (fun la =>
       match parse_action a la with
       | Some (SHIFT next) =>
         action_eqb (parse_action b la) (Some (SHIFT (f next)))
       | Some (REDUCE symbol child_count) =>
         if symbol =? sym_display_statement
         then (a =? display_complete) && (child_count =? 2)
              && action_eqb (parse_action b la) (Some (REDUCE sym_assignment 4))
         else action_eqb (parse_action b la) (Some (REDUCE symbol child_count))
       | Some ACCEPT_INPUT => false
       | Some RECOVER | Some (SHIFT_REPEAT _) => true
       | None => action_eqb (parse_action b la) None
       end)
    all_tokens.

(** The state after a reduction to a non-terminal, from [b] and from [a]. *)
Definition same_goto (f : TSStateId -> TSStateId) (a b : TSStateId) : bool :=
  forallb
    (fun symbol =>
       (symbol <? TOKEN_COUNT)
       || (ts_language_next_state b symbol
           =? f (ts_language_next_state a symbol)))
    all_symbols.

(** A state entered from [after_display] reduces no [display_statement],
    [display_complete] apart. *)
Definition display_reduced_when_complete : bool :=
  forallb
    (fun symbol =>
       forallb
         (fun s =>
            (s =? display_complete)
            || forallb
                 (fun la =>
                    match parse_action s la with
                    | Some (REDUCE symbol' _) =>
                      negb (symbol' =? sym_display_statement)
                    | _ => true
                    end)
                 all_tokens)
         (targets after_display symbol))
    all_symbols.

Definition accepts (s : TSStateId) : bool :=
  existsb
    (fun la =>
       match parse_action s la with
       | Some ACCEPT_INPUT => true
       | _ => false
       end)
    all_tokens.

Definition accepting_states : list TSStateId := filter accepts all_states.

(** An accepting state is entered from the start state only, and no state
    leads to the start state. *)
Definition accept_from_start (accepting : list TSStateId) (E : list Edge)
    : bool :=
  forallb
    (fun e =>
       match e with
       | (s0, _, s) =>
         negb (s =? START_STATE)
         && (negb (existsb (N.eqb s) accepting) || (s0 =? START_STATE))
       end)
    E.

(** The state on top of [upper ++ [(s, t)]]. *)
Definition stack_state_over (upper : Stack) (s : TSStateId) : TSStateId :=
  match upper with
  | [] => s
  | (s', _) :: _ => s'
  end.

(** [b] stands for [a]: the states after [to] and after [display], the
    states after the expression, or one and the same state. *)
Definition stands_for (a b : TSStateId) : Prop :=
  (a = after_display /\ b = after_to)
  \/ (a = display_complete /\ b = assignment_complete)
  \/ a = b.

(** *** One action per entry *)

(** An entry of the parse table holds at most one action that is not a
    repetition shift. *)
Definition deterministic_entry (s : TSStateId) (la : TSSymbol) : bool :=
  Nat.leb
    (List.length
       (filter (fun a => negb (is_repetition a)) (ts_language_actions s la)))
    1.

(** *** The checks, with each row of the table found once *)

(** The row of a state: [ts_language_lookup], the place of the state in the
    small table being found before the symbol is given. *)
Definition ts_language_row (state : TSStateId) : TSSymbol -> N :=
  if LARGE_STATE_COUNT <=? state then
    let index := ts_small_parse_table_map (state - LARGE_STATE_COUNT) in
    let row := skipn (N.to_nat index) ts_small_parse_table in
    fun symbol =>
      match row with
      | group_count :: data => lookup_groups (N.to_nat group_count) data symbol
      | [] => 0
      end
  else ts_parse_table state.

Definition table_rows : list (TSSymbol -> N) := map ts_language_row all_states.

Definition row_lookup (rows : list (TSSymbol -> N)) (state : TSStateId)
    (symbol : TSSymbol) : N :=
  match nth_error rows (N.to_nat state) with
  | Some row => row symbol
  | None => ts_language_lookup state symbol
  end.

Section ByLookup.

Variable lookup : TSStateId -> TSSymbol -> N.

Definition actions_by (state : TSStateId) (symbol : TSSymbol)
    : list TSParseAction :=
  if (symbol =? ts_builtin_sym_error) || (symbol =? ts_builtin_sym_error_repeat)
  then []
  else actions (ts_parse_actions (lookup state symbol)).

Definition next_state_by (state : TSStateId) (symbol : TSSymbol)
    : TSStateId :=
  if (symbol =? ts_builtin_sym_error) || (symbol =? ts_builtin_sym_error_repeat)
  then 0
  else if symbol <? TOKEN_COUNT then
    match last (map Some (actions_by state symbol)) None with
    | Some (SHIFT next) => next
    | Some (SHIFT_REPEAT next) => next
    | _ => 0
    end
  else lookup state symbol.

Definition targets_by (state : TSStateId) (symbol : TSSymbol)
    : list TSStateId :=
  if symbol <? TOKEN_COUNT
  then flat_map (fun a => match a with SHIFT next => [next] | _ => [] end)
         (actions_by state symbol)
  else [next_state_by state symbol].

Definition all_edges_by : list Edge :=
  flat_map
    (fun p =>
       flat_map
         (fun next =>
            if valid_state next then [(fst p, snd p, next)] else [])
         (targets_by (fst p) (snd p)))
    (list_prod all_states all_symbols).

Definition state_reductions_by (s : TSStateId) : list (TSSymbol * N) :=
  fold_right
    (fun la acc => fold_right add_reduction acc (actions_by s la))
    [] all_tokens.

Definition shifts_ok_by (s : TSStateId) : bool :=
  forallb
    (fun la =>
       forallb
         (fun a => match a with SHIFT next => valid_state next | _ => true end)
         (actions_by s la))
    all_tokens.

Definition reduce_ok_by (P : NodeRule) (E : list Edge) (s : TSStateId)
    (r : TSSymbol * N) : bool :=
  (TOKEN_COUNT <=? fst r) && (fst r <? SYMBOL_COUNT)
  && forallb
       (fun p =>
          P (fst r) (snd p)
          && valid_state (next_state_by (fst p) (fst r)))
       (back_paths E (N.to_nat (snd r)) s).

Definition automaton_ok_by (P : NodeRule) : bool :=
  let E := all_edges_by in
  forallb
    (fun s =>
       shifts_ok_by s && forallb (reduce_ok_by P E s) (state_reductions_by s))
    all_states.

Definition accepts_by (s : TSStateId) : bool :=
  existsb
    (fun la =>
       match find (fun a => negb (is_repetition a)) (actions_by s la) with
       | Some ACCEPT_INPUT => true
       | _ => false
       end)
    all_tokens.

Definition deterministic_entry_by (s : TSStateId) (la : TSSymbol) : bool :=
  Nat.leb
    (List.length
       (filter (fun a => negb (is_repetition a)) (actions_by s la)))
    1.

End ByLookup.

(** ** Further properties: definitions *)

(** *** The shape of a token *)

(** The lex states in which the lex function is started ([ts_lex_modes]),
    and the state that accepts the end of the input. *)
Definition lex_start_states : list TSStateId :=
  [0; 19; 20; 21; 69; 252; 257; 258; 259; 260; 261; 262; 263; 264; 265; 266;
   360].

Definition fresh (s : TSStateId) : bool := existsb (N.eqb s) lex_start_states.

Definition end_state : TSStateId := 267.

Definition lexing (s : TSStateId) : bool :=
  (s <? LEX_STATE_COUNT) && negb (s =? end_state).

(** The tokens that may be empty. *)
Definition zero_width (symbol : TSSymbol) : bool :=
  symbol =? sym_comment_content.

Section AtEof.

Variable lex_fn : TSStateId -> bool -> N -> option lex_case.

(** Once the input has ended the automaton stops within [fuel] states. *)
Fixpoint eof_stops (fuel : nat) (s : TSStateId) : bool :=
  match fuel with
  | O => false
  | S fuel' =>
    match lex_fn s true 0 with
    | None => true
    | Some (_, END_STATE) => true
    | Some (_, ADVANCE next) => eof_stops fuel' next
    | Some (_, SKIP next) => eof_stops fuel' next
    end
  end.

(** The tokens accepted on the way, once the input has ended. *)
Fixpoint eof_accepts (fuel : nat) (s : TSStateId) : list TSSymbol :=
  match fuel with
  | O => []
  | S fuel' =>
    match lex_fn s true 0 with
    | None => []
    | Some (accept, step) =>
      match accept with
      | Some symbol => [symbol]
      | None => []
      end
      ++ match step with
         | END_STATE => []
         | ADVANCE next => eof_accepts fuel' next
         | SKIP next => eof_accepts fuel' next
         end
    end
  end.

End AtEof.

(** What one case of [ts_lex] may do on a character: it does not accept
    the end of the input, accepts an empty token only if that token may be
    empty, advances to a state in which no run starts, and skips blanks
    only, from a start state to a start state, without accepting. *)
Definition transition_ok (s : TSStateId) (c : N) (x : option lex_case) : bool :=
  match x with
  | None => true
  | Some (accept, step) =>
    match accept with
    | Some symbol =>
      negb (symbol =? ts_builtin_sym_end) && (negb (fresh s) || zero_width symbol)
    | None => true
    end
    && match step with
       | ADVANCE next => lexing next && negb (fresh next)
       | SKIP next =>
         lexing next && fresh s && fresh next && is_blank c
         && match accept with Some _ => false | None => true end
       | END_STATE => true
       end
  end.

(** A check of the cases of a lex function, on the characters up to 128,
    in the states [within]. *)
Definition cases_checked (lex_fn : TSStateId -> bool -> N -> option lex_case)
    (states : list TSStateId) (within : TSStateId -> bool)
    (check : TSStateId -> N -> option lex_case -> bool) : bool :=
  forallb
    (fun s =>
       negb (within s)
       || forallb (fun c => check s c (lex_fn s false c)) low_chars)
    states.

(** What [ts_lex] may accept once the input has ended: the end of the
    input or a token that may be empty when no character was read, and
    never the end of the input otherwise. *)
Definition eof_ok (s : TSStateId) : bool :=
  let accepted := eof_accepts ts_lex EOF_FUEL s in
  if fresh s
  then forallb (fun symbol => (symbol =? ts_builtin_sym_end) || zero_width symbol)
         accepted
  else forallb (fun symbol => negb (symbol =? ts_builtin_sym_end)) accepted.

Definition not_end (symbol : TSSymbol) : bool :=
  negb (symbol =? ts_builtin_sym_end).

(** What holds of a token [m] read from [input]: blanks come before it,
    its text and the rest of the input follow; the end of the input is an
    empty token with nothing after it; and an empty token is the end of the
    input or one that may be empty. *)
Definition token_ok (input : list N) (m : Mark) : Prop :=
  match m with
  | (symbol, text, rest) =>
    (exists skipped, Forall blank skipped /\ input = skipped ++ text ++ rest)
    /\ (symbol = ts_builtin_sym_end -> text = [] /\ rest = [])
    /\ (text = [] ->
        symbol = ts_builtin_sym_end \/ symbol = sym_comment_content)
  end.

(** *** Trees and the text they cover *)

(** A weight for every symbol, such that every reduction of the tables
    builds a node lighter than its children together. *)
Definition token_weight : nat := 40.

Definition symbol_weights : list (TSSymbol * nat) :=
  [ (sym_source_file, 38%nat); (sym_section_marker, 39%nat);
    (sym_comment, 39%nat); (sym_block_comment, 79%nat);
    (sym_block_comment_content, 39%nat); (sym_structure_definition, 78%nat);
    (sym_building_def, 79%nat); (sym_floor_def, 79%nat);
    (sym_step_def, 79%nat); (sym_riser_def, 79%nat);
    (sym_step_clauses, 77%nat); (sym_belongs_clause, 79%nat);
    (sym_expects_clause, 156%nat); (sym_returns_clause, 78%nat);
    (sym_parameter_list, 117%nat); (sym_parameter, 118%nat);
    (sym_type, 39%nat); (sym_declaration, 158%nat);
    (sym_assignment, 158%nat); (sym_call_statement, 79%nat);
    (sym_with_clause, 77%nat); (sym_storing_clause, 79%nat);
    (sym_argument_list, 38%nat); (sym_display_statement, 78%nat);
    (sym_input_statement, 79%nat); (sym_return_statement, 39%nat);
    (sym_if_statement, 78%nat); (sym_otherwise_if_clause, 78%nat);
    (sym_otherwise_clause, 39%nat); (sym_repeat_statement, 118%nat);
    (sym_for_each_statement, 158%nat); (sym_while_statement, 78%nat);
    (sym_attempt_statement, 39%nat); (sym_if_unsuccessful_clause, 39%nat);
    (sym_then_continue_clause, 39%nat); (sym_add_statement, 158%nat);
    (sym_remove_statement, 158%nat); (sym_string, 79%nat);
    (sym_string_content, 39%nat); (sym_boolean, 39%nat);
    (sym_list_literal, 79%nat); (sym_binary_expression, 116%nat);
    (sym_binary_operator, 39%nat); (sym_unary_expression, 77%nat);
    (sym_unary_operator, 39%nat); (sym_call_expression, 79%nat);
    (sym_index_expression, 157%nat); (sym_parenthesized_expression, 118%nat);
    (aux_sym_source_file_repeat1, 77%nat);
    (aux_sym_block_comment_content_repeat1, 79%nat);
    (aux_sym_step_clauses_repeat1, 155%nat);
    (aux_sym_parameter_list_repeat1, 157%nat);
    (aux_sym_argument_list_repeat1, 78%nat);
    (aux_sym_if_statement_repeat1, 155%nat);
    (aux_sym_string_content_repeat1, 79%nat) ].

Definition weight (symbol : TSSymbol) : nat :=
  match find (fun p => fst p =? symbol) symbol_weights with
  | Some p => snd p
  | None => token_weight
  end.

(** The rule the tables keep: a node is lighter than its children together,
    and only a [source_file] is without children. *)
Definition weight_rule : NodeRule :=
  fun symbol children =>
    match children with
    | [] => symbol =? sym_source_file
    | _ :: _ => Nat.ltb (weight symbol) (list_sum (map weight children))
    end.

(** The texts of the tokens of a tree, in order. *)
Fixpoint leaves (t : Subtree) : list (list N) :=
  match t with
  | Leaf _ text => [text]
  | Node _ children => flat_map leaves children
  end.

Definition stack_leaves (stack : Stack) : list (list N) :=
  flat_map leaves (rev (map snd stack)).

(** [covers texts source rest]: [source] is the [texts] one after the
    other, blanks before each, and then [rest]. *)
Fixpoint covers (texts : list (list N)) (source rest : list N) : Prop :=
  match texts with
  | [] => source = rest
  | text :: texts' =>
    exists skipped after,
      Forall blank skipped
      /\ source = skipped ++ text ++ after
      /\ covers texts' after rest
  end.

(** [spells texts source]: [source] is the [texts], with blanks between
    them and after the last. *)
Definition spells (texts : list (list N)) (source : list N) : Prop :=
  exists rest, covers texts source rest /\ Forall blank rest.

(** Leaves hold tokens, inner nodes non-terminals, and only a
    [source_file] is without children. *)
Fixpoint well_formed (t : Subtree) : bool :=
  match t with
  | Leaf symbol _ => symbol <? TOKEN_COUNT
  | Node symbol children =>
    (TOKEN_COUNT <=? symbol) && (symbol <? SYMBOL_COUNT)
    && match children with
       | [] => symbol =? sym_source_file
       | _ :: _ => true
       end
    && forallb well_formed children
  end.

(** The loop accepts on the end of the input only. *)
Definition accept_at_end_by (lookup : TSStateId -> TSSymbol -> N)
    (s : TSStateId) : bool :=
  forallb
    (fun la =>
       match find (fun a => negb (is_repetition a)) (actions_by lookup s la)
       with
       | Some ACCEPT_INPUT => la =? ts_builtin_sym_end
       | _ => true
       end)
    all_tokens.

Definition accept_at_end (s : TSStateId) : bool :=
  forallb
    (fun la =>
       match parse_action s la with
       | Some ACCEPT_INPUT => la =? ts_builtin_sym_end
       | _ => true
       end)
    all_tokens.

(** An accepting state is entered with a [source_file]. *)
Definition accepted_symbol (accepting : list TSStateId) (E : list Edge)
    : bool :=
  forallb
    (fun e =>
       match e with
       | (_, symbol, s) =>
         negb (existsb (N.eqb s) accepting) || (symbol =? sym_source_file)
       end)
    E.

(** What holds of the stack, the lookahead and the input left, at every
    step of the loop on [source]: the stack is a path of the automaton
    whose trees keep [weight_rule] and are well formed, and the texts under
    the stack, then the lookahead, then the input left make up [source]. *)
Definition run_state_ok (source : list N) (stack : Stack)
    (lookahead : option Token) (input : list N) : Prop :=
  stack_ok weight_rule stack
  /\ lookahead_ok lookahead
  /\ forallb well_formed (map snd stack) = true
  /\ match lookahead with
     | None => covers (stack_leaves stack) source input
     | Some token =>
       covers (stack_leaves stack ++ [tok_text token]) source input
       /\ (tok_symbol token = ts_builtin_sym_end ->
           tok_text token = [] /\ input = [])
     end.

(** *** The steps the loop has left *)

(** The state shifts a [comment_content]: the one token, the end of the
    input apart, that may be empty. *)
Definition expects_comment_by (lookup : TSStateId -> TSSymbol -> N)
    (s : TSStateId) : bool :=
  match find (fun a => negb (is_repetition a))
          (actions_by lookup s sym_comment_content)
  with
  | Some (SHIFT _) => true
  | _ => false
  end.

Definition expects_comment (s : TSStateId) : bool :=
  match parse_action s sym_comment_content with
  | Some (SHIFT _) => true
  | _ => false
  end.

(** What the tables keep in state [s], for the loop to stop: the end of
    the input is not shifted; the state after a [comment_content] shifts
    none; a reduction of no children, or in the start state, is followed
    by acceptance; and no reduction leads to a state that shifts a
    [comment_content]. *)
Definition halting_by (lookup : TSStateId -> TSSymbol -> N) (s : TSStateId)
    : bool :=
  forallb
    (fun la =>
       match find (fun a => negb (is_repetition a)) (actions_by lookup s la)
       with
       | Some (SHIFT next) =>
         negb (la =? ts_builtin_sym_end)
         && (negb (la =? sym_comment_content)
             || negb (expects_comment_by lookup next))
       | Some (REDUCE symbol child_count) =>
         negb ((child_count =? 0) || (s =? START_STATE))
         || match find (fun a => negb (is_repetition a))
                    (actions_by lookup (next_state_by lookup s symbol) la)
            with
            | Some ACCEPT_INPUT => true
            | _ => false
            end
       | _ => true
       end)
    all_tokens
  && forallb
       (fun symbol =>
          (symbol <? TOKEN_COUNT)
          || negb (expects_comment_by lookup (next_state_by lookup s symbol)))
       all_symbols.

Definition halting (s : TSStateId) : bool :=
  forallb
    (fun la =>
       match parse_action s la with
       | Some (SHIFT next) =>
         negb (la =? ts_builtin_sym_end)
         && (negb (la =? sym_comment_content) || negb (expects_comment next))
       | Some (REDUCE symbol child_count) =>
         negb ((child_count =? 0) || (s =? START_STATE))
         || match parse_action (ts_language_next_state s symbol) la with
            | Some ACCEPT_INPUT => true
            | _ => false
            end
       | _ => true
       end)
    all_tokens
  && forallb
       (fun symbol =>
          (symbol <? TOKEN_COUNT)
          || negb (expects_comment (ts_language_next_state s symbol)))
       all_symbols.

Definition stack_weight (stack : Stack) : nat :=
  list_sum (map (fun e => weight (subtree_symbol (snd e))) stack).

Definition phase (lookahead : option Token) : nat :=
  match lookahead with
  | None => 2
  | Some token => if tok_symbol token =? keyword_capture_token then 0 else 1
  end.

Definition unread (lookahead : option Token) (input : list N) : nat :=
  match lookahead with
  | None => List.length input
  | Some token => List.length (tok_text token) + List.length input
  end.

(** A bound on the steps the loop has left: every step lowers it. *)
Definition steps_left (stack : Stack) (lookahead : option Token)
    (input : list N) : nat :=
  100 * unread lookahead input
  + stack_weight stack
  + (if expects_comment (ts_stack_state stack) then 50 else 0)
  + phase lookahead.

(** The empty tokens are the end of the input and [comment_content], and a
    keyword is not empty. *)
Definition lookahead_text_ok (lookahead : option Token) : Prop :=
  match lookahead with
  | None => True
  | Some token =>
    (tok_text token = [] ->
     tok_symbol token = ts_builtin_sym_end
     \/ tok_symbol token = sym_comment_content)
    /\ (tok_is_keyword token = true -> tok_text token <> [])
  end.

(** *** The grammar of the tables *)

(** The symbols of the hidden rules: the tables have a place for them
    after a reduction, and no reduction builds them. *)
Definition hidden_symbols : list TSSymbol := [sym__statement; sym__expression].

Definition expression_symbols : list TSSymbol :=
  [ sym_identifier; sym_number; sym_nothing; sym_string; sym_boolean;
    sym_list_literal; sym_binary_expression; sym_unary_expression;
    sym_call_expression; sym_index_expression; sym_parenthesized_expression ].

(** What a program is made of, line by line. *)
Definition top_level_symbols : list TSSymbol :=
  [ sym_exit_statement; sym__newline; sym_section_marker; sym_comment;
    sym_block_comment; sym_structure_definition; sym_declaration;
    sym_assignment; sym_call_statement; sym_display_statement;
    sym_input_statement; sym_return_statement; sym_if_statement;
    sym_repeat_statement; sym_for_each_statement; sym_while_statement;
    sym_attempt_statement; sym_add_statement; sym_remove_statement ].

Definition block_comment_tokens : list TSSymbol :=
  [ aux_sym_block_comment_content_token1;
    aux_sym_block_comment_content_token2;
    aux_sym_block_comment_content_token3;
    aux_sym_block_comment_content_token4;
    aux_sym_block_comment_content_token5;
    aux_sym_block_comment_content_token6;
    aux_sym_block_comment_content_token7;
    aux_sym_block_comment_content_token8 ].

(** A production: the symbol of the node, and for each child the symbols
    it may have. *)
Definition Production : Type := TSSymbol * list (list TSSymbol).

Definition productions : list Production :=
  let E := expression_symbols in
  let items := top_level_symbols ++ [aux_sym_source_file_repeat1] in
  let comment_parts :=
    block_comment_tokens ++ [aux_sym_block_comment_content_repeat1] in
  let string_parts :=
    [ aux_sym_string_content_token1; sym_escape_sequence;
      aux_sym_string_content_repeat1 ] in
  let otherwise_ifs :=
    [sym_otherwise_if_clause; aux_sym_if_statement_repeat1] in
  [ (sym_source_file, []);
    (sym_source_file, [items]);
    (aux_sym_source_file_repeat1, [items; items]);
    (sym_section_marker, [[anon_sym_do_COLON; anon_sym_declare_COLON]]);
    (sym_comment, [[anon_sym_note_COLON]]);
    (sym_comment, [[anon_sym_note_COLON]; [sym_comment_content]]);
    (sym_block_comment, [[anon_sym_noteblock_COLON]; [anon_sym_endnote]]);
    (sym_block_comment,
     [[anon_sym_noteblock_COLON]; [sym_block_comment_content];
      [anon_sym_endnote]]);
    (sym_block_comment_content, [comment_parts]);
    (aux_sym_block_comment_content_repeat1, [comment_parts; comment_parts]);
    (sym_structure_definition,
     [[sym_building_def; sym_floor_def; sym_step_def; sym_riser_def]]);
    (sym_building_def, [[anon_sym_building_COLON]; [sym_identifier]]);
    (sym_floor_def, [[anon_sym_floor_COLON]; [sym_identifier]]);
    (sym_step_def, [[anon_sym_step_COLON]; [sym_identifier]]);
    (sym_step_def,
     [[anon_sym_step_COLON]; [sym_identifier]; [sym_step_clauses]]);
    (sym_riser_def, [[anon_sym_riser_COLON]; [sym_identifier]]);
    (sym_riser_def,
     [[anon_sym_riser_COLON]; [sym_identifier]; [sym_step_clauses]]);
    (sym_step_clauses, [clause_symbols]);
    (aux_sym_step_clauses_repeat1, [clause_symbols; clause_symbols]);
    (sym_belongs_clause, [[anon_sym_belongsto_COLON]; [sym_identifier]]);
    (sym_expects_clause, [[anon_sym_expects_COLON]; [sym_parameter_list]]);
    (sym_returns_clause, [[anon_sym_returns_COLON]; [sym_type]]);
    (sym_parameter_list, [[sym_parameter]]);
    (sym_parameter_list, [[sym_parameter]; [aux_sym_parameter_list_repeat1]]);
    (aux_sym_parameter_list_repeat1, [[anon_sym_COMMA]; [sym_parameter]]);
    (aux_sym_parameter_list_repeat1,
     [[aux_sym_parameter_list_repeat1]; [aux_sym_parameter_list_repeat1]]);
    (sym_parameter, [[sym_identifier]; [anon_sym_as]; [sym_type]]);
    (sym_type,
     [[ anon_sym_number; anon_sym_text; anon_sym_boolean; anon_sym_list;
        anon_sym_table ]]);
    (sym_declaration,
     [[anon_sym_declare_COLON]; [sym_identifier]; [anon_sym_as]; [sym_type]]);
    (sym_declaration,
     [[anon_sym_declare_COLON]; [sym_identifier]; [anon_sym_as]; [sym_type];
      [anon_sym_EQ]; E]);
    (sym_declaration,
     [[anon_sym_declare_COLON]; [anon_sym_fixed]; [sym_identifier];
      [anon_sym_as]; [sym_type]]);
    (sym_declaration,
     [[anon_sym_declare_COLON]; [anon_sym_fixed]; [sym_identifier];
      [anon_sym_as]; [sym_type]; [anon_sym_EQ]; E]);
    (sym_assignment, [[anon_sym_set]; [sym_identifier]; [anon_sym_to]; E]);
    (sym_call_statement, [[anon_sym_call]; [sym_identifier]]);
    (sym_call_statement,
     [[anon_sym_call]; [sym_identifier]; [sym_with_clause]]);
    (sym_call_statement,
     [[anon_sym_call]; [sym_identifier]; [sym_with_clause];
      [sym_storing_clause]]);
    (sym_call_statement,
     [[anon_sym_call]; [sym_identifier]; [sym_storing_clause]]);
    (sym_with_clause, [[anon_sym_with]; [sym_argument_list]]);
    (sym_storing_clause, [[anon_sym_storingresultin]; [sym_identifier]]);
    (sym_argument_list, [E]);
    (sym_argument_list, [E; [aux_sym_argument_list_repeat1]]);
    (aux_sym_argument_list_repeat1, [[anon_sym_COMMA]; E]);
    (aux_sym_argument_list_repeat1,
     [[aux_sym_argument_list_repeat1]; [aux_sym_argument_list_repeat1]]);
    (sym_display_statement, [[anon_sym_display]; E]);
    (sym_input_statement, [[anon_sym_input]; [sym_identifier]]);
    (sym_return_statement, [[anon_sym_return]]);
    (sym_return_statement, [[anon_sym_return]; E]);
    (sym_if_statement, [[anon_sym_if]; E]);
    (sym_if_statement, [[anon_sym_if]; E; otherwise_ifs]);
    (sym_if_statement, [[anon_sym_if]; E; [sym_otherwise_clause]]);
    (sym_if_statement,
     [[anon_sym_if]; E; otherwise_ifs; [sym_otherwise_clause]]);
    (aux_sym_if_statement_repeat1, [otherwise_ifs; otherwise_ifs]);
    (sym_otherwise_if_clause, [[anon_sym_otherwiseif]; E]);
    (sym_otherwise_clause, [[anon_sym_otherwise]]);
    (sym_repeat_statement, [[anon_sym_repeat]; E; [anon_sym_times]]);
    (sym_for_each_statement,
     [[anon_sym_foreach]; [sym_identifier]; [anon_sym_in]; E]);
    (sym_while_statement, [[anon_sym_while]; E]);
    (sym_attempt_statement, [[anon_sym_attempt_COLON]]);
    (sym_attempt_statement,
     [[anon_sym_attempt_COLON]; [sym_if_unsuccessful_clause]]);
    (sym_attempt_statement,
     [[anon_sym_attempt_COLON]; [sym_if_unsuccessful_clause];
      [sym_then_continue_clause]]);
    (sym_attempt_statement,
     [[anon_sym_attempt_COLON]; [sym_then_continue_clause]]);
    (sym_if_unsuccessful_clause, [[anon_sym_ifunsuccessful_COLON]]);
    (sym_then_continue_clause, [[anon_sym_thencontinue_COLON]]);
    (sym_add_statement, [[anon_sym_add]; E; [anon_sym_to]; [sym_identifier]]);
    (sym_remove_statement,
     [[anon_sym_remove]; E; [anon_sym_from]; [sym_identifier]]);
    (sym_string, [[anon_sym_DQUOTE]; [anon_sym_DQUOTE]]);
    (sym_string, [[anon_sym_DQUOTE]; [sym_string_content]; [anon_sym_DQUOTE]]);
    (sym_string_content, [string_parts]);
    (aux_sym_string_content_repeat1, [string_parts; string_parts]);
    (sym_boolean, [[anon_sym_true; anon_sym_false]]);
    (sym_list_literal, [[anon_sym_LBRACK]; [anon_sym_RBRACK]]);
    (sym_list_literal,
     [[anon_sym_LBRACK]; [sym_argument_list]; [anon_sym_RBRACK]]);
    (sym_binary_expression, [E; [sym_binary_operator]; E]);
    (sym_binary_operator, [binary_operators]);
    (sym_unary_expression, [[sym_unary_operator]; E]);
    (sym_unary_operator, [unary_operators]);
    (sym_call_expression, [[anon_sym_call]; [sym_identifier]]);
    (sym_call_expression,
     [[anon_sym_call]; [sym_identifier]; [sym_with_clause]]);
    (sym_index_expression, [E; [anon_sym_LBRACK]; E; [anon_sym_RBRACK]]);
    (sym_parenthesized_expression, [[anon_sym_LPAREN]; E; [anon_sym_RPAREN]])
  ].

(** The children fit the pattern; the symbol of a hidden rule fits
    anywhere (no node has one, lemma [built_symbols]). *)
Fixpoint fits (pattern : list (list TSSymbol)) (children : list TSSymbol)
    : bool :=
  match pattern, children with
  | [], [] => true
  | set :: pattern', c :: children' =>
    (one_of set c || one_of hidden_symbols c) && fits pattern' children'
  | _, _ => false
  end.

(** The rule the tables keep: a node is built by one of the
    [productions], and never for a hidden rule. *)
Definition production_rule : NodeRule :=
  fun symbol children =>
    negb (one_of hidden_symbols symbol)
    && existsb
         (fun p => (fst p =? symbol) && fits (snd p) children)
         productions.

(** A production that holds a top-level symbol is one of [source_file] or
    of its repetition. *)
Definition top_level_only (p : Production) : bool :=
  one_of [sym_source_file; aux_sym_source_file_repeat1] (fst p)
  || forallb (fun set => negb (existsb (one_of top_level_symbols) set))
       (snd p).

(** *** How tokens are spelled *)

(** What is known of the text read so far, in a state of a lex function:
    the very text, that it is a word, or nothing. *)
Inductive Spelling :=
| Exact (text : list N)
| Word
| Any.

Definition is_letter (c : N) : bool :=
  ((chr "a" <=? c) && (c <=? chr "z")) || ((chr "A" <=? c) && (c <=? chr "Z")).

Definition is_word_start (c : N) : bool := is_letter c || (c =? chr "_").

Definition is_word_char (c : N) : bool := is_word_start c || is_digit c.

(** A letter or an underscore, then letters, digits and underscores. *)
Definition word_shaped (text : list N) : bool :=
  match text with
  | [] => false
  | c :: text' => is_word_start c && forallb is_word_char text'
  end.

Fixpoint text_eqb (a b : list N) : bool :=
  match a, b with
  | [], [] => true
  | x :: a', y :: b' => (x =? y) && text_eqb a' b'
  | _, _ => false
  end.

Definition holds (L : Spelling) (text : list N) : Prop :=
  match L with
  | Exact p => text = p
  | Word => word_shaped text = true
  | Any => True
  end.

(** What is known once [c] is read as well. *)
Definition extend (L : Spelling) (c : N) : Spelling :=
  match L with
  | Exact p => if c <? 128 then Exact (p ++ [c]) else Any
  | Word => if is_word_char c then Word else Any
  | Any => Any
  end.

(** [below a b]: what [a] says, [b] says. *)
Definition below (a b : Spelling) : bool :=
  match a, b with
  | Exact p, Exact q => text_eqb p q
  | Exact p, Word => word_shaped p
  | Word, Word => true
  | _, Any => true
  | _, _ => false
  end.

(** The least of what both say. *)
Definition join (a b : Spelling) : Spelling :=
  if below a b then b
  else if below b a then a
  else if below a Word && below b Word then Word
  else Any.

(** A token that stands for itself: a keyword, an operator, a bracket. *)
Definition anonymous (symbol : TSSymbol) : bool :=
  visible (ts_symbol_metadata symbol)
  && negb (named (ts_symbol_metadata symbol)).

(** The named tokens that are written in one way: the line end, [exit]
    and [nothing]. *)
Definition literal_spelling (symbol : TSSymbol) : option (list N) :=
  if symbol =? sym__newline then Some NL
  else if symbol =? sym_exit_statement then Some (codes "exit")
  else if symbol =? sym_nothing then Some (codes "nothing")
  else None.

(** The text of an anonymous token is its name, an identifier is a word,
    and a named token written in one way is written so. *)
Definition token_spelling_ok (symbol : TSSymbol) (text : list N) : bool :=
  (negb (anonymous symbol) || text_eqb text (codes (ts_symbol_names symbol)))
  && (negb (symbol =? sym_identifier) || word_shaped text)
  && match literal_spelling symbol with
     | Some p => text_eqb text p
     | None => true
     end.

Definition no_literal (symbol : TSSymbol) : bool :=
  match literal_spelling symbol with
  | Some _ => false
  | None => true
  end.

Definition accept_ok (accept : option TSSymbol) (L : Spelling) : bool :=
  match accept with
  | None => true
  | Some symbol =>
    match L with
    | Exact p => token_spelling_ok symbol p
    | Word => negb (anonymous symbol) && no_literal symbol
    | Any =>
      negb (anonymous symbol) && negb (symbol =? sym_identifier)
      && no_literal symbol
    end
  end.

Definition state_key (s : TSStateId) : positive := N.succ_pos s.

Definition Spellings : Type := PositiveMap.t Spelling.

Definition spelling_of (table : Spellings) (s : TSStateId) : option Spelling :=
  PositiveMap.find (state_key s) table.

Section Spell.

Variable lex_fn : TSStateId -> bool -> N -> option lex_case.

(** The states that follow [s], with what is known in them. *)
Definition spelled_next (s : TSStateId) (L : Spelling)
    : list (TSStateId * Spelling) :=
  match lex_fn s true 0 with
  | Some (_, ADVANCE next) | Some (_, SKIP next) => [(next, L)]
  | _ => []
  end
  ++ flat_map
       (fun c =>
          match lex_fn s false c with
          | Some (_, ADVANCE next) => [(next, extend L c)]
          | Some (_, SKIP next) => [(next, Exact [])]
          | _ => []
          end)
       low_chars.

Definition spell_add (p : TSStateId * Spelling)
    (acc : list TSStateId * Spellings) : list TSStateId * Spellings :=
  match spelling_of (snd acc) (fst p) with
  | None =>
    (fst p :: fst acc, PositiveMap.add (state_key (fst p)) (snd p) (snd acc))
  | Some old =>
    if below (snd p) old then acc
    else (fst p :: fst acc,
          PositiveMap.add (state_key (fst p)) (join old (snd p)) (snd acc))
  end.

(** What is known in every state reached from the states of [table]:
    found by going round, from the [changed] states, until nothing
    changes. *)
Fixpoint spell (fuel : nat) (changed : list TSStateId) (table : Spellings)
    : Spellings :=
  match fuel with
  | O => table
  | S fuel' =>
    match changed with
    | [] => table
    | _ :: _ =>
      let next :=
        flat_map
          (fun s =>
             match spelling_of table s with
             | Some L => spelled_next s L
             | None => []
             end)
          changed in
      let acc := fold_right spell_add ([], table) next in
      spell fuel' (fst acc) (snd acc)
    end
  end.

(** The check of a case of state [s], where [L] is known, on [c]. *)
Definition spelled_case (table : Spellings) (L : Spelling) (c : N)
    (x : option lex_case) : bool :=
  match x with
  | None => true
  | Some (accept, step) =>
    accept_ok accept L
    && match step with
       | ADVANCE next =>
         match spelling_of table next with
         | Some L' => below (extend L c) L'
         | None => false
         end
       | SKIP next =>
         is_blank c
         && below L (Exact [])
         && match accept with Some _ => false | None => true end
         && match spelling_of table next with
            | Some L' => below (Exact []) L'
            | None => false
            end
       | END_STATE => true
       end
  end.

(** The check of the case of state [s] once the input has ended. *)
Definition spelled_eof_case (table : Spellings) (L : Spelling)
    (x : option lex_case) : bool :=
  match x with
  | None => true
  | Some (accept, step) =>
    accept_ok accept L
    && match step with
       | ADVANCE next | SKIP next =>
         match spelling_of table next with
         | Some L' => below L L'
         | None => false
         end
       | END_STATE => true
       end
  end.

Definition spelled_state (table : Spellings) (s : TSStateId) (c : N)
    (x : option lex_case) : bool :=
  match spelling_of table s with
  | Some L => spelled_case table L c x
  | None => true
  end.

Definition spelled_at_eof (table : Spellings) (states : list TSStateId)
    : bool :=
  forallb
    (fun s =>
       match spelling_of table s with
       | Some L => spelled_eof_case table L (lex_fn s true 0)
       | None => true
       end)
    states.

End Spell.

(** What holds of a mark set while [input] is read: the token is spelled
    as it should be, and blanks, its text and the rest make up [input]. *)
Definition mark_spelled (input : list N) (result : option Mark) : Prop :=
  match result with
  | Some (symbol, text, rest) =>
    token_spelling_ok symbol text = true
    /\ exists skipped, Forall blank skipped /\ input = skipped ++ text ++ rest
  | None => True
  end.

Definition spell_from (lex_fn : TSStateId -> bool -> N -> option lex_case)
    (starts : list TSStateId) : Spellings :=
  spell lex_fn 100 starts
    (fold_right (fun s => PositiveMap.add (state_key s) (Exact []))
       (PositiveMap.empty Spelling) starts).

(** The lex state of a note: the text after [note:] is read from its
    first character, blanks as well. *)
Definition note_lex_state : TSStateId := 360.

Definition plain_start_states : list TSStateId :=
  filter (fun s => negb (s =? note_lex_state)) lex_start_states.

Definition lex_spellings : Spellings :=
  Eval vm_compute in spell_from ts_lex plain_start_states.

Definition keyword_spellings : Spellings :=
  Eval vm_compute in spell_from ts_lex_keywords [0].

Definition spelled_within (bound : N) (table : Spellings) : bool :=
  forallb (fun p => Pos.pred_N (fst p) <? bound) (PositiveMap.elements table).

(** *** The text of a note *)

(** The states of [ts_lex] reached from the lex state of a note. *)
Definition note_lex_states : list TSStateId :=
  Eval vm_compute in
    map (fun p => Pos.pred_N (fst p))
      (PositiveMap.elements (spell_from ts_lex [note_lex_state])).

Definition in_note (s : TSStateId) : bool :=
  existsb (N.eqb s) note_lex_states.

(** The characters a note does not go over: the line feed and the
    character 0. *)
Definition ends_note (c : N) : bool := (c =? 10) || (c =? 0).

(** What a state of a note does with [c]: it accepts a token, not an
    identifier; it goes on, within the note, on a character that does not
    end it; and it stops with a [comment_content] before one that does. *)
Definition note_case (c : N) (x : option lex_case) : bool :=
  match x with
  | Some (Some symbol, step) =>
    negb (symbol =? keyword_capture_token)
    && match step with
       | ADVANCE next => in_note next && negb (ends_note c)
       | SKIP _ => false
       | END_STATE => negb (symbol =? sym_comment_content) || ends_note c
       end
  | _ => false
  end.

Definition note_eof_case (x : option lex_case) : bool :=
  match x with
  | Some (Some symbol, step) =>
    negb (symbol =? keyword_capture_token)
    && match step with
       | ADVANCE next | SKIP next => in_note next
       | END_STATE => true
       end
  | _ => false
  end.

Definition note_checked_at_eof : bool :=
  forallb (fun s => note_eof_case (ts_lex s true 0)) note_lex_states.

(** A token read in a note: no identifier, and a [comment_content] goes
    up to the end of the line. *)
Definition note_mark_ok (m : Mark) : Prop :=
  match m with
  | (symbol, text, rest) =>
    symbol <> keyword_capture_token
    /\ (symbol = sym_comment_content ->
        forallb (fun c => negb (ends_note c)) text = true
        /\ match rest with
           | [] => True
           | c :: _ => ends_note c = true
           end)
  end.

Definition note_outcome_ok (o : lex_outcome) : Prop :=
  match o with
  | Lexed m => note_mark_ok m
  | NoToken => False
  | LexDiverges => True
  end.

(** The parse state after [note:], and the lex state of a note once
    blanks are read. *)
Definition after_note : TSStateId := 58.
Definition note_blank_state : TSStateId := 284.

(** The tokens that begin a line of a program, as they are written. *)
Definition note_keywords : list (TSSymbol * string) :=
  [ (anon_sym_do_COLON, "do:"); (anon_sym_declare_COLON, "declare:");
    (anon_sym_note_COLON, "note:"); (anon_sym_noteblock_COLON, "note block:");
    (anon_sym_building_COLON, "building:"); (anon_sym_floor_COLON, "floor:");
    (anon_sym_step_COLON, "step:"); (anon_sym_riser_COLON, "riser:");
    (anon_sym_set, "set"); (anon_sym_call, "call");
    (anon_sym_display, "display"); (anon_sym_input, "input");
    (anon_sym_return, "return"); (sym_exit_statement, "exit");
    (anon_sym_if, "if"); (anon_sym_repeat, "repeat");
    (anon_sym_foreach, "for each"); (anon_sym_while, "while");
    (anon_sym_attempt_COLON, "attempt:"); (anon_sym_add, "add");
    (anon_sym_remove, "remove") ]%string.

(** The note ends here: at the end of the input, or before a line feed
    or a character 0. *)
Definition at_line_end (rest : list N) : Prop :=
  rest = [] \/ exists c more, rest = c :: more /\ (c = 10 \/ c = 0).

(** *** The edges the loop takes *)

Definition edge_eqb (a b : Edge) : bool :=
  match a, b with
  | (s0, x, s), (t0, y, t) => (s0 =? t0) && (x =? y) && (s =? t)
  end.

Definition has_edge (E : list Edge) (e : Edge) : bool :=
  existsb (edge_eqb e) E.

(** The start state, and the states the edges of [E] lead to. *)
Definition is_entered (E : list Edge) (s : TSStateId) : bool :=
  (s =? START_STATE) || existsb (fun e => snd e =? s) E.

Section EdgesByLookup.

Variable lookup : TSStateId -> TSSymbol -> N.

(** The shifts of state [s]. *)
Definition shift_edges_by (s : TSStateId) : list Edge :=
  flat_map
    (fun la =>
       match find (fun a => negb (is_repetition a)) (actions_by lookup s la)
       with
       | Some (SHIFT next) => [(s, la, next)]
       | _ => []
       end)
    all_tokens.

(** The reductions of state [t], each over the paths of [E] that end in
    [t]: the edge the reduction adds, and the symbols along the path. *)
Definition reduce_edges_by (E : list Edge) (t : TSStateId)
    : list (Edge * list TSSymbol) :=
  flat_map
    (fun r =>
       map
         (fun p =>
            ((fst p, fst r, next_state_by lookup (fst p) (fst r)), snd p))
         (back_paths E (N.to_nat (snd r)) t))
    (state_reductions_by lookup t).

Definition next_edges_by (E : list Edge) : list Edge :=
  flat_map
    (fun s =>
       if is_entered E s
       then shift_edges_by s ++ map fst (reduce_edges_by E s)
       else [])
    all_states.

Definition add_edge (e : Edge) (E : list Edge) : list Edge :=
  if has_edge E e then E else e :: E.

(** The edges reached from the start state: the shifts of the states
    entered, and the edges of the reductions over the edges found so far,
    until no edge is new. *)
Fixpoint taken_edges_by (fuel : nat) (E : list Edge) : list Edge :=
  match fuel with
  | O => E
  | S fuel' =>
    let E' := fold_right add_edge E (next_edges_by E) in
    if Nat.eqb (List.length E') (List.length E) then E
    else taken_edges_by fuel' E'
  end.

(** The check of a state entered by [E]: its shifts are edges of [E], and
    each of its reductions, over each path of [E], keeps the rule [P] and
    adds an edge of [E]. *)
Definition live_state_ok_by (P : NodeRule) (E : list Edge) (s : TSStateId)
    : bool :=
  forallb (has_edge E) (shift_edges_by s)
  && forallb (fun x => P (snd (fst (fst x))) (snd x) && has_edge E (fst x))
       (reduce_edges_by E s).

Definition live_ok_by (P : NodeRule) (E : list Edge) : bool :=
  forallb (fun e => snd e <? STATE_COUNT) E
  && forallb (fun s => negb (is_entered E s) || live_state_ok_by P E s)
       all_states.

End EdgesByLookup.

Definition live_ok (P : NodeRule) (E : list Edge) : bool :=
  live_ok_by ts_language_lookup P E.

Definition live_edges : list Edge :=
  Eval vm_compute in taken_edges_by (row_lookup table_rows) 100 [].

(** A stack along the edges of [E], with trees that keep [P]. *)
Fixpoint stack_live (P : NodeRule) (E : list Edge) (stack : Stack) : Prop :=
  match stack with
  | [] => True
  | (s, t) :: below =>
    In (ts_stack_state below, subtree_symbol t, s) E
    /\ tree_ok P t = true
    /\ stack_live P E below
  end.

(** The rule the loop keeps on operators: the right operand of a binary
    operator is no [binary_expression], and neither is the operand of a
    unary operator. *)
Definition grouping_rule : NodeRule :=
  fun symbol children =>
    (negb (symbol =? sym_binary_expression)
     || match children with
        | [_; _; r] => negb (r =? sym_binary_expression)
        | _ => false
        end)
    && (negb (symbol =? sym_unary_expression)
        || match children with
           | [_; e] => negb (e =? sym_binary_expression)
           | _ => false
           end).

(** *** Carriage returns *)

Definition CR : N := 13.

Definition carries_cr (text : list N) : bool := existsb (N.eqb CR) text.

(** The tokens that may hold a carriage return: the text of a note, of a
    block note and of a string. *)
Definition cr_tokens : list TSSymbol :=
  sym_comment_content :: aux_sym_string_content_token1
  :: block_comment_tokens.

Definition token_cr_ok (symbol : TSSymbol) (text : list N) : bool :=
  negb (carries_cr text) || one_of cr_tokens symbol.

Definition add_state (s : TSStateId) (D : list TSStateId) : list TSStateId :=
  if existsb (N.eqb s) D then D else s :: D.

Section AfterCr.

Variable lex_fn : TSStateId -> bool -> N -> option lex_case.
Variable states : list TSStateId.
Variable bound : N.

(** The states entered on a carriage return, or from a state of [D]. *)
Definition cr_next (D : list TSStateId) : list TSStateId :=
  flat_map
    (fun s =>
       let from_D := existsb (N.eqb s) D in
       match lex_fn s true 0 with
       | Some (_, ADVANCE next) | Some (_, SKIP next) =>
         if from_D then [next] else []
       | _ => []
       end
       ++ flat_map
            (fun c =>
               match lex_fn s false c with
               | Some (_, ADVANCE next) =>
                 if (c =? CR) || from_D then [next] else []
               | _ => []
               end)
            low_chars)
    states.

(** The states in which the text read may hold a carriage return. *)
Fixpoint cr_states (fuel : nat) (D : list TSStateId) : list TSStateId :=
  match fuel with
  | O => D
  | S fuel' =>
    let D' := fold_right add_state D (cr_next D) in
    if Nat.eqb (List.length D') (List.length D) then D
    else cr_states fuel' D'
  end.

(** The check of a case of state [s] on [c]: a token accepted in a state
    of [D] is one of [cr_tokens], and the state entered on a carriage
    return, or from a state of [D], is one of [D]. *)
Definition cr_case (D : list TSStateId) (s : TSStateId) (c : N)
    (x : option lex_case) : bool :=
  match x with
  | None => true
  | Some (accept, step) =>
    let from_D := existsb (N.eqb s) D in
    match accept with
    | Some symbol => negb from_D || one_of cr_tokens symbol
    | None => true
    end
    && match step with
       | ADVANCE next =>
         (next <? bound)
         && (negb ((c =? CR) || from_D) || existsb (N.eqb next) D)
       | SKIP next => next <? bound
       | END_STATE => true
       end
  end.

Definition cr_eof_case (D : list TSStateId) (s : TSStateId)
    (x : option lex_case) : bool :=
  match x with
  | None => true
  | Some (accept, step) =>
    let from_D := existsb (N.eqb s) D in
    match accept with
    | Some symbol => negb from_D || one_of cr_tokens symbol
    | None => true
    end
    && match step with
       | ADVANCE next | SKIP next =>
         (next <? bound) && (negb from_D || existsb (N.eqb next) D)
       | END_STATE => true
       end
  end.

End AfterCr.

Definition lex_cr_states : list TSStateId :=
  Eval vm_compute in cr_states ts_lex lex_states 100 [].

Definition cr_checked_at_eof : bool :=
  forallb
    (fun s =>
       cr_eof_case LEX_STATE_COUNT lex_cr_states s (ts_lex s true 0))
    lex_states.

Definition mark_cr_ok (result : option Mark) : Prop :=
  match result with
  | Some (symbol, text, _) => token_cr_ok symbol text = true
  | None => True
  end.

(** The leaves of a tree hold carriage returns in [cr_tokens] only. *)
Fixpoint cr_tree_ok (t : Subtree) : bool :=
  match t with
  | Leaf symbol text => token_cr_ok symbol text
  | Node _ children => forallb cr_tree_ok children
  end.

Definition lookahead_cr_ok (lookahead : option Token) : Prop :=
  match lookahead with
  | Some token =>
    token_cr_ok (tok_symbol token) (tok_text token) = true
    /\ (tok_is_keyword token = true -> carries_cr (tok_text token) = false)
  | None => True
  end.

Definition cr_state_ok (source : list N) (stack : Stack)
    (lookahead : option Token) (input : list N) : Prop :=
  run_state_ok source stack lookahead input
  /\ forallb cr_tree_ok (map snd stack) = true
  /\ lookahead_cr_ok lookahead.

(** *** The content of a string *)

(** The characters the content of a string goes over: all but the
    character 0, the double quote and the backslash. *)
Definition content_char (c : N) : bool :=
  negb (c =? 0) && negb (c =? 34) && negb (c =? BACKSLASH).

(** What a lex run inside a string may give: no identifier, and a content
    that is not empty, holds content characters only, and stops before a
    character that is none, or at the end of the input. *)
Definition content_outcome (o : lex_outcome) : Prop :=
  match o with
  | Lexed (symbol, text, rest) =>
    symbol <> sym_identifier
    /\ (symbol = aux_sym_string_content_token1 ->
        text <> []
        /\ forallb content_char text = true
        /\ match rest with
           | [] => True
           | c :: _ => content_char c = false
           end)
  | _ => True
  end.

(** *** The error state *)

(** A [RECOVER] action stands in the row of the error state, and no other
    action does. *)
Definition recover_only_in_error_state_by
    (lookup : TSStateId -> TSSymbol -> N) (s : TSStateId) : bool :=
  forallb
    (fun la =>
       match find (fun a => negb (is_repetition a)) (actions_by lookup s la)
       with
       | Some RECOVER => s =? ERROR_STATE
       | Some _ => negb (s =? ERROR_STATE)
       | None => true
       end)
    all_tokens.

Definition recover_only_in_error_state (s : TSStateId) : bool :=
  forallb
    (fun la =>
       match parse_action s la with
       | Some RECOVER => s =? ERROR_STATE
       | Some _ => negb (s =? ERROR_STATE)
       | None => true
       end)
    all_tokens.

(** *** Turns of the loop *)

(** Where the loop stands: the stack, the token read ahead if there is
    one, and the input left. *)
Definition Configuration : Type := Stack * option Token * list N.

(** One turn of the loop of [ts_parser_run]: the configuration it goes on
    with, or nothing where it returns. *)
Definition ts_parser_step (c : Configuration) : option Configuration :=
  match c with
  | (stack, lookahead, input) =>
    let state := ts_stack_state stack in
    match lookahead with
    | None =>
      match ts_parser_lex state input with
      | Some (token, rest) => Some (stack, Some token, rest)
      | None => None
      end
    | Some token =>
      match parse_action state (tok_symbol token) with
      | Some (SHIFT next) =>
        Some ((next, Leaf (tok_symbol token) (tok_text token)) :: stack,
              None, input)
      | Some (REDUCE symbol child_count) =>
        Some (ts_parser_reduce stack symbol child_count, Some token, input)
      | Some ACCEPT_INPUT | Some RECOVER | Some (SHIFT_REPEAT _) => None
      | None =>
        if tok_is_keyword token
           && negb (tok_symbol token =? keyword_capture_token)
           && ts_language_has_actions state keyword_capture_token
        then
          Some (stack,
                Some {| tok_symbol := keyword_capture_token;
                        tok_text := tok_text token;
                        tok_is_keyword := true |},
                input)
        else None
      end
    end
  end.

Fixpoint ts_parser_steps (n : nat) (c : Configuration)
    : option Configuration :=
  match n with
  | O => Some c
  | S n' =>
    match ts_parser_step c with
    | Some c' => ts_parser_steps n' c'
    | None => None
    end
  end.

(** The loop, run on [source], comes to stand at [c]. *)
Definition reaches (source : list N) (c : Configuration) : Prop :=
  exists n, ts_parser_steps n ([], None, source) = Some c.

(** *** Where an expression begins *)

(** The state follows an operator: an operand is read there. *)
Definition follows_operator (s : TSStateId) : bool :=
  existsb
    (fun s0 =>
       (ts_language_next_state s0 sym_binary_operator =? s)
       || (ts_language_next_state s0 sym_unary_operator =? s))
    all_states.

(** A parse state in which an expression is about to be read: a number
    is shifted, and the state does not follow an operator. *)
Definition begins_expression (s : TSStateId) : bool :=
  match parse_action s sym_number with
  | Some (SHIFT _) => negb (follows_operator s)
  | _ => false
  end.

(** The state over [s] once an expression is read, and the state of the
    right operand of a binary operator after it, once it is shifted. *)
Definition after_expression (s : TSStateId) : TSStateId :=
  ts_language_next_state s sym_binary_expression.

Definition operand_state (s : TSStateId) : TSStateId :=
  ts_language_next_state
    (ts_language_next_state (after_expression s) sym_binary_operator)
    sym_number.

(** Source text after which an expression is read, and the state the
    loop is in once the text is read. *)
Definition expression_openings : list (string * TSStateId) :=
  [ ("display ", 105); ("return ", 32); ("set x to ", 90); ("if ", 107);
    ("if x otherwise if ", 93); ("while ", 112); ("repeat ", 109);
    ("for each x in ", 94); ("add ", 95); ("remove ", 98);
    ("declare: x as number = ", 103);
    ("declare: fixed x as number = ", 108);
    ("call f with ", 87); ("display call f with ", 88);
    ("display [call f with ", 89); ("call f with 1, ", 111);
    ("display [", 70); ("display x[", 101); ("display (", 99) ]%string.

(** *** Where a line begins *)

(** The loop stands at the start of a line: nothing is read yet, or the
    last token shifted is a line end. *)
Definition at_line_start (stack : Stack) : Prop :=
  stack = []
  \/ exists s text below, stack = (s, Leaf sym__newline text) :: below.

(** The tokens that begin a statement and no expression, and the line
    end. *)
Definition statement_openers : list TSSymbol :=
  [ anon_sym_declare_COLON; anon_sym_note_COLON; anon_sym_noteblock_COLON;
    anon_sym_building_COLON; anon_sym_floor_COLON; anon_sym_step_COLON;
    anon_sym_riser_COLON; anon_sym_set; anon_sym_display; anon_sym_return;
    sym_exit_statement; anon_sym_if; anon_sym_repeat; anon_sym_foreach;
    anon_sym_while; anon_sym_attempt_COLON; anon_sym_add; anon_sym_remove;
    sym__newline ].

(** A production that holds [do:] is a [section_marker] of one child. *)
Definition do_in_marker_only (p : Production) : bool :=
  negb (existsb (fun set => one_of set anon_sym_do_COLON) (snd p))
  || ((fst p =? sym_section_marker) && Nat.eqb (List.length (snd p)) 1).

(** The state over the items read so far, and the state over one more
    item. *)
Definition after_items : TSStateId := 26.
Definition after_item : TSStateId := 25.

(** A line end is shifted from the start state and from the state over
    the items read so far. *)
Definition line_edge (e : Edge) : bool :=
  negb (snd (fst e) =? sym__newline)
  || edge_eqb e (START_STATE, sym__newline, after_items)
  || edge_eqb e (after_items, sym__newline, after_item).

(** No edge leads to the start state, and the state over the items is
    entered from the start state. *)
Definition item_edge (e : Edge) : bool :=
  negb (snd e =? START_STATE)
  && (negb (snd e =? after_items) || (fst (fst e) =? START_STATE)).

(** What follows [do:] on its line: the end of the input, or a line
    feed. *)
Definition ends_line (tail : list N) : Prop :=
  tail = [] \/ exists rest, tail = NL ++ rest.

(** The token read at the end of the line, and what is left after it. *)
Definition line_end_read (tail : list N) (token : Token) (rest : list N)
    : Prop :=
  (tail = [] /\ tok_symbol token = ts_builtin_sym_end /\ rest = [])
  \/ (tok_symbol token = sym__newline /\ tail = NL ++ rest).

(** * Properties *)

(** ** The parse loop is deterministic in its fuel *)

Lemma ts_parser_run_more_fuel :
  forall fuel stack lookahead input o,
    ts_parser_run fuel stack lookahead input = o ->
    o <> OutOfFuel ->
    forall fuel', (fuel <= fuel')%nat ->
    ts_parser_run fuel' stack lookahead input = o.
Proof.
  induction fuel as [|fuel IH]; intros stack lookahead input o Hrun Ho fuel' Hle.
  - simpl in Hrun. congruence.
  - destruct fuel' as [|fuel']; [lia|].
    assert (Hle' : (fuel <= fuel')%nat) by lia.
    simpl in Hrun |- *.
    destruct lookahead as [token|].
    + destruct (parse_action (ts_stack_state stack) (tok_symbol token))
        as [[next|next|symbol child_count| |]|]; try exact Hrun;
        try (eapply IH; eassumption).
      destruct (tok_is_keyword token
                && negb (tok_symbol token =? keyword_capture_token)
                && ts_language_has_actions (ts_stack_state stack)
                     keyword_capture_token);
        [eapply IH; eassumption | exact Hrun].
    + destruct (ts_parser_lex (ts_stack_state stack) input) as [[token rest]|];
        [eapply IH; eassumption | exact Hrun].
Qed.

Lemma parse_outcome_unique :
  forall source fuel1 fuel2 o1 o2,
    ts_parser_parse fuel1 source = o1 -> o1 <> OutOfFuel ->
    ts_parser_parse fuel2 source = o2 -> o2 <> OutOfFuel ->
    o1 = o2.
Proof.
  intros source fuel1 fuel2 o1 o2 H1 Hn1 H2 Hn2.
  unfold ts_parser_parse in *.
  destruct (Nat.le_ge_cases fuel1 fuel2) as [Hle|Hle].
  - rewrite (ts_parser_run_more_fuel _ _ _ _ _ H1 Hn1 _ Hle) in H2. exact H2.
  - rewrite (ts_parser_run_more_fuel _ _ _ _ _ H2 Hn2 _ Hle) in H1.
    symmetry. exact H1.
Qed.

Lemma parses_to_unique :
  forall source t1 t2, parses_to source t1 -> parses_to source t2 -> t1 = t2.
Proof.
  intros source t1 t2 [f1 H1] [f2 H2].
  assert (H : Accepted t1 = Accepted t2)
    by (eapply parse_outcome_unique; eauto; discriminate).
  congruence.
Qed.

Lemma rejects_not_parses :
  forall source, rejects source -> forall tree, ~ parses_to source tree.
Proof.
  intros source [f1 H1] tree [f2 H2].
  destruct (ts_parser_parse f1 source) eqn:E1; try discriminate.
  - assert (H : Unexpected state symbol rest = Accepted tree)
      by (eapply parse_outcome_unique; eauto; discriminate).
    discriminate.
  - assert (H : Unrecognized state rest = Accepted tree)
      by (eapply parse_outcome_unique; eauto; discriminate).
    discriminate.
Qed.

(** ** Structures *)

Lemma three_structures_parse :
  exists tree,
    parses_to three_structures tree
    /\ top_level tree =
       [ structure sym_building_def anon_sym_building_COLON "building:" "Foo";
         structure sym_floor_def anon_sym_floor_COLON "floor:" "Bar";
         structure sym_building_def anon_sym_building_COLON "building:" "Baz" ].
Proof.
  eexists. split.
  - exists 100%nat. vm_compute. reflexivity.
  - vm_compute. reflexivity.
Qed.

(** C1, as stated, fails: the three-line program does not parse to a tree
    with two top-level Buildings of which the first holds one Floor. *)
Lemma C1_nesting_counterexample :
  ~ (exists tree,
       parses_to three_structures tree /\ nests_by_rank tree = true).
Proof.
  intros [tree [Hp Hn]].
  destruct three_structures_parse as [tree' [Hp' _]].
  assert (tree = tree') by (eapply parses_to_unique; eauto). subst tree.
  destruct Hp' as [fuel Hf].
  assert (H : ts_parser_parse 100 three_structures = Accepted tree').
  { eapply parse_outcome_unique with (fuel1 := 100%nat) (fuel2 := fuel);
      [reflexivity | | exact Hf | discriminate].
    vm_compute. discriminate. }
  vm_compute in H. injection H as <-. vm_compute in Hn. discriminate.
Qed.

(** C1, amended: the three-line program parses to three top-level structure
    definitions in source order (Building Foo, Floor Bar, Building Baz);
    each holds its keyword and its name only, so the first Building has no
    Floor child and no statement of its own. *)
Theorem C1_structures_are_flat :
  exists tree,
    parses_to three_structures tree
    /\ top_level tree =
       [ structure sym_building_def anon_sym_building_COLON "building:" "Foo";
         structure sym_floor_def anon_sym_floor_COLON "floor:" "Bar";
         structure sym_building_def anon_sym_building_COLON "building:" "Baz" ]
    /\ List.length (structure_nodes sym_building_def (top_level tree)) = 2%nat
    /\ Forall (fun b => count_nodes sym_floor_def b = 0%nat
                        /\ map subtree_symbol (subtree_children b)
                           = [anon_sym_building_COLON; sym_identifier])
         (structure_nodes sym_building_def (top_level tree)).
Proof.
  eexists. split; [exists 100%nat; vm_compute; reflexivity|].
  split; [vm_compute; reflexivity|].
  split; [vm_compute; reflexivity|].
  vm_compute. repeat constructor.
Qed.


(** ** The checks by rows *)

Lemma forallb_pointwise :
  forall (A : Type) (f g : A -> bool),
    (forall x, f x = g x) -> forall l, forallb f l = forallb g l.
Proof.
  intros A f g H. induction l as [|x l IH]; [reflexivity|].
  cbn [forallb]. rewrite H, IH. reflexivity.
Qed.

Lemma existsb_pointwise :
  forall (A : Type) (f g : A -> bool),
    (forall x, f x = g x) -> forall l, existsb f l = existsb g l.
Proof.
  intros A f g H. induction l as [|x l IH]; [reflexivity|].
  cbn [existsb]. rewrite H, IH. reflexivity.
Qed.

Lemma fold_right_pointwise :
  forall (A B : Type) (f g : B -> A -> A),
    (forall x acc, f x acc = g x acc) ->
    forall a l, fold_right f a l = fold_right g a l.
Proof.
  intros A B f g H a. induction l as [|x l IH]; [reflexivity|].
  cbn [fold_right]. rewrite H, IH. reflexivity.
Qed.

Lemma ts_language_row_lookup :
  forall state symbol,
    ts_language_row state symbol = ts_language_lookup state symbol.
Proof.
  intros state symbol. unfold ts_language_row, ts_language_lookup.
  destruct (LARGE_STATE_COUNT <=? state); reflexivity.
Qed.

Lemma nth_error_numbered :
  forall (A : Type) (f : N -> A) len start n x,
    nth_error (map f (map N.of_nat (seq start len))) n = Some x ->
    x = f (N.of_nat (start + n)).
Proof.
  intros A f len start n x H.
  rewrite !nth_error_map, nth_error_seq in H.
  destruct (Nat.ltb n len); [|discriminate H].
  injection H as <-. reflexivity.
Qed.

Lemma nth_error_in_range :
  forall (A : Type) (l : list A) n x,
    nth_error l n = Some x -> (n < List.length l)%nat.
Proof.
  intros A l n x H. apply nth_error_Some. rewrite H. discriminate.
Qed.

Lemma row_lookup_rows :
  forall state symbol,
    row_lookup table_rows state symbol = ts_language_lookup state symbol.
Proof.
  intros state symbol. unfold row_lookup.
  destruct (nth_error table_rows (N.to_nat state)) as [row|] eqn:E;
    [|reflexivity].
  unfold table_rows, all_states in E.
  apply nth_error_numbered in E. subst row.
  cbn [Nat.add]. rewrite N2Nat.id. apply ts_language_row_lookup.
Qed.

Section SameLookup.

Variable lookup : TSStateId -> TSSymbol -> N.
Hypothesis lookup_ok :
  forall state symbol, lookup state symbol = ts_language_lookup state symbol.

Lemma actions_by_lookup :
  forall state symbol,
    actions_by lookup state symbol = ts_language_actions state symbol.
Proof.
  intros state symbol. unfold actions_by, ts_language_actions.
  rewrite lookup_ok. reflexivity.
Qed.

Lemma next_state_by_lookup :
  forall state symbol,
    next_state_by lookup state symbol = ts_language_next_state state symbol.
Proof.
  intros state symbol. unfold next_state_by, ts_language_next_state.
  rewrite actions_by_lookup, lookup_ok. reflexivity.
Qed.

Lemma targets_by_lookup :
  forall state symbol, targets_by lookup state symbol = targets state symbol.
Proof.
  intros state symbol. unfold targets_by, targets, shift_targets.
  rewrite actions_by_lookup, next_state_by_lookup. reflexivity.
Qed.

Lemma all_edges_by_lookup : all_edges_by lookup = all_edges.
Proof.
  unfold all_edges_by, all_edges. apply flat_map_ext. intros p.
  rewrite targets_by_lookup. reflexivity.
Qed.

Lemma state_reductions_by_lookup :
  forall s, state_reductions_by lookup s = state_reductions s.
Proof.
  intros s. unfold state_reductions_by, state_reductions.
  apply fold_right_pointwise. intros la acc.
  rewrite actions_by_lookup. reflexivity.
Qed.

Lemma shifts_ok_by_lookup : forall s, shifts_ok_by lookup s = shifts_ok s.
Proof.
  intros s. unfold shifts_ok_by, shifts_ok.
  apply forallb_pointwise. intros la. rewrite actions_by_lookup. reflexivity.
Qed.

Lemma reduce_ok_by_lookup :
  forall P E s r, reduce_ok_by lookup P E s r = reduce_ok P E s r.
Proof.
  intros P E s r. unfold reduce_ok_by, reduce_ok. f_equal.
  apply forallb_pointwise. intros p. rewrite next_state_by_lookup.
  reflexivity.
Qed.

Lemma automaton_ok_by_lookup :
  forall P, automaton_ok_by lookup P = automaton_ok P.
Proof.
  intros P. unfold automaton_ok_by, automaton_ok. cbv zeta.
  rewrite all_edges_by_lookup.
  apply forallb_pointwise. intros s.
  rewrite shifts_ok_by_lookup, state_reductions_by_lookup. f_equal.
  apply forallb_pointwise. intros r. apply reduce_ok_by_lookup.
Qed.

Lemma accepts_by_lookup : forall s, accepts_by lookup s = accepts s.
Proof.
  intros s. unfold accepts_by, accepts.
  apply existsb_pointwise. intros la. unfold parse_action.
  rewrite actions_by_lookup. reflexivity.
Qed.

Lemma deterministic_entry_by_lookup :
  forall s la, deterministic_entry_by lookup s la = deterministic_entry s la.
Proof.
  intros s la. unfold deterministic_entry_by, deterministic_entry.
  rewrite actions_by_lookup. reflexivity.
Qed.

End SameLookup.

(** A check on the automaton may be run with the rows found once. *)
Lemma automaton_ok_by_rows :
  forall P,
    (let rows := table_rows in automaton_ok_by (row_lookup rows) P) = true ->
    automaton_ok P = true.
Proof.
  intros P H. cbv zeta in H.
  rewrite (automaton_ok_by_lookup _ row_lookup_rows) in H. exact H.
Qed.

(** ** The parse table is deterministic *)

Lemma entries_deterministic :
  forallb (fun s => forallb (deterministic_entry s) all_tokens) all_states
  = true.
Proof.
  assert (H : (let rows := table_rows in
               forallb
                 (fun s =>
                    forallb (deterministic_entry_by (row_lookup rows) s)
                      all_tokens)
                 all_states) = true)
    by (vm_compute; reflexivity).
  cbv zeta in H. rewrite <- H.
  apply forallb_pointwise. intros s. apply forallb_pointwise. intros la.
  symmetry. apply (deterministic_entry_by_lookup _ row_lookup_rows).
Qed.

(** ** Enumerating the parse states *)

Lemma in_all_states : forall s, s < STATE_COUNT -> In s all_states.
Proof.
  intros s Hs. unfold all_states.
  apply in_map_iff. exists (N.to_nat s). split.
  - apply N2Nat.id.
  - apply in_seq. unfold STATE_COUNT in *. lia.
Qed.

Lemma in_all_symbols : forall s, s < SYMBOL_COUNT -> In s all_symbols.
Proof.
  intros s Hs. unfold all_symbols.
  apply in_map_iff. exists (N.to_nat s). split.
  - apply N2Nat.id.
  - apply in_seq. unfold SYMBOL_COUNT in *. lia.
Qed.

(** ** Blanks before a token *)

Lemma lex_run_skip_blanks :
  forall lex_fn fuel s,
    (forall c, blank c -> lex_fn s false c = NO_TOKEN (SKIP s)) ->
    forall ws input,
      Forall blank ws ->
      lex_run lex_fn fuel s (ws ++ input) [] None
      = lex_run lex_fn fuel s input [] None.
Proof.
  intros lex_fn fuel s Hskip ws input Hws.
  induction Hws as [|c ws Hc Hws IH]; [reflexivity|].
  simpl. rewrite (Hskip c Hc). simpl. exact IH.
Qed.

Lemma error_mode_skips_blanks : skips_blanks (ts_lex_modes ERROR_STATE).
Proof. intros c [-> | ->]; reflexivity. Qed.

Lemma ts_parser_lex_skip_blanks :
  forall s ws input,
    skips_blanks (ts_lex_modes s) ->
    Forall blank ws ->
    ts_parser_lex s (ws ++ input) = ts_parser_lex s input.
Proof.
  intros s ws input Hs Hws. unfold ts_parser_lex, run_lex.
  rewrite (lex_run_skip_blanks ts_lex EOF_FUEL _ Hs ws input Hws).
  rewrite (lex_run_skip_blanks ts_lex EOF_FUEL _ error_mode_skips_blanks
             ws input Hws).
  reflexivity.
Qed.

(** ** Single steps of the parse loop *)

Lemma run_lex_step :
  forall fuel stack input token rest,
    ts_parser_lex (ts_stack_state stack) input = Some (token, rest) ->
    ts_parser_run (S fuel) stack None input
    = ts_parser_run fuel stack (Some token) rest.
Proof. intros fuel stack input token rest H. simpl. rewrite H. reflexivity. Qed.

Lemma run_shift_step :
  forall fuel stack token input next,
    parse_action (ts_stack_state stack) (tok_symbol token) = Some (SHIFT next) ->
    ts_parser_run (S fuel) stack (Some token) input
    = ts_parser_run fuel
        ((next, Leaf (tok_symbol token) (tok_text token)) :: stack) None input.
Proof. intros fuel stack token input next H. simpl. rewrite H. reflexivity. Qed.

Lemma run_reduce_step :
  forall fuel stack token input symbol child_count,
    parse_action (ts_stack_state stack) (tok_symbol token)
    = Some (REDUCE symbol child_count) ->
    ts_parser_run (S fuel) stack (Some token) input
    = ts_parser_run fuel (ts_parser_reduce stack symbol child_count)
        (Some token) input.
Proof.
  intros fuel stack token input symbol child_count H. simpl. rewrite H.
  reflexivity.
Qed.


(** ** Invariants of a lex run *)

Lemma lex_at_eof_step :
  forall lex_fn fuel state tok result,
    lex_at_eof lex_fn (S fuel) state tok result
    = match lex_fn state true 0 with
      | None => NoToken
      | Some (accept, step) =>
        let result' := mark_end accept tok [] result in
        match step with
        | END_STATE => finish result'
        | ADVANCE next => lex_at_eof lex_fn fuel next tok result'
        | SKIP next => lex_at_eof lex_fn fuel next tok result'
        end
      end.
Proof. reflexivity. Qed.

Lemma lex_run_eof :
  forall lex_fn fuel state tok result,
    lex_run lex_fn fuel state [] tok result
    = lex_at_eof lex_fn fuel state tok result.
Proof. reflexivity. Qed.

Lemma lex_run_cons :
  forall lex_fn fuel state c cur tok result,
    lex_run lex_fn fuel state (c :: cur) tok result
    = match lex_fn state false c with
      | None => NoToken
      | Some (accept, step) =>
        let result' := mark_end accept tok (c :: cur) result in
        match step with
        | END_STATE => finish result'
        | ADVANCE next => lex_run lex_fn fuel next cur (c :: tok) result'
        | SKIP next => lex_run lex_fn fuel next cur [] (skip_mark result')
        end
      end.
Proof. reflexivity. Qed.

Section LexInvariant.

Variable lex_fn : TSStateId -> bool -> N -> option lex_case.
Variable inv : TSStateId -> bool.
Variable ok : TSSymbol -> bool.

Hypothesis closed :
  forall s c, inv s = true -> case_ok inv ok (lex_fn s false c) = true.
Hypothesis closed_eof :
  forall s, inv s = true -> case_ok inv ok (lex_fn s true 0) = true.

Lemma mark_end_ok :
  forall accept tok cur result,
    match accept with Some symbol => ok symbol = true | None => True end ->
    mark_symbol_ok ok result ->
    mark_symbol_ok ok (mark_end accept tok cur result).
Proof.
  intros [symbol|] tok cur result Ha Hr; [exact Ha | exact Hr].
Qed.

Lemma skip_mark_ok :
  forall result,
    mark_symbol_ok ok result -> mark_symbol_ok ok (skip_mark result).
Proof. intros [[[symbol text] rest]|] H; exact H. Qed.

Lemma finish_ok :
  forall result,
    mark_symbol_ok ok result -> outcome_symbol_ok ok (finish result).
Proof. intros [[[symbol text] rest]|] H; exact H. Qed.

Lemma case_ok_parts :
  forall accept step,
    case_ok inv ok (Some (accept, step)) = true ->
    match accept with Some symbol => ok symbol = true | None => True end
    /\ match step with
       | ADVANCE next | SKIP next => inv next = true
       | END_STATE => True
       end.
Proof.
  intros accept step H. cbn in H. apply andb_true_iff in H.
  destruct H as [Ha Hs]. split.
  - destruct accept; [exact Ha | exact I].
  - destruct step; try exact Hs; exact I.
Qed.

Lemma lex_at_eof_invariant :
  forall fuel s tok result,
    inv s = true ->
    mark_symbol_ok ok result ->
    outcome_symbol_ok ok (lex_at_eof lex_fn fuel s tok result).
Proof.
  induction fuel as [|fuel IH]; intros s tok result Hs Hr; [exact I|].
  rewrite lex_at_eof_step. pose proof (closed_eof s Hs) as Hc.
  destruct (lex_fn s true 0) as [[accept step]|]; [|exact I].
  destruct (case_ok_parts _ _ Hc) as [Ha Hn].
  pose proof (mark_end_ok accept tok [] result Ha Hr) as Hm.
  cbv zeta. destruct step as [next|next|].
  - apply IH; assumption.
  - apply IH; assumption.
  - apply finish_ok. exact Hm.
Qed.

Lemma lex_run_invariant :
  forall fuel cur s tok result,
    inv s = true ->
    mark_symbol_ok ok result ->
    outcome_symbol_ok ok (lex_run lex_fn fuel s cur tok result).
Proof.
  intros fuel. induction cur as [|c cur IH]; intros s tok result Hs Hr.
  - rewrite lex_run_eof. apply lex_at_eof_invariant; assumption.
  - rewrite lex_run_cons. pose proof (closed s c Hs) as Hc.
    destruct (lex_fn s false c) as [[accept step]|]; [|exact I].
    destruct (case_ok_parts _ _ Hc) as [Ha Hn].
    pose proof (mark_end_ok accept tok (c :: cur) result Ha Hr) as Hm.
    cbv zeta. destruct step as [next|next|].
    + apply IH; assumption.
    + apply IH; [assumption | apply skip_mark_ok; exact Hm].
    + apply finish_ok. exact Hm.
Qed.

End LexInvariant.

(** ** Characters above 128 *)

Lemma step_eqb_eq : forall a b, step_eqb a b = true -> a = b.
Proof.
  intros [x|x|] [y|y|] H; try discriminate H; try reflexivity;
    apply N.eqb_eq in H; subst; reflexivity.
Qed.

Lemma case_eqb_eq : forall a b, case_eqb a b = true -> a = b.
Proof.
  intros [[[x|] s]|] [[[y|] t]|] H; try discriminate H; try reflexivity.
  - cbn in H. apply andb_true_iff in H. destruct H as [Hx Hs].
    apply N.eqb_eq in Hx. apply step_eqb_eq in Hs. subst. reflexivity.
  - cbn in H. apply step_eqb_eq in H. subst. reflexivity.
Qed.

Lemma in_range_list :
  forall n c, c < N.of_nat n -> In c (map N.of_nat (seq 0 n)).
Proof.
  intros n c H. apply in_map_iff. exists (N.to_nat c). split.
  - apply N2Nat.id.
  - apply in_seq. lia.
Qed.

Lemma in_lex_states : forall s, s < LEX_STATE_COUNT -> In s lex_states.
Proof. intros s H. apply in_range_list. exact H. Qed.

Lemma in_keyword_states :
  forall s, s < KEYWORD_STATE_COUNT -> In s keyword_states.
Proof. intros s H. apply in_range_list. exact H. Qed.

Lemma in_low_chars : forall c, c <= 128 -> In c low_chars.
Proof. intros c H. apply in_range_list. lia. Qed.

Lemma in_bytes : forall c, c < 256 -> In c bytes.
Proof. intros c H. apply in_range_list. exact H. Qed.

Lemma in_first_bytes : forall c, c < 128 -> In c (map N.of_nat (seq 0 128)).
Proof. intros c H. apply in_range_list. exact H. Qed.

Section Uniform.

Variable lex_fn : TSStateId -> bool -> N -> option lex_case.
Variable states : list TSStateId.

Hypothesis above : forall q, uniform_above lex_fn states q = true.
Hypothesis upper_half : uniform_upper_half lex_fn states = true.

Lemma uniform_from_128 :
  forall s c,
    In s states -> 128 <= c -> lex_fn s false c = lex_fn s false 128.
Proof.
  intros s c Hs Hc. destruct (N.lt_ge_cases c 256) as [Hlt | Hge].
  - pose proof (proj1 (forallb_forall _ _) upper_half s Hs) as H.
    assert (Hlow : c - 128 < 128) by lia.
    pose proof (proj1 (forallb_forall _ _) H (c - 128)
                  (in_first_bytes (c - 128) Hlow)) as H'.
    cbv beta in H'. replace (128 + (c - 128)) with c in H' by lia.
    apply case_eqb_eq. exact H'.
  - pose proof (N.div_mod' c 256) as Hdm.
    pose proof (N.mod_lt c 256 ltac:(discriminate)) as Hm.
    destruct (c / 256) as [|q] eqn:Eq.
    + exfalso. rewrite N.mul_0_r in Hdm. lia.
    + pose proof (proj1 (forallb_forall _ _) (above q) s Hs) as H.
      pose proof (proj1 (forallb_forall _ _) H (c mod 256)
                    (in_bytes (c mod 256) Hm)) as H'.
      cbv beta in H'.
      change (N.pos (256 * q)) with (256 * N.pos q) in H'.
      rewrite <- Hdm in H'. apply case_eqb_eq. exact H'.
Qed.

Lemma closed_by_check :
  forall inv ok,
    (forall s, inv s = true -> In s states) ->
    closed_under lex_fn states inv ok = true ->
    (forall s c, inv s = true -> case_ok inv ok (lex_fn s false c) = true)
    /\ (forall s, inv s = true -> case_ok inv ok (lex_fn s true 0) = true).
Proof.
  intros inv ok Hin Hcheck.
  assert (H : forall s, inv s = true ->
              case_ok inv ok (lex_fn s true 0) = true
              /\ forall c, In c low_chars ->
                           case_ok inv ok (lex_fn s false c) = true).
  { intros s Hs.
    pose proof (proj1 (forallb_forall _ _) Hcheck s (Hin s Hs)) as H.
    cbv beta in H. rewrite Hs in H. cbn [negb orb] in H.
    apply andb_true_iff in H. destruct H as [He Hc]. split; [exact He|].
    exact (proj1 (forallb_forall _ _) Hc). }
  split.
  - intros s c Hs. destruct (H s Hs) as [_ Hc].
    destruct (N.le_gt_cases c 128) as [Hle | Hgt].
    + apply Hc. apply in_low_chars. exact Hle.
    + rewrite (uniform_from_128 s c (Hin s Hs)) by lia.
      apply Hc. apply in_low_chars. lia.
  - intros s Hs. exact (proj1 (H s Hs)).
Qed.

End Uniform.

Lemma ts_lex_uniform_above :
  forall q, uniform_above ts_lex lex_states q = true.
Proof. intros q. vm_compute. reflexivity. Qed.

Lemma ts_lex_uniform_upper_half : uniform_upper_half ts_lex lex_states = true.
Proof. vm_compute. reflexivity. Qed.

Lemma ts_lex_keywords_uniform_above :
  forall q, uniform_above ts_lex_keywords keyword_states q = true.
Proof. intros q. vm_compute. reflexivity. Qed.

Lemma ts_lex_keywords_uniform_upper_half :
  uniform_upper_half ts_lex_keywords keyword_states = true.
Proof. vm_compute. reflexivity. Qed.

(** A set of states of [ts_lex] that is closed under the automaton, checked
    on the characters up to 128, gives an invariant of every lex run. *)
Lemma ts_lex_run_invariant :
  forall inv ok,
    (forall s, inv s = true -> s < LEX_STATE_COUNT) ->
    closed_under ts_lex lex_states inv ok = true ->
    forall fuel cur s tok result,
      inv s = true ->
      mark_symbol_ok ok result ->
      outcome_symbol_ok ok (lex_run ts_lex fuel s cur tok result).
Proof.
  intros inv ok Hbound Hcheck.
  destruct (closed_by_check ts_lex lex_states ts_lex_uniform_above
              ts_lex_uniform_upper_half inv ok
              (fun s H => in_lex_states s (Hbound s H)) Hcheck)
    as [Hc He].
  intros fuel cur s tok result.
  apply lex_run_invariant; assumption.
Qed.

Lemma ts_lex_keywords_run_invariant :
  forall inv ok,
    (forall s, inv s = true -> s < KEYWORD_STATE_COUNT) ->
    closed_under ts_lex_keywords keyword_states inv ok = true ->
    forall fuel cur s tok result,
      inv s = true ->
      mark_symbol_ok ok result ->
      outcome_symbol_ok ok (lex_run ts_lex_keywords fuel s cur tok result).
Proof.
  intros inv ok Hbound Hcheck.
  destruct (closed_by_check ts_lex_keywords keyword_states
              ts_lex_keywords_uniform_above
              ts_lex_keywords_uniform_upper_half inv ok
              (fun s H => in_keyword_states s (Hbound s H)) Hcheck)
    as [Hc He].
  intros fuel cur s tok result.
  apply lex_run_invariant; assumption.
Qed.

(** ** The [do:] line *)

Ltac each_state tac :=
  let l := eval vm_compute in all_states in
  change all_states with l;
  repeat (apply Forall_cons; [ tac | ]);
  apply Forall_nil.

Lemma do_colon_in_statement_position :
  forall s rest,
    s < STATE_COUNT ->
    statement_position s = true ->
    ts_parser_lex s (codes "do:" ++ rest)
    = Some (word anon_sym_do_COLON "do:", rest).
Proof.
  intros s rest Hs. apply in_all_states in Hs. revert rest.
  assert (H : Forall
                (fun s => forall rest,
                     statement_position s = true ->
                     ts_parser_lex s (codes "do:" ++ rest)
                     = Some (word anon_sym_do_COLON "do:", rest))
                all_states).
  { each_state
      ltac:(intros rest Hpos; vm_compute in Hpos;
            first [ discriminate Hpos
                  | destruct rest; vm_compute; reflexivity ]). }
  intros rest. exact (proj1 (Forall_forall _ _) H s Hs rest).
Qed.

Lemma statement_lex_state_skips_blanks : skips_blanks 262.
Proof. intros c [-> | ->]; reflexivity. Qed.

(** A source that is one [do:] line is accepted, with one top-level
    [section_marker]. *)
Lemma do_line_alone :
  forall before after newline,
    Forall blank before -> Forall blank after ->
    exists tree,
      parses_to (do_line before after newline) tree
      /\ top_level tree
         = [Node sym_section_marker [leaf anon_sym_do_COLON "do:"]].
Proof.
  intros before after newline Hb Ha.
  assert (Hstart :
    forall fuel,
      ts_parser_parse (S (S (S fuel))) (do_line before after newline)
      = match ts_parser_lex 77 (if newline then NL else []) with
        | Some (token, rest) =>
          ts_parser_run fuel
            [(77, Leaf anon_sym_do_COLON (codes "do:"))] (Some token) rest
        | None => Unrecognized 77 (after ++ (if newline then NL else []))
        end).
  { intros fuel. unfold ts_parser_parse, do_line.
    rewrite run_lex_step
      with (token := word anon_sym_do_COLON "do:")
           (rest := after ++ (if newline then NL else [])).
    2:{ rewrite ts_parser_lex_skip_blanks;
          [ apply do_colon_in_statement_position; reflexivity
          | exact statement_lex_state_skips_blanks
          | exact Hb ]. }
    rewrite run_shift_step with (next := 77) by reflexivity.
    change (ts_parser_run (S fuel)
              ((77, Leaf (tok_symbol (word anon_sym_do_COLON "do:"))
                      (tok_text (word anon_sym_do_COLON "do:"))) :: [])
              None (after ++ (if newline then NL else [])))
      with (match ts_parser_lex 77 (after ++ (if newline then NL else [])) with
            | Some (token, rest) =>
              ts_parser_run fuel
                [(77, Leaf anon_sym_do_COLON (codes "do:"))] (Some token) rest
            | None => Unrecognized 77 (after ++ (if newline then NL else []))
            end).
    rewrite ts_parser_lex_skip_blanks;
      [ reflexivity | exact statement_lex_state_skips_blanks | exact Ha ]. }
  destruct newline; eexists; (split; [exists 30%nat; rewrite Hstart|]);
    vm_compute; reflexivity.
Qed.
(** ** Operator grouping *)

Ltac parse_by_computation :=
  eexists; split;
  [ exists 200%nat; vm_compute; reflexivity | vm_compute; reflexivity ].

Ltac each_element :=
  repeat (apply Forall_cons; [ | ]); try apply Forall_nil.

Lemma parses_operand_unique :
  forall source e1 e2,
    parses_operand source e1 -> parses_operand source e2 -> e1 = e2.
Proof.
  intros source e1 e2 [t1 [Hp1 Ho1]] [t2 [Hp2 Ho2]].
  assert (t1 = t2) by (eapply parses_to_unique; eauto).
  subst. congruence.
Qed.

Lemma parses_operand_other :
  forall source e1 e2,
    parses_operand source e1 -> e1 <> e2 -> ~ parses_operand source e2.
Proof.
  intros source e1 e2 H1 Hne H2. apply Hne.
  eapply parses_operand_unique; eauto.
Qed.

(** Every pair of binary operators groups to the left. *)
Lemma binary_operators_group_left :
  Forall
    (fun ops =>
       parses_operand (two_operators ops)
         (binary (snd ops) (binary (fst ops) (ident "a") (ident "b"))
            (ident "c")))
    (list_prod binary_operators binary_operators).
Proof.
  let l := eval vm_compute in (list_prod binary_operators binary_operators) in
  change (list_prod binary_operators binary_operators) with l.
  repeat (apply Forall_cons; [ parse_by_computation | ]).
  apply Forall_nil.
Qed.

(** C2, as stated, fails: on its own [2 + 3 * 4] is not a program, and
    after no statement opening does it parse to
    [Binary(+, 2, Binary( *, 3, 4))]. *)
Lemma C2_precedence_counterexample :
  rejects (codes "2 + 3 * 4")
  /\ Forall
       (fun opening =>
          ~ parses_operand (codes opening ++ codes "2 + 3 * 4")
              (binary anon_sym_PLUS (num "2")
                 (binary anon_sym_STAR (num "3") (num "4"))))
       expression_positions.
Proof.
  split.
  - exists 10%nat. vm_compute. reflexivity.
  - unfold expression_positions.
    repeat (apply Forall_cons;
            [ apply parses_operand_other
                with (e1 := binary anon_sym_STAR
                              (binary anon_sym_PLUS (num "2") (num "3"))
                              (num "4"));
              [ parse_by_computation | vm_compute; discriminate ]
            | ]).
    apply Forall_nil.
Qed.

(** C4: [not a is equal to b] parses to
    [Binary(is_equal_to, Unary(not, a), b)] in every expression position,
    and likewise for each unary operator before each binary operator. *)
Theorem C4_unary_binds_tighter :
  Forall
    (fun opening =>
       parses_operand (codes opening ++ codes "not a is equal to b")
         (Binary anon_sym_isequalto "is equal to"
            (Unary anon_sym_not "not" (ident "a")) (ident "b")))
    expression_positions
  /\ Forall
       (fun ops =>
          parses_operand (unary_then_binary ops)
            (binary (snd ops) (unary (fst ops) (ident "a")) (ident "b")))
       (list_prod unary_operators binary_operators).
Proof.
  split.
  - unfold expression_positions.
    repeat (apply Forall_cons; [ parse_by_computation | ]).
    apply Forall_nil.
  - let l := eval vm_compute in (list_prod unary_operators binary_operators) in
    change (list_prod unary_operators binary_operators) with l.
    repeat (apply Forall_cons; [ parse_by_computation | ]).
    apply Forall_nil.
Qed.

(** ** String escapes *)

Lemma ts_lex_20 :
  forall eof c,
    ts_lex 20 eof c
    = NO_TOKEN (if c =? 34 then ADVANCE 441 else
                if c =? BACKSLASH then ADVANCE 253 else
                if (c =? 9) || (c =? 32) then ADVANCE 442 else
                if negb (c =? 0) then ADVANCE 443 else END_STATE).
Proof. reflexivity. Qed.

Lemma ts_lex_0_backslash : ts_lex 0 false BACKSLASH = NO_TOKEN (ADVANCE 253).
Proof. reflexivity. Qed.

Lemma ts_lex_253 :
  forall eof c,
    ts_lex 253 eof c
    = NO_TOKEN (if is_escape c then ADVANCE 444 else END_STATE).
Proof. reflexivity. Qed.

Lemma ts_lex_441 :
  forall eof c, ts_lex 441 eof c = ACCEPT_TOKEN anon_sym_DQUOTE END_STATE.
Proof. reflexivity. Qed.

Lemma ts_lex_442 :
  forall eof c,
    ts_lex 442 eof c
    = ACCEPT_TOKEN aux_sym_string_content_token1
        (if (c =? 9) || (c =? 32) then ADVANCE 442 else
         if negb (c =? 0) && negb (c =? 34) && negb (c =? BACKSLASH)
         then ADVANCE 443 else END_STATE).
Proof. reflexivity. Qed.

Lemma ts_lex_443 :
  forall eof c,
    ts_lex 443 eof c
    = ACCEPT_TOKEN aux_sym_string_content_token1
        (if negb (c =? 0) && negb (c =? 34) && negb (c =? BACKSLASH)
         then ADVANCE 443 else END_STATE).
Proof. reflexivity. Qed.

Lemma ts_lex_444 :
  forall eof c, ts_lex 444 eof c = ACCEPT_TOKEN sym_escape_sequence END_STATE.
Proof. reflexivity. Qed.

(** After a backslash: an escape token of two characters, or nothing. *)
Lemma lex_run_253 :
  forall cur tok result,
    lex_run ts_lex EOF_FUEL 253 cur tok result
    = match cur with
      | c :: rest =>
        if is_escape c
        then Lexed (sym_escape_sequence, rev (c :: tok), rest)
        else finish result
      | [] => finish result
      end.
Proof.
  intros [|c rest] tok result.
  - reflexivity.
  - rewrite lex_run_cons. rewrite ts_lex_253. unfold NO_TOKEN.
    destruct (is_escape c); [|reflexivity].
    cbn [mark_end]. destruct rest as [|c' rest]; reflexivity.
Qed.

Lemma lex_backslash :
  forall s c rest,
    string_lex_state s ->
    run_lex s (BACKSLASH :: c :: rest)
    = if is_escape c
      then Lexed (sym_escape_sequence, [BACKSLASH; c], rest)
      else NoToken.
Proof.
  intros s c rest [-> | ->]; unfold run_lex; rewrite lex_run_cons.
  - rewrite ts_lex_20. change (BACKSLASH =? 34) with false.
    change (BACKSLASH =? BACKSLASH) with true. unfold NO_TOKEN. cbn [mark_end].
    rewrite lex_run_253. reflexivity.
  - rewrite ts_lex_0_backslash. unfold NO_TOKEN. cbn [mark_end].
    rewrite lex_run_253. reflexivity.
Qed.

Lemma lex_backslash_alone :
  forall s, string_lex_state s -> run_lex s [BACKSLASH] = NoToken.
Proof. intros s [-> | ->]; reflexivity. Qed.

(** The content automaton (states 442 and 443) always ends in a content
    token, and never takes a backslash into it. *)
Lemma content_condition :
  forall c,
    negb (c =? 0) && negb (c =? 34) && negb (c =? BACKSLASH) = true ->
    c <> BACKSLASH.
Proof.
  intros c H. apply andb_true_iff in H. destruct H as [_ H].
  apply negb_true_iff in H. apply N.eqb_neq in H. exact H.
Qed.

Lemma blank_condition :
  forall c, (c =? 9) || (c =? 32) = true -> c <> BACKSLASH.
Proof.
  intros c H. apply orb_true_iff in H.
  destruct H as [H | H]; apply N.eqb_eq in H; subst c; discriminate.
Qed.

Lemma not_in_cons :
  forall (c : N) tok, c <> BACKSLASH -> ~ In BACKSLASH tok ->
                      ~ In BACKSLASH (c :: tok).
Proof. intros c tok Hc Htok [E | Hin]; [congruence | exact (Htok Hin)]. Qed.

Lemma not_in_rev :
  forall tok : list N, ~ In BACKSLASH tok -> ~ In BACKSLASH (rev tok).
Proof. intros tok Htok Hin. apply in_rev in Hin. exact (Htok Hin). Qed.

Lemma content_run :
  forall cur s tok result,
    s = 442 \/ s = 443 ->
    ~ In BACKSLASH tok ->
    exists text rest,
      lex_run ts_lex EOF_FUEL s cur tok result
      = Lexed (aux_sym_string_content_token1, text, rest)
      /\ ~ In BACKSLASH text.
Proof.
  induction cur as [|c cur IH]; intros s tok result Hs Htok.
  - exists (rev tok), []. split; [|apply not_in_rev; exact Htok].
    destruct Hs as [-> | ->]; reflexivity.
  - rewrite lex_run_cons. destruct Hs as [-> | ->].
    + rewrite ts_lex_442. unfold ACCEPT_TOKEN.
      destruct ((c =? 9) || (c =? 32)) eqn:Eb.
      * apply IH; [left; reflexivity|].
        apply not_in_cons; [exact (blank_condition c Eb) | exact Htok].
      * destruct (negb (c =? 0) && negb (c =? 34) && negb (c =? BACKSLASH))
          eqn:Ec.
        -- apply IH; [right; reflexivity|].
           apply not_in_cons; [exact (content_condition c Ec) | exact Htok].
        -- exists (rev tok), (c :: cur).
           split; [reflexivity | apply not_in_rev; exact Htok].
    + rewrite ts_lex_443. unfold ACCEPT_TOKEN.
      destruct (negb (c =? 0) && negb (c =? 34) && negb (c =? BACKSLASH))
        eqn:Ec.
      * apply IH; [right; reflexivity|].
        apply not_in_cons; [exact (content_condition c Ec) | exact Htok].
      * exists (rev tok), (c :: cur).
        split; [reflexivity | apply not_in_rev; exact Htok].
Qed.

Lemma clean_after_backslash :
  forall cur, clean_outcome (lex_run ts_lex EOF_FUEL 253 cur [BACKSLASH] None).
Proof.
  intros cur. rewrite lex_run_253.
  destruct cur as [|c cur]; [exact I|].
  destruct (is_escape c); [|exact I].
  split; discriminate.
Qed.

Lemma string_state_clean :
  forall input,
    clean_outcome (run_lex 20 input)
    /\ ((forall m, run_lex 20 input <> Lexed m) ->
        clean_outcome (run_lex 0 input)).
Proof.
  intros [|c cur].
  - split; [exact I|]. intros _. split; discriminate.
  - unfold run_lex at 1 2. rewrite !lex_run_cons. rewrite ts_lex_20. unfold NO_TOKEN.
    cbn [mark_end].
    destruct (c =? 34) eqn:E1.
    { split.
      - destruct cur; split; discriminate.
      - intros Hm. exfalso. destruct cur; eapply Hm; reflexivity. }
    destruct (c =? BACKSLASH) eqn:E2.
    { apply N.eqb_eq in E2. subst c. split.
      - apply clean_after_backslash.
      - intros _. unfold run_lex. rewrite lex_run_cons.
        rewrite ts_lex_0_backslash. unfold NO_TOKEN. cbn [mark_end].
        apply clean_after_backslash. }
    assert (Hc : c <> BACKSLASH) by (apply N.eqb_neq; exact E2).
    assert (Htok : ~ In BACKSLASH [c])
      by (apply not_in_cons; [exact Hc | intros []]).
    destruct ((c =? 9) || (c =? 32)) eqn:E3.
    { destruct (content_run cur 442 [c] None (or_introl eq_refl) Htok)
        as [text [rest [E Hclean]]].
      rewrite E. split.
      - split; [discriminate | intros _; exact Hclean].
      - intros Hm. exfalso. eapply Hm. reflexivity. }
    destruct (negb (c =? 0)) eqn:E4.
    { destruct (content_run cur 443 [c] None (or_intror eq_refl) Htok)
        as [text [rest [E Hclean]]].
      rewrite E. split.
      - split; [discriminate | intros _; exact Hclean].
      - intros Hm. exfalso. eapply Hm. reflexivity. }
    apply negb_false_iff in E4. apply N.eqb_eq in E4. subst c.
    split; [exact I|]. intros _. exact I.
Qed.

Lemma keyword_or_word_plain :
  forall s symbol text rest,
    symbol <> sym_identifier ->
    keyword_or_word s (symbol, text, rest) = (plain_token symbol text, rest).
Proof.
  intros s symbol text rest H. unfold keyword_or_word.
  apply N.eqb_neq in H. unfold keyword_capture_token. rewrite H. reflexivity.
Qed.

Lemma string_positions :
  forall s, s < STATE_COUNT -> string_position s = true -> ts_lex_modes s = 20.
Proof.
  intros s Hs. apply in_all_states in Hs. revert s Hs.
  apply (proj1 (Forall_forall
                  (fun s => string_position s = true -> ts_lex_modes s = 20)
                  all_states)).
  each_state
    ltac:(intros Hpos; vm_compute in Hpos;
          first [ discriminate Hpos | reflexivity ]).
Qed.

(** C7: inside a string literal a backslash followed by one of the five
    characters double quote, backslash, [n], [r], [t] is lexed as one
    escape-sequence token of two characters; followed by any other
    character, or by the end of input, no token is found (a lexical
    error); and a content token never holds a backslash. *)
Theorem C7_string_escapes :
  forall s,
    s < STATE_COUNT ->
    string_position s = true ->
    (forall c rest,
        ts_parser_lex s (BACKSLASH :: c :: rest)
        = if is_escape c
          then Some (plain_token sym_escape_sequence [BACKSLASH; c], rest)
          else None)
    /\ ts_parser_lex s [BACKSLASH] = None
    /\ (forall input token rest,
           ts_parser_lex s input = Some (token, rest) ->
           tok_symbol token = aux_sym_string_content_token1 ->
           ~ In BACKSLASH (tok_text token)).
Proof.
  intros s Hs Hpos. pose proof (string_positions s Hs Hpos) as Hmode.
  unfold ts_parser_lex. rewrite Hmode.
  change (ts_lex_modes ERROR_STATE) with 0.
  split; [|split].
  - intros c rest.
    rewrite (lex_backslash 20 c rest (or_introl eq_refl)).
    rewrite (lex_backslash 0 c rest (or_intror eq_refl)).
    destruct (is_escape c); [|reflexivity].
    rewrite keyword_or_word_plain by discriminate. reflexivity.
  - reflexivity.
  - intros input token rest H Hsym.
    destruct (string_state_clean input) as [H20 H0].
    destruct (run_lex 20 input) as [[[symbol text] rest']| |] eqn:E20.
    + destruct H20 as [Hid Hclean].
      rewrite keyword_or_word_plain in H by exact Hid.
      injection H as <- <-. cbn in Hsym |- *. exact (Hclean Hsym).
    + specialize (H0 ltac:(discriminate)).
      destruct (run_lex 0 input) as [[[symbol text] rest']| |];
        try discriminate H.
      destruct H0 as [Hid Hclean].
      rewrite keyword_or_word_plain in H by exact Hid.
      injection H as <- <-. cbn in Hsym |- *. exact (Hclean Hsym).
    + specialize (H0 ltac:(discriminate)).
      destruct (run_lex 0 input) as [[[symbol text] rest']| |];
        try discriminate H.
      destruct H0 as [Hid Hclean].
      rewrite keyword_or_word_plain in H by exact Hid.
      injection H as <- <-. cbn in Hsym |- *. exact (Hclean Hsym).
Qed.

Lemma C7_string_escapes_witness :
  ts_parser_lex 123 (BACKSLASH :: chr "n" :: codes "x")
  = Some (plain_token sym_escape_sequence [BACKSLASH; chr "n"], codes "x")
  /\ ts_parser_lex 123 (BACKSLASH :: chr "q" :: codes "x") = None.
Proof.
  destruct (C7_string_escapes 123 ltac:(reflexivity) ltac:(reflexivity))
    as [H _].
  split.
  - exact (H (chr "n") (codes "x")).
  - exact (H (chr "q") (codes "x")).
Defined.

(** ** Numeric literals *)

Lemma ts_lex_254 :
  forall eof c,
    ts_lex 254 eof c = NO_TOKEN (if is_digit c then ADVANCE 439 else END_STATE).
Proof. reflexivity. Qed.

Lemma ts_lex_255 :
  forall eof c,
    ts_lex 255 eof c = NO_TOKEN (if is_digit c then ADVANCE 440 else END_STATE).
Proof. reflexivity. Qed.

Lemma ts_lex_439 :
  forall eof c,
    ts_lex 439 eof c
    = ACCEPT_TOKEN sym_number
        (if c =? DOT then ADVANCE 255 else
         if is_digit c then ADVANCE 439 else END_STATE).
Proof. reflexivity. Qed.

Lemma ts_lex_440 :
  forall eof c,
    ts_lex 440 eof c
    = ACCEPT_TOKEN sym_number (if is_digit c then ADVANCE 440 else END_STATE).
Proof. reflexivity. Qed.

Lemma run_440 :
  forall cur tok result,
    lex_run ts_lex EOF_FUEL 440 cur tok result
    = let (digits, rest) := span_digits cur in
      Lexed (sym_number, rev tok ++ digits, rest).
Proof.
  induction cur as [|c cur IH]; intros tok result.
  - cbn [span_digits]. rewrite app_nil_r. reflexivity.
  - rewrite lex_run_cons, ts_lex_440. unfold ACCEPT_TOKEN. cbn [span_digits].
    destruct (is_digit c).
    + rewrite IH. destruct (span_digits cur) as [digits rest].
      cbn [rev]. rewrite <- app_assoc. reflexivity.
    + cbn [mark_end finish]. rewrite app_nil_r. reflexivity.
Qed.

Lemma run_255 :
  forall cur tok result,
    lex_run ts_lex EOF_FUEL 255 cur tok result
    = match cur with
      | d :: cur' =>
        if is_digit d
        then lex_run ts_lex EOF_FUEL 440 cur' (d :: tok) result
        else finish result
      | [] => finish result
      end.
Proof.
  intros [|d cur] tok result; [reflexivity|].
  rewrite lex_run_cons, ts_lex_255. unfold NO_TOKEN.
  destruct (is_digit d); reflexivity.
Qed.

Lemma run_439 :
  forall cur tok result,
    lex_run ts_lex EOF_FUEL 439 cur tok result
    = let (digits, rest) := span_digits cur in
      let (frac, rest') := fraction rest in
      Lexed (sym_number, rev tok ++ digits ++ frac, rest').
Proof.
  induction cur as [|c cur IH]; intros tok result.
  - cbn [span_digits fraction app]. rewrite app_nil_r. reflexivity.
  - rewrite lex_run_cons, ts_lex_439. unfold ACCEPT_TOKEN.
    destruct (c =? DOT) eqn:Edot.
    + apply N.eqb_eq in Edot. subst c.
      change (span_digits (DOT :: cur)) with (@nil N, DOT :: cur).
      cbv zeta. cbn [mark_end]. rewrite run_255.
      unfold fraction. rewrite N.eqb_refl.
      destruct cur as [|d cur].
      * cbn [span_digits finish app]. rewrite app_nil_r. reflexivity.
      * cbn [span_digits]. destruct (is_digit d).
        -- rewrite run_440. destruct (span_digits cur) as [digits rest].
           cbn [rev app]. rewrite <- !app_assoc. reflexivity.
        -- cbn [finish app]. rewrite app_nil_r. reflexivity.
    + cbn [span_digits]. destruct (is_digit c).
      * rewrite IH. destruct (span_digits cur) as [digits rest].
        destruct (fraction rest) as [frac rest'].
        cbn [rev app]. rewrite <- !app_assoc. reflexivity.
      * cbv zeta. cbn [mark_end finish]. unfold fraction. rewrite Edot.
        cbn [app]. rewrite app_nil_r. reflexivity.
Qed.

Lemma run_254 :
  forall cur tok result,
    lex_run ts_lex EOF_FUEL 254 cur tok result
    = match cur with
      | d :: cur' =>
        if is_digit d
        then lex_run ts_lex EOF_FUEL 439 cur' (d :: tok) result
        else finish result
      | [] => finish result
      end.
Proof.
  intros [|d cur] tok result; [reflexivity|].
  rewrite lex_run_cons, ts_lex_254. unfold NO_TOKEN.
  destruct (is_digit d); reflexivity.
Qed.

(** *** The lex states that start a number *)

Lemma number_positions :
  forall s,
    s < STATE_COUNT -> number_position s = true ->
    number_lex_state (ts_lex_modes s).
Proof.
  intros s Hs. apply in_all_states in Hs. revert s Hs.
  apply (proj1 (Forall_forall
                  (fun s => number_position s = true ->
                            number_lex_state (ts_lex_modes s))
                  all_states)).
  each_state
    ltac:(intros Hpos; vm_compute in Hpos;
          first [ discriminate Hpos
                | left; reflexivity
                | right; reflexivity ]).
Qed.

Lemma number_start_low :
  forall m, number_lex_state m ->
            forallb (number_start m) low_chars = true.
Proof. intros m [-> | ->]; vm_compute; reflexivity. Qed.

Lemma high_char_tests :
  forall c, 128 <= c ->
            is_blank c = false /\ is_digit c = false /\ (c =? MINUS) = false.
Proof.
  intros c H. unfold is_blank, is_digit, MINUS, chr. cbn [N_of_ascii].
  repeat split.
  - apply orb_false_iff. split; apply N.eqb_neq; lia.
  - apply andb_false_iff. right. apply N.leb_gt. cbn. lia.
  - apply N.eqb_neq. cbn. lia.
Qed.

Lemma number_start_all :
  forall m c, number_lex_state m -> number_start m c = true.
Proof.
  intros m c Hm.
  pose proof (proj1 (forallb_forall _ _) (number_start_low m Hm)) as Hlow.
  destruct (N.le_gt_cases c 128) as [Hle | Hgt].
  - apply Hlow. apply in_low_chars. exact Hle.
  - assert (H128 : 128 <= c) by lia.
    destruct (high_char_tests c H128) as [Hb [Hd Hmi]].
    assert (H128' : 128 <= 128) by lia.
    destruct (high_char_tests 128 H128') as [Hb' [Hd' Hmi']].
    pose proof (Hlow 128 (in_low_chars 128 H128')) as H.
    unfold number_start in H |- *.
    rewrite Hb, Hd, Hmi. rewrite Hb', Hd', Hmi' in H.
    rewrite (uniform_from_128 ts_lex lex_states ts_lex_uniform_above
               ts_lex_uniform_upper_half m c); [exact H | | exact H128].
    apply in_lex_states. destruct Hm as [-> | ->]; reflexivity.
Qed.

Lemma non_number_closed :
  closed_under ts_lex lex_states non_number_state not_number = true.
Proof. vm_compute. reflexivity. Qed.

Lemma non_number_state_bound :
  forall s, non_number_state s = true -> s < LEX_STATE_COUNT.
Proof.
  intros s H. unfold non_number_state in H. apply andb_true_iff in H.
  destruct H as [H _]. apply N.ltb_lt. exact H.
Qed.

(** A run from a state that is not on the way to a number never ends in a
    number token. *)
Lemma no_number_from :
  forall cur s tok result,
    non_number_state s = true ->
    mark_symbol_ok not_number result ->
    outcome_symbol_ok not_number (lex_run ts_lex EOF_FUEL s cur tok result).
Proof.
  intros cur s tok result.
  apply (ts_lex_run_invariant non_number_state not_number
           non_number_state_bound non_number_closed).
Qed.

Lemma keyword_closed :
  closed_under ts_lex_keywords keyword_states keyword_state not_number = true.
Proof. vm_compute. reflexivity. Qed.

Lemma no_number_keyword :
  forall input,
    outcome_symbol_ok not_number (run_lex_keywords input).
Proof.
  intros input. unfold run_lex_keywords.
  apply (ts_lex_keywords_run_invariant keyword_state not_number);
    [ intros s H; apply N.ltb_lt; exact H
    | exact keyword_closed
    | reflexivity
    | exact I ].
Qed.

Lemma digit_not_special :
  forall c, is_digit c = true ->
            is_blank c = false /\ (c =? MINUS) = false /\ (c =? DOT) = false.
Proof.
  intros c H. unfold is_digit in H. apply andb_true_iff in H.
  destruct H as [H1 H2]. apply N.leb_le in H1. apply N.leb_le in H2.
  cbn in H1, H2. unfold is_blank, MINUS, DOT, chr. cbn [N_of_ascii].
  repeat split.
  - apply orb_false_iff. split; apply N.eqb_neq; lia.
  - apply N.eqb_neq. cbn. lia.
  - apply N.eqb_neq. cbn. lia.
Qed.

Lemma start_on_digit :
  forall m c,
    number_lex_state m -> is_digit c = true ->
    ts_lex m false c = NO_TOKEN (ADVANCE 439).
Proof.
  intros m c Hm Hd. pose proof (number_start_all m c Hm) as H.
  unfold number_start in H.
  destruct (digit_not_special c Hd) as [Hb _]. rewrite Hb, Hd in H.
  apply case_eqb_eq. exact H.
Qed.

Lemma start_on_minus :
  forall m, number_lex_state m ->
            ts_lex m false MINUS = NO_TOKEN (ADVANCE 254).
Proof. intros m [-> | ->]; reflexivity. Qed.

Lemma start_on_blank :
  forall m c,
    number_lex_state m -> is_blank c = true ->
    ts_lex m false c = NO_TOKEN (SKIP m).
Proof.
  intros m c Hm Hb. pose proof (number_start_all m c Hm) as H.
  unfold number_start in H. rewrite Hb in H.
  apply case_eqb_eq. exact H.
Qed.

Lemma start_on_other :
  forall m c,
    number_lex_state m ->
    is_blank c = false -> is_digit c = false -> (c =? MINUS) = false ->
    case_ok non_number_state not_number (ts_lex m false c) = true.
Proof.
  intros m c Hm Hb Hd Hmi. pose proof (number_start_all m c Hm) as H.
  unfold number_start in H. rewrite Hb, Hd, Hmi in H. exact H.
Qed.

(** *** From the literal to the token *)

Lemma number_literal_cons :
  forall input lit rest,
    number_literal input = Some (lit, rest) ->
    exists c cur,
      input = c :: cur /\ is_digit c = true
      /\ (let (digits, r) := span_digits cur in
          let (frac, r') := fraction r in
          lit = c :: digits ++ frac /\ rest = r').
Proof.
  intros [|c cur] lit rest H; [discriminate H|].
  unfold number_literal in H. cbn [span_digits] in H.
  destruct (is_digit c) eqn:Ed; [|discriminate H].
  exists c, cur. split; [reflexivity|]. split; [exact Ed|].
  destruct (span_digits cur) as [digits r]. cbv beta iota in H.
  destruct (fraction r) as [frac r'].
  injection H as <- <-. split; reflexivity.
Qed.

Lemma lex_number_literal :
  forall m input lit rest,
    number_lex_state m ->
    number_literal input = Some (lit, rest) ->
    run_lex m input = Lexed (sym_number, lit, rest)
    /\ run_lex m (MINUS :: input) = Lexed (sym_number, MINUS :: lit, rest).
Proof.
  intros m input lit rest Hm H.
  destruct (number_literal_cons input lit rest H) as [c [cur [-> [Hd Hs]]]].
  unfold run_lex. split.
  - rewrite lex_run_cons, (start_on_digit m c Hm Hd). unfold NO_TOKEN.
    cbv zeta. cbn [mark_end]. rewrite run_439.
    destruct (span_digits cur) as [digits r].
    destruct (fraction r) as [frac r']. destruct Hs as [-> ->].
    reflexivity.
  - rewrite lex_run_cons, (start_on_minus m Hm). unfold NO_TOKEN.
    cbv zeta. cbn [mark_end]. rewrite run_254, Hd, run_439.
    destruct (span_digits cur) as [digits r].
    destruct (fraction r) as [frac r']. destruct Hs as [-> ->].
    reflexivity.
Qed.

(** *** From the token back to the literal *)

Lemma is_blank_blank : forall c, is_blank c = true -> blank c.
Proof.
  intros c H. apply orb_true_iff in H.
  destruct H as [H | H]; apply N.eqb_eq in H; [left | right]; exact H.
Qed.

Lemma number_token_shape :
  forall m input text rest,
    number_lex_state m ->
    run_lex m input = Lexed (sym_number, text, rest) ->
    exists blanks body,
      Forall blank blanks /\ input = blanks ++ body
      /\ number_shape body text rest.
Proof.
  intros m input text rest Hm. unfold run_lex.
  induction input as [|c cur IH]; intros H.
  - exfalso. destruct Hm as [-> | ->]; vm_compute in H; discriminate H.
  - rewrite lex_run_cons in H.
    destruct (is_blank c) eqn:Eb.
    { rewrite (start_on_blank m c Hm Eb) in H. unfold NO_TOKEN in H.
      cbv zeta in H. cbn [mark_end skip_mark] in H.
      destruct (IH H) as [blanks [body [Hb [-> Hshape]]]].
      exists (c :: blanks), body. split; [|split].
      - apply Forall_cons; [apply is_blank_blank; exact Eb | exact Hb].
      - reflexivity.
      - exact Hshape. }
    destruct (is_digit c) eqn:Ed.
    { rewrite (start_on_digit m c Hm Ed) in H. unfold NO_TOKEN in H.
      cbv zeta in H. cbn [mark_end] in H. rewrite run_439 in H.
      exists [], (c :: cur). split; [apply Forall_nil|].
      split; [reflexivity|]. left.
      unfold number_literal. cbn [span_digits]. rewrite Ed.
      destruct (span_digits cur) as [digits r].
      destruct (fraction r) as [frac r'].
      injection H as <- <-. reflexivity. }
    destruct (c =? MINUS) eqn:Em.
    { apply N.eqb_eq in Em. subst c.
      rewrite (start_on_minus m Hm) in H. unfold NO_TOKEN in H.
      cbv zeta in H. cbn [mark_end] in H. rewrite run_254 in H.
      destruct cur as [|d cur']; [discriminate H|].
      destruct (is_digit d) eqn:Edd; [|discriminate H].
      rewrite run_439 in H.
      exists [], (MINUS :: d :: cur'). split; [apply Forall_nil|].
      split; [reflexivity|]. right.
      destruct (span_digits cur') as [digits r] eqn:Es.
      destruct (fraction r) as [frac r'] eqn:Ef.
      exists (d :: cur'), (d :: digits ++ frac).
      split; [reflexivity|]. split.
      - unfold number_literal. cbn [span_digits]. rewrite Edd, Es, Ef.
        injection H as _ <-. reflexivity.
      - injection H as <- _. reflexivity. }
    exfalso.
    pose proof (start_on_other m c Hm Eb Ed Em) as Hc.
    destruct (ts_lex m false c) as [[accept step]|]; [|discriminate H].
    destruct (case_ok_parts _ _ _ _ Hc) as [Ha Hn].
    assert (Hmark : mark_symbol_ok not_number
                      (mark_end accept [] (c :: cur) None))
      by (apply mark_end_ok; [exact Ha | exact I]).
    cbv zeta in H. destruct step as [next|next|].
    + pose proof (no_number_from cur next [c] _ Hn Hmark) as Hout.
      rewrite H in Hout. discriminate Hout.
    + pose proof (no_number_from cur next [] _ Hn
                    (skip_mark_ok _ _ Hmark)) as Hout.
      rewrite H in Hout. discriminate Hout.
    + pose proof (finish_ok _ _ Hmark) as Hout.
      rewrite H in Hout. discriminate Hout.
Qed.

Lemma keyword_or_word_parts :
  forall s symbol text rest token rest',
    keyword_or_word s (symbol, text, rest) = (token, rest') ->
    tok_text token = text /\ rest' = rest
    /\ (tok_symbol token = sym_number -> symbol = sym_number).
Proof.
  intros s symbol text rest token rest' H. unfold keyword_or_word in H.
  destruct (symbol =? keyword_capture_token) eqn:Ek.
  - pose proof (no_number_keyword (text ++ rest)) as Hk.
    destruct (run_lex_keywords (text ++ rest)) as [[[keyword text'] rest'']| |].
    + destruct (Nat.eqb (List.length rest'') (List.length rest)
                && ts_language_has_actions s keyword);
        injection H as <- <-; cbn; repeat split; intros E.
      * subst keyword. discriminate Hk.
      * exact E.
    + injection H as <- <-. cbn. repeat split. intros E. exact E.
    + injection H as <- <-. cbn. repeat split. intros E. exact E.
  - injection H as <- <-. cbn. repeat split. intros E. exact E.
Qed.

Lemma error_mode_no_number :
  forall input, outcome_symbol_ok not_number (run_lex 0 input).
Proof.
  intros input. unfold run_lex.
  apply no_number_from; [reflexivity | exact I].
Qed.

(** *** Where the literal ends *)

Lemma span_digits_stop :
  forall input, no_digit_ahead input = true -> span_digits input = ([], input).
Proof.
  intros [|c rest] H; [reflexivity|].
  cbn in H |- *. apply negb_true_iff in H. rewrite H. reflexivity.
Qed.

Lemma span_digits_app :
  forall digits rest,
    forallb is_digit digits = true ->
    no_digit_ahead rest = true ->
    span_digits (digits ++ rest) = (digits, rest).
Proof.
  induction digits as [|d digits IH]; intros rest Hd Hr.
  - apply span_digits_stop. exact Hr.
  - cbn in Hd. apply andb_true_iff in Hd. destruct Hd as [Hd Hds].
    cbn [app span_digits]. rewrite Hd, (IH rest Hds Hr). reflexivity.
Qed.

Lemma literal_before_lone_dot :
  forall digits rest,
    digit_run digits = true ->
    no_digit_ahead rest = true ->
    number_literal (digits ++ DOT :: rest) = Some (digits, DOT :: rest).
Proof.
  intros [|d digits] rest Hd Hr; [discriminate Hd|].
  unfold number_literal. rewrite span_digits_app; [|exact Hd|reflexivity].
  unfold fraction. rewrite N.eqb_refl, (span_digits_stop rest Hr).
  rewrite app_nil_r. reflexivity.
Qed.

Lemma literal_before_other :
  forall digits c rest,
    digit_run digits = true ->
    is_digit c = false -> c <> DOT ->
    number_literal (digits ++ c :: rest) = Some (digits, c :: rest).
Proof.
  intros [|d digits] c rest Hd Hc Hdot; [discriminate Hd|].
  unfold number_literal.
  rewrite span_digits_app; [|exact Hd|cbn; rewrite Hc; reflexivity].
  unfold fraction. apply N.eqb_neq in Hdot. rewrite Hdot.
  rewrite app_nil_r. reflexivity.
Qed.

Lemma lex_number :
  forall s input lit rest,
    s < STATE_COUNT -> number_position s = true ->
    number_literal input = Some (lit, rest) ->
    ts_parser_lex s input = Some (plain_token sym_number lit, rest)
    /\ ts_parser_lex s (MINUS :: input)
       = Some (plain_token sym_number (MINUS :: lit), rest).
Proof.
  intros s input lit rest Hs Hpos H.
  pose proof (number_positions s Hs Hpos) as Hm.
  destruct (lex_number_literal _ input lit rest Hm H) as [H1 H2].
  unfold ts_parser_lex. rewrite H1, H2.
  rewrite !keyword_or_word_plain by discriminate. split; reflexivity.
Qed.

Lemma number_token_literal :
  forall s input token rest,
    s < STATE_COUNT -> number_position s = true ->
    ts_parser_lex s input = Some (token, rest) ->
    tok_symbol token = sym_number ->
    exists blanks body,
      Forall blank blanks /\ input = blanks ++ body
      /\ number_shape body (tok_text token) rest.
Proof.
  intros s input token rest Hs Hpos H Hsym.
  pose proof (number_positions s Hs Hpos) as Hm.
  unfold ts_parser_lex in H. change (ts_lex_modes ERROR_STATE) with 0 in H.
  destruct (run_lex (ts_lex_modes s) input)
    as [[[symbol text] rest']| |] eqn:E.
  - injection H as H.
    destruct (keyword_or_word_parts s symbol text rest' token rest H)
      as [Ht [Hr Hn]].
    specialize (Hn Hsym). subst symbol text rest.
    exact (number_token_shape _ input _ _ Hm E).
  - exfalso. pose proof (error_mode_no_number input) as H0.
    destruct (run_lex 0 input) as [[[symbol text] rest']| |];
      try discriminate H.
    injection H as H.
    destruct (keyword_or_word_parts s symbol text rest' token rest H)
      as [_ [_ Hn]].
    specialize (Hn Hsym). subst symbol. discriminate H0.
  - exfalso. pose proof (error_mode_no_number input) as H0.
    destruct (run_lex 0 input) as [[[symbol text] rest']| |];
      try discriminate H.
    injection H as H.
    destruct (keyword_or_word_parts s symbol text rest' token rest H)
      as [_ [_ Hn]].
    specialize (Hn Hsym). subst symbol. discriminate H0.
Qed.

(** C8, as stated, fails: after [display] the text [-5] is one number
    token, which is not a digit sequence with an optional fraction. *)
Lemma C8_number_counterexample :
  ~ (forall s input token rest,
        s < STATE_COUNT ->
        ts_parser_lex s input = Some (token, rest) ->
        tok_symbol token = sym_number ->
        number_literal (tok_text token) = Some (tok_text token, [])).
Proof.
  intros H.
  specialize (H 105 (codes "-5") (plain_token sym_number (codes "-5")) []
                ltac:(reflexivity) ltac:(vm_compute; reflexivity)
                ltac:(reflexivity)).
  vm_compute in H. discriminate H.
Qed.

(** C8, amended: where a number may be read, a number token is an optional
    minus sign, a non-empty digit sequence and optionally a dot with at
    least one more digit, and nothing else is a number token; there is no
    exponent form (any character that is neither a digit nor a dot ends the
    token); and a dot that no digit follows is left unconsumed, the token
    ending at the last digit. *)
Theorem C8_number_tokens :
  forall s,
    s < STATE_COUNT -> number_position s = true ->
    (forall input lit rest,
        number_literal input = Some (lit, rest) ->
        ts_parser_lex s input = Some (plain_token sym_number lit, rest)
        /\ ts_parser_lex s (MINUS :: input)
           = Some (plain_token sym_number (MINUS :: lit), rest))
    /\ (forall input token rest,
           ts_parser_lex s input = Some (token, rest) ->
           tok_symbol token = sym_number ->
           exists blanks body,
             Forall blank blanks /\ input = blanks ++ body
             /\ number_shape body (tok_text token) rest)
    /\ (forall digits rest,
           digit_run digits = true -> no_digit_ahead rest = true ->
           ts_parser_lex s (digits ++ DOT :: rest)
           = Some (plain_token sym_number digits, DOT :: rest))
    /\ (forall digits c rest,
           digit_run digits = true -> is_digit c = false -> c <> DOT ->
           ts_parser_lex s (digits ++ c :: rest)
           = Some (plain_token sym_number digits, c :: rest)).
Proof.
  intros s Hs Hpos. split; [|split; [|split]].
  - intros input lit rest H. exact (lex_number s input lit rest Hs Hpos H).
  - intros input token rest H Hsym.
    exact (number_token_literal s input token rest Hs Hpos H Hsym).
  - intros digits rest Hd Hr.
    exact (proj1 (lex_number s _ _ _ Hs Hpos
                    (literal_before_lone_dot digits rest Hd Hr))).
  - intros digits c rest Hd Hc Hdot.
    exact (proj1 (lex_number s _ _ _ Hs Hpos
                    (literal_before_other digits c rest Hd Hc Hdot))).
Qed.

Lemma C8_number_tokens_witness :
  ts_parser_lex 105 (codes "5" ++ DOT :: [])
  = Some (plain_token sym_number (codes "5"), [DOT])
  /\ ts_parser_lex 105 (codes "1" ++ chr "e" :: codes "5")
     = Some (plain_token sym_number (codes "1"), codes "e5")
  /\ ts_parser_lex 105 (codes "3.25 ")
     = Some (plain_token sym_number (codes "3.25"), codes " ").
Proof.
  destruct (C8_number_tokens 105 ltac:(reflexivity) ltac:(reflexivity))
    as [H1 [_ [H3 H4]]].
  split; [|split].
  - apply H3; reflexivity.
  - apply H4; [reflexivity | reflexivity | discriminate].
  - apply (H1 (codes "3.25 ")). reflexivity.
Defined.

(** ** Keyword phrases: the longest one wins *)

(** One step of a lex run over a known character. *)
Ltac lex_step :=
  rewrite lex_run_cons;
  match goal with
  | |- context [ts_lex ?s false ?c] =>
    let v := eval vm_compute in (ts_lex s false c) in
    change (ts_lex s false c) with v
  end;
  cbv beta iota zeta; cbn [mark_end skip_mark].

Ltac spell phrase :=
  let l := eval vm_compute in (spelling phrase) in
  change (spelling phrase) with l; cbn [app].

(** The long phrase of a pair is lexed as one token wherever both phrases
    have an action. *)
Lemma long_phrase_wins :
  Forall
    (fun sp =>
       forall rest,
         ts_parser_lex (fst sp) (spelling (snd (snd sp)) ++ rest)
         = Some (plain_token (snd (snd sp)) (spelling (snd (snd sp))), rest))
    phrase_positions.
Proof.
  let l := eval vm_compute in phrase_positions in
  replace phrase_positions with l by (vm_compute; reflexivity).
  repeat (apply Forall_cons;
          [ cbn [fst snd]; intros rest; destruct rest; vm_compute; reflexivity
          | ]).
  apply Forall_nil.
Qed.

(** The automaton states after [is less than] and [is greater than]: one
    accepting state, then a chain that spells [ or equal to]. *)
Lemma chain_step :
  forall st x st',
    x <> 0 ->
    (forall eof c,
        ts_lex st eof c = NO_TOKEN (if c =? x then ADVANCE st' else END_STATE)) ->
    forall cur tok result,
      lex_run ts_lex EOF_FUEL st cur tok result
      = match cur with
        | c :: cur' =>
          if c =? x then lex_run ts_lex EOF_FUEL st' cur' (c :: tok) result
          else finish result
        | [] => finish result
        end.
Proof.
  intros st x st' Hx Hst [|c cur] tok result.
  - rewrite lex_run_eof. change EOF_FUEL with (S (pred EOF_FUEL)).
    rewrite lex_at_eof_step, Hst.
    apply N.eqb_neq in Hx. rewrite N.eqb_sym, Hx. reflexivity.
  - rewrite lex_run_cons, Hst. unfold NO_TOKEN.
    destruct (c =? x); reflexivity.
Qed.

Lemma accepting_chain_step :
  forall st symbol x st',
    x <> 0 ->
    (forall eof c,
        ts_lex st eof c
        = ACCEPT_TOKEN symbol (if c =? x then ADVANCE st' else END_STATE)) ->
    forall cur tok result,
      lex_run ts_lex EOF_FUEL st cur tok result
      = match cur with
        | c :: cur' =>
          if c =? x
          then lex_run ts_lex EOF_FUEL st' cur' (c :: tok)
                 (Some (symbol, rev tok, cur))
          else Lexed (symbol, rev tok, cur)
        | [] => Lexed (symbol, rev tok, [])
        end.
Proof.
  intros st symbol x st' Hx Hst [|c cur] tok result.
  - rewrite lex_run_eof. change EOF_FUEL with (S (pred EOF_FUEL)).
    rewrite lex_at_eof_step, Hst.
    apply N.eqb_neq in Hx. rewrite N.eqb_sym, Hx. reflexivity.
  - rewrite lex_run_cons, Hst. unfold ACCEPT_TOKEN.
    destruct (c =? x); reflexivity.
Qed.

Ltac follow_chain st x st' :=
  rewrite (chain_step st x st') by (discriminate || reflexivity);
  match goal with
  | |- context [match ?cur with _ :: _ => _ | [] => _ end] =>
    let c := fresh "c" in
    let E := fresh "E" in
    destruct cur as [|c cur]; [reflexivity|];
    destruct (c =? x) eqn:E; [apply N.eqb_eq in E; subst c | reflexivity]
  end.

Lemma short_after_less_than :
  forall rest tok result,
    starts_with (codes " or equal to") rest = false ->
    lex_run ts_lex EOF_FUEL 453 rest tok result
    = Lexed (anon_sym_islessthan, rev tok, rest).
Proof.
  intros rest tok result H.
  rewrite (accepting_chain_step 453 anon_sym_islessthan 32 168)
    by (discriminate || reflexivity).
  destruct rest as [|c rest]; [reflexivity|].
  destruct (c =? 32) eqn:E; [apply N.eqb_eq in E; subst c | reflexivity].
  follow_chain 168 (chr "o") 194.
  follow_chain 194 (chr "r") 17.
  follow_chain 17 (chr " ") 90.
  follow_chain 90 (chr "e") 181.
  follow_chain 181 (chr "q") 243.
  follow_chain 243 (chr "u") 45.
  follow_chain 45 (chr "a") 134.
  follow_chain 134 (chr "l") 14.
  follow_chain 14 (chr " ") 228.
  follow_chain 228 (chr "t") 163.
  follow_chain 163 (chr "o") 455.
  discriminate H.
Qed.

Lemma short_after_greater_than :
  forall rest tok result,
    starts_with (codes " or equal to") rest = false ->
    lex_run ts_lex EOF_FUEL 454 rest tok result
    = Lexed (anon_sym_isgreaterthan, rev tok, rest).
Proof.
  intros rest tok result H.
  rewrite (accepting_chain_step 454 anon_sym_isgreaterthan 32 174)
    by (discriminate || reflexivity).
  destruct rest as [|c rest]; [reflexivity|].
  destruct (c =? 32) eqn:E; [apply N.eqb_eq in E; subst c | reflexivity].
  follow_chain 174 (chr "o") 195.
  follow_chain 195 (chr "r") 18.
  follow_chain 18 (chr " ") 91.
  follow_chain 91 (chr "e") 182.
  follow_chain 182 (chr "q") 244.
  follow_chain 244 (chr "u") 46.
  follow_chain 46 (chr "a") 135.
  follow_chain 135 (chr "l") 15.
  follow_chain 15 (chr " ") 229.
  follow_chain 229 (chr "t") 164.
  follow_chain 164 (chr "o") 456.
  discriminate H.
Qed.

Lemma reach_less_than :
  Forall
    (fun m =>
       forall rest,
       exists result,
         run_lex m (spelling anon_sym_islessthan ++ rest)
         = lex_run ts_lex EOF_FUEL 453 rest
             (rev (spelling anon_sym_islessthan)) result)
    comparison_lex_states.
Proof.
  unfold comparison_lex_states.
  repeat (apply Forall_cons;
          [ intros rest; eexists; unfold run_lex; spell anon_sym_islessthan;
            do 12 lex_step; reflexivity
          | ]).
  apply Forall_nil.
Qed.

Lemma reach_greater_than :
  Forall
    (fun m =>
       forall rest,
       exists result,
         run_lex m (spelling anon_sym_isgreaterthan ++ rest)
         = lex_run ts_lex EOF_FUEL 454 rest
             (rev (spelling anon_sym_isgreaterthan)) result)
    comparison_lex_states.
Proof.
  unfold comparison_lex_states.
  repeat (apply Forall_cons;
          [ intros rest; eexists; unfold run_lex; spell anon_sym_isgreaterthan;
            do 15 lex_step; reflexivity
          | ]).
  apply Forall_nil.
Qed.

Lemma comparison_positions :
  forall s,
    s < STATE_COUNT -> s <> ERROR_STATE ->
    ts_language_has_actions s anon_sym_islessthan = true
    \/ ts_language_has_actions s anon_sym_isgreaterthan = true ->
    In (ts_lex_modes s) comparison_lex_states.
Proof.
  intros s Hs. apply in_all_states in Hs. revert s Hs.
  apply (proj1 (Forall_forall
                  (fun s =>
                     s <> ERROR_STATE ->
                     ts_language_has_actions s anon_sym_islessthan = true
                     \/ ts_language_has_actions s anon_sym_isgreaterthan = true ->
                     In (ts_lex_modes s) comparison_lex_states)
                  all_states)).
  each_state
    ltac:(intros H0 H; vm_compute in H;
          first [ exfalso; apply H0; reflexivity
                | destruct H as [H | H]; discriminate H
                | vm_compute; tauto ]).
Qed.

Lemma short_phrase_alone :
  forall s short long rest,
    s < STATE_COUNT -> s <> ERROR_STATE ->
    In (short, long) comparison_pairs ->
    ts_language_has_actions s short = true ->
    starts_with (codes " or equal to") rest = false ->
    ts_parser_lex s (spelling short ++ rest)
    = Some (plain_token short (spelling short), rest).
Proof.
  intros s short long rest Hs H0 Hin Hact Hrest.
  assert (Hmode : In (ts_lex_modes s) comparison_lex_states).
  { apply comparison_positions; [exact Hs | exact H0 |].
    destruct Hin as [E | [E | []]]; injection E as <- <-;
      [left | right]; exact Hact. }
  unfold ts_parser_lex.
  destruct Hin as [E | [E | []]]; injection E as <- <-.
  - destruct (proj1 (Forall_forall _ _) reach_less_than _ Hmode rest)
      as [result ->].
    rewrite short_after_less_than by exact Hrest.
    rewrite keyword_or_word_plain by discriminate.
    rewrite rev_involutive. reflexivity.
  - destruct (proj1 (Forall_forall _ _) reach_greater_than _ Hmode rest)
      as [result ->].
    rewrite short_after_greater_than by exact Hrest.
    rewrite keyword_or_word_plain by discriminate.
    rewrite rev_involutive. reflexivity.
Qed.

Lemma in_phrase_positions :
  forall s pair,
    s < STATE_COUNT -> s <> ERROR_STATE -> In pair prefix_pairs ->
    ts_language_has_actions s (fst pair) = true ->
    ts_language_has_actions s (snd pair) = true ->
    In (s, pair) phrase_positions.
Proof.
  intros s pair Hs H0 Hp H1 H2. unfold phrase_positions.
  apply (proj2 (filter_In _ (s, pair) (list_prod all_states prefix_pairs))).
  split.
  - apply in_prod; [apply in_all_states; exact Hs | exact Hp].
  - cbn [fst snd]. rewrite H1, H2.
    apply N.eqb_neq in H0. rewrite H0. reflexivity.
Qed.

(** Where [if] has an action and [if unsuccessful:] has none, outside a
    note, input that spells [if unsuccessful:] is lexed as [if]. *)
Lemma if_read_alone :
  forall s rest,
    s < STATE_COUNT -> s <> ERROR_STATE ->
    ts_language_has_actions s anon_sym_if = true ->
    ts_language_has_actions s anon_sym_ifunsuccessful_COLON = false ->
    ts_language_has_actions s sym_comment_content = false ->
    ts_parser_lex s (spelling anon_sym_ifunsuccessful_COLON ++ rest)
    = Some (plain_token anon_sym_if (codes "if"),
            codes " unsuccessful:" ++ rest).
Proof.
  intros s rest Hs. apply in_all_states in Hs. revert s Hs rest.
  apply (proj1 (Forall_forall
                  (fun s =>
                     forall rest,
                       s <> ERROR_STATE ->
                       ts_language_has_actions s anon_sym_if = true ->
                       ts_language_has_actions s
                         anon_sym_ifunsuccessful_COLON = false ->
                       ts_language_has_actions s sym_comment_content
                       = false ->
                       ts_parser_lex s
                         (spelling anon_sym_ifunsuccessful_COLON ++ rest)
                       = Some (plain_token anon_sym_if (codes "if"),
                               codes " unsuccessful:" ++ rest))
                  all_states)).
  each_state
    ltac:(intros rest H0 H1 H2 H3; vm_compute in H1, H2, H3;
          first [ exfalso; apply H0; reflexivity
                | discriminate H1
                | discriminate H2
                | discriminate H3
                | vm_compute; reflexivity ]).
Qed.

(** C9, as stated, fails: the lexer runs in the lex state of the parse
    state, and at the start of a statement, where [if] has an action and
    [if unsuccessful:] has none, input that spells [if unsuccessful:] is
    lexed as [if]. *)
Lemma C9_longest_phrase_counterexample :
  ~ (forall s short long rest,
        s < STATE_COUNT -> s <> ERROR_STATE ->
        In (short, long) prefix_pairs ->
        ts_language_has_actions s short = true ->
        ts_parser_lex s (spelling long ++ rest)
        = Some (plain_token long (spelling long), rest)).
Proof.
  intros H.
  assert (Hpair : In (anon_sym_if, anon_sym_ifunsuccessful_COLON) prefix_pairs)
    by (vm_compute; tauto).
  assert (Hstate : START_STATE < STATE_COUNT) by reflexivity.
  assert (Hne : START_STATE <> ERROR_STATE) by discriminate.
  assert (Hact : ts_language_has_actions START_STATE anon_sym_if = true)
    by (vm_compute; reflexivity).
  specialize (H START_STATE anon_sym_if anon_sym_ifunsuccessful_COLON
                (codes " x") Hstate Hne Hpair Hact).
  assert (Hlex : ts_parser_lex START_STATE
                   (spelling anon_sym_ifunsuccessful_COLON ++ codes " x")
                 = Some (plain_token anon_sym_if (codes "if"),
                         codes " unsuccessful: x"))
    by (vm_compute; reflexivity).
  rewrite Hlex in H. vm_compute in H. discriminate H.
Qed.

(** C9, amended: the longest phrase wins among those the parse state
    allows.  Wherever a keyword phrase and a longer phrase that begins
    with it both have an action, input spelling the longer phrase is lexed
    as the single token of the longer phrase, whatever follows; wherever
    [is less than] or [is greater than] has an action, it is lexed as the
    shorter token when [ or equal to] does not follow; and wherever [if]
    has an action and [if unsuccessful:] has none, outside a note, input
    spelling [if unsuccessful:] is lexed as [if]. *)
Theorem C9_longest_phrase :
  (forall s short long rest,
      s < STATE_COUNT -> s <> ERROR_STATE ->
      In (short, long) prefix_pairs ->
      ts_language_has_actions s short = true ->
      ts_language_has_actions s long = true ->
      ts_parser_lex s (spelling long ++ rest)
      = Some (plain_token long (spelling long), rest))
  /\ (forall s short long rest,
         s < STATE_COUNT -> s <> ERROR_STATE ->
         In (short, long) comparison_pairs ->
         ts_language_has_actions s short = true ->
         starts_with (codes " or equal to") rest = false ->
         ts_parser_lex s (spelling short ++ rest)
         = Some (plain_token short (spelling short), rest))
  /\ (forall s rest,
         s < STATE_COUNT -> s <> ERROR_STATE ->
         ts_language_has_actions s anon_sym_if = true ->
         ts_language_has_actions s anon_sym_ifunsuccessful_COLON = false ->
         ts_language_has_actions s sym_comment_content = false ->
         ts_parser_lex s (spelling anon_sym_ifunsuccessful_COLON ++ rest)
         = Some (plain_token anon_sym_if (codes "if"),
                 codes " unsuccessful:" ++ rest)).
Proof.
  split; [|split; [exact short_phrase_alone | exact if_read_alone]].
  intros s short long rest Hs H0 Hin H1 H2.
  pose proof (proj1 (Forall_forall _ _) long_phrase_wins (s, (short, long))
                (in_phrase_positions s (short, long) Hs H0 Hin H1 H2)) as H.
  cbn [fst snd] in H. exact (H rest).
Qed.

Lemma C9_longest_phrase_witness :
  ts_parser_lex 35 (spelling anon_sym_islessthanorequalto ++ codes " 3")
  = Some (plain_token anon_sym_islessthanorequalto
            (spelling anon_sym_islessthanorequalto), codes " 3")
  /\ ts_parser_lex 35 (spelling anon_sym_islessthan ++ codes " or 3")
     = Some (plain_token anon_sym_islessthan (spelling anon_sym_islessthan),
             codes " or 3")
  /\ ts_parser_lex START_STATE
       (spelling anon_sym_ifunsuccessful_COLON ++ codes " x")
     = Some (plain_token anon_sym_if (codes "if"),
             codes " unsuccessful:" ++ codes " x").
Proof.
  split; [|split].
  - apply (proj1 C9_longest_phrase 35 anon_sym_islessthan
             anon_sym_islessthanorequalto (codes " 3")).
    + reflexivity.
    + discriminate.
    + vm_compute. tauto.
    + vm_compute. reflexivity.
    + vm_compute. reflexivity.
  - apply (proj1 (proj2 C9_longest_phrase) 35 anon_sym_islessthan
             anon_sym_islessthanorequalto (codes " or 3")).
    + reflexivity.
    + discriminate.
    + left. reflexivity.
    + vm_compute. reflexivity.
    + reflexivity.
  - apply (proj2 (proj2 C9_longest_phrase) START_STATE (codes " x")).
    + reflexivity.
    + discriminate.
    + vm_compute. reflexivity.
    + vm_compute. reflexivity.
    + vm_compute. reflexivity.
Defined.

(** ** The parse loop keeps to the automaton *)

(** *** Tokens *)

Lemma lex_states_closed :
  closed_under ts_lex lex_states lex_state is_token = true.
Proof. vm_compute. reflexivity. Qed.

Lemma keyword_states_closed :
  closed_under ts_lex_keywords keyword_states keyword_state is_token = true.
Proof. vm_compute. reflexivity. Qed.

Lemma lex_modes_in_range :
  forallb (fun s => lex_state (ts_lex_modes s)) all_states = true.
Proof. vm_compute. reflexivity. Qed.

Lemma run_lex_token :
  forall m input,
    lex_state m = true -> outcome_symbol_ok is_token (run_lex m input).
Proof.
  intros m input Hm. unfold run_lex.
  apply (ts_lex_run_invariant lex_state is_token);
    [ intros s H; apply N.ltb_lt; exact H
    | exact lex_states_closed
    | exact Hm
    | exact I ].
Qed.

Lemma run_lex_keywords_token :
  forall input, outcome_symbol_ok is_token (run_lex_keywords input).
Proof.
  intros input. unfold run_lex_keywords.
  apply (ts_lex_keywords_run_invariant keyword_state is_token);
    [ intros s H; apply N.ltb_lt; exact H
    | exact keyword_states_closed
    | reflexivity
    | exact I ].
Qed.

Lemma keyword_or_word_token :
  forall s symbol text rest token rest',
    is_token symbol = true ->
    keyword_or_word s (symbol, text, rest) = (token, rest') ->
    tok_symbol token < TOKEN_COUNT.
Proof.
  intros s symbol text rest token rest' Hsym H. unfold keyword_or_word in H.
  apply N.ltb_lt in Hsym.
  destruct (symbol =? keyword_capture_token).
  - pose proof (run_lex_keywords_token (text ++ rest)) as Hk.
    destruct (run_lex_keywords (text ++ rest)) as [[[keyword text'] rest'']| |].
    + destruct (Nat.eqb (List.length rest'') (List.length rest)
                && ts_language_has_actions s keyword);
        injection H as <- <-; cbn.
      * apply N.ltb_lt. exact Hk.
      * exact Hsym.
    + injection H as <- <-. exact Hsym.
    + injection H as <- <-. exact Hsym.
  - injection H as <- <-. exact Hsym.
Qed.

Lemma ts_parser_lex_token :
  forall s input token rest,
    In s all_states ->
    ts_parser_lex s input = Some (token, rest) ->
    tok_symbol token < TOKEN_COUNT.
Proof.
  intros s input token rest Hs H. unfold ts_parser_lex in H.
  pose proof (proj1 (forallb_forall _ _) lex_modes_in_range s Hs) as Hm.
  pose proof (run_lex_token (ts_lex_modes s) input Hm) as H1.
  pose proof (run_lex_token (ts_lex_modes ERROR_STATE) input
                ltac:(reflexivity)) as H2.
  destruct (run_lex (ts_lex_modes s) input) as [[[symbol text] rest']| |].
  - injection H as H. exact (keyword_or_word_token _ _ _ _ _ _ H1 H).
  - destruct (run_lex (ts_lex_modes ERROR_STATE) input)
      as [[[symbol text] rest']| |]; try discriminate H.
    injection H as H. exact (keyword_or_word_token _ _ _ _ _ _ H2 H).
  - destruct (run_lex (ts_lex_modes ERROR_STATE) input)
      as [[[symbol text] rest']| |]; try discriminate H.
    injection H as H. exact (keyword_or_word_token _ _ _ _ _ _ H2 H).
Qed.

(** *** States and edges *)

Lemma valid_state_in : forall s, valid_state s = true -> In s all_states.
Proof.
  intros s H. unfold valid_state in H. apply andb_true_iff in H.
  destruct H as [_ H]. apply N.ltb_lt in H. apply in_all_states. exact H.
Qed.

Lemma start_state_in : In START_STATE all_states.
Proof. apply in_all_states. reflexivity. Qed.

Lemma stack_state_in :
  forall P stack, stack_ok P stack -> In (ts_stack_state stack) all_states.
Proof.
  intros P [|[s t] below] H.
  - exact start_state_in.
  - destruct H as [Hv _]. apply valid_state_in. exact Hv.
Qed.

Lemma in_all_edges :
  forall s0 symbol s,
    In s0 all_states -> symbol < SYMBOL_COUNT ->
    In s (targets s0 symbol) -> valid_state s = true ->
    In (s0, symbol, s) all_edges.
Proof.
  intros s0 symbol s Hs0 Hsym Ht Hv. unfold all_edges.
  apply in_flat_map. exists (s0, symbol). split.
  - apply in_prod; [exact Hs0 | apply in_all_symbols; exact Hsym].
  - cbn [fst snd]. apply in_flat_map. exists s. split; [exact Ht|].
    rewrite Hv. left. reflexivity.
Qed.

Lemma stack_ok_skipn :
  forall P n stack, stack_ok P stack -> stack_ok P (skipn n stack).
Proof.
  intros P. induction n as [|n IH]; intros stack H; [exact H|].
  destruct stack as [|[s t] below]; [exact I|].
  cbn [skipn]. apply IH. destruct H as [_ [_ [_ [_ H]]]]. exact H.
Qed.

Lemma stack_trees_ok :
  forall P stack t,
    stack_ok P stack -> In t (map snd stack) -> tree_ok P t = true.
Proof.
  intros P. induction stack as [|[s t'] below IH]; intros t H Hin.
  - destruct Hin.
  - destruct H as [_ [_ [_ [Ht H]]]]. destruct Hin as [<- | Hin].
    + exact Ht.
    + exact (IH t H Hin).
Qed.

Lemma in_firstn :
  forall (A : Type) n (l : list A) x, In x (firstn n l) -> In x l.
Proof.
  intros A n l x H. rewrite <- (firstn_skipn n l).
  apply in_or_app. left. exact H.
Qed.

Lemma children_ok :
  forall P n stack,
    stack_ok P stack ->
    forallb (tree_ok P) (rev (map snd (firstn n stack))) = true.
Proof.
  intros P n stack H. apply forallb_forall. intros t Hin.
  apply in_rev in Hin. apply (stack_trees_ok P stack t H).
  apply in_map_iff in Hin. destruct Hin as [e [<- He]].
  apply in_map. exact (in_firstn _ _ _ _ He).
Qed.

Lemma back_paths_cover :
  forall (E : list Edge) P,
    (forall s0 symbol s,
        In s0 all_states -> symbol < SYMBOL_COUNT ->
        In s (targets s0 symbol) -> valid_state s = true ->
        In (s0, symbol, s) E) ->
    forall n stack,
      stack_ok P stack ->
      In (ts_stack_state (skipn n stack),
          map subtree_symbol (rev (map snd (firstn n stack))))
         (back_paths E n (ts_stack_state stack)).
Proof.
  intros E P HE. induction n as [|n IH]; intros stack H.
  - left. reflexivity.
  - destruct stack as [|[s t] below].
    + left. reflexivity.
    + cbn [skipn firstn map rev ts_stack_state back_paths].
      apply in_or_app. right.
      destruct H as [Hv [Hsym [Ht [_ Hbelow]]]].
      apply in_flat_map. exists (ts_stack_state below, subtree_symbol t, s).
      split.
      * apply HE;
          [ exact (stack_state_in P below Hbelow) | exact Hsym
          | exact Ht | exact Hv ].
      * cbv beta iota. rewrite N.eqb_refl.
        rewrite map_app. cbn [map].
        apply in_map_iff.
        exists (ts_stack_state (skipn n below),
                map subtree_symbol (rev (map snd (firstn n below)))).
        split; [reflexivity | exact (IH below Hbelow)].
Qed.

Lemma back_paths_complete :
  forall P n stack,
    stack_ok P stack ->
    In (ts_stack_state (skipn n stack),
        map subtree_symbol (rev (map snd (firstn n stack))))
       (back_paths all_edges n (ts_stack_state stack)).
Proof. intros P. exact (back_paths_cover all_edges P in_all_edges). Qed.

(** *** Reductions of a state *)

Lemma reduction_eqb_eq :
  forall a b, reduction_eqb a b = true -> a = b.
Proof.
  intros [a1 a2] [b1 b2] H. unfold reduction_eqb in H. cbn [fst snd] in H.
  apply andb_true_iff in H. destruct H as [H1 H2].
  apply N.eqb_eq in H1. apply N.eqb_eq in H2. subst. reflexivity.
Qed.

Lemma add_reduction_keeps :
  forall a acc r, In r acc -> In r (add_reduction a acc).
Proof.
  intros a acc r H. destruct a; try exact H. cbn.
  destruct (existsb (reduction_eqb (symbol, child_count)) acc);
    [exact H | right; exact H].
Qed.

Lemma fold_reductions_keeps :
  forall l acc r, In r acc -> In r (fold_right add_reduction acc l).
Proof.
  induction l as [|a l IH]; intros acc r H; [exact H|].
  cbn [fold_right]. apply add_reduction_keeps. exact (IH acc r H).
Qed.

Lemma fold_reductions_adds :
  forall l acc symbol child_count,
    In (REDUCE symbol child_count) l ->
    In (symbol, child_count) (fold_right add_reduction acc l).
Proof.
  induction l as [|a l IH]; intros acc symbol child_count H; [destruct H|].
  cbn [fold_right]. destruct H as [-> | H].
  - cbn.
    destruct (existsb (reduction_eqb (symbol, child_count))
                (fold_right add_reduction acc l)) eqn:E.
    + apply existsb_exists in E. destruct E as [r [Hr Heq]].
      apply reduction_eqb_eq in Heq. subst r. exact Hr.
    + left. reflexivity.
  - apply add_reduction_keeps. exact (IH acc symbol child_count H).
Qed.

Lemma state_reductions_complete :
  forall s la symbol child_count,
    In la all_tokens ->
    In (REDUCE symbol child_count) (ts_language_actions s la) ->
    In (symbol, child_count) (state_reductions s).
Proof.
  intros s la symbol child_count Hla H. unfold state_reductions.
  induction all_tokens as [|la' tokens IH]; [destruct Hla|].
  cbn [fold_right]. destruct Hla as [-> | Hla].
  - apply fold_reductions_adds. exact H.
  - apply fold_reductions_keeps. exact (IH Hla).
Qed.

Lemma in_all_tokens : forall la, la < TOKEN_COUNT -> In la all_tokens.
Proof. intros la H. apply in_range_list. exact H. Qed.

Lemma parse_action_in :
  forall s la a,
    parse_action s la = Some a -> In a (ts_language_actions s la).
Proof.
  intros s la a H. unfold parse_action in H.
  apply find_some in H. exact (proj1 H).
Qed.

(** *** The invariant *)

Section Automaton.

Variable P : NodeRule.
Hypothesis checked : automaton_ok P = true.

Lemma checked_state :
  forall s,
    In s all_states ->
    shifts_ok s = true
    /\ forallb (reduce_ok P all_edges s) (state_reductions s) = true.
Proof.
  intros s Hs. unfold automaton_ok in checked. cbv zeta in checked.
  pose proof (proj1 (forallb_forall _ _) checked s Hs) as H.
  apply andb_true_iff in H. exact H.
Qed.

Lemma shift_valid :
  forall s la next,
    In s all_states -> la < TOKEN_COUNT ->
    In (SHIFT next) (ts_language_actions s la) ->
    valid_state next = true.
Proof.
  intros s la next Hs Hla H.
  destruct (checked_state s Hs) as [Hshift _]. unfold shifts_ok in Hshift.
  pose proof (proj1 (forallb_forall _ _) Hshift la (in_all_tokens la Hla))
    as H1.
  exact (proj1 (forallb_forall _ _) H1 (SHIFT next) H).
Qed.

Lemma reduce_checked :
  forall s la symbol child_count,
    In s all_states -> la < TOKEN_COUNT ->
    In (REDUCE symbol child_count) (ts_language_actions s la) ->
    reduce_ok P all_edges s (symbol, child_count) = true.
Proof.
  intros s la symbol child_count Hs Hla H.
  destruct (checked_state s Hs) as [_ Hred].
  apply (proj1 (forallb_forall _ _) Hred).
  exact (state_reductions_complete s la symbol child_count
           (in_all_tokens la Hla) H).
Qed.

Lemma shift_keeps_stack :
  forall stack token next,
    stack_ok P stack ->
    tok_symbol token < TOKEN_COUNT ->
    parse_action (ts_stack_state stack) (tok_symbol token)
    = Some (SHIFT next) ->
    stack_ok P ((next, Leaf (tok_symbol token) (tok_text token)) :: stack).
Proof.
  intros stack token next Hstack Hla Hact.
  apply parse_action_in in Hact.
  cbn [stack_ok subtree_symbol tree_ok]. split; [|split; [|split; [|split]]].
  - exact (shift_valid _ _ _ (stack_state_in P stack Hstack) Hla Hact).
  - unfold TOKEN_COUNT, SYMBOL_COUNT in *. lia.
  - unfold targets. apply N.ltb_lt in Hla. rewrite Hla.
    unfold shift_targets. apply in_flat_map. exists (SHIFT next).
    split; [exact Hact | left; reflexivity].
  - reflexivity.
  - exact Hstack.
Qed.

Lemma reduce_keeps_stack :
  forall stack token symbol child_count,
    stack_ok P stack ->
    tok_symbol token < TOKEN_COUNT ->
    parse_action (ts_stack_state stack) (tok_symbol token)
    = Some (REDUCE symbol child_count) ->
    stack_ok P (ts_parser_reduce stack symbol child_count).
Proof.
  intros stack token symbol child_count Hstack Hla Hact.
  apply parse_action_in in Hact.
  pose proof (reduce_checked _ _ _ _ (stack_state_in P stack Hstack) Hla Hact)
    as Hred.
  unfold reduce_ok in Hred. cbn [fst snd] in Hred.
  apply andb_true_iff in Hred. destruct Hred as [Hsym Hpaths].
  apply andb_true_iff in Hsym. destruct Hsym as [Hnt Hsym].
  pose proof (proj1 (forallb_forall _ _) Hpaths _
                (back_paths_complete P (N.to_nat child_count) stack Hstack))
    as Hpath.
  cbn [fst snd] in Hpath. apply andb_true_iff in Hpath.
  destruct Hpath as [HP Hgoto].
  unfold ts_parser_reduce.
  cbn [stack_ok subtree_symbol tree_ok]. split; [|split; [|split; [|split]]].
  - exact Hgoto.
  - apply N.ltb_lt. exact Hsym.
  - unfold targets. apply N.leb_le in Hnt.
    assert (E : (symbol <? TOKEN_COUNT) = false) by (apply N.ltb_ge; exact Hnt).
    rewrite E. left. reflexivity.
  - rewrite HP. apply children_ok. exact Hstack.
  - apply stack_ok_skipn. exact Hstack.
Qed.

Lemma ts_parser_run_invariant :
  forall fuel stack lookahead input tree,
    stack_ok P stack ->
    lookahead_ok lookahead ->
    ts_parser_run fuel stack lookahead input = Accepted tree ->
    tree_ok P tree = true.
Proof.
  induction fuel as [|fuel IH]; intros stack lookahead input tree Hstack Hla H;
    [discriminate H|].
  cbn [ts_parser_run] in H. destruct lookahead as [token|].
  - cbn [lookahead_ok] in Hla.
    destruct (parse_action (ts_stack_state stack) (tok_symbol token))
      as [[next|next|symbol child_count| |]|] eqn:Eact; try discriminate H.
    + apply (IH _ None _ _ (shift_keeps_stack _ _ _ Hstack Hla Eact) I H).
    + apply (IH _ (Some token) _ _
               (reduce_keeps_stack _ _ _ _ Hstack Hla Eact) Hla H).
    + destruct stack as [|[s t] below]; [discriminate H|].
      injection H as <-. destruct Hstack as [_ [_ [_ [Ht _]]]]. exact Ht.
    + destruct (tok_is_keyword token
                && negb (tok_symbol token =? keyword_capture_token)
                && ts_language_has_actions (ts_stack_state stack)
                     keyword_capture_token); [|discriminate H].
      refine (IH _ (Some _) _ _ Hstack _ H). reflexivity.
  - destruct (ts_parser_lex (ts_stack_state stack) input)
      as [[token rest]|] eqn:Elex; [|discriminate H].
    apply (IH _ (Some token) _ _ Hstack
             (ts_parser_lex_token _ _ _ _ (stack_state_in P stack Hstack) Elex)
             H).
Qed.

Lemma parsed_tree_ok :
  forall source tree, parses_to source tree -> tree_ok P tree = true.
Proof.
  intros source tree [fuel H].
  exact (ts_parser_run_invariant fuel [] None source tree I I H).
Qed.

End Automaton.

(** *** Every node of a checked tree obeys the rule *)

Lemma tree_ok_subtrees :
  forall P t,
    tree_ok P t = true ->
    forall symbol children,
      In (Node symbol children) (subtrees t) ->
      P symbol (map subtree_symbol children) = true.
Proof.
  intros P.
  fix IH 1. intros t Ht symbol children Hin.
  destruct t as [s text | s cs].
  - destruct Hin as [E | []]. discriminate E.
  - cbn [tree_ok] in Ht. apply andb_true_iff in Ht. destruct Ht as [HP Hcs].
    destruct Hin as [E | Hin].
    + injection E as <- <-. exact HP.
    + cbn in Hin. clear HP. revert Hcs Hin.
      induction cs as [|c cs IHcs]; intros Hcs Hin; [destruct Hin|].
      cbn [forallb] in Hcs. apply andb_true_iff in Hcs.
      destruct Hcs as [Hc Hcs]. cbn [flat_map] in Hin.
      apply in_app_or in Hin. destruct Hin as [Hin | Hin].
      * exact (IH c Hc symbol children Hin).
      * exact (IHcs Hcs Hin).
Qed.

(** ** Clauses (C5) *)

Lemma clause_rule_checked : automaton_ok clause_rule = true.
Proof. apply automaton_ok_by_rows. vm_compute. reflexivity. Qed.

Lemma one_of_in :
  forall symbols symbol, one_of symbols symbol = true -> In symbol symbols.
Proof.
  intros symbols symbol H. apply existsb_exists in H.
  destruct H as [x [Hin Hx]]. apply N.eqb_eq in Hx. subst x. exact Hin.
Qed.

Lemma not_among :
  forall (f : TSSymbol -> bool) l x,
    negb (existsb f l) = true -> In x l -> f x = true -> False.
Proof.
  intros f l x H Hin Hx.
  assert (He : existsb f l = true) by (apply existsb_exists; eauto).
  rewrite He in H. discriminate H.
Qed.

Lemma forallb2_eq_eq : forall l1 l2, forallb2_eq l1 l2 = true -> l1 = l2.
Proof.
  induction l1 as [|x l1 IH]; intros [|y l2] H; try discriminate H.
  - reflexivity.
  - cbn [forallb2_eq] in H. apply andb_true_iff in H. destruct H as [Hx Hl].
    apply N.eqb_eq in Hx. subst y. f_equal. exact (IH l2 Hl).
Qed.

Lemma clause_rule_parts :
  forall symbol children,
    clause_rule symbol children = true ->
    (In sym_step_clauses children ->
     symbol = sym_step_def \/ symbol = sym_riser_def)
    /\ (forall c, In c children -> In c clause_symbols ->
        symbol = sym_step_clauses \/ symbol = aux_sym_step_clauses_repeat1)
    /\ (symbol = sym_building_def ->
        children = [anon_sym_building_COLON; sym_identifier])
    /\ (symbol = sym_floor_def ->
        children = [anon_sym_floor_COLON; sym_identifier]).
Proof.
  intros symbol children H. unfold clause_rule in H.
  apply andb_true_iff in H. destruct H as [H Hfloor].
  apply andb_true_iff in H. destruct H as [H Hbuilding].
  apply andb_true_iff in H. destruct H as [Hclauses Hclause].
  apply orb_true_iff in Hclauses. apply orb_true_iff in Hclause.
  apply orb_true_iff in Hbuilding. apply orb_true_iff in Hfloor.
  repeat split.
  - intros Hin. destruct Hclauses as [Hno | Hone].
    + exfalso.
      exact (not_among _ _ _ Hno Hin (N.eqb_refl sym_step_clauses)).
    + apply one_of_in in Hone.
      destruct Hone as [E | [E | []]]; [left | right]; symmetry; exact E.
  - intros c Hin Hc. destruct Hclause as [Hno | Hone].
    + exfalso. refine (not_among _ _ _ Hno Hin _).
      unfold one_of. apply existsb_exists. exists c.
      split; [exact Hc | apply N.eqb_refl].
    + apply one_of_in in Hone.
      destruct Hone as [E | [E | []]]; [left | right]; symmetry; exact E.
  - intros E. destruct Hbuilding as [Hno | Heq].
    + subst symbol. discriminate Hno.
    + exact (forallb2_eq_eq _ _ Heq).
  - intros E. destruct Hfloor as [Hno | Heq].
    + subst symbol. discriminate Hno.
    + exact (forallb2_eq_eq _ _ Heq).
Qed.

(** C5, as stated, fails: [riser: r expects: x as number] parses, and its
    Riser definition carries a clauses node. *)
Lemma C5_clauses_counterexample :
  ~ (forall source tree,
        parses_to source tree ->
        forall node,
          In node (subtrees tree) ->
          carries_clauses node = true ->
          subtree_symbol node = sym_step_def).
Proof.
  intros H.
  pose (riser :=
          Node sym_riser_def
            [ leaf anon_sym_riser_COLON "riser:"; leaf sym_identifier "r";
              expects_x_as_number ]).
  specialize (H riser_with_clause
                (Node sym_source_file [Node sym_structure_definition [riser]])
                ltac:(exists 100%nat; vm_compute; reflexivity)
                riser
                ltac:(right; right; left; reflexivity)
                ltac:(reflexivity)).
  vm_compute in H. discriminate H.
Qed.

(** C5, amended: in every parsed Program a clauses node is a child of a
    Step or a Riser definition only, the clauses ([belongs to:],
    [expects:], [returns:]) are children of a clauses node (or of its
    repetition) only, and a Building or Floor definition holds its keyword
    and its name and nothing else. *)
Theorem C5_clauses_on_step_or_riser :
  forall source tree,
    parses_to source tree ->
    forall symbol children,
      In (Node symbol children) (subtrees tree) ->
      (In sym_step_clauses (map subtree_symbol children) ->
       symbol = sym_step_def \/ symbol = sym_riser_def)
      /\ (forall c,
             In c (map subtree_symbol children) -> In c clause_symbols ->
             symbol = sym_step_clauses
             \/ symbol = aux_sym_step_clauses_repeat1)
      /\ (symbol = sym_building_def ->
          map subtree_symbol children
          = [anon_sym_building_COLON; sym_identifier])
      /\ (symbol = sym_floor_def ->
          map subtree_symbol children
          = [anon_sym_floor_COLON; sym_identifier]).
Proof.
  intros source tree Hp symbol children Hin.
  apply clause_rule_parts.
  apply (tree_ok_subtrees clause_rule tree); [|exact Hin].
  exact (parsed_tree_ok clause_rule clause_rule_checked source tree Hp).
Qed.

Lemma C5_clauses_on_step_or_riser_witness :
  parses_to step_with_clause step_with_clause_tree
  /\ (sym_step_def = sym_step_def \/ sym_step_def = sym_riser_def).
Proof.
  assert (Hp : parses_to step_with_clause step_with_clause_tree).
  { exists 100%nat. vm_compute. reflexivity. }
  split; [exact Hp|].
  refine (proj1 (C5_clauses_on_step_or_riser
                   step_with_clause step_with_clause_tree Hp sym_step_def
                   [ leaf anon_sym_step_COLON "step:";
                     leaf sym_identifier "s"; expects_x_as_number ] _) _).
  - right. right. left. reflexivity.
  - right. right. left. reflexivity.
Defined.

(** ** Assignment (C3) *)

(** *** The checks on the tables *)

Lemma assignment_rule_checked : automaton_ok assignment_rule = true.
Proof. apply automaton_ok_by_rows. vm_compute. reflexivity. Qed.

Lemma lexing_after_to : same_lexing after_display after_to = true.
Proof. vm_compute. reflexivity. Qed.

Lemma lexing_when_complete :
  same_lexing display_complete assignment_complete = true.
Proof. vm_compute. reflexivity. Qed.

Lemma follows_after_to : follows swap_state after_display after_to = true.
Proof. vm_compute. reflexivity. Qed.

Lemma follows_when_complete :
  follows (fun s => s) display_complete assignment_complete = true.
Proof. vm_compute. reflexivity. Qed.

Lemma goto_after_to : same_goto swap_state after_display after_to = true.
Proof. vm_compute. reflexivity. Qed.

Lemma goto_when_complete :
  same_goto (fun s => s) display_complete assignment_complete = true.
Proof. vm_compute. reflexivity. Qed.

Lemma display_reduced_checked : display_reduced_when_complete = true.
Proof. vm_compute. reflexivity. Qed.

Lemma accept_from_start_checked :
  accept_from_start accepting_states all_edges = true.
Proof.
  assert (H : (let rows := table_rows in
               accept_from_start
                 (filter (accepts_by (row_lookup rows)) all_states)
                 (all_edges_by (row_lookup rows))) = true)
    by (vm_compute; reflexivity).
  cbv zeta in H.
  rewrite (all_edges_by_lookup _ row_lookup_rows) in H.
  rewrite (filter_ext _ _ (accepts_by_lookup _ row_lookup_rows)) in H.
  exact H.
Qed.

Lemma no_accept_after_display : accepts after_display = false.
Proof. vm_compute. reflexivity. Qed.

Lemma no_accept_at_start : accepts START_STATE = false.
Proof. vm_compute. reflexivity. Qed.

(** *** What the checks say *)

Lemma action_eqb_eq : forall a b, action_eqb a b = true -> a = b.
Proof.
  intros [[x|x|s n| |]|] [[y|y|s' n'| |]|] H;
    try discriminate H; try reflexivity.
  - apply N.eqb_eq in H. subst. reflexivity.
  - apply N.eqb_eq in H. subst. reflexivity.
  - cbn in H. apply andb_true_iff in H. destruct H as [H1 H2].
    apply N.eqb_eq in H1. apply N.eqb_eq in H2. subst. reflexivity.
Qed.

Lemma keyword_or_word_same :
  forall a b m,
    (forall k, k < TOKEN_COUNT ->
               ts_language_has_actions a k = ts_language_has_actions b k) ->
    keyword_or_word a m = keyword_or_word b m.
Proof.
  intros a b [[symbol text] rest] H. unfold keyword_or_word.
  destruct (symbol =? keyword_capture_token); [|reflexivity].
  pose proof (run_lex_keywords_token (text ++ rest)) as Hk.
  destruct (run_lex_keywords (text ++ rest)) as [[[k text'] rest']| |];
    try reflexivity.
  cbn in Hk. apply N.ltb_lt in Hk. rewrite (H k Hk). reflexivity.
Qed.

Lemma same_lexing_lex :
  forall a b,
    same_lexing a b = true ->
    forall input, ts_parser_lex a input = ts_parser_lex b input.
Proof.
  intros a b H input. unfold same_lexing in H.
  apply andb_true_iff in H. destruct H as [Hm Hk].
  apply N.eqb_eq in Hm.
  assert (Hsame : forall m, keyword_or_word a m = keyword_or_word b m).
  { intros m. apply keyword_or_word_same. intros k Hlt.
    pose proof (proj1 (forallb_forall _ _) Hk k (in_all_tokens k Hlt)) as E.
    apply eqb_prop in E. exact E. }
  unfold ts_parser_lex. rewrite Hm.
  destruct (run_lex (ts_lex_modes b) input) as [m| |].
  - rewrite Hsame. reflexivity.
  - destruct (run_lex (ts_lex_modes ERROR_STATE) input) as [m| |];
      try reflexivity.
    rewrite Hsame. reflexivity.
  - destruct (run_lex (ts_lex_modes ERROR_STATE) input) as [m| |];
      try reflexivity.
    rewrite Hsame. reflexivity.
Qed.

Lemma same_lexing_identifier :
  forall a b,
    same_lexing a b = true ->
    ts_language_has_actions a keyword_capture_token
    = ts_language_has_actions b keyword_capture_token.
Proof.
  intros a b H. unfold same_lexing in H.
  apply andb_true_iff in H. destruct H as [_ Hk].
  assert (Hlt : keyword_capture_token < TOKEN_COUNT) by reflexivity.
  pose proof (proj1 (forallb_forall _ _) Hk keyword_capture_token
                (in_all_tokens keyword_capture_token Hlt)) as E.
  apply eqb_prop in E. exact E.
Qed.

Lemma follows_shift :
  forall f a b la next,
    follows f a b = true -> la < TOKEN_COUNT ->
    parse_action a la = Some (SHIFT next) ->
    parse_action b la = Some (SHIFT (f next)).
Proof.
  intros f a b la next H Hla Ha.
  pose proof (proj1 (forallb_forall _ _) H la (in_all_tokens la Hla)) as E.
  cbv beta in E. rewrite Ha in E. apply action_eqb_eq. exact E.
Qed.

Lemma follows_none :
  forall f a b la,
    follows f a b = true -> la < TOKEN_COUNT ->
    parse_action a la = None -> parse_action b la = None.
Proof.
  intros f a b la H Hla Ha.
  pose proof (proj1 (forallb_forall _ _) H la (in_all_tokens la Hla)) as E.
  cbv beta in E. rewrite Ha in E. apply action_eqb_eq. exact E.
Qed.

Lemma follows_no_accept :
  forall f a b la,
    follows f a b = true -> la < TOKEN_COUNT ->
    parse_action a la <> Some ACCEPT_INPUT.
Proof.
  intros f a b la H Hla Ha.
  pose proof (proj1 (forallb_forall _ _) H la (in_all_tokens la Hla)) as E.
  cbv beta in E. rewrite Ha in E. discriminate E.
Qed.

Lemma follows_reduce :
  forall f a b la symbol child_count,
    follows f a b = true -> la < TOKEN_COUNT ->
    parse_action a la = Some (REDUCE symbol child_count) ->
    (symbol = sym_display_statement /\ a = display_complete
     /\ child_count = 2
     /\ parse_action b la = Some (REDUCE sym_assignment 4))
    \/ (symbol <> sym_display_statement
        /\ parse_action b la = Some (REDUCE symbol child_count)).
Proof.
  intros f a b la symbol child_count H Hla Ha.
  pose proof (proj1 (forallb_forall _ _) H la (in_all_tokens la Hla)) as E.
  cbv beta in E. rewrite Ha in E.
  destruct (symbol =? sym_display_statement) eqn:Es.
  - left. apply N.eqb_eq in Es.
    apply andb_true_iff in E. destruct E as [E E3].
    apply andb_true_iff in E. destruct E as [E1 E2].
    apply N.eqb_eq in E1. apply N.eqb_eq in E2.
    apply action_eqb_eq in E3. repeat split; assumption.
  - right. apply N.eqb_neq in Es. apply action_eqb_eq in E.
    split; assumption.
Qed.

Lemma same_goto_at :
  forall (f : TSStateId -> TSStateId) (a b : TSStateId) (symbol : TSSymbol),
    same_goto f a b = true ->
    TOKEN_COUNT <= symbol -> symbol < SYMBOL_COUNT ->
    ts_language_next_state b symbol = f (ts_language_next_state a symbol).
Proof.
  intros f a b symbol H H1 H2.
  pose proof (proj1 (forallb_forall _ _) H symbol (in_all_symbols symbol H2))
    as E.
  cbv beta in E. apply orb_true_iff in E. destruct E as [E | E].
  - apply N.ltb_lt in E. exfalso. apply (N.lt_irrefl symbol).
    exact (N.lt_le_trans _ _ _ E H1).
  - apply N.eqb_eq in E. exact E.
Qed.

Lemma accepts_at :
  forall s la,
    la < TOKEN_COUNT -> parse_action s la = Some ACCEPT_INPUT ->
    accepts s = true.
Proof.
  intros s la Hla H. unfold accepts. apply existsb_exists.
  exists la. split; [exact (in_all_tokens la Hla)|]. rewrite H. reflexivity.
Qed.

Lemma in_accepting_states :
  forall s, In s all_states -> accepts s = true -> In s accepting_states.
Proof.
  intros s Hs Ha. unfold accepting_states.
  apply (proj2 (filter_In accepts s all_states)). split; assumption.
Qed.

Lemma edge_checked_in :
  forall accepting E,
    accept_from_start accepting E = true ->
    forall s0 symbol s,
      In (s0, symbol, s) E ->
      s <> START_STATE /\ (In s accepting -> s0 = START_STATE).
Proof.
  intros accepting E H s0 symbol s Hin. unfold accept_from_start in H.
  pose proof (proj1 (forallb_forall _ _) H _ Hin) as E1. cbv beta iota in E1.
  apply andb_true_iff in E1. destruct E1 as [E1 E2]. split.
  - intros ->. rewrite N.eqb_refl in E1. discriminate E1.
  - intros Ha. apply orb_true_iff in E2. destruct E2 as [E2 | E2].
    + exfalso.
      assert (He : existsb (N.eqb s) accepting = true).
      { apply existsb_exists. exists s. split; [exact Ha | apply N.eqb_refl]. }
      rewrite He in E2. discriminate E2.
    + apply N.eqb_eq. exact E2.
Qed.

Lemma edge_checked :
  forall s0 symbol s,
    In (s0, symbol, s) all_edges ->
    s <> START_STATE /\ (In s accepting_states -> s0 = START_STATE).
Proof.
  exact (edge_checked_in accepting_states all_edges accept_from_start_checked).
Qed.

(** When the loop accepts, the stack holds one entry. *)
Lemma accept_single :
  forall P stack la,
    stack_ok P stack -> la < TOKEN_COUNT ->
    parse_action (ts_stack_state stack) la = Some ACCEPT_INPUT ->
    exists s t, stack = [(s, t)].
Proof.
  intros P stack la Hstack Hla Hact.
  pose proof (accepts_at _ _ Hla Hact) as Hacc.
  destruct stack as [|[s t] below].
  - cbn [ts_stack_state] in Hacc. rewrite no_accept_at_start in Hacc.
    discriminate Hacc.
  - exists s, t. f_equal.
    destruct Hstack as [Hv [Hsym [Ht [_ Hbelow]]]].
    pose proof (in_all_edges _ _ _ (stack_state_in P below Hbelow)
                  Hsym Ht Hv) as Hedge.
    destruct (edge_checked _ _ _ Hedge) as [_ Hstart].
    specialize (Hstart (in_accepting_states s (valid_state_in s Hv) Hacc)).
    destruct below as [|[s0 t0] below']; [reflexivity|].
    exfalso. cbn [ts_stack_state] in Hstart.
    destruct Hbelow as [Hv0 [Hsym0 [Ht0 [_ Hbelow']]]].
    pose proof (in_all_edges _ _ _ (stack_state_in P below' Hbelow')
                  Hsym0 Ht0 Hv0) as Hedge0.
    destruct (edge_checked _ _ _ Hedge0) as [Hne _].
    exact (Hne Hstart).
Qed.

(** *** Reductions on a stack *)

Lemma reduce_within :
  forall upper base symbol child_count,
    (N.to_nat child_count <= List.length upper)%nat ->
    ts_parser_reduce (upper ++ base) symbol child_count
    = (ts_language_next_state
         (ts_stack_state (skipn (N.to_nat child_count) upper ++ base)) symbol,
       Node symbol (rev (map snd (firstn (N.to_nat child_count) upper))))
      :: (skipn (N.to_nat child_count) upper ++ base).
Proof.
  intros upper base symbol child_count H. unfold ts_parser_reduce. cbv zeta.
  rewrite firstn_app, skipn_app.
  replace (N.to_nat child_count - List.length upper)%nat with 0%nat by lia.
  cbn [firstn skipn]. rewrite !app_nil_r. reflexivity.
Qed.

Lemma reduce_beyond :
  forall stack symbol child_count,
    (List.length stack <= N.to_nat child_count)%nat ->
    ts_parser_reduce stack symbol child_count
    = [(ts_language_next_state START_STATE symbol,
        Node symbol (rev (map snd stack)))].
Proof.
  intros stack symbol child_count H. unfold ts_parser_reduce. cbv zeta.
  rewrite firstn_all2 by exact H. rewrite skipn_all2 by exact H.
  reflexivity.
Qed.

Lemma stack_state_over_bottom :
  forall upper s t,
    ts_stack_state (upper ++ [(s, t)]) = stack_state_over upper s.
Proof. intros [|[s' t'] upper] s t; reflexivity. Qed.

Lemma reduce_over_bottom :
  forall upper s C symbol child_count,
    exists upper' s' C',
      forall x,
        ts_parser_reduce (upper ++ [(s, plug C x)]) symbol child_count
        = upper' ++ [(s', plug C' x)].
Proof.
  intros upper s C symbol child_count.
  destruct (Nat.le_gt_cases (N.to_nat child_count) (List.length upper))
    as [Hle | Hgt].
  - exists ((ts_language_next_state
               (stack_state_over (skipn (N.to_nat child_count) upper) s)
               symbol,
             Node symbol (rev (map snd (firstn (N.to_nat child_count) upper))))
            :: skipn (N.to_nat child_count) upper), s, C.
    intros x. rewrite (reduce_within _ _ _ _ Hle).
    rewrite stack_state_over_bottom. reflexivity.
  - exists [], (ts_language_next_state START_STATE symbol),
      (Under symbol C (rev (map snd upper))).
    intros x. rewrite reduce_beyond.
    + rewrite map_app, rev_app_distr. reflexivity.
    + rewrite length_app. cbn [List.length]. lia.
Qed.

Lemma reduce_symbol :
  forall P,
    automaton_ok P = true ->
    forall s la symbol child_count,
      In s all_states -> la < TOKEN_COUNT ->
      parse_action s la = Some (REDUCE symbol child_count) ->
      TOKEN_COUNT <= symbol /\ symbol < SYMBOL_COUNT.
Proof.
  intros P checked s la symbol child_count Hs Hla Hact.
  apply parse_action_in in Hact.
  pose proof (reduce_checked P checked _ _ _ _ Hs Hla Hact) as Hred.
  unfold reduce_ok in Hred. cbn [fst snd] in Hred.
  apply andb_true_iff in Hred. destruct Hred as [Hsym _].
  apply andb_true_iff in Hsym. destruct Hsym as [H1 H2].
  split; [apply N.leb_le; exact H1 | apply N.ltb_lt; exact H2].
Qed.

(** *** After the statement is reduced *)

Section OverBottom.

Variable P : NodeRule.
Hypothesis checked : automaton_ok P = true.
Variables D A : Subtree.

(** Once the statement lies at the bottom of the stack, the loop does not
    look at it: with [A] in the place of [D] it accepts as well, and the
    tree is the same around that place. *)
Lemma accepted_over_bottom :
  forall fuel upper s C lookahead input tree,
    stack_ok P (upper ++ [(s, plug C D)]) ->
    lookahead_ok lookahead ->
    ts_parser_run fuel (upper ++ [(s, plug C D)]) lookahead input
    = Accepted tree ->
    exists C',
      tree = plug C' D
      /\ ts_parser_run fuel (upper ++ [(s, plug C A)]) lookahead input
         = Accepted (plug C' A).
Proof.
  induction fuel as [|fuel IH];
    intros upper s C lookahead input tree Hstack Hla H; [discriminate H|].
  cbn [ts_parser_run] in H |- *.
  rewrite (stack_state_over_bottom upper s (plug C A)).
  rewrite (stack_state_over_bottom upper s (plug C D)) in H.
  pose proof (stack_state_over_bottom upper s (plug C D)) as Etop.
  destruct lookahead as [token|].
  - cbn [lookahead_ok] in Hla.
    destruct (parse_action (stack_state_over upper s) (tok_symbol token))
      as [[next|next|symbol child_count| |]|] eqn:Eact; try discriminate H.
    + rewrite <- Etop in Eact.
      pose proof (shift_keeps_stack P checked _ _ _ Hstack Hla Eact) as Hstack'.
      exact (IH ((next, Leaf (tok_symbol token) (tok_text token)) :: upper)
               s C None input tree Hstack' I H).
    + rewrite <- Etop in Eact.
      pose proof (reduce_keeps_stack P checked _ _ _ _ Hstack Hla Eact)
        as Hstack'.
      destruct (reduce_over_bottom upper s C symbol child_count)
        as [upper' [s' [C' Hred]]].
      rewrite (Hred D) in H, Hstack'. rewrite (Hred A).
      exact (IH upper' s' C' (Some token) input tree Hstack' Hla H).
    + rewrite <- Etop in Eact.
      destruct (accept_single P _ _ Hstack Hla Eact) as [s1 [t1 Hone]].
      destruct upper as [|e upper].
      * cbn [app] in H |- *. injection H as <-. exists C.
        split; reflexivity.
      * exfalso. cbn [app] in Hone. injection Hone as _ Hnil.
        destruct upper; discriminate Hnil.
    + destruct (tok_is_keyword token
                && negb (tok_symbol token =? keyword_capture_token)
                && ts_language_has_actions (stack_state_over upper s)
                     keyword_capture_token); [|discriminate H].
      refine (IH upper s C (Some _) input tree Hstack _ H). reflexivity.
  - destruct (ts_parser_lex (stack_state_over upper s) input)
      as [[token rest]|] eqn:Elex; [|discriminate H].
    rewrite <- Etop in Elex.
    exact (IH upper s C (Some token) rest tree Hstack
             (ts_parser_lex_token _ _ _ _ (stack_state_in P _ Hstack) Elex)
             H).
Qed.

End OverBottom.

(** *** The entries above [display] and above [set X to] *)

Lemma swap_bottom_cons :
  forall e e' upper,
    swap_bottom (e :: e' :: upper) = e :: swap_bottom (e' :: upper).
Proof. intros [s t] e' upper. reflexivity. Qed.

Lemma swap_bottom_one :
  forall s t, swap_bottom [(s, t)] = [(swap_state s, t)].
Proof. reflexivity. Qed.

Lemma length_swap_bottom :
  forall upper, List.length (swap_bottom upper) = List.length upper.
Proof.
  induction upper as [|e upper IH]; [reflexivity|].
  destruct upper as [|e' upper].
  - destruct e. reflexivity.
  - rewrite swap_bottom_cons. cbn [List.length]. rewrite IH. reflexivity.
Qed.

Lemma trees_swap_bottom :
  forall upper, map snd (swap_bottom upper) = map snd upper.
Proof.
  induction upper as [|e upper IH]; [reflexivity|].
  destruct upper as [|e' upper].
  - destruct e. reflexivity.
  - rewrite swap_bottom_cons. cbn [map]. rewrite IH. reflexivity.
Qed.

Lemma skipn_swap_bottom :
  forall upper n, skipn n (swap_bottom upper) = swap_bottom (skipn n upper).
Proof.
  induction upper as [|e upper IH]; intros n.
  - rewrite !skipn_nil. reflexivity.
  - destruct n as [|n]; [reflexivity|].
    destruct upper as [|e' upper].
    + destruct e. cbn [swap_bottom skipn]. rewrite !skipn_nil. reflexivity.
    + rewrite swap_bottom_cons. cbn [skipn]. apply IH.
Qed.

Lemma firstn_swap_bottom :
  forall upper n,
    map snd (firstn n (swap_bottom upper)) = map snd (firstn n upper).
Proof.
  intros upper n. rewrite <- !firstn_map, trees_swap_bottom. reflexivity.
Qed.

Section AfterTo.

Variable X : list N.

Lemma top_stands_for :
  forall upper,
    stands_for (ts_stack_state (upper ++ display_stack))
      (ts_stack_state (swap_bottom upper ++ set_stack X)).
Proof.
  intros [|[s t] [|e upper]].
  - left. split; reflexivity.
  - cbn [swap_bottom app ts_stack_state]. unfold swap_state.
    destruct (s =? display_complete) eqn:E.
    + apply N.eqb_eq in E. right. left. split; [exact E | reflexivity].
    + right. right. reflexivity.
  - right. right. rewrite swap_bottom_cons. reflexivity.
Qed.

Lemma top_above_bottom :
  forall upper,
    (2 <= List.length upper)%nat ->
    ts_stack_state (swap_bottom upper ++ set_stack X)
    = ts_stack_state (upper ++ display_stack).
Proof.
  intros [|[s t] [|e upper]] H; cbn [List.length] in H; try lia.
  rewrite swap_bottom_cons. reflexivity.
Qed.

End AfterTo.

(** *** What the state that stands for another does *)

Lemma stands_for_lex :
  forall a b,
    stands_for a b ->
    forall input, ts_parser_lex b input = ts_parser_lex a input.
Proof.
  intros a b [[-> ->] | [[-> ->] | ->]] input.
  - symmetry. exact (same_lexing_lex _ _ lexing_after_to input).
  - symmetry. exact (same_lexing_lex _ _ lexing_when_complete input).
  - reflexivity.
Qed.

Lemma stands_for_identifier :
  forall a b,
    stands_for a b ->
    ts_language_has_actions b keyword_capture_token
    = ts_language_has_actions a keyword_capture_token.
Proof.
  intros a b [[-> ->] | [[-> ->] | ->]].
  - symmetry. exact (same_lexing_identifier _ _ lexing_after_to).
  - symmetry. exact (same_lexing_identifier _ _ lexing_when_complete).
  - reflexivity.
Qed.

Lemma stands_for_none :
  forall a b la,
    stands_for a b -> la < TOKEN_COUNT ->
    parse_action a la = None -> parse_action b la = None.
Proof.
  intros a b la [[-> ->] | [[-> ->] | ->]] Hla H.
  - exact (follows_none _ _ _ _ follows_after_to Hla H).
  - exact (follows_none _ _ _ _ follows_when_complete Hla H).
  - exact H.
Qed.

Lemma after_display_not_complete : after_display <> display_complete.
Proof. discriminate. Qed.

Lemma assignment_not_display : assignment_complete <> display_complete.
Proof. discriminate. Qed.

Lemma stands_for_reduce :
  forall a b la symbol child_count,
    stands_for a b -> la < TOKEN_COUNT ->
    parse_action a la = Some (REDUCE symbol child_count) ->
    parse_action b la = Some (REDUCE symbol child_count)
    \/ (a = display_complete /\ b = assignment_complete
        /\ symbol = sym_display_statement /\ child_count = 2
        /\ parse_action b la = Some (REDUCE sym_assignment 4)).
Proof.
  intros a b la symbol child_count [[-> ->] | [[-> ->] | ->]] Hla H.
  - destruct (follows_reduce _ _ _ _ _ _ follows_after_to Hla H)
      as [[_ [E _]] | [_ E]].
    + exfalso. exact (after_display_not_complete E).
    + left. exact E.
  - destruct (follows_reduce _ _ _ _ _ _ follows_when_complete Hla H)
      as [[Es [_ [Ec E]]] | [_ E]].
    + right. repeat split; assumption.
    + left. exact E.
  - left. exact H.
Qed.

(** *** The two runs, step by step *)

Lemma swap_state_shift :
  forall s la next,
    la < TOKEN_COUNT ->
    parse_action s la = Some (SHIFT next) ->
    parse_action (swap_state s) la = Some (SHIFT next).
Proof.
  intros s la next Hla H. unfold swap_state.
  destruct (s =? display_complete) eqn:E; [|exact H].
  apply N.eqb_eq in E. subst s.
  exact (follows_shift _ _ _ _ _ follows_when_complete Hla H).
Qed.

Lemma swap_state_goto :
  forall s symbol,
    TOKEN_COUNT <= symbol -> symbol < SYMBOL_COUNT ->
    ts_language_next_state (swap_state s) symbol
    = ts_language_next_state s symbol.
Proof.
  intros s symbol H1 H2. unfold swap_state.
  destruct (s =? display_complete) eqn:E; [|reflexivity].
  apply N.eqb_eq in E. subst s.
  exact (same_goto_at _ _ _ _ goto_when_complete H1 H2).
Qed.

Lemma exit_display :
  forall e,
    ts_parser_reduce ((display_complete, e) :: display_stack)
      sym_display_statement 2
    = [(26, display_node e)].
Proof. intros e. vm_compute. reflexivity. Qed.

Lemma exit_assignment :
  forall X e,
    ts_parser_reduce ((assignment_complete, e) :: set_stack X) sym_assignment 4
    = [(26, assignment_node X e)].
Proof. intros X e. vm_compute. reflexivity. Qed.

Section Runs.

Variable X : list N.

Lemma shift_after_to :
  forall upper la next t,
    la < TOKEN_COUNT ->
    parse_action (ts_stack_state (upper ++ display_stack)) la
    = Some (SHIFT next) ->
    exists next',
      parse_action (ts_stack_state (swap_bottom upper ++ set_stack X)) la
      = Some (SHIFT next')
      /\ (next', t) :: swap_bottom upper ++ set_stack X
         = swap_bottom ((next, t) :: upper) ++ set_stack X.
Proof.
  intros [|[s t'] [|e upper]] la next t Hla H.
  - exists (swap_state next). split; [|reflexivity].
    exact (follows_shift _ _ _ _ _ follows_after_to Hla H).
  - exists next. split; [|reflexivity].
    exact (swap_state_shift s la next Hla H).
  - exists next. rewrite !swap_bottom_cons. split; [exact H | reflexivity].
Qed.

Lemma push_after_to :
  forall rest symbol node,
    TOKEN_COUNT <= symbol -> symbol < SYMBOL_COUNT ->
    (ts_language_next_state
       (ts_stack_state (swap_bottom rest ++ set_stack X)) symbol, node)
    :: swap_bottom rest ++ set_stack X
    = swap_bottom
        ((ts_language_next_state (ts_stack_state (rest ++ display_stack))
            symbol, node) :: rest)
      ++ set_stack X.
Proof.
  intros [|[s t] [|e rest]] symbol node H1 H2.
  - cbn [swap_bottom app].
    change (ts_stack_state (set_stack X)) with after_to.
    change (ts_stack_state display_stack) with after_display.
    rewrite (same_goto_at _ _ _ _ goto_after_to H1 H2). reflexivity.
  - cbn [swap_bottom app ts_stack_state].
    rewrite (swap_state_goto s symbol H1 H2). reflexivity.
  - rewrite !swap_bottom_cons. reflexivity.
Qed.

Lemma reduce_after_to :
  forall upper symbol child_count,
    (N.to_nat child_count <= List.length upper)%nat ->
    TOKEN_COUNT <= symbol -> symbol < SYMBOL_COUNT ->
    exists upper',
      ts_parser_reduce (upper ++ display_stack) symbol child_count
      = upper' ++ display_stack
      /\ ts_parser_reduce (swap_bottom upper ++ set_stack X) symbol child_count
         = swap_bottom upper' ++ set_stack X.
Proof.
  intros upper symbol child_count Hle H1 H2.
  exists ((ts_language_next_state
             (ts_stack_state (skipn (N.to_nat child_count) upper
                              ++ display_stack)) symbol,
           Node symbol (rev (map snd (firstn (N.to_nat child_count) upper))))
          :: skipn (N.to_nat child_count) upper).
  split.
  - rewrite (reduce_within _ _ _ _ Hle). reflexivity.
  - rewrite reduce_within by (rewrite length_swap_bottom; exact Hle).
    rewrite skipn_swap_bottom, firstn_swap_bottom.
    apply push_after_to; assumption.
Qed.

(** A reduction that takes [display] from the stack is the one of the
    [display_statement], with the expression on top. *)
Lemma reduce_display :
  forall upper la symbol child_count,
    stack_ok assignment_rule (upper ++ display_stack) ->
    la < TOKEN_COUNT ->
    parse_action (ts_stack_state (upper ++ display_stack)) la
    = Some (REDUCE symbol child_count) ->
    (List.length upper < N.to_nat child_count)%nat ->
    exists e,
      upper = [(display_complete, e)]
      /\ symbol = sym_display_statement /\ child_count = 2
      /\ parse_action assignment_complete la = Some (REDUCE sym_assignment 4).
Proof.
  intros upper la symbol child_count Hstack Hla Hact Hgt.
  pose (token := {| tok_symbol := la; tok_text := []; tok_is_keyword := false |}).
  pose proof (reduce_keeps_stack assignment_rule assignment_rule_checked
                (upper ++ display_stack) token symbol child_count
                Hstack Hla Hact) as Hnew.
  rewrite reduce_beyond in Hnew
    by (rewrite length_app; cbn [List.length display_stack]; lia).
  destruct Hnew as [_ [_ [_ [Hnode _]]]].
  cbn [tree_ok] in Hnode. apply andb_true_iff in Hnode.
  destruct Hnode as [Hrule _].
  unfold assignment_rule in Hrule. apply andb_true_iff in Hrule.
  destruct Hrule as [Hrule _].
  assert (Hin : existsb (N.eqb anon_sym_display)
                  (map subtree_symbol (rev (map snd (upper ++ display_stack))))
                = true).
  { apply existsb_exists. exists anon_sym_display.
    split; [|apply N.eqb_refl].
    apply in_map_iff. exists (leaf anon_sym_display "display").
    split; [reflexivity|]. apply -> in_rev. rewrite map_app.
    apply in_or_app. right. left. reflexivity. }
  rewrite Hin in Hrule. cbn [negb orb] in Hrule.
  apply andb_true_iff in Hrule. destruct Hrule as [Hsym Hlen].
  apply N.eqb_eq in Hsym. apply Nat.eqb_eq in Hlen.
  rewrite length_map, length_rev, length_map, length_app in Hlen.
  cbn [List.length display_stack] in Hlen.
  destruct upper as [|[s e] [|e' upper]]; cbn [List.length] in Hlen; try lia.
  exists e. subst symbol.
  assert (Es : s = display_complete).
  { destruct Hstack as [_ [Hlt [Ht _]]].
    cbn [app ts_stack_state display_stack] in Ht.
    pose proof display_reduced_checked as Hc.
    unfold display_reduced_when_complete in Hc.
    pose proof (proj1 (forallb_forall _ _) Hc (subtree_symbol e)
                  (in_all_symbols _ Hlt)) as Hc1.
    pose proof (proj1 (forallb_forall _ _) Hc1 s Ht) as Hc2.
    cbv beta in Hc2. apply orb_true_iff in Hc2. destruct Hc2 as [Hc2 | Hc2].
    - apply N.eqb_eq. exact Hc2.
    - exfalso.
      pose proof (proj1 (forallb_forall _ _) Hc2 la (in_all_tokens la Hla))
        as Hc3.
      cbv beta in Hc3. cbn [app ts_stack_state] in Hact.
      rewrite Hact in Hc3. rewrite N.eqb_refl in Hc3. discriminate Hc3. }
  subst s. cbn [app ts_stack_state] in Hact.
  destruct (follows_reduce _ _ _ _ _ _ follows_when_complete Hla Hact)
    as [[_ [_ [Ec E]]] | [Hne _]].
  - repeat split; assumption.
  - exfalso. apply Hne. reflexivity.
Qed.

(** From the stacks after [display] and after [set X to]: when the first
    run accepts, so does the second, with an [assignment] in the place of
    the [display_statement]. *)
Lemma accepted_after_to :
  forall fuel upper lookahead input tree,
    stack_ok assignment_rule (upper ++ display_stack) ->
    lookahead_ok lookahead ->
    ts_parser_run fuel (upper ++ display_stack) lookahead input
    = Accepted tree ->
    exists C e,
      tree = plug C (display_node e)
      /\ ts_parser_run fuel (swap_bottom upper ++ set_stack X) lookahead input
         = Accepted (plug C (assignment_node X e)).
Proof.
  induction fuel as [|fuel IH];
    intros upper lookahead input tree Hstack Hla H; [discriminate H|].
  cbn [ts_parser_run] in H |- *.
  pose proof (top_stands_for X upper) as Htop.
  destruct lookahead as [token|].
  - cbn [lookahead_ok] in Hla.
    destruct (parse_action (ts_stack_state (upper ++ display_stack))
                (tok_symbol token))
      as [[next|next|symbol child_count| |]|] eqn:Eact; try discriminate H.
    + destruct (shift_after_to upper _ next
                  (Leaf (tok_symbol token) (tok_text token)) Hla Eact)
        as [next' [E2 Epush]].
      rewrite E2, Epush.
      pose proof (shift_keeps_stack assignment_rule assignment_rule_checked
                    _ _ _ Hstack Hla Eact) as Hstack'.
      exact (IH ((next, Leaf (tok_symbol token) (tok_text token)) :: upper)
               None input tree Hstack' I H).
    + pose proof (reduce_keeps_stack assignment_rule assignment_rule_checked
                    _ _ _ _ Hstack Hla Eact) as Hstack'.
      destruct (reduce_symbol assignment_rule assignment_rule_checked _ _ _ _
                  (stack_state_in _ _ Hstack) Hla Eact) as [H1 H2].
      destruct (Nat.le_gt_cases (N.to_nat child_count) (List.length upper))
        as [Hle | Hgt].
      * assert (E2 : parse_action
                       (ts_stack_state (swap_bottom upper ++ set_stack X))
                       (tok_symbol token)
                     = Some (REDUCE symbol child_count)).
        { destruct (stands_for_reduce _ _ _ _ _ Htop Hla Eact)
            as [E | [Ea [Eb [_ [Ec _]]]]]; [exact E|].
          exfalso. subst child_count.
          destruct (Nat.le_gt_cases 2 (List.length upper)) as [H2' | H2'].
          - pose proof (top_above_bottom X upper H2') as Esame.
            rewrite Ea, Eb in Esame. exact (assignment_not_display Esame).
          - change (N.to_nat 2) with 2%nat in Hle. lia. }
        rewrite E2.
        destruct (reduce_after_to upper symbol child_count Hle H1 H2)
          as [upper' [E1 E3]].
        rewrite E1 in H, Hstack'. rewrite E3.
        exact (IH upper' (Some token) input tree Hstack' Hla H).
      * destruct (reduce_display upper _ _ _ Hstack Hla Eact Hgt)
          as [e [-> [-> [-> E2]]]].
        cbn [swap_bottom app ts_stack_state]. unfold swap_state.
        rewrite N.eqb_refl, E2.
        cbn [app] in H, Hstack'.
        rewrite exit_display in H, Hstack'. rewrite exit_assignment.
        destruct (accepted_over_bottom assignment_rule assignment_rule_checked
                    (display_node e) (assignment_node X e)
                    fuel [] 26 Hole (Some token) input tree Hstack' Hla H)
          as [C [E1 E3]].
        exists C, e. split; [exact E1 | exact E3].
    + exfalso.
      destruct (accept_single assignment_rule _ _ Hstack Hla Eact)
        as [s1 [t1 Hone]].
      destruct upper as [|e upper].
      * cbn [app ts_stack_state display_stack] in Eact.
        pose proof (accepts_at _ _ Hla Eact) as Hacc.
        rewrite no_accept_after_display in Hacc. discriminate Hacc.
      * cbn [app] in Hone. injection Hone as _ Hnil.
        destruct upper; discriminate Hnil.
    + rewrite (stands_for_none _ _ _ Htop Hla Eact).
      rewrite (stands_for_identifier _ _ Htop).
      destruct (tok_is_keyword token
                && negb (tok_symbol token =? keyword_capture_token)
                && ts_language_has_actions
                     (ts_stack_state (upper ++ display_stack))
                     keyword_capture_token); [|discriminate H].
      refine (IH upper (Some _) input tree Hstack _ H). reflexivity.
  - rewrite (stands_for_lex _ _ Htop).
    destruct (ts_parser_lex (ts_stack_state (upper ++ display_stack)) input)
      as [[token rest]|] eqn:Elex; [|discriminate H].
    exact (IH upper (Some token) rest tree Hstack
             (ts_parser_lex_token _ _ _ _ (stack_state_in _ _ Hstack) Elex)
             H).
Qed.

End Runs.

(** *** Up to the expression *)

Lemma lex_display :
  forall E,
    ts_parser_lex START_STATE (codes "display " ++ E)
    = Some (plain_token anon_sym_display (codes "display"), 32 :: E).
Proof. intros E. vm_compute. reflexivity. Qed.

Lemma lex_set :
  forall rest,
    ts_parser_lex START_STATE (codes "set " ++ rest)
    = Some (plain_token anon_sym_set (codes "set"), 32 :: rest).
Proof. intros rest. vm_compute. reflexivity. Qed.

Lemma lex_to :
  forall E,
    ts_parser_lex after_target (codes " to " ++ E)
    = Some ({| tok_symbol := anon_sym_to; tok_text := codes "to";
               tok_is_keyword := true |}, 32 :: E).
Proof.
  intros E. unfold ts_parser_lex.
  replace (run_lex (ts_lex_modes after_target) (codes " to " ++ E))
    with (Lexed (sym_identifier, codes "to", 32 :: E))
    by (vm_compute; reflexivity).
  unfold keyword_or_word.
  replace (sym_identifier =? keyword_capture_token) with true by reflexivity.
  replace (run_lex_keywords (codes "to" ++ 32 :: E))
    with (Lexed (anon_sym_to, codes "to", 32 :: E))
    by (vm_compute; reflexivity).
  rewrite Nat.eqb_refl.
  replace (ts_language_has_actions after_target anon_sym_to) with true
    by (vm_compute; reflexivity).
  reflexivity.
Qed.

Lemma after_set_skips_blanks : skips_blanks (ts_lex_modes after_set).
Proof. intros c [-> | ->]; reflexivity. Qed.

Lemma display_start :
  forall fuel E,
    ts_parser_parse (S (S fuel)) (codes "display " ++ E)
    = ts_parser_run fuel display_stack None (32 :: E).
Proof.
  intros fuel E. unfold ts_parser_parse.
  rewrite (run_lex_step _ [] _ _ _ (lex_display E)).
  rewrite (run_shift_step _ [] _ _ after_display)
    by (vm_compute; reflexivity).
  reflexivity.
Qed.

Lemma set_start :
  forall fuel X E,
    reads_identifier X (codes " to " ++ E) ->
    ts_parser_parse (6 + fuel) (codes "set " ++ X ++ codes " to " ++ E)
    = ts_parser_run fuel (set_stack X) None (32 :: E).
Proof.
  intros fuel X E HX. unfold ts_parser_parse.
  change (6 + fuel)%nat with (S (S (S (S (S (S fuel)))))).
  rewrite (run_lex_step _ [] _ _ _ (lex_set _)).
  rewrite (run_shift_step _ [] _ _ after_set) by (vm_compute; reflexivity).
  assert (Hx : ts_parser_lex after_set (32 :: X ++ codes " to " ++ E)
               = Some (plain_token sym_identifier X, codes " to " ++ E)).
  { change (32 :: X ++ codes " to " ++ E)
      with ([32] ++ (X ++ codes " to " ++ E)).
    rewrite (ts_parser_lex_skip_blanks after_set [32]
               (X ++ codes " to " ++ E) after_set_skips_blanks
               (Forall_cons 32 (or_intror eq_refl) (Forall_nil blank))).
    exact HX. }
  rewrite (run_lex_step _ [(after_set, _)] _ _ _ Hx).
  rewrite (run_shift_step _ [(after_set, _)] _ _ after_target)
    by (vm_compute; reflexivity).
  rewrite (run_lex_step _ [(after_target, _); _] _ _ _ (lex_to E)).
  rewrite (run_shift_step _ [(after_target, _); _] _ _ after_to)
    by (vm_compute; reflexivity).
  reflexivity.
Qed.

Lemma display_stack_ok : stack_ok assignment_rule display_stack.
Proof.
  repeat split.
  vm_compute. left. reflexivity.
Qed.

(** *** The place of the statement in the tree *)

Lemma plug_in_program :
  forall C e e' A,
    Node sym_source_file [display_node e] = plug C (display_node e') ->
    plug C A = Node sym_source_file [A] /\ e' = e.
Proof.
  intros [|symbol [|symbol' C others'] others] e e' A H.
  - discriminate H.
  - cbn [plug] in H |- *. injection H as <- <- <-. split; reflexivity.
  - exfalso. cbn [plug] in H. injection H as _ _ H _ _.
    destruct C; discriminate H.
Qed.

Lemma assignment_rule_parts :
  forall children,
    assignment_rule sym_assignment children = true ->
    exists value,
      children = [anon_sym_set; sym_identifier; anon_sym_to; value].
Proof.
  intros children H. unfold assignment_rule in H.
  apply andb_true_iff in H. destruct H as [_ H].
  rewrite N.eqb_refl in H. cbn [negb orb] in H.
  apply andb_true_iff in H. destruct H as [Hlen Hstart].
  apply Nat.eqb_eq in Hlen.
  destruct children as [|a [|b [|c [|value [|x children]]]]];
    try discriminate Hlen.
  exists value. unfold starts_with_symbols in Hstart.
  cbn [List.length firstn] in Hstart.
  apply forallb2_eq_eq in Hstart. injection Hstart as <- <- <-.
  reflexivity.
Qed.

Lemma identifier_first_rejected :
  forall source token rest,
    ts_parser_lex START_STATE source = Some (token, rest) ->
    tok_symbol token = sym_identifier ->
    rejects source.
Proof.
  intros source token rest Hlex Hsym. exists 2%nat.
  unfold ts_parser_parse.
  rewrite (run_lex_step _ [] _ _ _ Hlex).
  cbn [ts_parser_run]. change (ts_stack_state []) with START_STATE.
  rewrite Hsym.
  replace (parse_action START_STATE sym_identifier) with (@None TSParseAction)
    by (vm_compute; reflexivity).
  replace (sym_identifier =? keyword_capture_token) with true by reflexivity.
  cbn [negb]. rewrite andb_false_r. reflexivity.
Qed.

(** C3, as stated, fails: [x = 1] is not accepted, although [x] is read as
    an identifier after [set] and [1] is an expression. *)
Lemma C3_assignment_counterexample :
  ~ (forall X E e,
        reads_identifier X (codes " to " ++ E) ->
        expression E e ->
        exists tree, parses_to (X ++ codes " = " ++ E) tree).
Proof.
  intros H.
  destruct (H (codes "x") (codes "1") (leaf sym_number "1")
              ltac:(vm_compute; reflexivity)
              ltac:(exists 100%nat; vm_compute; reflexivity))
    as [tree Htree].
  refine (rejects_not_parses _ _ tree Htree).
  exists 100%nat. vm_compute. reflexivity.
Qed.

(** C3, amended: the assignment has one spelling.  For every [X] that is
    read as an identifier after [set] and every expression [E] with tree
    [e], the text [set X to E] is accepted and gives a program of one
    [assignment] node that holds [set], the identifier [X], [to] and [e];
    every [assignment] node of every parsed program is made of [set], an
    identifier, [to] and a value; and a program whose first token is an
    identifier, as [X = E], is rejected at that token. *)
Theorem C3_set_to_assignment :
  (forall X E e,
      reads_identifier X (codes " to " ++ E) ->
      expression E e ->
      parses_to (codes "set " ++ X ++ codes " to " ++ E)
        (Node sym_source_file [assignment_node X e]))
  /\ (forall source tree,
         parses_to source tree ->
         forall children,
           In (Node sym_assignment children) (subtrees tree) ->
           exists value,
             map subtree_symbol children
             = [anon_sym_set; sym_identifier; anon_sym_to; value])
  /\ (forall source token rest,
         ts_parser_lex START_STATE source = Some (token, rest) ->
         tok_symbol token = sym_identifier ->
         rejects source).
Proof.
  split; [|split].
  - intros X E e HX [fuel Hrun].
    assert (Hrun' : ts_parser_parse (S (S fuel)) (codes "display " ++ E)
                    = Accepted (Node sym_source_file [display_node e])).
    { apply (ts_parser_run_more_fuel fuel [] None _ _ Hrun);
        [discriminate | lia]. }
    rewrite display_start in Hrun'.
    destruct (accepted_after_to X fuel [] None (32 :: E) _
                display_stack_ok I Hrun') as [C [e' [Etree Hset]]].
    destruct (plug_in_program C e e' (assignment_node X e') Etree)
      as [Eplug ->].
    rewrite Eplug in Hset.
    exists (6 + fuel)%nat. rewrite (set_start fuel X E HX). exact Hset.
  - intros source tree Hp children Hin.
    apply assignment_rule_parts.
    apply (tree_ok_subtrees assignment_rule tree); [|exact Hin].
    exact (parsed_tree_ok assignment_rule assignment_rule_checked
             source tree Hp).
  - exact identifier_first_rejected.
Qed.

Lemma C3_set_to_assignment_witness :
  parses_to (codes "set " ++ codes "x" ++ codes " to " ++ codes "1")
    (Node sym_source_file
       [assignment_node (codes "x") (leaf sym_number "1")])
  /\ rejects (codes "x = 1").
Proof.
  split.
  - apply (proj1 C3_set_to_assignment (codes "x") (codes "1")
             (leaf sym_number "1")).
    + vm_compute. reflexivity.
    + exists 100%nat. vm_compute. reflexivity.
  - apply (proj2 (proj2 C3_set_to_assignment) (codes "x = 1")
             (plain_token sym_identifier (codes "x")) (codes " = 1")).
    + vm_compute. reflexivity.
    + reflexivity.
Defined.

(** * Further properties *)

(** ** Tokens: where they begin and end *)

Section AllChars.

Variable lex_fn : TSStateId -> bool -> N -> option lex_case.
Variable states : list TSStateId.

Hypothesis above : forall q, uniform_above lex_fn states q = true.
Hypothesis upper_half : uniform_upper_half lex_fn states = true.

(** A check of the cases on the characters up to 128 holds of every
    character, when it does not tell the larger ones apart. *)
Lemma all_chars_by_check :
  forall (check : TSStateId -> N -> option lex_case -> bool)
         (within : TSStateId -> bool),
    (forall s c x, 128 <= c -> check s c x = check s 128 x) ->
    cases_checked lex_fn states within check = true ->
    forall s c,
      In s states -> within s = true -> check s c (lex_fn s false c) = true.
Proof.
  intros check within Hhigh Hcheck s c Hs Hw. unfold cases_checked in Hcheck.
  pose proof (proj1 (forallb_forall _ _) Hcheck s Hs) as H. cbv beta in H.
  rewrite Hw in H. cbn [negb orb] in H.
  destruct (N.le_gt_cases c 128) as [Hle | Hgt].
  - exact (proj1 (forallb_forall _ _) H c (in_low_chars c Hle)).
  - assert (Hge : 128 <= c) by lia.
    rewrite (uniform_from_128 lex_fn states above upper_half s c Hs Hge).
    rewrite (Hhigh s c _ Hge).
    exact (proj1 (forallb_forall _ _) H 128 (in_low_chars 128 (N.le_refl 128))).
Qed.

End AllChars.

Section AtEofFacts.

Variable lex_fn : TSStateId -> bool -> N -> option lex_case.

Lemma finish_not_diverges : forall result, finish result <> LexDiverges.
Proof. intros [m|]; discriminate. Qed.

Lemma lex_at_eof_stops :
  forall fuel s tok result,
    eof_stops lex_fn fuel s = true ->
    lex_at_eof lex_fn fuel s tok result <> LexDiverges.
Proof.
  induction fuel as [|fuel IH]; intros s tok result H; [discriminate H|].
  cbn [eof_stops] in H. rewrite lex_at_eof_step.
  destruct (lex_fn s true 0) as [[accept [next|next|]]|]; cbv zeta.
  - apply IH. exact H.
  - apply IH. exact H.
  - apply finish_not_diverges.
  - discriminate.
Qed.

Lemma eof_stops_more_fuel :
  forall fuel s,
    eof_stops lex_fn fuel s = true -> eof_stops lex_fn (S fuel) s = true.
Proof.
  induction fuel as [|fuel IH]; intros s H; [discriminate H|].
  cbn [eof_stops] in H. change (eof_stops lex_fn (S (S fuel)) s)
    with (match lex_fn s true 0 with
          | None => true
          | Some (_, END_STATE) => true
          | Some (_, ADVANCE next) => eof_stops lex_fn (S fuel) next
          | Some (_, SKIP next) => eof_stops lex_fn (S fuel) next
          end).
  destruct (lex_fn s true 0) as [[accept [next|next|]]|];
    try reflexivity; apply IH; exact H.
Qed.

(** The token found once the input has ended is the one marked before, or
    one accepted on the way, with the text read so far and nothing after
    it. *)
Lemma lex_at_eof_mark :
  forall fuel s tok result m,
    lex_at_eof lex_fn fuel s tok result = Lexed m ->
    result = Some m
    \/ exists symbol,
         m = (symbol, rev tok, []) /\ In symbol (eof_accepts lex_fn fuel s).
Proof.
  induction fuel as [|fuel IH]; intros s tok result m H; [discriminate H|].
  rewrite lex_at_eof_step in H. cbn [eof_accepts].
  destruct (lex_fn s true 0) as [[accept step]|]; [|discriminate H].
  cbv zeta in H.
  assert (Hnext :
            forall next,
              lex_at_eof lex_fn fuel next tok (mark_end accept tok [] result)
              = Lexed m ->
              result = Some m
              \/ exists symbol,
                   m = (symbol, rev tok, [])
                   /\ In symbol
                        (match accept with
                         | Some symbol => [symbol]
                         | None => []
                         end ++ eof_accepts lex_fn fuel next)).
  { intros next Hrun. destruct (IH _ _ _ _ Hrun) as [E | [symbol [E Hin]]].
    - destruct accept as [symbol|]; cbn [mark_end] in E.
      + right. exists symbol. injection E as <-.
        split; [reflexivity | left; reflexivity].
      + left. exact E.
    - right. exists symbol. split; [exact E|].
      apply in_or_app. right. exact Hin. }
  destruct step as [next|next|].
  - exact (Hnext next H).
  - exact (Hnext next H).
  - destruct accept as [symbol|]; cbn [mark_end finish] in H.
    + right. exists symbol. injection H as <-.
      split; [reflexivity | left; reflexivity].
    + left. destruct result as [m'|]; [|discriminate H].
      injection H as <-. reflexivity.
Qed.

End AtEofFacts.

Section TokenShape.

Variable lex_fn : TSStateId -> bool -> N -> option lex_case.
Variable eof_fuel : nat.

Hypothesis step_ok :
  forall s c,
    lexing s = true -> transition_ok s c (lex_fn s false c) = true.

Hypothesis at_eof_ok :
  forall s symbol,
    lexing s = true ->
    In symbol (eof_accepts lex_fn eof_fuel s) ->
    if fresh s
    then symbol = ts_builtin_sym_end \/ zero_width symbol = true
    else symbol <> ts_builtin_sym_end.

Lemma zero_width_comment :
  forall symbol, zero_width symbol = true -> symbol = sym_comment_content.
Proof. intros symbol H. apply N.eqb_eq. exact H. Qed.

Lemma rev_nil_inv : forall (tok : list N), rev tok = [] -> tok = [].
Proof.
  intros [|c tok] H; [reflexivity|].
  cbn [rev] in H. destruct (rev tok); discriminate H.
Qed.

Lemma lex_run_token :
  forall input cur s tok result skipped,
    lexing s = true ->
    Forall blank skipped ->
    input = skipped ++ rev tok ++ cur ->
    (if fresh s then tok = [] /\ result = None else tok <> []) ->
    (forall symbol text rest,
        result = Some (symbol, text, rest) ->
        input = skipped ++ text ++ rest
        /\ symbol <> ts_builtin_sym_end
        /\ (text = [] -> zero_width symbol = true)) ->
    forall m,
      lex_run lex_fn eof_fuel s cur tok result = Lexed m -> token_ok input m.
Proof.
  intros input.
  induction cur as [|c cur IH];
    intros s tok result skipped Hs Hskipped Hinput Hfresh Hresult m Hrun.
  - rewrite lex_run_eof in Hrun.
    destruct (lex_at_eof_mark lex_fn _ _ _ _ _ Hrun)
      as [E | [symbol [-> Hin]]].
    + destruct m as [[symbol text] rest].
      destruct (Hresult symbol text rest E) as [Hparts [Hne Hzero]].
      split; [|split].
      * exists skipped. split; assumption.
      * intros Eend. exfalso. exact (Hne Eend).
      * intros Etext. right. apply zero_width_comment. exact (Hzero Etext).
    + pose proof (at_eof_ok s symbol Hs Hin) as Heof.
      split; [|split].
      * exists skipped. split; assumption.
      * intros Eend. destruct (fresh s).
        -- destruct Hfresh as [-> _]. split; reflexivity.
        -- exfalso. exact (Heof Eend).
      * intros Etext. apply rev_nil_inv in Etext. destruct (fresh s).
        -- destruct Heof as [E | E]; [left; exact E|].
           right. apply zero_width_comment. exact E.
        -- exfalso. exact (Hfresh Etext).
  - rewrite lex_run_cons in Hrun.
    pose proof (step_ok s c Hs) as Hstep.
    destruct (lex_fn s false c) as [[accept step]|]; [|discriminate Hrun].
    cbv zeta in Hrun. cbn [transition_ok] in Hstep.
    apply andb_true_iff in Hstep. destruct Hstep as [Haccept Hstep].
    assert (Hmark :
              forall symbol text rest,
                mark_end accept tok (c :: cur) result
                = Some (symbol, text, rest) ->
                input = skipped ++ text ++ rest
                /\ symbol <> ts_builtin_sym_end
                /\ (text = [] -> zero_width symbol = true)).
    { intros symbol text rest E.
      destruct accept as [symbol'|]; cbn [mark_end] in E;
        [|exact (Hresult symbol text rest E)].
      injection E as -> <- <-.
      apply andb_true_iff in Haccept. destruct Haccept as [Hne Hzero].
      split; [exact Hinput | split].
      - intros Eend. rewrite Eend in Hne. discriminate Hne.
      - intros Etext. apply rev_nil_inv in Etext.
        destruct (fresh s).
        + exact Hzero.
        + exfalso. exact (Hfresh Etext). }
    destruct step as [next|next|].
    + apply andb_true_iff in Hstep. destruct Hstep as [Hnext Hnot].
      apply negb_true_iff in Hnot.
      apply (IH next (c :: tok) (mark_end accept tok (c :: cur) result)
               skipped Hnext Hskipped); [| |exact Hmark|exact Hrun].
      * rewrite Hinput. cbn [rev]. rewrite <- !app_assoc. reflexivity.
      * rewrite Hnot. discriminate.
    + apply andb_true_iff in Hstep. destruct Hstep as [Hstep Hnone].
      apply andb_true_iff in Hstep. destruct Hstep as [Hstep Hblank].
      apply andb_true_iff in Hstep. destruct Hstep as [Hstep Hfnext].
      apply andb_true_iff in Hstep. destruct Hstep as [Hnext Hfs].
      rewrite Hfs in Hfresh. destruct Hfresh as [-> ->].
      destruct accept as [symbol|]; [discriminate Hnone|].
      cbn [mark_end skip_mark] in Hrun.
      apply (IH next [] None (skipped ++ [c]) Hnext); [| | | |exact Hrun].
      * apply Forall_app. split; [exact Hskipped|].
        apply Forall_cons; [|apply Forall_nil].
        apply is_blank_blank. exact Hblank.
      * rewrite Hinput. cbn [rev app]. rewrite <- app_assoc. reflexivity.
      * rewrite Hfnext. split; reflexivity.
      * intros symbol text rest E. discriminate E.
    + destruct (mark_end accept tok (c :: cur) result) as [[[symbol text] rest]|]
        eqn:E; cbn [finish] in Hrun; [|discriminate Hrun].
      injection Hrun as <-.
      destruct (Hmark symbol text rest eq_refl) as [Hparts [Hne Hzero]].
      split; [|split].
      * exists skipped. split; assumption.
      * intros Eend. exfalso. exact (Hne Eend).
      * intros Etext. right. apply zero_width_comment. exact (Hzero Etext).
Qed.

End TokenShape.

(** *** The checks on [ts_lex] *)

Lemma transitions_checked :
  cases_checked ts_lex lex_states lexing transition_ok = true.
Proof. vm_compute. reflexivity. Qed.

Lemma eof_checked :
  forallb (fun s => negb (lexing s) || eof_ok s) lex_states = true.
Proof. vm_compute. reflexivity. Qed.

Lemma eof_stops_checked :
  forallb (eof_stops ts_lex EOF_FUEL) lex_states = true.
Proof. vm_compute. reflexivity. Qed.

Lemma keywords_eof_stops_checked :
  forallb (eof_stops ts_lex_keywords EOF_FUEL) keyword_states = true.
Proof. vm_compute. reflexivity. Qed.

Lemma modes_checked :
  forallb (fun p => fresh (ts_lex_modes p) && lexing (ts_lex_modes p))
    all_states = true.
Proof. vm_compute. reflexivity. Qed.

Lemma keywords_not_end :
  closed_under ts_lex_keywords keyword_states keyword_state not_end = true.
Proof. vm_compute. reflexivity. Qed.

Lemma high_not_blank : forall c, 128 <= c -> is_blank c = false.
Proof.
  intros c H. unfold is_blank. apply orb_false_iff.
  split; apply N.eqb_neq; lia.
Qed.

Lemma transition_ok_high :
  forall s c x, 128 <= c -> transition_ok s c x = transition_ok s 128 x.
Proof.
  intros s c x H. unfold transition_ok.
  destruct x as [[accept [next|next|]]|]; try reflexivity.
  rewrite (high_not_blank c H), (high_not_blank 128 (N.le_refl 128)).
  reflexivity.
Qed.

Lemma lexing_in : forall s, lexing s = true -> In s lex_states.
Proof.
  intros s H. unfold lexing in H. apply andb_true_iff in H.
  destruct H as [H _]. apply N.ltb_lt in H. apply in_lex_states. exact H.
Qed.

Lemma ts_lex_step_ok :
  forall s c, lexing s = true -> transition_ok s c (ts_lex s false c) = true.
Proof.
  intros s c H.
  apply (all_chars_by_check ts_lex lex_states ts_lex_uniform_above
           ts_lex_uniform_upper_half transition_ok lexing
           transition_ok_high transitions_checked);
    [apply lexing_in|]; exact H.
Qed.

Lemma ts_lex_at_eof_ok :
  forall s symbol,
    lexing s = true ->
    In symbol (eof_accepts ts_lex EOF_FUEL s) ->
    if fresh s
    then symbol = ts_builtin_sym_end \/ zero_width symbol = true
    else symbol <> ts_builtin_sym_end.
Proof.
  intros s symbol Hs Hin.
  pose proof (proj1 (forallb_forall _ _) eof_checked s (lexing_in s Hs)) as H.
  cbv beta in H. rewrite Hs in H. cbn [negb orb] in H.
  unfold eof_ok in H. cbv zeta in H. destruct (fresh s).
  - pose proof (proj1 (forallb_forall _ _) H symbol Hin) as E.
    cbv beta in E. apply orb_true_iff in E.
    destruct E as [E | E]; [left; apply N.eqb_eq; exact E | right; exact E].
  - pose proof (proj1 (forallb_forall _ _) H symbol Hin) as E.
    cbv beta in E. apply negb_true_iff in E. apply N.eqb_neq. exact E.
Qed.

Lemma run_lex_token_ok :
  forall m input mk,
    fresh m = true -> lexing m = true ->
    run_lex m input = Lexed mk -> token_ok input mk.
Proof.
  intros m input mk Hf Hl H. unfold run_lex in H.
  apply (lex_run_token ts_lex EOF_FUEL ts_lex_step_ok ts_lex_at_eof_ok
           input input m [] None [] Hl (Forall_nil blank)); [| | |exact H].
  - reflexivity.
  - rewrite Hf. split; reflexivity.
  - intros symbol text rest E. discriminate E.
Qed.

Lemma run_lex_keywords_not_end :
  forall input, outcome_symbol_ok not_end (run_lex_keywords input).
Proof.
  intros input. unfold run_lex_keywords.
  apply (ts_lex_keywords_run_invariant keyword_state not_end);
    [ intros s H; apply N.ltb_lt; exact H
    | exact keywords_not_end
    | reflexivity
    | exact I ].
Qed.

Lemma keyword_or_word_ok :
  forall s input m token rest,
    token_ok input m ->
    keyword_or_word s m = (token, rest) ->
    token_ok input (tok_symbol token, tok_text token, rest).
Proof.
  intros s input [[symbol text] rest0] token rest Hok H.
  unfold keyword_or_word in H.
  destruct (symbol =? keyword_capture_token) eqn:Ek.
  - pose proof (run_lex_keywords_not_end (text ++ rest0)) as Hk.
    destruct (run_lex_keywords (text ++ rest0))
      as [[[keyword text'] rest'']| |].
    + destruct (Nat.eqb (List.length rest'') (List.length rest0)
                && ts_language_has_actions s keyword).
      * injection H as <- <-. cbn [tok_symbol tok_text].
        apply N.eqb_eq in Ek. subst symbol.
        destruct Hok as [Hparts [_ Hempty]].
        split; [exact Hparts | split].
        -- intros E. subst keyword. discriminate Hk.
        -- intros E. destruct (Hempty E) as [E' | E']; discriminate E'.
      * injection H as <- <-. exact Hok.
    + injection H as <- <-. exact Hok.
    + injection H as <- <-. exact Hok.
  - injection H as <- <-. exact Hok.
Qed.

Lemma mode_fresh :
  forall s, s < STATE_COUNT ->
            fresh (ts_lex_modes s) = true /\ lexing (ts_lex_modes s) = true.
Proof.
  intros s H.
  pose proof (proj1 (forallb_forall _ _) modes_checked s (in_all_states s H))
    as E.
  cbv beta in E. apply andb_true_iff in E. exact E.
Qed.

Lemma ts_parser_lex_token_ok :
  forall s input token rest,
    s < STATE_COUNT ->
    ts_parser_lex s input = Some (token, rest) ->
    token_ok input (tok_symbol token, tok_text token, rest).
Proof.
  intros s input token rest Hs H. unfold ts_parser_lex in H.
  destruct (mode_fresh s Hs) as [Hf Hl].
  assert (H0 : 0 < STATE_COUNT) by reflexivity.
  destruct (mode_fresh 0 H0) as [Hf0 Hl0].
  pose proof (run_lex_token_ok (ts_lex_modes s) input) as Hmain.
  pose proof (run_lex_token_ok (ts_lex_modes ERROR_STATE) input) as Herr.
  destruct (run_lex (ts_lex_modes s) input) as [m| |].
  - injection H as H.
    exact (keyword_or_word_ok s input m token rest (Hmain m Hf Hl eq_refl) H).
  - destruct (run_lex (ts_lex_modes ERROR_STATE) input) as [m| |];
      try discriminate H.
    injection H as H.
    exact (keyword_or_word_ok s input m token rest (Herr m Hf0 Hl0 eq_refl) H).
  - destruct (run_lex (ts_lex_modes ERROR_STATE) input) as [m| |];
      try discriminate H.
    injection H as H.
    exact (keyword_or_word_ok s input m token rest (Herr m Hf0 Hl0 eq_refl) H).
Qed.

(** *** The lexer stops *)

Section Stops.

Variable lex_fn : TSStateId -> bool -> N -> option lex_case.
Variable eof_fuel : nat.
Variable inv : TSStateId -> bool.
Variable ok : TSSymbol -> bool.

Hypothesis closed :
  forall s c, inv s = true -> case_ok inv ok (lex_fn s false c) = true.
Hypothesis stops :
  forall s, inv s = true -> eof_stops lex_fn eof_fuel s = true.

Lemma lex_run_stops :
  forall cur s tok result,
    inv s = true -> lex_run lex_fn eof_fuel s cur tok result <> LexDiverges.
Proof.
  induction cur as [|c cur IH]; intros s tok result Hs.
  - rewrite lex_run_eof. apply lex_at_eof_stops. exact (stops s Hs).
  - rewrite lex_run_cons. pose proof (closed s c Hs) as Hc.
    destruct (lex_fn s false c) as [[accept step]|]; [|discriminate].
    destruct (case_ok_parts inv ok _ _ Hc) as [_ Hn].
    cbv zeta. destruct step as [next|next|].
    + apply IH. exact Hn.
    + apply IH. exact Hn.
    + apply finish_not_diverges.
Qed.

End Stops.

Lemma run_lex_stops :
  forall m input, m < LEX_STATE_COUNT -> run_lex m input <> LexDiverges.
Proof.
  intros m input Hm.
  destruct (closed_by_check ts_lex lex_states ts_lex_uniform_above
              ts_lex_uniform_upper_half lex_state is_token
              (fun s H => in_lex_states s (proj1 (N.ltb_lt _ _) H))
              lex_states_closed) as [Hc _].
  unfold run_lex.
  apply (lex_run_stops ts_lex EOF_FUEL lex_state is_token Hc).
  - intros s Hs.
    exact (proj1 (forallb_forall _ _) eof_stops_checked s
             (in_lex_states s (proj1 (N.ltb_lt _ _) Hs))).
  - apply N.ltb_lt. exact Hm.
Qed.

Lemma run_lex_keywords_stops :
  forall input, run_lex_keywords input <> LexDiverges.
Proof.
  intros input.
  destruct (closed_by_check ts_lex_keywords keyword_states
              ts_lex_keywords_uniform_above
              ts_lex_keywords_uniform_upper_half keyword_state is_token
              (fun s H => in_keyword_states s (proj1 (N.ltb_lt _ _) H))
              keyword_states_closed) as [Hc _].
  unfold run_lex_keywords.
  apply (lex_run_stops ts_lex_keywords EOF_FUEL keyword_state is_token Hc).
  - intros s Hs.
    exact (proj1 (forallb_forall _ _) keywords_eof_stops_checked s
             (in_keyword_states s (proj1 (N.ltb_lt _ _) Hs))).
  - reflexivity.
Qed.

(** X1: the lexing automata stop on every input: [ts_lex], started in any
    of its states, and [ts_lex_keywords] end with a token or without one,
    also when the input ends in the middle of a token. *)
Theorem X1_lexer_stops :
  (forall m input, m < LEX_STATE_COUNT -> run_lex m input <> LexDiverges)
  /\ (forall input, run_lex_keywords input <> LexDiverges).
Proof. split; [exact run_lex_stops | exact run_lex_keywords_stops]. Qed.

Lemma X1_lexer_stops_witness :
  run_lex 20 (codes "abc") <> LexDiverges.
Proof. apply (proj1 X1_lexer_stops 20 (codes "abc")). reflexivity. Defined.

(** X2: in every parse state, a token is found after blanks only: the
    input is a run of tabs and spaces, then the text of the token, then the
    rest that is handed back. *)
Theorem X2_blanks_before_token :
  forall s input token rest,
    s < STATE_COUNT ->
    ts_parser_lex s input = Some (token, rest) ->
    exists skipped,
      Forall blank skipped /\ input = skipped ++ tok_text token ++ rest.
Proof.
  intros s input token rest Hs H.
  exact (proj1 (ts_parser_lex_token_ok s input token rest Hs H)).
Qed.

Lemma X2_blanks_before_token_witness :
  exists skipped,
    Forall blank skipped
    /\ codes "  display x" = skipped ++ codes "display" ++ codes " x".
Proof.
  apply (X2_blanks_before_token 1 (codes "  display x")
           (plain_token anon_sym_display (codes "display")) (codes " x")).
  - reflexivity.
  - vm_compute. reflexivity.
Defined.

(** X3: the end-of-input token is read only where the input has ended:
    when the lexer returns [ts_builtin_sym_end], blanks are all that was
    left of the input, and the token is empty. *)
Theorem X3_end_token_at_end :
  forall s input token rest,
    s < STATE_COUNT ->
    ts_parser_lex s input = Some (token, rest) ->
    tok_symbol token = ts_builtin_sym_end ->
    Forall blank input /\ tok_text token = [] /\ rest = [].
Proof.
  intros s input token rest Hs H Hend.
  destruct (ts_parser_lex_token_ok s input token rest Hs H)
    as [[skipped [Hblank Hinput]] [Hempty _]].
  destruct (Hempty Hend) as [Etext Erest].
  rewrite Etext, Erest in Hinput. rewrite !app_nil_r in Hinput.
  subst skipped. split; [exact Hblank | split; assumption].
Qed.

Lemma X3_end_token_at_end_witness :
  Forall blank [32; 9] /\ @nil N = [] /\ @nil N = [].
Proof.
  apply (X3_end_token_at_end 1 [32; 9]
           (plain_token ts_builtin_sym_end []) []).
  - reflexivity.
  - vm_compute. reflexivity.
  - reflexivity.
Defined.

(** X4: a token has at least one character, unless it is the end of the
    input or the text of a comment (which may be empty). *)
Theorem X4_tokens_not_empty :
  forall s input token rest,
    s < STATE_COUNT ->
    ts_parser_lex s input = Some (token, rest) ->
    tok_text token = [] ->
    tok_symbol token = ts_builtin_sym_end
    \/ tok_symbol token = sym_comment_content.
Proof.
  intros s input token rest Hs H Htext.
  destruct (ts_parser_lex_token_ok s input token rest Hs H) as [_ [_ Hempty]].
  exact (Hempty Htext).
Qed.

Lemma X4_tokens_not_empty_witness :
  sym_comment_content = ts_builtin_sym_end
  \/ sym_comment_content = sym_comment_content.
Proof.
  apply (X4_tokens_not_empty 58 NL (plain_token sym_comment_content []) NL).
  - reflexivity.
  - vm_compute. reflexivity.
  - reflexivity.
Defined.

(** ** What an accepted tree is *)

(** *** Checks on the tables *)

Lemma weight_rule_checked : automaton_ok weight_rule = true.
Proof. apply automaton_ok_by_rows. vm_compute. reflexivity. Qed.

Lemma accept_at_end_checked : forallb accept_at_end all_states = true.
Proof.
  assert (H : (let rows := table_rows in
               forallb (accept_at_end_by (row_lookup rows)) all_states) = true)
    by (vm_compute; reflexivity).
  cbv zeta in H. rewrite <- H.
  apply forallb_pointwise. intros s. unfold accept_at_end, accept_at_end_by.
  apply forallb_pointwise. intros la. unfold parse_action.
  rewrite (actions_by_lookup _ row_lookup_rows). reflexivity.
Qed.

Lemma accepted_symbol_checked :
  accepted_symbol accepting_states all_edges = true.
Proof.
  assert (H : (let rows := table_rows in
               accepted_symbol
                 (filter (accepts_by (row_lookup rows)) all_states)
                 (all_edges_by (row_lookup rows))) = true)
    by (vm_compute; reflexivity).
  cbv zeta in H.
  rewrite (all_edges_by_lookup _ row_lookup_rows) in H.
  rewrite (filter_ext _ _ (accepts_by_lookup _ row_lookup_rows)) in H.
  exact H.
Qed.

Lemma all_states_lt : forall s, In s all_states -> s < STATE_COUNT.
Proof.
  intros s H. unfold all_states in H. apply in_map_iff in H.
  destruct H as [n [<- Hn]]. apply in_seq in Hn.
  unfold STATE_COUNT in *. lia.
Qed.

Lemma accept_on_end :
  forall s la,
    In s all_states -> la < TOKEN_COUNT ->
    parse_action s la = Some ACCEPT_INPUT -> la = ts_builtin_sym_end.
Proof.
  intros s la Hs Hla H.
  pose proof (proj1 (forallb_forall _ _) accept_at_end_checked s Hs) as E.
  unfold accept_at_end in E.
  pose proof (proj1 (forallb_forall _ _) E la (in_all_tokens la Hla)) as E'.
  cbv beta in E'. rewrite H in E'. apply N.eqb_eq. exact E'.
Qed.

Lemma accepted_symbol_in :
  forall accepting E,
    accepted_symbol accepting E = true ->
    forall s0 symbol s,
      In (s0, symbol, s) E -> In s accepting -> symbol = sym_source_file.
Proof.
  intros accepting E H s0 symbol s Hin Hacc. unfold accepted_symbol in H.
  pose proof (proj1 (forallb_forall _ _) H _ Hin) as E1. cbv beta iota in E1.
  apply orb_true_iff in E1. destruct E1 as [E1 | E1].
  - exfalso.
    assert (He : existsb (N.eqb s) accepting = true).
    { apply existsb_exists. exists s.
      split; [exact Hacc | apply N.eqb_refl]. }
    rewrite He in E1. discriminate E1.
  - apply N.eqb_eq. exact E1.
Qed.

(** *** An invariant of the loop reaches the accepting step *)

Section RunInvariant.

Variable Inv : Stack -> option Token -> list N -> Prop.

Hypothesis lex_kept :
  forall stack input token rest,
    Inv stack None input ->
    ts_parser_lex (ts_stack_state stack) input = Some (token, rest) ->
    Inv stack (Some token) rest.

Hypothesis shift_kept :
  forall stack token input next,
    Inv stack (Some token) input ->
    parse_action (ts_stack_state stack) (tok_symbol token)
    = Some (SHIFT next) ->
    Inv ((next, Leaf (tok_symbol token) (tok_text token)) :: stack) None input.

Hypothesis reduce_kept :
  forall stack token input symbol child_count,
    Inv stack (Some token) input ->
    parse_action (ts_stack_state stack) (tok_symbol token)
    = Some (REDUCE symbol child_count) ->
    Inv (ts_parser_reduce stack symbol child_count) (Some token) input.

Hypothesis word_kept :
  forall stack token input,
    Inv stack (Some token) input ->
    parse_action (ts_stack_state stack) (tok_symbol token) = None ->
    tok_is_keyword token = true ->
    Inv stack
      (Some {| tok_symbol := keyword_capture_token;
               tok_text := tok_text token;
               tok_is_keyword := true |}) input.

Lemma accepted_with :
  forall fuel stack lookahead input tree,
    Inv stack lookahead input ->
    ts_parser_run fuel stack lookahead input = Accepted tree ->
    exists s below token input',
      Inv ((s, tree) :: below) (Some token) input'
      /\ parse_action s (tok_symbol token) = Some ACCEPT_INPUT.
Proof.
  induction fuel as [|fuel IH]; intros stack lookahead input tree HI H;
    [discriminate H|].
  cbn [ts_parser_run] in H. destruct lookahead as [token|].
  - destruct (parse_action (ts_stack_state stack) (tok_symbol token))
      as [[next|next|symbol child_count| |]|] eqn:Eact; try discriminate H.
    + exact (IH _ _ _ _ (shift_kept _ _ _ _ HI Eact) H).
    + exact (IH _ _ _ _ (reduce_kept _ _ _ _ _ HI Eact) H).
    + destruct stack as [|[s t] below]; [discriminate H|].
      injection H as <-. exists s, below, token, input.
      split; [exact HI | exact Eact].
    + destruct (tok_is_keyword token) eqn:Ek; cbn [andb] in H;
        [|discriminate H].
      destruct (negb (tok_symbol token =? keyword_capture_token)
                && ts_language_has_actions (ts_stack_state stack)
                     keyword_capture_token); [|discriminate H].
      exact (IH _ _ _ _ (word_kept _ _ _ HI Eact Ek) H).
  - destruct (ts_parser_lex (ts_stack_state stack) input)
      as [[token rest]|] eqn:Elex; [|discriminate H].
    exact (IH _ _ _ _ (lex_kept _ _ _ _ HI Elex) H).
Qed.

End RunInvariant.

(** *** The text under the stack *)

Lemma covers_more :
  forall texts source input skipped text rest,
    covers texts source input ->
    Forall blank skipped ->
    input = skipped ++ text ++ rest ->
    covers (texts ++ [text]) source rest.
Proof.
  induction texts as [|t texts IH];
    intros source input skipped text rest H Hblank Hinput.
  - cbn [covers app] in H |- *. subst source.
    exists skipped, rest. split; [exact Hblank | split; [exact Hinput|]].
    reflexivity.
  - cbn [covers app] in H |- *.
    destruct H as [skipped' [after [Hb [Hs Hc]]]].
    exists skipped', after. split; [exact Hb | split; [exact Hs|]].
    exact (IH after input skipped text rest Hc Hblank Hinput).
Qed.

Lemma covers_to_end :
  forall texts source,
    covers (texts ++ [[]]) source [] -> spells texts source.
Proof.
  induction texts as [|t texts IH]; intros source H.
  - cbn [covers app] in H.
    destruct H as [skipped [after [Hb [Hs Hc]]]]. subst after.
    cbn [app] in Hs. rewrite app_nil_r in Hs. subst skipped.
    exists source. split; [reflexivity | exact Hb].
  - cbn [covers app] in H.
    destruct H as [skipped [after [Hb [Hs Hc]]]].
    destruct (IH after Hc) as [rest [Hcov Hrest]].
    exists rest. split; [|exact Hrest].
    cbn [covers]. exists skipped, after.
    split; [exact Hb | split; [exact Hs | exact Hcov]].
Qed.

Lemma stack_leaves_push :
  forall stack s symbol text,
    stack_leaves ((s, Leaf symbol text) :: stack)
    = stack_leaves stack ++ [text].
Proof.
  intros stack s symbol text. unfold stack_leaves.
  cbn [map snd rev]. rewrite flat_map_app. reflexivity.
Qed.

Lemma stack_leaves_reduce :
  forall stack symbol child_count,
    stack_leaves (ts_parser_reduce stack symbol child_count)
    = stack_leaves stack.
Proof.
  intros stack symbol child_count. unfold ts_parser_reduce, stack_leaves.
  cbv zeta. cbn [map snd rev]. rewrite flat_map_app.
  cbn [flat_map leaves]. rewrite app_nil_r.
  rewrite <- flat_map_app, <- rev_app_distr, <- map_app, firstn_skipn.
  reflexivity.
Qed.

(** *** The invariant *)

Section OnSource.

Variable source : list N.

Lemma run_state_lex :
  forall stack input token rest,
    run_state_ok source stack None input ->
    ts_parser_lex (ts_stack_state stack) input = Some (token, rest) ->
    run_state_ok source stack (Some token) rest.
Proof.
  intros stack input token rest [Hstack [_ [Hwf Hcov]]] Hlex.
  pose proof (stack_state_in _ _ Hstack) as Hin.
  destruct (ts_parser_lex_token_ok _ _ _ _ (all_states_lt _ Hin) Hlex)
    as [[skipped [Hblank Hinput]] [Hend _]].
  split; [exact Hstack | split; [|split; [exact Hwf | split]]].
  - exact (ts_parser_lex_token _ _ _ _ Hin Hlex).
  - exact (covers_more _ _ _ _ _ _ Hcov Hblank Hinput).
  - exact Hend.
Qed.

Lemma run_state_shift :
  forall stack token input next,
    run_state_ok source stack (Some token) input ->
    parse_action (ts_stack_state stack) (tok_symbol token)
    = Some (SHIFT next) ->
    run_state_ok source
      ((next, Leaf (tok_symbol token) (tok_text token)) :: stack) None input.
Proof.
  intros stack token input next [Hstack [Hla [Hwf [Hcov _]]]] Hact.
  cbn [lookahead_ok] in Hla.
  split; [|split; [exact I | split]].
  - exact (shift_keeps_stack weight_rule weight_rule_checked _ _ _
             Hstack Hla Hact).
  - cbn [map snd forallb well_formed]. rewrite Hwf.
    apply N.ltb_lt in Hla. rewrite Hla. reflexivity.
  - rewrite stack_leaves_push. exact Hcov.
Qed.

Lemma well_formed_firstn :
  forall n (stack : Stack),
    forallb well_formed (map snd stack) = true ->
    forallb well_formed (rev (map snd (firstn n stack))) = true.
Proof.
  intros n stack H. apply forallb_forall. intros t Hin.
  apply in_rev in Hin. apply in_map_iff in Hin. destruct Hin as [e [<- He]].
  apply (proj1 (forallb_forall _ _) H). apply in_map.
  exact (in_firstn _ _ _ _ He).
Qed.

Lemma well_formed_skipn :
  forall n (stack : Stack),
    forallb well_formed (map snd stack) = true ->
    forallb well_formed (map snd (skipn n stack)) = true.
Proof.
  intros n stack H. apply forallb_forall. intros t Hin.
  apply in_map_iff in Hin. destruct Hin as [e [<- He]].
  apply (proj1 (forallb_forall _ _) H). apply in_map.
  rewrite <- (firstn_skipn n stack). apply in_or_app. right. exact He.
Qed.

Lemma run_state_reduce :
  forall stack token input symbol child_count,
    run_state_ok source stack (Some token) input ->
    parse_action (ts_stack_state stack) (tok_symbol token)
    = Some (REDUCE symbol child_count) ->
    run_state_ok source (ts_parser_reduce stack symbol child_count)
      (Some token) input.
Proof.
  intros stack token input symbol child_count
         [Hstack [Hla [Hwf Hcov]]] Hact.
  cbn [lookahead_ok] in Hla.
  pose proof (reduce_keeps_stack weight_rule weight_rule_checked _ _ _ _
                Hstack Hla Hact) as Hnew.
  destruct (reduce_symbol weight_rule weight_rule_checked _ _ _ _
              (stack_state_in _ _ Hstack) Hla Hact) as [H1 H2].
  split; [exact Hnew | split; [exact Hla | split]].
  - unfold ts_parser_reduce in Hnew |- *. cbv zeta in Hnew |- *.
    destruct Hnew as [_ [_ [_ [Hnode _]]]].
    cbn [tree_ok] in Hnode. apply andb_true_iff in Hnode.
    destruct Hnode as [Hrule _].
    cbn [map snd forallb well_formed].
    apply N.leb_le in H1. apply N.ltb_lt in H2. rewrite H1, H2.
    rewrite (well_formed_firstn _ _ Hwf), (well_formed_skipn _ _ Hwf).
    cbn [andb]. rewrite andb_true_r.
    destruct (rev (map snd (firstn (N.to_nat child_count) stack)));
      [rewrite andb_true_r; exact Hrule | reflexivity].
  - rewrite stack_leaves_reduce. exact Hcov.
Qed.

Lemma run_state_word :
  forall stack token input,
    run_state_ok source stack (Some token) input ->
    parse_action (ts_stack_state stack) (tok_symbol token) = None ->
    run_state_ok source stack
      (Some {| tok_symbol := keyword_capture_token;
               tok_text := tok_text token;
               tok_is_keyword := true |}) input.
Proof.
  intros stack token input [Hstack [_ [Hwf [Hcov _]]]] _.
  split; [exact Hstack | split; [reflexivity | split; [exact Hwf | split]]].
  - exact Hcov.
  - intros E. discriminate E.
Qed.

(** At the accepting step the stack holds the tree alone, a
    [source_file] node, and the whole of [source] lies under it. *)
Lemma accepted_tree :
  forall tree,
    parses_to source tree ->
    well_formed tree = true
    /\ subtree_symbol tree = sym_source_file
    /\ spells (leaves tree) source.
Proof.
  intros tree [fuel H].
  assert (Hstart : run_state_ok source [] None source).
  { split; [exact I | split; [exact I | split; reflexivity]]. }
  destruct (accepted_with (run_state_ok source) run_state_lex run_state_shift
              run_state_reduce
              (fun stack token input HI Hact _ =>
                 run_state_word stack token input HI Hact)
              fuel [] None source tree Hstart H)
    as [s [below [token [input [[Hstack [Hla [Hwf [Hcov Hend]]]] Hact]]]]].
  cbn [lookahead_ok] in Hla.
  destruct (accept_single weight_rule _ _ Hstack Hla Hact) as [s1 [t1 Hone]].
  injection Hone as _ _ ->.
  pose proof (accept_on_end s (tok_symbol token)
                (stack_state_in _ _ Hstack) Hla Hact) as Etok.
  destruct (Hend Etok) as [Etext Einput].
  split; [|split].
  - cbn [map snd forallb] in Hwf. apply andb_true_iff in Hwf.
    exact (proj1 Hwf).
  - destruct Hstack as [Hv [Hsym [Ht _]]].
    cbn [ts_stack_state] in Ht.
    pose proof (in_all_edges _ _ _ start_state_in Hsym Ht Hv) as Hedge.
    apply (accepted_symbol_in _ _ accepted_symbol_checked _ _ _ Hedge).
    apply (in_accepting_states s (valid_state_in s Hv)).
    exact (accepts_at _ _ Hla Hact).
  - apply covers_to_end. rewrite Etext, Einput in Hcov.
    unfold stack_leaves in Hcov. cbn [map snd rev app flat_map] in Hcov.
    rewrite app_nil_r in Hcov. exact Hcov.
Qed.

End OnSource.

(** X5: an accepted tree is a [source_file] node: the loop accepts with
    one tree on the stack, and that tree is the program. *)
Theorem X5_accepted_tree_is_source_file :
  forall source tree,
    parses_to source tree ->
    exists children, tree = Node sym_source_file children.
Proof.
  intros source tree H.
  destruct (accepted_tree source tree H) as [Hwf [Hsym _]].
  destruct tree as [symbol text | symbol children].
  - cbn [subtree_symbol] in Hsym. subst symbol. discriminate Hwf.
  - cbn [subtree_symbol] in Hsym. subst symbol. exists children. reflexivity.
Qed.

Lemma X5_accepted_tree_is_source_file_witness :
  exists children,
    Node sym_source_file [display_node (leaf sym_number "1")]
    = Node sym_source_file children.
Proof.
  apply (X5_accepted_tree_is_source_file (codes "display 1")).
  exists 100%nat. vm_compute. reflexivity.
Defined.

(** X6: the tokens of an accepted tree spell the source: the texts of the
    leaves, in order, with runs of tabs and spaces before them and after
    the last, are the whole input; nothing else is dropped. *)
Theorem X6_leaves_spell_source :
  forall source tree,
    parses_to source tree -> spells (leaves tree) source.
Proof.
  intros source tree H. exact (proj2 (proj2 (accepted_tree source tree H))).
Qed.

Lemma X6_leaves_spell_source_witness :
  spells [codes "display"; codes "1"] (codes "display 1 ").
Proof.
  apply (X6_leaves_spell_source (codes "display 1 ")
           (Node sym_source_file [display_node (leaf sym_number "1")])).
  exists 100%nat. vm_compute. reflexivity.
Defined.

(** X7: an accepted tree is well formed: every leaf holds a token, every
    inner node a non-terminal of the grammar, and no node is without
    children but the [source_file] of a program without statements. *)
Theorem X7_accepted_tree_well_formed :
  forall source tree, parses_to source tree -> well_formed tree = true.
Proof.
  intros source tree H. exact (proj1 (accepted_tree source tree H)).
Qed.

Lemma X7_accepted_tree_well_formed_witness :
  well_formed (Node sym_source_file [display_node (leaf sym_number "1")])
  = true.
Proof.
  apply (X7_accepted_tree_well_formed (codes "display 1")).
  exists 100%nat. vm_compute. reflexivity.
Defined.

(** ** The loop stops *)

(** *** Checks on the tables *)

Lemma expects_comment_by_lookup :
  forall lookup,
    (forall s symbol, lookup s symbol = ts_language_lookup s symbol) ->
    forall s, expects_comment_by lookup s = expects_comment s.
Proof.
  intros lookup Hl s. unfold expects_comment_by, expects_comment, parse_action.
  rewrite (actions_by_lookup _ Hl). reflexivity.
Qed.

Lemma halting_by_lookup :
  forall lookup,
    (forall s symbol, lookup s symbol = ts_language_lookup s symbol) ->
    forall s, halting_by lookup s = halting s.
Proof.
  intros lookup Hl s. unfold halting_by, halting. f_equal.
  - apply forallb_pointwise. intros la. unfold parse_action.
    rewrite (actions_by_lookup _ Hl).
    destruct (find (fun a => negb (is_repetition a))
                (ts_language_actions s la)) as [[next|next|symbol k| |]|];
      try reflexivity.
    + rewrite (expects_comment_by_lookup _ Hl). reflexivity.
    + rewrite (next_state_by_lookup _ Hl), (actions_by_lookup _ Hl).
      reflexivity.
  - apply forallb_pointwise. intros symbol.
    rewrite (next_state_by_lookup _ Hl), (expects_comment_by_lookup _ Hl).
    reflexivity.
Qed.

Lemma halting_checked : forallb halting all_states = true.
Proof.
  assert (H : (let rows := table_rows in
               forallb (halting_by (row_lookup rows)) all_states) = true)
    by (vm_compute; reflexivity).
  cbv zeta in H. rewrite <- H.
  apply forallb_pointwise. intros s. symmetry.
  exact (halting_by_lookup _ row_lookup_rows s).
Qed.

Lemma token_weights_checked :
  forallb (fun k => Nat.eqb (weight k) token_weight) all_tokens = true.
Proof. vm_compute. reflexivity. Qed.

Lemma no_comment_at_start : expects_comment START_STATE = false.
Proof. vm_compute. reflexivity. Qed.

(** *** What the checks say *)

Lemma weight_of_token :
  forall k, k < TOKEN_COUNT -> weight k = token_weight.
Proof.
  intros k Hk.
  pose proof (proj1 (forallb_forall _ _) token_weights_checked k
                (in_all_tokens k Hk)) as E.
  cbv beta in E. apply Nat.eqb_eq. exact E.
Qed.

Lemma halting_shift :
  forall s la next,
    In s all_states -> la < TOKEN_COUNT ->
    parse_action s la = Some (SHIFT next) ->
    la <> ts_builtin_sym_end
    /\ (la = sym_comment_content ->
        expects_comment s = true /\ expects_comment next = false).
Proof.
  intros s la next Hs Hla Hact.
  pose proof (proj1 (forallb_forall _ _) halting_checked s Hs) as E.
  unfold halting in E. apply andb_true_iff in E. destruct E as [E _].
  pose proof (proj1 (forallb_forall _ _) E la (in_all_tokens la Hla)) as E'.
  cbv beta in E'. rewrite Hact in E'.
  apply andb_true_iff in E'. destruct E' as [E1 E2]. split.
  - intros ->. discriminate E1.
  - intros ->. split.
    + unfold expects_comment. rewrite Hact. reflexivity.
    + rewrite N.eqb_refl in E2. cbn [negb orb] in E2.
      apply negb_true_iff. exact E2.
Qed.

Lemma halting_reduce :
  forall s la symbol child_count,
    In s all_states -> la < TOKEN_COUNT ->
    parse_action s la = Some (REDUCE symbol child_count) ->
    child_count = 0 \/ s = START_STATE ->
    parse_action (ts_language_next_state s symbol) la = Some ACCEPT_INPUT.
Proof.
  intros s la symbol child_count Hs Hla Hact Hnone.
  pose proof (proj1 (forallb_forall _ _) halting_checked s Hs) as E.
  unfold halting in E. apply andb_true_iff in E. destruct E as [E _].
  pose proof (proj1 (forallb_forall _ _) E la (in_all_tokens la Hla)) as E'.
  cbv beta in E'. rewrite Hact in E'.
  assert (Hc : (child_count =? 0) || (s =? START_STATE) = true).
  { apply orb_true_iff. destruct Hnone as [-> | ->].
    - left. reflexivity.
    - right. apply N.eqb_refl. }
  rewrite Hc in E'. cbn [negb orb] in E'.
  destruct (parse_action (ts_language_next_state s symbol) la)
    as [[next|next|symbol' k| |]|]; try discriminate E'.
  reflexivity.
Qed.

Lemma halting_goto :
  forall s symbol,
    In s all_states -> TOKEN_COUNT <= symbol -> symbol < SYMBOL_COUNT ->
    expects_comment (ts_language_next_state s symbol) = false.
Proof.
  intros s symbol Hs H1 H2.
  pose proof (proj1 (forallb_forall _ _) halting_checked s Hs) as E.
  unfold halting in E. apply andb_true_iff in E. destruct E as [_ E].
  pose proof (proj1 (forallb_forall _ _) E symbol (in_all_symbols symbol H2))
    as E'.
  cbv beta in E'. apply orb_true_iff in E'. destruct E' as [E' | E'].
  - apply N.ltb_lt in E'. exfalso. apply (N.lt_irrefl symbol).
    exact (N.lt_le_trans _ _ _ E' H1).
  - apply negb_true_iff. exact E'.
Qed.

(** *** The lookahead *)

Lemma keyword_not_empty :
  forall s input m token rest,
    token_ok input m ->
    keyword_or_word s m = (token, rest) ->
    tok_is_keyword token = true -> tok_text token <> [].
Proof.
  intros s input [[symbol text] rest0] token rest Hok H Hkw.
  unfold keyword_or_word in H.
  destruct (symbol =? keyword_capture_token) eqn:Ek.
  - apply N.eqb_eq in Ek. subst symbol.
    destruct Hok as [_ [_ Hempty]].
    assert (Htext : text <> []).
    { intros E. destruct (Hempty E) as [E' | E']; discriminate E'. }
    destruct (run_lex_keywords (text ++ rest0))
      as [[[keyword text'] rest'']| |].
    + destruct (Nat.eqb (List.length rest'') (List.length rest0)
                && ts_language_has_actions s keyword);
        injection H as <- <-; exact Htext.
    + injection H as <- <-. exact Htext.
    + injection H as <- <-. exact Htext.
  - injection H as <- <-. discriminate Hkw.
Qed.

Lemma ts_parser_lex_keyword_not_empty :
  forall s input token rest,
    s < STATE_COUNT ->
    ts_parser_lex s input = Some (token, rest) ->
    tok_is_keyword token = true -> tok_text token <> [].
Proof.
  intros s input token rest Hs H. unfold ts_parser_lex in H.
  destruct (mode_fresh s Hs) as [Hf Hl].
  assert (H0 : 0 < STATE_COUNT) by reflexivity.
  destruct (mode_fresh 0 H0) as [Hf0 Hl0].
  pose proof (run_lex_token_ok (ts_lex_modes s) input) as Hmain.
  pose proof (run_lex_token_ok (ts_lex_modes ERROR_STATE) input) as Herr.
  destruct (run_lex (ts_lex_modes s) input) as [m| |].
  - injection H as H.
    exact (keyword_not_empty s input m token rest (Hmain m Hf Hl eq_refl) H).
  - destruct (run_lex (ts_lex_modes ERROR_STATE) input) as [m| |];
      try discriminate H.
    injection H as H.
    exact (keyword_not_empty s input m token rest (Herr m Hf0 Hl0 eq_refl) H).
  - destruct (run_lex (ts_lex_modes ERROR_STATE) input) as [m| |];
      try discriminate H.
    injection H as H.
    exact (keyword_not_empty s input m token rest (Herr m Hf0 Hl0 eq_refl) H).
Qed.

(** *** The weight of the stack *)

Lemma stack_weight_app :
  forall a b, stack_weight (a ++ b) = (stack_weight a + stack_weight b)%nat.
Proof.
  intros a b. unfold stack_weight. rewrite map_app, list_sum_app. reflexivity.
Qed.

Lemma stack_weight_cons :
  forall s t stack,
    stack_weight ((s, t) :: stack)
    = (weight (subtree_symbol t) + stack_weight stack)%nat.
Proof. reflexivity. Qed.

Lemma list_sum_rev : forall l, list_sum (rev l) = list_sum l.
Proof.
  induction l as [|x l IH]; [reflexivity|].
  cbn [rev]. rewrite list_sum_app, IH. simpl. lia.
Qed.

Lemma stack_weight_children :
  forall (upper : Stack),
    list_sum (map weight (map subtree_symbol (rev (map snd upper))))
    = stack_weight upper.
Proof.
  intros upper. unfold stack_weight.
  rewrite !map_rev, list_sum_rev, !map_map. reflexivity.
Qed.

Lemma firstn_nil_inv :
  forall (n : nat) (stack : Stack),
    firstn n stack = [] -> n = 0%nat \/ stack = [].
Proof.
  intros [|n] [|e stack] H; auto. discriminate H.
Qed.

(** *** Every step lowers the bound *)

Lemma run_halts :
  forall fuel stack lookahead input,
    stack_ok weight_rule stack ->
    lookahead_ok lookahead ->
    lookahead_text_ok lookahead ->
    (steps_left stack lookahead input + 2 <= fuel)%nat ->
    ts_parser_run fuel stack lookahead input <> OutOfFuel.
Proof.
  induction fuel as [|fuel IH];
    intros stack lookahead input Hstack Hla Htext Hfuel; [lia|].
  pose proof (stack_state_in _ _ Hstack) as Hin.
  cbn [ts_parser_run]. destruct lookahead as [token|].
  - cbn [lookahead_ok] in Hla. destruct Htext as [Hempty Hkw].
    destruct (parse_action (ts_stack_state stack) (tok_symbol token))
      as [[next|next|symbol child_count| |]|] eqn:Eact.
    + (* shift *)
      destruct (halting_shift _ _ _ Hin Hla Eact) as [Hend Hcomment].
      apply IH; [|exact I|exact I|].
      * exact (shift_keeps_stack weight_rule weight_rule_checked _ _ _
                 Hstack Hla Eact).
      * unfold steps_left in Hfuel |- *.
        rewrite stack_weight_cons. cbn [subtree_symbol].
        rewrite (weight_of_token _ Hla). unfold token_weight.
        cbn [ts_stack_state unread phase] in Hfuel |- *.
        destruct (tok_symbol token =? keyword_capture_token);
          destruct (tok_text token) as [|c text] eqn:Et.
        -- destruct (Hempty eq_refl) as [E | E]; [exfalso; exact (Hend E)|].
           destruct (Hcomment E) as [E1 E2]. rewrite E1 in Hfuel. rewrite E2.
           cbn [List.length] in Hfuel. lia.
        -- cbn [List.length] in Hfuel.
           destruct (expects_comment next);
             destruct (expects_comment (ts_stack_state stack)); lia.
        -- destruct (Hempty eq_refl) as [E | E]; [exfalso; exact (Hend E)|].
           destruct (Hcomment E) as [E1 E2]. rewrite E1 in Hfuel. rewrite E2.
           cbn [List.length] in Hfuel. lia.
        -- cbn [List.length] in Hfuel.
           destruct (expects_comment next);
             destruct (expects_comment (ts_stack_state stack)); lia.
    + discriminate.
    + (* reduce *)
      pose proof (reduce_keeps_stack weight_rule weight_rule_checked _ _ _ _
                    Hstack Hla Eact) as Hnew.
      destruct (reduce_symbol weight_rule weight_rule_checked _ _ _ _
                  Hin Hla Eact) as [H1 H2].
      destruct (firstn (N.to_nat child_count) stack) as [|e upper] eqn:Eup.
      * (* no children: the program is empty *)
        assert (Hbase : skipn (N.to_nat child_count) stack = stack).
        { destruct (firstn_nil_inv _ _ Eup) as [E | E].
          - rewrite E. reflexivity.
          - rewrite E. apply skipn_nil. }
        assert (Hnone : child_count = 0 \/ ts_stack_state stack = START_STATE).
        { destruct (firstn_nil_inv _ _ Eup) as [E | E].
          - left. lia.
          - right. rewrite E. reflexivity. }
        pose proof (halting_reduce _ _ _ _ Hin Hla Eact Hnone) as Hacc.
        destruct fuel as [|fuel]; [lia|].
        unfold ts_parser_reduce. cbv zeta. rewrite Hbase.
        cbn [ts_parser_run ts_stack_state]. rewrite Hacc. discriminate.
      * apply IH; [exact Hnew | exact Hla | split; assumption |].
        assert (Hrule :
                  weight_rule symbol
                    (map subtree_symbol
                       (rev (map snd (firstn (N.to_nat child_count) stack))))
                  = true).
        { unfold ts_parser_reduce in Hnew. cbv zeta in Hnew.
          destruct Hnew as [_ [_ [_ [Hnode _]]]].
          cbn [tree_ok] in Hnode. apply andb_true_iff in Hnode.
          exact (proj1 Hnode). }
        assert (Hlighter :
                  (weight symbol
                   < stack_weight (firstn (N.to_nat child_count) stack))%nat).
        { rewrite <- stack_weight_children. unfold weight_rule in Hrule.
          destruct (map subtree_symbol
                      (rev (map snd (firstn (N.to_nat child_count) stack))))
            as [|c cs] eqn:Ec.
          - exfalso. rewrite Eup in Ec. cbn [map rev] in Ec.
            apply (f_equal (@List.length _)) in Ec.
            rewrite length_map, length_app in Ec. cbn [List.length] in Ec. lia.
          - apply Nat.ltb_lt. exact Hrule. }
        assert (Hsplit :
                  stack_weight stack
                  = (stack_weight (firstn (N.to_nat child_count) stack)
                     + stack_weight (skipn (N.to_nat child_count) stack))%nat).
        { rewrite <- stack_weight_app, firstn_skipn. reflexivity. }
        assert (Hbase :
                  In (ts_stack_state (skipn (N.to_nat child_count) stack))
                    all_states).
        { unfold ts_parser_reduce in Hnew. cbv zeta in Hnew.
          destruct Hnew as [_ [_ [_ [_ Hbelow]]]].
          exact (stack_state_in _ _ Hbelow). }
        unfold steps_left in Hfuel |- *. unfold ts_parser_reduce. cbv zeta.
        cbn [ts_stack_state].
        rewrite (halting_goto _ _ Hbase H1 H2).
        rewrite stack_weight_cons. cbn [subtree_symbol].
        rewrite Hsplit in Hfuel. cbn [unread phase] in Hfuel |- *.
        destruct (tok_symbol token =? keyword_capture_token);
          destruct (expects_comment (ts_stack_state stack)); lia.
    + discriminate.
    + (* accept *)
      destruct stack as [|[s t] below]; discriminate.
    + (* a keyword read as a word *)
      destruct (tok_is_keyword token
                && negb (tok_symbol token =? keyword_capture_token)
                && ts_language_has_actions (ts_stack_state stack)
                     keyword_capture_token) eqn:Econd; [|discriminate].
      apply andb_true_iff in Econd. destruct Econd as [Econd _].
      apply andb_true_iff in Econd. destruct Econd as [Ekw Eword].
      apply negb_true_iff in Eword.
      apply IH; [exact Hstack | reflexivity | |].
      * cbn [lookahead_text_ok tok_text tok_symbol tok_is_keyword]. split.
        -- intros E. exfalso. exact (Hkw Ekw E).
        -- intros _. exact (Hkw Ekw).
      * unfold steps_left in Hfuel |- *.
        cbn [unread phase tok_text tok_symbol] in Hfuel |- *.
        rewrite Eword in Hfuel. rewrite N.eqb_refl.
        destruct (expects_comment (ts_stack_state stack)); lia.
  - destruct (ts_parser_lex (ts_stack_state stack) input)
      as [[token rest]|] eqn:Elex; [|discriminate].
    pose proof (ts_parser_lex_token _ _ _ _ Hin Elex) as Htok.
    destruct (ts_parser_lex_token_ok _ _ _ _ (all_states_lt _ Hin) Elex)
      as [[skipped [_ Hinput]] [_ Hempty]].
    apply IH; [exact Hstack | exact Htok | split |].
    + exact Hempty.
    + exact (ts_parser_lex_keyword_not_empty _ _ _ _
               (all_states_lt _ Hin) Elex).
    + unfold steps_left in Hfuel |- *. cbn [unread phase] in Hfuel |- *.
      assert (Hlen :
                (List.length (tok_text token) + List.length rest
                 <= List.length input)%nat).
      { rewrite Hinput, !length_app. lia. }
      destruct (tok_symbol token =? keyword_capture_token);
        destruct (expects_comment (ts_stack_state stack)); lia.
Qed.

(** The loop stops on every input within a hundred turns for each
    character, and four. *)
Lemma parse_within_bound :
  forall source,
    ts_parser_parse (100 * List.length source + 4) source <> OutOfFuel.
Proof.
  intros source. unfold ts_parser_parse.
  apply run_halts; [exact I | exact I | exact I |].
  unfold steps_left. cbn [ts_stack_state unread phase].
  rewrite no_comment_at_start.
  change (stack_weight []) with 0%nat. lia.
Qed.

(** X8: a source the tables accept is accepted within a number of turns
    of the loop (a token read, a shift, a reduction) linear in its length:
    a hundred for each character, and four; the tables hold no cycle of
    reductions. *)
Theorem X8_accepted_in_linear_steps :
  forall source tree,
    parses_to source tree ->
    ts_parser_parse (100 * List.length source + 4) source = Accepted tree.
Proof.
  intros source tree [fuel H].
  pose proof (parse_within_bound source) as Hbound.
  assert (Ha : Accepted tree <> OutOfFuel) by discriminate.
  symmetry.
  exact (parse_outcome_unique source fuel (100 * List.length source + 4)
           (Accepted tree) _ H Ha eq_refl Hbound).
Qed.

Lemma X8_accepted_in_linear_steps_witness :
  ts_parser_parse (100 * List.length (codes "display 1") + 4)
    (codes "display 1")
  = Accepted
      (Node sym_source_file
         [Node sym_display_statement
            [leaf anon_sym_display "display"; leaf sym_number "1"]]).
Proof.
  apply (X8_accepted_in_linear_steps (codes "display 1")).
  exists 100%nat. vm_compute. reflexivity.
Defined.

(** ** The empty program *)





(** ** One action for a state and a token *)

Lemma at_most_one :
  forall (A : Type) (l : list A) (a b : A),
    (List.length l <= 1)%nat -> In a l -> In b l -> a = b.
Proof.
  intros A [|x [|y l]] a b Hlen Ha Hb.
  - destruct Ha.
  - destruct Ha as [<- | []]. destruct Hb as [<- | []]. reflexivity.
  - cbn [List.length] in Hlen. lia.
Qed.

(** X10: the parse table has no conflict: for a state and a token it holds
    at most one action that is not a repetition shift, so the loop never
    has a choice. *)
Theorem X10_one_action_per_entry :
  forall s la a b,
    s < STATE_COUNT -> la < TOKEN_COUNT ->
    In a (ts_language_actions s la) -> In b (ts_language_actions s la) ->
    is_repetition a = false -> is_repetition b = false ->
    a = b.
Proof.
  intros s la a b Hs Hla Ha Hb Hra Hrb.
  pose proof (proj1 (forallb_forall _ _) entries_deterministic s
                (in_all_states s Hs)) as E.
  cbv beta in E.
  pose proof (proj1 (forallb_forall _ _) E la (in_all_tokens la Hla)) as E'.
  unfold deterministic_entry in E'. apply Nat.leb_le in E'.
  apply (at_most_one _ _ a b E'); apply filter_In; split;
    try assumption; apply negb_true_iff; assumption.
Qed.

Lemma X10_one_action_per_entry_witness :
  In (SHIFT after_display) (ts_language_actions START_STATE anon_sym_display)
  /\ SHIFT after_display = SHIFT after_display.
Proof.
  assert (Hin : In (SHIFT after_display)
                  (ts_language_actions START_STATE anon_sym_display)).
  { vm_compute. left. reflexivity. }
  split; [exact Hin|].
  apply (X10_one_action_per_entry START_STATE anon_sym_display);
    try reflexivity; exact Hin.
Defined.

(** ** The grammar of the tables *)

Lemma production_rule_checked : automaton_ok production_rule = true.
Proof. apply automaton_ok_by_rows. vm_compute. reflexivity. Qed.

Lemma top_level_only_checked : forallb top_level_only productions = true.
Proof. vm_compute. reflexivity. Qed.

(** *** The nodes of a tree *)

Lemma subtrees_self : forall t, In t (subtrees t).
Proof. intros [symbol text | symbol children]; left; reflexivity. Qed.

Lemma subtrees_within :
  forall t u v, In u (subtrees t) -> In v (subtrees u) -> In v (subtrees t).
Proof.
  fix IH 1. intros t u v Hu Hv.
  destruct t as [s text | s cs].
  - destruct Hu as [<- | []]. exact Hv.
  - destruct Hu as [<- | Hu]; [exact Hv|].
    right. cbn in Hu |- *. revert Hu.
    induction cs as [|c cs IHcs]; intros Hu; [destruct Hu|].
    cbn [flat_map] in Hu |- *. apply in_or_app.
    apply in_app_or in Hu. destruct Hu as [Hu | Hu].
    + left. exact (IH c u v Hu Hv).
    + right. exact (IHcs Hu).
Qed.

Lemma subtrees_child :
  forall t symbol children c,
    In (Node symbol children) (subtrees t) -> In c children ->
    In c (subtrees t).
Proof.
  intros t symbol children c Hn Hc.
  apply (subtrees_within t (Node symbol children) c Hn).
  right. cbn. apply in_flat_map. exists c.
  split; [exact Hc | apply subtrees_self].
Qed.

Lemma well_formed_subtrees :
  forall t u, well_formed t = true -> In u (subtrees t) -> well_formed u = true.
Proof.
  fix IH 1. intros t u Ht Hu.
  destruct t as [s text | s cs].
  - destruct Hu as [<- | []]. exact Ht.
  - destruct Hu as [<- | Hu]; [exact Ht|].
    cbn [well_formed] in Ht. apply andb_true_iff in Ht.
    destruct Ht as [_ Hcs]. cbn in Hu. revert Hcs Hu.
    induction cs as [|c cs IHcs]; intros Hcs Hu; [destruct Hu|].
    cbn [forallb] in Hcs. apply andb_true_iff in Hcs.
    destruct Hcs as [Hc Hcs]. cbn [flat_map] in Hu.
    apply in_app_or in Hu. destruct Hu as [Hu | Hu].
    + exact (IH c u Hc Hu).
    + exact (IHcs Hcs Hu).
Qed.

(** No node, and no leaf, has the symbol of a hidden rule. *)
Lemma built_symbols :
  forall source tree t,
    parses_to source tree -> In t (subtrees tree) ->
    one_of hidden_symbols (subtree_symbol t) = false.
Proof.
  intros source tree t Hp Hin. destruct t as [symbol text | symbol children].
  - pose proof (well_formed_subtrees _ _ (proj1 (accepted_tree _ _ Hp)) Hin)
      as Hwf.
    cbn [well_formed] in Hwf. apply N.ltb_lt in Hwf. cbn [subtree_symbol].
    unfold one_of, hidden_symbols. cbn [existsb].
    assert (H1 : (symbol =? sym__statement) = false).
    { apply N.eqb_neq. intros ->. revert Hwf. cbv. discriminate. }
    assert (H2 : (symbol =? sym__expression) = false).
    { apply N.eqb_neq. intros ->. revert Hwf. cbv. discriminate. }
    rewrite H1, H2. reflexivity.
  - pose proof (tree_ok_subtrees production_rule tree
                  (parsed_tree_ok production_rule production_rule_checked
                     source tree Hp) symbol children Hin) as Hrule.
    unfold production_rule in Hrule. apply andb_true_iff in Hrule.
    destruct Hrule as [Hrule _]. apply negb_true_iff in Hrule. exact Hrule.
Qed.

Lemma fits_children :
  forall pattern (children : list Subtree),
    fits pattern (map subtree_symbol children) = true ->
    (forall c, In c children ->
               one_of hidden_symbols (subtree_symbol c) = false) ->
    Forall2 (fun set c => In (subtree_symbol c) set) pattern children.
Proof.
  induction pattern as [|set pattern IH]; intros [|c children] Hfits Hbuilt;
    try discriminate Hfits.
  - apply Forall2_nil.
  - cbn [map fits] in Hfits. apply andb_true_iff in Hfits.
    destruct Hfits as [Hc Hfits]. apply Forall2_cons.
    + rewrite (Hbuilt c (or_introl eq_refl)), orb_false_r in Hc.
      exact (one_of_in _ _ Hc).
    + apply IH; [exact Hfits|]. intros c' Hc'. apply Hbuilt. right. exact Hc'.
Qed.

Lemma node_fits :
  forall source tree,
    parses_to source tree ->
    forall symbol children,
      In (Node symbol children) (subtrees tree) ->
      exists pattern,
        In (symbol, pattern) productions
        /\ fits pattern (map subtree_symbol children) = true.
Proof.
  intros source tree Hp symbol children Hin.
  pose proof (tree_ok_subtrees production_rule tree
                (parsed_tree_ok production_rule production_rule_checked
                   source tree Hp) symbol children Hin) as Hrule.
  unfold production_rule in Hrule. apply andb_true_iff in Hrule.
  destruct Hrule as [_ Hrule]. apply existsb_exists in Hrule.
  destruct Hrule as [[symbol' pattern] [Hprod Hfits]].
  cbn [fst snd] in Hfits. apply andb_true_iff in Hfits.
  destruct Hfits as [Hsym Hfits]. apply N.eqb_eq in Hsym. subst symbol'.
  exists pattern. split; assumption.
Qed.

Lemma fits_in :
  forall pattern symbols x,
    fits pattern symbols = true -> In x symbols ->
    one_of hidden_symbols x = true
    \/ exists set, In set pattern /\ In x set.
Proof.
  induction pattern as [|set pattern IH]; intros [|c symbols] x Hfits Hin;
    try discriminate Hfits.
  - destruct Hin.
  - cbn [fits] in Hfits. apply andb_true_iff in Hfits.
    destruct Hfits as [Hc Hfits]. destruct Hin as [<- | Hin].
    + apply orb_true_iff in Hc. destruct Hc as [Hc | Hc].
      * right. exists set. split; [left; reflexivity|].
        exact (one_of_in _ _ Hc).
      * left. exact Hc.
    + destruct (IH symbols x Hfits Hin) as [H | [set' [Hset Hx]]].
      * left. exact H.
      * right. exists set'. split; [right|]; assumption.
Qed.

(** X11: every node of an accepted tree is built by a production of the
    grammar [productions]: it has the symbol of the production, as many
    children as the production has places, and each child a symbol its
    place allows. *)
Theorem X11_nodes_by_productions :
  forall source tree,
    parses_to source tree ->
    forall symbol children,
      In (Node symbol children) (subtrees tree) ->
      exists pattern,
        In (symbol, pattern) productions
        /\ Forall2 (fun set c => In (subtree_symbol c) set) pattern children.
Proof.
  intros source tree Hp symbol children Hin.
  destruct (node_fits source tree Hp symbol children Hin)
    as [pattern [Hprod Hfits]].
  exists pattern. split; [exact Hprod|].
  apply fits_children; [exact Hfits|].
  intros c Hc. apply (built_symbols source tree c Hp).
  exact (subtrees_child tree symbol children c Hin Hc).
Qed.

Lemma X11_nodes_by_productions_witness :
  exists pattern,
    In (sym_display_statement, pattern) productions
    /\ Forall2 (fun set c => In (subtree_symbol c) set) pattern
         [leaf anon_sym_display "display"; leaf sym_number "1"].
Proof.
  apply (X11_nodes_by_productions (codes "display 1")
           (Node sym_source_file [display_node (leaf sym_number "1")])).
  - exists 100%nat. vm_compute. reflexivity.
  - right. left. reflexivity.
Defined.

(** X12: statements are not nested: a statement, a comment, a section
    marker, a definition or a line end is a child of the [source_file] or
    of its repetition, and of no other node; an [if], a [repeat] or a
    [while] holds its condition and no body. *)
Theorem X12_statements_at_top_level :
  forall source tree,
    parses_to source tree ->
    forall symbol children c,
      In (Node symbol children) (subtrees tree) ->
      In c children ->
      In (subtree_symbol c) top_level_symbols ->
      symbol = sym_source_file \/ symbol = aux_sym_source_file_repeat1.
Proof.
  intros source tree Hp symbol children c Hin Hc Htop.
  destruct (node_fits source tree Hp symbol children Hin)
    as [pattern [Hprod Hfits]].
  pose proof (proj1 (forallb_forall _ _) top_level_only_checked _ Hprod) as E.
  unfold top_level_only in E. cbn [fst snd] in E.
  apply orb_true_iff in E. destruct E as [E | E].
  - apply one_of_in in E.
    destruct E as [E | [E | []]]; [left | right]; symmetry; exact E.
  - exfalso.
    destruct (fits_in pattern _ (subtree_symbol c) Hfits (in_map _ _ _ Hc))
      as [Hhidden | [set [Hset Hcs]]].
    { rewrite (built_symbols source tree c Hp
                 (subtrees_child tree symbol children c Hin Hc)) in Hhidden.
      discriminate Hhidden. }
    pose proof (proj1 (forallb_forall _ _) E set Hset) as E'.
    cbv beta in E'. apply negb_true_iff in E'.
    assert (He : existsb (one_of top_level_symbols) set = true).
    { apply existsb_exists. exists (subtree_symbol c). split; [exact Hcs|].
      unfold one_of. apply existsb_exists. exists (subtree_symbol c).
      split; [exact Htop | apply N.eqb_refl]. }
    rewrite He in E'. discriminate E'.
Qed.

Lemma X12_statements_at_top_level_witness :
  sym_source_file = sym_source_file
  \/ sym_source_file = aux_sym_source_file_repeat1.
Proof.
  apply (X12_statements_at_top_level (codes "display 1")
           (Node sym_source_file [display_node (leaf sym_number "1")])
           ltac:(exists 100%nat; vm_compute; reflexivity)
           sym_source_file [display_node (leaf sym_number "1")]
           (display_node (leaf sym_number "1"))).
  - left. reflexivity.
  - left. reflexivity.
  - vm_compute. tauto.
Defined.

(** ** How tokens are spelled *)

Lemma text_eqb_eq : forall a b, text_eqb a b = true -> a = b.
Proof.
  induction a as [|x a IH]; intros [|y b] H; try discriminate H.
  - reflexivity.
  - cbn [text_eqb] in H. apply andb_true_iff in H. destruct H as [Hx Hab].
    apply N.eqb_eq in Hx. subst y. f_equal. exact (IH b Hab).
Qed.

Lemma word_shaped_more :
  forall text c,
    word_shaped text = true -> is_word_char c = true ->
    word_shaped (text ++ [c]) = true.
Proof.
  intros [|x text] c H Hc; [discriminate H|].
  cbn [word_shaped app] in H |- *. apply andb_true_iff in H.
  destruct H as [Hx Ht]. rewrite Hx, forallb_app, Ht. cbn [forallb andb].
  rewrite Hc. reflexivity.
Qed.

Lemma high_not_word : forall c, 128 <= c -> is_word_char c = false.
Proof.
  intros c H. unfold is_word_char, is_word_start, is_letter, is_digit, chr.
  cbn [N_of_ascii].
  repeat (apply orb_false_iff; split);
    try (apply andb_false_iff; right; apply N.leb_gt; cbn; lia).
  apply N.eqb_neq. cbn. lia.
Qed.

Lemma word_not_blank :
  forall c, is_word_start c = true -> is_blank c = false.
Proof.
  intros c H. unfold is_blank. apply orb_false_iff.
  split; apply N.eqb_neq; intros ->; discriminate H.
Qed.

Lemma extend_high : forall L c, 128 <= c -> extend L c = extend L 128.
Proof.
  intros [p| |] c H; cbn [extend]; try reflexivity.
  - assert (E : (c <? 128) = false) by (apply N.ltb_ge; exact H).
    rewrite E. reflexivity.
  - rewrite (high_not_word c H), (high_not_word 128 (N.le_refl 128)).
    reflexivity.
Qed.

Lemma extend_holds :
  forall L text c, holds L text -> holds (extend L c) (text ++ [c]).
Proof.
  intros [p| |] text c H; cbn [extend holds] in *.
  - destruct (c <? 128); [subst p; reflexivity | exact I].
  - destruct (is_word_char c) eqn:E; [|exact I].
    exact (word_shaped_more text c H E).
  - exact I.
Qed.

Lemma below_holds :
  forall a b text, below a b = true -> holds a text -> holds b text.
Proof.
  intros [p| |] [q| |] text Hb Ha; cbn [below holds] in *;
    try discriminate Hb; try exact I.
  - apply text_eqb_eq in Hb. subst. reflexivity.
  - subst text. exact Hb.
  - exact Ha.
Qed.

Lemma accept_ok_holds :
  forall symbol L text,
    accept_ok (Some symbol) L = true -> holds L text ->
    token_spelling_ok symbol text = true.
Proof.
  intros symbol [p| |] text Ha Hh; cbn [accept_ok holds] in *.
  - subst text. exact Ha.
  - apply andb_true_iff in Ha. destruct Ha as [H1 H3].
    unfold no_literal in H3. unfold token_spelling_ok.
    rewrite H1, Hh, orb_true_r.
    destruct (literal_spelling symbol); [discriminate H3 | reflexivity].
  - apply andb_true_iff in Ha. destruct Ha as [Ha H3].
    apply andb_true_iff in Ha. destruct Ha as [H1 H2].
    unfold no_literal in H3. unfold token_spelling_ok. rewrite H1, H2.
    destruct (literal_spelling symbol); [discriminate H3 | reflexivity].
Qed.

Lemma token_spelling_parts :
  forall symbol text,
    token_spelling_ok symbol text = true ->
    (anonymous symbol = true -> text = codes (ts_symbol_names symbol))
    /\ (symbol = sym_identifier -> word_shaped text = true)
    /\ (forall p, literal_spelling symbol = Some p -> text = p).
Proof.
  intros symbol text H. unfold token_spelling_ok in H.
  apply andb_true_iff in H. destruct H as [H H3].
  apply andb_true_iff in H. destruct H as [H1 H2].
  split; [|split].
  - intros E. rewrite E in H1. exact (text_eqb_eq _ _ H1).
  - intros ->. rewrite N.eqb_refl in H2. exact H2.
  - intros p E. rewrite E in H3. exact (text_eqb_eq _ _ H3).
Qed.

Lemma spelled_state_high :
  forall table s c x,
    128 <= c -> spelled_state table s c x = spelled_state table s 128 x.
Proof.
  intros table s c x H. unfold spelled_state.
  destruct (spelling_of table s) as [L|]; [|reflexivity].
  destruct x as [[accept [next|next|]]|]; cbn [spelled_case];
    try reflexivity.
  - rewrite (extend_high L c H). reflexivity.
  - rewrite (high_not_blank c H), (high_not_blank 128 (N.le_refl 128)).
    reflexivity.
Qed.

Lemma spelled_within_bound :
  forall bound table s L,
    spelled_within bound table = true ->
    spelling_of table s = Some L -> s < bound.
Proof.
  intros bound table s L H Hs. unfold spelling_of in Hs.
  apply PositiveMap.elements_correct in Hs.
  pose proof (proj1 (forallb_forall _ _) H _ Hs) as E.
  cbn [fst] in E. unfold state_key in E. rewrite N.pos_pred_succ in E.
  apply N.ltb_lt. exact E.
Qed.

(** *** A run of a lex function *)

Section Spelled.

Variable lex_fn : TSStateId -> bool -> N -> option lex_case.
Variable eof_fuel : nat.
Variable table : Spellings.

Hypothesis step_spelled :
  forall s c L,
    spelling_of table s = Some L ->
    spelled_case table L c (lex_fn s false c) = true.

Hypothesis eof_spelled :
  forall s L,
    spelling_of table s = Some L ->
    spelled_eof_case table L (lex_fn s true 0) = true.

Variable input : list N.

Lemma mark_end_spelled :
  forall accept L tok cur result skipped,
    accept_ok accept L = true ->
    holds L (rev tok) ->
    Forall blank skipped ->
    input = skipped ++ rev tok ++ cur ->
    mark_spelled input result ->
    mark_spelled input (mark_end accept tok cur result).
Proof.
  intros [symbol|] L tok cur result skipped Ha Hh Hb Hi Hr;
    cbn [mark_end mark_spelled]; [|exact Hr].
  split; [exact (accept_ok_holds symbol L _ Ha Hh)|].
  exists skipped. split; assumption.
Qed.

Lemma lex_at_eof_spelled :
  forall fuel s tok result L skipped m,
    spelling_of table s = Some L ->
    holds L (rev tok) ->
    Forall blank skipped ->
    input = skipped ++ rev tok ++ [] ->
    mark_spelled input result ->
    lex_at_eof lex_fn fuel s tok result = Lexed m ->
    mark_spelled input (Some m).
Proof.
  induction fuel as [|fuel IH]; intros s tok result L skipped m
                                       Hs Hh Hb Hi Hr H; [discriminate H|].
  rewrite lex_at_eof_step in H. pose proof (eof_spelled s L Hs) as Hc.
  destruct (lex_fn s true 0) as [[accept step]|]; [|discriminate H].
  cbv zeta in H. cbn [spelled_eof_case] in Hc.
  apply andb_true_iff in Hc. destruct Hc as [Ha Hstep].
  pose proof (mark_end_spelled accept L tok [] result skipped Ha Hh Hb Hi Hr)
    as Hm.
  assert (Hnext :
            forall next,
              match spelling_of table next with
              | Some L' => below L L'
              | None => false
              end = true ->
              lex_at_eof lex_fn fuel next tok (mark_end accept tok [] result)
              = Lexed m ->
              mark_spelled input (Some m)).
  { intros next Hn Hrun.
    destruct (spelling_of table next) as [L'|] eqn:En; [|discriminate Hn].
    exact (IH next tok (mark_end accept tok [] result) L' skipped m En
             (below_holds _ _ _ Hn Hh) Hb Hi Hm Hrun). }
  destruct step as [next|next|].
  - exact (Hnext next Hstep H).
  - exact (Hnext next Hstep H).
  - destruct (mark_end accept tok [] result) as [m'|];
      cbn [finish] in H; [|discriminate H].
    injection H as <-. exact Hm.
Qed.

Lemma lex_run_spelled :
  forall cur s tok result L skipped m,
    spelling_of table s = Some L ->
    holds L (rev tok) ->
    (tok = [] -> result = None) ->
    Forall blank skipped ->
    input = skipped ++ rev tok ++ cur ->
    mark_spelled input result ->
    lex_run lex_fn eof_fuel s cur tok result = Lexed m ->
    mark_spelled input (Some m).
Proof.
  induction cur as [|c cur IH]; intros s tok result L skipped m
                                       Hs Hh Hnone Hb Hi Hr H.
  - rewrite lex_run_eof in H.
    exact (lex_at_eof_spelled _ s tok result L skipped m Hs Hh Hb Hi Hr H).
  - rewrite lex_run_cons in H. pose proof (step_spelled s c L Hs) as Hc.
    destruct (lex_fn s false c) as [[accept step]|]; [|discriminate H].
    cbv zeta in H. cbn [spelled_case] in Hc.
    apply andb_true_iff in Hc. destruct Hc as [Ha Hstep].
    pose proof (mark_end_spelled accept L tok (c :: cur) result skipped
                  Ha Hh Hb Hi Hr) as Hm.
    destruct step as [next|next|].
    + destruct (spelling_of table next) as [L'|] eqn:En;
        [|discriminate Hstep].
      apply (IH next (c :: tok) (mark_end accept tok (c :: cur) result) L'
               skipped m En); [| | | |exact Hm|exact H].
      * cbn [rev]. exact (below_holds _ _ _ Hstep (extend_holds L _ c Hh)).
      * intros E. discriminate E.
      * exact Hb.
      * rewrite Hi. cbn [rev]. rewrite <- !app_assoc. reflexivity.
    + apply andb_true_iff in Hstep. destruct Hstep as [Hstep Hnext].
      apply andb_true_iff in Hstep. destruct Hstep as [Hstep Hacc].
      apply andb_true_iff in Hstep. destruct Hstep as [Hblank Hempty].
      destruct (spelling_of table next) as [L'|] eqn:En;
        [|discriminate Hnext].
      pose proof (below_holds _ _ _ Hempty Hh) as Htok.
      cbn [holds] in Htok. apply rev_nil_inv in Htok.
      destruct accept as [symbol|]; [discriminate Hacc|].
      rewrite (Hnone Htok) in H. cbn [mark_end skip_mark] in H.
      apply (IH next [] None L' (skipped ++ [c]) m En);
        [| | | |exact I|exact H].
      * exact (below_holds _ _ [] Hnext eq_refl).
      * reflexivity.
      * apply Forall_app. split; [exact Hb|].
        apply Forall_cons; [|apply Forall_nil].
        exact (is_blank_blank c Hblank).
      * rewrite Hi, Htok. cbn [rev app]. rewrite <- app_assoc. reflexivity.
    + destruct (mark_end accept tok (c :: cur) result) as [m'|];
        cbn [finish] in H; [|discriminate H].
      injection H as <-. exact Hm.
Qed.

End Spelled.

(** *** The two lex functions *)

Lemma lex_spelled_checked :
  cases_checked ts_lex lex_states (fun _ => true) (spelled_state lex_spellings)
  = true.
Proof. vm_compute. reflexivity. Qed.

Lemma lex_spelled_at_eof_checked :
  spelled_at_eof ts_lex lex_spellings lex_states = true.
Proof. vm_compute. reflexivity. Qed.

Lemma lex_spelled_within : spelled_within LEX_STATE_COUNT lex_spellings = true.
Proof. vm_compute. reflexivity. Qed.

Lemma keywords_spelled_checked :
  cases_checked ts_lex_keywords keyword_states (fun _ => true)
    (spelled_state keyword_spellings)
  = true.
Proof. vm_compute. reflexivity. Qed.

Lemma keywords_spelled_at_eof_checked :
  spelled_at_eof ts_lex_keywords keyword_spellings keyword_states = true.
Proof. vm_compute. reflexivity. Qed.

Lemma keywords_spelled_within :
  spelled_within KEYWORD_STATE_COUNT keyword_spellings = true.
Proof. vm_compute. reflexivity. Qed.

Lemma plain_starts_checked :
  forallb
    (fun s =>
       match spelling_of lex_spellings s with
       | Some (Exact []) => true
       | _ => false
       end)
    plain_start_states
  = true.
Proof. vm_compute. reflexivity. Qed.

Lemma keyword_start_checked :
  spelling_of keyword_spellings 0 = Some (Exact []).
Proof. vm_compute. reflexivity. Qed.

Section Checked.

Variable lex_fn : TSStateId -> bool -> N -> option lex_case.
Variable states : list TSStateId.
Variable bound : N.
Variable table : Spellings.

Hypothesis above : forall q, uniform_above lex_fn states q = true.
Hypothesis upper_half : uniform_upper_half lex_fn states = true.
Hypothesis in_states : forall s, s < bound -> In s states.
Hypothesis within : spelled_within bound table = true.
Hypothesis checked :
  cases_checked lex_fn states (fun _ => true) (spelled_state table) = true.
Hypothesis checked_at_eof : spelled_at_eof lex_fn table states = true.

Lemma step_spelled_checked :
  forall s c L,
    spelling_of table s = Some L ->
    spelled_case table L c (lex_fn s false c) = true.
Proof.
  intros s c L Hs.
  pose proof (all_chars_by_check lex_fn states above upper_half
                (spelled_state table) (fun _ => true)
                (spelled_state_high table) checked s c
                (in_states s (spelled_within_bound bound table s L within Hs))
                eq_refl) as H.
  unfold spelled_state in H. rewrite Hs in H. exact H.
Qed.

Lemma eof_spelled_checked :
  forall s L,
    spelling_of table s = Some L ->
    spelled_eof_case table L (lex_fn s true 0) = true.
Proof.
  intros s L Hs.
  pose proof (proj1 (forallb_forall _ _) checked_at_eof s
                (in_states s (spelled_within_bound bound table s L within Hs)))
    as H.
  cbv beta in H. rewrite Hs in H. exact H.
Qed.

Lemma run_spelled :
  forall eof_fuel start input m,
    spelling_of table start = Some (Exact []) ->
    lex_run lex_fn eof_fuel start input [] None = Lexed m ->
    mark_spelled input (Some m).
Proof.
  intros eof_fuel start input m Hs H.
  apply (lex_run_spelled lex_fn eof_fuel table step_spelled_checked
           eof_spelled_checked input input start [] None (Exact []) [] m Hs);
    [reflexivity | reflexivity | apply Forall_nil | reflexivity | exact I
    | exact H].
Qed.

End Checked.

Lemma run_lex_spelled :
  forall start input m,
    In start plain_start_states ->
    run_lex start input = Lexed m -> mark_spelled input (Some m).
Proof.
  intros start input m Hs H.
  apply (run_spelled ts_lex lex_states LEX_STATE_COUNT lex_spellings
           ts_lex_uniform_above ts_lex_uniform_upper_half in_lex_states
           lex_spelled_within lex_spelled_checked lex_spelled_at_eof_checked
           EOF_FUEL start input m); [|exact H].
  pose proof (proj1 (forallb_forall _ _) plain_starts_checked start Hs) as E.
  cbv beta in E.
  destruct (spelling_of lex_spellings start) as [[[|c p]| |]|];
    try discriminate E.
  reflexivity.
Qed.

Lemma run_lex_keywords_spelled :
  forall input m,
    run_lex_keywords input = Lexed m -> mark_spelled input (Some m).
Proof.
  intros input m H.
  exact (run_spelled ts_lex_keywords keyword_states KEYWORD_STATE_COUNT
           keyword_spellings ts_lex_keywords_uniform_above
           ts_lex_keywords_uniform_upper_half in_keyword_states
           keywords_spelled_within keywords_spelled_checked
           keywords_spelled_at_eof_checked EOF_FUEL 0 input m
           keyword_start_checked H).
Qed.

(** *** Tokens in a parse state *)

Lemma same_rest_length :
  forall (a a' b b' : list N),
    a ++ b = a' ++ b' -> List.length b = List.length b' -> a = a'.
Proof.
  induction a as [|x a IH]; intros [|y a'] b b' H Hlen.
  - reflexivity.
  - exfalso. apply (f_equal (@List.length N)) in H.
    cbn [app List.length] in H. rewrite length_app in H. lia.
  - exfalso. apply (f_equal (@List.length N)) in H.
    cbn [app List.length] in H. rewrite length_app in H. lia.
  - cbn [app] in H. injection H as -> H. f_equal. exact (IH a' b b' H Hlen).
Qed.

Lemma word_first :
  forall text,
    word_shaped text = true ->
    exists c text', text = c :: text' /\ is_blank c = false.
Proof.
  intros [|c text'] H; [discriminate H|].
  cbn [word_shaped] in H. apply andb_true_iff in H. destruct H as [H _].
  exists c, text'. split; [reflexivity | exact (word_not_blank c H)].
Qed.

Lemma blank_is_blank : forall c, blank c -> is_blank c = true.
Proof. intros c [-> | ->]; reflexivity. Qed.

Lemma keyword_or_word_spelled :
  forall s input symbol text rest0 token rest,
    mark_spelled input (Some (symbol, text, rest0)) ->
    keyword_or_word s (symbol, text, rest0) = (token, rest) ->
    token_spelling_ok (tok_symbol token) (tok_text token) = true.
Proof.
  intros s input symbol text rest0 token rest [Hok _] H.
  unfold keyword_or_word in H.
  destruct (symbol =? keyword_capture_token) eqn:Ek;
    [|injection H as <- <-; exact Hok].
  pose proof (run_lex_keywords_spelled (text ++ rest0)) as Hk.
  destruct (run_lex_keywords (text ++ rest0))
    as [[[keyword text'] rest']| |];
    [|injection H as <- <-; exact Hok|injection H as <- <-; exact Hok].
  destruct (Nat.eqb (List.length rest') (List.length rest0)
            && ts_language_has_actions s keyword) eqn:Ec;
    [|injection H as <- <-; exact Hok].
  injection H as <- <-. cbn [tok_symbol tok_text].
  apply andb_true_iff in Ec. destruct Ec as [Elen _].
  apply Nat.eqb_eq in Elen.
  destruct (Hk _ eq_refl) as [Hkw [skipped [Hblank Hparts]]].
  apply N.eqb_eq in Ek. subst symbol.
  destruct (token_spelling_parts _ _ Hok) as [_ [Hword _]].
  specialize (Hword eq_refl).
  destruct (word_first text Hword) as [c [text0 [Etext Hc]]].
  assert (Hskipped : skipped = []).
  { destruct skipped as [|b skipped]; [reflexivity|]. exfalso.
    rewrite Etext in Hparts. cbn [app] in Hparts. injection Hparts as -> _.
    apply Forall_inv in Hblank. rewrite (blank_is_blank b Hblank) in Hc.
    discriminate Hc. }
  subst skipped. cbn [app] in Hparts.
  rewrite (same_rest_length text text' rest0 rest' Hparts (eq_sym Elen)).
  exact Hkw.
Qed.

Lemma plain_mode :
  forall s,
    s < STATE_COUNT -> ts_lex_modes s <> note_lex_state ->
    In (ts_lex_modes s) plain_start_states.
Proof.
  intros s Hs Hnote. destruct (mode_fresh s Hs) as [Hf _].
  unfold fresh in Hf. apply existsb_exists in Hf.
  destruct Hf as [m [Hin Hm]]. apply N.eqb_eq in Hm. subst m.
  unfold plain_start_states. apply filter_In. split; [exact Hin|].
  apply negb_true_iff. apply N.eqb_neq. exact Hnote.
Qed.

Lemma error_mode_plain : In (ts_lex_modes ERROR_STATE) plain_start_states.
Proof. vm_compute. left. reflexivity. Qed.

Lemma ts_parser_lex_spelled :
  forall s input token rest,
    s < STATE_COUNT -> ts_lex_modes s <> note_lex_state ->
    ts_parser_lex s input = Some (token, rest) ->
    token_spelling_ok (tok_symbol token) (tok_text token) = true.
Proof.
  intros s input token rest Hs Hnote H. unfold ts_parser_lex in H.
  pose proof (run_lex_spelled (ts_lex_modes s) input) as Hmain.
  pose proof (run_lex_spelled (ts_lex_modes ERROR_STATE) input) as Herr.
  assert (Hfrom :
            forall start m,
              In start plain_start_states ->
              run_lex start input = Lexed m ->
              keyword_or_word s m = (token, rest) ->
              token_spelling_ok (tok_symbol token) (tok_text token) = true).
  { intros start [[symbol text] rest0] Hin Hrun Hkw.
    exact (keyword_or_word_spelled s input symbol text rest0 token rest
             (run_lex_spelled start input _ Hin Hrun) Hkw). }
  destruct (run_lex (ts_lex_modes s) input) as [m| |] eqn:E1.
  - injection H as H. exact (Hfrom _ m (plain_mode s Hs Hnote) E1 H).
  - destruct (run_lex (ts_lex_modes ERROR_STATE) input) as [m| |] eqn:E2;
      try discriminate H.
    injection H as H. exact (Hfrom _ m error_mode_plain E2 H).
  - destruct (run_lex (ts_lex_modes ERROR_STATE) input) as [m| |] eqn:E2;
      try discriminate H.
    injection H as H. exact (Hfrom _ m error_mode_plain E2 H).
Qed.

(** X13: outside a note, a keyword, an operator or a bracket is read as
    it is named in [ts_symbol_names], letter for letter: the words of a
    phrase one space apart, in the case they are written in. *)
Theorem X13_anonymous_token_is_its_name :
  forall s input token rest,
    s < STATE_COUNT -> ts_lex_modes s <> note_lex_state ->
    ts_parser_lex s input = Some (token, rest) ->
    anonymous (tok_symbol token) = true ->
    tok_text token = codes (ts_symbol_names (tok_symbol token)).
Proof.
  intros s input token rest Hs Hnote H Hanon.
  pose proof (ts_parser_lex_spelled s input token rest Hs Hnote H) as Hok.
  destruct (token_spelling_parts _ _ Hok) as [Hname _].
  exact (Hname Hanon).
Qed.

Lemma X13_anonymous_token_is_its_name_witness :
  codes "is equal to" = codes (ts_symbol_names anon_sym_isequalto).
Proof.
  apply (X13_anonymous_token_is_its_name display_complete
           (codes " is equal to 2")
           (plain_token anon_sym_isequalto (codes "is equal to"))
           (codes " 2")).
  - reflexivity.
  - vm_compute. discriminate.
  - vm_compute. reflexivity.
  - reflexivity.
Defined.

(** X14: outside a note, an identifier is a letter or an underscore, and
    then letters, digits and underscores. *)
Theorem X14_identifier_is_a_word :
  forall s input token rest,
    s < STATE_COUNT -> ts_lex_modes s <> note_lex_state ->
    ts_parser_lex s input = Some (token, rest) ->
    tok_symbol token = sym_identifier ->
    word_shaped (tok_text token) = true.
Proof.
  intros s input token rest Hs Hnote H Hid.
  pose proof (ts_parser_lex_spelled s input token rest Hs Hnote H) as Hok.
  destruct (token_spelling_parts _ _ Hok) as [_ [Hword _]].
  exact (Hword Hid).
Qed.

Lemma X14_identifier_is_a_word_witness :
  word_shaped (codes "x_1") = true.
Proof.
  apply (X14_identifier_is_a_word after_display (codes " x_1+y")
           (plain_token sym_identifier (codes "x_1")) (codes "+y")).
  - reflexivity.
  - vm_compute. discriminate.
  - vm_compute. reflexivity.
  - reflexivity.
Defined.

(** X20: outside a note, the line end is one line feed, an
    [exit_statement] is the word [exit] and a [nothing] the word
    [nothing]. *)
Theorem X20_line_end_is_a_line_feed :
  forall s input token rest,
    s < STATE_COUNT -> ts_lex_modes s <> note_lex_state ->
    ts_parser_lex s input = Some (token, rest) ->
    (tok_symbol token = sym__newline -> tok_text token = NL)
    /\ (tok_symbol token = sym_exit_statement ->
        tok_text token = codes "exit")
    /\ (tok_symbol token = sym_nothing -> tok_text token = codes "nothing").
Proof.
  intros s input token rest Hs Hnote H.
  pose proof (ts_parser_lex_spelled s input token rest Hs Hnote H) as Hok.
  destruct (token_spelling_parts _ _ Hok) as [_ [_ Hliteral]].
  split; [|split]; intros E; apply Hliteral; rewrite E; reflexivity.
Qed.

Lemma X20_line_end_is_a_line_feed_witness :
  (sym__newline = sym__newline -> NL = NL)
  /\ (sym__newline = sym_exit_statement -> NL = codes "exit")
  /\ (sym__newline = sym_nothing -> NL = codes "nothing").
Proof.
  apply (X20_line_end_is_a_line_feed display_complete
           (codes "  " ++ NL ++ codes "exit")
           (plain_token sym__newline NL) (codes "exit")).
  - reflexivity.
  - vm_compute. discriminate.
  - vm_compute. reflexivity.
Defined.

(** ** The text of a note *)

Lemma note_checked :
  cases_checked ts_lex lex_states in_note (fun _ => note_case) = true.
Proof. vm_compute. reflexivity. Qed.

Lemma note_at_eof_checked : note_checked_at_eof = true.
Proof. vm_compute. reflexivity. Qed.

Lemma note_states_in_range :
  forallb (fun s => s <? LEX_STATE_COUNT) note_lex_states = true.
Proof. vm_compute. reflexivity. Qed.

Lemma note_start : in_note note_lex_state = true.
Proof. vm_compute. reflexivity. Qed.

Lemma in_note_states : forall s, in_note s = true -> In s note_lex_states.
Proof.
  intros s H. apply existsb_exists in H. destruct H as [x [Hin Hx]].
  apply N.eqb_eq in Hx. subst x. exact Hin.
Qed.

Lemma high_ends_no_note : forall c, 128 <= c -> ends_note c = false.
Proof.
  intros c H. unfold ends_note. apply orb_false_iff.
  split; apply N.eqb_neq; lia.
Qed.

Lemma note_case_high :
  forall c x, 128 <= c -> note_case c x = note_case 128 x.
Proof.
  intros c x H. destruct x as [[[symbol|] [next|next|]]|];
    cbn [note_case]; try reflexivity;
    rewrite (high_ends_no_note c H), (high_ends_no_note 128 (N.le_refl 128));
    reflexivity.
Qed.

Lemma ts_lex_note_step :
  forall s c, in_note s = true -> note_case c (ts_lex s false c) = true.
Proof.
  intros s c Hs.
  apply (all_chars_by_check ts_lex lex_states ts_lex_uniform_above
           ts_lex_uniform_upper_half (fun _ => note_case) in_note
           (fun _ => note_case_high) note_checked s c); [|exact Hs].
  apply in_lex_states. apply N.ltb_lt.
  exact (proj1 (forallb_forall _ _) note_states_in_range s
           (in_note_states s Hs)).
Qed.

Lemma ts_lex_note_eof :
  forall s, in_note s = true -> note_eof_case (ts_lex s true 0) = true.
Proof.
  intros s Hs.
  exact (proj1 (forallb_forall _ _) note_at_eof_checked s
           (in_note_states s Hs)).
Qed.

Section Note.

Variable lex_fn : TSStateId -> bool -> N -> option lex_case.
Variable eof_fuel : nat.

Hypothesis note_step :
  forall s c, in_note s = true -> note_case c (lex_fn s false c) = true.
Hypothesis note_eof :
  forall s, in_note s = true -> note_eof_case (lex_fn s true 0) = true.

Lemma note_text_rev :
  forall tok,
    forallb (fun c => negb (ends_note c)) tok = true ->
    forallb (fun c => negb (ends_note c)) (rev tok) = true.
Proof.
  intros tok H. apply forallb_forall. intros c Hc. apply in_rev in Hc.
  exact (proj1 (forallb_forall _ _) H c Hc).
Qed.

Lemma lex_at_eof_note :
  forall fuel s tok result,
    in_note s = true ->
    forallb (fun c => negb (ends_note c)) tok = true ->
    note_outcome_ok (lex_at_eof lex_fn fuel s tok result).
Proof.
  induction fuel as [|fuel IH]; intros s tok result Hs Htok; [exact I|].
  rewrite lex_at_eof_step. pose proof (note_eof s Hs) as Hc.
  destruct (lex_fn s true 0) as [[[symbol|] step]|]; try discriminate Hc.
  cbn [note_eof_case] in Hc. apply andb_true_iff in Hc.
  destruct Hc as [Hsym Hstep]. cbv zeta. cbn [mark_end].
  destruct step as [next|next|].
  - exact (IH next tok _ Hstep Htok).
  - exact (IH next tok _ Hstep Htok).
  - cbn [finish note_outcome_ok note_mark_ok]. split.
    + apply N.eqb_neq. apply negb_true_iff. exact Hsym.
    + intros _. split; [exact (note_text_rev tok Htok) | exact I].
Qed.

Lemma lex_run_note :
  forall cur s tok result,
    in_note s = true ->
    forallb (fun c => negb (ends_note c)) tok = true ->
    note_outcome_ok (lex_run lex_fn eof_fuel s cur tok result).
Proof.
  induction cur as [|c cur IH]; intros s tok result Hs Htok.
  - rewrite lex_run_eof. exact (lex_at_eof_note _ s tok result Hs Htok).
  - rewrite lex_run_cons. pose proof (note_step s c Hs) as Hc.
    destruct (lex_fn s false c) as [[[symbol|] step]|]; try discriminate Hc.
    cbn [note_case] in Hc. apply andb_true_iff in Hc.
    destruct Hc as [Hsym Hstep]. cbv zeta. cbn [mark_end].
    destruct step as [next|next|].
    + apply andb_true_iff in Hstep. destruct Hstep as [Hnext Hc].
      apply IH; [exact Hnext|]. cbn [forallb]. rewrite Hc, Htok. reflexivity.
    + discriminate Hstep.
    + cbn [finish note_outcome_ok note_mark_ok]. split.
      * apply N.eqb_neq. apply negb_true_iff. exact Hsym.
      * intros E. apply N.eqb_eq in E. rewrite E in Hstep.
        cbn [negb orb] in Hstep.
        split; [exact (note_text_rev tok Htok) | exact Hstep].
Qed.

End Note.

Lemma run_lex_note :
  forall input, exists m,
    run_lex note_lex_state input = Lexed m /\ note_mark_ok m.
Proof.
  intros input.
  pose proof (lex_run_note ts_lex EOF_FUEL ts_lex_note_step ts_lex_note_eof
                input note_lex_state [] None note_start eq_refl) as H.
  assert (Hlt : note_lex_state < LEX_STATE_COUNT) by reflexivity.
  pose proof (run_lex_stops note_lex_state input Hlt) as Hstops.
  unfold run_lex in *.
  destruct (lex_run ts_lex EOF_FUEL note_lex_state input [] None) as [m| |].
  - exists m. split; [reflexivity | exact H].
  - destruct H.
  - exfalso. exact (Hstops eq_refl).
Qed.

(** X15: the text of a note runs to the end of its line: a
    [comment_content] holds no line feed (and no character 0), and what
    comes after it is a line feed (or a character 0) or the end of the
    input. *)
Theorem X15_note_runs_to_line_end :
  forall s input token rest,
    ts_lex_modes s = note_lex_state ->
    ts_parser_lex s input = Some (token, rest) ->
    tok_symbol token = sym_comment_content ->
    (forall c, In c (tok_text token) -> c <> 10 /\ c <> 0)
    /\ (rest = [] \/ exists c more, rest = c :: more /\ (c = 10 \/ c = 0)).
Proof.
  intros s input token rest Hmode H Hsym. unfold ts_parser_lex in H.
  rewrite Hmode in H.
  destruct (run_lex_note input) as [[[symbol text] rest0] [Hrun Hok]].
  rewrite Hrun in H. destruct Hok as [Hword Hnote].
  unfold keyword_capture_token in Hword.
  rewrite (keyword_or_word_plain s symbol text rest0 Hword) in H.
  injection H as <- <-. cbn [plain_token tok_symbol tok_text] in *.
  destruct (Hnote Hsym) as [Htext Hrest]. split.
  - intros c Hc.
    pose proof (proj1 (forallb_forall _ _) Htext c Hc) as E.
    cbv beta in E. apply negb_true_iff in E. unfold ends_note in E.
    apply orb_false_iff in E. destruct E as [E1 E2].
    split; apply N.eqb_neq; assumption.
  - destruct rest0 as [|c more]; [left; reflexivity|].
    right. exists c, more. split; [reflexivity|].
    unfold ends_note in Hrest. apply orb_true_iff in Hrest.
    destruct Hrest as [E | E]; apply N.eqb_eq in E; [left | right]; exact E.
Qed.

Lemma X15_note_runs_to_line_end_witness :
  (forall c, In c (codes " to do") -> c <> 10 /\ c <> 0)
  /\ (NL ++ codes "exit" = []
      \/ exists c more,
           NL ++ codes "exit" = c :: more /\ (c = 10 \/ c = 0)).
Proof.
  apply (X15_note_runs_to_line_end 58 (codes " to do" ++ NL ++ codes "exit")
           (plain_token sym_comment_content (codes " to do"))
           (NL ++ codes "exit")).
  - reflexivity.
  - vm_compute. reflexivity.
  - reflexivity.
Defined.

(** ** A keyword alone in a note *)

Lemma note_keywords_checked :
  forallb
    (fun p =>
       negb (fst p =? sym_identifier)
       && action_eqb (parse_action after_note (fst p))
            (Some (REDUCE sym_comment 1)))
    note_keywords
  = true.
Proof. vm_compute. reflexivity. Qed.

(** In a state of a note a mark set before does not count: the state sets
    its own. *)
Lemma note_result_any :
  forall cur s tok r1 r2,
    in_note s = true ->
    lex_run ts_lex EOF_FUEL s cur tok r1 = lex_run ts_lex EOF_FUEL s cur tok r2.
Proof.
  intros [|c cur] s tok r1 r2 Hs.
  - rewrite !lex_run_eof. unfold EOF_FUEL. rewrite !lex_at_eof_step.
    pose proof (ts_lex_note_eof s Hs) as Hc.
    destruct (ts_lex s true 0) as [[[symbol|] step]|]; try discriminate Hc.
    reflexivity.
  - rewrite !lex_run_cons. pose proof (ts_lex_note_step s c Hs) as Hc.
    destruct (ts_lex s false c) as [[[symbol|] step]|]; try discriminate Hc.
    reflexivity.
Qed.

Lemma ts_lex_note_blank :
  forall s c,
    s = note_lex_state \/ s = note_blank_state -> blank c ->
    ts_lex s false c = Some (Some sym_comment_content, ADVANCE note_blank_state).
Proof. intros s c [-> | ->] [-> | ->]; reflexivity. Qed.

Lemma note_blank_in_note : in_note note_blank_state = true.
Proof. vm_compute. reflexivity. Qed.

Lemma note_blanks :
  forall ws more s tok r,
    s = note_lex_state \/ s = note_blank_state ->
    Forall blank ws -> ws <> [] ->
    lex_run ts_lex EOF_FUEL s (ws ++ more) tok r
    = lex_run ts_lex EOF_FUEL note_blank_state more (rev ws ++ tok) None.
Proof.
  induction ws as [|c ws IH]; intros more s tok r Hs Hblank Hne;
    [exfalso; exact (Hne eq_refl)|].
  cbn [app]. rewrite lex_run_cons.
  rewrite (ts_lex_note_blank s c Hs (Forall_inv Hblank)). cbv zeta.
  destruct ws as [|c' ws'].
  - cbn [app rev]. apply note_result_any. exact note_blank_in_note.
  - rewrite (IH more note_blank_state (c :: tok) _ (or_intror eq_refl)
               (Forall_inv_tail Hblank)) by discriminate.
    cbn [rev]. rewrite <- !app_assoc. reflexivity.
Qed.

Ltac compute_lex_case :=
  match goal with
  | |- context [ts_lex ?s ?e ?c] =>
    let v := eval vm_compute in (ts_lex s e c) in
    change (ts_lex s e c) with v
  end.

Ltac lex_word :=
  repeat (rewrite lex_run_cons; compute_lex_case; cbv zeta; cbn [mark_end]).

Ltac lex_word_end :=
  cbn [finish rev]; rewrite <- ?app_assoc; reflexivity.

(** From the start of a note, or after blanks, a keyword before the end of
    the line is read as the keyword. *)
Lemma note_keyword_read :
  forall k word,
    In (k, word) note_keywords ->
    forall s tok rest,
      s = note_lex_state \/ s = note_blank_state ->
      at_line_end rest ->
      lex_run ts_lex EOF_FUEL s (codes word ++ rest) tok None
      = Lexed (k, rev tok ++ codes word, rest).
Proof.
  intros k word Hin s tok rest Hs Hrest. unfold note_keywords in Hin.
  repeat
    (destruct Hin as [E | Hin];
     [ injection E as <- <-;
       match goal with
       | |- context [codes ?w] =>
         let v := eval vm_compute in (codes w) in change (codes w) with v
       end;
       cbn [app];
       destruct Hs as [-> | ->]; unfold note_lex_state, note_blank_state;
       lex_word;
       (destruct Hrest as [-> | [c [more [-> [-> | ->]]]]];
        [ rewrite lex_run_eof; unfold EOF_FUEL; rewrite lex_at_eof_step;
          compute_lex_case; cbv zeta; cbn [mark_end]; lex_word_end
        | rewrite lex_run_cons; compute_lex_case; cbv zeta; cbn [mark_end];
          lex_word_end
        | rewrite lex_run_cons; compute_lex_case; cbv zeta; cbn [mark_end];
          lex_word_end ])
     | ]).
  destruct Hin.
Qed.

(** X16: a keyword that begins a line of a program, when it stands alone
    after [note:] (blanks before it, the end of the line after it), is
    not the text of the note: it is read as the keyword, and on it the
    tables close the note, empty.  So [note: exit] is an empty note and an
    [exit] statement. *)
Theorem X16_keyword_alone_in_note :
  forall k word ws rest,
    In (k, word) note_keywords ->
    Forall blank ws ->
    at_line_end rest ->
    ts_parser_lex after_note (ws ++ codes word ++ rest)
    = Some (plain_token k (ws ++ codes word), rest)
    /\ parse_action after_note k = Some (REDUCE sym_comment 1).
Proof.
  intros k word ws rest Hin Hblank Hrest.
  pose proof (proj1 (forallb_forall _ _) note_keywords_checked _ Hin) as E.
  cbn [fst] in E. apply andb_true_iff in E. destruct E as [Hword Haction].
  apply negb_true_iff in Hword. apply N.eqb_neq in Hword.
  split; [|exact (action_eqb_eq _ _ Haction)].
  unfold ts_parser_lex, run_lex.
  change (ts_lex_modes after_note) with note_lex_state.
  assert (Hrun :
            lex_run ts_lex EOF_FUEL note_lex_state (ws ++ codes word ++ rest)
              [] None
            = Lexed (k, ws ++ codes word, rest)).
  { destruct ws as [|c ws'].
    - exact (note_keyword_read k word Hin note_lex_state [] rest
               (or_introl eq_refl) Hrest).
    - rewrite (note_blanks (c :: ws') (codes word ++ rest) note_lex_state []
                 None (or_introl eq_refl) Hblank) by discriminate.
      rewrite (note_keyword_read k word Hin note_blank_state _ rest
                 (or_intror eq_refl) Hrest).
      rewrite app_nil_r, rev_involutive. reflexivity. }
  rewrite Hrun. rewrite (keyword_or_word_plain _ _ _ _ Hword). reflexivity.
Qed.

Lemma X16_keyword_alone_in_note_witness :
  ts_parser_lex after_note ([32; 32] ++ codes "exit" ++ NL)
  = Some (plain_token sym_exit_statement ([32; 32] ++ codes "exit"), NL)
  /\ parse_action after_note sym_exit_statement
     = Some (REDUCE sym_comment 1).
Proof.
  apply (X16_keyword_alone_in_note sym_exit_statement "exit" [32; 32] NL).
  - do 13 right. left. reflexivity.
  - exact (Forall_cons 32 (or_intror eq_refl)
             (Forall_cons 32 (or_intror eq_refl) (Forall_nil blank))).
  - right. exists 10, []. split; [reflexivity | left; reflexivity].
Defined.

(** ** How operators group *)

(** *** The edges taken *)

Lemma edge_eqb_eq : forall a b, edge_eqb a b = true -> a = b.
Proof.
  intros [[s0 x] s] [[t0 y] t] H. cbn [edge_eqb] in H.
  apply andb_true_iff in H. destruct H as [H H3].
  apply andb_true_iff in H. destruct H as [H1 H2].
  apply N.eqb_eq in H1. apply N.eqb_eq in H2. apply N.eqb_eq in H3.
  subst. reflexivity.
Qed.

Lemma has_edge_in : forall E e, has_edge E e = true -> In e E.
Proof.
  intros E e H. apply existsb_exists in H. destruct H as [e' [Hin He]].
  apply edge_eqb_eq in He. subst e'. exact Hin.
Qed.

Lemma flat_map_pointwise :
  forall (A B : Type) (f g : A -> list B) l,
    (forall x, f x = g x) -> flat_map f l = flat_map g l.
Proof.
  intros A B f g l H. induction l as [|x l IH]; [reflexivity|].
  cbn [flat_map]. rewrite H, IH. reflexivity.
Qed.

Section EdgesSameLookup.

Variable lookup : TSStateId -> TSSymbol -> N.
Hypothesis lookup_ok :
  forall s symbol, lookup s symbol = ts_language_lookup s symbol.

Lemma shift_edges_by_lookup :
  forall s, shift_edges_by lookup s = shift_edges_by ts_language_lookup s.
Proof.
  intros s. unfold shift_edges_by. apply flat_map_pointwise. intros la.
  rewrite (actions_by_lookup _ lookup_ok). reflexivity.
Qed.

Lemma reduce_edges_by_lookup :
  forall E t,
    reduce_edges_by lookup E t = reduce_edges_by ts_language_lookup E t.
Proof.
  intros E t. unfold reduce_edges_by.
  rewrite (state_reductions_by_lookup _ lookup_ok).
  change (state_reductions_by ts_language_lookup t)
    with (state_reductions t).
  apply flat_map_pointwise. intros r. apply map_ext. intros p.
  rewrite (next_state_by_lookup _ lookup_ok). reflexivity.
Qed.

Lemma live_ok_by_lookup :
  forall P E, live_ok_by lookup P E = live_ok P E.
Proof.
  intros P E. unfold live_ok, live_ok_by. f_equal.
  apply forallb_pointwise. intros s. f_equal. unfold live_state_ok_by.
  rewrite shift_edges_by_lookup, reduce_edges_by_lookup. reflexivity.
Qed.

End EdgesSameLookup.

Lemma live_ok_by_rows :
  forall P E,
    (let rows := table_rows in live_ok_by (row_lookup rows) P E) = true ->
    live_ok P E = true.
Proof.
  intros P E H. cbv zeta in H.
  rewrite (live_ok_by_lookup _ row_lookup_rows) in H. exact H.
Qed.

Lemma grouping_checked : live_ok grouping_rule live_edges = true.
Proof. apply live_ok_by_rows. vm_compute. reflexivity. Qed.

(** *** The loop keeps to the edges taken *)

Section Live.

Variable P : NodeRule.
Variable E : list Edge.
Hypothesis checked : live_ok P E = true.

Lemma live_state_entered :
  forall stack,
    stack_live P E stack -> is_entered E (ts_stack_state stack) = true.
Proof.
  intros [|[s t] below] H; unfold is_entered.
  - cbn [ts_stack_state]. rewrite N.eqb_refl. reflexivity.
  - destruct H as [He _]. apply orb_true_iff. right.
    apply existsb_exists. exists (ts_stack_state below, subtree_symbol t, s).
    split; [exact He | apply N.eqb_refl].
Qed.

Lemma live_state_in :
  forall stack, stack_live P E stack -> In (ts_stack_state stack) all_states.
Proof.
  intros [|[s t] below] H.
  - exact start_state_in.
  - destruct H as [He _]. pose proof checked as Hc.
    unfold live_ok, live_ok_by in Hc.
    apply andb_true_iff in Hc. destruct Hc as [Hv _].
    pose proof (proj1 (forallb_forall _ _) Hv _ He) as Hs. cbn [snd] in Hs.
    apply in_all_states. apply N.ltb_lt. exact Hs.
Qed.

Lemma live_state_checked :
  forall stack,
    stack_live P E stack ->
    live_state_ok_by ts_language_lookup P E (ts_stack_state stack) = true.
Proof.
  intros stack H. pose proof checked as Hc.
  unfold live_ok, live_ok_by in Hc.
  apply andb_true_iff in Hc. destruct Hc as [_ Hs].
  pose proof (proj1 (forallb_forall _ _) Hs _ (live_state_in stack H)) as Hc.
  cbv beta in Hc. rewrite (live_state_entered stack H) in Hc. exact Hc.
Qed.

Lemma shift_keeps_live :
  forall stack token next,
    stack_live P E stack ->
    tok_symbol token < TOKEN_COUNT ->
    parse_action (ts_stack_state stack) (tok_symbol token)
    = Some (SHIFT next) ->
    stack_live P E
      ((next, Leaf (tok_symbol token) (tok_text token)) :: stack).
Proof.
  intros stack token next H Hla Hact.
  pose proof (live_state_checked stack H) as Hc.
  unfold live_state_ok_by in Hc. apply andb_true_iff in Hc.
  destruct Hc as [Hshift _].
  cbn [stack_live subtree_symbol tree_ok].
  split; [|split; [reflexivity | exact H]].
  apply has_edge_in. apply (proj1 (forallb_forall _ _) Hshift).
  unfold shift_edges_by. apply in_flat_map. exists (tok_symbol token).
  split; [exact (in_all_tokens _ Hla)|].
  change (find (fun a => negb (is_repetition a))
            (actions_by ts_language_lookup (ts_stack_state stack)
               (tok_symbol token)))
    with (parse_action (ts_stack_state stack) (tok_symbol token)).
  rewrite Hact. left. reflexivity.
Qed.

Lemma stack_live_skipn :
  forall n stack, stack_live P E stack -> stack_live P E (skipn n stack).
Proof.
  induction n as [|n IH]; intros stack H; [exact H|].
  destruct stack as [|[s t] below]; [exact I|].
  cbn [skipn]. apply IH. destruct H as [_ [_ H]]. exact H.
Qed.

Lemma live_children_ok :
  forall n stack,
    stack_live P E stack ->
    forallb (tree_ok P) (rev (map snd (firstn n stack))) = true.
Proof.
  intros n stack H. apply forallb_forall. intros t Hin.
  apply in_rev in Hin. apply in_map_iff in Hin.
  destruct Hin as [e [<- He]]. apply in_firstn in He.
  revert H He. clear. induction stack as [|[s t] below IH]; intros H He.
  - destruct He.
  - destruct H as [_ [Ht H]]. destruct He as [<- | He].
    + exact Ht.
    + exact (IH H He).
Qed.

Lemma back_paths_live :
  forall n stack,
    stack_live P E stack ->
    In (ts_stack_state (skipn n stack),
        map subtree_symbol (rev (map snd (firstn n stack))))
       (back_paths E n (ts_stack_state stack)).
Proof.
  induction n as [|n IH]; intros stack H.
  - left. reflexivity.
  - destruct stack as [|[s t] below].
    + left. reflexivity.
    + cbn [skipn firstn map rev ts_stack_state back_paths].
      apply in_or_app. right. destruct H as [He [_ Hbelow]].
      apply in_flat_map. exists (ts_stack_state below, subtree_symbol t, s).
      split; [exact He|].
      cbv beta iota. rewrite N.eqb_refl. rewrite map_app. cbn [map].
      apply in_map_iff.
      exists (ts_stack_state (skipn n below),
              map subtree_symbol (rev (map snd (firstn n below)))).
      split; [reflexivity | exact (IH below Hbelow)].
Qed.

Lemma reduce_keeps_live :
  forall stack token symbol child_count,
    stack_live P E stack ->
    tok_symbol token < TOKEN_COUNT ->
    parse_action (ts_stack_state stack) (tok_symbol token)
    = Some (REDUCE symbol child_count) ->
    stack_live P E (ts_parser_reduce stack symbol child_count).
Proof.
  intros stack token symbol child_count H Hla Hact.
  pose proof (live_state_checked stack H) as Hc.
  unfold live_state_ok_by in Hc. apply andb_true_iff in Hc.
  destruct Hc as [_ Hred].
  set (n := N.to_nat child_count).
  assert (Hin :
            In ((ts_stack_state (skipn n stack), symbol,
                 ts_language_next_state (ts_stack_state (skipn n stack))
                   symbol),
                map subtree_symbol (rev (map snd (firstn n stack))))
               (reduce_edges_by ts_language_lookup E (ts_stack_state stack))).
  { unfold reduce_edges_by. apply in_flat_map. exists (symbol, child_count).
    split.
    - exact (state_reductions_complete _ _ _ _ (in_all_tokens _ Hla)
               (parse_action_in _ _ _ Hact)).
    - cbn [fst snd]. apply in_map_iff.
      exists (ts_stack_state (skipn n stack),
              map subtree_symbol (rev (map snd (firstn n stack)))).
      split; [reflexivity | exact (back_paths_live n stack H)]. }
  pose proof (proj1 (forallb_forall _ _) Hred _ Hin) as Hp.
  cbn [fst snd] in Hp. apply andb_true_iff in Hp. destruct Hp as [HP He].
  unfold ts_parser_reduce. cbv zeta. fold n.
  cbn [stack_live subtree_symbol tree_ok].
  split; [exact (has_edge_in _ _ He)|]. split.
  - rewrite HP. exact (live_children_ok n stack H).
  - exact (stack_live_skipn n stack H).
Qed.

Lemma parsed_tree_live :
  forall source tree, parses_to source tree -> tree_ok P tree = true.
Proof.
  intros source tree [fuel H].
  destruct (accepted_with
              (fun stack lookahead _ =>
                 stack_live P E stack /\ lookahead_ok lookahead))
    with (fuel := fuel) (stack := @nil (TSStateId * Subtree))
         (lookahead := @None Token) (input := source) (tree := tree)
    as [s [below [token [input [[Hstack _] _]]]]].
  - intros stack input token rest [Hs _] Hlex. split; [exact Hs|].
    exact (ts_parser_lex_token _ _ _ _ (live_state_in stack Hs) Hlex).
  - intros stack token input next [Hs Hla] Hact. split; [|exact I].
    exact (shift_keeps_live stack token next Hs Hla Hact).
  - intros stack token input symbol child_count [Hs Hla] Hact.
    split; [|exact Hla].
    exact (reduce_keeps_live stack token symbol child_count Hs Hla Hact).
  - intros stack token input [Hs _] _ _. split; [exact Hs | reflexivity].
  - split; exact I.
  - exact H.
  - destruct Hstack as [_ [Ht _]]. exact Ht.
Qed.

End Live.

(** X17: binary operators group to the left and a unary operator binds
    tighter than a binary one, in every program: the right operand of a
    [binary_expression] is never a [binary_expression], and neither is
    the operand of a [unary_expression]. *)
Theorem X17_operators_group_left :
  forall source tree,
    parses_to source tree ->
    forall symbol children,
      In (Node symbol children) (subtrees tree) ->
      (symbol = sym_binary_expression ->
       exists l op r,
         children = [l; op; r]
         /\ subtree_symbol r <> sym_binary_expression)
      /\ (symbol = sym_unary_expression ->
          exists op e,
            children = [op; e]
            /\ subtree_symbol e <> sym_binary_expression).
Proof.
  intros source tree Hp symbol children Hin.
  pose proof (tree_ok_subtrees grouping_rule tree
                (parsed_tree_live grouping_rule live_edges grouping_checked
                   source tree Hp) symbol children Hin) as Hrule.
  unfold grouping_rule in Hrule. apply andb_true_iff in Hrule.
  destruct Hrule as [Hbinary Hunary]. split.
  - intros ->. rewrite N.eqb_refl in Hbinary. cbn [negb orb] in Hbinary.
    destruct children as [|l [|op [|r [|x children]]]];
      try discriminate Hbinary.
    exists l, op, r. split; [reflexivity|].
    cbn [map] in Hbinary. apply negb_true_iff in Hbinary.
    apply N.eqb_neq. exact Hbinary.
  - intros ->. rewrite N.eqb_refl in Hunary. cbn [negb orb] in Hunary.
    destruct children as [|op [|e [|x children]]]; try discriminate Hunary.
    exists op, e. split; [reflexivity|].
    cbn [map] in Hunary. apply negb_true_iff in Hunary.
    apply N.eqb_neq. exact Hunary.
Qed.

Lemma X17_operators_group_left_witness :
  exists l op r,
    [ binary anon_sym_PLUS (ident "a") (ident "b");
      Node sym_binary_operator [leaf anon_sym_STAR "*"]; ident "c" ]
    = [l; op; r]
    /\ subtree_symbol r <> sym_binary_expression.
Proof.
  refine (proj1
            (X17_operators_group_left (codes "display a + b * c")
               (Node sym_source_file
                  [display_node
                     (binary anon_sym_STAR
                        (binary anon_sym_PLUS (ident "a") (ident "b"))
                        (ident "c"))])
               _ sym_binary_expression _ _) eq_refl).
  - exists 100%nat. vm_compute. reflexivity.
  - right. right. right. left. reflexivity.
Defined.

(** ** Turns of the loop *)

(** The loop goes on from the configuration a turn gives, and returns
    where there is none. *)
Lemma ts_parser_run_step :
  forall fuel stack lookahead input,
    ts_parser_run (S fuel) stack lookahead input
    = match ts_parser_step (stack, lookahead, input) with
      | Some (stack', lookahead', input') =>
        ts_parser_run fuel stack' lookahead' input'
      | None => ts_parser_run 1 stack lookahead input
      end.
Proof.
  intros fuel stack lookahead input.
  cbn [ts_parser_run ts_parser_step]. destruct lookahead as [token|].
  - destruct (parse_action (ts_stack_state stack) (tok_symbol token))
      as [[next|next|symbol child_count| |]|]; try reflexivity.
    destruct (tok_is_keyword token
              && negb (tok_symbol token =? keyword_capture_token)
              && ts_language_has_actions (ts_stack_state stack)
                   keyword_capture_token); reflexivity.
  - destruct (ts_parser_lex (ts_stack_state stack) input) as [[token rest]|];
      reflexivity.
Qed.

Lemma ts_parser_run_steps :
  forall n stack lookahead input stack' lookahead' input' fuel,
    ts_parser_steps n (stack, lookahead, input)
    = Some (stack', lookahead', input') ->
    ts_parser_run (n + fuel) stack lookahead input
    = ts_parser_run fuel stack' lookahead' input'.
Proof.
  induction n as [|n IH];
    intros stack lookahead input stack' lookahead' input' fuel H.
  - cbn [ts_parser_steps] in H. injection H as <- <- <-. reflexivity.
  - cbn [ts_parser_steps] in H. cbn [Nat.add]. rewrite ts_parser_run_step.
    destruct (ts_parser_step (stack, lookahead, input))
      as [[[stack1 lookahead1] input1]|]; [|discriminate H].
    exact (IH _ _ _ _ _ _ fuel H).
Qed.

Lemma ts_parser_steps_add :
  forall n m c c' c'',
    ts_parser_steps n c = Some c' -> ts_parser_steps m c' = Some c'' ->
    ts_parser_steps (n + m) c = Some c''.
Proof.
  induction n as [|n IH]; intros m c c' c'' H1 H2.
  - cbn [ts_parser_steps] in H1. injection H1 as <-. exact H2.
  - cbn [ts_parser_steps Nat.add] in H1 |- *.
    destruct (ts_parser_step c) as [c1|]; [|discriminate H1].
    exact (IH m c1 c' c'' H1 H2).
Qed.

Lemma reaches_steps :
  forall source n c c',
    reaches source c -> ts_parser_steps n c = Some c' -> reaches source c'.
Proof.
  intros source n c c' [k Hk] H. exists (k + n)%nat.
  exact (ts_parser_steps_add k n _ c c' Hk H).
Qed.

Lemma step_lex :
  forall stack input token rest,
    ts_parser_lex (ts_stack_state stack) input = Some (token, rest) ->
    ts_parser_step (stack, None, input) = Some (stack, Some token, rest).
Proof.
  intros stack input token rest H. cbn [ts_parser_step]. rewrite H.
  reflexivity.
Qed.

Lemma step_shift :
  forall stack token input next,
    parse_action (ts_stack_state stack) (tok_symbol token)
    = Some (SHIFT next) ->
    ts_parser_step (stack, Some token, input)
    = Some ((next, Leaf (tok_symbol token) (tok_text token)) :: stack,
            None, input).
Proof.
  intros stack token input next H. cbn [ts_parser_step]. rewrite H.
  reflexivity.
Qed.

Lemma step_reduce :
  forall stack token input symbol child_count,
    parse_action (ts_stack_state stack) (tok_symbol token)
    = Some (REDUCE symbol child_count) ->
    ts_parser_step (stack, Some token, input)
    = Some (ts_parser_reduce stack symbol child_count, Some token, input).
Proof.
  intros stack token input symbol child_count H. cbn [ts_parser_step].
  rewrite H. reflexivity.
Qed.

(** *** An invariant of the loop holds wherever it comes to stand *)

Section StepInvariant.

Variable Inv : Stack -> option Token -> list N -> Prop.

Hypothesis lex_kept :
  forall stack input token rest,
    Inv stack None input ->
    ts_parser_lex (ts_stack_state stack) input = Some (token, rest) ->
    Inv stack (Some token) rest.

Hypothesis shift_kept :
  forall stack token input next,
    Inv stack (Some token) input ->
    parse_action (ts_stack_state stack) (tok_symbol token)
    = Some (SHIFT next) ->
    Inv ((next, Leaf (tok_symbol token) (tok_text token)) :: stack) None input.

Hypothesis reduce_kept :
  forall stack token input symbol child_count,
    Inv stack (Some token) input ->
    parse_action (ts_stack_state stack) (tok_symbol token)
    = Some (REDUCE symbol child_count) ->
    Inv (ts_parser_reduce stack symbol child_count) (Some token) input.

Hypothesis word_kept :
  forall stack token input,
    Inv stack (Some token) input ->
    parse_action (ts_stack_state stack) (tok_symbol token) = None ->
    tok_is_keyword token = true ->
    Inv stack
      (Some {| tok_symbol := keyword_capture_token;
               tok_text := tok_text token;
               tok_is_keyword := true |}) input.

Lemma step_keeps :
  forall stack lookahead input stack' lookahead' input',
    Inv stack lookahead input ->
    ts_parser_step (stack, lookahead, input)
    = Some (stack', lookahead', input') ->
    Inv stack' lookahead' input'.
Proof.
  intros stack lookahead input stack' lookahead' input' HI H.
  cbn [ts_parser_step] in H. destruct lookahead as [token|].
  - destruct (parse_action (ts_stack_state stack) (tok_symbol token))
      as [[next|next|symbol child_count| |]|] eqn:Eact; try discriminate H.
    + injection H as <- <- <-. exact (shift_kept _ _ _ _ HI Eact).
    + injection H as <- <- <-. exact (reduce_kept _ _ _ _ _ HI Eact).
    + destruct (tok_is_keyword token) eqn:Ek; cbn [andb] in H;
        [|discriminate H].
      destruct (negb (tok_symbol token =? keyword_capture_token)
                && ts_language_has_actions (ts_stack_state stack)
                     keyword_capture_token); [|discriminate H].
      injection H as <- <- <-. exact (word_kept _ _ _ HI Eact Ek).
  - destruct (ts_parser_lex (ts_stack_state stack) input)
      as [[token rest]|] eqn:Elex; [|discriminate H].
    injection H as <- <- <-. exact (lex_kept _ _ _ _ HI Elex).
Qed.

Lemma steps_keep :
  forall n stack lookahead input stack' lookahead' input',
    Inv stack lookahead input ->
    ts_parser_steps n (stack, lookahead, input)
    = Some (stack', lookahead', input') ->
    Inv stack' lookahead' input'.
Proof.
  induction n as [|n IH];
    intros stack lookahead input stack' lookahead' input' HI H.
  - cbn [ts_parser_steps] in H. injection H as <- <- <-. exact HI.
  - cbn [ts_parser_steps] in H.
    destruct (ts_parser_step (stack, lookahead, input))
      as [[[stack1 lookahead1] input1]|] eqn:Estep; [|discriminate H].
    exact (IH _ _ _ _ _ _ (step_keeps _ _ _ _ _ _ HI Estep) H).
Qed.

Lemma reached_with :
  forall source stack lookahead input,
    Inv [] None source ->
    reaches source (stack, lookahead, input) ->
    Inv stack lookahead input.
Proof.
  intros source stack lookahead input HI [n H].
  exact (steps_keep n _ _ _ _ _ _ HI H).
Qed.

End StepInvariant.

(** The stack the loop comes to stand at lies along the edges taken. *)
Lemma reached_live :
  forall P E,
    live_ok P E = true ->
    forall source stack lookahead input,
      reaches source (stack, lookahead, input) ->
      stack_live P E stack.
Proof.
  intros P E checked source stack lookahead input H.
  apply (reached_with
           (fun stack lookahead _ =>
              stack_live P E stack /\ lookahead_ok lookahead))
    with (source := source) (lookahead := lookahead) (input := input);
    [| | | | split; exact I | exact H].
  - intros stack0 input0 token rest [Hs _] Hlex. split; [exact Hs|].
    exact (ts_parser_lex_token _ _ _ _ (live_state_in P E checked stack0 Hs)
             Hlex).
  - intros stack0 token input0 next [Hs Hla] Hact. split; [|exact I].
    exact (shift_keeps_live P E checked stack0 token next Hs Hla Hact).
  - intros stack0 token input0 symbol child_count [Hs Hla] Hact.
    split; [|exact Hla].
    exact (reduce_keeps_live P E checked stack0 token symbol child_count
             Hs Hla Hact).
  - intros stack0 token input0 [Hs _] _ _. split; [exact Hs | reflexivity].
Qed.

(** ** Operator grouping wherever an expression begins (C2) *)

Lemma expression_states_checked :
  filter begins_expression all_states
  = [32; 70; 87; 88; 89; 90; 93; 94; 95; 98; 99; 101; 103; 105; 107; 108;
     109; 111; 112].
Proof. vm_compute. reflexivity. Qed.

(** On the right operand of a binary operator every token with an action
    reduces the [binary_expression], the bracket of an index apart. *)
Lemma operand_reduces_checked :
  forallb
    (fun d =>
       forallb
         (fun la =>
            negb (ts_language_has_actions d la)
            || (la =? anon_sym_LBRACK)
            || action_eqb (parse_action d la)
                 (Some (REDUCE sym_binary_expression 3)))
         all_tokens)
    [4; 21]
  = true.
Proof. vm_compute. reflexivity. Qed.

Lemma operand_reduces :
  forall d la,
    d = 4 \/ d = 21 ->
    la < TOKEN_COUNT ->
    ts_language_has_actions d la = true ->
    la <> anon_sym_LBRACK ->
    parse_action d la = Some (REDUCE sym_binary_expression 3).
Proof.
  intros d la Hd Hla Hact Hne.
  assert (Hin : In d [4; 21]).
  { destruct Hd as [-> | ->]; [left | right; left]; reflexivity. }
  pose proof (proj1 (forallb_forall _ _) operand_reduces_checked d Hin) as E.
  pose proof (proj1 (forallb_forall _ _) E la (in_all_tokens la Hla)) as E'.
  cbv beta in E'. rewrite Hact in E'. apply N.eqb_neq in Hne.
  rewrite Hne in E'. cbn [negb orb] in E'.
  apply action_eqb_eq. exact E'.
Qed.

Lemma operand_lex_state_skips_blanks : skips_blanks 19.
Proof. intros c [-> | ->]; reflexivity. Qed.

Lemma return_lex_state_skips_blanks : skips_blanks 257.
Proof. intros c [-> | ->]; reflexivity. Qed.

(** The turns of the loop over [2 + 3 * 4] from a state in which an
    expression begins. *)
Ltac compute_steps n :=
  match goal with
  | |- ts_parser_run (n + _) ?stack ?lookahead ?input = _ =>
    let r := eval vm_compute in (ts_parser_steps n (stack, lookahead, input)) in
    match r with
    | Some (?stack', ?lookahead', ?input') =>
      rewrite (ts_parser_run_steps n stack lookahead input
                 stack' lookahead' input')
        by (vm_compute; reflexivity)
    end
  end.

Ltac binary_run :=
  let stack := fresh "stack" in
  let before := fresh "before" in
  let rest := fresh "rest" in
  let token := fresh "token" in
  let rest' := fresh "rest'" in
  let fuel := fresh "fuel" in
  let Hs := fresh "Hs" in
  let Hb := fresh "Hb" in
  let Hnum := fresh "Hnum" in
  let Hlex := fresh "Hlex" in
  let Hact := fresh "Hact" in
  let Hne := fresh "Hne" in
  intros stack before rest token rest' fuel Hs Hb Hnum Hlex Hact Hne;
  destruct stack as [|[s0 t0] below]; [discriminate Hs|];
  cbn [ts_stack_state] in Hs; subst s0;
  match goal with
  | |- ts_parser_run _ ((?s, _) :: _) _ _ = _ =>
    let d := eval vm_compute in (operand_state s) in
    change (operand_state s) with d in Hlex, Hact
  end;
  change (15 + fuel)%nat with (S (9 + (1 + (2 + (1 + (1 + fuel))))))%nat;
  match goal with
  | |- ts_parser_run (S ?f) ?stack0 None _ = _ =>
    rewrite (run_lex_step f stack0 (before ++ codes "2 + 3 * 4" ++ rest)
               (plain_token sym_number (codes "2"))
               (codes " + 3 * 4" ++ rest))
      by (rewrite ts_parser_lex_skip_blanks;
          [ vm_compute; reflexivity
          | first [ exact operand_lex_state_skips_blanks
                  | exact return_lex_state_skips_blanks ]
          | exact Hb ])
  end;
  compute_steps 9%nat;
  match goal with
  | |- ts_parser_run (1 + ?f) ?stack10 None _ = ?after =>
    change (ts_parser_run (S f) stack10 None ([32] ++ (codes "4" ++ rest))
            = after);
    rewrite (run_lex_step f stack10 ([32] ++ (codes "4" ++ rest))
               (plain_token sym_number (codes "4")) rest)
      by (rewrite ts_parser_lex_skip_blanks;
          [ refine (proj1 (lex_number _ _ _ _ _ _ Hnum)); reflexivity
          | exact operand_lex_state_skips_blanks
          | apply Forall_cons; [right; reflexivity | apply Forall_nil] ])
  end;
  compute_steps 2%nat;
  match goal with
  | |- ts_parser_run (1 + (1 + ?f)) ?stack13 None _ = ?after =>
    change (ts_parser_run (S (S f)) stack13 None rest = after);
    rewrite (run_lex_step (S f) stack13 rest token rest' Hlex);
    rewrite (run_reduce_step f stack13 token rest' sym_binary_expression 3)
      by (apply operand_reduces;
          [ vm_compute; tauto
          | refine (ts_parser_lex_token _ _ _ _ _ Hlex);
            apply in_all_states; reflexivity
          | exact Hact
          | exact Hne ]);
    f_equal; vm_compute; reflexivity
  end.

Lemma binary_run_from :
  Forall
    (fun s =>
       forall stack before rest token rest' fuel,
         ts_stack_state stack = s ->
         Forall blank before ->
         number_literal (codes "4" ++ rest) = Some (codes "4", rest) ->
         ts_parser_lex (operand_state s) rest = Some (token, rest') ->
         ts_language_has_actions (operand_state s) (tok_symbol token) = true ->
         tok_symbol token <> anon_sym_LBRACK ->
         ts_parser_run (15 + fuel) stack None
           (before ++ codes "2 + 3 * 4" ++ rest)
         = ts_parser_run fuel
             ((after_expression s,
               binary anon_sym_STAR
                 (binary anon_sym_PLUS (num "2") (num "3")) (num "4"))
              :: stack)
             (Some token) rest')
    (filter begins_expression all_states).
Proof.
  rewrite expression_states_checked.
  repeat (apply Forall_cons; [binary_run | ]).
  apply Forall_nil.
Qed.

(** Every state in which an expression begins is the state after one of
    the [expression_openings]. *)
Lemma expression_states_opened :
  forall s,
    In s (filter begins_expression all_states) ->
    In s (map snd expression_openings).
Proof.
  intros s Hin. rewrite expression_states_checked in Hin.
  repeat (destruct Hin as [<- | Hin]; [vm_compute; tauto|]).
  destruct Hin.
Qed.

Ltac opening_reached n :=
  match goal with
  | |- exists stack rest,
         reaches (codes ?text) (stack, None, rest) /\ _ /\ _ =>
    let r := eval vm_compute in (ts_parser_steps n ([], None, codes text)) in
    match r with
    | Some (?stack, None, ?rest) =>
      exists stack, rest;
      split; [exists n; vm_compute; reflexivity|];
      split; [reflexivity|];
      repeat (apply Forall_cons; [right; reflexivity|]); apply Forall_nil
    end
  end.

Lemma openings_reached :
  Forall
    (fun opening =>
       exists stack rest,
         reaches (codes (fst opening)) (stack, None, rest)
         /\ ts_stack_state stack = snd opening
         /\ Forall blank rest)
    expression_openings.
Proof.
  unfold expression_openings.
  repeat (apply Forall_cons;
          [ cbn [fst snd];
            first [ opening_reached 2%nat | opening_reached 4%nat
                  | opening_reached 6%nat | opening_reached 8%nat
                  | opening_reached 10%nat | opening_reached 11%nat
                  | opening_reached 13%nat ]
          | ]).
  apply Forall_nil.
Qed.

(** C2, amended: wherever an expression begins, [2 + 3 * 4] is built as
    [Binary( *, Binary(+, 2, 3), 4)].  From whatever stack whose state is
    one in which an expression is about to be read, the loop reads the
    five tokens and, on the token after them (any the table has an action
    for there, the bracket of an index apart), stands with that tree
    pushed over the stack; these states are the ones the loop is in after
    the [expression_openings]: the expression of each statement, an
    argument, a list element, an index and a parenthesis; in every
    accepted tree the right operand of a binary expression is no binary
    expression; after each statement opening of [expression_positions]
    the program parses so; and every pair of binary operators groups to
    the left: the binary operators form a single level. *)
Theorem C2_binary_operators_one_level :
  (forall stack before rest token rest' fuel,
      ts_stack_state stack < STATE_COUNT ->
      begins_expression (ts_stack_state stack) = true ->
      Forall blank before ->
      number_literal (codes "4" ++ rest) = Some (codes "4", rest) ->
      ts_parser_lex (operand_state (ts_stack_state stack)) rest
      = Some (token, rest') ->
      ts_language_has_actions (operand_state (ts_stack_state stack))
        (tok_symbol token) = true ->
      tok_symbol token <> anon_sym_LBRACK ->
      ts_parser_run (15 + fuel) stack None
        (before ++ codes "2 + 3 * 4" ++ rest)
      = ts_parser_run fuel
          ((after_expression (ts_stack_state stack),
            binary anon_sym_STAR
              (binary anon_sym_PLUS (num "2") (num "3")) (num "4"))
           :: stack)
          (Some token) rest')
  /\ (forall s,
         s < STATE_COUNT -> begins_expression s = true ->
         In s (map snd expression_openings))
  /\ Forall
       (fun opening =>
          exists stack rest,
            reaches (codes (fst opening)) (stack, None, rest)
            /\ ts_stack_state stack = snd opening
            /\ Forall blank rest)
       expression_openings
  /\ (forall source tree,
         parses_to source tree ->
         forall l op r,
           In (Node sym_binary_expression [l; op; r]) (subtrees tree) ->
           subtree_symbol r <> sym_binary_expression)
  /\ Forall
       (fun opening =>
          parses_operand (codes opening ++ codes "2 + 3 * 4")
            (binary anon_sym_STAR (binary anon_sym_PLUS (num "2") (num "3"))
               (num "4")))
       expression_positions
  /\ Forall
       (fun ops =>
          parses_operand (two_operators ops)
            (binary (snd ops) (binary (fst ops) (ident "a") (ident "b"))
               (ident "c")))
       (list_prod binary_operators binary_operators).
Proof.
  assert (Hstates : forall s,
             s < STATE_COUNT -> begins_expression s = true ->
             In s (filter begins_expression all_states)).
  { intros s Hs Hbegin.
    apply (proj2 (filter_In begins_expression s all_states)).
    split; [apply in_all_states; exact Hs | exact Hbegin]. }
  split; [|split; [|split; [|split; [|split]]]].
  - intros stack before rest token rest' fuel Hs Hbegin.
    exact (proj1 (Forall_forall _ _) binary_run_from _
             (Hstates _ Hs Hbegin) stack before rest token rest' fuel
             eq_refl).
  - intros s Hs Hbegin.
    exact (expression_states_opened s (Hstates s Hs Hbegin)).
  - exact openings_reached.
  - intros source tree Hp l op r Hin.
    pose proof (tree_ok_subtrees grouping_rule tree
                  (parsed_tree_live grouping_rule live_edges grouping_checked
                     source tree Hp) sym_binary_expression [l; op; r] Hin)
      as Hrule.
    unfold grouping_rule in Hrule. apply andb_true_iff in Hrule.
    destruct Hrule as [Hbinary _].
    rewrite N.eqb_refl in Hbinary. cbn [negb orb map] in Hbinary.
    apply negb_true_iff in Hbinary. apply N.eqb_neq. exact Hbinary.
  - unfold expression_positions.
    repeat (apply Forall_cons; [ parse_by_computation | ]).
    apply Forall_nil.
  - exact binary_operators_group_left.
Qed.

Lemma C2_binary_operators_one_level_witness :
  ts_parser_run (15 + 3) display_stack None
    ([32] ++ codes "2 + 3 * 4" ++ [])
  = ts_parser_run 3
      ((after_expression (ts_stack_state display_stack),
        binary anon_sym_STAR
          (binary anon_sym_PLUS (num "2") (num "3")) (num "4"))
       :: display_stack)
      (Some (plain_token ts_builtin_sym_end [])) [].
Proof.
  apply (proj1 C2_binary_operators_one_level display_stack [32] []
           (plain_token ts_builtin_sym_end []) [] 3%nat).
  - reflexivity.
  - vm_compute. reflexivity.
  - apply Forall_cons; [right; reflexivity | apply Forall_nil].
  - reflexivity.
  - vm_compute. reflexivity.
  - vm_compute. reflexivity.
  - discriminate.
Defined.

(** ** The [do:] line, wherever a line begins (C10) *)

Lemma steps_cons :
  forall n c c1 c',
    ts_parser_step c = Some c1 -> ts_parser_steps n c1 = Some c' ->
    ts_parser_steps (S n) c = Some c'.
Proof.
  intros n c c1 c' H1 H2. cbn [ts_parser_steps]. rewrite H1. exact H2.
Qed.

(** *** The stack at the start of a line *)

Lemma line_edges_checked : forallb line_edge live_edges = true.
Proof. vm_compute. reflexivity. Qed.

Lemma item_edges_checked : forallb item_edge live_edges = true.
Proof. vm_compute. reflexivity. Qed.

Lemma line_edge_in :
  forall s0 s,
    In (s0, sym__newline, s) live_edges ->
    (s0 = START_STATE /\ s = after_items)
    \/ (s0 = after_items /\ s = after_item).
Proof.
  intros s0 s H.
  pose proof (proj1 (forallb_forall _ _) line_edges_checked _ H) as E.
  unfold line_edge in E. cbn [fst snd] in E.
  rewrite N.eqb_refl in E. cbn [negb orb] in E.
  apply orb_true_iff in E. destruct E as [E | E]; apply edge_eqb_eq in E;
    injection E as -> ->; [left | right]; split; reflexivity.
Qed.

Lemma item_edge_in :
  forall s0 symbol s,
    In (s0, symbol, s) live_edges ->
    s <> START_STATE /\ (s = after_items -> s0 = START_STATE).
Proof.
  intros s0 symbol s H.
  pose proof (proj1 (forallb_forall _ _) item_edges_checked _ H) as E.
  unfold item_edge in E. cbn [fst snd] in E.
  apply andb_true_iff in E. destruct E as [E1 E2]. split.
  - intros ->. rewrite N.eqb_refl in E1. discriminate E1.
  - intros ->. rewrite N.eqb_refl in E2. cbn [negb orb] in E2.
    apply N.eqb_eq. exact E2.
Qed.

Lemma stack_at_start :
  forall P stack,
    stack_live P live_edges stack ->
    ts_stack_state stack = START_STATE -> stack = [].
Proof.
  intros P [|[s t] below] H Hs; [reflexivity|].
  exfalso. destruct H as [He _]. cbn [ts_stack_state] in Hs. subst s.
  exact (proj1 (item_edge_in _ _ _ He) eq_refl).
Qed.

(** At the start of a line the stack is empty, or holds the line end
    alone, or the line end over the one entry of the items read. *)
Lemma line_start_stack :
  forall P stack,
    stack_live P live_edges stack ->
    at_line_start stack ->
    stack = []
    \/ (exists text, stack = [(after_items, Leaf sym__newline text)])
    \/ (exists text t,
           stack = [(after_item, Leaf sym__newline text); (after_items, t)]).
Proof.
  intros P stack H [-> | [s [text [below ->]]]]; [left; reflexivity|].
  right. destruct H as [He [_ Hbelow]]. cbn [subtree_symbol] in He.
  destruct (line_edge_in _ _ He) as [[Hs0 ->] | [Hs0 ->]].
  - left. exists text. rewrite (stack_at_start P below Hbelow Hs0).
    reflexivity.
  - right. destruct below as [|[s1 t] below1]; [discriminate Hs0|].
    cbn [ts_stack_state] in Hs0. subst s1. exists text, t.
    destruct Hbelow as [He1 [_ Hbelow1]].
    rewrite (stack_at_start P below1 Hbelow1
               (proj2 (item_edge_in _ _ _ He1) eq_refl)).
    reflexivity.
Qed.

(** *** Reading the line *)

Lemma do_colon_read :
  forall s before rest,
    s < STATE_COUNT -> statement_position s = true ->
    skips_blanks (ts_lex_modes s) ->
    Forall blank before ->
    ts_parser_lex s (before ++ codes "do:" ++ rest)
    = Some (word anon_sym_do_COLON "do:", rest).
Proof.
  intros s before rest Hs Hpos Hskip Hb.
  rewrite (ts_parser_lex_skip_blanks s before _ Hskip Hb).
  exact (do_colon_in_statement_position s rest Hs Hpos).
Qed.

(** After [do:] the end of the line is read as a token, on which the
    table reduces the [section_marker]. *)
Lemma line_end_after_do :
  forall after tail,
    Forall blank after -> ends_line tail ->
    exists token rest,
      ts_parser_lex 77 (after ++ tail) = Some (token, rest)
      /\ line_end_read tail token rest
      /\ parse_action 77 (tok_symbol token)
         = Some (REDUCE sym_section_marker 1).
Proof.
  intros after tail Ha Htail.
  rewrite (ts_parser_lex_skip_blanks 77 after tail
             statement_lex_state_skips_blanks Ha).
  destruct Htail as [-> | [rest ->]].
  - exists (plain_token ts_builtin_sym_end []), [].
    split; [vm_compute; reflexivity | split].
    + left. repeat split.
    + vm_compute. reflexivity.
  - exists (plain_token sym__newline NL), rest.
    split; [destruct rest; vm_compute; reflexivity | split].
    + right. split; reflexivity.
    + vm_compute. reflexivity.
Qed.

(** The turns over a [do:] line from the stack of a line start. *)
Lemma do_line_steps :
  forall stack before after tail,
    stack = []
    \/ (exists text, stack = [(after_items, Leaf sym__newline text)])
    \/ (exists text t,
           stack = [(after_item, Leaf sym__newline text); (after_items, t)]) ->
    Forall blank before -> Forall blank after -> ends_line tail ->
    exists n below token rest,
      ts_parser_steps n
        (stack, None, before ++ codes "do:" ++ after ++ tail)
      = Some
          ((ts_language_next_state (ts_stack_state below) sym_section_marker,
            Node sym_section_marker [leaf anon_sym_do_COLON "do:"]) :: below,
           Some token, rest)
      /\ (List.length below <= 1)%nat
      /\ line_end_read tail token rest.
Proof.
  intros stack before after tail Hstack Hb Ha Htail.
  destruct (line_end_after_do after tail Ha Htail)
    as [token [rest [Hlex [Hread Hact]]]].
  destruct Hstack as [-> | [[text ->] | [text [t ->]]]].
  - exists 4%nat, [], token, rest. split; [|split; [cbn; lia | exact Hread]].
    eapply steps_cons.
    { apply step_lex. apply do_colon_read;
        [ reflexivity | vm_compute; reflexivity
        | exact statement_lex_state_skips_blanks | exact Hb ]. }
    eapply steps_cons.
    { apply (step_shift _ _ _ 77). vm_compute. reflexivity. }
    eapply steps_cons.
    { apply step_lex. exact Hlex. }
    eapply steps_cons.
    { apply (step_reduce _ _ _ sym_section_marker 1). exact Hact. }
    reflexivity.
  - exists 4%nat, [(after_items, Leaf sym__newline text)], token, rest.
    split; [|split; [cbn; lia | exact Hread]].
    eapply steps_cons.
    { apply step_lex. apply do_colon_read;
        [ reflexivity | vm_compute; reflexivity
        | exact statement_lex_state_skips_blanks | exact Hb ]. }
    eapply steps_cons.
    { apply (step_shift _ _ _ 77). vm_compute. reflexivity. }
    eapply steps_cons.
    { apply step_lex. exact Hlex. }
    eapply steps_cons.
    { apply (step_reduce _ _ _ sym_section_marker 1). exact Hact. }
    reflexivity.
  - exists 5%nat,
      [(after_items,
        Node aux_sym_source_file_repeat1 [t; Leaf sym__newline text])],
      token, rest.
    split; [|split; [cbn; lia | exact Hread]].
    eapply steps_cons.
    { apply step_lex. apply do_colon_read;
        [ reflexivity | vm_compute; reflexivity
        | exact statement_lex_state_skips_blanks | exact Hb ]. }
    eapply steps_cons.
    { apply (step_reduce _ _ _ aux_sym_source_file_repeat1 2).
      vm_compute. reflexivity. }
    eapply steps_cons.
    { apply (step_shift _ _ _ 77). vm_compute. reflexivity. }
    eapply steps_cons.
    { apply step_lex. exact Hlex. }
    eapply steps_cons.
    { apply (step_reduce _ _ _ sym_section_marker 1). exact Hact. }
    reflexivity.
Qed.

(** *** The node of a [do:] *)

Lemma do_in_marker_checked : forallb do_in_marker_only productions = true.
Proof. vm_compute. reflexivity. Qed.

Lemma fits_length :
  forall pattern symbols,
    fits pattern symbols = true -> List.length symbols = List.length pattern.
Proof.
  induction pattern as [|set pattern IH]; intros [|c symbols] H;
    try discriminate H; [reflexivity|].
  cbn [fits] in H. apply andb_true_iff in H. destruct H as [_ H].
  cbn [List.length]. f_equal. exact (IH symbols H).
Qed.

Lemma top_level_parent :
  forall source tree,
    parses_to source tree ->
    forall symbol children c,
      In (Node symbol children) (subtrees tree) ->
      In c children ->
      In (subtree_symbol c) top_level_symbols ->
      symbol = sym_source_file \/ symbol = aux_sym_source_file_repeat1.
Proof.
  intros source tree Hp symbol children c Hin Hc Htop.
  destruct (node_fits source tree Hp symbol children Hin)
    as [pattern [Hprod Hfits]].
  pose proof (proj1 (forallb_forall _ _) top_level_only_checked _ Hprod) as E.
  unfold top_level_only in E. cbn [fst snd] in E.
  apply orb_true_iff in E. destruct E as [E | E].
  - apply one_of_in in E.
    destruct E as [E | [E | []]]; [left | right]; symmetry; exact E.
  - exfalso.
    destruct (fits_in pattern _ (subtree_symbol c) Hfits (in_map _ _ _ Hc))
      as [Hhidden | [set [Hset Hcs]]].
    { rewrite (built_symbols source tree c Hp
                 (subtrees_child tree symbol children c Hin Hc)) in Hhidden.
      discriminate Hhidden. }
    pose proof (proj1 (forallb_forall _ _) E set Hset) as E'.
    cbv beta in E'. apply negb_true_iff in E'.
    assert (He : existsb (one_of top_level_symbols) set = true).
    { apply existsb_exists. exists (subtree_symbol c). split; [exact Hcs|].
      unfold one_of. apply existsb_exists. exists (subtree_symbol c).
      split; [exact Htop | apply N.eqb_refl]. }
    rewrite He in E'. discriminate E'.
Qed.

Lemma do_parent :
  forall source tree,
    parses_to source tree ->
    forall symbol children c,
      In (Node symbol children) (subtrees tree) ->
      In c children ->
      subtree_symbol c = anon_sym_do_COLON ->
      symbol = sym_section_marker /\ children = [c].
Proof.
  intros source tree Hp symbol children c Hin Hc Hdo.
  destruct (node_fits source tree Hp symbol children Hin)
    as [pattern [Hprod Hfits]].
  pose proof (proj1 (forallb_forall _ _) do_in_marker_checked _ Hprod) as E.
  unfold do_in_marker_only in E. cbn [fst snd] in E.
  destruct (fits_in pattern _ (subtree_symbol c) Hfits (in_map _ _ _ Hc))
    as [Hhidden | [set [Hset Hcs]]].
  { rewrite Hdo in Hhidden. discriminate Hhidden. }
  assert (He : existsb (fun set => one_of set anon_sym_do_COLON) pattern
               = true).
  { apply existsb_exists. exists set. split; [exact Hset|].
    unfold one_of. apply existsb_exists. exists anon_sym_do_COLON.
    split; [rewrite <- Hdo; exact Hcs | apply N.eqb_refl]. }
  rewrite He in E. cbn [negb orb] in E. apply andb_true_iff in E.
  destruct E as [Es El]. apply N.eqb_eq in Es. apply Nat.eqb_eq in El.
  split; [exact Es|].
  pose proof (fits_length _ _ Hfits) as Hlen. rewrite length_map, El in Hlen.
  destruct children as [|c1 [|c2 children]]; try discriminate Hlen.
  destruct Hc as [-> | []]. reflexivity.
Qed.

Lemma openers_checked :
  forallb
    (fun s =>
       forallb
         (fun k =>
            Bool.eqb (ts_language_has_actions s anon_sym_do_COLON)
              (ts_language_has_actions s k))
         statement_openers)
    all_states
  = true.
Proof. vm_compute. reflexivity. Qed.

(** C10, as stated, fails: a [do:] line inside a block note is text of
    the note; the source is accepted and its tree holds no
    [section_marker]. *)
Lemma C10_do_line_counterexample :
  ~ (forall before after tree,
        parses_to (before ++ NL ++ codes "do:" ++ NL ++ after) tree ->
        (1 <= count_nodes sym_section_marker tree)%nat).
Proof.
  intros H.
  specialize (H (codes "note block:") (codes "end note")
                (Node sym_source_file
                   [Node sym_block_comment
                      [leaf anon_sym_noteblock_COLON "note block:";
                       Node sym_block_comment_content
                         [Leaf aux_sym_block_comment_content_token1
                            (NL ++ codes "do:" ++ NL)];
                       leaf anon_sym_endnote "end note"]])
                ltac:(exists 100%nat; vm_compute; reflexivity)).
  vm_compute in H. lia.
Qed.

(** C10, amended: wherever a line begins (nothing is read yet, or the
    last token shifted is a line end) a line that holds only [do:],
    blanks around it, is read as the [do:] keyword and reduced to a
    [section_marker] that lies over at most the one entry of the items
    read so far; in every accepted tree a [do:] is the only child of a
    [section_marker] and a [section_marker] is an item of the program;
    [do:] is lexed as the keyword, whatever follows, wherever it has an
    action and no note text is read, and it has one in the states in
    which each of the [statement_openers] has one; and a source that is
    one [do:] line is accepted with one top-level [section_marker]. *)
Theorem C10_do_line :
  (forall source stack before after tail,
      reaches source (stack, None, before ++ codes "do:" ++ after ++ tail) ->
      at_line_start stack ->
      Forall blank before -> Forall blank after -> ends_line tail ->
      exists below token rest,
        reaches source
          ((ts_language_next_state (ts_stack_state below) sym_section_marker,
            Node sym_section_marker [leaf anon_sym_do_COLON "do:"]) :: below,
           Some token, rest)
        /\ (List.length below <= 1)%nat
        /\ line_end_read tail token rest)
  /\ (forall source tree,
         parses_to source tree ->
         forall symbol children c,
           In (Node symbol children) (subtrees tree) ->
           In c children ->
           (subtree_symbol c = anon_sym_do_COLON ->
            symbol = sym_section_marker /\ children = [c])
           /\ (subtree_symbol c = sym_section_marker ->
               symbol = sym_source_file
               \/ symbol = aux_sym_source_file_repeat1))
  /\ (forall s rest,
         s < STATE_COUNT ->
         statement_position s = true ->
         ts_parser_lex s (codes "do:" ++ rest)
         = Some (word anon_sym_do_COLON "do:", rest))
  /\ (forall s k,
         s < STATE_COUNT -> In k statement_openers ->
         ts_language_has_actions s anon_sym_do_COLON
         = ts_language_has_actions s k)
  /\ (forall before after newline,
         Forall blank before -> Forall blank after ->
         exists tree,
           parses_to (do_line before after newline) tree
           /\ top_level tree
              = [Node sym_section_marker [leaf anon_sym_do_COLON "do:"]]).
Proof.
  split; [|split; [|split; [|split]]].
  - intros source stack before after tail Hreach Hstart Hb Ha Htail.
    pose proof (reached_live grouping_rule live_edges grouping_checked
                  source stack None _ Hreach) as Hlive.
    destruct (do_line_steps stack before after tail
                (line_start_stack grouping_rule stack Hlive Hstart)
                Hb Ha Htail)
      as [n [below [token [rest [Hsteps [Hlen Hread]]]]]].
    exists below, token, rest.
    split; [|split; [exact Hlen | exact Hread]].
    exact (reaches_steps source n _ _ Hreach Hsteps).
  - intros source tree Hp symbol children c Hin Hc. split.
    + exact (do_parent source tree Hp symbol children c Hin Hc).
    + intros Hsym.
      apply (top_level_parent source tree Hp symbol children c Hin Hc).
      rewrite Hsym. vm_compute. tauto.
  - exact do_colon_in_statement_position.
  - intros s k Hs Hk.
    pose proof (proj1 (forallb_forall _ _) openers_checked s
                  (in_all_states s Hs)) as E.
    pose proof (proj1 (forallb_forall _ _) E k Hk) as E'.
    apply eqb_prop in E'. exact E'.
  - exact do_line_alone.
Qed.

Lemma C10_do_line_witness :
  exists below token rest,
    reaches (codes "display 1" ++ NL ++ codes "do:" ++ NL)
      ((ts_language_next_state (ts_stack_state below) sym_section_marker,
        Node sym_section_marker [leaf anon_sym_do_COLON "do:"]) :: below,
       Some token, rest)
    /\ (List.length below <= 1)%nat
    /\ line_end_read (NL ++ []) token rest.
Proof.
  apply (proj1 C10_do_line (codes "display 1" ++ NL ++ codes "do:" ++ NL)
           [ (after_item, Leaf sym__newline NL);
             (after_items, display_node (leaf sym_number "1")) ]
           [] [] (NL ++ [])).
  - exists 7%nat. vm_compute. reflexivity.
  - right.
    exists after_item, NL,
      [(after_items, display_node (leaf sym_number "1"))].
    reflexivity.
  - apply Forall_nil.
  - apply Forall_nil.
  - right. exists []. reflexivity.
Defined.

(** ** Carriage returns *)

Lemma cr_checked :
  cases_checked ts_lex lex_states (fun _ => true)
    (cr_case LEX_STATE_COUNT lex_cr_states)
  = true.
Proof. vm_compute. reflexivity. Qed.

Lemma cr_at_eof_checked : cr_checked_at_eof = true.
Proof. vm_compute. reflexivity. Qed.

Lemma carries_cr_rev : forall tok, carries_cr (rev tok) = carries_cr tok.
Proof.
  intros tok. unfold carries_cr.
  destruct (existsb (N.eqb CR) tok) eqn:E.
  - apply existsb_exists in E. destruct E as [c [Hin Hc]].
    apply existsb_exists. exists c. split; [|exact Hc].
    apply in_rev. rewrite rev_involutive. exact Hin.
  - destruct (existsb (N.eqb CR) (rev tok)) eqn:E'; [|reflexivity].
    apply existsb_exists in E'. destruct E' as [c [Hin Hc]].
    apply in_rev in Hin.
    assert (Ht : existsb (N.eqb CR) tok = true)
      by (apply existsb_exists; exists c; split; assumption).
    rewrite Ht in E. discriminate E.
Qed.

Lemma cr_case_high :
  forall bound D s c x,
    128 <= c -> cr_case bound D s c x = cr_case bound D s 128 x.
Proof.
  intros bound D s c x H. unfold cr_case.
  assert (E : (c =? CR) = false) by (apply N.eqb_neq; unfold CR; lia).
  rewrite E. reflexivity.
Qed.

Section CrRun.

Variable lex_fn : TSStateId -> bool -> N -> option lex_case.
Variable eof_fuel : nat.
Variable bound : N.
Variable D : list TSStateId.

Hypothesis cr_step :
  forall s c, s < bound -> cr_case bound D s c (lex_fn s false c) = true.
Hypothesis cr_eof :
  forall s, s < bound -> cr_eof_case bound D s (lex_fn s true 0) = true.

Lemma mark_end_cr :
  forall accept s tok cur result,
    match accept with
    | Some symbol => negb (existsb (N.eqb s) D) || one_of cr_tokens symbol
    | None => true
    end = true ->
    (carries_cr tok = true -> existsb (N.eqb s) D = true) ->
    mark_cr_ok result ->
    mark_cr_ok (mark_end accept tok cur result).
Proof.
  intros [symbol|] s tok cur result Ha Htok Hr; cbn [mark_end mark_cr_ok];
    [|exact Hr].
  unfold token_cr_ok. rewrite carries_cr_rev.
  destruct (carries_cr tok) eqn:E; [|reflexivity].
  rewrite (Htok eq_refl) in Ha. exact Ha.
Qed.

Lemma lex_at_eof_cr :
  forall fuel s tok result m,
    s < bound ->
    (carries_cr tok = true -> existsb (N.eqb s) D = true) ->
    mark_cr_ok result ->
    lex_at_eof lex_fn fuel s tok result = Lexed m ->
    mark_cr_ok (Some m).
Proof.
  induction fuel as [|fuel IH]; intros s tok result m Hs Htok Hr H;
    [discriminate H|].
  rewrite lex_at_eof_step in H. pose proof (cr_eof s Hs) as Hc.
  destruct (lex_fn s true 0) as [[accept step]|]; [|discriminate H].
  cbv zeta in H. cbn [cr_eof_case] in Hc. cbv zeta in Hc.
  apply andb_true_iff in Hc. destruct Hc as [Ha Hstep].
  pose proof (mark_end_cr accept s tok [] result Ha Htok Hr) as Hm.
  assert (Hnext :
            forall next,
              (next <? bound)
              && (negb (existsb (N.eqb s) D) || existsb (N.eqb next) D)
              = true ->
              lex_at_eof lex_fn fuel next tok (mark_end accept tok [] result)
              = Lexed m ->
              mark_cr_ok (Some m)).
  { intros next Hn Hrun. apply andb_true_iff in Hn. destruct Hn as [Hb Hd].
    apply N.ltb_lt in Hb.
    apply (IH next tok (mark_end accept tok [] result) m Hb); [|exact Hm
                                                               |exact Hrun].
    intros E. rewrite (Htok E) in Hd. exact Hd. }
  destruct step as [next|next|].
  - exact (Hnext next Hstep H).
  - exact (Hnext next Hstep H).
  - destruct (mark_end accept tok [] result) as [m'|];
      cbn [finish] in H; [|discriminate H].
    injection H as <-. exact Hm.
Qed.

Lemma lex_run_cr :
  forall cur s tok result m,
    s < bound ->
    (carries_cr tok = true -> existsb (N.eqb s) D = true) ->
    mark_cr_ok result ->
    lex_run lex_fn eof_fuel s cur tok result = Lexed m ->
    mark_cr_ok (Some m).
Proof.
  induction cur as [|c cur IH]; intros s tok result m Hs Htok Hr H.
  - rewrite lex_run_eof in H.
    exact (lex_at_eof_cr _ s tok result m Hs Htok Hr H).
  - rewrite lex_run_cons in H. pose proof (cr_step s c Hs) as Hc.
    destruct (lex_fn s false c) as [[accept step]|]; [|discriminate H].
    cbv zeta in H. cbn [cr_case] in Hc. cbv zeta in Hc.
    apply andb_true_iff in Hc. destruct Hc as [Ha Hstep].
    pose proof (mark_end_cr accept s tok (c :: cur) result Ha Htok Hr) as Hm.
    destruct step as [next|next|].
    + apply andb_true_iff in Hstep. destruct Hstep as [Hb Hd].
      apply N.ltb_lt in Hb.
      apply (IH next (c :: tok) (mark_end accept tok (c :: cur) result) m Hb);
        [|exact Hm|exact H].
      intros E. unfold carries_cr in E. cbn [existsb] in E.
      fold (carries_cr tok) in E.
      destruct (CR =? c) eqn:Ec.
      * apply N.eqb_eq in Ec. subst c. rewrite N.eqb_refl in Hd. exact Hd.
      * cbn [orb] in E. rewrite (Htok E), orb_true_r in Hd. exact Hd.
    + apply N.ltb_lt in Hstep.
      apply (IH next [] (skip_mark (mark_end accept tok (c :: cur) result))
               m Hstep); [| |exact H].
      * intros E. discriminate E.
      * destruct (mark_end accept tok (c :: cur) result) as [[[k t] r]|];
          cbn [skip_mark mark_cr_ok]; [reflexivity | exact I].
    + destruct (mark_end accept tok (c :: cur) result) as [m'|];
        cbn [finish] in H; [|discriminate H].
      injection H as <-. exact Hm.
Qed.

End CrRun.

Lemma ts_lex_cr_step :
  forall s c,
    s < LEX_STATE_COUNT ->
    cr_case LEX_STATE_COUNT lex_cr_states s c (ts_lex s false c) = true.
Proof.
  intros s c Hs.
  exact (all_chars_by_check ts_lex lex_states ts_lex_uniform_above
           ts_lex_uniform_upper_half (cr_case LEX_STATE_COUNT lex_cr_states)
           (fun _ => true) (cr_case_high LEX_STATE_COUNT lex_cr_states)
           cr_checked s c (in_lex_states s Hs) eq_refl).
Qed.

Lemma ts_lex_cr_eof :
  forall s,
    s < LEX_STATE_COUNT ->
    cr_eof_case LEX_STATE_COUNT lex_cr_states s (ts_lex s true 0) = true.
Proof.
  intros s Hs.
  exact (proj1 (forallb_forall _ _) cr_at_eof_checked s (in_lex_states s Hs)).
Qed.

Lemma run_lex_cr :
  forall start input m,
    start < LEX_STATE_COUNT ->
    run_lex start input = Lexed m -> mark_cr_ok (Some m).
Proof.
  intros start input m Hs H.
  apply (lex_run_cr ts_lex EOF_FUEL LEX_STATE_COUNT lex_cr_states
           ts_lex_cr_step ts_lex_cr_eof input start [] None m Hs);
    [|exact I|exact H].
  intros E. discriminate E.
Qed.

Lemma identifier_no_cr :
  forall text, token_cr_ok sym_identifier text = true -> carries_cr text = false.
Proof.
  intros text H. unfold token_cr_ok in H.
  destruct (carries_cr text); [discriminate H | reflexivity].
Qed.

Lemma keyword_or_word_cr :
  forall s symbol text rest0 token rest,
    token_cr_ok symbol text = true ->
    keyword_or_word s (symbol, text, rest0) = (token, rest) ->
    lookahead_cr_ok (Some token).
Proof.
  intros s symbol text rest0 token rest Hok H. unfold keyword_or_word in H.
  assert (Hword :
            lookahead_cr_ok
              (Some {| tok_symbol := symbol; tok_text := text;
                       tok_is_keyword := false |})).
  { split; [exact Hok | intros E; discriminate E]. }
  destruct (symbol =? keyword_capture_token) eqn:Ek;
    [|injection H as <- <-; exact Hword].
  destruct (run_lex_keywords (text ++ rest0))
    as [[[keyword text'] rest']| |];
    [|injection H as <- <-; exact Hword|injection H as <- <-; exact Hword].
  destruct (Nat.eqb (List.length rest') (List.length rest0)
            && ts_language_has_actions s keyword);
    [|injection H as <- <-; exact Hword].
  injection H as <- <-. apply N.eqb_eq in Ek. subst symbol.
  pose proof (identifier_no_cr text Hok) as Hno.
  cbn [lookahead_cr_ok tok_symbol tok_text tok_is_keyword]. split.
  - unfold token_cr_ok. rewrite Hno. reflexivity.
  - intros _. exact Hno.
Qed.

Lemma ts_parser_lex_cr :
  forall s input token rest,
    In s all_states ->
    ts_parser_lex s input = Some (token, rest) ->
    lookahead_cr_ok (Some token).
Proof.
  intros s input token rest Hs H. unfold ts_parser_lex in H.
  pose proof (proj1 (forallb_forall _ _) lex_modes_in_range s Hs) as Hm.
  apply N.ltb_lt in Hm.
  assert (H0 : ts_lex_modes ERROR_STATE < LEX_STATE_COUNT) by reflexivity.
  assert (Hfrom :
            forall start m,
              start < LEX_STATE_COUNT ->
              run_lex start input = Lexed m ->
              keyword_or_word s m = (token, rest) ->
              lookahead_cr_ok (Some token)).
  { intros start [[symbol text] rest0] Hstart Hrun Hkw.
    exact (keyword_or_word_cr s symbol text rest0 token rest
             (run_lex_cr start input _ Hstart Hrun) Hkw). }
  destruct (run_lex (ts_lex_modes s) input) as [m| |] eqn:E1.
  - injection H as H. exact (Hfrom _ m Hm E1 H).
  - destruct (run_lex (ts_lex_modes ERROR_STATE) input) as [m| |] eqn:E2;
      try discriminate H.
    injection H as H. exact (Hfrom _ m H0 E2 H).
  - destruct (run_lex (ts_lex_modes ERROR_STATE) input) as [m| |] eqn:E2;
      try discriminate H.
    injection H as H. exact (Hfrom _ m H0 E2 H).
Qed.

(** *** In a tree *)

Lemma cr_tree_leaves :
  forall t text,
    cr_tree_ok t = true -> In text (leaves t) ->
    exists symbol,
      In (Leaf symbol text) (subtrees t)
      /\ token_cr_ok symbol text = true.
Proof.
  fix IH 1. intros t text Ht Hin. destruct t as [symbol text' | symbol cs].
  - destruct Hin as [<- | []]. exists symbol.
    split; [left; reflexivity | exact Ht].
  - cbn [cr_tree_ok] in Ht. cbn [leaves] in Hin.
    assert (Hcs :
              exists symbol',
                In (Leaf symbol' text) (flat_map subtrees cs)
                /\ token_cr_ok symbol' text = true).
    { revert Ht Hin. induction cs as [|c cs IHcs]; intros Ht Hin;
        [destruct Hin|].
      cbn [forallb] in Ht. apply andb_true_iff in Ht. destruct Ht as [Hc Ht].
      cbn [flat_map] in Hin |- *. apply in_app_or in Hin.
      destruct Hin as [Hin | Hin].
      - destruct (IH c text Hc Hin) as [k [Hk Hok]].
        exists k. split; [apply in_or_app; left; exact Hk | exact Hok].
      - destruct (IHcs Ht Hin) as [k [Hk Hok]].
        exists k. split; [apply in_or_app; right; exact Hk | exact Hok]. }
    destruct Hcs as [k [Hk Hok]]. exists k.
    split; [right; exact Hk | exact Hok].
Qed.

Lemma cr_subtree_ok :
  forall t t',
    cr_tree_ok t = true -> In t' (subtrees t) -> cr_tree_ok t' = true.
Proof.
  fix IH 1. intros t t' Ht Hin. destruct t as [symbol text | symbol cs].
  - destruct Hin as [<- | []]. exact Ht.
  - destruct Hin as [<- | Hin]; [exact Ht|].
    cbn [cr_tree_ok] in Ht. revert Ht Hin.
    induction cs as [|c cs IHcs]; intros Ht Hin; [destruct Hin|].
    cbn [forallb] in Ht. apply andb_true_iff in Ht. destruct Ht as [Hc Ht].
    cbn [flat_map] in Hin. apply in_app_or in Hin.
    destruct Hin as [Hin | Hin].
    + exact (IH c t' Hc Hin).
    + exact (IHcs Ht Hin).
Qed.

Lemma covers_split :
  forall texts source rest c before after,
    covers texts source rest -> source = before ++ c :: after -> ~ blank c ->
    (exists front back head tail,
        In (front ++ c :: back) texts
        /\ before = head ++ front /\ after = back ++ tail)
    \/ In c rest.
Proof.
  induction texts as [|t texts IH]; intros source rest c before after H Hs Hc.
  - cbn [covers] in H. subst rest. right. rewrite Hs.
    apply in_or_app. right. left. reflexivity.
  - cbn [covers] in H. destruct H as [skipped [after0 [Hb [Hs0 Hcov]]]].
    rewrite Hs0 in Hs. apply app_eq_app in Hs.
    destruct Hs as [l [[E1 E2] | [E1 E2]]].
    + destruct l as [|x l].
      * rewrite app_nil_r in E1. cbn [app] in E2. subst before.
        destruct t as [|y t].
        -- cbn [app] in E2.
           destruct (IH after0 rest c [] after Hcov (eq_sym E2) Hc)
             as [[front [back [head [tail [Hin [Hh Ht]]]]]] | Hr];
             [|right; exact Hr].
           left. exists front, back, (skipped ++ head), tail.
           split; [right; exact Hin | split; [|exact Ht]].
           symmetry in Hh. apply app_eq_nil in Hh. destruct Hh as [-> ->].
           rewrite !app_nil_r. reflexivity.
        -- cbn [app] in E2. injection E2 as <- ->.
           left. exists [], t, skipped, after0.
           split; [left; reflexivity | split; [|reflexivity]].
           rewrite app_nil_r. reflexivity.
      * cbn [app] in E2. injection E2 as <- E2. exfalso. apply Hc.
        apply (proj1 (Forall_forall _ _) Hb). rewrite E1.
        apply in_or_app. right. left. reflexivity.
    + apply app_eq_app in E2. destruct E2 as [l' [[E3 E4] | [E3 E4]]].
      * destruct l' as [|x l'].
        -- rewrite app_nil_r in E3. cbn [app] in E4. subst l.
           destruct (IH after0 rest c [] after Hcov (eq_sym E4) Hc)
             as [[front [back [head [tail [Hin [Hh Ht]]]]]] | Hr];
             [|right; exact Hr].
           left. exists front, back, (before ++ head), tail.
           split; [right; exact Hin | split; [|exact Ht]].
           symmetry in Hh. apply app_eq_nil in Hh. destruct Hh as [-> ->].
           rewrite !app_nil_r. reflexivity.
        -- cbn [app] in E4. injection E4 as <- E4.
           left. exists l, l', skipped, after0.
           split; [left; exact E3 | split; assumption].
      * destruct (IH after0 rest c l' after Hcov E4 Hc)
          as [[front [back [head [tail [Hin [Hh Ht]]]]]] | Hr];
          [|right; exact Hr].
        left. exists front, back, (skipped ++ t ++ head), tail.
        split; [right; exact Hin | split; [|exact Ht]].
        rewrite E1, E3, Hh, <- !app_assoc. reflexivity.
Qed.

Section CrOnSource.

Variable source : list N.

Lemma cr_state_lex :
  forall stack input token rest,
    cr_state_ok source stack None input ->
    ts_parser_lex (ts_stack_state stack) input = Some (token, rest) ->
    cr_state_ok source stack (Some token) rest.
Proof.
  intros stack input token rest [Hrun [Htrees _]] Hlex.
  split; [exact (run_state_lex source stack input token rest Hrun Hlex)|].
  split; [exact Htrees|].
  destruct Hrun as [Hstack _].
  exact (ts_parser_lex_cr _ input token rest (stack_state_in _ _ Hstack) Hlex).
Qed.

Lemma cr_state_shift :
  forall stack token input next,
    cr_state_ok source stack (Some token) input ->
    parse_action (ts_stack_state stack) (tok_symbol token)
    = Some (SHIFT next) ->
    cr_state_ok source
      ((next, Leaf (tok_symbol token) (tok_text token)) :: stack) None input.
Proof.
  intros stack token input next [Hrun [Htrees [Htok _]]] Hact.
  split; [exact (run_state_shift source stack token input next Hrun Hact)|].
  split; [|exact I].
  cbn [map snd forallb cr_tree_ok]. rewrite Htok, Htrees. reflexivity.
Qed.

Lemma cr_trees_firstn :
  forall n (stack : Stack),
    forallb cr_tree_ok (map snd stack) = true ->
    forallb cr_tree_ok (rev (map snd (firstn n stack))) = true.
Proof.
  intros n stack H. apply forallb_forall. intros t Hin.
  apply in_rev in Hin. apply in_map_iff in Hin. destruct Hin as [e [<- He]].
  apply (proj1 (forallb_forall _ _) H). apply in_map.
  exact (in_firstn _ _ _ _ He).
Qed.

Lemma cr_trees_skipn :
  forall n (stack : Stack),
    forallb cr_tree_ok (map snd stack) = true ->
    forallb cr_tree_ok (map snd (skipn n stack)) = true.
Proof.
  intros n stack H. apply forallb_forall. intros t Hin.
  apply in_map_iff in Hin. destruct Hin as [e [<- He]].
  apply (proj1 (forallb_forall _ _) H). apply in_map.
  rewrite <- (firstn_skipn n stack). apply in_or_app. right. exact He.
Qed.

Lemma cr_state_reduce :
  forall stack token input symbol child_count,
    cr_state_ok source stack (Some token) input ->
    parse_action (ts_stack_state stack) (tok_symbol token)
    = Some (REDUCE symbol child_count) ->
    cr_state_ok source (ts_parser_reduce stack symbol child_count)
      (Some token) input.
Proof.
  intros stack token input symbol child_count [Hrun [Htrees Htok]] Hact.
  split; [exact (run_state_reduce source stack token input symbol
                   child_count Hrun Hact)|].
  split; [|exact Htok].
  unfold ts_parser_reduce. cbv zeta. cbn [map snd forallb cr_tree_ok].
  rewrite (cr_trees_firstn _ _ Htrees), (cr_trees_skipn _ _ Htrees).
  reflexivity.
Qed.

Lemma cr_state_word :
  forall stack token input,
    cr_state_ok source stack (Some token) input ->
    parse_action (ts_stack_state stack) (tok_symbol token) = None ->
    tok_is_keyword token = true ->
    cr_state_ok source stack
      (Some {| tok_symbol := keyword_capture_token;
               tok_text := tok_text token;
               tok_is_keyword := true |}) input.
Proof.
  intros stack token input [Hrun [Htrees [_ Hkw]]] Hact Ek.
  split; [exact (run_state_word source stack token input Hrun Hact)|].
  split; [exact Htrees|].
  cbn [lookahead_cr_ok tok_symbol tok_text tok_is_keyword].
  pose proof (Hkw Ek) as Hno. split.
  - unfold token_cr_ok. rewrite Hno. reflexivity.
  - intros _. exact Hno.
Qed.

End CrOnSource.

(** X18: every carriage return of an accepted source stands inside the
    text of a leaf that is the text of a string, of a note or of a block
    note, the leaf lying around it in the source; and no other leaf of the
    tree holds one. *)
Theorem X18_carriage_return_in_text_only :
  forall source tree,
    parses_to source tree ->
    (forall before after,
        source = before ++ CR :: after ->
        exists symbol front back,
          In (Leaf symbol (front ++ CR :: back)) (subtrees tree)
          /\ In symbol cr_tokens
          /\ (exists head, before = head ++ front)
          /\ (exists tail, after = back ++ tail))
    /\ (forall symbol text,
           In (Leaf symbol text) (subtrees tree) ->
           In CR text -> In symbol cr_tokens).
Proof.
  intros source tree Hp.
  destruct (accepted_tree source tree Hp) as [_ [_ [rest [Hcov Hrest]]]].
  destruct Hp as [fuel H].
  assert (Hstart : cr_state_ok source [] None source).
  { split; [|split; [reflexivity | exact I]].
    split; [exact I | split; [exact I | split; reflexivity]]. }
  destruct (accepted_with (cr_state_ok source) (cr_state_lex source)
              (cr_state_shift source) (cr_state_reduce source)
              (cr_state_word source) fuel [] None source tree Hstart H)
    as [s [below [token [input [[_ [Htrees _]] _]]]]].
  cbn [map snd forallb] in Htrees. apply andb_true_iff in Htrees.
  destruct Htrees as [Htree _].
  assert (Hnot : ~ blank CR) by (intros [E | E]; discriminate E).
  assert (Hheld : forall symbol text,
             token_cr_ok symbol text = true -> In CR text ->
             In symbol cr_tokens).
  { intros symbol text Hok Hin. unfold token_cr_ok in Hok.
    assert (Hc : carries_cr text = true).
    { apply existsb_exists. exists CR. split; [exact Hin | apply N.eqb_refl]. }
    rewrite Hc in Hok. cbn [negb orb] in Hok. exact (one_of_in _ _ Hok). }
  split.
  - intros before after Hs.
    destruct (covers_split _ _ _ CR before after Hcov Hs Hnot)
      as [[front [back [head [tail [Hin [Hb Ha]]]]]] | Hr].
    + destruct (cr_tree_leaves tree _ Htree Hin) as [symbol [Hleaf Hok]].
      exists symbol, front, back. split; [exact Hleaf | split].
      * apply (Hheld symbol (front ++ CR :: back) Hok).
        apply in_or_app. right. left. reflexivity.
      * split; [exists head; exact Hb | exists tail; exact Ha].
    + exfalso. apply Hnot. exact (proj1 (Forall_forall _ _) Hrest CR Hr).
  - intros symbol text Hleaf Hin.
    apply (Hheld symbol text); [|exact Hin].
    exact (cr_subtree_ok tree (Leaf symbol text) Htree Hleaf).
Qed.

Lemma X18_carriage_return_in_text_only_witness :
  exists symbol front back,
    In (Leaf symbol (front ++ CR :: back))
       (subtrees
          (Node sym_source_file
             [Node aux_sym_source_file_repeat1
                [Node aux_sym_source_file_repeat1
                   [Node aux_sym_source_file_repeat1
                      [Node sym_comment
                         [leaf anon_sym_note_COLON "note:";
                          Leaf sym_comment_content (codes " a" ++ [CR])];
                       Leaf sym__newline NL];
                    Node sym_comment
                      [leaf anon_sym_note_COLON "note:";
                       Leaf sym_comment_content (codes " b" ++ [CR])]];
                 Leaf sym__newline NL]]))
    /\ In symbol cr_tokens
    /\ (exists head, codes "note: a" = head ++ front)
    /\ (exists tail, NL ++ codes "note: b" ++ [CR] ++ NL = back ++ tail).
Proof.
  apply (proj1
           (X18_carriage_return_in_text_only
              (codes "note: a" ++ [CR] ++ NL ++ codes "note: b" ++ [CR]
               ++ NL)
              _ ltac:(exists 100%nat; vm_compute; reflexivity))
           (codes "note: a") (NL ++ codes "note: b" ++ [CR] ++ NL)).
  reflexivity.
Defined.

(** ** The content of a string *)

Lemma blank_content_char :
  forall c, (c =? 9) || (c =? 32) = true -> content_char c = true.
Proof.
  intros c H. apply orb_true_iff in H.
  destruct H as [H | H]; apply N.eqb_eq in H; subst c; reflexivity.
Qed.

Lemma content_text_rev :
  forall tok,
    forallb content_char tok = true -> forallb content_char (rev tok) = true.
Proof.
  intros tok H. apply forallb_forall. intros c Hc. apply in_rev in Hc.
  exact (proj1 (forallb_forall _ _) H c Hc).
Qed.

Lemma rev_not_nil : forall (tok : list N), tok <> [] -> rev tok <> [].
Proof. intros tok H E. apply H. exact (rev_nil_inv tok E). Qed.

(** From the states of the content, the token is a content, up to the
    first character that is none of it. *)
Lemma content_run_to :
  forall cur s tok result,
    s = 442 \/ s = 443 ->
    tok <> [] ->
    forallb content_char tok = true ->
    exists text rest,
      lex_run ts_lex EOF_FUEL s cur tok result
      = Lexed (aux_sym_string_content_token1, text, rest)
      /\ text <> []
      /\ forallb content_char text = true
      /\ match rest with
         | [] => True
         | c :: _ => content_char c = false
         end.
Proof.
  induction cur as [|c cur IH]; intros s tok result Hs Hne Htok.
  - exists (rev tok), [].
    split; [destruct Hs as [-> | ->]; reflexivity|].
    split; [exact (rev_not_nil tok Hne)|].
    split; [exact (content_text_rev tok Htok) | exact I].
  - assert (Hstop :
              content_char c = false ->
              exists text rest,
                Lexed (aux_sym_string_content_token1, rev tok, c :: cur)
                = Lexed (aux_sym_string_content_token1, text, rest)
                /\ text <> []
                /\ forallb content_char text = true
                /\ match rest with
                   | [] => True
                   | c' :: _ => content_char c' = false
                   end).
    { intros Ec. exists (rev tok), (c :: cur). split; [reflexivity|].
      split; [exact (rev_not_nil tok Hne)|].
      split; [exact (content_text_rev tok Htok) | exact Ec]. }
    assert (Hgo :
              forall next,
                next = 442 \/ next = 443 -> content_char c = true ->
                exists text rest,
                  lex_run ts_lex EOF_FUEL next cur (c :: tok)
                    (Some (aux_sym_string_content_token1, rev tok, c :: cur))
                  = Lexed (aux_sym_string_content_token1, text, rest)
                  /\ text <> []
                  /\ forallb content_char text = true
                  /\ match rest with
                     | [] => True
                     | c' :: _ => content_char c' = false
                     end).
    { intros next Hnext Ec. apply IH; [exact Hnext | discriminate|].
      cbn [forallb]. rewrite Ec, Htok. reflexivity. }
    rewrite lex_run_cons. destruct Hs as [-> | ->].
    + rewrite ts_lex_442. unfold ACCEPT_TOKEN. cbv zeta. cbn [mark_end].
      destruct ((c =? 9) || (c =? 32)) eqn:Eb.
      * exact (Hgo 442 (or_introl eq_refl) (blank_content_char c Eb)).
      * fold (content_char c). destruct (content_char c) eqn:Ec.
        -- exact (Hgo 443 (or_intror eq_refl) eq_refl).
        -- exact (Hstop eq_refl).
    + rewrite ts_lex_443. unfold ACCEPT_TOKEN. cbv zeta. cbn [mark_end].
      fold (content_char c). destruct (content_char c) eqn:Ec.
      * exact (Hgo 443 (or_intror eq_refl) eq_refl).
      * exact (Hstop eq_refl).
Qed.

Lemma content_after_backslash :
  forall cur,
    content_outcome (lex_run ts_lex EOF_FUEL 253 cur [BACKSLASH] None).
Proof.
  intros cur. rewrite lex_run_253.
  destruct cur as [|c cur]; [exact I|].
  destruct (is_escape c); [|exact I].
  split; discriminate.
Qed.

Lemma string_state_content :
  forall input,
    content_outcome (run_lex 20 input)
    /\ ((forall m, run_lex 20 input <> Lexed m) ->
        content_outcome (run_lex 0 input)).
Proof.
  intros [|c cur].
  - split; [exact I|]. intros _. split; discriminate.
  - unfold run_lex at 1 2. rewrite !lex_run_cons. rewrite ts_lex_20.
    unfold NO_TOKEN. cbn [mark_end].
    destruct (c =? 34) eqn:E1.
    { split.
      - destruct cur; split; discriminate.
      - intros Hm. exfalso. destruct cur; eapply Hm; reflexivity. }
    destruct (c =? BACKSLASH) eqn:E2.
    { apply N.eqb_eq in E2. subst c. split.
      - apply content_after_backslash.
      - intros _. unfold run_lex. rewrite lex_run_cons.
        rewrite ts_lex_0_backslash. unfold NO_TOKEN. cbn [mark_end].
        apply content_after_backslash. }
    assert (Hfrom :
              forall next,
                next = 442 \/ next = 443 -> content_char c = true ->
                content_outcome (lex_run ts_lex EOF_FUEL next cur [c] None)
                /\ ((forall m,
                        lex_run ts_lex EOF_FUEL next cur [c] None <> Lexed m) ->
                    content_outcome (run_lex 0 (c :: cur)))).
    { intros next Hnext Ec.
      destruct (content_run_to cur next [c] None Hnext) as [text [rest [E Hok]]];
        [discriminate | cbn [forallb]; rewrite Ec; reflexivity|].
      rewrite E. split.
      - split; [discriminate | intros _; exact Hok].
      - intros Hm. exfalso. eapply Hm. reflexivity. }
    destruct ((c =? 9) || (c =? 32)) eqn:E3.
    { exact (Hfrom 442 (or_introl eq_refl) (blank_content_char c E3)). }
    destruct (negb (c =? 0)) eqn:E4.
    { apply (Hfrom 443 (or_intror eq_refl)). unfold content_char.
      rewrite E4, E1, E2. reflexivity. }
    apply negb_false_iff in E4. apply N.eqb_eq in E4. subst c.
    split; [exact I|]. intros _. exact I.
Qed.

(** X19: the content of a string runs up to the next double quote or
    backslash (or character 0, or the end of the input): it is not empty,
    holds none of them, and nothing else ends it, so a string keeps its
    blanks and may run over several lines. *)
Theorem X19_string_content_runs_to_quote :
  forall s input token rest,
    s < STATE_COUNT ->
    string_position s = true ->
    ts_parser_lex s input = Some (token, rest) ->
    tok_symbol token = aux_sym_string_content_token1 ->
    tok_text token <> []
    /\ (forall c,
           In c (tok_text token) -> c <> 0 /\ c <> 34 /\ c <> BACKSLASH)
    /\ (rest = []
        \/ exists c more,
             rest = c :: more /\ (c = 0 \/ c = 34 \/ c = BACKSLASH)).
Proof.
  intros s input token rest Hs Hpos H Hsym.
  pose proof (string_positions s Hs Hpos) as Hmode.
  unfold ts_parser_lex in H. rewrite Hmode in H.
  change (ts_lex_modes ERROR_STATE) with 0 in H.
  assert (Hfrom :
            forall m,
              content_outcome (Lexed m) ->
              keyword_or_word s m = (token, rest) ->
              tok_text token <> []
              /\ forallb content_char (tok_text token) = true
              /\ match rest with
                 | [] => True
                 | c :: _ => content_char c = false
                 end).
  { intros [[symbol text] rest0] [Hid Hok] Hkw.
    rewrite keyword_or_word_plain in Hkw by exact Hid.
    injection Hkw as <- <-. cbn [plain_token tok_symbol tok_text] in *.
    exact (Hok Hsym). }
  assert (Hparts :
            tok_text token <> []
            /\ forallb content_char (tok_text token) = true
            /\ match rest with
               | [] => True
               | c :: _ => content_char c = false
               end).
  { destruct (string_state_content input) as [H20 H0].
    destruct (run_lex 20 input) as [m| |] eqn:E20.
    - injection H as H. exact (Hfrom m H20 H).
    - specialize (H0 ltac:(discriminate)).
      destruct (run_lex 0 input) as [m| |]; try discriminate H.
      injection H as H. exact (Hfrom m H0 H).
    - specialize (H0 ltac:(discriminate)).
      destruct (run_lex 0 input) as [m| |]; try discriminate H.
      injection H as H. exact (Hfrom m H0 H). }
  assert (Hchar :
            forall c,
              content_char c = false -> c = 0 \/ c = 34 \/ c = BACKSLASH).
  { intros c E. unfold content_char in E.
    destruct (c =? 0) eqn:E0; [left; apply N.eqb_eq; exact E0|].
    destruct (c =? 34) eqn:E1; [right; left; apply N.eqb_eq; exact E1|].
    destruct (c =? BACKSLASH) eqn:E2;
      [right; right; apply N.eqb_eq; exact E2 | discriminate E]. }
  destruct Hparts as [Hne [Htext Hrest]]. split; [exact Hne | split].
  - intros c Hc. pose proof (proj1 (forallb_forall _ _) Htext c Hc) as E.
    unfold content_char in E. apply andb_true_iff in E. destruct E as [E E2].
    apply andb_true_iff in E. destruct E as [E0 E1].
    apply negb_true_iff in E0, E1, E2.
    repeat split; apply N.eqb_neq; assumption.
  - destruct rest as [|c more]; [left; reflexivity|].
    right. exists c, more. split; [reflexivity | exact (Hchar c Hrest)].
Qed.

Lemma X19_string_content_runs_to_quote_witness :
  codes "a" ++ NL ++ codes " b" <> []
  /\ (forall c,
         In c (codes "a" ++ NL ++ codes " b") ->
         c <> 0 /\ c <> 34 /\ c <> BACKSLASH)
  /\ ([34] = []
      \/ exists c more,
           [34] = c :: more /\ (c = 0 \/ c = 34 \/ c = BACKSLASH)).
Proof.
  apply (X19_string_content_runs_to_quote 122
           (codes "a" ++ NL ++ codes " b" ++ [34])
           (plain_token aux_sym_string_content_token1
              (codes "a" ++ NL ++ codes " b"))
           [34]).
  - reflexivity.
  - vm_compute. reflexivity.
  - vm_compute. reflexivity.
  - reflexivity.
Defined.

(** ** The error state *)

Lemma recover_in_error_state_checked :
  forallb recover_only_in_error_state all_states = true.
Proof.
  assert (H : (let rows := table_rows in
               forallb (recover_only_in_error_state_by (row_lookup rows))
                 all_states) = true)
    by (vm_compute; reflexivity).
  cbv zeta in H. rewrite <- H.
  apply forallb_pointwise. intros s.
  unfold recover_only_in_error_state, recover_only_in_error_state_by.
  apply forallb_pointwise. intros la. unfold parse_action.
  rewrite (actions_by_lookup _ row_lookup_rows). reflexivity.
Qed.

Lemma recover_checked_at :
  forall s la,
    In s all_states -> la < TOKEN_COUNT ->
    match parse_action s la with
    | Some RECOVER => s =? ERROR_STATE
    | Some _ => negb (s =? ERROR_STATE)
    | None => true
    end = true.
Proof.
  intros s la Hs Hla.
  pose proof (proj1 (forallb_forall _ _) recover_in_error_state_checked s Hs)
    as E.
  exact (proj1 (forallb_forall _ _) E la (in_all_tokens la Hla)).
Qed.

Lemma valid_state_not_error :
  forall s, valid_state s = true -> (s =? ERROR_STATE) = false.
Proof.
  intros s H. unfold valid_state in H. apply andb_true_iff in H.
  destruct H as [H _]. apply N.ltb_lt in H. apply N.eqb_neq.
  unfold ERROR_STATE. lia.
Qed.

(** X21: recovery is asked for in the error state only, and the error
    state is entered by recovery only: every action of state 0 is
    [RECOVER]; a state of the automaton proper (1 to 150) never has that
    action, shifts into such a state only, and accepts on the end of the
    input only. *)
Theorem X21_recovery_in_error_state_only :
  (forall la action,
      la < TOKEN_COUNT ->
      parse_action ERROR_STATE la = Some action -> action = RECOVER)
  /\ (forall s la,
         valid_state s = true -> la < TOKEN_COUNT ->
         parse_action s la <> Some RECOVER
         /\ (forall next,
                parse_action s la = Some (SHIFT next) ->
                valid_state next = true)
         /\ (parse_action s la = Some ACCEPT_INPUT ->
             la = ts_builtin_sym_end)).
Proof.
  split.
  - intros la action Hla H.
    assert (Hs : In ERROR_STATE all_states)
      by (apply in_all_states; reflexivity).
    pose proof (recover_checked_at ERROR_STATE la Hs Hla) as E.
    rewrite H in E. destruct action; try discriminate E. reflexivity.
  - intros s la Hv Hla.
    pose proof (valid_state_in s Hv) as Hs.
    pose proof (recover_checked_at s la Hs Hla) as E.
    split; [|split].
    + intros H. rewrite H, (valid_state_not_error s Hv) in E.
      discriminate E.
    + intros next H. unfold parse_action in H. apply find_some in H.
      exact (shift_valid weight_rule weight_rule_checked s la next Hs Hla
               (proj1 H)).
    + intros H. exact (accept_on_end s la Hs Hla H).
Qed.

Lemma X21_recovery_in_error_state_only_witness :
  parse_action display_complete sym__newline <> Some RECOVER
  /\ (forall next,
         parse_action display_complete sym__newline = Some (SHIFT next) ->
         valid_state next = true)
  /\ (parse_action display_complete sym__newline = Some ACCEPT_INPUT ->
      sym__newline = ts_builtin_sym_end).
Proof.
  apply (proj2 X21_recovery_in_error_state_only display_complete
           sym__newline); reflexivity.
Defined.
